(* ===== verification/_CoqProject ===== *)
-Q . S2P
Prelude.v
Std.v
Reason.v
Types.v
Version.v
Resources.v
Bounded.v
Socket.v
Digest.v
Json.v
JsonArchive.v
Archive.v
Model.v
Codec.v
Authority.v
Dependency.v
Eligibility.v
Planner.v
JsonLaws.v
State.v
JsonCodec.v
Wire.v
Frame.v
Store.v
Journal.v
Durability.v
Reducers.v
Intent.v
Scenario.v
Lifecycle.v
History.v
Runtime.v
Export.v
Server.v
Client.v
Serving.v
Ingest.v
Concurrent.v
Recovery.v
Replay.v
Crash.v
Tool.v
