(* ===== verification/Prelude.v ===== *)
(** * DPU Service Fabric: a verification library

    The fabric places replicas of services on DPUs.  Everything it knows arrives as
    events; a coordinator stages events, flushes them in a deterministic order, writes
    each accepted event to a journal before it applies it, and answers queries.  This
    library models the C++ program under [src/] and [include/dpu/fabric/] as executable
    Rocq definitions, named as in the program, and proves what makes it correct.

    ** The parts of the program and where they are modelled

    Core values.
    - Reason.v: [core/reason.hpp], [core/result.hpp] - every reason code with its value,
      name, band and classification, [Status] and [Result].
    - Types.v, Version.v: [core/types.hpp], [src/core/resources.cpp] - identities, counters,
      checked arithmetic at a width, semantic versions and firmware levels.
    - Resources.v: [core/resources.hpp] - resource vectors and the bounds of a runtime.
    - Bounded.v: [core/bounded.hpp] - the truncation ledger and the counted FIFO.
    - Digest.v: [core/digest.hpp] - streaming SHA-256.
    - Json.v: [core/json.hpp] - JSON values, writer and parser.

    Archives.  One [visit] per struct drives four archives.  A [Codec] (Archive.v) is
    what one [visit] does to them: [BinaryWriter] and [BinaryReader] of
    [core/archive.hpp], and, through JsonArchive.v, [JsonWriter] and [JsonReader].  Its
    laws are classes ([CodecLaws], [CodecExact], [JsonLaws], [JsonFields], [JsonNonNull],
    [JsonDepth]) with an instance per combinator, so that a struct's codec is correct by
    instance resolution: Codec.v, State.v, Frame.v for the binary laws, JsonLaws.v and
    JsonCodec.v for the JSON ones.

    Model and engine.
    - Model.v: [model/*.hpp], [src/model/model.cpp] - a record per struct, a sum for the event body.
    - Authority.v: [engine/authority.hpp] - grants and fence tokens.
    - Dependency.v: [engine/dependency.hpp] - the dependency graph and its order.
    - Eligibility.v: [engine/eligibility.hpp] - may a device host a service.
    - Planner.v: [engine/planner.hpp] - [build_plan].
    - State.v, Reducers.v, Intent.v: [engine/runtime.hpp], [src/engine/runtime.cpp] - the state,
      a reducer per event, reconciliation, [apply_event].  Scenario.v is a concrete run.
    - Runtime.v, Export.v: the same file - staging, flush, submit, checkpoint, close,
      recovery, queries and [export_json].  Concurrent.v is [submit] cut at its locks,
      run by several threads under a schedule.

    Persistence.  Wire.v and Store.v: [persist/store.hpp], [src/persist/store.cpp].  The
    file system is explicit: a [World] holds files, directories, the lock and what the
    next system calls will do; operations that touch it are functions in [IO].  A call
    works or fails after letting some bytes through, and a schedule that never works
    again is a crash.

    Files of theorems only: Lifecycle.v and History.v (what events do to a state over
    time), Ingest.v (what operations do to a running runtime), Journal.v and Durability.v
    (what a store recovers), Recovery.v (what opening a runtime makes of it), Replay.v and
    Crash.v (a replayed journal against the live run that wrote it, and a crash at any
    call).

    Transport.
    - Socket.v: [src/transport/socket.cpp] and the listener of [server.cpp], over a class
      of system calls ([SocketCalls]) and its laws ([SocketLaws]); a small kernel that
      fails on demand is an instance.
    - Frame.v: [transport/frame.hpp] - frames and their payloads.
    - Server.v: [src/transport/server.cpp], [dispatch] and [handle_connection] - one connection
      over a [Peer], which holds the pieces still to be received and how much each
      [::send] takes.
    - Client.v: [src/transport/client.cpp].
    - Serving.v: [src/transport/server.cpp], the rest - the queue, the workers, [stop] and
      [serve] as a transition system over the critical sections of [Impl::mutex].

    The program.  Tool.v: [tools/dpufabric.cpp] - command lines, every command with what it
    prints and its exit code, as a sequence of the operations above on a world with files
    and a network.

    Prelude.v has the tactics, hints and lemmas everything shares; Std.v the parts of the
    C++ standard library the program uses.

    ** What is shown

    - Archives and framings: binary and JSON encodings round trip and accept only
      canonical input ([event_archive_roundtrip], [runtime_state_roundtrip],
      [event_text_roundtrip], [event_document_accepted], [wire_frame_roundtrip]); the JSON
      parser ends and reads back what the writer prints, integers within the range it
      accepts ([parse_json_terminates], [json_text_roundtrip],
      [json_integers_read_back], [export_reads_back]); the streaming hash is the padded one
      ([sha256_padded]).
    - Planning: a device is eligible exactly when the declarative predicate admits it; the
      order exists exactly when there is no cycle; a feasible plan is complete, within its
      limits, never oversubscribes and does not depend on the order of its inputs.
    - Authority: the registry refines a map from device to owner; a token is valid only
      while it is the last one issued.
    - Events: verified means proven; history is append-only; generations never go back; a
      refused event leaves no trace; a lost device keeps nothing.
    - Ingest: what holds of a runtime opened on any store, whatever operations follow
      ([reachable_ingest_ok]); the order of a batch does not matter while the reorder buffer
      has room for it ([submit_ignores_batch_order]); a flush reports every event; a
      delivery that is remembered has no second effect ([redelivery_has_no_effect]).
    - Concurrent submits: under every schedule each event is reported once and none is
      left behind ([interleaved_submits_report_once]), and each delivery is applied at most
      once ([concurrent_submits_apply_once]); alone, the turns of a call are
      [submit] ([submit_is_its_turns]).
    - Durability: after a session that ends at its first failure (refusals for a size bound
      apart) a store is recovered with every acknowledged record ([store_crash_recovery]);
      since the last snapshot the journal tells the state, under any interleaving of submits
      ([journal_tells_state]); a runtime that has written no snapshot and crashes at any
      call is recovered in agreement with what it had acknowledged
      ([crash_recovers_acknowledged]), and behind a snapshot it is not
      ([effects_after_snapshot_are_lost]); recovery fences everything
      ([recovered_runtime_is_fenced]); reading the journal ends within a pass per 48 bytes
      ([read_journal_terminates]); replay is the live flush but for the clock
      ([replay_restores_all_but_clock]).
    - Transport: descriptors are accounted for on every path ([sockets_are_accounted]); a
      connection executes exactly the whole frames of its stream, however it
      is cut ([connection_serves_stream]), and serving it ends unless the peer stays
      connected and silent ([connection_ends]);
      submitting through client and server is one [submit] of the runtime
      ([submit_end_to_end]).
    - The command line tool: an option nobody knows changes nothing
      ([unknown_option_ignored]); verifying a store that cannot be loaded destroys it
      ([verify_erases_refused_store]).
    - Threads: under every interleaving a connection is held in one place
      ([serving_invariant]); nothing is served after a stop; after a stop the threads take
      a bounded number of steps and one of them can act until [serve] returns, unless an
      [accept] that the closed listener did not wake is all that is left
      ([shutdown_completes], [stop_held_up]).

    Several theorems state behaviour the program does not mean to have, and are proved of
    it as it is: [effects_after_snapshot_are_lost], [submit_answers_depend_on_schedule],
    [verify_erases_refused_store], [unknown_option_ignored], [redeploy_duplicates_instance],
    [same_instant_records_are_skipped], [corrupted_length_drops_records],
    [negative_wall_clock_undecodable], [headroom_permille_wraps],
    [late_connection_left_open], [early_shutdown_lost], [stop_held_up].

    ** Bounds and fuel

    Integers are [Z] with their width as a condition, and wrap-around or saturation where
    the program has it.  Recursion that is not structural carries fuel, and a theorem
    says how much is enough: [read_journal] a pass per 48 bytes of the journal, the loops of the JSON parser the characters that are left (the recursion
    on values is on the nesting levels below [kMaxDepth]), the loop of a connection the
    pieces and bytes still to come (a pass takes a piece or a frame of at least 40
    bytes), Kahn's loop in Dependency.v the number of services.  An operation whose result
    the C++ language leaves undefined (dereferencing an empty [rollback_target]) is
    [None].

    ** What is not modelled, and what is assumed

    - [std::sort] on elements its comparison does not separate leaves them in the order
      of the input.
    - The POSIX branches are modelled, the Windows ones are not.  Bytes let through to a
      file stay there: without [fsync] the theorems speak of a process that stops, not of
      a machine that loses power.
    - Socket.v assumes of the system calls what [SocketLaws] says: descriptors that are
      handed out are new, [close] releases its descriptor whatever it returns, and a
      socket keeps the port it is bound to.  Elsewhere a socket is what its calls return,
      and a receive of no bytes is the orderly close.
    - The operations of a runtime are atomic, as its mutex makes them; [submit] is one
      only when no other thread comes between its turns, which is how the models of the
      server and the tool use it, and Concurrent.v is about the rest.  Serving.v does not
      look into the frames a worker serves, and Server.v serves one connection at a time:
      the three are not joined in one transition system.
    - [shutdown_completes] takes from the system that a receive on a socket that is shut
      down returns; that closing the listener makes a blocked [accept] return, as the
      comments of the program say, is not assumed.  Condition variables wake a waiter whenever its
      condition holds: every change that can make it hold is followed by a notify.
    - One thread calls [listen] and [serve].
    - [serve] in Tool.v takes the connections of its world one after another, as a server with one
      worker does; what several workers do to the queue is in Serving.v.
    - Tests, examples and benchmarks. *)

From Stdlib Require Export ZArith Lia.
From Stdlib Require Ascii.
Export (notations) Ascii.
From stdpp Require Export base list strings gmap option decidable numbers sorting.

#[export] Set Default Goal Selector "!".
#[export] Set Warnings "-notation-overridden".

Declare Scope fabric_scope.
Delimit Scope fabric_scope with fabric.

(** ** Record update

    C++ code assigns one field of a struct at a time.  [r <| f := v |>] is the
    record [r] with field [f] replaced.  A record opts in by giving its eta
    expansion as an instance of [Settable]; the setter of a field is found from
    the expansion by replacing the field's projection. *)
Class Settable (R : Type) := eta : R -> R.
Class Setter {R T : Type} (proj : R -> T) := set : T -> R -> R.
Arguments set {R T} proj {Setter} _ _.

Ltac build_setter :=
  lazymatch goal with
  | |- @Setter ?R ?T ?proj =>
    let inst := constr:(_ : Settable R) in
    let e := eval hnf in inst in
    exact (fun (v : T) (r : R) =>
      ltac:(let t := eval cbv beta in (e r) in
            let p := eval pattern (proj r) in t in
            lazymatch p with
            | ?F _ => let u := eval cbv beta in (F v) in exact u
            end))
  end.
#[export] Hint Extern 1 (Setter _) => build_setter : typeclass_instances.

Notation "r <| f := v |>" := (set f v r)
  (at level 1, f at next level, v at level 200, left associativity,
   format "r  <| f  :=  v |>") : fabric_scope.
Open Scope fabric_scope.

(** ** Sizes and machine widths

    [size_t], [std::uint64_t] and the narrower integers are [Z] values; the
    predicates below bound them.  Wrap-around and refusal on overflow are
    written where the code has them. *)
#[local] Open Scope Z_scope.

Definition zlen {A} (l : list A) : Z := Z.of_nat (length l).
Definition slen (s : string) : Z := Z.of_nat (String.length s).

Definition u8_max : Z := 255.
Definition u16_max : Z := 65535.
Definition u32_max : Z := 4294967295.
Definition u64_max : Z := 18446744073709551615.
Definition i64_max : Z := 9223372036854775807.
Definition i64_min : Z := -9223372036854775808.

Definition in_width (max z : Z) : Prop := 0 <= z <= max.
#[export] Instance in_width_dec max z : Decision (in_width max z).
Proof. unfold in_width. apply _. Defined.

Lemma zlen_nil {A} : zlen (@nil A) = 0.
Proof. done. Qed.
Lemma zlen_cons {A} (x : A) l : zlen (x :: l) = 1 + zlen l.
Proof. unfold zlen. cbn [length]. lia. Qed.
Lemma zlen_app {A} (l k : list A) : zlen (l ++ k) = zlen l + zlen k.
Proof. unfold zlen. rewrite length_app. lia. Qed.
Lemma zlen_nonneg {A} (l : list A) : 0 <= zlen l.
Proof. unfold zlen. lia. Qed.

Create HintDb fabric discriminated.
Create Rewrite HintDb fabric.
#[export] Hint Resolve zlen_nonneg : fabric.
#[export] Hint Rewrite @zlen_nil @zlen_cons @zlen_app : fabric.

(** ** Tactics of the development *)

(** Case analysis on every scrutinee of a hypothesis that equates a
    computation with a value, discharging the branches that cannot return it. *)
Ltac split_match H :=
  repeat (match type of H with
          | context [match ?x with _ => _ end] => destruct x eqn:?; try discriminate H
          | context [if ?x then _ else _] => destruct x eqn:?; try discriminate H
          end); simplify_eq.

(** Boolean hypotheses to propositions. *)
Ltac bool_prop :=
  repeat match goal with
  | H : _ && _ = true |- _ => apply andb_true_iff in H as [? ?]
  | H : _ || _ = false |- _ => apply orb_false_iff in H as [? ?]
  | H : negb _ = true |- _ => apply negb_true_iff in H
  | H : negb _ = false |- _ => apply negb_false_iff in H
  | H : bool_decide _ = true |- _ => apply bool_decide_eq_true in H
  | H : bool_decide _ = false |- _ => apply bool_decide_eq_false in H
  | H : Z.ltb _ _ = true |- _ => apply Z.ltb_lt in H
  | H : Z.ltb _ _ = false |- _ => apply Z.ltb_ge in H
  | H : Z.leb _ _ = true |- _ => apply Z.leb_le in H
  | H : Z.leb _ _ = false |- _ => apply Z.leb_gt in H
  | H : Z.eqb _ _ = true |- _ => apply Z.eqb_eq in H
  | H : Z.eqb _ _ = false |- _ => apply Z.eqb_neq in H
  end.

(** ** Strict total orders

    [std::string::operator<] compares bytes; counters and instants compare as
    unsigned integers.  Sorted containers rely on these three laws. *)
Class StrictTotal {A : Type} (lt : A -> A -> bool) : Prop := {
  st_irrefl : forall x, lt x x = false;
  st_trans : forall x y z, lt x y = true -> lt y z = true -> lt x z = true;
  st_total : forall x y, lt x y = false -> lt y x = false -> x = y
}.

Lemma st_asym {A} (lt : A -> A -> bool) `{!StrictTotal lt} x y :
  lt x y = true -> lt y x = false.
Proof.
  intros Hxy. destruct (lt y x) eqn:Hyx; [|done].
  pose proof (st_trans x y x Hxy Hyx) as H. by rewrite st_irrefl in H.
Qed.

(** [not (y < x)] is transitive. *)
Lemma st_le_trans {A} (lt : A -> A -> bool) `{!StrictTotal lt} x y z :
  lt y x = false -> lt z y = false -> lt z x = false.
Proof.
  intros Hyx Hzy. destruct (lt z x) eqn:Hzx; [|done].
  destruct (lt x y) eqn:Hxy.
  - by rewrite (st_trans _ _ _ Hzx Hxy) in Hzy.
  - pose proof (st_total _ _ Hxy Hyx) as ->. congruence.
Qed.

Lemma st_le_lt_trans {A} (lt : A -> A -> bool) `{!StrictTotal lt} x y z :
  lt y x = false -> lt y z = true -> lt x z = true.
Proof.
  intros Hyx Hyz. destruct (lt x y) eqn:Hxy.
  - exact (st_trans _ _ _ Hxy Hyz).
  - by rewrite (st_total _ _ Hxy Hyx).
Qed.

#[export] Instance Z_ltb_strict : StrictTotal Z.ltb.
Proof.
  split.
  - apply Z.ltb_irrefl.
  - intros x y z. rewrite !Z.ltb_lt. lia.
  - intros x y. rewrite !Z.ltb_ge. lia.
Qed.

(** Lexicographic comparison of unsigned bytes. *)
Fixpoint str_lt (a b : string) : bool :=
  match a, b with
  | _, EmptyString => false
  | EmptyString, String _ _ => true
  | String x a', String y b' =>
    if (Ascii.N_of_ascii x <? Ascii.N_of_ascii y)%N then true
    else if (Ascii.N_of_ascii y <? Ascii.N_of_ascii x)%N then false
    else str_lt a' b'
  end.

Lemma N_of_ascii_inj x y : Ascii.N_of_ascii x = Ascii.N_of_ascii y -> x = y.
Proof.
  intros H. rewrite <-(Ascii.ascii_N_embedding x), <-(Ascii.ascii_N_embedding y).
  by rewrite H.
Qed.

#[export] Instance str_lt_strict : StrictTotal str_lt.
Proof.
  split.
  - induction x as [|c s IH]; cbn; [done|]. by rewrite N.ltb_irrefl.
  - induction x as [|c s IH]; intros [|d t] [|e u]; cbn; try done.
    destruct (N.ltb_spec (Ascii.N_of_ascii c) (Ascii.N_of_ascii d)),
      (N.ltb_spec (Ascii.N_of_ascii d) (Ascii.N_of_ascii c)),
      (N.ltb_spec (Ascii.N_of_ascii d) (Ascii.N_of_ascii e)),
      (N.ltb_spec (Ascii.N_of_ascii e) (Ascii.N_of_ascii d)),
      (N.ltb_spec (Ascii.N_of_ascii c) (Ascii.N_of_ascii e)),
      (N.ltb_spec (Ascii.N_of_ascii e) (Ascii.N_of_ascii c)); try done; try lia.
    apply IH.
  - induction x as [|c s IH]; intros [|d t]; cbn; try done.
    destruct (N.ltb_spec (Ascii.N_of_ascii c) (Ascii.N_of_ascii d)),
      (N.ltb_spec (Ascii.N_of_ascii d) (Ascii.N_of_ascii c)); try done; try lia.
    intros H1 H2. f_equal; [apply N_of_ascii_inj; lia|by apply IH].
Qed.

Lemma Zeqb_bool_decide (x y : Z) : (x =? y) = bool_decide (x = y).
Proof. case_bool_decide; [by apply Z.eqb_eq|by apply Z.eqb_neq]. Qed.

(** Comparison of the first component, then of the second: the chain
    [if (a.x != b.x) return a.x < b.x; ...] of the program's orderings. *)
Definition lex_lt {A B} `{EqDecision A} (ltA : A -> A -> bool) (ltB : B -> B -> bool)
    (p q : A * B) : bool :=
  if negb (bool_decide (p.1 = q.1)) then ltA p.1 q.1 else ltB p.2 q.2.

#[export] Instance lex_lt_strict {A B} `{EqDecision A} (ltA : A -> A -> bool)
    (ltB : B -> B -> bool) :
  StrictTotal ltA -> StrictTotal ltB -> StrictTotal (lex_lt ltA ltB).
Proof.
  intros SA SB. unfold lex_lt. split.
  - intros [a b]. rewrite bool_decide_true by done. apply st_irrefl.
  - intros [a b] [a' b'] [a'' b'']. cbn [fst snd].
    destruct (decide (a = a')) as [->|Hne]; [rewrite bool_decide_true by done|
      rewrite bool_decide_false by done]; cbn [negb];
      (destruct (decide (a' = a'')) as [->|Hne']; [rewrite bool_decide_true by done|
         rewrite (bool_decide_false (a' = a'')) by done]; cbn [negb]; intros Hxy Hyz).
    + exact (st_trans _ _ _ Hxy Hyz).
    + done.
    + by rewrite bool_decide_false by done.
    + rewrite bool_decide_false; [exact (st_trans _ _ _ Hxy Hyz)|].
      intros ->. by rewrite (st_asym _ _ _ Hxy) in Hyz.
  - intros [a b] [a' b']. cbn [fst snd]. destruct (decide (a = a')) as [->|Hne].
    + rewrite bool_decide_true by done. cbn [negb]. intros Hxy Hyx. f_equal. by apply st_total.
    + rewrite !bool_decide_false by done. cbn [negb]. intros Hxy Hyx. destruct Hne.
      by apply st_total.
Qed.

(** An order of keys pulled back along an injection. *)
Lemma strict_total_inj {A K} (key : A -> K) (lt : K -> K -> bool) `{!StrictTotal lt} :
  Inj eq eq key -> StrictTotal (fun x y => lt (key x) (key y)).
Proof.
  intros Hinj. split.
  - intros x. apply st_irrefl.
  - intros x y z. apply st_trans.
  - intros x y Hxy Hyx. by apply (inj key), st_total.
Qed.

(** ** Bytes of integers *)

(** Bits put above [s] lower ones add up. *)
Lemma lor_shiftl_add a b s :
  0 <= s -> 0 <= a < 2 ^ s -> Z.lor a (Z.shiftl b s) = a + b * 2 ^ s.
Proof.
  intros Hs Ha. rewrite Z.shiftl_mul_pow2 by done.
  assert (H0 : Z.land a (b * 2 ^ s) = 0).
  { apply Z.bits_inj'. intros n Hn. rewrite Z.land_spec, Z.bits_0.
    destruct (decide (n < s)).
    - by rewrite Z.mul_pow2_bits_low, andb_false_r.
    - destruct (decide (a = 0)) as [->|]; [by rewrite Z.bits_0|].
      rewrite Z.bits_above_log2; [done|lia|].
      apply Z.log2_lt_pow2; [lia|]. assert (2 ^ s <= 2 ^ n) by (apply Z.pow_le_mono_r; lia). lia. }
  by rewrite <-Z.lxor_lor, <-Z.add_nocarry_lxor.
Qed.

Lemma land_255_shiftr z s : 0 <= s -> Z.land (Z.shiftr z s) 255 = z / 2 ^ s mod 256.
Proof.
  intros Hs. rewrite Z.shiftr_div_pow2 by done.
  change 255 with (Z.ones 8). by rewrite Z.land_ones.
Qed.
