(* ===== verification/Std.v ===== *)
(** * The parts of the C++ standard library the program relies on

    [std::sort] and [std::stable_sort] are a stable insertion sort: where the
    program's comparison separates all elements the result is the only sorted
    permutation ([sorted_unique]), and where it does not, [std::sort] leaves the
    order of equivalent elements open and the model picks the input order.
    [std::lower_bound] is the halving search of the standard libraries,
    [std::to_string] is decimal rendering, and the character classes are those
    of the C locale. *)

From S2P Require Import Prelude.
#[local] Open Scope Z_scope.

(** ** Sorting *)
Section sorting.
Context {A : Type} (lt : A -> A -> bool).

Fixpoint insert_sorted (x : A) (l : list A) : list A :=
  match l with
  | [] => [x]
  | y :: l' => if lt y x then y :: insert_sorted x l' else x :: l
  end.

Definition std_sort (l : list A) : list A := foldr insert_sorted [] l.

Lemma insert_sorted_perm x l : insert_sorted x l ≡ₚ x :: l.
Proof.
  induction l as [|y l IH]; cbn; [done|]. destruct (lt y x); [|done].
  rewrite IH. constructor.
Qed.

Lemma std_sort_perm l : std_sort l ≡ₚ l.
Proof.
  induction l as [|x l IH]; cbn; [done|]. by rewrite insert_sorted_perm, IH.
Qed.

Lemma std_sort_length l : length (std_sort l) = length l.
Proof. by rewrite std_sort_perm. Qed.

Lemma std_sort_zlen l : zlen (std_sort l) = zlen l.
Proof. unfold zlen. by rewrite std_sort_length. Qed.

Lemma elem_of_std_sort x l : x ∈ std_sort l <-> x ∈ l.
Proof. by rewrite std_sort_perm. Qed.

Lemma Forall_std_sort (P : A -> Prop) l : Forall P (std_sort l) <-> Forall P l.
Proof. by rewrite std_sort_perm. Qed.
End sorting.

Lemma StronglySorted_lookup {A} (R : relation A) l i j x y :
  StronglySorted R l -> l !! i = Some x -> l !! j = Some y -> (i < j)%nat -> R x y.
Proof.
  intros Hl. revert i j. induction Hl as [|z l Hl IH Hz]; intros i j Hx Hy Hij; [done|].
  destruct j as [|j]; [lia|]. destruct i as [|i]; simplify_eq/=.
  - rewrite Forall_forall in Hz. apply Hz. by eapply list_elem_of_lookup_2.
  - apply (IH i j); [done|done|lia].
Qed.

(** Comparison of two elements by a key. *)
Definition lt_by {A K} (key : A -> K) (lt : K -> K -> bool) (x y : A) : bool :=
  lt (key x) (key y).

(** A list in ascending key order: no later element has a smaller key. *)
Definition sorted_by {A K} (key : A -> K) (lt : K -> K -> bool) : list A -> Prop :=
  StronglySorted (fun x y => lt (key y) (key x) = false).

(** A list in strictly ascending key order: keys are also distinct. *)
Definition strictly_by {A K} (key : A -> K) (lt : K -> K -> bool) : list A -> Prop :=
  StronglySorted (fun x y => lt (key x) (key y) = true).

Section sorted.
Context {A K : Type} (key : A -> K) (lt : K -> K -> bool) `{!StrictTotal lt}.

Lemma insert_sorted_sorted x l :
  sorted_by key lt l -> sorted_by key lt (insert_sorted (lt_by key lt) x l).
Proof.
  unfold sorted_by. induction 1 as [|y l Hl IH Hy]; cbn; [repeat constructor|].
  unfold lt_by at 1. destruct (lt (key y) (key x)) eqn:Hyx.
  - constructor; [exact IH|]. rewrite insert_sorted_perm. constructor; [|done].
    by apply st_asym.
  - constructor; [by constructor|]. constructor; [done|].
    eapply Forall_impl; [exact Hy|]. intros z Hz. by eapply st_le_trans.
Qed.

Lemma std_sort_sorted l : sorted_by key lt (std_sort (lt_by key lt) l).
Proof.
  induction l as [|x l IH]; cbn; [constructor|]. by apply insert_sorted_sorted.
Qed.

Lemma strictly_sorted l : strictly_by key lt l -> sorted_by key lt l.
Proof.
  induction 1 as [|x l Hl IH Hx]; constructor; [done|].
  eapply Forall_impl; [exact Hx|]. cbn. intros y. apply st_asym, _.
Qed.

Lemma strictly_NoDup l : strictly_by key lt l -> NoDup (key <$> l).
Proof.
  induction 1 as [|x l Hl IH Hx]; cbn; constructor; [|done].
  rewrite list_elem_of_fmap. intros (y & Heq & Hy).
  rewrite Forall_forall in Hx. specialize (Hx y Hy). rewrite <-Heq, st_irrefl in Hx.
  discriminate.
Qed.

Lemma sorted_NoDup_strictly l :
  sorted_by key lt l -> NoDup (key <$> l) -> strictly_by key lt l.
Proof.
  induction 1 as [|x l Hl IH Hx]; cbn; [constructor|].
  intros [Hnot Hnd]%NoDup_cons. constructor; [by apply IH|].
  rewrite Forall_forall in Hx |- *. intros y Hy.
  destruct (lt (key x) (key y)) eqn:Hxy; [done|]. exfalso. apply Hnot.
  rewrite (st_total _ _ Hxy (Hx y Hy)). by apply list_elem_of_fmap_2.
Qed.

(** A sorted permutation with distinct keys is unique. *)
Lemma sorted_unique l k :
  sorted_by key lt l -> sorted_by key lt k -> NoDup (key <$> l) -> l ≡ₚ k -> l = k.
Proof.
  intros Hl. revert k. induction Hl as [|x l Hl IH Hx]; intros k Hk Hnd Hp.
  - by apply Permutation_nil_l in Hp.
  - destruct Hk as [|y k Hk Hy]; [by apply Permutation_nil_r in Hp|].
    cbn in Hnd. apply NoDup_cons in Hnd as [Hnot Hnd].
    assert (x = y) as ->.
    { assert (Hx' : x ∈ y :: k) by (rewrite <-Hp; left).
      assert (Hy' : y ∈ x :: l) by (rewrite Hp; left).
      apply elem_of_cons in Hx' as [?|Hxk]; [done|].
      apply elem_of_cons in Hy' as [?|Hyl]; [done|].
      rewrite Forall_forall in Hx, Hy.
      exfalso. apply Hnot. rewrite (st_total _ _ (Hy x Hxk) (Hx y Hyl)).
      by apply list_elem_of_fmap_2. }
    f_equal. apply IH; [done|done|]. by apply Permutation_cons_inv in Hp.
Qed.

(** The order in which distinct-key elements arrive is invisible after sorting. *)
Lemma std_sort_perm_eq l k :
  l ≡ₚ k -> NoDup (key <$> l) -> std_sort (lt_by key lt) l = std_sort (lt_by key lt) k.
Proof.
  intros Hp Hnd. apply sorted_unique; [apply std_sort_sorted|apply std_sort_sorted| |].
  - by rewrite std_sort_perm.
  - by rewrite !std_sort_perm.
Qed.

Lemma std_sort_strictly l :
  NoDup (key <$> l) -> strictly_by key lt (std_sort (lt_by key lt) l).
Proof.
  intros Hnd. apply sorted_NoDup_strictly; [apply std_sort_sorted|].
  by rewrite std_sort_perm.
Qed.

Lemma std_sort_id l : strictly_by key lt l -> std_sort (lt_by key lt) l = l.
Proof.
  intros Hl. symmetry. apply sorted_unique.
  - by apply strictly_sorted.
  - apply std_sort_sorted.
  - by apply strictly_NoDup.
  - by rewrite std_sort_perm.
Qed.
End sorted.

(** ** [std::lower_bound]

    [len] elements from [first] remain; the middle one is probed.  The fuel is
    one more than the number of elements, which the halving never exhausts. *)
Section lower_bound.
Context {A : Type} (below : A -> bool).

Fixpoint lower_bound_loop (fuel : nat) (l : list A) (first len : nat) : nat :=
  match fuel, len with
  | O, _ | _, O => first
  | S fuel, _ =>
    let half := Nat.div2 len in
    let mid := (first + half)%nat in
    match l !! mid with
    | Some x => if below x then lower_bound_loop fuel l (S mid) (len - S half)
                else lower_bound_loop fuel l first half
    | None => first
    end
  end.

Definition lower_bound (l : list A) : nat :=
  lower_bound_loop (S (length l)) l 0 (length l).

(** [l] is partitioned at [n]: everything before is below, nothing after is. *)
Definition partitioned_at (l : list A) (n : nat) : Prop :=
  (n <= length l)%nat /\
  forall i x, l !! i = Some x -> below x = bool_decide (i < n)%nat.

Lemma lower_bound_loop_spec fuel l n first len :
  partitioned_at l n -> (len < fuel)%nat -> (first <= n <= first + len)%nat ->
  (first + len <= length l)%nat -> lower_bound_loop fuel l first len = n.
Proof.
  intros Hp. revert first len.
  induction fuel as [|fuel IH]; intros first len Hf Hn Hl; [lia|].
  cbn [lower_bound_loop]. destruct len as [|len]; [lia|].
  set (half := Nat.div2 (S len)).
  assert (Hhalf : (half < S len)%nat) by (apply Nat.lt_div2; lia).
  destruct (lookup_lt_is_Some_2 l (first + half)) as [x Hx]; [lia|].
  rewrite Hx, (proj2 Hp _ _ Hx). case_bool_decide; apply IH; lia.
Qed.

Lemma lower_bound_spec l n : partitioned_at l n -> lower_bound l = n.
Proof. intros Hp. apply lower_bound_loop_spec; [done|lia| |lia]. destruct Hp. lia. Qed.

Lemma lower_bound_loop_le fuel l first len :
  (first + len <= length l)%nat -> (lower_bound_loop fuel l first len <= first + len)%nat.
Proof.
  revert first len. induction fuel as [|fuel IH]; intros first len Hl; [cbn; lia|].
  cbn [lower_bound_loop]. destruct len as [|len]; [lia|].
  set (half := Nat.div2 (S len)).
  assert (Hhalf : (half < S len)%nat) by (apply Nat.lt_div2; lia).
  destruct (l !! _) as [x|]; [|lia]. destruct (below x).
  - etransitivity; [apply IH; lia|]. lia.
  - etransitivity; [apply IH; lia|]. lia.
Qed.

Lemma lower_bound_le l : (lower_bound l <= length l)%nat.
Proof. unfold lower_bound. etransitivity; [by apply lower_bound_loop_le|]. lia. Qed.
End lower_bound.

Section lower_bound_sorted.
Context {A K : Type} (key : A -> K) (lt : K -> K -> bool) `{!StrictTotal lt}.

(** The number of elements whose key is below [k]. *)
Fixpoint rank (k : K) (l : list A) : nat :=
  match l with
  | [] => 0
  | x :: l' => if lt (key x) k then S (rank k l') else 0
  end.

Lemma rank_partitioned k l :
  sorted_by key lt l -> partitioned_at (fun x => lt (key x) k) l (rank k l).
Proof.
  induction 1 as [|x l Hl [Hle IH] Hx]; [by split|]. cbn [rank].
  destruct (lt (key x) k) eqn:Hxk.
  - split; [cbn; lia|]. intros [|i] y; cbn [lookup]; intros Hy.
    + simplify_eq/=. by rewrite Hxk.
    + rewrite (IH i y Hy). apply bool_decide_ext. lia.
  - split; [cbn; lia|]. intros [|i] y Hy; simplify_eq/=; [done|].
    rewrite Forall_forall in Hx. specialize (Hx y (list_elem_of_lookup_2 _ _ _ Hy)).
    by apply (st_le_trans lt k (key x) (key y)).
Qed.

Lemma lower_bound_rank k l :
  sorted_by key lt l -> lower_bound (fun x => lt (key x) k) l = rank k l.
Proof. intros H. by apply lower_bound_spec, rank_partitioned. Qed.

(** Binary search for the element with key [k]: the idiom
    [it == end || !(it->key == k)] of the program. *)
Definition find_sorted `{EqDecision K} (k : K) (l : list A) : option nat :=
  let i := lower_bound (fun x => lt (key x) k) l in
  match l !! i with
  | Some x => if decide (key x = k) then Some i else None
  | None => None
  end.

Lemma find_sorted_Some `{EqDecision K} k l i :
  find_sorted k l = Some i -> exists x, l !! i = Some x /\ key x = k.
Proof.
  unfold find_sorted. destruct (l !! _) as [x|] eqn:Hx; [|done].
  case_decide; intros; simplify_eq. eauto.
Qed.

Lemma find_sorted_None `{EqDecision K} k l :
  sorted_by key lt l -> find_sorted k l = None -> k ∉ key <$> l.
Proof.
  intros Hs. unfold find_sorted. rewrite lower_bound_rank by done.
  pose proof (rank_partitioned k l Hs) as [_ Hp]. intros Hf Hin.
  apply list_elem_of_fmap in Hin as (y & -> & Hy).
  apply list_elem_of_lookup in Hy as [j Hj].
  pose proof (Hp _ _ Hj) as Hjr. rewrite st_irrefl in Hjr.
  symmetry in Hjr. apply bool_decide_eq_false in Hjr.
  destruct (l !! rank (key y) l) as [x|] eqn:Hx.
  - destruct (decide (key x = key y)) as [|Hne]; [done|].
    pose proof (Hp _ _ Hx) as Hxr. rewrite bool_decide_eq_false_2 in Hxr by lia.
    destruct (decide (j = rank (key y) l)) as [->|Hj']; [by simplify_eq|].
    apply Hne, (st_total _ _ Hxr).
    apply (StronglySorted_lookup _ _ _ _ _ _ Hs Hx Hj). lia.
  - apply lookup_ge_None in Hx. apply lookup_lt_Some in Hj. lia.
Qed.

Lemma find_sorted_unique `{EqDecision K} l i x :
  strictly_by key lt l -> l !! i = Some x -> find_sorted (key x) l = Some i.
Proof.
  intros Hs Hx. destruct (find_sorted (key x) l) as [j|] eqn:Hf.
  - apply find_sorted_Some in Hf as (y & Hy & Heq). f_equal.
    eapply (NoDup_lookup (key <$> l)); [by eapply strictly_NoDup| |].
    + rewrite list_lookup_fmap, Hy. cbn. by rewrite Heq.
    + by rewrite list_lookup_fmap, Hx.
  - exfalso. apply (find_sorted_None _ _ (strictly_sorted _ _ _ Hs) Hf).
    apply list_elem_of_fmap_2. by eapply list_elem_of_lookup_2.
Qed.
End lower_bound_sorted.

(** ** Characters of the C locale and decimal text *)
Definition code (c : Ascii.ascii) : Z := Z.of_N (Ascii.N_of_ascii c).
Definition isdigit (c : Ascii.ascii) : bool := (48 <=? code c) && (code c <=? 57).
Definition isalpha (c : Ascii.ascii) : bool :=
  ((65 <=? code c) && (code c <=? 90)) || ((97 <=? code c) && (code c <=? 122)).
Definition isalnum (c : Ascii.ascii) : bool := isalpha c || isdigit c.

(** [std::all_of] over the characters of a string. *)
Fixpoint str_forall (P : Ascii.ascii -> bool) (s : string) : bool :=
  match s with
  | EmptyString => true
  | String c s' => P c && str_forall P s'
  end.

(** The value of a decimal text read after a value [v]: [v * 10 + digit]. *)
Fixpoint dec_value (v : Z) (s : string) : Z :=
  match s with
  | EmptyString => v
  | String c s' => dec_value (v * 10 + (code c - 48)) s'
  end.

Definition digit_char (d : Z) : Ascii.ascii := Ascii.ascii_of_N (Z.to_N (d + 48)).

Fixpoint dec_digits (fuel : nat) (n : Z) (acc : string) : string :=
  match fuel with
  | O => acc
  | S fuel =>
    let acc' := String (digit_char (n mod 10)) acc in
    if n / 10 =? 0 then acc' else dec_digits fuel (n / 10) acc'
  end.

(** [std::to_string]: twenty digits hold every 64-bit value. *)
Definition to_string (z : Z) : string :=
  if z <? 0 then String "-"%char (dec_digits 20 (- z) "") else dec_digits 20 z "".

Lemma code_digit_char d : 0 <= d < 10 -> code (digit_char d) = d + 48.
Proof.
  intros Hd. unfold code, digit_char. rewrite Ascii.N_ascii_embedding; lia.
Qed.

Lemma isdigit_digit_char d : 0 <= d < 10 -> isdigit (digit_char d) = true.
Proof. intros Hd. unfold isdigit. rewrite code_digit_char by done. lia. Qed.

Lemma str_forall_app P a b :
  str_forall P (a +:+ b) = str_forall P a && str_forall P b.
Proof.
  induction a as [|c a IH]; [done|].
  change (String c a +:+ b) with (String c (a +:+ b)). cbn [str_forall].
  by rewrite IH, andb_assoc.
Qed.

Lemma slen_app a b : slen (a +:+ b) = slen a + slen b.
Proof.
  unfold slen. induction a as [|c a IH]; [done|].
  change (String c a +:+ b) with (String c (a +:+ b)). cbn [String.length]. lia.
Qed.

Lemma slen_nonneg s : 0 <= slen s.
Proof. unfold slen. lia. Qed.

Lemma slen_cons c s : slen (String c s) = 1 + slen s.
Proof. unfold slen. cbn [String.length]. lia. Qed.

Lemma dec_digits_value fuel n acc :
  0 <= n < 10 ^ Z.of_nat fuel -> (0 < fuel)%nat ->
  dec_value 0 (dec_digits fuel n acc) = dec_value n acc.
Proof.
  revert n acc. induction fuel as [|fuel IH]; intros n acc Hn Hf; [lia|].
  cbn [dec_digits].
  pose proof (Z.mod_pos_bound n 10 ltac:(lia)) as Hm.
  pose proof (Z.div_mod n 10 ltac:(lia)) as Hdm.
  destruct (Z.eqb_spec (n / 10) 0) as [H0|H0].
  - cbn [dec_value]. rewrite code_digit_char by done. f_equal. lia.
  - assert (0 < n / 10) by (pose proof (Z.div_pos n 10); lia).
    assert (n / 10 < 10 ^ Z.of_nat fuel).
    { apply Z.div_lt_upper_bound; [lia|]. rewrite Nat2Z.inj_succ, Z.pow_succ_r in Hn; lia. }
    rewrite IH; [|lia|destruct fuel; [cbn in *; lia|lia]].
    cbn [dec_value]. rewrite code_digit_char by done. f_equal. lia.
Qed.

Lemma dec_digits_forall fuel n acc :
  0 <= n -> str_forall isdigit (dec_digits fuel n acc) = str_forall isdigit acc.
Proof.
  revert n acc. induction fuel as [|fuel IH]; intros n acc Hn; [done|].
  cbn [dec_digits]. pose proof (Z.mod_pos_bound n 10 ltac:(lia)) as Hm.
  destruct (n / 10 =? 0).
  - cbn [str_forall]. by rewrite isdigit_digit_char.
  - rewrite IH by (apply Z.div_pos; lia). cbn [str_forall]. by rewrite isdigit_digit_char.
Qed.

(** A value below [10 ^ k] has at most [k] digits. *)
Lemma dec_digits_slen fuel k n acc :
  (0 < k)%nat -> 0 <= n < 10 ^ Z.of_nat k ->
  slen (dec_digits fuel n acc) <= Z.of_nat k + slen acc.
Proof.
  revert k n acc. induction fuel as [|fuel IH]; intros k n acc Hk Hn; [cbn; lia|].
  cbn [dec_digits]. destruct (Z.eqb_spec (n / 10) 0) as [H0|H0].
  - rewrite slen_cons. lia.
  - destruct k as [|[|k]]; [lia|cbn in Hn; pose proof (Z.div_small n 10); lia|].
    etransitivity; [apply (IH (S k)); [lia|]|rewrite slen_cons; lia].
    split; [apply Z.div_pos; lia|]. apply Z.div_lt_upper_bound; [lia|].
    rewrite Nat2Z.inj_succ, Z.pow_succ_r in Hn; lia.
Qed.

Lemma dec_digits_nonempty fuel n acc : (0 < fuel)%nat -> dec_digits fuel n acc <> "".
Proof.
  intros Hf. assert (Hgen : forall fuel n acc, acc <> "" -> dec_digits fuel n acc <> "").
  { clear. induction fuel as [|fuel IH]; intros n acc Ha; cbn [dec_digits]; [done|].
    destruct (_ =? 0); [done|by apply IH]. }
  destruct fuel as [|fuel]; [lia|]. cbn [dec_digits]. destruct (_ =? 0); [done|by apply Hgen].
Qed.

Lemma to_string_value z : 0 <= z <= u64_max -> dec_value 0 (to_string z) = z.
Proof.
  intros Hz. unfold to_string. destruct (Z.ltb_spec z 0); [lia|].
  rewrite dec_digits_value; [done| |lia]. unfold u64_max in Hz. cbn. lia.
Qed.

Lemma to_string_digits z : 0 <= z -> str_forall isdigit (to_string z) = true.
Proof.
  intros Hz. unfold to_string. destruct (Z.ltb_spec z 0); [lia|].
  by rewrite dec_digits_forall.
Qed.

Lemma to_string_inj x y :
  0 <= x <= u64_max -> 0 <= y <= u64_max -> to_string x = to_string y -> x = y.
Proof. intros Hx Hy H. by rewrite <-(to_string_value x), <-(to_string_value y), H. Qed.

Example to_string_u64_max : to_string u64_max = "18446744073709551615".
Proof. reflexivity. Qed.
Example to_string_neg : to_string (-70) = "-70".
Proof. reflexivity. Qed.

(** ** Sorted vectors as finite maps

    The vectors the program keeps sorted by a string key stand for maps from the
    key to the element. *)
Lemma StronglySorted_sublist {A} (R : relation A) l k :
  k `sublist_of` l -> StronglySorted R l -> StronglySorted R k.
Proof.
  induction 1 as [|x k l Hkl IH|x k l Hkl IH]; intros Hs; [constructor|..].
  - apply StronglySorted_inv in Hs as [Hs Hx]. constructor; [by apply IH|].
    rewrite Forall_forall in Hx |- *. intros y Hy. by eapply Hx, elem_of_sublist.
  - apply StronglySorted_inv in Hs as [Hs _]. by apply IH.
Qed.

Section keyed.
Context {A K : Type} (key : A -> K) (lt : K -> K -> bool) `{!StrictTotal lt}.

Lemma strictly_keys l k : key <$> l = key <$> k -> strictly_by key lt l -> strictly_by key lt k.
Proof.
  intros Hk Hl. revert k Hk. induction Hl as [|x l Hl IH Hx]; intros [|y k] Hk; try done.
  - constructor.
  - cbn in Hk. injection Hk as Hxy Hk. constructor; [by apply IH|].
    apply (Forall_fmap key (fun z => lt (key x) z = true)) in Hx.
    rewrite Hk in Hx. apply Forall_fmap in Hx. by rewrite <-Hxy.
Qed.

Lemma strictly_sublist l k : k `sublist_of` l -> strictly_by key lt l -> strictly_by key lt k.
Proof. apply StronglySorted_sublist. Qed.

(** Insertion before position [i]. *)
Definition insert_at (i : nat) (x : A) (l : list A) : list A := take i l ++ x :: drop i l.

Lemma insert_at_rank x l :
  insert_at (rank key lt (key x) l) x l = insert_sorted (lt_by key lt) x l.
Proof.
  unfold insert_at. induction l as [|y l IH]; [done|]. cbn [rank insert_sorted]. unfold lt_by at 1.
  destruct (lt (key y) (key x)); [|done]. cbn [take drop app]. by rewrite IH.
Qed.

Lemma insert_at_perm i x l : insert_at i x l ≡ₚ x :: l.
Proof. unfold insert_at. by rewrite <-Permutation_middle, take_drop. Qed.

Lemma insert_at_strictly x l :
  strictly_by key lt l -> key x ∉ key <$> l ->
  strictly_by key lt (insert_at (lower_bound (fun y => lt (key y) (key x)) l) x l).
Proof.
  intros Hl Hx. rewrite (lower_bound_rank key lt) by by apply strictly_sorted.
  rewrite insert_at_rank. apply sorted_NoDup_strictly; [done|..].
  - by apply insert_sorted_sorted, strictly_sorted.
  - rewrite insert_sorted_perm. cbn. constructor; [done|]. by eapply strictly_NoDup.
Qed.
End keyed.

Section as_map.
Context {A : Type} (key : A -> string).

Definition as_map (l : list A) : gmap string A := list_to_map ((fun x => (key x, x)) <$> l).

Lemma as_map_Some l k x :
  NoDup (key <$> l) -> as_map l !! k = Some x <-> x ∈ l /\ key x = k.
Proof.
  intros Hnd. unfold as_map. rewrite <-elem_of_list_to_map.
  - rewrite list_elem_of_fmap. split.
    + by intros (y & [= -> ->] & Hy).
    + intros [Hx <-]. eauto.
  - by rewrite <-list_fmap_compose.
Qed.

Lemma as_map_size l : NoDup (key <$> l) -> Z.of_nat (size (as_map l)) = zlen l.
Proof.
  intros Hnd. unfold zlen. f_equal. induction l as [|x l IH]; [done|].
  cbn [fmap list_fmap] in Hnd. apply NoDup_cons in Hnd as [Hx Hnd].
  change (as_map (x :: l)) with (<[key x := x]> (as_map l)).
  rewrite map_size_insert_None, IH by (done || by apply not_elem_of_list_to_map_1;
    rewrite <-list_fmap_compose). done.
Qed.

(** Two vectors with the same elements are the same map. *)
Lemma as_map_perm l k : NoDup (key <$> l) -> l ≡ₚ k -> as_map l = as_map k.
Proof.
  intros Hnd Hp. apply map_eq. intros i. apply option_eq. intros x.
  rewrite !as_map_Some; [by rewrite Hp|by rewrite <-Hp|done].
Qed.

Lemma as_map_cons x l : as_map (x :: l) = <[key x := x]> (as_map l).
Proof. done. Qed.

Lemma as_map_None l k : as_map l !! k = None <-> k ∉ key <$> l.
Proof.
  unfold as_map. rewrite <-not_elem_of_list_to_map. by rewrite <-list_fmap_compose.
Qed.

(** Binary search is map lookup. *)
Lemma find_sorted_as_map l k :
  strictly_by key str_lt l ->
  (find_sorted key str_lt k l) ≫= (fun i => l !! i) = as_map l !! k.
Proof.
  intros Hs. pose proof (strictly_NoDup key str_lt l Hs) as Hnd.
  destruct (find_sorted key str_lt k l) as [i|] eqn:Hf; cbn.
  - apply find_sorted_Some in Hf as (x & Hx & <-). rewrite Hx. symmetry.
    apply as_map_Some; [done|]. split; [by eapply list_elem_of_lookup_2|done].
  - symmetry. apply as_map_None.
    exact (find_sorted_None key str_lt k l (strictly_sorted _ _ _ Hs) Hf).
Qed.

Lemma as_map_insert l i x :
  NoDup (key <$> l) -> key x ∉ key <$> l -> as_map (insert_at i x l) = <[key x := x]> (as_map l).
Proof.
  intros Hnd Hx. rewrite <-as_map_cons. apply as_map_perm; [|apply insert_at_perm].
  rewrite insert_at_perm. cbn. by constructor.
Qed.

(** Replacing an element by one of the same key. *)
Lemma list_insert_keys (l : list A) i x y : l !! i = Some y -> key x = key y -> key <$> <[i := x]> l = key <$> l.
Proof.
  intros Hy Hk. rewrite list_fmap_insert. apply list_insert_id.
  by rewrite list_lookup_fmap, Hy, Hk.
Qed.

Lemma as_map_update (l : list A) i x y :
  NoDup (key <$> l) -> l !! i = Some y -> key x = key y ->
  as_map (<[i := x]> l) = <[key x := x]> (as_map l).
Proof.
  intros Hnd Hy Hk. pose proof (list_insert_keys l i x y Hy Hk) as Hkeys.
  apply map_eq. intros k. apply option_eq. intros z.
  rewrite as_map_Some by by rewrite Hkeys.
  destruct (decide (k = key x)) as [->|Hne].
  - rewrite lookup_insert_eq. split.
    + intros [Hz Hzk]. apply list_elem_of_lookup in Hz as [j Hj]. f_equal.
      destruct (decide (j = i)) as [->|Hij].
      * rewrite list_lookup_insert_eq in Hj by by eapply lookup_lt_Some. congruence.
      * destruct Hij. eapply (NoDup_lookup _ _ _ (key x) Hnd).
        -- rewrite <-Hkeys, list_lookup_fmap, Hj. cbn. by rewrite Hzk.
        -- rewrite list_lookup_fmap, Hy. cbn. by rewrite Hk.
    + intros [= <-]. split; [|done]. eapply list_elem_of_lookup_2, list_lookup_insert_eq.
      by eapply lookup_lt_Some.
  - rewrite lookup_insert_ne by done. rewrite as_map_Some by done.
    split; intros [Hz Hzk]; (split; [|done]).
    + apply list_elem_of_lookup in Hz as [j Hj].
      destruct (decide (j = i)) as [->|Hij].
      * rewrite list_lookup_insert_eq in Hj by by eapply lookup_lt_Some. congruence.
      * rewrite list_lookup_insert_ne in Hj by done. by eapply list_elem_of_lookup_2.
    + apply list_elem_of_lookup in Hz as [j Hj].
      apply (list_elem_of_lookup_2 _ j). rewrite list_lookup_insert_ne; [done|].
      intros <-. congruence.
Qed.

Lemma as_map_filter (P : A -> Prop) `{!forall x, Decision (P x)} l :
  NoDup (key <$> l) -> as_map (filter P l) = filter (fun p => P p.2) (as_map l).
Proof.
  intros Hnd. apply map_eq. intros k. apply option_eq. intros x.
  rewrite map_lookup_filter_Some. cbn. rewrite (as_map_Some l) by done.
  rewrite (as_map_Some (filter P l)); [rewrite list_elem_of_filter; tauto|].
  eapply sublist_NoDup; [exact Hnd|]. apply fmap_sublist, sublist_filter.
Qed.

Lemma Forall_filter (P Q : A -> Prop) `{!forall x, Decision (Q x)} (l : list A) :
  Forall P l -> Forall P (filter Q l).
Proof.
  rewrite !Forall_forall. intros Hl x [_ Hx]%list_elem_of_filter. by apply Hl.
Qed.

Lemma filter_Forall (P : A -> Prop) `{!forall x, Decision (P x)} (l : list A) :
  Forall P l -> filter P l = l.
Proof. induction 1; [done|]. rewrite filter_cons_True by done. by f_equal. Qed.

Lemma filter_Forall_none (P : A -> Prop) `{!forall x, Decision (P x)} (l : list A) :
  Forall (fun x => ~ P x) l -> filter P l = [].
Proof. induction 1; [done|]. by rewrite filter_cons_False. Qed.

(** Erasing the element at a position. *)
Lemma list_delete_filter (l : list A) i y :
  NoDup (key <$> l) -> l !! i = Some y -> delete i l = filter (fun x => key x <> key y) l.
Proof.
  revert i. induction l as [|x l IH]; intros [|i] Hnd Hy; try done; cbn in Hy.
  - simplify_eq. cbn [fmap list_fmap] in Hnd. apply NoDup_cons in Hnd as [Hnot Hnd].
    rewrite filter_cons_False by auto. symmetry. cbn.
    apply filter_Forall, Forall_forall. intros z Hz Heq. apply Hnot. rewrite <-Heq.
    by apply list_elem_of_fmap_2.
  - cbn [fmap list_fmap] in Hnd. apply NoDup_cons in Hnd as [Hnot Hnd].
    rewrite filter_cons_True; [cbn; f_equal; by apply IH|].
    intros Heq. apply Hnot. rewrite Heq. apply list_elem_of_fmap_2. by eapply list_elem_of_lookup_2.
Qed.
End as_map.

Lemma filter_unique {A} (key : A -> string) (l : list A) g k :
  NoDup (key <$> l) -> g ∈ l -> key g = k -> filter (fun x => key x = k) l = [g].
Proof.
  intros Hnd Hin <-. induction l as [|x l IH]; [by apply elem_of_nil in Hin|].
  cbn in Hnd. apply NoDup_cons in Hnd as [Hnot Hnd]. apply elem_of_cons in Hin as [<-|Hin].
  - rewrite filter_cons_True by done. f_equal. apply filter_Forall_none, Forall_forall.
    intros y Hy Heq. apply Hnot. rewrite <-Heq. by apply list_elem_of_fmap_2.
  - rewrite filter_cons_False; [by apply IH|]. intros Heq. apply Hnot. rewrite Heq.
    by apply list_elem_of_fmap_2.
Qed.

(** ** Texts *)
Lemma string_app_cons c (a b : string) : String c a +:+ b = String c (a +:+ b).
Proof. done. Qed.
Lemma string_app_assoc (a b c : string) : (a +:+ b) +:+ c = a +:+ b +:+ c.
Proof. induction a as [|d a IH]; [done|]. by rewrite !string_app_cons, IH. Qed.
Lemma string_app_nil (a : string) : "" +:+ a = a.
Proof. done. Qed.

Lemma string_app_empty (a : string) : a +:+ "" = a.
Proof. induction a as [|c a IH]; [done|]. by rewrite string_app_cons, IH. Qed.

(** [c_str()] to a reader that stops at the first NUL, as [%s] and [inet_pton] do. *)
Fixpoint c_str (text : string) : string :=
  match text with
  | EmptyString => ""
  | String c rest => if bool_decide (c = "000"%char) then "" else String c (c_str rest)
  end.
