(* ===== verification/Reason.v ===== *)
(** * Reason codes, enumerations by name, [Status] and [Result]

    [include/dpu/fabric/core/reason.hpp], [src/core/reason.cpp],
    [include/dpu/fabric/core/result.hpp], [src/core/result.cpp] and the
    enumeration helper of [include/dpu/fabric/core/types.hpp].

    A scoped enumeration is an inductive type in a module of its own, so that
    [ReasonCode.Ok] reads as [ReasonCode::Ok] does.  The class [Enum] is what
    [DPUF_DECLARE_ENUM] generates: the values in declaration order with their
    stable names; [EnumLaws] is the contract the archive relies on. *)

From S2P Require Import Prelude.
#[local] Open Scope Z_scope.

(** ** Enumerations with stable names *)
Class Enum (E : Type) := {
  enum_eq_dec : EqDecision E;
  enum_rows : list (E * string)
}.
#[export] Existing Instance enum_eq_dec.

(** [to_string(Type)]: the name at the value's ordinal, or ["Unknown"]. *)
Definition enum_to_string {E} `{Enum E} (value : E) : string :=
  match list_find (fun row => row.1 = value) enum_rows with
  | Some (_, row) => row.2
  | None => "Unknown"
  end.

(** [from_string(text, out)]: the first value whose name is [text]. *)
Definition enum_from_string {E} `{Enum E} (text : string) : option E :=
  match list_find (fun row => row.2 = text) enum_rows with
  | Some (_, row) => Some row.1
  | None => None
  end.

(** The value's position, which is what [static_cast] and [operator<] see. *)
Definition enum_ordinal {E} `{Enum E} (value : E) : Z :=
  match list_find (fun row => row.1 = value) enum_rows with
  | Some (i, _) => Z.of_nat i
  | None => zlen (@enum_rows E _)
  end.

Class EnumLaws (E : Type) `{Enum E} : Prop := {
  enum_complete : forall v : E, v ∈ (@enum_rows E _).*1;
  enum_names_NoDup : NoDup (@enum_rows E _).*2;
  enum_values_NoDup : NoDup (@enum_rows E _).*1
}.

Section enum_laws.
Context {E : Type} `{EnumLaws E}.

Lemma enum_find_value (v : E) : exists i n,
  list_find (fun row => row.1 = v) enum_rows = Some (i, (v, n)) /\
  (@enum_rows E _) !! i = Some (v, n).
Proof.
  pose proof (enum_complete v) as Hv. apply list_elem_of_fmap in Hv as ([v' n] & -> & Hin).
  destruct (list_find_elem_of (fun row => row.1 = (v', n).1) enum_rows (v', n) Hin eq_refl)
    as [[i [w m]] Hf].
  pose proof Hf as (Hl & Heq & _)%list_find_Some. cbn in Heq. subst w. eauto.
Qed.

(** A name printed is a name parsed back to the same value. *)
Lemma enum_from_to_string (v : E) : enum_from_string (enum_to_string v) = Some v.
Proof.
  destruct (enum_find_value v) as (i & n & Hf & Hl).
  unfold enum_to_string, enum_from_string. rewrite Hf. cbn [snd].
  pose proof (list_elem_of_lookup_2 _ _ _ Hl) as Hin.
  destruct (list_find_elem_of (fun row => row.2 = n) enum_rows (v, n) Hin eq_refl)
    as [[j [w m]] Hf2]. rewrite Hf2.
  pose proof Hf2 as (Hj & Heq & _)%list_find_Some. cbn in Heq |- *. subst m.
  assert (i = j) as ->.
  { eapply (NoDup_lookup _ _ _ n enum_names_NoDup); rewrite list_lookup_fmap.
    - by rewrite Hl.
    - by rewrite Hj. }
  by simplify_eq.
Qed.

Lemma enum_to_string_inj (v w : E) : enum_to_string v = enum_to_string w -> v = w.
Proof.
  intros Heq. apply (inj Some).
  by rewrite <-(enum_from_to_string v), <-(enum_from_to_string w), Heq.
Qed.

(** Only declared names are accepted, and they name the value they give. *)
Lemma enum_from_string_Some (text : string) (v : E) :
  enum_from_string text = Some v -> enum_to_string v = text.
Proof.
  unfold enum_from_string. destruct (list_find _ _) as [[i [w m]]|] eqn:Hf; [|done].
  intros [= <-]. apply list_find_Some in Hf as (Hl & <- & _). cbn [fst snd] in *.
  destruct (enum_find_value w) as (j & n & Hf & Hj). unfold enum_to_string. rewrite Hf.
  assert (i = j) as ->.
  { eapply (NoDup_lookup _ _ _ w enum_values_NoDup); rewrite list_lookup_fmap.
    - by rewrite Hl.
    - by rewrite Hj. }
  by simplify_eq.
Qed.
End enum_laws.

(** Discharges [EnumLaws] for a concrete enumeration by computation. *)
Ltac solve_enum_laws :=
  constructor;
  [ intros []; apply (bool_decide_unpack _); vm_compute; exact I
  | apply (bool_decide_unpack _); vm_compute; exact I
  | apply (bool_decide_unpack _); vm_compute; exact I ].

(** ** Reason codes *)
Module ReasonCode.
Inductive ReasonCode : Set :=
  | Ok | MalformedInput | MissingField | InvalidIdentity | ValueOutOfRange | OversizedInput
  | TruncatedInput | UnsupportedVersion | InvalidEnumeration | DuplicateIdentity
  | ConflictingDuplicate | ArithmeticOverflow | InvalidStateTransition | UnsupportedValue
  | InvalidDigest | InvalidTag | UnknownField | InvalidEncoding | UnsupportedOperation
  | StaleOriginEpoch | StaleGeneration | StaleAuthority | FenceMismatch | FenceSuperseded
  | AttemptSuperseded | AttemptCancelled | AttemptNotOpen | AuthorityNotGranted
  | AuthorityRevoked | ExclusiveScopeConflict | EpochRegressed | BootFenced | LateEventRejected
  | DuplicateSuppressed | GenerationRegressed | AuthorityHeldElsewhere | CapabilityUnknown
  | CapabilityMissing | CapabilityMismatch | CompatibilityUnsatisfied | DpuIneligible
  | DpuUnavailable | CapacityUnknown | HostAttachmentMismatch | FirmwareLevelUnsupported
  | IsolationUnsupported | EvidenceStale | EvidenceMissing | EvidenceSuperseded
  | EvidenceConflicting | HealthIndeterminate | ContinuityUnproven | ArchitectureMismatch
  | DatapathUnsupported | AllocationExhausted | DependencyCycle | DependencyUnsatisfied
  | DependencyUnknown | DependencyKindUnsupported | ServiceNotDeclared | GroupNotDeclared
  | SelfDependency | DependencyDuplicate | ServiceVersionUnavailable | NoEligibleDpu
  | InsufficientEligibleDpus | ReplicaBoundExceeded | AntiAffinityUnsatisfiable
  | IsolationDomainExhausted | PlanInfeasible | PlanGenerationRegressed | RollbackUnavailable
  | IntentNotAccepted | NoPlacementChange | ExclusiveScopeRequired | StagingInfeasible
  | LifecycleConflict | InstanceNotFound | ServiceNotFound | WithdrawalInProgress
  | QuiesceIncomplete | VerifiedEffectMissing | AcknowledgementOnly | CancelledAttemptReport
  | EffectReportUnmatched | EffectPartial | EffectFailed | RestartFenced | DpuLost
  | InstanceNotReady | QuiesceRequested | Withdrawn | Superseded | Cancelled | StoreNotFound
  | StoreCorrupt | StoreTruncated | StoreVersionIncompatible | StoreSemanticsIncompatible
  | StoreIntegrityFailure | StoreRecordOversized | StoreIoFailure | StoreRecoveryRefused
  | StoreAlreadyOpen | StoreTornTailRecovered | StoreCompacted | StoreCreated | StoreReopened
  | StoreClosed | ProtocolViolation | FrameOversized | FrameTruncated | UnknownOperation
  | RequestQueueFull | ResponseQueueFull | ConnectionClosed | TransportFailure
  | RequestIdReused | ServerBusy | ShutdownInProgress | UnauthorizedPeer | HandshakeRejected
  | BoundExceeded | TruncationDropped | EvictionOccurred | HistoryTruncated
  | RetryBudgetExhausted | QueueFull | BatchTooLarge | MetadataLimitExceeded
  | DuplicateWindowEvicted | DepthLimitExceeded | InvalidAccounting.
End ReasonCode.
Abbreviation ReasonCode := ReasonCode.ReasonCode.

(** The released number of each code, part of the wire and storage contract. *)
Definition reason_value (code : ReasonCode) : Z :=
  match code with
  | ReasonCode.Ok => 0 | ReasonCode.MalformedInput => 1 | ReasonCode.MissingField => 2
  | ReasonCode.InvalidIdentity => 3 | ReasonCode.ValueOutOfRange => 4
  | ReasonCode.OversizedInput => 5 | ReasonCode.TruncatedInput => 6
  | ReasonCode.UnsupportedVersion => 7 | ReasonCode.InvalidEnumeration => 8
  | ReasonCode.DuplicateIdentity => 9 | ReasonCode.ConflictingDuplicate => 10
  | ReasonCode.ArithmeticOverflow => 11 | ReasonCode.InvalidStateTransition => 12
  | ReasonCode.UnsupportedValue => 13 | ReasonCode.InvalidDigest => 14
  | ReasonCode.InvalidTag => 15 | ReasonCode.UnknownField => 16
  | ReasonCode.InvalidEncoding => 17 | ReasonCode.UnsupportedOperation => 18
  | ReasonCode.StaleOriginEpoch => 100 | ReasonCode.StaleGeneration => 101
  | ReasonCode.StaleAuthority => 102 | ReasonCode.FenceMismatch => 103
  | ReasonCode.FenceSuperseded => 104 | ReasonCode.AttemptSuperseded => 105
  | ReasonCode.AttemptCancelled => 106 | ReasonCode.AttemptNotOpen => 107
  | ReasonCode.AuthorityNotGranted => 108 | ReasonCode.AuthorityRevoked => 109
  | ReasonCode.ExclusiveScopeConflict => 110 | ReasonCode.EpochRegressed => 111
  | ReasonCode.BootFenced => 112 | ReasonCode.LateEventRejected => 113
  | ReasonCode.DuplicateSuppressed => 114 | ReasonCode.GenerationRegressed => 115
  | ReasonCode.AuthorityHeldElsewhere => 116 | ReasonCode.CapabilityUnknown => 200
  | ReasonCode.CapabilityMissing => 201 | ReasonCode.CapabilityMismatch => 202
  | ReasonCode.CompatibilityUnsatisfied => 203 | ReasonCode.DpuIneligible => 204
  | ReasonCode.DpuUnavailable => 205 | ReasonCode.CapacityUnknown => 206
  | ReasonCode.HostAttachmentMismatch => 207 | ReasonCode.FirmwareLevelUnsupported => 208
  | ReasonCode.IsolationUnsupported => 209 | ReasonCode.EvidenceStale => 210
  | ReasonCode.EvidenceMissing => 211 | ReasonCode.EvidenceSuperseded => 212
  | ReasonCode.EvidenceConflicting => 213 | ReasonCode.HealthIndeterminate => 214
  | ReasonCode.ContinuityUnproven => 215 | ReasonCode.ArchitectureMismatch => 216
  | ReasonCode.DatapathUnsupported => 217 | ReasonCode.AllocationExhausted => 218
  | ReasonCode.DependencyCycle => 300 | ReasonCode.DependencyUnsatisfied => 301
  | ReasonCode.DependencyUnknown => 302 | ReasonCode.DependencyKindUnsupported => 303
  | ReasonCode.ServiceNotDeclared => 304 | ReasonCode.GroupNotDeclared => 305
  | ReasonCode.SelfDependency => 306 | ReasonCode.DependencyDuplicate => 307
  | ReasonCode.ServiceVersionUnavailable => 308 | ReasonCode.NoEligibleDpu => 400
  | ReasonCode.InsufficientEligibleDpus => 401 | ReasonCode.ReplicaBoundExceeded => 402
  | ReasonCode.AntiAffinityUnsatisfiable => 403 | ReasonCode.IsolationDomainExhausted => 404
  | ReasonCode.PlanInfeasible => 405 | ReasonCode.PlanGenerationRegressed => 406
  | ReasonCode.RollbackUnavailable => 407 | ReasonCode.IntentNotAccepted => 408
  | ReasonCode.NoPlacementChange => 409 | ReasonCode.ExclusiveScopeRequired => 410
  | ReasonCode.StagingInfeasible => 411 | ReasonCode.LifecycleConflict => 500
  | ReasonCode.InstanceNotFound => 501 | ReasonCode.ServiceNotFound => 502
  | ReasonCode.WithdrawalInProgress => 503 | ReasonCode.QuiesceIncomplete => 504
  | ReasonCode.VerifiedEffectMissing => 505 | ReasonCode.AcknowledgementOnly => 506
  | ReasonCode.CancelledAttemptReport => 507 | ReasonCode.EffectReportUnmatched => 508
  | ReasonCode.EffectPartial => 509 | ReasonCode.EffectFailed => 510
  | ReasonCode.RestartFenced => 511 | ReasonCode.DpuLost => 512
  | ReasonCode.InstanceNotReady => 513 | ReasonCode.QuiesceRequested => 514
  | ReasonCode.Withdrawn => 515 | ReasonCode.Superseded => 516 | ReasonCode.Cancelled => 517
  | ReasonCode.StoreNotFound => 700 | ReasonCode.StoreCorrupt => 701
  | ReasonCode.StoreTruncated => 702 | ReasonCode.StoreVersionIncompatible => 703
  | ReasonCode.StoreSemanticsIncompatible => 704 | ReasonCode.StoreIntegrityFailure => 705
  | ReasonCode.StoreRecordOversized => 706 | ReasonCode.StoreIoFailure => 707
  | ReasonCode.StoreRecoveryRefused => 708 | ReasonCode.StoreAlreadyOpen => 709
  | ReasonCode.StoreTornTailRecovered => 710 | ReasonCode.StoreCompacted => 711
  | ReasonCode.StoreCreated => 712 | ReasonCode.StoreReopened => 713
  | ReasonCode.StoreClosed => 714 | ReasonCode.ProtocolViolation => 800
  | ReasonCode.FrameOversized => 801 | ReasonCode.FrameTruncated => 802
  | ReasonCode.UnknownOperation => 803 | ReasonCode.RequestQueueFull => 804
  | ReasonCode.ResponseQueueFull => 805 | ReasonCode.ConnectionClosed => 806
  | ReasonCode.TransportFailure => 807 | ReasonCode.RequestIdReused => 808
  | ReasonCode.ServerBusy => 809 | ReasonCode.ShutdownInProgress => 810
  | ReasonCode.UnauthorizedPeer => 811 | ReasonCode.HandshakeRejected => 812
  | ReasonCode.BoundExceeded => 900 | ReasonCode.TruncationDropped => 901
  | ReasonCode.EvictionOccurred => 902 | ReasonCode.HistoryTruncated => 903
  | ReasonCode.RetryBudgetExhausted => 904 | ReasonCode.QueueFull => 905
  | ReasonCode.BatchTooLarge => 906 | ReasonCode.MetadataLimitExceeded => 907
  | ReasonCode.DuplicateWindowEvicted => 908 | ReasonCode.DepthLimitExceeded => 909
  | ReasonCode.InvalidAccounting => 910
  end.

Definition reason_of_value (value : Z) : option ReasonCode :=
  match value with
  | 0 => Some ReasonCode.Ok | 1 => Some ReasonCode.MalformedInput
  | 2 => Some ReasonCode.MissingField | 3 => Some ReasonCode.InvalidIdentity
  | 4 => Some ReasonCode.ValueOutOfRange | 5 => Some ReasonCode.OversizedInput
  | 6 => Some ReasonCode.TruncatedInput | 7 => Some ReasonCode.UnsupportedVersion
  | 8 => Some ReasonCode.InvalidEnumeration | 9 => Some ReasonCode.DuplicateIdentity
  | 10 => Some ReasonCode.ConflictingDuplicate | 11 => Some ReasonCode.ArithmeticOverflow
  | 12 => Some ReasonCode.InvalidStateTransition | 13 => Some ReasonCode.UnsupportedValue
  | 14 => Some ReasonCode.InvalidDigest | 15 => Some ReasonCode.InvalidTag
  | 16 => Some ReasonCode.UnknownField | 17 => Some ReasonCode.InvalidEncoding
  | 18 => Some ReasonCode.UnsupportedOperation | 100 => Some ReasonCode.StaleOriginEpoch
  | 101 => Some ReasonCode.StaleGeneration | 102 => Some ReasonCode.StaleAuthority
  | 103 => Some ReasonCode.FenceMismatch | 104 => Some ReasonCode.FenceSuperseded
  | 105 => Some ReasonCode.AttemptSuperseded | 106 => Some ReasonCode.AttemptCancelled
  | 107 => Some ReasonCode.AttemptNotOpen | 108 => Some ReasonCode.AuthorityNotGranted
  | 109 => Some ReasonCode.AuthorityRevoked | 110 => Some ReasonCode.ExclusiveScopeConflict
  | 111 => Some ReasonCode.EpochRegressed | 112 => Some ReasonCode.BootFenced
  | 113 => Some ReasonCode.LateEventRejected | 114 => Some ReasonCode.DuplicateSuppressed
  | 115 => Some ReasonCode.GenerationRegressed | 116 => Some ReasonCode.AuthorityHeldElsewhere
  | 200 => Some ReasonCode.CapabilityUnknown | 201 => Some ReasonCode.CapabilityMissing
  | 202 => Some ReasonCode.CapabilityMismatch | 203 => Some ReasonCode.CompatibilityUnsatisfied
  | 204 => Some ReasonCode.DpuIneligible | 205 => Some ReasonCode.DpuUnavailable
  | 206 => Some ReasonCode.CapacityUnknown | 207 => Some ReasonCode.HostAttachmentMismatch
  | 208 => Some ReasonCode.FirmwareLevelUnsupported
  | 209 => Some ReasonCode.IsolationUnsupported | 210 => Some ReasonCode.EvidenceStale
  | 211 => Some ReasonCode.EvidenceMissing | 212 => Some ReasonCode.EvidenceSuperseded
  | 213 => Some ReasonCode.EvidenceConflicting | 214 => Some ReasonCode.HealthIndeterminate
  | 215 => Some ReasonCode.ContinuityUnproven | 216 => Some ReasonCode.ArchitectureMismatch
  | 217 => Some ReasonCode.DatapathUnsupported | 218 => Some ReasonCode.AllocationExhausted
  | 300 => Some ReasonCode.DependencyCycle | 301 => Some ReasonCode.DependencyUnsatisfied
  | 302 => Some ReasonCode.DependencyUnknown | 303 => Some ReasonCode.DependencyKindUnsupported
  | 304 => Some ReasonCode.ServiceNotDeclared | 305 => Some ReasonCode.GroupNotDeclared
  | 306 => Some ReasonCode.SelfDependency | 307 => Some ReasonCode.DependencyDuplicate
  | 308 => Some ReasonCode.ServiceVersionUnavailable | 400 => Some ReasonCode.NoEligibleDpu
  | 401 => Some ReasonCode.InsufficientEligibleDpus
  | 402 => Some ReasonCode.ReplicaBoundExceeded
  | 403 => Some ReasonCode.AntiAffinityUnsatisfiable
  | 404 => Some ReasonCode.IsolationDomainExhausted | 405 => Some ReasonCode.PlanInfeasible
  | 406 => Some ReasonCode.PlanGenerationRegressed | 407 => Some ReasonCode.RollbackUnavailable
  | 408 => Some ReasonCode.IntentNotAccepted | 409 => Some ReasonCode.NoPlacementChange
  | 410 => Some ReasonCode.ExclusiveScopeRequired | 411 => Some ReasonCode.StagingInfeasible
  | 500 => Some ReasonCode.LifecycleConflict | 501 => Some ReasonCode.InstanceNotFound
  | 502 => Some ReasonCode.ServiceNotFound | 503 => Some ReasonCode.WithdrawalInProgress
  | 504 => Some ReasonCode.QuiesceIncomplete | 505 => Some ReasonCode.VerifiedEffectMissing
  | 506 => Some ReasonCode.AcknowledgementOnly | 507 => Some ReasonCode.CancelledAttemptReport
  | 508 => Some ReasonCode.EffectReportUnmatched | 509 => Some ReasonCode.EffectPartial
  | 510 => Some ReasonCode.EffectFailed | 511 => Some ReasonCode.RestartFenced
  | 512 => Some ReasonCode.DpuLost | 513 => Some ReasonCode.InstanceNotReady
  | 514 => Some ReasonCode.QuiesceRequested | 515 => Some ReasonCode.Withdrawn
  | 516 => Some ReasonCode.Superseded | 517 => Some ReasonCode.Cancelled
  | 700 => Some ReasonCode.StoreNotFound | 701 => Some ReasonCode.StoreCorrupt
  | 702 => Some ReasonCode.StoreTruncated | 703 => Some ReasonCode.StoreVersionIncompatible
  | 704 => Some ReasonCode.StoreSemanticsIncompatible
  | 705 => Some ReasonCode.StoreIntegrityFailure | 706 => Some ReasonCode.StoreRecordOversized
  | 707 => Some ReasonCode.StoreIoFailure | 708 => Some ReasonCode.StoreRecoveryRefused
  | 709 => Some ReasonCode.StoreAlreadyOpen | 710 => Some ReasonCode.StoreTornTailRecovered
  | 711 => Some ReasonCode.StoreCompacted | 712 => Some ReasonCode.StoreCreated
  | 713 => Some ReasonCode.StoreReopened | 714 => Some ReasonCode.StoreClosed
  | 800 => Some ReasonCode.ProtocolViolation | 801 => Some ReasonCode.FrameOversized
  | 802 => Some ReasonCode.FrameTruncated | 803 => Some ReasonCode.UnknownOperation
  | 804 => Some ReasonCode.RequestQueueFull | 805 => Some ReasonCode.ResponseQueueFull
  | 806 => Some ReasonCode.ConnectionClosed | 807 => Some ReasonCode.TransportFailure
  | 808 => Some ReasonCode.RequestIdReused | 809 => Some ReasonCode.ServerBusy
  | 810 => Some ReasonCode.ShutdownInProgress | 811 => Some ReasonCode.UnauthorizedPeer
  | 812 => Some ReasonCode.HandshakeRejected | 900 => Some ReasonCode.BoundExceeded
  | 901 => Some ReasonCode.TruncationDropped | 902 => Some ReasonCode.EvictionOccurred
  | 903 => Some ReasonCode.HistoryTruncated | 904 => Some ReasonCode.RetryBudgetExhausted
  | 905 => Some ReasonCode.QueueFull | 906 => Some ReasonCode.BatchTooLarge
  | 907 => Some ReasonCode.MetadataLimitExceeded
  | 908 => Some ReasonCode.DuplicateWindowEvicted | 909 => Some ReasonCode.DepthLimitExceeded
  | 910 => Some ReasonCode.InvalidAccounting
  | _ => None
  end.

Lemma reason_of_value_value code : reason_of_value (reason_value code) = Some code.
Proof. by destruct code. Qed.

#[export] Instance reason_value_inj : Inj eq eq reason_value.
Proof.
  intros c d Heq. apply (inj Some).
  by rewrite <-(reason_of_value_value c), <-(reason_of_value_value d), Heq.
Qed.
#[export] Instance ReasonCode_eq_dec : EqDecision ReasonCode := inj_eq_dec reason_value.

(** [kReasonTable] *)
Definition kReasonTable : list (ReasonCode * string) := [
  (ReasonCode.Ok, "Ok"); (ReasonCode.MalformedInput, "MalformedInput");
  (ReasonCode.MissingField, "MissingField"); (ReasonCode.InvalidIdentity, "InvalidIdentity");
  (ReasonCode.ValueOutOfRange, "ValueOutOfRange");
  (ReasonCode.OversizedInput, "OversizedInput"); (ReasonCode.TruncatedInput, "TruncatedInput");
  (ReasonCode.UnsupportedVersion, "UnsupportedVersion");
  (ReasonCode.InvalidEnumeration, "InvalidEnumeration");
  (ReasonCode.DuplicateIdentity, "DuplicateIdentity");
  (ReasonCode.ConflictingDuplicate, "ConflictingDuplicate");
  (ReasonCode.ArithmeticOverflow, "ArithmeticOverflow");
  (ReasonCode.InvalidStateTransition, "InvalidStateTransition");
  (ReasonCode.UnsupportedValue, "UnsupportedValue");
  (ReasonCode.InvalidDigest, "InvalidDigest"); (ReasonCode.InvalidTag, "InvalidTag");
  (ReasonCode.UnknownField, "UnknownField"); (ReasonCode.InvalidEncoding, "InvalidEncoding");
  (ReasonCode.UnsupportedOperation, "UnsupportedOperation");
  (ReasonCode.StaleOriginEpoch, "StaleOriginEpoch");
  (ReasonCode.StaleGeneration, "StaleGeneration");
  (ReasonCode.StaleAuthority, "StaleAuthority"); (ReasonCode.FenceMismatch, "FenceMismatch");
  (ReasonCode.FenceSuperseded, "FenceSuperseded");
  (ReasonCode.AttemptSuperseded, "AttemptSuperseded");
  (ReasonCode.AttemptCancelled, "AttemptCancelled");
  (ReasonCode.AttemptNotOpen, "AttemptNotOpen");
  (ReasonCode.AuthorityNotGranted, "AuthorityNotGranted");
  (ReasonCode.AuthorityRevoked, "AuthorityRevoked");
  (ReasonCode.ExclusiveScopeConflict, "ExclusiveScopeConflict");
  (ReasonCode.EpochRegressed, "EpochRegressed"); (ReasonCode.BootFenced, "BootFenced");
  (ReasonCode.LateEventRejected, "LateEventRejected");
  (ReasonCode.DuplicateSuppressed, "DuplicateSuppressed");
  (ReasonCode.GenerationRegressed, "GenerationRegressed");
  (ReasonCode.AuthorityHeldElsewhere, "AuthorityHeldElsewhere");
  (ReasonCode.CapabilityUnknown, "CapabilityUnknown");
  (ReasonCode.CapabilityMissing, "CapabilityMissing");
  (ReasonCode.CapabilityMismatch, "CapabilityMismatch");
  (ReasonCode.CompatibilityUnsatisfied, "CompatibilityUnsatisfied");
  (ReasonCode.DpuIneligible, "DpuIneligible"); (ReasonCode.DpuUnavailable, "DpuUnavailable");
  (ReasonCode.CapacityUnknown, "CapacityUnknown");
  (ReasonCode.HostAttachmentMismatch, "HostAttachmentMismatch");
  (ReasonCode.FirmwareLevelUnsupported, "FirmwareLevelUnsupported");
  (ReasonCode.IsolationUnsupported, "IsolationUnsupported");
  (ReasonCode.EvidenceStale, "EvidenceStale"); (ReasonCode.EvidenceMissing, "EvidenceMissing");
  (ReasonCode.EvidenceSuperseded, "EvidenceSuperseded");
  (ReasonCode.EvidenceConflicting, "EvidenceConflicting");
  (ReasonCode.HealthIndeterminate, "HealthIndeterminate");
  (ReasonCode.ContinuityUnproven, "ContinuityUnproven");
  (ReasonCode.ArchitectureMismatch, "ArchitectureMismatch");
  (ReasonCode.DatapathUnsupported, "DatapathUnsupported");
  (ReasonCode.AllocationExhausted, "AllocationExhausted");
  (ReasonCode.DependencyCycle, "DependencyCycle");
  (ReasonCode.DependencyUnsatisfied, "DependencyUnsatisfied");
  (ReasonCode.DependencyUnknown, "DependencyUnknown");
  (ReasonCode.DependencyKindUnsupported, "DependencyKindUnsupported");
  (ReasonCode.ServiceNotDeclared, "ServiceNotDeclared");
  (ReasonCode.GroupNotDeclared, "GroupNotDeclared");
  (ReasonCode.SelfDependency, "SelfDependency");
  (ReasonCode.DependencyDuplicate, "DependencyDuplicate");
  (ReasonCode.ServiceVersionUnavailable, "ServiceVersionUnavailable");
  (ReasonCode.NoEligibleDpu, "NoEligibleDpu");
  (ReasonCode.InsufficientEligibleDpus, "InsufficientEligibleDpus");
  (ReasonCode.ReplicaBoundExceeded, "ReplicaBoundExceeded");
  (ReasonCode.AntiAffinityUnsatisfiable, "AntiAffinityUnsatisfiable");
  (ReasonCode.IsolationDomainExhausted, "IsolationDomainExhausted");
  (ReasonCode.PlanInfeasible, "PlanInfeasible");
  (ReasonCode.PlanGenerationRegressed, "PlanGenerationRegressed");
  (ReasonCode.RollbackUnavailable, "RollbackUnavailable");
  (ReasonCode.IntentNotAccepted, "IntentNotAccepted");
  (ReasonCode.NoPlacementChange, "NoPlacementChange");
  (ReasonCode.ExclusiveScopeRequired, "ExclusiveScopeRequired");
  (ReasonCode.StagingInfeasible, "StagingInfeasible");
  (ReasonCode.LifecycleConflict, "LifecycleConflict");
  (ReasonCode.InstanceNotFound, "InstanceNotFound");
  (ReasonCode.ServiceNotFound, "ServiceNotFound");
  (ReasonCode.WithdrawalInProgress, "WithdrawalInProgress");
  (ReasonCode.QuiesceIncomplete, "QuiesceIncomplete");
  (ReasonCode.VerifiedEffectMissing, "VerifiedEffectMissing");
  (ReasonCode.AcknowledgementOnly, "AcknowledgementOnly");
  (ReasonCode.CancelledAttemptReport, "CancelledAttemptReport");
  (ReasonCode.EffectReportUnmatched, "EffectReportUnmatched");
  (ReasonCode.EffectPartial, "EffectPartial"); (ReasonCode.EffectFailed, "EffectFailed");
  (ReasonCode.RestartFenced, "RestartFenced"); (ReasonCode.DpuLost, "DpuLost");
  (ReasonCode.InstanceNotReady, "InstanceNotReady");
  (ReasonCode.QuiesceRequested, "QuiesceRequested"); (ReasonCode.Withdrawn, "Withdrawn");
  (ReasonCode.Superseded, "Superseded"); (ReasonCode.Cancelled, "Cancelled");
  (ReasonCode.StoreNotFound, "StoreNotFound"); (ReasonCode.StoreCorrupt, "StoreCorrupt");
  (ReasonCode.StoreTruncated, "StoreTruncated");
  (ReasonCode.StoreVersionIncompatible, "StoreVersionIncompatible");
  (ReasonCode.StoreSemanticsIncompatible, "StoreSemanticsIncompatible");
  (ReasonCode.StoreIntegrityFailure, "StoreIntegrityFailure");
  (ReasonCode.StoreRecordOversized, "StoreRecordOversized");
  (ReasonCode.StoreIoFailure, "StoreIoFailure");
  (ReasonCode.StoreRecoveryRefused, "StoreRecoveryRefused");
  (ReasonCode.StoreAlreadyOpen, "StoreAlreadyOpen");
  (ReasonCode.StoreTornTailRecovered, "StoreTornTailRecovered");
  (ReasonCode.StoreCompacted, "StoreCompacted"); (ReasonCode.StoreCreated, "StoreCreated");
  (ReasonCode.StoreReopened, "StoreReopened"); (ReasonCode.StoreClosed, "StoreClosed");
  (ReasonCode.ProtocolViolation, "ProtocolViolation");
  (ReasonCode.FrameOversized, "FrameOversized"); (ReasonCode.FrameTruncated, "FrameTruncated");
  (ReasonCode.UnknownOperation, "UnknownOperation");
  (ReasonCode.RequestQueueFull, "RequestQueueFull");
  (ReasonCode.ResponseQueueFull, "ResponseQueueFull");
  (ReasonCode.ConnectionClosed, "ConnectionClosed");
  (ReasonCode.TransportFailure, "TransportFailure");
  (ReasonCode.RequestIdReused, "RequestIdReused"); (ReasonCode.ServerBusy, "ServerBusy");
  (ReasonCode.ShutdownInProgress, "ShutdownInProgress");
  (ReasonCode.UnauthorizedPeer, "UnauthorizedPeer");
  (ReasonCode.HandshakeRejected, "HandshakeRejected");
  (ReasonCode.BoundExceeded, "BoundExceeded");
  (ReasonCode.TruncationDropped, "TruncationDropped");
  (ReasonCode.EvictionOccurred, "EvictionOccurred");
  (ReasonCode.HistoryTruncated, "HistoryTruncated");
  (ReasonCode.RetryBudgetExhausted, "RetryBudgetExhausted");
  (ReasonCode.QueueFull, "QueueFull"); (ReasonCode.BatchTooLarge, "BatchTooLarge");
  (ReasonCode.MetadataLimitExceeded, "MetadataLimitExceeded");
  (ReasonCode.DuplicateWindowEvicted, "DuplicateWindowEvicted");
  (ReasonCode.DepthLimitExceeded, "DepthLimitExceeded");
  (ReasonCode.InvalidAccounting, "InvalidAccounting")].

#[export] Instance ReasonCode_Enum : Enum ReasonCode :=
  {| enum_rows := kReasonTable |}.

(** [to_string(ReasonCode)] and [reason_from_string]. *)
Definition reason_to_string (code : ReasonCode) : string := enum_to_string code.
Definition reason_from_string (text : string) : option ReasonCode := enum_from_string text.

(** [reason_band] *)
Definition reason_band (code : ReasonCode) : string :=
  let value := reason_value code in
  if value =? 0 then "success"
  else if value <? 100 then "input"
  else if value <? 200 then "authority"
  else if value <? 300 then "capability"
  else if value <? 400 then "dependency"
  else if value <? 500 then "placement"
  else if value <? 600 then "lifecycle"
  else if value <? 800 then "persistence"
  else if value <? 900 then "transport"
  else if value <? 1000 then "bounds"
  else "unknown".

(** [is_informational]: accepted outcomes and pure observations. *)
Definition is_informational (code : ReasonCode) : bool :=
  match code with
  | ReasonCode.Ok | ReasonCode.DuplicateSuppressed
  | ReasonCode.StoreTornTailRecovered | ReasonCode.StoreCompacted
  | ReasonCode.StoreCreated | ReasonCode.StoreReopened
  | ReasonCode.StoreClosed | ReasonCode.TruncationDropped
  | ReasonCode.EvictionOccurred | ReasonCode.HistoryTruncated
  | ReasonCode.DuplicateWindowEvicted | ReasonCode.QuiesceRequested
  | ReasonCode.Withdrawn | ReasonCode.Superseded
  | ReasonCode.Cancelled | ReasonCode.DpuLost
  | ReasonCode.AcknowledgementOnly => true
  | _ => false
  end.

Definition is_refusal (code : ReasonCode) : bool := negb (is_informational code).
Definition is_nominal (code : ReasonCode) : bool := bool_decide (code = ReasonCode.Ok).

#[export] Instance ReasonCode_laws : EnumLaws ReasonCode.
Proof. solve_enum_laws. Qed.

(** ** Status and Result *)
Definition kMaxStatusDetail : nat := 256.

(** [Status(code, detail)]: the detail is cut at [kMaxStatusDetail] bytes. *)
Record Status : Type := mkStatus { status_code : ReasonCode; status_detail : string }.

Definition Status_make (code : ReasonCode) (detail : string) : Status :=
  mkStatus code (String.substring 0 kMaxStatusDetail detail).

Definition Status_success : Status := mkStatus ReasonCode.Ok "".
Definition status_ok (s : Status) : bool := is_informational (status_code s).
Definition status_nominal (s : Status) : bool :=
  bool_decide (status_code s = ReasonCode.Ok).

(** [Status::message]: "Code" or "Code: detail". *)
Definition status_message (s : Status) : string :=
  match status_detail s with
  | EmptyString => reason_to_string (status_code s)
  | d => reason_to_string (status_code s) +:+ ": " +:+ d
  end.

Definition status_with_detail (s : Status) (detail : string) : Status :=
  Status_make (status_code s) detail.

(** [refuse(code, detail)] *)
Definition refuse (code : ReasonCode) (detail : string) : Status := Status_make code detail.

(** [Result<T>]: a value or a refusal. *)
Inductive Result (T : Type) : Type :=
| Value (value : T)
| Failed (status : Status).
Arguments Value {T} value.
Arguments Failed {T} status.

Definition has_value {T} (r : Result T) : bool :=
  match r with Value _ => true | Failed _ => false end.
Definition value_or {T} (r : Result T) (fallback : T) : T :=
  match r with Value v => v | Failed _ => fallback end.

(** Early return on a refusal: [if (!x) return x.status();]. *)
Definition result_bind {A B} (r : Result A) (k : A -> Result B) : Result B :=
  match r with Value v => k v | Failed s => Failed s end.
Notation "'let?' x ':=' e 'in' k" := (result_bind e (fun x => k))
  (at level 10, x pattern, e at level 200, k at level 200,
   format "'[v' 'let?'  x  ':='  e  'in' '/' k ']'") : fabric_scope.

Lemma result_bind_Value {A B} (r : Result A) (k : A -> Result B) b :
  result_bind r k = Value b -> exists a, r = Value a /\ k a = Value b.
Proof. destruct r; [by eauto|done]. Qed.

(** A detail never grows beyond its bound. *)
Lemma substring_length n m s : (String.length (String.substring n m s) <= m)%nat.
Proof.
  revert n m. induction s as [|c s IH]; intros n m; [destruct n, m; cbn; lia|].
  destruct n as [|n], m as [|m]; cbn; try lia.
  - specialize (IH 0%nat m). lia.
  - specialize (IH n 0%nat). lia.
  - apply (IH n (S m)).
Qed.

Lemma substring_all s m : (String.length s <= m)%nat -> String.substring 0 m s = s.
Proof.
  revert m. induction s as [|c s IH]; intros m Hm; [by destruct m|].
  destruct m as [|m]; [cbn in Hm; lia|]. cbn in *. f_equal. apply IH. lia.
Qed.

Lemma refuse_detail_bound code detail : slen (status_detail (refuse code detail)) <= 256.
Proof. unfold slen. cbn. pose proof (substring_length 0 256 detail). unfold kMaxStatusDetail. lia. Qed.
