(* ===== verification/Types.v ===== *)
(** * Strongly typed identities, checked arithmetic, counters and versions

    [include/dpu/fabric/core/types.hpp] and the identity and version functions
    of [src/core/resources.cpp].  Distinct identity types are distinct names for
    the text they carry; [validate_identity_text] is the only way text enters
    one, and an absent identity is the empty text. *)

From S2P Require Import Prelude Std Reason.
#[local] Open Scope Z_scope.

(** ** Enumerations *)
Module DpuArchitecture.
Inductive DpuArchitecture : Set :=
  Unknown | Aarch64 | X86_64 | RiscV64.
#[export] Instance eq_dec : EqDecision DpuArchitecture.
Proof. solve_decision. Defined.
End DpuArchitecture.
Abbreviation DpuArchitecture := DpuArchitecture.DpuArchitecture.
#[export] Instance DpuArchitecture_Enum : Enum DpuArchitecture := {| enum_eq_dec := DpuArchitecture.eq_dec; enum_rows := [
  (DpuArchitecture.Unknown, "Unknown"); (DpuArchitecture.Aarch64, "Aarch64");
  (DpuArchitecture.X86_64, "X86_64"); (DpuArchitecture.RiscV64, "RiscV64")] |}.
#[export] Instance DpuArchitecture_laws : EnumLaws DpuArchitecture.
Proof. solve_enum_laws. Qed.

Module DatapathClass.
Inductive DatapathClass : Set :=
  Unspecified | None | PacketProcessor | CryptoOffload | StorageOffload | MemoryFabric.
#[export] Instance eq_dec : EqDecision DatapathClass.
Proof. solve_decision. Defined.
End DatapathClass.
Abbreviation DatapathClass := DatapathClass.DatapathClass.
#[export] Instance DatapathClass_Enum : Enum DatapathClass := {| enum_eq_dec := DatapathClass.eq_dec; enum_rows := [
  (DatapathClass.Unspecified, "Unspecified"); (DatapathClass.None, "None");
  (DatapathClass.PacketProcessor, "PacketProcessor"); (DatapathClass.CryptoOffload,
  "CryptoOffload"); (DatapathClass.StorageOffload, "StorageOffload");
  (DatapathClass.MemoryFabric, "MemoryFabric")] |}.
#[export] Instance DatapathClass_laws : EnumLaws DatapathClass.
Proof. solve_enum_laws. Qed.

Module IsolationKind.
Inductive IsolationKind : Set :=
  None | Process | Virtualization | ConfidentialDomain | DedicatedDevice.
#[export] Instance eq_dec : EqDecision IsolationKind.
Proof. solve_decision. Defined.
End IsolationKind.
Abbreviation IsolationKind := IsolationKind.IsolationKind.
#[export] Instance IsolationKind_Enum : Enum IsolationKind := {| enum_eq_dec := IsolationKind.eq_dec; enum_rows := [
  (IsolationKind.None, "None"); (IsolationKind.Process, "Process");
  (IsolationKind.Virtualization, "Virtualization"); (IsolationKind.ConfidentialDomain,
  "ConfidentialDomain"); (IsolationKind.DedicatedDevice, "DedicatedDevice")] |}.
#[export] Instance IsolationKind_laws : EnumLaws IsolationKind.
Proof. solve_enum_laws. Qed.

Module DpuState.
Inductive DpuState : Set :=
  Unknown | Attached | Detached | Lost | Quarantined | Retired.
#[export] Instance eq_dec : EqDecision DpuState.
Proof. solve_decision. Defined.
End DpuState.
Abbreviation DpuState := DpuState.DpuState.
#[export] Instance DpuState_Enum : Enum DpuState := {| enum_eq_dec := DpuState.eq_dec; enum_rows := [
  (DpuState.Unknown, "Unknown"); (DpuState.Attached, "Attached"); (DpuState.Detached,
  "Detached"); (DpuState.Lost, "Lost"); (DpuState.Quarantined, "Quarantined");
  (DpuState.Retired, "Retired")] |}.
#[export] Instance DpuState_laws : EnumLaws DpuState.
Proof. solve_enum_laws. Qed.

Module HealthState.
Inductive HealthState : Set :=
  Unknown | Healthy | Degraded | Unhealthy.
#[export] Instance eq_dec : EqDecision HealthState.
Proof. solve_decision. Defined.
End HealthState.
Abbreviation HealthState := HealthState.HealthState.
#[export] Instance HealthState_Enum : Enum HealthState := {| enum_eq_dec := HealthState.eq_dec; enum_rows := [
  (HealthState.Unknown, "Unknown"); (HealthState.Healthy, "Healthy"); (HealthState.Degraded,
  "Degraded"); (HealthState.Unhealthy, "Unhealthy")] |}.
#[export] Instance HealthState_laws : EnumLaws HealthState.
Proof. solve_enum_laws. Qed.

Module EvidenceClass.
Inductive EvidenceClass : Set :=
  Unknown | Real | Synthetic | Unsupported.
#[export] Instance eq_dec : EqDecision EvidenceClass.
Proof. solve_decision. Defined.
End EvidenceClass.
Abbreviation EvidenceClass := EvidenceClass.EvidenceClass.
#[export] Instance EvidenceClass_Enum : Enum EvidenceClass := {| enum_eq_dec := EvidenceClass.eq_dec; enum_rows := [
  (EvidenceClass.Unknown, "Unknown"); (EvidenceClass.Real, "Real");
  (EvidenceClass.Synthetic, "Synthetic"); (EvidenceClass.Unsupported, "Unsupported")] |}.
#[export] Instance EvidenceClass_laws : EnumLaws EvidenceClass.
Proof. solve_enum_laws. Qed.

Module EvidenceKind.
Inductive EvidenceKind : Set :=
  Topology | Capability | Health | Policy | Execution | Authority.
#[export] Instance eq_dec : EqDecision EvidenceKind.
Proof. solve_decision. Defined.
End EvidenceKind.
Abbreviation EvidenceKind := EvidenceKind.EvidenceKind.
#[export] Instance EvidenceKind_Enum : Enum EvidenceKind := {| enum_eq_dec := EvidenceKind.eq_dec; enum_rows := [
  (EvidenceKind.Topology, "Topology"); (EvidenceKind.Capability, "Capability");
  (EvidenceKind.Health, "Health"); (EvidenceKind.Policy, "Policy"); (EvidenceKind.Execution,
  "Execution"); (EvidenceKind.Authority, "Authority")] |}.
#[export] Instance EvidenceKind_laws : EnumLaws EvidenceKind.
Proof. solve_enum_laws. Qed.

Module LifecycleState.
Inductive LifecycleState : Set :=
  Absent | Planned | Authorized | Deploying | Acknowledged | Unverified | Verified |
  Quiescing | Withdrawn | Failed | Lost | Superseded | Cancelled.
#[export] Instance eq_dec : EqDecision LifecycleState.
Proof. solve_decision. Defined.
End LifecycleState.
Abbreviation LifecycleState := LifecycleState.LifecycleState.
#[export] Instance LifecycleState_Enum : Enum LifecycleState := {| enum_eq_dec := LifecycleState.eq_dec; enum_rows := [
  (LifecycleState.Absent, "Absent"); (LifecycleState.Planned, "Planned");
  (LifecycleState.Authorized, "Authorized"); (LifecycleState.Deploying, "Deploying");
  (LifecycleState.Acknowledged, "Acknowledged"); (LifecycleState.Unverified, "Unverified");
  (LifecycleState.Verified, "Verified"); (LifecycleState.Quiescing, "Quiescing");
  (LifecycleState.Withdrawn, "Withdrawn"); (LifecycleState.Failed, "Failed");
  (LifecycleState.Lost, "Lost"); (LifecycleState.Superseded, "Superseded");
  (LifecycleState.Cancelled, "Cancelled")] |}.
#[export] Instance LifecycleState_laws : EnumLaws LifecycleState.
Proof. solve_enum_laws. Qed.

Module DependencyKind.
Inductive DependencyKind : Set :=
  Requires | OrderingAfter | RequiresCapability.
#[export] Instance eq_dec : EqDecision DependencyKind.
Proof. solve_decision. Defined.
End DependencyKind.
Abbreviation DependencyKind := DependencyKind.DependencyKind.
#[export] Instance DependencyKind_Enum : Enum DependencyKind := {| enum_eq_dec := DependencyKind.eq_dec; enum_rows := [
  (DependencyKind.Requires, "Requires"); (DependencyKind.OrderingAfter, "OrderingAfter");
  (DependencyKind.RequiresCapability, "RequiresCapability")] |}.
#[export] Instance DependencyKind_laws : EnumLaws DependencyKind.
Proof. solve_enum_laws. Qed.

Module CapabilityOp.
Inductive CapabilityOp : Set :=
  Present | Absent | Equals | AtLeast | AtMost | OneOf.
#[export] Instance eq_dec : EqDecision CapabilityOp.
Proof. solve_decision. Defined.
End CapabilityOp.
Abbreviation CapabilityOp := CapabilityOp.CapabilityOp.
#[export] Instance CapabilityOp_Enum : Enum CapabilityOp := {| enum_eq_dec := CapabilityOp.eq_dec; enum_rows := [
  (CapabilityOp.Present, "Present"); (CapabilityOp.Absent, "Absent"); (CapabilityOp.Equals,
  "Equals"); (CapabilityOp.AtLeast, "AtLeast"); (CapabilityOp.AtMost, "AtMost");
  (CapabilityOp.OneOf, "OneOf")] |}.
#[export] Instance CapabilityOp_laws : EnumLaws CapabilityOp.
Proof. solve_enum_laws. Qed.

Module CapabilityValueKind.
Inductive CapabilityValueKind : Set :=
  Unknown | Flag | Integer | Text | Version.
#[export] Instance eq_dec : EqDecision CapabilityValueKind.
Proof. solve_decision. Defined.
End CapabilityValueKind.
Abbreviation CapabilityValueKind := CapabilityValueKind.CapabilityValueKind.
#[export] Instance CapabilityValueKind_Enum : Enum CapabilityValueKind := {| enum_eq_dec := CapabilityValueKind.eq_dec; enum_rows := [
  (CapabilityValueKind.Unknown, "Unknown"); (CapabilityValueKind.Flag, "Flag");
  (CapabilityValueKind.Integer, "Integer"); (CapabilityValueKind.Text, "Text");
  (CapabilityValueKind.Version, "Version")] |}.
#[export] Instance CapabilityValueKind_laws : EnumLaws CapabilityValueKind.
Proof. solve_enum_laws. Qed.

Module IntentKind.
Inductive IntentKind : Set :=
  Deploy | Rollout | Scale | Replace | Withdraw | Rollback.
#[export] Instance eq_dec : EqDecision IntentKind.
Proof. solve_decision. Defined.
End IntentKind.
Abbreviation IntentKind := IntentKind.IntentKind.
#[export] Instance IntentKind_Enum : Enum IntentKind := {| enum_eq_dec := IntentKind.eq_dec; enum_rows := [
  (IntentKind.Deploy, "Deploy"); (IntentKind.Rollout, "Rollout"); (IntentKind.Scale,
  "Scale"); (IntentKind.Replace, "Replace"); (IntentKind.Withdraw, "Withdraw");
  (IntentKind.Rollback, "Rollback")] |}.
#[export] Instance IntentKind_laws : EnumLaws IntentKind.
Proof. solve_enum_laws. Qed.

Module EffectKind.
Inductive EffectKind : Set :=
  Deploy | Withdraw | Replace | Restart | Configure.
#[export] Instance eq_dec : EqDecision EffectKind.
Proof. solve_decision. Defined.
End EffectKind.
Abbreviation EffectKind := EffectKind.EffectKind.
#[export] Instance EffectKind_Enum : Enum EffectKind := {| enum_eq_dec := EffectKind.eq_dec; enum_rows := [
  (EffectKind.Deploy, "Deploy"); (EffectKind.Withdraw, "Withdraw"); (EffectKind.Replace,
  "Replace"); (EffectKind.Restart, "Restart"); (EffectKind.Configure, "Configure")] |}.
#[export] Instance EffectKind_laws : EnumLaws EffectKind.
Proof. solve_enum_laws. Qed.

Module EffectStatus.
Inductive EffectStatus : Set :=
  Succeeded | Partial | Failed | Refused.
#[export] Instance eq_dec : EqDecision EffectStatus.
Proof. solve_decision. Defined.
End EffectStatus.
Abbreviation EffectStatus := EffectStatus.EffectStatus.
#[export] Instance EffectStatus_Enum : Enum EffectStatus := {| enum_eq_dec := EffectStatus.eq_dec; enum_rows := [
  (EffectStatus.Succeeded, "Succeeded"); (EffectStatus.Partial, "Partial");
  (EffectStatus.Failed, "Failed"); (EffectStatus.Refused, "Refused")] |}.
#[export] Instance EffectStatus_laws : EnumLaws EffectStatus.
Proof. solve_enum_laws. Qed.

Module AttemptOutcome.
Inductive AttemptOutcome : Set :=
  Open | Verified | Failed | Cancelled | Fenced | Superseded | Quiesced | Withdrawn.
#[export] Instance eq_dec : EqDecision AttemptOutcome.
Proof. solve_decision. Defined.
End AttemptOutcome.
Abbreviation AttemptOutcome := AttemptOutcome.AttemptOutcome.
#[export] Instance AttemptOutcome_Enum : Enum AttemptOutcome := {| enum_eq_dec := AttemptOutcome.eq_dec; enum_rows := [
  (AttemptOutcome.Open, "Open"); (AttemptOutcome.Verified, "Verified");
  (AttemptOutcome.Failed, "Failed"); (AttemptOutcome.Cancelled, "Cancelled");
  (AttemptOutcome.Fenced, "Fenced"); (AttemptOutcome.Superseded, "Superseded");
  (AttemptOutcome.Quiesced, "Quiesced"); (AttemptOutcome.Withdrawn, "Withdrawn")] |}.
#[export] Instance AttemptOutcome_laws : EnumLaws AttemptOutcome.
Proof. solve_enum_laws. Qed.

Module DecisionKind.
Inductive DecisionKind : Set :=
  Placement | Authority | Eligibility | Dependency | Lifecycle | Rollback | Withdrawal |
  Ingest | Recovery.
#[export] Instance eq_dec : EqDecision DecisionKind.
Proof. solve_decision. Defined.
End DecisionKind.
Abbreviation DecisionKind := DecisionKind.DecisionKind.
#[export] Instance DecisionKind_Enum : Enum DecisionKind := {| enum_eq_dec := DecisionKind.eq_dec; enum_rows := [
  (DecisionKind.Placement, "Placement"); (DecisionKind.Authority, "Authority");
  (DecisionKind.Eligibility, "Eligibility"); (DecisionKind.Dependency, "Dependency");
  (DecisionKind.Lifecycle, "Lifecycle"); (DecisionKind.Rollback, "Rollback");
  (DecisionKind.Withdrawal, "Withdrawal"); (DecisionKind.Ingest, "Ingest");
  (DecisionKind.Recovery, "Recovery")] |}.
#[export] Instance DecisionKind_laws : EnumLaws DecisionKind.
Proof. solve_enum_laws. Qed.

Module RecoveryClass.
Inductive RecoveryClass : Set :=
  Fresh | CleanReopen | TornTailTruncated | EmptyStore | RefusedCorrupt | RefusedVersion |
  RefusedTruncated | RefusedIntegrity.
#[export] Instance eq_dec : EqDecision RecoveryClass.
Proof. solve_decision. Defined.
End RecoveryClass.
Abbreviation RecoveryClass := RecoveryClass.RecoveryClass.
#[export] Instance RecoveryClass_Enum : Enum RecoveryClass := {| enum_eq_dec := RecoveryClass.eq_dec; enum_rows := [
  (RecoveryClass.Fresh, "Fresh"); (RecoveryClass.CleanReopen, "CleanReopen");
  (RecoveryClass.TornTailTruncated, "TornTailTruncated"); (RecoveryClass.EmptyStore,
  "EmptyStore"); (RecoveryClass.RefusedCorrupt, "RefusedCorrupt");
  (RecoveryClass.RefusedVersion, "RefusedVersion"); (RecoveryClass.RefusedTruncated,
  "RefusedTruncated"); (RecoveryClass.RefusedIntegrity, "RefusedIntegrity")] |}.
#[export] Instance RecoveryClass_laws : EnumLaws RecoveryClass.
Proof. solve_enum_laws. Qed.

(** ** Checked arithmetic

    [checked_add], [checked_sub], [checked_mul]: the unsigned and the signed
    branch of each template, for the type whose values are [0..max] or
    [min..max].  [None] is the [false] return, which leaves the output alone. *)
Definition checked_add (max a b : Z) : option Z :=
  if max - b <? a then None else Some (a + b).

Definition checked_add_signed (min max a b : Z) : option Z :=
  if (0 <? b) && (max - b <? a) then None
  else if (b <? 0) && (a <? min - b) then None
  else Some (a + b).

Definition checked_sub (a b : Z) : option Z :=
  if a <? b then None else Some (a - b).

Definition checked_sub_signed (min max a b : Z) : option Z :=
  if (b <? 0) && (max + b <? a) then None
  else if (0 <? b) && (a <? min + b) then None
  else Some (a - b).

Definition checked_mul (max a b : Z) : option Z :=
  if (a =? 0) || (b =? 0) then Some 0
  else if max / b <? a then None else Some (a * b).

(** Signed division in C++ truncates toward zero: [Z.quot]. *)
Definition checked_mul_signed (min max a b : Z) : option Z :=
  if (a =? 0) || (b =? 0) then Some 0
  else if 0 <? a then
    if 0 <? b then (if Z.quot max b <? a then None else Some (a * b))
    else (if b <? Z.quot min a then None else Some (a * b))
  else
    if 0 <? b then (if a <? Z.quot min b then None else Some (a * b))
    else (if a <? Z.quot max b then None else Some (a * b)).

(** [checked_narrow] *)
Definition checked_narrow (max value : Z) : option Z :=
  if max <? value then None else Some value.

Definition saturating_add (max a b : Z) : Z :=
  match checked_add max a b with Some out => out | None => max end.
Definition saturating_mul (max a b : Z) : Z :=
  match checked_mul max a b with Some out => out | None => max end.

Lemma checked_add_spec max a b :
  in_width max a -> in_width max b ->
  checked_add max a b = if decide (a + b <= max) then Some (a + b) else None.
Proof.
  unfold checked_add, in_width. intros Ha Hb.
  destruct (Z.ltb_spec (max - b) a); case_decide; done || lia.
Qed.

Lemma checked_sub_spec max a b :
  in_width max a -> in_width max b ->
  checked_sub a b = if decide (0 <= a - b) then Some (a - b) else None.
Proof.
  unfold checked_sub, in_width. intros Ha Hb.
  destruct (Z.ltb_spec a b); case_decide; done || lia.
Qed.

Lemma checked_mul_spec max a b :
  in_width max a -> in_width max b ->
  checked_mul max a b = if decide (a * b <= max) then Some (a * b) else None.
Proof.
  unfold checked_mul, in_width. intros Ha Hb.
  destruct (Z.eqb_spec a 0) as [->|Ha0]; cbn.
  { case_decide; [done|lia]. }
  destruct (Z.eqb_spec b 0) as [->|Hb0]; cbn.
  { rewrite Z.mul_0_r. case_decide; [done|lia]. }
  destruct (Z.ltb_spec (max / b) a) as [Hlt|Hge]; case_decide as Hd; try done.
  - exfalso. assert (a <= max / b) by (apply Z.div_le_lower_bound; lia). lia.
  - exfalso. apply Hd. pose proof (Z.mul_div_le max b ltac:(lia)). nia.
Qed.

Lemma saturating_add_spec max a b :
  in_width max a -> in_width max b -> saturating_add max a b = Z.min (a + b) max.
Proof.
  intros Ha Hb. unfold saturating_add. rewrite checked_add_spec by done.
  case_decide; lia.
Qed.

Lemma saturating_mul_spec max a b :
  in_width max a -> in_width max b -> saturating_mul max a b = Z.min (a * b) max.
Proof.
  intros Ha Hb. unfold saturating_mul. rewrite checked_mul_spec by done.
  case_decide; lia.
Qed.

(** ** Time

    [LogicalInstant] wraps an unsigned tick count, [WallClockMs] a signed one. *)
Abbreviation LogicalInstant := Z (only parsing).
Abbreviation WallClockMs := Z (only parsing).

(** ** Identities *)
Definition id_char (c : Ascii.ascii) : bool :=
  isalpha c || isdigit c ||
  (code c =? 46) || (code c =? 95) || (code c =? 58) || (code c =? 45).

(** [validate_identity_text] *)
Definition validate_identity_text (text : string) : bool :=
  match text with
  | EmptyString => false
  | String front _ =>
    if 64 <? slen text then false
    else if negb (isalpha front) && negb (isdigit front) then false
    else str_forall id_char text
  end.

(** [StrongId::parse] *)
Definition StrongId_parse (text : string) : Result string :=
  if 64 <? slen text then
    Failed (refuse ReasonCode.OversizedInput "identity text exceeds 64 characters")
  else if negb (validate_identity_text text) then
    Failed (refuse ReasonCode.InvalidIdentity text)
  else Value text.

(** [StrongId::valid] *)
Definition id_valid (id : string) : bool :=
  match id with EmptyString => false | _ => true end.
Lemma id_valid_true id : id_valid id = true <-> id <> "".
Proof. by destruct id. Qed.

Abbreviation DpuId := string (only parsing).
Abbreviation ServiceId := string (only parsing).
Abbreviation ServiceGroupId := string (only parsing).
Abbreviation InstanceId := string (only parsing).
Abbreviation DependencyId := string (only parsing).
Abbreviation HostAttachmentId := string (only parsing).
Abbreviation IsolationDomainId := string (only parsing).
Abbreviation EvidenceId := string (only parsing).
Abbreviation PlanId := string (only parsing).
Abbreviation OriginId := string (only parsing).
Abbreviation StoreId := string (only parsing).
Abbreviation CapabilityKey := string (only parsing).
Abbreviation ExclusiveScopeId := string (only parsing).
Abbreviation OperationId := string (only parsing).
Abbreviation EventId := string (only parsing).

(** What [parse] and a default constructor can produce. *)
Definition wf_id (id : string) : Prop := id = "" \/ validate_identity_text id = true.

Lemma StrongId_parse_valid text :
  validate_identity_text text = true -> StrongId_parse text = Value text.
Proof.
  intros Hv. unfold StrongId_parse. rewrite Hv. cbn.
  destruct text as [|c s]; [done|]. cbn [validate_identity_text] in Hv.
  by destruct (64 <? slen _).
Qed.

Lemma StrongId_parse_Value text id :
  StrongId_parse text = Value id -> id = text /\ validate_identity_text text = true.
Proof.
  unfold StrongId_parse. destruct (64 <? slen text); [done|].
  destruct (validate_identity_text text); cbn; [|done]. by intros [= <-].
Qed.

(** A valid text followed by valid characters, within the bound, is valid. *)
Lemma validate_identity_app a b :
  validate_identity_text a = true -> str_forall id_char b = true ->
  slen (a +:+ b) <= 64 -> validate_identity_text (a +:+ b) = true.
Proof.
  destruct a as [|c a]; [done|]. change (String c a +:+ b) with (String c (a +:+ b)).
  cbn [validate_identity_text]. intros Ha Hb Hl.
  destruct (64 <? slen (String c a)); [done|].
  destruct (Z.ltb_spec 64 (slen (String c (a +:+ b)))); [lia|].
  destruct (negb _ && negb _); [done|].
  change (String c (a +:+ b)) with (String c a +:+ b).
  by rewrite str_forall_app, Ha, Hb.
Qed.

(** ** Monotonic counters *)
Abbreviation Counter := Z (only parsing).
Definition counter_valid (c : Counter) : bool := negb (c =? 0).
Lemma counter_valid_true c : counter_valid c = true <-> c <> 0.
Proof. unfold counter_valid. lia. Qed.

(** [Counter::next] and [Counter::saturating_next] *)
Definition counter_next (c : Counter) : Result Counter :=
  match checked_add u64_max c 1 with
  | Some next_value => Value next_value
  | None => Failed (refuse ReasonCode.ArithmeticOverflow "counter exhausted")
  end.
Definition saturating_next (c : Counter) : Counter := saturating_add u64_max c 1.

Lemma saturating_next_le c : in_width u64_max c -> c <= saturating_next c <= u64_max.
Proof.
  intros Hc. unfold saturating_next. rewrite saturating_add_spec;
    unfold in_width, u64_max in *; lia.
Qed.

Abbreviation TopologyGeneration := Counter (only parsing).
Abbreviation CapabilityGeneration := Counter (only parsing).
Abbreviation PolicyGeneration := Counter (only parsing).
Abbreviation DeploymentGeneration := Counter (only parsing).
Abbreviation CoordinatorEpoch := Counter (only parsing).
Abbreviation BootIncarnation := Counter (only parsing).
Abbreviation AttemptNumber := Counter (only parsing).
Abbreviation ReplicaIndex := Counter (only parsing).
Abbreviation OriginEpoch := Counter (only parsing).
Abbreviation Sequence := Counter (only parsing).
Abbreviation Incarnation := Counter (only parsing).
