(* ===== verification/Version.v ===== *)
(** * Semantic versions and firmware levels

    [ServiceVersion] and [FirmwareApiLevel] of
    [include/dpu/fabric/core/types.hpp] with their functions in
    [src/core/resources.cpp]. *)

From S2P Require Import Prelude Std Reason Types.
#[local] Open Scope Z_scope.

Record ServiceVersion := mkServiceVersion {
  ver_major : Z;
  ver_minor : Z;
  ver_patch : Z;
  ver_prerelease : string
}.
#[export] Instance eta_ServiceVersion : Settable ServiceVersion := fun v =>
  mkServiceVersion (ver_major v) (ver_minor v) (ver_patch v) (ver_prerelease v).
#[export] Instance ServiceVersion_eq_dec : EqDecision ServiceVersion.
Proof. solve_decision. Defined.

Definition kMaxPrerelease : Z := 32.
Definition ServiceVersion_default : ServiceVersion := mkServiceVersion 0 0 0 "".

(** [ServiceVersion::valid] *)
Definition version_valid (v : ServiceVersion) : bool :=
  negb (ver_major v =? 0) || negb (ver_minor v =? 0) || negb (ver_patch v =? 0).

(** [text.find(c)] splits a text at the first [c]: what is before it and, when
    there is one, what is after it. *)
Fixpoint split_at (c : Ascii.ascii) (text : string) : string * option string :=
  match text with
  | EmptyString => ("", None)
  | String d rest =>
    if decide (d = c) then ("", Some rest)
    else let '(before, after) := split_at c rest in (String d before, after)
  end.

(** One component: at most nine decimal digits, accumulated in 32 bits. *)
Fixpoint component_value (value : Z) (component : string) : option Z :=
  match component with
  | EmptyString => Some value
  | String c rest =>
    if isdigit c then component_value ((value * 10 + (code c - 48)) mod 2 ^ 32) rest
    else None
  end.

(** The [while (index < body.size())] loop.  [body] is what is left of the text,
    [done] the components read so far; the fourth iteration always returns, so
    four units of fuel are enough. *)
Fixpoint parse_components (fuel : nat) (body : string) (parts : list Z)
  : Result (list Z) :=
  match fuel with
  | O => Value parts
  | S fuel =>
    match body with
    | EmptyString => Value parts
    | _ =>
      if (3 <=? zlen parts) then
        Failed (refuse ReasonCode.ValueOutOfRange "too many version components")
      else
        let '(component, after) := split_at "."%char body in
        if bool_decide (component = "") || (9 <? slen component) then
          Failed (refuse ReasonCode.ValueOutOfRange "invalid version component")
        else match component_value 0 component with
        | None => Failed (refuse ReasonCode.InvalidEncoding "non-numeric version component")
        | Some value =>
          parse_components fuel (default "" after) (parts ++ [value])
        end
    end
  end.

Definition prerelease_char (c : Ascii.ascii) : bool := isalnum c || (code c =? 46).

(** [ServiceVersion::parse] *)
Definition ServiceVersion_parse (text : string) : Result ServiceVersion :=
  if bool_decide (text = "") then Failed (refuse ReasonCode.MissingField "empty version")
  else if 64 <? slen text then
    Failed (refuse ReasonCode.OversizedInput "version text too long")
  else
    let '(body, dash) := split_at "-"%char text in
    let? prerelease :=
      match dash with
      | None => Value ""
      | Some prerelease =>
        if bool_decide (prerelease = "") then
          Failed (refuse ReasonCode.ValueOutOfRange "empty prerelease")
        else if kMaxPrerelease <? slen prerelease then
          Failed (refuse ReasonCode.OversizedInput "prerelease too long")
        else if negb (str_forall prerelease_char prerelease) then
          Failed (refuse ReasonCode.InvalidEncoding "prerelease charset")
        else Value prerelease
      end in
    let? parts := parse_components 4 body [] in
    match parts with
    | [major; minor; patch] => Value (mkServiceVersion major minor patch prerelease)
    | _ => Failed (refuse ReasonCode.MalformedInput "version requires major.minor.patch")
    end.

(** [ServiceVersion::to_string] *)
Definition version_to_string (v : ServiceVersion) : string :=
  to_string (ver_major v) +:+ "." +:+ to_string (ver_minor v) +:+ "." +:+
  to_string (ver_patch v) +:+
  (if bool_decide (ver_prerelease v = "") then "" else "-" +:+ ver_prerelease v).

(** [operator<=>(ServiceVersion, ServiceVersion)]: a release orders after every
    pre-release of the same triple. *)
Definition version_compare (lhs rhs : ServiceVersion) : comparison :=
  match ver_major lhs ?= ver_major rhs with
  | Eq =>
    match ver_minor lhs ?= ver_minor rhs with
    | Eq =>
      match ver_patch lhs ?= ver_patch rhs with
      | Eq =>
        if bool_decide (ver_prerelease lhs = ver_prerelease rhs) then Eq
        else if bool_decide (ver_prerelease lhs = "") then Gt
        else if bool_decide (ver_prerelease rhs = "") then Lt
        else if str_lt (ver_prerelease lhs) (ver_prerelease rhs) then Lt else Gt
      | c => c
      end
    | c => c
    end
  | c => c
  end.

Definition version_lt (lhs rhs : ServiceVersion) : bool :=
  match version_compare lhs rhs with Lt => true | _ => false end.

Record FirmwareApiLevel := mkFirmwareApiLevel { fw_major : Z; fw_minor : Z }.
Definition FirmwareApiLevel_default : FirmwareApiLevel := mkFirmwareApiLevel 0 0.
#[export] Instance FirmwareApiLevel_eq_dec : EqDecision FirmwareApiLevel.
Proof. solve_decision. Defined.

(** The defaulted [operator<=>] and [FirmwareApiLevel::to_string]. *)
Definition firmware_lt (lhs rhs : FirmwareApiLevel) : bool :=
  (fw_major lhs <? fw_major rhs) ||
  ((fw_major lhs =? fw_major rhs) && (fw_minor lhs <? fw_minor rhs)).
Definition firmware_to_string (l : FirmwareApiLevel) : string :=
  to_string (fw_major l) +:+ "." +:+ to_string (fw_minor l).

Example parse_release : ServiceVersion_parse "1.20.3" = Value (mkServiceVersion 1 20 3 "").
Proof. reflexivity. Qed.
Example parse_prerelease :
  ServiceVersion_parse "1.0.0-rc.1" = Value (mkServiceVersion 1 0 0 "rc.1").
Proof. reflexivity. Qed.
Example parse_short : has_value (ServiceVersion_parse "1.2") = false.
Proof. reflexivity. Qed.
(** The loop leaves a trailing dot unread. *)
Example parse_trailing_dot :
  ServiceVersion_parse "1.2.3." = Value (mkServiceVersion 1 2 3 "").
Proof. reflexivity. Qed.

(** ** The version order *)
Lemma version_compare_Eq v w : version_compare v w = Eq -> v = w.
Proof.
  unfold version_compare. destruct v as [a b c p], w as [a' b' c' p']; cbn.
  destruct (Z.compare_spec a a'), (Z.compare_spec b b'), (Z.compare_spec c c');
    try done. intros Hp. repeat case_bool_decide; simplify_eq; try done.
  by destruct (str_lt p p').
Qed.

(** The pre-release part alone, with the empty one greatest. *)
Definition prerelease_lt (p q : string) : bool :=
  if bool_decide (p = q) then false
  else if bool_decide (p = "") then false
  else if bool_decide (q = "") then true else str_lt p q.

#[export] Instance prerelease_lt_strict : StrictTotal prerelease_lt.
Proof.
  unfold prerelease_lt. split.
  - intros p. by case_bool_decide.
  - intros p q r. repeat case_bool_decide; subst; try done;
      intros Hpq Hqr; try done.
    + by rewrite (st_asym _ _ _ Hpq) in Hqr.
    + by apply (st_trans _ _ _ Hpq).
  - intros p q. repeat case_bool_decide; subst; try done. by apply st_total.
Qed.

Lemma version_lt_spec v w :
  version_lt v w = true <->
  ver_major v < ver_major w \/ ver_major v = ver_major w /\
  (ver_minor v < ver_minor w \/ ver_minor v = ver_minor w /\
   (ver_patch v < ver_patch w \/ ver_patch v = ver_patch w /\
    prerelease_lt (ver_prerelease v) (ver_prerelease w) = true)).
Proof.
  unfold version_lt, version_compare, prerelease_lt.
  destruct (Z.compare_spec (ver_major v) (ver_major w)); [|split; [lia|done]|split; [done|lia]].
  destruct (Z.compare_spec (ver_minor v) (ver_minor w)); [|split; [lia|done]|split; [done|lia]].
  destruct (Z.compare_spec (ver_patch v) (ver_patch w)); [|split; [lia|done]|split; [done|lia]].
  repeat case_bool_decide; try (split; [done|lia]).
  - split; [|done]. intros _. lia.
  - destruct (str_lt _ _); split; try done; lia.
Qed.

#[export] Instance version_lt_strict : StrictTotal version_lt.
Proof.
  split.
  - intros v. destruct (version_lt v v) eqn:H; [|done].
    apply version_lt_spec in H. rewrite st_irrefl in H. intuition (lia || done).
  - intros u v w Huv Hvw. apply version_lt_spec in Huv, Hvw. apply version_lt_spec.
    destruct Huv as [?|(?&[?|(?&[?|(?&Hp)])])], Hvw as [?|(?&[?|(?&[?|(?&Hq)])])];
      try lia.
    do 3 (right; split; [lia|]). by apply (st_trans _ _ _ Hp).
  - intros v w. unfold version_lt.
    destruct (version_compare v w) eqn:Hvw; [|done|]; intros _ Hwv.
    { by apply version_compare_Eq. }
    exfalso. revert Hvw Hwv. unfold version_compare.
    rewrite (Z.compare_antisym (ver_major v)), (Z.compare_antisym (ver_minor v)),
      (Z.compare_antisym (ver_patch v)).
    destruct (ver_major v ?= _), (ver_minor v ?= _), (ver_patch v ?= _); cbn; try done.
    repeat case_bool_decide; try done; try congruence.
    destruct (str_lt (ver_prerelease v) _) eqn:Hlt1; [done|].
    destruct (str_lt (ver_prerelease w) _) eqn:Hlt2; [done|].
    pose proof (st_total _ _ Hlt1 Hlt2). congruence.
Qed.

(** ** Reading back a printed version *)
Lemma split_at_app c a b :
  str_forall (fun d => negb (bool_decide (d = c))) a = true ->
  split_at c (a +:+ String c b) = (a, Some b).
Proof.
  induction a as [|d a IH]; cbn [str_forall]; intros Ha.
  - change ("" +:+ String c b) with (String c b). cbn [split_at]. by rewrite decide_True.
  - bool_prop. change (String d a +:+ String c b) with (String d (a +:+ String c b)).
    cbn [split_at]. rewrite decide_False by done. by rewrite IH.
Qed.

Lemma split_at_none c a :
  str_forall (fun d => negb (bool_decide (d = c))) a = true -> split_at c a = (a, None).
Proof.
  induction a as [|d a IH]; cbn [str_forall]; intros Ha; [done|].
  bool_prop. cbn [split_at]. rewrite decide_False by done. by rewrite IH.
Qed.

Lemma str_forall_impl (P Q : Ascii.ascii -> bool) s :
  (forall c, P c = true -> Q c = true) -> str_forall P s = true -> str_forall Q s = true.
Proof.
  intros HPQ. induction s as [|c s IH]; cbn; [done|]. intros H. bool_prop.
  by rewrite HPQ, IH.
Qed.

Lemma digits_exclude c s :
  isdigit c = false -> str_forall isdigit s = true ->
  str_forall (fun d => negb (bool_decide (d = c))) s = true.
Proof.
  intros Hc. apply str_forall_impl. intros d Hd. apply negb_true_iff, bool_decide_eq_false.
  intros ->. congruence.
Qed.

Lemma dec_value_ge v s : str_forall isdigit s = true -> 0 <= v -> v <= dec_value v s.
Proof.
  revert v. induction s as [|c s IH]; intros v Hs Hv; cbn in *; [lia|].
  unfold isdigit in Hs. bool_prop. etransitivity; [|apply IH; [done|lia]]. lia.
Qed.

Lemma component_value_digits v s :
  str_forall isdigit s = true -> 0 <= v -> dec_value v s < 2 ^ 32 ->
  component_value v s = Some (dec_value v s).
Proof.
  revert v. induction s as [|c s IH]; intros v Hs Hv Hlt; cbn in *; [done|].
  apply andb_true_iff in Hs as [Hc Hs]. rewrite Hc.
  assert (0 <= code c - 48) by (unfold isdigit in Hc; bool_prop; lia).
  pose proof (dec_value_ge (v * 10 + (code c - 48)) s Hs ltac:(lia)).
  rewrite Z.mod_small by lia. by apply IH; [|lia|].
Qed.

(** A version whose components fit nine digits and whose pre-release text is one
    [parse] accepts. *)
Definition version_printable (v : ServiceVersion) : Prop :=
  0 <= ver_major v < 10 ^ 9 /\ 0 <= ver_minor v < 10 ^ 9 /\ 0 <= ver_patch v < 10 ^ 9 /\
  str_forall prerelease_char (ver_prerelease v) = true /\ slen (ver_prerelease v) <= 32.

Lemma small_to_string z :
  0 <= z < 10 ^ 9 ->
  str_forall isdigit (to_string z) = true /\ 1 <= slen (to_string z) <= 9 /\
  to_string z <> "" /\ component_value 0 (to_string z) = Some z.
Proof.
  intros Hz. assert (Hd : str_forall isdigit (to_string z) = true)
    by (apply to_string_digits; lia).
  assert (Hne : to_string z <> "").
  { unfold to_string. destruct (Z.ltb_spec z 0); [lia|]. apply dec_digits_nonempty. lia. }
  assert (Hval : dec_value 0 (to_string z) = z)
    by (apply to_string_value; unfold u64_max; lia).
  split_and!; [done| | |done|].
  - destruct (to_string z) as [|c s]; [done|]. rewrite slen_cons.
    pose proof (slen_nonneg s). lia.
  - unfold to_string. destruct (Z.ltb_spec z 0); [lia|].
    pose proof (dec_digits_slen 20 9 z "" ltac:(lia) Hz) as Hs.
    change (slen "") with 0 in Hs. lia.
  - rewrite component_value_digits; [by rewrite Hval|done|lia|]. rewrite Hval. lia.
Qed.

(** One printed component, followed by a dot or by the end, is read back. *)
Lemma parse_components_step fuel z rest parts :
  0 <= z < 10 ^ 9 -> zlen parts < 3 ->
  parse_components (S fuel) (to_string z +:+ "." +:+ rest) parts =
    parse_components fuel rest (parts ++ [z]) /\
  parse_components (S fuel) (to_string z) parts = parse_components fuel "" (parts ++ [z]).
Proof.
  intros Hz Hp. destruct (small_to_string z Hz) as (Hd & Hl & Hne & Hv).
  pose proof (digits_exclude "."%char _ eq_refl Hd) as Hdot.
  assert (Hlen : (3 <=? zlen parts) = false) by lia.
  assert (Hl9 : (9 <? slen (to_string z)) = false) by lia.
  split; cbn [parse_components].
  - destruct (to_string z +:+ "." +:+ rest) as [|c s] eqn:Heq.
    { by destruct (to_string z). }
    rewrite <-Heq, Hlen. change ("." +:+ rest) with (String "."%char rest).
    rewrite split_at_app by done. rewrite bool_decide_eq_false_2 by done.
    by rewrite Hl9, Hv.
  - destruct (to_string z) as [|c s] eqn:Heq; [done|].
    rewrite <-Heq in *. rewrite Hlen, split_at_none by done.
    rewrite bool_decide_eq_false_2 by done. by rewrite Hl9, Hv.
Qed.

Definition version_body (v : ServiceVersion) : string :=
  to_string (ver_major v) +:+ "." +:+ to_string (ver_minor v) +:+ "." +:+
  to_string (ver_patch v).

Lemma parse_components_body v :
  version_printable v ->
  parse_components 4 (version_body v) [] =
    Value [ver_major v; ver_minor v; ver_patch v].
Proof.
  intros (Hm & Hn & Hp & _). unfold version_body.
  rewrite (proj1 (parse_components_step 3 _ _ [] Hm eq_refl)).
  rewrite (proj1 (parse_components_step 2 _ _ [ver_major v] Hn eq_refl)).
  cbn [app]. by rewrite (proj2 (parse_components_step 1 _ "" [ver_major v; ver_minor v] Hp eq_refl)).
Qed.

Lemma version_body_no_dash v :
  version_printable v ->
  str_forall (fun d => negb (bool_decide (d = "-"%char))) (version_body v) = true /\
  slen (version_body v) <= 29 /\ version_body v <> "".
Proof.
  intros (Hm & Hn & Hp & _). unfold version_body.
  destruct (small_to_string _ Hm) as (Dm & Lm & Em & _),
    (small_to_string _ Hn) as (Dn & Ln & _), (small_to_string _ Hp) as (Dp & Lp & _).
  rewrite !str_forall_app, !slen_app. change (slen ".") with 1.
  rewrite (digits_exclude "-"%char _ eq_refl Dm), (digits_exclude "-"%char _ eq_refl Dn),
    (digits_exclude "-"%char _ eq_refl Dp). split_and!; [done|lia|].
  by destruct (to_string (ver_major v)).
Qed.

(** [ServiceVersion::parse] reads back what
    [ServiceVersion::to_string] prints, for every version whose components have
    at most nine digits and whose pre-release text is well formed. *)
Theorem version_parse_to_string v :
  version_printable v -> ServiceVersion_parse (version_to_string v) = Value v.
Proof.
  intros Hv. destruct (version_body_no_dash v Hv) as (Hd & Hl & Hne).
  pose proof (parse_components_body v Hv) as Hpc. destruct Hv as (_ & _ & _ & Hch & Hpl).
  assert (Htext : version_to_string v = version_body v +:+
    (if bool_decide (ver_prerelease v = "") then "" else "-" +:+ ver_prerelease v)).
  { unfold version_to_string, version_body. by rewrite !string_app_assoc. }
  unfold ServiceVersion_parse. rewrite Htext. clear Htext.
  destruct v as [major minor patch pre]; cbn [ver_prerelease ver_major ver_minor ver_patch] in *.
  set (body := version_body _) in *. rewrite bool_decide_eq_false_2 by (by destruct body).
  case_bool_decide as Hpre.
  - subst pre. rewrite string_app_empty.
    rewrite (proj2 (Z.ltb_ge _ _)) by lia. rewrite split_at_none by done.
    cbn [result_bind]. rewrite Hpc. done.
  - rewrite (proj2 (Z.ltb_ge _ _)) by (rewrite !slen_app; change (slen "-") with 1; lia).
    change ("-" +:+ pre) with (String "-"%char pre). rewrite split_at_app by done.
    rewrite bool_decide_eq_false_2 by done. unfold kMaxPrerelease.
    rewrite (proj2 (Z.ltb_ge _ _)) by lia. rewrite Hch. cbn [negb result_bind].
    rewrite Hpc. done.
Qed.

Lemma version_parse_to_string_witness :
  ServiceVersion_parse (version_to_string (mkServiceVersion 12 0 999999999 "rc.1")) =
  Value (mkServiceVersion 12 0 999999999 "rc.1").
Proof. apply version_parse_to_string. repeat split; by vm_compute. Defined.
