(* ===== verification/Resources.v ===== *)
(** * Resource vectors and runtime bounds

    [include/dpu/fabric/core/resources.hpp] and the rest of
    [src/core/resources.cpp]. *)

From S2P Require Import Prelude Std Reason Types.
#[local] Open Scope Z_scope.

Record ResourceVector := mkResourceVector {
  cpu_millicores : Z;
  memory_bytes : Z;
  network_bps : Z;
  crypto_ops_per_sec : Z;
  storage_bytes : Z
}.
#[export] Instance eta_ResourceVector : Settable ResourceVector := fun r =>
  mkResourceVector (cpu_millicores r) (memory_bytes r) (network_bps r)
    (crypto_ops_per_sec r) (storage_bytes r).
#[export] Instance ResourceVector_eq_dec : EqDecision ResourceVector.
Proof. solve_decision. Defined.
Definition ResourceVector_zero : ResourceVector := mkResourceVector 0 0 0 0 0.

(** The five components in declaration order: the loops of the program index
    them from the first field. *)
Definition rv_list (r : ResourceVector) : list Z :=
  [cpu_millicores r; memory_bytes r; network_bps r; crypto_ops_per_sec r; storage_bytes r].

(** One iteration of a component loop: refuse with the component's name. *)
Definition component (code : ReasonCode) (name : string) (out : option Z) : Result Z :=
  match out with
  | Some v => Value v
  | None => Failed (refuse code name)
  end.

(** The loop [for i in 0..5: if (!op(lhs[i], rhs[i], dst[i])) return refuse(...)]. *)
Definition rv_map2 (code : ReasonCode) (op : Z -> Z -> option Z) (a b : ResourceVector)
  : Result ResourceVector :=
  let? cpu := component code "cpu_millicores" (op (cpu_millicores a) (cpu_millicores b)) in
  let? memory := component code "memory_bytes" (op (memory_bytes a) (memory_bytes b)) in
  let? network := component code "network_bps" (op (network_bps a) (network_bps b)) in
  let? crypto := component code "crypto_ops_per_sec"
    (op (crypto_ops_per_sec a) (crypto_ops_per_sec b)) in
  let? storage := component code "storage_bytes" (op (storage_bytes a) (storage_bytes b)) in
  Value (mkResourceVector cpu memory network crypto storage).

(** [ResourceVector::add], [subtract], [scale] *)
Definition rv_add (a b : ResourceVector) : Result ResourceVector :=
  rv_map2 ReasonCode.ArithmeticOverflow (checked_add u64_max) a b.
Definition rv_subtract (a b : ResourceVector) : Result ResourceVector :=
  rv_map2 ReasonCode.ValueOutOfRange checked_sub a b.
Definition rv_scale (a : ResourceVector) (count : Z) : Result ResourceVector :=
  rv_map2 ReasonCode.ArithmeticOverflow (fun x _ => checked_mul u64_max x count) a a.

(** [ResourceVector::is_zero] and [covers] *)
Definition rv_is_zero (r : ResourceVector) : bool := forallb (fun x => x =? 0) (rv_list r).
Definition rv_covers (r required : ResourceVector) : bool :=
  (cpu_millicores required <=? cpu_millicores r) &&
  (memory_bytes required <=? memory_bytes r) &&
  (network_bps required <=? network_bps r) &&
  (crypto_ops_per_sec required <=? crypto_ops_per_sec r) &&
  (storage_bytes required <=? storage_bytes r).

(** [ResourceVector::headroom] *)
Definition rv_headroom (r other : ResourceVector) : Result ResourceVector :=
  if negb (rv_covers r other) then
    Failed (refuse ReasonCode.AllocationExhausted "capacity not covered")
  else rv_subtract r other.

(** One component of [headroom_permille]: the product is taken in 64 bits. *)
Definition permille_step (worst : Z) (lhs_rhs : Z * Z) : Z :=
  let '(lhs, rhs) := lhs_rhs in
  if rhs =? 0 then worst
  else
    let free_units := (lhs - rhs) mod 2 ^ 64 in
    let ratio := ((free_units * 1000) mod 2 ^ 64) / lhs in
    Z.min worst ratio.

(** [ResourceVector::headroom_permille] *)
Definition rv_headroom_permille (r other : ResourceVector) : Result Z :=
  if rv_is_zero other then Failed (refuse ReasonCode.ValueOutOfRange "zero requirement")
  else if negb (rv_covers r other) then
    Failed (refuse ReasonCode.AllocationExhausted "capacity not covered")
  else
    let worst := foldl permille_step 1000 (zip (rv_list r) (rv_list other)) in
    match checked_narrow u32_max worst with
    | Some out => Value out
    | None => Failed (refuse ReasonCode.ArithmeticOverflow "permille")
    end.

(** ** Bounds *)
Record RuntimeBounds := mkRuntimeBounds {
  max_dpus : Z;
  max_services : Z;
  max_instances : Z;
  max_batch_events : Z;
  max_dependencies : Z;
  max_capabilities_per_dpu : Z;
  max_replicas_per_service : Z;
  max_history : Z;
  max_plans_retained : Z;
  max_decisions_retained : Z;
  max_stages : Z;
  max_workers : Z;
  max_journal_bytes : Z;
  max_frame_bytes : Z;
  max_pending_requests : Z;
  max_duplicate_window : Z;
  max_explanations : Z;
  max_pending_intents : Z;
  max_text_bytes : Z;
  bounds_evidence_validity_ticks : Z
}.
#[export] Instance eta_RuntimeBounds : Settable RuntimeBounds := fun b =>
  mkRuntimeBounds (max_dpus b) (max_services b) (max_instances b) (max_batch_events b)
    (max_dependencies b) (max_capabilities_per_dpu b) (max_replicas_per_service b)
    (max_history b) (max_plans_retained b) (max_decisions_retained b) (max_stages b)
    (max_workers b) (max_journal_bytes b) (max_frame_bytes b) (max_pending_requests b)
    (max_duplicate_window b) (max_explanations b) (max_pending_intents b)
    (max_text_bytes b) (bounds_evidence_validity_ticks b).

(** The default member initializers. *)
Definition RuntimeBounds_default : RuntimeBounds :=
  mkRuntimeBounds 1024 256 4096 1024 1024 64 16 2048 64 512 64 8 (4 * 1024 * 1024)
    (1024 * 1024) 128 4096 64 64 256 64.

Definition kMaxDpusCeiling : Z := 4096.
Definition kMaxServicesCeiling : Z := 1024.
Definition kMaxInstancesCeiling : Z := 16384.
Definition kMaxBatchEventsCeiling : Z := 4096.
Definition kMaxDependenciesCeiling : Z := 4096.
Definition kMaxCapabilitiesPerDpuCeiling : Z := 256.
Definition kMaxReplicasPerServiceCeiling : Z := 64.
Definition kMaxHistoryCeiling : Z := 8192.
Definition kMaxJournalBytesCeiling : Z := 64 * 1024 * 1024.
Definition kMaxFrameBytesCeiling : Z := 4 * 1024 * 1024.
Definition kMaxPendingRequestsCeiling : Z := 1024.
Definition kMaxPlansRetainedCeiling : Z := 512.
Definition kMaxDecisionsRetainedCeiling : Z := 4096.
Definition kMaxStagesCeiling : Z := 256.
Definition kMaxWorkersCeiling : Z := 64.

Definition bounds_checks (b : RuntimeBounds) : list (Z * Z * string) := [
  (max_dpus b, kMaxDpusCeiling, "max_dpus");
  (max_services b, kMaxServicesCeiling, "max_services");
  (max_instances b, kMaxInstancesCeiling, "max_instances");
  (max_batch_events b, kMaxBatchEventsCeiling, "max_batch_events");
  (max_dependencies b, kMaxDependenciesCeiling, "max_dependencies");
  (max_capabilities_per_dpu b, kMaxCapabilitiesPerDpuCeiling, "max_capabilities_per_dpu");
  (max_replicas_per_service b, kMaxReplicasPerServiceCeiling, "max_replicas_per_service");
  (max_history b, kMaxHistoryCeiling, "max_history");
  (max_plans_retained b, kMaxPlansRetainedCeiling, "max_plans_retained");
  (max_decisions_retained b, kMaxDecisionsRetainedCeiling, "max_decisions_retained");
  (max_stages b, kMaxStagesCeiling, "max_stages");
  (max_workers b, kMaxWorkersCeiling, "max_workers");
  (max_journal_bytes b, kMaxJournalBytesCeiling, "max_journal_bytes");
  (max_frame_bytes b, kMaxFrameBytesCeiling, "max_frame_bytes");
  (max_pending_requests b, kMaxPendingRequestsCeiling, "max_pending_requests")].

(** The loop over [checks]. *)
Fixpoint run_checks (checks : list (Z * Z * string)) : option Status :=
  match checks with
  | [] => None
  | (value, ceiling, name) :: rest =>
    if value =? 0 then Some (refuse ReasonCode.ValueOutOfRange name)
    else if ceiling <? value then Some (refuse ReasonCode.BoundExceeded name)
    else run_checks rest
  end.

(** [RuntimeBounds::validate] *)
Definition bounds_validate (b : RuntimeBounds) : Status :=
  match run_checks (bounds_checks b) with
  | Some refused => refused
  | None =>
    if (max_duplicate_window b =? 0) || (max_explanations b =? 0) ||
       (max_pending_intents b =? 0) || (max_text_bytes b =? 0) then
      refuse ReasonCode.ValueOutOfRange "zero bound"
    else if 4096 <? max_text_bytes b then refuse ReasonCode.BoundExceeded "max_text_bytes"
    else if kMaxHistoryCeiling <? max_duplicate_window b then
      refuse ReasonCode.BoundExceeded "max_duplicate_window"
    else if kMaxHistoryCeiling <? max_explanations b then
      refuse ReasonCode.BoundExceeded "max_explanations"
    else if kMaxServicesCeiling <? max_pending_intents b then
      refuse ReasonCode.BoundExceeded "max_pending_intents"
    else if bounds_evidence_validity_ticks b =? 0 then
      refuse ReasonCode.ValueOutOfRange "evidence_validity_ticks"
    else Status_success
  end.

Example default_bounds_valid : status_ok (bounds_validate RuntimeBounds_default) = true.
Proof. reflexivity. Qed.

(** ** Correctness *)
Definition wf_rv (r : ResourceVector) : Prop := Forall (in_width u64_max) (rv_list r).

Lemma wf_rv_inv r : wf_rv r ->
  in_width u64_max (cpu_millicores r) /\ in_width u64_max (memory_bytes r) /\
  in_width u64_max (network_bps r) /\ in_width u64_max (crypto_ops_per_sec r) /\
  in_width u64_max (storage_bytes r).
Proof. unfold wf_rv, rv_list. rewrite !Forall_cons. tauto. Qed.

(** Unsigned subtraction of a covered amount, and adding it back. *)
Lemma checked_sub_covered x y :
  in_width u64_max x -> in_width u64_max y -> y <= x ->
  checked_sub x y = Some (x - y) /\ checked_add u64_max (x - y) y = Some x.
Proof.
  intros Hx Hy Hle. unfold in_width in *. split.
  - rewrite (checked_sub_spec u64_max) by done. by rewrite decide_True by lia.
  - rewrite checked_add_spec by (unfold in_width in *; lia).
    rewrite decide_True by lia. f_equal. lia.
Qed.

(** Headroom is exact: when a capacity covers a demand, [headroom] succeeds
    and adding the demand back with the checked [add] gives the capacity; when it
    does not, the answer is [AllocationExhausted] and never a wrapped value. *)
Theorem headroom_exact r other :
  wf_rv r -> wf_rv other ->
  if rv_covers r other then
    exists free, rv_headroom r other = Value free /\ wf_rv free /\ rv_add free other = Value r
  else rv_headroom r other = Failed (refuse ReasonCode.AllocationExhausted "capacity not covered").
Proof.
  intros (Hc & Hm & Hn & Hy & Hs)%wf_rv_inv (Hc' & Hm' & Hn' & Hy' & Hs')%wf_rv_inv.
  unfold rv_headroom. destruct (rv_covers r other) eqn:Hcov; cbn [negb]; [|done].
  unfold rv_covers in Hcov. bool_prop.
  unfold rv_subtract, rv_add, rv_map2.
  destruct (checked_sub_covered _ _ Hc Hc') as [-> Ac]; [done|].
  destruct (checked_sub_covered _ _ Hm Hm') as [-> Am]; [done|].
  destruct (checked_sub_covered _ _ Hn Hn') as [-> An]; [done|].
  destruct (checked_sub_covered _ _ Hy Hy') as [-> Ay]; [done|].
  destruct (checked_sub_covered _ _ Hs Hs') as [-> As]; [done|].
  eexists. cbn [component result_bind cpu_millicores memory_bytes network_bps
    crypto_ops_per_sec storage_bytes]. split; [done|]. split.
  - unfold wf_rv, rv_list, in_width in *. cbn. repeat constructor; lia.
  - cbn [cpu_millicores memory_bytes network_bps crypto_ops_per_sec storage_bytes].
    rewrite Ac, Am, An, Ay, As. by destruct r.
Qed.

Lemma headroom_exact_witness :
  exists free, rv_headroom (mkResourceVector 10 20 30 0 5) (mkResourceVector 4 20 1 0 0) =
    Value free /\ wf_rv free /\
    rv_add free (mkResourceVector 4 20 1 0 0) = Value (mkResourceVector 10 20 30 0 5).
Proof.
  apply (headroom_exact (mkResourceVector 10 20 30 0 5) (mkResourceVector 4 20 1 0 0));
    apply (bool_decide_unpack _); vm_compute; exact I.
Defined.

(** The largest component for which the 64-bit product does not wrap. *)
Definition permille_safe : Z := u64_max / 1000.

Lemma permille_step_exact worst l r :
  0 <= r <= l -> l <= permille_safe ->
  permille_step worst (l, r) =
    if r =? 0 then worst else Z.min worst ((l - r) * 1000 / l).
Proof.
  intros Hr Hl. unfold permille_step. destruct (r =? 0); [done|].
  assert (Hsafe : l <= 18446744073709551) by exact Hl. change (2 ^ 64) with 18446744073709551616.
  rewrite (Z.mod_small (l - r)) by lia. by rewrite Z.mod_small by lia.
Qed.

Lemma permille_fold_exact pairs worst :
  Forall (fun p => 0 <= p.2 <= p.1 /\ p.1 <= permille_safe) pairs ->
  let p := foldl permille_step worst pairs in
  p <= worst /\
  (forall l r, (l, r) ∈ pairs -> r <> 0 -> p <= (l - r) * 1000 / l) /\
  (p = worst \/ exists l r, (l, r) ∈ pairs /\ r <> 0 /\ p = (l - r) * 1000 / l).
Proof.
  revert worst. induction pairs as [|[l r] pairs IH]; intros worst Hall; cbn [foldl].
  - split_and!; [lia|by intros ? ? ?%elem_of_nil|by left].
  - apply Forall_cons in Hall as [[Hlr Hl] Hall]. cbn [fst snd] in *.
    rewrite permille_step_exact by done.
    destruct (Z.eqb_spec r 0) as [->|Hr].
    + destruct (IH worst Hall) as (I1 & I2 & I3). split_and!; [done| |].
      * intros l' r' [?|Hin]%elem_of_cons Hr'; [by simplify_eq|by apply I2].
      * destruct I3 as [->|(l' & r' & Hin & ?)]; [by left|right].
        exists l', r'. split; [by right|done].
    + destruct (IH (Z.min worst ((l - r) * 1000 / l)) Hall) as (I1 & I2 & I3).
      split_and!; [lia| |].
      * intros l' r' [?|Hin]%elem_of_cons Hr'; [simplify_eq; lia|by apply I2].
      * destruct I3 as [Heq|(l' & r' & Hin & ?)].
        -- rewrite Heq. destruct (Z.min_spec worst ((l - r) * 1000 / l)) as [[_ ->]|[_ ->]];
             [by left|right]. exists l, r. split; [by left|done].
        -- right. exists l', r'. split; [by right|done].
Qed.

Lemma covers_pairs r other :
  wf_rv r -> wf_rv other -> rv_covers r other = true ->
  Forall (fun x => x <= permille_safe) (rv_list r) ->
  Forall (fun p => 0 <= p.2 <= p.1 /\ p.1 <= permille_safe) (zip (rv_list r) (rv_list other)).
Proof.
  unfold wf_rv, rv_list, in_width, rv_covers. rewrite !Forall_cons. intros Hr Ho Hc Hs.
  bool_prop. cbn. repeat constructor; cbn; lia.
Qed.

(** [headroom_permille] is the worst component ratio: for capacities whose
    components do not exceed [UINT64_MAX / 1000], a covered non-zero demand has a
    permille between 0 and 1000 that no demanded component exceeds and that some
    demanded component attains (or none constrains it and it is 1000). *)
Theorem headroom_permille_worst r other :
  wf_rv r -> wf_rv other -> rv_covers r other = true -> rv_is_zero other = false ->
  Forall (fun x => x <= permille_safe) (rv_list r) ->
  exists p, rv_headroom_permille r other = Value p /\ 0 <= p <= 1000 /\
    (forall l d, (l, d) ∈ zip (rv_list r) (rv_list other) -> d <> 0 ->
       p <= (l - d) * 1000 / l) /\
    (p = 1000 \/ exists l d, (l, d) ∈ zip (rv_list r) (rv_list other) /\ d <> 0 /\
       p = (l - d) * 1000 / l).
Proof.
  intros Hr Ho Hc Hz Hs. unfold rv_headroom_permille. rewrite Hz, Hc. cbn [negb].
  pose proof (covers_pairs _ _ Hr Ho Hc Hs) as Hall.
  destruct (permille_fold_exact _ 1000 Hall) as (I1 & I2 & I3).
  set (p := foldl permille_step 1000 _) in *.
  assert (Hp : 0 <= p).
  { destruct I3 as [->|(l & d & Hin & Hd & ->)]; [lia|].
    rewrite Forall_forall in Hall. specialize (Hall _ Hin). cbn in Hall.
    apply Z.div_pos; lia. }
  exists p. split; [|split_and!; done || lia].
  unfold checked_narrow, u32_max. by rewrite (proj2 (Z.ltb_ge _ _)) by lia.
Qed.

Lemma headroom_permille_worst_witness :
  exists p, rv_headroom_permille (mkResourceVector 100 400 0 0 7) (mkResourceVector 25 100 0 0 0)
    = Value p /\ 0 <= p <= 1000 /\
    (forall l d, (l, d) ∈ zip (rv_list (mkResourceVector 100 400 0 0 7))
       (rv_list (mkResourceVector 25 100 0 0 0)) -> d <> 0 -> p <= (l - d) * 1000 / l) /\
    (p = 1000 \/ exists l d, (l, d) ∈ zip (rv_list (mkResourceVector 100 400 0 0 7))
       (rv_list (mkResourceVector 25 100 0 0 0)) /\ d <> 0 /\ p = (l - d) * 1000 / l).
Proof.
  apply headroom_permille_worst;
    first [reflexivity | apply (bool_decide_unpack _); vm_compute; exact I].
Defined.

(** The 64-bit product in [headroom_permille] wraps: a device with 2^60 bytes
    of which one is demanded is 999 permille free, and the code answers 7. *)
Theorem headroom_permille_wraps :
  let r := mkResourceVector 0 (2 ^ 60) 0 0 0 in
  let other := mkResourceVector 0 1 0 0 0 in
  wf_rv r /\ wf_rv other /\ rv_covers r other = true /\
  (2 ^ 60 - 1) * 1000 / 2 ^ 60 = 999 /\ rv_headroom_permille r other = Value 7.
Proof.
  split_and!; try reflexivity; apply (bool_decide_unpack _); vm_compute; exact I.
Qed.

(** *** Bounds *)
Lemma run_checks_None checks :
  run_checks checks = None <->
  Forall (fun c => c.1.1 <> 0 /\ c.1.1 <= c.1.2) checks.
Proof.
  induction checks as [|[[v c] n] checks IH]; cbn; [done|].
  rewrite Forall_cons, <-IH. cbn.
  destruct (Z.eqb_spec v 0); [intuition congruence|].
  destruct (Z.ltb_spec c v); [|by intuition]. split; [done|]. intros [[_ ?] _]. lia.
Qed.

Lemma run_checks_Some checks refused :
  run_checks checks = Some refused -> status_ok refused = false.
Proof.
  induction checks as [|[[v c] n] checks IH]; cbn; [done|].
  destruct (v =? 0); [by intros [= <-]|]. by destruct (c <? v); [intros [= <-]|].
Qed.

Definition within (c : Z * Z * string) : Prop := c.1.1 <> 0 /\ c.1.1 <= c.1.2.

(** A configuration passes [RuntimeBounds::validate] exactly when every bound
    is positive and no bound exceeds its compile-time ceiling, so no configuration
    lifts a bound past it. *)
Theorem bounds_validate_ok b :
  status_ok (bounds_validate b) = true <->
  Forall within (bounds_checks b) /\
  max_duplicate_window b <> 0 /\ max_duplicate_window b <= kMaxHistoryCeiling /\
  max_explanations b <> 0 /\ max_explanations b <= kMaxHistoryCeiling /\
  max_pending_intents b <> 0 /\ max_pending_intents b <= kMaxServicesCeiling /\
  max_text_bytes b <> 0 /\ max_text_bytes b <= 4096 /\
  bounds_evidence_validity_ticks b <> 0.
Proof.
  unfold bounds_validate. destruct (run_checks (bounds_checks b)) as [s|] eqn:Hc.
  - apply run_checks_Some in Hc as Hs. rewrite Hs. split; [done|]. intros [Hw _].
    apply run_checks_None in Hw. congruence.
  - apply run_checks_None in Hc. change (fun c => _) with within in Hc.
    destruct (Z.eqb_spec (max_duplicate_window b) 0), (Z.eqb_spec (max_explanations b) 0),
      (Z.eqb_spec (max_pending_intents b) 0), (Z.eqb_spec (max_text_bytes b) 0);
      cbn [orb]; try (split; [done|tauto]).
    destruct (Z.ltb_spec 4096 (max_text_bytes b)); [split; [done|lia]|].
    destruct (Z.ltb_spec kMaxHistoryCeiling (max_duplicate_window b)); [split; [done|lia]|].
    destruct (Z.ltb_spec kMaxHistoryCeiling (max_explanations b)); [split; [done|lia]|].
    destruct (Z.ltb_spec kMaxServicesCeiling (max_pending_intents b)); [split; [done|lia]|].
    destruct (Z.eqb_spec (bounds_evidence_validity_ticks b) 0); [split; [done|tauto]|].
    split; [|done]. intros _. tauto.
Qed.
