(* ===== verification/Bounded.v ===== *)
(** * Bounded containers and truncation accounting

    [include/dpu/fabric/core/bounded.hpp] and [src/core/bounded.cpp]: the ledger
    of every bounded decision and the FIFO with counted evictions. *)

From S2P Require Import Prelude Std Reason Types.
#[local] Open Scope Z_scope.

(** ** The truncation ledger *)
Record TruncationRecord := mkTruncationRecord {
  tr_container : string;
  tr_requested : Z;
  tr_accepted : Z;
  tr_dropped : Z;
  tr_reason : ReasonCode
}.
#[export] Instance eta_TruncationRecord : Settable TruncationRecord := fun r =>
  mkTruncationRecord (tr_container r) (tr_requested r) (tr_accepted r) (tr_dropped r)
    (tr_reason r).
#[export] Instance TruncationRecord_eq_dec : EqDecision TruncationRecord.
Proof. solve_decision. Defined.

(** [operator<] of two records: by container, then by reason value. *)
Definition truncation_lt (a b : TruncationRecord) : bool :=
  if bool_decide (tr_container a = tr_container b) then
    reason_value (tr_reason a) <? reason_value (tr_reason b)
  else str_lt (tr_container a) (tr_container b).

Record TruncationLedger := mkTruncationLedger {
  tl_records : list TruncationRecord;
  tl_overflow : Z
}.
#[export] Instance eta_TruncationLedger : Settable TruncationLedger := fun l =>
  mkTruncationLedger (tl_records l) (tl_overflow l).
Definition TruncationLedger_empty : TruncationLedger := mkTruncationLedger [] 0.

Definition kMaxRecords : Z := 64.

(** The record the loop over [records_] stops at. *)
Definition same_cell (container : string) (reason : ReasonCode) (r : TruncationRecord) : bool :=
  bool_decide (tr_container r = container) && bool_decide (tr_reason r = reason).

(** The loop: [None] when no record matches, else the new records or the
    overflow refusal. *)
Fixpoint ledger_merge (container : string) (requested accepted : Z) (reason : ReasonCode)
    (records : list TruncationRecord) : option (Result (list TruncationRecord)) :=
  match records with
  | [] => None
  | existing :: rest =>
    if same_cell container reason existing then
      Some (match checked_add u64_max (tr_requested existing) requested,
                  checked_add u64_max (tr_accepted existing) accepted with
            | Some total_requested, Some total_accepted =>
              Value (existing <| tr_requested := total_requested |>
                              <| tr_accepted := total_accepted |>
                              <| tr_dropped := total_requested - total_accepted |> :: rest)
            | _, _ => Failed (refuse ReasonCode.ArithmeticOverflow "truncation accounting overflow")
            end)
    else
      match ledger_merge container requested accepted reason rest with
      | Some (Value rest') => Some (Value (existing :: rest'))
      | other => other
      end
  end.

(** [TruncationLedger::record] *)
Definition ledger_record (ledger : TruncationLedger) (container : string)
    (requested accepted : Z) (reason : ReasonCode) : TruncationLedger * Status :=
  if requested <? accepted then
    (ledger, refuse ReasonCode.InvalidAccounting "accepted exceeds requested")
  else
  let dropped := requested - accepted in
  if bool_decide (container = "") || (64 <? slen container) then
    (ledger, refuse ReasonCode.ValueOutOfRange "container label length")
  else
  match ledger_merge container requested accepted reason (tl_records ledger) with
  | Some (Value records) => (ledger <| tl_records := records |>, Status_success)
  | Some (Failed s) => (ledger, s)
  | None =>
    if kMaxRecords <=? zlen (tl_records ledger) then
      match checked_add u64_max (tl_overflow ledger) 1 with
      | Some overflow =>
        (ledger <| tl_overflow := overflow |>,
         Status_make ReasonCode.BoundExceeded "truncation ledger full")
      | None => (ledger, refuse ReasonCode.ArithmeticOverflow "ledger overflow counter")
      end
    else
      (ledger <| tl_records :=
         tl_records ledger ++ [mkTruncationRecord container requested accepted dropped reason] |>,
       Status_success)
  end.

(** [total_dropped], [total_requested], [total_accepted] *)
Definition saturating_total (field : TruncationRecord -> Z) (l : TruncationLedger) : Z :=
  foldl (fun total record => saturating_add u64_max total (field record)) 0 (tl_records l).
Definition total_dropped : TruncationLedger -> Z := saturating_total tr_dropped.
Definition total_requested : TruncationLedger -> Z := saturating_total tr_requested.
Definition total_accepted : TruncationLedger -> Z := saturating_total tr_accepted.

(** [TruncationLedger::clear] *)
Definition ledger_clear (ledger : TruncationLedger) : TruncationLedger :=
  ledger <| tl_records := [] |> <| tl_overflow := 0 |>.

(** ** The bounded FIFO *)
Record BoundedHistory (T : Type) := mkBoundedHistory {
  bh_entries : list T;
  bh_capacity : Z;
  bh_evicted : Z;
  bh_rejected : Z
}.
Arguments mkBoundedHistory {T}.
Arguments bh_entries {T}.
Arguments bh_capacity {T}.
Arguments bh_evicted {T}.
Arguments bh_rejected {T}.
#[export] Instance eta_BoundedHistory T : Settable (BoundedHistory T) := fun h =>
  mkBoundedHistory (bh_entries h) (bh_capacity h) (bh_evicted h) (bh_rejected h).

(** The constructor from a capacity. *)
Definition bh_make {T} (capacity : Z) : BoundedHistory T := mkBoundedHistory [] capacity 0 0.

(** [set_capacity] *)
Definition bh_set_capacity {T} (h : BoundedHistory T) (capacity : Z) : BoundedHistory T :=
  let h := h <| bh_capacity := capacity |> in
  if capacity <? zlen (bh_entries h) then
    let excess := zlen (bh_entries h) - capacity in
    h <| bh_entries := drop (Z.to_nat excess) (bh_entries h) |>
      <| bh_evicted := bh_evicted h + excess |>
  else h.

(** The loop [while (entries_.size() >= capacity_) erase the first]: the entries
    left and the number evicted. *)
Fixpoint bh_evict_loop {T} (capacity : Z) (entries : list T) : list T * Z :=
  match entries with
  | [] => ([], 0)
  | _ :: rest =>
    if capacity <=? zlen entries then
      let '(kept, evicted) := bh_evict_loop capacity rest in (kept, evicted + 1)
    else (entries, 0)
  end.

(** [push]: the new history and the number of entries this call evicted. *)
Definition bh_push {T} (h : BoundedHistory T) (value : T) : BoundedHistory T * Z :=
  if bh_capacity h =? 0 then (h <| bh_rejected := bh_rejected h + 1 |>, 0)
  else
    let '(kept, evicted) := bh_evict_loop (bh_capacity h) (bh_entries h) in
    (h <| bh_entries := kept ++ [value] |> <| bh_evicted := bh_evicted h + evicted |>, evicted).

(** [back] of an empty history is undefined. *)
Definition bh_back {T} (h : BoundedHistory T) : option T := last (bh_entries h).
Definition bh_size {T} (h : BoundedHistory T) : Z := zlen (bh_entries h).
Definition bh_empty {T} (h : BoundedHistory T) : bool := bool_decide (bh_size h = 0).

(** [clear]: what it drops is not counted as evicted. *)
Definition bh_clear {T} (h : BoundedHistory T) : BoundedHistory T := h <| bh_entries := [] |>.

(** ** Correctness *)

(** One cell accounts for everything it saw. *)
Definition record_ok (r : TruncationRecord) : Prop :=
  in_width u64_max (tr_requested r) /\ in_width u64_max (tr_accepted r) /\
  tr_requested r = tr_accepted r + tr_dropped r /\ 0 <= tr_dropped r.

Definition cell (r : TruncationRecord) : string * ReasonCode := (tr_container r, tr_reason r).

(** The ledger invariant: the accounting identity in every cell, one cell per
    container and reason, and a bounded number of cells. *)
Record ledger_ok (l : TruncationLedger) : Prop := {
  lo_records : Forall record_ok (tl_records l);
  lo_cells : NoDup (cell <$> tl_records l);
  lo_bound : zlen (tl_records l) <= kMaxRecords;
  lo_overflow : in_width u64_max (tl_overflow l)
}.

(** Exact sums over the cells. *)
Fixpoint sum_of (field : TruncationRecord -> Z) (records : list TruncationRecord) : Z :=
  match records with
  | [] => 0
  | r :: records' => field r + sum_of field records'
  end.

Lemma sum_of_app field l k : sum_of field (l ++ k) = sum_of field l + sum_of field k.
Proof. induction l as [|r l IH]; cbn; [done|]. rewrite IH. lia. Qed.

Lemma sum_of_nonneg field l : Forall (fun r => 0 <= field r) l -> 0 <= sum_of field l.
Proof. induction 1 as [|r l Hr Hl IH]; cbn; lia. Qed.

Lemma same_cell_spec container reason r :
  same_cell container reason r = bool_decide (cell r = (container, reason)).
Proof.
  unfold same_cell, cell. rewrite <-bool_decide_and. apply bool_decide_ext.
  split; [by intros [-> ->]|by intros [= -> ->]].
Qed.

(** What the merge loop does, in one statement. *)
Lemma ledger_merge_spec container requested accepted reason records :
  0 <= accepted <= requested -> requested <= u64_max -> Forall record_ok records ->
  match ledger_merge container requested accepted reason records with
  | None => (container, reason) ∉ cell <$> records
  | Some (Failed s) => s = refuse ReasonCode.ArithmeticOverflow "truncation accounting overflow"
  | Some (Value records') =>
    Forall record_ok records' /\ cell <$> records' = cell <$> records /\
    sum_of tr_requested records' = sum_of tr_requested records + requested /\
    sum_of tr_accepted records' = sum_of tr_accepted records + accepted
  end.
Proof.
  intros Ha Hr. induction 1 as [|r records Hok Hall IH]; cbn [ledger_merge].
  { cbn. apply not_elem_of_nil. }
  rewrite same_cell_spec. case_bool_decide as Hcell.
  - destruct Hok as (Wr & Wa & Hid & Hd).
    rewrite !checked_add_spec by (unfold in_width in *; lia).
    case_decide as H1; [|done]. case_decide as H2; [|done]. split_and!.
    + constructor; [|done]. unfold record_ok, in_width in *. cbn. lia.
    + done.
    + cbn. lia.
    + cbn. lia.
  - destruct (ledger_merge _ _ _ _ records) as [[records'|s]|]; [|done|].
    + destruct IH as (I1 & I2 & I3 & I4). split_and!; cbn.
      * by constructor.
      * by f_equal.
      * lia.
      * lia.
    + rewrite fmap_cons, not_elem_of_cons. by split.
Qed.

(** The ledger keeps its accounting identity: from a well-formed ledger,
    [record] leaves every cell with requested = accepted + dropped, one cell per
    container and reason, at most 64 cells; a successful call adds exactly its
    amounts to the totals, and a refused one leaves the cells untouched, counting
    an overflow when it is the 64-cell bound that refuses. *)
Theorem ledger_accounting l container requested accepted reason :
  ledger_ok l -> in_width u64_max requested -> in_width u64_max accepted ->
  let '(l', s) := ledger_record l container requested accepted reason in
  ledger_ok l' /\
  (if status_ok s then
     sum_of tr_requested (tl_records l') = sum_of tr_requested (tl_records l) + requested /\
     sum_of tr_accepted (tl_records l') = sum_of tr_accepted (tl_records l) + accepted /\
     tl_overflow l' = tl_overflow l
   else tl_records l' = tl_records l /\
     tl_overflow l' = tl_overflow l + (if decide (status_code s = ReasonCode.BoundExceeded)
                                       then 1 else 0)).
Proof.
  intros Hl Hr Ha. unfold ledger_record.
  destruct (Z.ltb_spec requested accepted); [cbn; split; [done|split; [done|rewrite decide_False by done;
    lia]]|].
  destruct (bool_decide (container = "") || (64 <? slen container)); [cbn; split; [done|split; [done|rewrite decide_False by done; lia]]|].
  unfold in_width in Hr, Ha.
  pose proof (ledger_merge_spec container requested accepted reason (tl_records l)
    ltac:(lia) ltac:(lia) (lo_records _ Hl)) as Hm.
  destruct (ledger_merge _ _ _ _ _) as [[records|s]|].
  - destruct Hm as (I1 & I2 & I3 & I4). cbn. split; [|done]. destruct Hl as [L1 L2 L3 L4].
    split; cbn; [done|by rewrite I2| |done].
    apply (f_equal length) in I2. rewrite !length_fmap in I2. unfold zlen in *. by rewrite I2.
  - subst s. cbn. split; [done|split; [done|rewrite decide_False by done; lia]].
  - destruct Hl as [L1 L2 L3 L4]. destruct (Z.leb_spec kMaxRecords (zlen (tl_records l))).
    + rewrite checked_add_spec by (unfold in_width, u64_max in *; lia).
      unfold in_width in *.
      case_decide; cbn; (split; [split; cbn; unfold in_width; done || lia|]).
      * by rewrite decide_True by done.
      * rewrite decide_False by done. split; [done|lia].
    + cbn. split; [|rewrite !sum_of_app; cbn; lia]. split; cbn; [| | |done].
      * apply Forall_app. split; [done|]. constructor; [|constructor].
        unfold record_ok, in_width. cbn. lia.
      * rewrite fmap_app, NoDup_app. split_and!; [done| |apply NoDup_singleton].
        intros x Hx ->%list_elem_of_singleton. by apply Hm.
      * rewrite zlen_app, zlen_cons, zlen_nil. lia.
Qed.

Lemma ledger_accounting_witness :
  let '(l', s) := ledger_record (mkTruncationLedger
      [mkTruncationRecord "history" 5 3 2 ReasonCode.HistoryTruncated] 0)
      "history" 4 1 ReasonCode.HistoryTruncated in
  ledger_ok l' /\
  (if status_ok s then
     sum_of tr_requested (tl_records l') = 5 + 4 /\
     sum_of tr_accepted (tl_records l') = 3 + 1 /\ tl_overflow l' = 0
   else tl_records l' = [mkTruncationRecord "history" 5 3 2 ReasonCode.HistoryTruncated] /\
     tl_overflow l' = 0 + (if decide (status_code s = ReasonCode.BoundExceeded)
                                       then 1 else 0)).
Proof.
  apply (ledger_accounting (mkTruncationLedger
      [mkTruncationRecord "history" 5 3 2 ReasonCode.HistoryTruncated] 0)
      "history" 4 1 ReasonCode.HistoryTruncated).
  - split; [|apply (bool_decide_unpack _); vm_compute; exact I|by vm_compute|by vm_compute].
    repeat constructor; cbn; done || lia.
  - by vm_compute.
  - by vm_compute.
Defined.

(** The saturating totals are the exact sums cut at 64 bits. *)
Lemma saturating_total_spec field l :
  Forall (fun r => in_width u64_max (field r)) (tl_records l) ->
  saturating_total field l = Z.min (sum_of field (tl_records l)) u64_max.
Proof.
  unfold saturating_total. intros Hl.
  assert (Hgen : forall records total, Forall (fun r => in_width u64_max (field r)) records ->
    in_width u64_max total ->
    foldl (fun total record => saturating_add u64_max total (field record)) total records =
    Z.min (total + sum_of field records) u64_max).
  { clear. intros records total Hr. revert total.
    induction Hr as [|r records Hr Hrs IH]; intros total Ht; cbn.
    - unfold in_width in Ht. lia.
    - rewrite saturating_add_spec by done. unfold in_width in *.
      assert (0 <= sum_of field records).
      { apply sum_of_nonneg. eapply Forall_impl; [exact Hrs|]. cbn. lia. }
      rewrite IH by lia. lia. }
  rewrite Hgen by done. f_equal.
Qed.

(** Pushing a whole list. *)
Definition bh_push_all {T} (h : BoundedHistory T) (values : list T) : BoundedHistory T :=
  foldl (fun h v => (bh_push h v).1) h values.

Lemma bh_evict_loop_spec {T} capacity (entries : list T) :
  0 < capacity ->
  let n := Z.to_nat (zlen entries - capacity + 1) in
  bh_evict_loop capacity entries = (drop n entries, Z.of_nat n).
Proof.
  intros Hc. cbn zeta. induction entries as [|x entries IH]; cbn [bh_evict_loop].
  - rewrite drop_nil. f_equal. unfold zlen. cbn [length]. lia.
  - rewrite zlen_cons. destruct (Z.leb_spec capacity (1 + zlen entries)).
    + rewrite IH.
      replace (Z.to_nat (1 + zlen entries - capacity + 1))
        with (S (Z.to_nat (zlen entries - capacity + 1))) by lia.
      cbn [drop]. f_equal. lia.
    + by replace (Z.to_nat (1 + zlen entries - capacity + 1)) with 0%nat by lia.
Qed.

(** A bounded history of capacity [c > 0] is the window of the last [c] pushed
    values, and it counts every value that fell out of the window. *)
Theorem history_window {T} (c : Z) (values : list T) :
  0 < c ->
  let h := bh_push_all (bh_make c) values in
  let n := Z.to_nat (zlen values - c) in
  bh_entries h = drop n values /\ bh_evicted h = Z.of_nat n /\ zlen (bh_entries h) <= c.
Proof.
  intros Hc. cbn zeta. assert (Hinv :
    bh_push_all (bh_make c) values =
      mkBoundedHistory (drop (Z.to_nat (zlen values - c)) values) c
        (Z.of_nat (Z.to_nat (zlen values - c))) 0).
  { unfold bh_push_all. induction values as [|x values IH] using rev_ind.
    - rewrite drop_nil. change (zlen []) with 0. cbn. by rewrite Z2Nat.nonpos by lia.
    - rewrite foldl_app, IH. cbn [foldl]. unfold bh_push. cbn [bh_capacity bh_entries].
      destruct (Z.eqb_spec c 0); [lia|]. rewrite bh_evict_loop_spec by done.
      rewrite drop_drop. set (m := Z.to_nat (zlen values - c)).
      assert (Hm : zlen (drop m values) = zlen values - Z.of_nat m).
      { unfold zlen, m in *. rewrite length_drop. unfold zlen. lia. }
      rewrite Hm, zlen_app. change (zlen [x]) with 1. cbn [fst]. unfold set. cbn.
      assert (Hn : (m + Z.to_nat (zlen values - Z.of_nat m - c + 1) =
        Z.to_nat (zlen values + 1 - c))%nat) by (unfold m; lia).
      rewrite Hn, drop_app_le by (unfold zlen in *; lia).
      f_equal. lia. }
  rewrite Hinv. cbn. split_and!; [done|done|].
  unfold zlen. rewrite length_drop. unfold zlen. lia.
Qed.

Lemma history_window_witness :
  let h := bh_push_all (bh_make 2) [10; 20; 30; 40; 50] in
  let n := Z.to_nat (zlen [10; 20; 30; 40; 50] - 2) in
  bh_entries h = drop n [10; 20; 30; 40; 50] /\ bh_evicted h = Z.of_nat n /\
  zlen (bh_entries h) <= 2.
Proof. apply (history_window 2 [10; 20; 30; 40; 50]). lia. Defined.

(** Every value pushed is held, evicted or rejected, unless [clear] dropped it. *)
Definition bh_seen {T} (h : BoundedHistory T) : Z := zlen (bh_entries h) + bh_evicted h + bh_rejected h.
Definition bh_bounded {T} (h : BoundedHistory T) : Prop := 0 <= bh_capacity h /\ bh_size h <= bh_capacity h.

Lemma bh_push_accounts {T} (h : BoundedHistory T) v :
  bh_bounded h -> let '(h', evicted) := bh_push h v in
  bh_bounded h' /\ bh_seen h' = bh_seen h + 1 /\ bh_evicted h' = bh_evicted h + evicted /\
  (0 < bh_capacity h -> bh_back h' = Some v).
Proof.
  unfold bh_bounded, bh_seen, bh_size, bh_push. intros [Hc Hl].
  destruct (Z.eqb_spec (bh_capacity h) 0) as [Hz|Hnz].
  { cbn. split_and!; lia. }
  rewrite bh_evict_loop_spec by lia. cbn. rewrite zlen_app. change (zlen [v]) with 1.
  unfold zlen in *. rewrite length_drop. split_and!; [lia|lia|lia|lia|]. intros _. unfold bh_back. cbn.
  by rewrite last_snoc.
Qed.

Lemma bh_set_capacity_accounts {T} (h : BoundedHistory T) capacity :
  0 <= capacity -> let h' := bh_set_capacity h capacity in
  bh_bounded h' /\ bh_seen h' = bh_seen h /\ bh_capacity h' = capacity.
Proof.
  intros Hc. destruct h as [entries old evicted rejected].
  unfold bh_bounded, bh_seen, bh_size, bh_set_capacity, set.
  cbn. unfold zlen. destruct (Z.ltb_spec capacity (Z.of_nat (length entries))); cbn; rewrite ?length_drop;
    split_and!; lia.
Qed.

Lemma bh_clear_drops {T} (h : BoundedHistory T) :
  bh_bounded h -> bh_bounded (bh_clear h) /\ bh_empty (bh_clear h) = true /\
  bh_seen (bh_clear h) = bh_seen h - bh_size h.
Proof. unfold bh_bounded, bh_seen, bh_size, bh_empty. intros [Hc Hl]. cbn. change (zlen []) with 0.
split_and!; [lia|lia|done|lia]. Qed.
