(* ===== verification/Socket.v ===== *)
(** * Sockets

    [src/transport/socket.hpp] and the part of [src/transport/socket.cpp] that creates,
    binds, connects, accepts, shuts down and closes sockets (the POSIX branches; sending
    and receiving are in Server.v).  The system calls are an interface, [SocketCalls],
    with what POSIX says of the descriptors they open and close, [SocketLaws]; a small
    kernel that fails on demand shows that the laws can be met. *)

From S2P Require Import Prelude Std Reason Types.
From stdpp Require Import gmap.
#[local] Open Scope Z_scope.

(** [dpu_socket_t] is an [int]; [kDpuInvalidSocket], which is also [kInvalid]. *)
Definition kDpuInvalidSocket : Z := -1.

(** ** The system calls *)

(** Every call takes the kernel and gives it back.  [open_fds] and [port_of] are what an
    observer sees of it: the descriptors of the process, and the port a socket is bound
    to, in network byte order. *)
Class SocketCalls (K : Type) := {
  open_fds : K -> gset Z;
  port_of : K -> Z -> Z;
  sys_socket : K -> K * Z;
  sys_setsockopt : K -> Z -> K * Z;
  sys_bind : K -> Z -> Z -> Z -> K * Z;
  sys_listen : K -> Z -> Z -> K * Z;
  sys_accept : K -> Z -> K * Z;
  sys_connect : K -> Z -> Z -> Z -> K * Z;
  sys_getsockname : K -> Z -> K * (Z * Z);
  sys_shutdown : K -> Z -> Z -> K * Z;
  sys_close : K -> Z -> K * Z;
  strerror_errno : K -> string;
  inet_pton : string -> option Z;
  htons : Z -> Z;
  ntohs : Z -> Z
}.

(** A call that opens a descriptor: it fails with -1 and opens nothing, or returns a new
    one. *)
Definition opens `{SocketCalls K} (k : K) (res : K * Z) : Prop :=
  res.2 = kDpuInvalidSocket /\ open_fds res.1 = open_fds k \/
  0 <= res.2 /\ (res.2 ∉ open_fds k) /\ open_fds res.1 = {[res.2]} ∪ open_fds k.

(** [close] releases the descriptor whatever it returns, as Linux documents. *)
Class SocketLaws (K : Type) `{SocketCalls K} := {
  socket_opens k : opens k (sys_socket k);
  accept_opens k fd : opens k (sys_accept k fd);
  close_releases k fd : open_fds (sys_close k fd).1 = open_fds k ∖ {[fd]};
  setsockopt_keeps k fd : open_fds (sys_setsockopt k fd).1 = open_fds k;
  bind_keeps k fd address port : open_fds (sys_bind k fd address port).1 = open_fds k;
  listen_keeps k fd backlog : open_fds (sys_listen k fd backlog).1 = open_fds k;
  connect_keeps k fd address port : open_fds (sys_connect k fd address port).1 = open_fds k;
  getsockname_keeps k fd : open_fds (sys_getsockname k fd).1 = open_fds k;
  shutdown_keeps k fd how : open_fds (sys_shutdown k fd how).1 = open_fds k;
  bind_port k fd address port : (sys_bind k fd address port).2 = 0 -> port <> htons 0 ->
    port_of (sys_bind k fd address port).1 fd = port;
  listen_port k fd backlog : port_of (sys_listen k fd backlog).1 fd = port_of k fd;
  getsockname_port k fd : (sys_getsockname k fd).2.1 = 0 -> (sys_getsockname k fd).2.2 = port_of k fd;
  ntohs_htons port : in_width 65535 port -> ntohs (htons port) = port
}.

Section sockets.
Context `{SocketCalls K}.

(** ** The shim *)

(** [startup], [cleanup] and [set_inheritable] have something to do on Windows only. *)
Definition startup : Status := Status_success.
Definition set_inheritable (socket : Z) : Status := Status_success.
Definition last_error (k : K) : string := strerror_errno k.

Definition close_socket (k : K) (socket : Z) : K * Status :=
  if socket =? kDpuInvalidSocket then (k, Status_success) else
  let '(k, closed) := sys_close k socket in
  (k, if negb (closed =? 0) then refuse ReasonCode.TransportFailure "close() failed" else Status_success).

(** Giving a socket up: it is closed before the error is looked at. *)
Definition listen_on (k : K) (address : string) (port : Z) : K * Result Z :=
  let '(k, listener) := sys_socket k in
  if listener =? kDpuInvalidSocket then
    (k, Failed (refuse ReasonCode.TransportFailure ("socket() failed: " +:+ last_error k)))
  else
  let '(k, _) := sys_setsockopt k listener in
  match inet_pton (c_str address) with
  | None =>
    let '(k, _) := close_socket k listener in
    (k, Failed (refuse ReasonCode.ValueOutOfRange "invalid bind address"))
  | Some host =>
    let '(k, bound) := sys_bind k listener host (htons port) in
    if negb (bound =? 0) then
      let '(k, _) := close_socket k listener in
      (k, Failed (refuse ReasonCode.TransportFailure ("bind() failed: " +:+ last_error k)))
    else
    let '(k, listening) := sys_listen k listener 16 in
    if negb (listening =? 0) then
      let '(k, _) := close_socket k listener in
      (k, Failed (refuse ReasonCode.TransportFailure ("listen() failed: " +:+ last_error k)))
    else (k, Value listener)
  end.

Definition local_port (k : K) (socket : Z) : K * Result Z :=
  let '(k, (got, sin_port)) := sys_getsockname k socket in
  (k, if negb (got =? 0) then Failed (refuse ReasonCode.TransportFailure "getsockname() failed")
      else Value (ntohs sin_port)).

Definition accept_one (k : K) (listener : Z) : K * Result Z :=
  let '(k, client) := sys_accept k listener in
  if client =? kDpuInvalidSocket then
    (k, Failed (refuse ReasonCode.TransportFailure ("accept() failed: " +:+ last_error k)))
  else (k, Value client).

Definition connect_to (k : K) (address : string) (port : Z) : K * Result Z :=
  let '(k, client) := sys_socket k in
  if client =? kDpuInvalidSocket then
    (k, Failed (refuse ReasonCode.TransportFailure "socket() failed"))
  else
  match inet_pton (c_str address) with
  | None =>
    let '(k, _) := close_socket k client in
    (k, Failed (refuse ReasonCode.ValueOutOfRange "invalid connect address"))
  | Some host =>
    let '(k, connected) := sys_connect k client host (htons port) in
    if negb (connected =? 0) then
      let '(k, _) := close_socket k client in
      (k, Failed (refuse ReasonCode.TransportFailure ("connect() failed: " +:+ last_error k)))
    else (k, Value client)
  end.

(** [SHUT_WR] and [SHUT_RDWR]. *)
Definition shutdown_how (k : K) (socket how : Z) : K * Status :=
  let '(k, shut) := sys_shutdown k socket how in
  (k, if negb (shut =? 0) then refuse ReasonCode.TransportFailure "shutdown() failed" else Status_success).
Definition shutdown_send (k : K) (socket : Z) : K * Status := shutdown_how k socket 1.
Definition shutdown_both (k : K) (socket : Z) : K * Status := shutdown_how k socket 2.

(** ** The listener of the server *)

(** [Server::listen] and [Server::adopt] of [src/transport/server.cpp], with the two
    members of [Server::Impl] they set. *)
Record Listener := mkListener { lst_listener : Z; lst_bound_port : Z }.
Definition Listener_default : Listener := mkListener kDpuInvalidSocket 0.
Definition bind_listener (k : K) (impl : Listener) (listener : Z) : K * Listener * Status :=
  let impl := mkListener listener (lst_bound_port impl) in
  let '(k, bound) := local_port k listener in
  match bound with
  | Failed status => (k, impl, status)
  | Value port => (k, mkListener listener port, Status_success)
  end.
Definition listen (k : K) (impl : Listener) (address : string) (port : Z) : K * Listener * Status :=
  let '(k, listening) := listen_on k address port in
  match listening with
  | Failed status => (k, impl, status)
  | Value listener => bind_listener k impl listener
  end.
Definition adopt (k : K) (impl : Listener) (handle : Z) : K * Listener * Status :=
  if handle =? 0 then (k, impl, refuse ReasonCode.ValueOutOfRange "invalid socket handle")
  else bind_listener k impl handle.

(** ** Descriptors *)

(** A use of the shim, and what it returns. *)
Inductive SocketOp :=
| ListenOn (address : string) (port : Z)
| ConnectTo (address : string) (port : Z)
| AcceptOne (listener : Z)
| LocalPort (socket : Z)
| ShutdownBoth (socket : Z)
| ShutdownSend (socket : Z)
| CloseSocket (socket : Z).

Definition status_result (res : K * Status) : K * Result Z :=
  (res.1, if status_ok res.2 then Value 0 else Failed res.2).
Definition perform (k : K) (op : SocketOp) : K * Result Z :=
  match op with
  | ListenOn address port => listen_on k address port
  | ConnectTo address port => connect_to k address port
  | AcceptOne listener => accept_one k listener
  | LocalPort socket => local_port k socket
  | ShutdownBoth socket => status_result (shutdown_both k socket)
  | ShutdownSend socket => status_result (shutdown_send k socket)
  | CloseSocket socket => status_result (close_socket k socket)
  end.

(** The specification: what the caller has in its hands. *)
Definition account (held : gset Z) (op : SocketOp) (res : Result Z) : gset Z :=
  match op, res with
  | (ListenOn _ _ | ConnectTo _ _ | AcceptOne _), Value fd => {[fd]} ∪ held
  | CloseSocket fd, _ => held ∖ {[fd]}
  | _, _ => held
  end.
(** A descriptor that is handed out was nobody's. *)
Definition is_new (held : gset Z) (op : SocketOp) (res : Result Z) : bool :=
  match op, res with
  | (ListenOn _ _ | ConnectTo _ _ | AcceptOne _), Value fd => (0 <=? fd) && bool_decide (fd ∉ held)
  | _, _ => true
  end.

(** A session: the kernel, the descriptors held, and whether each was new. *)
Definition session_step (state : K * gset Z * bool) (op : SocketOp) : K * gset Z * bool :=
  let '(k, held, new) := state in
  let '(k, res) := perform k op in
  (k, account held op res, new && is_new held op res).
Definition session (k : K) (ops : list SocketOp) : K * gset Z * bool :=
  foldl session_step (k, open_fds k, true) ops.

Context `{!SocketLaws K}.

(** What an operation does to the descriptors is what its result says. *)
Definition accounted (k : K) (op : SocketOp) (res : K * Result Z) : Prop :=
  open_fds res.1 = account (open_fds k) op res.2 /\ is_new (open_fds k) op res.2 = true.

(** Giving up a socket that was just made leaves no trace. *)
Lemma given_up k k' fd op (status : K -> Status) :
  0 <= fd -> fd ∉ open_fds k -> open_fds k' = {[fd]} ∪ open_fds k ->
  match op with CloseSocket _ => False | _ => True end ->
  accounted k op (let '(k2, _) := close_socket k' fd in (k2, Failed (status k2))).
Proof.
  intros Hfd Hnew Hk' Hop. unfold close_socket, kDpuInvalidSocket. destruct (Z.eqb_spec fd (-1)); [lia|].
  pose proof (close_releases k' fd) as Hclose. destruct (sys_close k' fd) as [k2 closed]. cbn in Hclose.
  assert (Hk2 : open_fds k2 = open_fds k) by set_solver. by destruct op.
Qed.

Lemma refused_accounted k k' op status :
  open_fds k' = open_fds k -> match op with CloseSocket _ => False | _ => True end ->
  accounted k op (k', Failed status).
Proof. intros Hk Hop. unfold accounted. by destruct op. Qed.

Lemma opened_accounted k k' fd op :
  0 <= fd -> fd ∉ open_fds k -> open_fds k' = {[fd]} ∪ open_fds k ->
  match op with ListenOn _ _ | ConnectTo _ _ | AcceptOne _ => True | _ => False end ->
  accounted k op (k', Value fd).
Proof.
  intros Hfd Hnew Hk' Hop. unfold accounted.
  assert (Hin : (0 <=? fd) && bool_decide (fd ∉ open_fds k) = true).
  { rewrite bool_decide_true by done. by destruct (Z.leb_spec 0 fd); [|lia]. }
  by destruct op.
Qed.

Lemma listen_accounted k address port : accounted k (ListenOn address port) (listen_on k address port).
Proof.
  unfold listen_on. pose proof (socket_opens k) as Ho. destruct (sys_socket k) as [k1 fd].
  unfold opens in Ho. cbn in Ho.
  destruct (Z.eqb_spec fd kDpuInvalidSocket) as [->|Hvalid].
  { apply refused_accounted; [|done]. destruct Ho as [[_ ?]|[? _]]; [done|by unfold kDpuInvalidSocket in *;
      lia]. }
  destruct Ho as [[? _]|(Hfd & Hnew & Hk1)]; [done|].
  pose proof (setsockopt_keeps k1 fd) as Hk2. destruct (sys_setsockopt k1 fd) as [k2 ?]. cbn in Hk2.
  rewrite Hk1 in Hk2.
  destruct (inet_pton _) as [host|]; [|by apply given_up].
  pose proof (bind_keeps k2 fd host (htons port)) as Hk3.
  destruct (sys_bind k2 fd host (htons port)) as [k3 bound].
  cbn in Hk3. rewrite Hk2 in Hk3. destruct (bound =? 0); cbn [negb]; [|by apply given_up].
  pose proof (listen_keeps k3 fd 16) as Hk4. destruct (sys_listen k3 fd 16) as [k4 listening].
  cbn in Hk4. rewrite Hk3 in Hk4. destruct (listening =? 0); cbn [negb];
    [by apply opened_accounted|by apply given_up].
Qed.

Lemma connect_accounted k address port : accounted k (ConnectTo address port) (connect_to k address port).
Proof.
  unfold connect_to. pose proof (socket_opens k) as Ho. destruct (sys_socket k) as [k1 fd].
  unfold opens in Ho. cbn in Ho.
  destruct (Z.eqb_spec fd kDpuInvalidSocket) as [->|Hvalid].
  { apply refused_accounted; [|done]. destruct Ho as [[_ ?]|[? _]]; [done|by unfold kDpuInvalidSocket in *;
      lia]. }
  destruct Ho as [[? _]|(Hfd & Hnew & Hk1)]; [done|].
  destruct (inet_pton _) as [host|]; [|by apply given_up].
  pose proof (connect_keeps k1 fd host (htons port)) as Hk2.
  destruct (sys_connect k1 fd host (htons port)) as [k2 connected].
  cbn in Hk2. rewrite Hk1 in Hk2. destruct (connected =? 0); cbn [negb];
    [by apply opened_accounted|by apply given_up].
Qed.

Lemma accept_accounted k listener : accounted k (AcceptOne listener) (accept_one k listener).
Proof.
  unfold accept_one. pose proof (accept_opens k listener) as Ho. destruct (sys_accept k listener) as [k1 fd].
  unfold opens in Ho. cbn in Ho. destruct (Z.eqb_spec fd kDpuInvalidSocket) as [->|Hvalid].
  - apply refused_accounted; [|done]. destruct Ho as [[_ ?]|[? _]]; [done|by unfold kDpuInvalidSocket in *;
      lia].
  - destruct Ho as [[? _]|(Hfd & Hnew & Hk1)]; [done|by apply opened_accounted].
Qed.

(** [kDpuInvalidSocket] is never open. *)
Lemma close_accounted k socket :
  kDpuInvalidSocket ∉ open_fds k -> accounted k (CloseSocket socket) (status_result (close_socket k socket)).
Proof.
  intros Hinvalid. split; [|done]. unfold close_socket.
  destruct (Z.eqb_spec socket kDpuInvalidSocket) as [->|_].
  - cbn. set_solver.
  - pose proof (close_releases k socket) as Hclose. destruct (sys_close k socket) as [k1 closed]. exact Hclose.
Qed.

Lemma status_accounted k op (res : K * Status) :
  open_fds res.1 = open_fds k ->
  match op with LocalPort _ | ShutdownBoth _ | ShutdownSend _ => True | _ => False end ->
  accounted k op (status_result res).
Proof. intros Hk Hop. unfold accounted, status_result. destruct op; by destruct (status_ok res.2). Qed.

Lemma perform_accounted k op : kDpuInvalidSocket ∉ open_fds k -> accounted k op (perform k op).
Proof.
  intros Hinvalid. destruct op as [address port|address port|listener|socket|socket|socket|socket];
    cbn [perform].
  - apply listen_accounted.
  - apply connect_accounted.
  - apply accept_accounted.
  - unfold local_port. pose proof (getsockname_keeps k socket).
    destruct (sys_getsockname k socket) as [k1 [got p]].
    cbn in *. by destruct (got =? 0).
  - apply status_accounted; [|done]. unfold shutdown_both, shutdown_how. pose proof (shutdown_keeps k socket 2).
    by destruct (sys_shutdown k socket 2).
  - apply status_accounted; [|done]. unfold shutdown_send, shutdown_how. pose proof (shutdown_keeps k socket 1).
    by destruct (sys_shutdown k socket 1).
  - by apply close_accounted.
Qed.

(** What is held is what is open, and every descriptor is a real one. *)
Definition exact (state : K * gset Z * bool) : Prop :=
  state.1.2 = open_fds state.1.1 /\ state.2 = true /\ forall fd, fd ∈ state.1.2 -> 0 <= fd.

Lemma account_real (held : gset Z) op res fd :
  is_new held op res = true -> (forall fd, fd ∈ held -> 0 <= fd) -> fd ∈ account held op res -> 0 <= fd.
Proof.
  intros Hnew Hreal. destruct op, res; cbn in *; try apply Hreal.
  1-3: apply andb_true_iff in Hnew as [Hnew%Z.leb_le _]; by intros [->%elem_of_singleton|?%Hreal]%elem_of_union.
  all: by intros [?%Hreal _]%elem_of_difference.
Qed.

Lemma session_step_exact state op : exact state -> exact (session_step state op).
Proof.
  destruct state as [[k held] new]. intros (Hheld & Hnew & Hfds). cbn [fst snd] in *. subst held new.
  assert (Hinvalid : kDpuInvalidSocket ∉ open_fds k).
  { intros Hin. specialize (Hfds _ Hin). unfold kDpuInvalidSocket in Hfds. lia. }
  pose proof (perform_accounted k op Hinvalid) as [Hopen Hnew]. unfold session_step.
  destruct (perform k op) as [k1 res]. cbn [fst snd] in *. split; [done|]. split; [exact Hnew|]. cbn [fst snd].
  intros fd. by apply account_real.
Qed.

Lemma session_exact state ops : exact state -> exact (foldl session_step state ops).
Proof. revert state. induction ops as [|op ops IH]; intros state Hst; [done|].
by apply IH, session_step_exact. Qed.
End sockets.

(** C29. Descriptors are accounted for exactly.  Whatever the system calls return, after
    any sequence of listening, connecting, accepting, asking for the port, shutting down
    and closing, the open descriptors of the process are those the calls handed out and
    nobody closed: a refused [listen_on] or [connect_to] gives its socket back on every
    path, and no call hands out a descriptor that is still held. *)
Theorem sockets_are_accounted `{SocketLaws K} (k : K) (ops : list SocketOp) :
  (forall fd, fd ∈ open_fds k -> 0 <= fd) ->
  let '(k', held, new) := session k ops in open_fds k' = held /\ new = true.
Proof.
  intros Hfds. pose proof (session_exact (k, open_fds k, true) ops ltac:(by split)) as (Hheld & Hnew & _).
  unfold session. destruct (foldl session_step _ ops) as [[k' held] new]. done.
Qed.

Lemma listen_on_refuses `{SocketCalls K} (k k' : K) address port status :
  listen_on k address port = (k', Failed status) -> status_ok status = false.
Proof.
  unfold listen_on. destruct (sys_socket k) as [k1 fd]. destruct (fd =? _); [by intros [= _ <-]|].
  destruct (sys_setsockopt k1 fd) as [k2 ?].
  destruct (inet_pton _) as [host|]; [|destruct (close_socket k2 fd); by intros [= _ <-]].
  destruct (sys_bind k2 fd host (htons port)) as [k3 bound].
  destruct (bound =? 0); cbn [negb]; [|destruct (close_socket k3 fd); by intros [= _ <-]].
  destruct (sys_listen k3 fd 16) as [k4 listening].
  destruct (listening =? 0); cbn [negb]; [done|destruct (close_socket k4 fd); by intros [= _ <-]].
Qed.

(** The port asked for is the port one is told, but for 0, where the kernel chooses. *)
Lemma listened_port `{SocketLaws K} (k k' : K) address port listener :
  0 < port <= 65535 -> listen_on k address port = (k', Value listener) ->
  (local_port k' listener).2 = Value port \/
  (local_port k' listener).2 = Failed (refuse ReasonCode.TransportFailure "getsockname() failed").
Proof.
  intros Hport. assert (Hwidth : in_width 65535 port) by (unfold in_width; lia).
  assert (Hzero : htons port <> htons 0).
  { intros Heq. apply (f_equal ntohs) in Heq. rewrite !ntohs_htons in Heq by (unfold in_width; lia). lia. }
  unfold listen_on. destruct (sys_socket k) as [k1 fd]. destruct (fd =? _); [done|].
  destruct (sys_setsockopt k1 fd) as [k2 ?].
  destruct (inet_pton _) as [host|]; [|by destruct (close_socket k2 fd)].
  pose proof (bind_port k2 fd host (htons port)) as Hbind.
  destruct (sys_bind k2 fd host (htons port)) as [k3 bound].
  destruct (Z.eqb_spec bound 0) as [->|_]; cbn [negb]; [|by destruct (close_socket k3 fd)].
  pose proof (listen_port k3 fd 16) as Hlisten. destruct (sys_listen k3 fd 16) as [k4 listening].
  destruct (listening =? 0); cbn [negb]; [|by destruct (close_socket k4 fd)]. intros [= -> ->].
  pose proof (getsockname_port k' listener) as Hname. unfold local_port.
  destruct (sys_getsockname k' listener) as [k5 [got sin_port]]. cbn in *.
  destruct (Z.eqb_spec got 0) as [Hgot|_]; cbn; [left|by right].
  by rewrite (Hname Hgot), Hlisten, (Hbind eq_refl Hzero), ntohs_htons.
Qed.

(** A server that listens has an open listener and knows its port. *)
Lemma listen_ready `{SocketLaws K} (k k' : K) impl impl' address port status :
  0 < port <= 65535 -> listen k impl address port = (k', impl', status) -> status_ok status = true ->
  lst_bound_port impl' = port /\ open_fds k' = {[lst_listener impl']} ∪ open_fds k /\
  lst_listener impl' ∉ open_fds k.
Proof.
  intros Hport. unfold listen. destruct (listen_on k address port) as [k1 [listener|failed]] eqn:Hlisten.
  2: { intros [= _ _ <-]. by apply listen_on_refuses in Hlisten as ->. }
  pose proof (listen_accounted k address port) as [Hopen Hnew]. rewrite Hlisten in Hopen, Hnew.
  cbn in Hopen, Hnew.
  apply andb_true_iff in Hnew as [_ Hnew%bool_decide_eq_true].
  pose proof (listened_port k k1 address port listener Hport Hlisten) as Hbound. unfold bind_listener.
  assert (Hkeep : open_fds (local_port k1 listener).1 = open_fds k1).
  { unfold local_port. pose proof (getsockname_keeps k1 listener).
    by destruct (sys_getsockname k1 listener) as [? [? ?]]. }
  destruct (local_port k1 listener) as [k2 bound]. cbn in Hbound, Hkeep.
  destruct Hbound as [->| ->]; intros [= <- <- <-] Hok; [|done]. cbn. by rewrite Hkeep.
Qed.

(** ** A kernel that fails on demand *)
Record SmallKernel := mkSmallKernel {
  sk_open : gset Z;
  sk_ports : gmap Z Z;
  sk_answers : list Z
}.

(** The result of the next call: 0 when nothing else was asked for. *)
Definition next_answer (k : SmallKernel) : SmallKernel * Z :=
  match sk_answers k with
  | [] => (k, 0)
  | answer :: answers => (mkSmallKernel (sk_open k) (sk_ports k) answers, answer)
  end.
Definition unused (taken : gset Z) : Z := Z.of_nat (fresh (set_map Z.to_nat taken : gset nat)).
Definition open_one (k : SmallKernel) : SmallKernel * Z :=
  let '(k, answer) := next_answer k in
  if answer =? 0 then
    (mkSmallKernel ({[unused (sk_open k)]} ∪ sk_open k) (sk_ports k) (sk_answers k), unused (sk_open k))
  else (k, kDpuInvalidSocket).
Definition swap_bytes (port : Z) : Z := 256 * (port mod 256) + port / 256.

#[export] Instance small_kernel : SocketCalls SmallKernel := {
  open_fds := sk_open;
  port_of k fd := default 0 (sk_ports k !! fd);
  sys_socket := open_one;
  sys_setsockopt k _ := next_answer k;
  sys_bind k fd _ port :=
    let '(k, answer) := next_answer k in
    (if answer =? 0 then
       mkSmallKernel (sk_open k) (<[fd := if port =? 0 then 16540 else port]> (sk_ports k)) (sk_answers k)
     else k, answer);
  sys_listen k _ _ := next_answer k;
  sys_accept k _ := open_one k;
  sys_connect k _ _ _ := next_answer k;
  sys_getsockname k fd := let '(k, answer) := next_answer k in (k, (answer, default 0 (sk_ports k !! fd)));
  sys_shutdown k _ _ := next_answer k;
  sys_close k fd :=
    let '(k, answer) := next_answer k in
    (mkSmallKernel (sk_open k ∖ {[fd]}) (sk_ports k) (sk_answers k), answer);
  strerror_errno _ := "Input/output error";
  inet_pton address := if bool_decide (address = "127.0.0.1") then Some 2130706433 else None;
  htons := swap_bytes;
  ntohs := swap_bytes
}.

Lemma next_answer_keeps k :
  sk_open (next_answer k).1 = sk_open k /\ sk_ports (next_answer k).1 = sk_ports k.
Proof. unfold next_answer. by destruct (sk_answers k). Qed.

Lemma unused_new taken : unused taken ∉ taken.
Proof.
  intros Hin. apply (is_fresh (set_map Z.to_nat taken : gset nat)). apply elem_of_map.
  exists (unused taken). split; [|done]. unfold unused. by rewrite Nat2Z.id.
Qed.

Lemma open_one_opens k : opens k (open_one k).
Proof.
  unfold opens, open_one. destruct (next_answer_keeps k) as [Hopen _]. destruct (next_answer k) as [k1 answer].
  cbn in *. destruct (answer =? 0); cbn; [right|by left]. rewrite Hopen.
  split_and!; [unfold unused; lia|apply unused_new|done].
Qed.

#[export] Instance small_kernel_laws : SocketLaws SmallKernel.
Proof.
  split; intros k; cbn; try (destruct (next_answer_keeps k) as [Hopen Hports];
    destruct (next_answer k) as [k1 answer];
    cbn in Hopen, Hports |- *).
  - apply open_one_opens.
  - intros _. apply open_one_opens.
  - intros fd. by rewrite Hopen.
  - done.
  - intros fd address port. by destruct (answer =? 0).
  - done.
  - done.
  - done.
  - done.
  - intros fd address port -> Hport. cbn. rewrite lookup_insert_eq. cbn. by destruct (Z.eqb_spec port 0).
  - intros fd _. by rewrite Hports.
  - intros fd _. by rewrite Hports.
  - unfold in_width, swap_bytes. intros Hk. Z.div_mod_to_equations. lia.
Qed.

(** Listening, a connection that is refused, one that is accepted, and closing: the
    second [listen] has no room, so its socket is given back. *)
Definition small_session : list SocketOp :=
  [ListenOn "127.0.0.1" 7070; ListenOn "127.0.0.1" 7071; ConnectTo "nowhere" 1; AcceptOne 0; LocalPort 0; CloseSocket 1].
Definition small_start : SmallKernel := mkSmallKernel ∅ ∅ [0; 0; 0; 0; 0; 0; 0; 98].

Lemma sockets_are_accounted_witness :
  let '(k', held, new) := session small_start small_session in open_fds k' = held /\ new = true.
Proof. apply (sockets_are_accounted small_start small_session). intros fd Hin.
by apply elem_of_empty in Hin. Defined.

Example small_session_ends : elements (session small_start small_session).1.2 = [0].
Proof. vm_compute. reflexivity. Qed.
