(* ===== verification/Digest.v ===== *)
(** * SHA-256 digests

    [include/dpu/fabric/core/digest.hpp] and [src/core/digest.cpp].  Bytes and
    32-bit words are [Z]; the streaming hasher is refined to the padded-block
    definition of the hash. *)

From S2P Require Import Prelude Std Reason Types.
#[local] Open Scope Z_scope.

Abbreviation Byte := Z (only parsing).
Definition is_byte : Z -> Prop := in_width u8_max.

(** The bytes of a text and back. *)
Fixpoint bytes_of_string (s : string) : list Byte :=
  match s with
  | EmptyString => []
  | String c s' => code c :: bytes_of_string s'
  end.
Definition char_of_byte (b : Byte) : Ascii.ascii := Ascii.ascii_of_N (Z.to_N b).
Fixpoint string_of_bytes (l : list Byte) : string :=
  match l with
  | [] => EmptyString
  | b :: l' => String (char_of_byte b) (string_of_bytes l')
  end.

(** ** The compression function *)
Definition kRoundConstants : list Z := concat [
  [0x428a2f98; 0x71374491; 0xb5c0fbcf; 0xe9b5dba5; 0x3956c25b; 0x59f111f1; 0x923f82a4];
  [0xab1c5ed5; 0xd807aa98; 0x12835b01; 0x243185be; 0x550c7dc3; 0x72be5d74; 0x80deb1fe];
  [0x9bdc06a7; 0xc19bf174; 0xe49b69c1; 0xefbe4786; 0x0fc19dc6; 0x240ca1cc; 0x2de92c6f];
  [0x4a7484aa; 0x5cb0a9dc; 0x76f988da; 0x983e5152; 0xa831c66d; 0xb00327c8; 0xbf597fc7];
  [0xc6e00bf3; 0xd5a79147; 0x06ca6351; 0x14292967; 0x27b70a85; 0x2e1b2138; 0x4d2c6dfc];
  [0x53380d13; 0x650a7354; 0x766a0abb; 0x81c2c92e; 0x92722c85; 0xa2bfe8a1; 0xa81a664b];
  [0xc24b8b70; 0xc76c51a3; 0xd192e819; 0xd6990624; 0xf40e3585; 0x106aa070; 0x19a4c116];
  [0x1e376c08; 0x2748774c; 0x34b0bcb5; 0x391c0cb3; 0x4ed8aa4a; 0x5b9cca4f; 0x682e6ff3];
  [0x748f82ee; 0x78a5636f; 0x84c87814; 0x8cc70208; 0x90befffa; 0xa4506ceb; 0xbef9a3f7];
  [0xc67178f2]].

(** [std::uint32_t] arithmetic. *)
Definition w32 (z : Z) : Z := z mod 2 ^ 32.
Definition not32 (z : Z) : Z := Z.lxor z u32_max.
Definition rotr (value bits : Z) : Z :=
  Z.lor (Z.shiftr value bits) (w32 (Z.shiftl value (32 - bits))).

Definition nth0 (l : list Z) (i : nat) : Z := nth i l 0.

(** The sixteen big-endian words of a block. *)
Definition block_words (block : list Byte) : list Z :=
  (fun i : nat =>
     Z.lor (Z.lor (Z.lor (Z.shiftl (nth0 block (i * 4)) 24)
                         (Z.shiftl (nth0 block (i * 4 + 1)) 16))
                  (Z.shiftl (nth0 block (i * 4 + 2)) 8))
           (nth0 block (i * 4 + 3))) <$> seq 0 16.

(** One iteration of the message schedule. *)
Definition schedule_step (w : list Z) (i : nat) : list Z :=
  let s0 := Z.lxor (Z.lxor (rotr (nth0 w (i - 15)) 7) (rotr (nth0 w (i - 15)) 18))
                   (Z.shiftr (nth0 w (i - 15)) 3) in
  let s1 := Z.lxor (Z.lxor (rotr (nth0 w (i - 2)) 17) (rotr (nth0 w (i - 2)) 19))
                   (Z.shiftr (nth0 w (i - 2)) 10) in
  w ++ [w32 (nth0 w (i - 16) + s0 + nth0 w (i - 7) + s1)].

Definition schedule (block : list Byte) : list Z :=
  foldl schedule_step (block_words block) (seq 16 48).

(** The eight working variables. *)
Abbreviation Words := (list Z) (only parsing).

(** One round. *)
Definition round (w : list Z) (v : Words) (i : nat) : Words :=
  match v with
  | [a; b; c; d; e; f; g; h] =>
    let s1 := Z.lxor (Z.lxor (rotr e 6) (rotr e 11)) (rotr e 25) in
    let ch := Z.lxor (Z.land e f) (Z.land (not32 e) g) in
    let temp1 := w32 (h + s1 + ch + nth0 kRoundConstants i + nth0 w i) in
    let s0 := Z.lxor (Z.lxor (rotr a 2) (rotr a 13)) (rotr a 22) in
    let maj := Z.lxor (Z.lxor (Z.land a b) (Z.land a c)) (Z.land b c) in
    let temp2 := w32 (s0 + maj) in
    [w32 (temp1 + temp2); a; b; c; w32 (d + temp1); e; f; g]
  | other => other
  end.

(** [Sha256::compress] *)
Definition compress (state : Words) (block : list Byte) : Words :=
  let w := schedule block in
  let v := foldl (round w) state (seq 0 64) in
  zip_with (fun s x => w32 (s + x)) state v.

(** ** The streaming hasher

    [buffer_] holds [buffered_] bytes that matter: the model keeps just those. *)
Record Sha256 := mkSha256 {
  sha_state : Words;
  sha_buffer : list Byte;
  sha_total : Z;
  sha_finished : bool
}.
#[export] Instance eta_Sha256 : Settable Sha256 := fun s =>
  mkSha256 (sha_state s) (sha_buffer s) (sha_total s) (sha_finished s).

Definition sha_init_words : Words :=
  [0x6a09e667; 0xbb67ae85; 0x3c6ef372; 0xa54ff53a; 0x510e527f; 0x9b05688c; 0x1f83d9ab;
   0x5be0cd19].
Definition Sha256_init : Sha256 := mkSha256 sha_init_words [] 0 false.

(** The loop [while (remaining > 0)].  Each pass takes at least one byte, so one
    unit of fuel per byte suffices. *)
Fixpoint sha_update_loop (fuel : nat) (state : Words) (buffer data : list Byte)
  : Words * list Byte :=
  match fuel, data with
  | O, _ | _, [] => (state, buffer)
  | S fuel, _ =>
    let space := (64 - length buffer)%nat in
    let take_n := if bool_decide (length data < space)%nat then length data else space in
    let buffer := buffer ++ take take_n data in
    let data := drop take_n data in
    if bool_decide (length buffer = 64%nat) then
      sha_update_loop fuel (compress state buffer) [] data
    else sha_update_loop fuel state buffer data
  end.

(** [Sha256::update] *)
Definition sha_update (s : Sha256) (data : list Byte) : Sha256 :=
  if sha_finished s then s
  else
    let '(state, buffer) := sha_update_loop (length data) (sha_state s) (sha_buffer s) data in
    s <| sha_total := (sha_total s + zlen data) mod 2 ^ 64 |>
      <| sha_state := state |> <| sha_buffer := buffer |>.

(** The loop [while (buffered_ != 56) update(zero)]: at most 63 zero bytes. *)
Fixpoint sha_pad_loop (fuel : nat) (s : Sha256) : Sha256 :=
  match fuel with
  | O => s
  | S fuel =>
    if bool_decide (length (sha_buffer s) = 56%nat) then s
    else sha_pad_loop fuel (sha_update s [0])
  end.

(** Big-endian bytes of a 64-bit length and of a 32-bit word. *)
Definition be64 (z : Z) : list Byte :=
  (fun i : nat => Z.land (Z.shiftr z (56 - 8 * Z.of_nat i)) 255) <$> seq 0 8.
Definition be32 (z : Z) : list Byte :=
  [Z.land (Z.shiftr z 24) 255; Z.land (Z.shiftr z 16) 255; Z.land (Z.shiftr z 8) 255;
   Z.land z 255].

(** [Digest]: thirty-two bytes. *)
Abbreviation Digest := (list Byte) (only parsing).
Definition kDigestBytes : nat := 32.
Definition Digest_zero : Digest := replicate kDigestBytes 0.

(** [Sha256::finish]: the digest and the hasher it leaves. *)
Definition sha_finish (s : Sha256) : Sha256 * Digest :=
  if sha_finished s then (s, Digest_zero)
  else
    let bit_length := (sha_total s * 8) mod 2 ^ 64 in
    let s := sha_update s [0x80] in
    let s := sha_pad_loop 64 s in
    let s := sha_update s (be64 bit_length) in
    (s <| sha_finished := true |>, sha_state s ≫= be32).

(** [sha256] *)
Definition sha256 (data : list Byte) : Digest :=
  (sha_finish (sha_update Sha256_init data)).2.

(** ** Digests *)
Definition digest_is_zero (d : Digest) : bool := forallb (fun byte => byte =? 0) d.

Definition hex_digit (n : Z) : Ascii.ascii :=
  if n <? 10 then Ascii.ascii_of_N (Z.to_N (48 + n)) else Ascii.ascii_of_N (Z.to_N (87 + n)).

(** [Digest::hex] *)
Fixpoint digest_hex (d : Digest) : string :=
  match d with
  | [] => EmptyString
  | byte :: d' =>
    String (hex_digit (Z.shiftr byte 4)) (String (hex_digit (Z.land byte 15)) (digest_hex d'))
  end.
Definition digest_short_hex (d : Digest) : string := String.substring 0 16 (digest_hex d).

(** The digit of a character, [None] for the refusal. *)
Definition hex_value (c : Ascii.ascii) : option Z :=
  if (48 <=? code c) && (code c <=? 57) then Some (code c - 48)
  else if (97 <=? code c) && (code c <=? 102) then Some (code c - 97 + 10)
  else if (65 <=? code c) && (code c <=? 70) then Some (code c - 65 + 10)
  else None.

(** The byte loop of [Digest::parse_hex]. *)
Fixpoint parse_hex_bytes (text : string) : Result (list Byte) :=
  match text with
  | String c (String d text') =>
    match hex_value c, hex_value d with
    | Some high, Some low =>
      let? rest := parse_hex_bytes text' in
      Value (Z.lor (Z.shiftl high 4) low :: rest)
    | _, _ => Failed (refuse ReasonCode.InvalidDigest "non-hex character")
    end
  | _ => Value []
  end.

(** [Digest::parse_hex] *)
Definition digest_parse_hex (text : string) : Result Digest :=
  if negb (slen text =? 64) then
    Failed (refuse ReasonCode.InvalidDigest "digest must be 64 hex characters")
  else parse_hex_bytes text.

Example sha256_empty : digest_hex (sha256 []) =
  "e3b0c44298fc1c149afbf4c8996fb92427ae41e4649b934ca495991b7852b855".
Proof. vm_compute. reflexivity. Qed.
Example sha256_abc : digest_hex (sha256 (bytes_of_string "abc")) =
  "ba7816bf8f01cfea414140de5dae2223b00361a396177a9cb410ff61f20015ad".
Proof. vm_compute. reflexivity. Qed.
Example sha256_two_blocks :
  digest_hex (sha256 (bytes_of_string "abcdbcdecdefdefgefghfghighijhijkijkljklmklmnlmnomnopnopq")) =
  "248d6a61d20638b8e5c026930c3e6039a33ce45964ff2167f6ecedd419db06c1".
Proof. vm_compute. reflexivity. Qed.

(** ** The streaming hasher computes the padded-block hash *)

(** Splitting into 64-byte blocks. *)
Definition sha_blocks (l : list Byte) : list (list Byte) :=
  reshape (replicate (length l / 64) 64%nat) l.

(** Padding of a message: a one bit, zeros, and the bit length modulo [2^64]. *)
Definition pad_zeros (n : nat) : nat := Z.to_nat ((55 - Z.of_nat n) mod 64).
Definition sha_pad (data : list Byte) : list Byte :=
  data ++ [0x80] ++ replicate (pad_zeros (length data)) 0 ++ be64 (8 * zlen data mod 2 ^ 64).

(** [blocks] followed by [rest] is how a stream splits. *)
Definition splits (l : list Byte) (blocks : list (list Byte)) (rest : list Byte) : Prop :=
  l = concat blocks ++ rest /\ Forall (fun b => length b = 64%nat) blocks /\
  (length rest < 64)%nat.

Lemma splits_unique l blocks rest blocks' rest' :
  splits l blocks rest -> splits l blocks' rest' -> blocks = blocks' /\ rest = rest'.
Proof.
  intros (-> & Hb & Hr) (Heq & Hb' & Hr'). revert blocks' Hb' Heq.
  induction Hb as [|b blocks Hb Hbs IH]; intros blocks' Hb' Heq.
  - destruct Hb' as [|b' blocks' Hb' Hbs']; [done|]. cbn in Heq.
    apply (f_equal length) in Heq. rewrite !length_app in Heq. lia.
  - destruct Hb' as [|b' blocks' Hb' Hbs']; cbn in Heq.
    + apply (f_equal length) in Heq. rewrite !length_app in Heq. lia.
    + rewrite <-!app_assoc in Heq. apply app_inj_1 in Heq as [-> Heq]; [|lia].
      destruct (IH _ Hbs' Heq) as [-> ->]. done.
Qed.

Lemma splits_prefix l k blocks rest blocks' rest' :
  splits l blocks rest -> splits (rest ++ k) blocks' rest' ->
  splits (l ++ k) (blocks ++ blocks') rest'.
Proof.
  intros (-> & Hb & Hr) (Heq & Hb' & Hr'). split_and!; [|by apply Forall_app|done].
  by rewrite concat_app, <-!app_assoc, Heq.
Qed.

Lemma sha_update_loop_splits fuel state buffer data :
  (length buffer < 64)%nat -> (length data <= fuel)%nat ->
  exists blocks rest, splits (buffer ++ data) blocks rest /\
    sha_update_loop fuel state buffer data = (foldl compress state blocks, rest).
Proof.
  revert state buffer data. induction fuel as [|fuel IH]; intros state buffer data Hb Hf.
  { destruct data; [|cbn in Hf; lia]. exists [], buffer. rewrite app_nil_r. by repeat split. }
  cbn [sha_update_loop]. destruct data as [|x data].
  { exists [], buffer. rewrite app_nil_r. by repeat split. }
  set (d := x :: data) in *. set (n := if bool_decide _ then _ else (64 - length buffer)%nat).
  assert (Hn : (n = length d /\ length d < 64 - length buffer \/
    n = 64 - length buffer /\ n <= length d)%nat).
  { unfold n. case_bool_decide; lia. }
  assert (Hd : (0 < length d)%nat) by (cbn; lia).
  assert (Hlen : length (buffer ++ take n d) = (length buffer + n)%nat).
  { rewrite length_app, length_take. lia. }
  assert (Hsplit : buffer ++ d = (buffer ++ take n d) ++ drop n d)
    by (by rewrite <-app_assoc, take_drop).
  rewrite Hsplit.
  case_bool_decide as Hfull.
  - destruct (IH (compress state (buffer ++ take n d)) [] (drop n d)) as (bs & r & Hs & ->);
      [cbn; lia|rewrite length_drop; lia|].
    exists ((buffer ++ take n d) :: bs), r. split; [|done].
    apply (splits_prefix _ _ [_] [] bs r); [|done]. split_and!; cbn.
    + by rewrite !app_nil_r.
    + by repeat constructor.
    + lia.
  - destruct (IH state (buffer ++ take n d) (drop n d)) as (bs & r & Hs & ->);
      [lia|rewrite length_drop; lia|]. by exists bs, r.
Qed.

(** A hasher that can still be fed. *)
Definition sha_open (s : Sha256) : Prop :=
  sha_finished s = false /\ (length (sha_buffer s) < 64)%nat /\ 0 <= sha_total s < 2 ^ 64.

Lemma sha_update_spec s data blocks rest :
  sha_open s -> splits (sha_buffer s ++ data) blocks rest ->
  sha_update s data =
    mkSha256 (foldl compress (sha_state s) blocks) rest ((sha_total s + zlen data) mod 2 ^ 64)
      false.
Proof.
  intros (Hf & Hb & _) Hs. unfold sha_update. rewrite Hf.
  destruct (sha_update_loop_splits (length data) (sha_state s) (sha_buffer s) data Hb ltac:(lia))
    as (bs & r & Hs' & ->).
  destruct (splits_unique _ _ _ _ _ Hs Hs') as [-> ->]. by destruct s; cbn in *; subst.
Qed.

Lemma splits_exists l : exists blocks rest, splits l blocks rest.
Proof.
  destruct (sha_update_loop_splits (length l) [] [] l) as (b & r & Hs & _); [cbn; lia|lia|].
  by exists b, r.
Qed.

Lemma sha_update_open s data : sha_open s -> sha_open (sha_update s data).
Proof.
  intros Ho. destruct (splits_exists (sha_buffer s ++ data)) as (b & r & Hs).
  rewrite (sha_update_spec s data b r) by done.
  split_and!; cbn; [done|by apply Hs|apply Z.mod_pos_bound; lia|apply Z.mod_pos_bound; lia].
Qed.

(** Two parts one after the other are their concatenation. *)
Lemma sha_update_app s a b :
  sha_open s -> sha_update (sha_update s a) b = sha_update s (a ++ b).
Proof.
  intros Ho. destruct (splits_exists (sha_buffer s ++ a)) as (ba & ra & Ha).
  destruct (splits_exists (ra ++ b)) as (bb & rb & Hb).
  pose proof (sha_update_open s a Ho) as Ho'.
  rewrite (sha_update_spec s a ba ra Ho Ha) in *.
  rewrite (sha_update_spec _ b bb rb Ho' Hb).
  rewrite (sha_update_spec s (a ++ b) (ba ++ bb) rb Ho);
    [|rewrite app_assoc; by eapply splits_prefix].
  cbn. rewrite foldl_app, Zplus_mod_idemp_l, zlen_app. f_equal. f_equal. lia.
Qed.

Lemma sha_init_open : sha_open Sha256_init.
Proof. split; [done|]. split; cbn; lia. Qed.

Lemma sha_update_nil s : sha_open s -> sha_update s [] = s.
Proof.
  intros Ho. rewrite (sha_update_spec s [] [] (sha_buffer s) Ho).
  - destruct s as [st b t f]. destruct Ho as (Hf & _ & Ht). cbn in *. subst.
    rewrite Z.add_0_r, Z.mod_small by done. done.
  - rewrite app_nil_r. split_and!; [done|constructor|apply Ho].
Qed.

(** How a message is cut into [update] calls does not matter: feeding any number of
    chunks one after the other is feeding their concatenation, on any unfinished
    hasher. *)
Theorem sha_update_chunks s chunks :
  sha_open s -> foldl sha_update s chunks = sha_update s (concat chunks).
Proof.
  revert s. induction chunks as [|a chunks IH]; intros s Ho; cbn [foldl concat].
  - by rewrite sha_update_nil.
  - rewrite IH by by apply sha_update_open. by apply sha_update_app.
Qed.

Lemma sha_update_chunks_witness :
  foldl sha_update Sha256_init [[97]; []; [98; 99]] = sha_update Sha256_init [97; 98; 99].
Proof. apply (sha_update_chunks Sha256_init [[97]; []; [98; 99]] sha_init_open). Defined.

(** Buffered bytes are what the total leaves over a multiple of 64. *)
Lemma sha_update_buffer_length s data :
  sha_open s -> Z.of_nat (length (sha_buffer (sha_update s data))) =
    (Z.of_nat (length (sha_buffer s)) + zlen data) mod 64.
Proof.
  intros Ho. destruct (splits_exists (sha_buffer s ++ data)) as (b & r & Hs).
  rewrite (sha_update_spec s data b r Ho Hs). cbn.
  destruct Hs as (Heq & Hb & Hr). apply (f_equal length) in Heq.
  rewrite !length_app in Heq.
  assert (Hc : length (concat b) = (64 * length b)%nat).
  { clear -Hb. induction Hb as [|x b Hx Hb IH]; cbn; [done|]. rewrite length_app. lia. }
  unfold zlen. apply Z.mod_unique with (q := Z.of_nat (length b)); lia.
Qed.

(** One more zero byte, one fewer to write. *)
Lemma pad_count_step b :
  0 <= b < 64 -> b <> 56 -> (56 - b) mod 64 = 1 + (56 - (b + 1) mod 64) mod 64.
Proof. intros Hb H56. Z.to_euclidean_division_equations. lia. Qed.

Lemma sha_pad_loop_spec fuel s :
  sha_open s ->
  let k := Z.to_nat ((56 - Z.of_nat (length (sha_buffer s))) mod 64) in
  (k <= fuel)%nat -> sha_pad_loop fuel s = sha_update s (replicate k 0).
Proof.
  revert s. induction fuel as [|fuel IH]; intros s Ho k Hk; cbn [sha_pad_loop].
  { assert (k = 0%nat) as -> by lia. symmetry. by apply sha_update_nil. }
  destruct Ho as (Hf & Hb & Ht). case_bool_decide as H56.
  - unfold k. rewrite H56. symmetry. by apply sha_update_nil.
  - assert (Ho : sha_open s) by done.
    pose proof (sha_update_buffer_length s [0] Ho) as Hlen.
    change (zlen [0]) with 1 in Hlen.
    assert (Hk' : k = S (Z.to_nat ((56 -
      Z.of_nat (length (sha_buffer (sha_update s [0])))) mod 64))).
    { unfold k. rewrite Hlen, pad_count_step by lia. rewrite Z2Nat.inj_add; [done|lia|].
      apply Z.mod_pos_bound. lia. }
    rewrite Hk'. cbn [replicate].
    rewrite IH by (apply sha_update_open, Ho || lia).
    by rewrite sha_update_app.
Qed.

Lemma splits_blocks l n :
  length l = (n * 64)%nat -> splits l (sha_blocks l) [].
Proof.
  intros Hl. unfold sha_blocks. rewrite Hl, Nat.div_mul by done.
  revert l Hl. induction n as [|n IH]; intros l Hl; cbn [replicate reshape].
  - apply nil_length_inv in Hl as ->. split_and!; [done|constructor|cbn; lia].
  - destruct (IH (drop 64 l)) as (Heq & Hb & Hr); [rewrite length_drop; lia|].
    split_and!; [|constructor; [rewrite length_take; lia|done]|done].
    cbn [concat]. rewrite <-app_assoc, <-Heq. by rewrite take_drop.
Qed.

Lemma sha_pad_length data : exists n, length (sha_pad data) = (n * 64)%nat.
Proof.
  exists (Z.to_nat (1 - (55 - zlen data) / 64)).
  unfold sha_pad, pad_zeros. rewrite !length_app, length_replicate.
  change (length (be64 _)) with 8%nat. cbn [length]. unfold zlen.
  set (len := Z.of_nat (length data)).
  pose proof (Z.mod_pos_bound (55 - len) 64 ltac:(lia)).
  pose proof (Z.div_mod (55 - len) 64 ltac:(lia)). lia.
Qed.

(** C39. The streaming hasher refines SHA-256 on padded blocks: [sha256] of a
    message is the compression function folded over the 64-byte blocks of the
    message, the bit [1], the zeros up to 56 modulo 64, and the bit length taken
    modulo 2^64, with the eight words written big-endian. *)
Theorem sha256_padded data :
  sha256 data = foldl compress sha_init_words (sha_blocks (sha_pad data)) ≫= be32.
Proof.
  unfold sha256, sha_finish.
  pose proof (sha_update_open Sha256_init data sha_init_open) as Ho.
  destruct (sha_finished (sha_update Sha256_init data)) eqn:Hfin.
  { by rewrite (proj1 Ho) in Hfin. }
  rewrite sha_update_app by apply sha_init_open.
  set (s1 := sha_update Sha256_init (data ++ [0x80])).
  assert (Ho1 : sha_open s1) by apply sha_update_open, sha_init_open.
  pose proof (sha_update_buffer_length Sha256_init (data ++ [0x80]) sha_init_open) as Hb1.
  cbn [fst snd]. rewrite sha_pad_loop_spec; [|done|].
  2: { pose proof (Z.mod_pos_bound (56 - Z.of_nat (length (sha_buffer s1))) 64). lia. }
  rewrite zlen_app in Hb1. change (zlen [128]) with 1 in Hb1.
  change (Z.of_nat (length (sha_buffer Sha256_init))) with 0 in Hb1.
  rewrite Z.add_0_l in Hb1. fold s1 in Hb1. rewrite Hb1.
  replace (Z.to_nat ((56 - (zlen data + 1) mod 64) mod 64)) with (pad_zeros (length data))
    by (unfold pad_zeros; rewrite Zminus_mod_idemp_r; unfold zlen; do 2 f_equal; lia).
  rewrite sha_update_app by done.
  unfold s1. rewrite sha_update_app by apply sha_init_open.
  assert (Htot : (sha_total (sha_update Sha256_init data) * 8) mod 2 ^ 64 =
    8 * zlen data mod 2 ^ 64).
  { unfold sha_update at 1. cbn [sha_finished Sha256_init].
    destruct (sha_update_loop _ _ _ _). cbn [sha_total set].
    rewrite Z.mul_comm, Z.mul_mod_idemp_r by lia. done. }
  rewrite Htot. clear Htot Hb1 Ho1.
  destruct (sha_pad_length data) as [n Hn]. apply splits_blocks in Hn.
  unfold sha_pad in Hn at 1.
  rewrite (sha_update_spec Sha256_init _ (sha_blocks (sha_pad data)) [] sha_init_open); [done|].
  cbn [sha_buffer Sha256_init app]. by rewrite <-!app_assoc.
Qed.

(** ** Hexadecimal text *)

(** A decidable fact about bytes is checked on the 256 of them. *)
Lemma byte_forall (P : Z -> bool) (b : Z) :
  forallb P (seqZ 0 256) = true -> is_byte b -> P b = true.
Proof.
  intros HP Hb. apply Is_true_true, forallb_True in HP. rewrite Forall_forall in HP.
  apply Is_true_true, HP, elem_of_seqZ. unfold is_byte, in_width, u8_max in Hb. lia.
Qed.

Lemma hex_byte b :
  is_byte b ->
  hex_value (hex_digit (Z.shiftr b 4)) = Some (Z.shiftr b 4) /\
  hex_value (hex_digit (Z.land b 15)) = Some (Z.land b 15) /\
  Z.lor (Z.shiftl (Z.shiftr b 4) 4) (Z.land b 15) = b.
Proof.
  intros Hb. apply (bool_decide_eq_true_1 _).
  pattern b. apply (byte_forall (fun b => bool_decide _) b); [|done].
  vm_compute. reflexivity.
Qed.

Lemma hex_value_range c v : hex_value c = Some v -> 0 <= v < 16.
Proof.
  unfold hex_value. intros Hv.
  destruct ((48 <=? code c) && (code c <=? 57)) eqn:H1; bool_prop; [simplify_eq; lia|].
  destruct ((97 <=? code c) && (code c <=? 102)) eqn:H2; bool_prop; [simplify_eq; lia|].
  destruct ((65 <=? code c) && (code c <=? 70)) eqn:H3; [|done]. bool_prop. simplify_eq. lia.
Qed.

Lemma nibbles_byte high low : 0 <= high < 16 -> 0 <= low < 16 ->
  is_byte (Z.lor (Z.shiftl high 4) low).
Proof.
  intros Hh Hl. rewrite Z.lor_comm, lor_shiftl_add by (cbn; lia).
  unfold is_byte, in_width, u8_max. lia.
Qed.

Lemma digest_hex_length d : slen (digest_hex d) = 2 * zlen d.
Proof.
  induction d as [|b d IH]; [done|]. cbn [digest_hex]. rewrite !slen_cons, zlen_cons. lia.
Qed.

Lemma parse_hex_bytes_hex d : Forall is_byte d -> parse_hex_bytes (digest_hex d) = Value d.
Proof.
  induction 1 as [|b d Hb Hd IH]; [done|]. cbn [digest_hex parse_hex_bytes].
  destruct (hex_byte b Hb) as (-> & -> & Hor). by rewrite IH, Hor.
Qed.

Lemma parse_hex_bytes_sound n text d :
  String.length text = (2 * n)%nat -> parse_hex_bytes text = Value d ->
  length d = n /\ Forall is_byte d.
Proof.
  revert text d. induction n as [|n IH]; intros text d Hl.
  { destruct text; [|done]. cbn. intros [= <-]. by split. }
  destruct text as [|c [|c' text]]; [done|cbn in Hl; lia|]. cbn [parse_hex_bytes].
  destruct (hex_value c) as [high|] eqn:Hh; [|done].
  destruct (hex_value c') as [low|] eqn:Hlo; [|done].
  intros (rest & Hr & [= <-])%result_bind_Value.
  destruct (IH text rest) as [IH1 IH2]; [cbn in Hl; lia|done|].
  split; [cbn; lia|]. constructor; [|done].
  by apply nibbles_byte; eapply hex_value_range.
Qed.

(** Well-formed digests. *)
Definition wf_digest (d : Digest) : Prop := length d = kDigestBytes /\ Forall is_byte d.

Lemma digest_parse_hex_sound text d : digest_parse_hex text = Value d -> wf_digest d.
Proof.
  unfold digest_parse_hex. destruct (Z.eqb_spec (slen text) 64); [|done].
  cbn. intros Hp. apply (parse_hex_bytes_sound 32 text d); [unfold slen in *; lia|done].
Qed.
Lemma digest_parse_hex_hex d : wf_digest d -> digest_parse_hex (digest_hex d) = Value d.
Proof.
  intros [Hl Hb]. unfold digest_parse_hex. rewrite digest_hex_length. unfold zlen. rewrite Hl.
  by apply parse_hex_bytes_hex.
Qed.

(** The hexadecimal form of a digest parses back to the digest, and whatever
    [Digest::parse_hex] accepts is a digest of thirty-two bytes. *)
Theorem digest_hex_roundtrip d :
  wf_digest d ->
  digest_parse_hex (digest_hex d) = Value d /\
  forall text d', digest_parse_hex text = Value d' -> wf_digest d'.
Proof.
  intros Hd. split.
  - by apply digest_parse_hex_hex.
  - exact digest_parse_hex_sound.
Qed.

Lemma digest_hex_roundtrip_witness :
  digest_parse_hex (digest_hex (replicate 32 171)) = Value (replicate 32 171) /\
  forall text d', digest_parse_hex text = Value d' -> wf_digest d'.
Proof.
  apply digest_hex_roundtrip. apply (bool_decide_unpack _). vm_compute. exact I.
Defined.

(** ** The shape of a digest *)
Definition eight (l : list Z) : Prop := length l = 8%nat.

Lemma round_eight w v i : eight v -> eight (round w v i).
Proof. unfold eight. intros Hv. do 8 (destruct v as [|? v]; [done|]). by destruct v. Qed.

Lemma compress_eight state block : eight state -> eight (compress state block).
Proof.
  intros Hs. unfold compress, eight. rewrite length_zip_with.
  assert (Hv : eight (foldl (round (schedule block)) state (seq 0 64))).
  { generalize (seq 0 64). intros l. revert state Hs.
    induction l as [|i l IH]; intros state Hs; [done|]. by apply IH, round_eight. }
  unfold eight in *. lia.
Qed.

Lemma sha_update_eight s data : eight (sha_state s) -> eight (sha_state (sha_update s data)).
Proof.
  intros Hs. unfold sha_update. destruct (sha_finished s); [done|].
  assert (Hl : forall fuel state buffer data, eight state ->
    eight (sha_update_loop fuel state buffer data).1).
  { induction fuel as [|fuel IH]; intros state buffer [|b d] H8; try done.
    cbn [sha_update_loop]. case_bool_decide; apply IH; [by apply compress_eight|done]. }
  specialize (Hl (length data) (sha_state s) (sha_buffer s) data Hs).
  by destruct (sha_update_loop _ _ _ _).
Qed.

Lemma sha_pad_eight fuel s : eight (sha_state s) -> eight (sha_state (sha_pad_loop fuel s)).
Proof.
  revert s. induction fuel as [|fuel IH]; intros s Hs; [done|]. cbn [sha_pad_loop].
  case_bool_decide; [done|]. by apply IH, sha_update_eight.
Qed.

Lemma land_255_byte z : is_byte (Z.land z 255).
Proof.
  change 255 with (Z.ones 8). rewrite Z.land_ones by lia.
  pose proof (Z.mod_pos_bound z (2 ^ 8) ltac:(lia)). unfold is_byte, in_width, u8_max. lia.
Qed.

Lemma bind_be32 l : length (l ≫= be32) = (4 * length l)%nat /\ Forall is_byte (l ≫= be32).
Proof.
  induction l as [|w l [IHl IHb]]; [done|]. rewrite bind_cons. split.
  - rewrite length_app, IHl. cbn. lia.
  - apply Forall_app. split; [|done]. unfold be32.
    repeat first [apply Forall_nil_2 | apply Forall_cons_2; [apply land_255_byte|]].
Qed.

(** Every digest is thirty-two bytes. *)
Lemma sha256_wf data : wf_digest (sha256 data).
Proof.
  unfold sha256, sha_finish.
  assert (H8 : eight (sha_state (sha_update Sha256_init data))) by by apply sha_update_eight.
  destruct (sha_finished _).
  { split; [done|]. apply Forall_replicate. unfold is_byte, in_width, u8_max. lia. }
  cbn [snd]. set (final := sha_update _ (be64 _)).
  assert (Hf : eight (sha_state final)) by by apply sha_update_eight, sha_pad_eight, sha_update_eight.
  destruct (bind_be32 (sha_state final)) as [Hl Hb]. split; [|done].
  rewrite Hl. unfold eight in Hf. by rewrite Hf.
Qed.
