(* ===== verification/Json.v ===== *)
(** * JSON values

    [include/dpu/fabric/core/json.hpp] and [src/core/json.cpp]: the document
    tree, the canonical writer and the strict parser.  The parser's position is
    the text that remains.  [parse_value] recurses on the nesting levels that are
    left below [kMaxDepth]; the member and element loops carry fuel, one unit per
    remaining character, and [parse_json_terminates] shows it never runs out. *)

From S2P Require Import Prelude Std Reason Types Digest.
#[local] Open Scope Z_scope.

(** ** The document tree *)
Inductive JsonValue : Type :=
| JNull
| JBool (value : bool)
| JInt (value : Z)
| JString (value : string)
| JArray (elements : list JsonValue)
| JObject (members : list (string * JsonValue)).

Abbreviation JsonMemberList := (list (string * JsonValue)) (only parsing).

Definition make_array : JsonValue := JArray [].
Definition make_object : JsonValue := JObject [].

Definition is_null (v : JsonValue) : bool := match v with JNull => true | _ => false end.
Definition is_object (v : JsonValue) : bool := match v with JObject _ => true | _ => false end.
Definition is_array (v : JsonValue) : bool := match v with JArray _ => true | _ => false end.

Definition json_elements (v : JsonValue) : list JsonValue :=
  match v with JArray elements => elements | _ => [] end.
Definition json_members (v : JsonValue) : JsonMemberList :=
  match v with JObject members => members | _ => [] end.

(** [JsonValue::push_back] and [JsonValue::set]; the program appends to arrays
    and sets members of objects only. *)
Definition json_push_back (v value : JsonValue) : JsonValue :=
  match v with JArray elements => JArray (elements ++ [value]) | _ => v end.

Fixpoint set_member (name : string) (value : JsonValue) (members : JsonMemberList)
  : JsonMemberList :=
  match members with
  | [] => [(name, value)]
  | (member, old) :: rest =>
    if bool_decide (member = name) then (member, value) :: rest
    else (member, old) :: set_member name value rest
  end.
Definition json_set (name : string) (value v : JsonValue) : JsonValue :=
  match v with JObject members => JObject (set_member name value members) | _ => v end.

(** [JsonValue::find] *)
Fixpoint find_member (name : string) (members : JsonMemberList) : option JsonValue :=
  match members with
  | [] => None
  | (member, value) :: rest =>
    if bool_decide (member = name) then Some value else find_member name rest
  end.
Definition json_find (name : string) (v : JsonValue) : option JsonValue :=
  find_member name (json_members v).

(** ** The writer *)
#[local] Abbreviation quote := "034"%char.
#[local] Abbreviation backslash := "\"%char.

(** One character of a string literal: the [switch] of [json_escape]. *)
Definition escape_char (c : Ascii.ascii) : string :=
  if (c =? quote)%char then String backslash (String quote "")
  else if (c =? backslash)%char then "\\"
  else if (c =? "008")%char then "\b"
  else if (c =? "012")%char then "\f"
  else if (c =? "010")%char then "\n"
  else if (c =? "013")%char then "\r"
  else if (c =? "009")%char then "\t"
  else if code c <? 32 then
    "\u00" +:+ String (hex_digit (Z.shiftr (code c) 4)) (String (hex_digit (Z.land (code c) 15)) "")
  else String c "".
Fixpoint escape_chars (text : string) : string :=
  match text with
  | EmptyString => String quote ""
  | String c text => escape_char c +:+ escape_chars text
  end.
Definition json_escape (text : string) : string := String quote (escape_chars text).

(** The lambda [newline] of [JsonValue::write_to]. *)
Fixpoint spaces (n : nat) : string :=
  match n with O => "" | S n => String " " (spaces n) end.
Definition newline (pretty : bool) (depth : nat) : string :=
  if pretty then String "010" (spaces (depth * 2)) else "".

(** The texts of a loop, a comma before every one but the first. *)
Fixpoint comma_separated (texts : list string) : string :=
  match texts with
  | [] => ""
  | text :: [] => text
  | text :: rest => text +:+ String "," (comma_separated rest)
  end.

Fixpoint write_to (pretty : bool) (indent : nat) (v : JsonValue) : string :=
  match v with
  | JNull => "null"
  | JBool b => if b then "true" else "false"
  | JInt z => to_string z
  | JString text => json_escape text
  | JArray [] => "[]"
  | JArray elements =>
    String "[" (comma_separated (map (fun element =>
      newline pretty (S indent) +:+ write_to pretty (S indent) element) elements) +:+
      newline pretty indent +:+ "]")
  | JObject [] => "{}"
  | JObject members =>
    String "{" (comma_separated (map (fun member =>
      newline pretty (S indent) +:+ json_escape member.1 +:+ String ":"
        ((if pretty then " " else "") +:+ write_to pretty (S indent) member.2)) members) +:+
      newline pretty indent +:+ "}")
  end.
(** [JsonValue::to_text] *)
Definition to_text (pretty : bool) (v : JsonValue) : string := write_to pretty 0 v.

(** ** The parser *)
Definition kMaxDepth : nat := 64.

Definition is_ws (c : Ascii.ascii) : bool :=
  (c =? " ")%char || (c =? "009")%char || (c =? "010")%char || (c =? "013")%char.
Fixpoint skip_ws (text : string) : string :=
  match text with
  | EmptyString => ""
  | String c rest => if is_ws c then skip_ws rest else text
  end.

(** A parsed value and the text after it; [None] when a loop is out of fuel. *)
Abbreviation Parsed T := (option (Result (T * string))).
Definition parsed_bind {A B} (p : Parsed A) (k : A -> string -> Parsed B) : Parsed B :=
  match p with
  | Some (Value (a, text)) => k a text
  | Some (Failed s) => Some (Failed s)
  | None => None
  end.
#[local] Notation "'let&' ( x , t ) ':=' e 'in' k" := (parsed_bind e (fun x t => k))
  (at level 10, x pattern, t name, e at level 200, k at level 200,
   format "'[v' 'let&'  ( x ,  t )  ':='  e  'in' '/' k ']'") : fabric_scope.
Definition parse_fail {T} (code : ReasonCode) (detail : string) : Result T :=
  Failed (refuse code detail).

Definition parse_literal (literal : string) (value : JsonValue) (text : string)
  : Result (JsonValue * string) :=
  let size := String.length literal in
  if negb (bool_decide (String.substring 0 size text = literal)) then
    parse_fail ReasonCode.MalformedInput "invalid literal"
  else Value (value, String.substring size (String.length text - size) text).

(** The digits at the front of a text and what follows them. *)
Fixpoint span_digits (text : string) : string * string :=
  match text with
  | EmptyString => ("", "")
  | String c rest =>
    if isdigit c then let '(digits, rest) := span_digits rest in (String c digits, rest)
    else ("", text)
  end.

(** The accumulation loop of [parse_number]. *)
Fixpoint number_value (value : Z) (digits : string) : option Z :=
  match digits with
  | EmptyString => Some value
  | String c digits =>
    let digit := code c - 48 in
    if (i64_max - digit) / 10 <? value then None else number_value (value * 10 + digit) digits
  end.

Definition starts_fraction (text : string) : bool :=
  match text with
  | String c _ => (c =? ".")%char || (c =? "e")%char || (c =? "E")%char
  | EmptyString => false
  end.

Definition parse_number (text : string) : Result (JsonValue * string) :=
  let '(negative, unsigned) :=
    match text with
    | String c rest => if (c =? "-")%char then (true, rest) else (false, text)
    | EmptyString => (false, text)
    end in
  let '(digits, rest) := span_digits unsigned in
  match digits with
  | EmptyString => parse_fail ReasonCode.MalformedInput "json number requires digits"
  | _ =>
    if starts_fraction rest then
      parse_fail ReasonCode.UnsupportedValue "floating point json numbers are not accepted"
    else if 19 <? slen digits + (if negative then 1 else 0) then
      parse_fail ReasonCode.ValueOutOfRange "json integer too large"
    else
      match number_value 0 digits with
      | None => parse_fail ReasonCode.ValueOutOfRange "json integer overflow"
      | Some value => Value (JInt (if negative then - value else value), rest)
      end
  end.

(** [append_utf8]: the bytes of a code point. *)
Definition utf8 (code_point : Z) : string :=
  string_of_bytes
    (if code_point <=? 0x7F then [code_point]
     else if code_point <=? 0x7FF then
       [Z.lor 0xC0 (Z.shiftr code_point 6); Z.lor 0x80 (Z.land code_point 0x3F)]
     else if code_point <=? 0xFFFF then
       [Z.lor 0xE0 (Z.shiftr code_point 12);
        Z.lor 0x80 (Z.land (Z.shiftr code_point 6) 0x3F);
        Z.lor 0x80 (Z.land code_point 0x3F)]
     else
       [Z.lor 0xF0 (Z.shiftr code_point 18);
        Z.lor 0x80 (Z.land (Z.shiftr code_point 12) 0x3F);
        Z.lor 0x80 (Z.land (Z.shiftr code_point 6) 0x3F);
        Z.lor 0x80 (Z.land code_point 0x3F)]).

(** [parse_hex4], passing the value and the text after it on. *)
Definition parse_hex4 {T} (text : string) (k : Z -> string -> Result T) : Result T :=
  match text with
  | String a (String b (String c (String d rest))) =>
    match hex_value a, hex_value b, hex_value c, hex_value d with
    | Some a, Some b, Some c, Some d =>
      k (foldl (fun value digit => Z.lor (Z.shiftl value 4) digit) 0 [a; b; c; d]) rest
    | _, _, _, _ => parse_fail ReasonCode.InvalidEncoding "invalid unicode escape"
    end
  | _ => parse_fail ReasonCode.TruncatedInput "truncated unicode escape"
  end.

(** [out] grows by a prefix of what the rest of the literal adds. *)
Definition push (prefix : string) (r : Result (string * string)) : Result (string * string) :=
  let? (out, rest) := r in Value (prefix +:+ out, rest).

(** The loop of [parse_string], after the opening quote. *)
Fixpoint parse_chars (text : string) : Result (string * string) :=
  match text with
  | EmptyString => parse_fail ReasonCode.TruncatedInput "unterminated json string"
  | String c rest =>
    if (c =? quote)%char then Value ("", rest)
    else if code c <? 32 then
      parse_fail ReasonCode.InvalidEncoding "control character in json string"
    else if negb (c =? backslash)%char then push (String c "") (parse_chars rest)
    else
      match rest with
      | EmptyString => parse_fail ReasonCode.TruncatedInput "truncated json escape"
      | String esc rest =>
        if (esc =? quote)%char then push (String quote "") (parse_chars rest)
        else if (esc =? backslash)%char then push "\" (parse_chars rest)
        else if (esc =? "/")%char then push "/" (parse_chars rest)
        else if (esc =? "b")%char then push (String "008" "") (parse_chars rest)
        else if (esc =? "f")%char then push (String "012" "") (parse_chars rest)
        else if (esc =? "n")%char then push (String "010" "") (parse_chars rest)
        else if (esc =? "r")%char then push (String "013" "") (parse_chars rest)
        else if (esc =? "t")%char then push (String "009" "") (parse_chars rest)
        else if (esc =? "u")%char then
          parse_hex4 rest (fun code_point rest =>
            if (0xD800 <=? code_point) && (code_point <=? 0xDBFF) then
              match rest with
              | String b (String u rest) =>
                if negb (b =? backslash)%char || negb (u =? "u")%char then
                  parse_fail ReasonCode.InvalidEncoding "unpaired surrogate"
                else
                  parse_hex4 rest (fun low rest =>
                    if (low <? 0xDC00) || (0xDFFF <? low) then
                      parse_fail ReasonCode.InvalidEncoding "invalid low surrogate"
                    else
                      push (utf8 (0x10000 + Z.shiftl (code_point - 0xD800) 10 + (low - 0xDC00)))
                        (parse_chars rest))
              | _ => parse_fail ReasonCode.InvalidEncoding "unpaired surrogate"
              end
            else if (0xDC00 <=? code_point) && (code_point <=? 0xDFFF) then
              parse_fail ReasonCode.InvalidEncoding "unpaired low surrogate"
            else push (utf8 code_point) (parse_chars rest))
        else parse_fail ReasonCode.InvalidEncoding "unknown json escape"
      end
  end.
Definition parse_string (text : string) : Result (string * string) :=
  match text with
  | String c rest =>
    if negb (c =? quote)%char then parse_fail ReasonCode.MalformedInput "expected string"
    else parse_chars rest
  | EmptyString => parse_fail ReasonCode.MalformedInput "expected string"
  end.

(** Does the text start with this character? *)
Definition starts (c : Ascii.ascii) (text : string) : bool :=
  match text with String d _ => (d =? c)%char | EmptyString => false end.
Definition rest_of (text : string) : string :=
  match text with String _ rest => rest | EmptyString => "" end.

(** The loop of [parse_object]; [value] parses a member's value one level down. *)
Fixpoint parse_members (value : string -> Parsed JsonValue) (fuel : nat) (object : JsonValue)
    (text : string) : Parsed JsonValue :=
  match fuel with
  | O => None
  | S fuel =>
    let text := skip_ws text in
    if negb (starts quote text) then
      Some (parse_fail ReasonCode.MalformedInput "json object requires a string member name")
    else
      let& (name, text) := Some (parse_string text) in
      let text := skip_ws text in
      if negb (starts ":" text) then
        Some (parse_fail ReasonCode.MalformedInput "json member requires ':'")
      else
        let& (member, text) := value (skip_ws (rest_of text)) in
        match json_find name object with
        | Some _ =>
          Some (parse_fail ReasonCode.DuplicateIdentity ("duplicate json member '" +:+ name +:+ "'"))
        | None =>
          let object := json_set name member object in
          let text := skip_ws text in
          if starts "," text then parse_members value fuel object (rest_of text)
          else if starts "}" text then Some (Value (object, rest_of text))
          else Some (parse_fail ReasonCode.MalformedInput "json object not terminated")
        end
  end.
(** [parse_object], after the opening brace. *)
Definition parse_object (value : string -> Parsed JsonValue) (text : string) : Parsed JsonValue :=
  let text := skip_ws text in
  if starts "}" text then Some (Value (make_object, rest_of text))
  else parse_members value (S (String.length text)) make_object text.

(** The loop of [parse_array] and [parse_array] after the opening bracket. *)
Fixpoint parse_elements (value : string -> Parsed JsonValue) (fuel : nat) (array : JsonValue)
    (text : string) : Parsed JsonValue :=
  match fuel with
  | O => None
  | S fuel =>
    let& (element, text) := value (skip_ws text) in
    let array := json_push_back array element in
    let text := skip_ws text in
    if starts "," text then parse_elements value fuel array (rest_of text)
    else if starts "]" text then Some (Value (array, rest_of text))
    else Some (parse_fail ReasonCode.MalformedInput "json array not terminated")
  end.
Definition parse_array (value : string -> Parsed JsonValue) (text : string) : Parsed JsonValue :=
  let text := skip_ws text in
  if starts "]" text then Some (Value (make_array, rest_of text))
  else parse_elements value (S (String.length text)) make_array text.

(** [parse_value] at the depth [kMaxDepth + 1 - levels]: with no level left the
    depth is above [kMaxDepth]. *)
Fixpoint parse_value (levels : nat) (text : string) : Parsed JsonValue :=
  match levels with
  | O => Some (parse_fail ReasonCode.DepthLimitExceeded "json nesting too deep")
  | S below =>
    match text with
    | EmptyString => Some (parse_fail ReasonCode.TruncatedInput "unexpected end of json")
    | String c rest =>
      if (c =? "{")%char then parse_object (parse_value below) rest
      else if (c =? "[")%char then parse_array (parse_value below) rest
      else if (c =? quote)%char then
        let& (s, text) := Some (parse_string text) in Some (Value (JString s, text))
      else if (c =? "t")%char then Some (parse_literal "true" (JBool true) text)
      else if (c =? "f")%char then Some (parse_literal "false" (JBool false) text)
      else if (c =? "n")%char then Some (parse_literal "null" JNull text)
      else if (c =? "-")%char || isdigit c then Some (parse_number text)
      else Some (parse_fail ReasonCode.MalformedInput "unexpected character in json")
    end
  end.

(** [Parser::run] and [parse_json] *)
Definition parse_json (text : string) (max_bytes : Z) : option (Result JsonValue) :=
  if max_bytes <? slen text then
    Some (parse_fail ReasonCode.OversizedInput "json document exceeds limit")
  else
    match parse_value (S kMaxDepth) (skip_ws text) with
    | None => None
    | Some (Failed s) => Some (Failed s)
    | Some (Value (root, rest)) =>
      match skip_ws rest with
      | EmptyString => Some (Value root)
      | _ => Some (parse_fail ReasonCode.MalformedInput "trailing content after json value")
      end
    end.


(** ** Well-formed documents

    What the parser yields and what the writer writes back exactly: distinct
    member names, and integers of at most nineteen characters. *)
Section json_value_ind.
Context (P : JsonValue -> Prop).
Context (Hnull : P JNull) (Hbool : forall b, P (JBool b)) (Hint : forall z, P (JInt z))
  (Hstring : forall s, P (JString s))
  (Harray : forall elements, Forall P elements -> P (JArray elements))
  (Hobject : forall members, Forall (fun m : string * JsonValue => P m.2) members ->
    P (JObject members)).

Fixpoint JsonValue_ind' (v : JsonValue) : P v :=
  match v with
  | JNull => Hnull
  | JBool b => Hbool b
  | JInt z => Hint z
  | JString s => Hstring s
  | JArray elements => Harray elements
      ((fix go l : Forall P l :=
          match l with
          | [] => Forall_nil_2 P
          | x :: l => Forall_cons_2 P x l (JsonValue_ind' x) (go l)
          end) elements)
  | JObject members => Hobject members
      ((fix go l : Forall (fun m : string * JsonValue => P m.2) l :=
          match l with
          | [] => Forall_nil_2 _
          | m :: l => Forall_cons_2 (fun m : string * JsonValue => P m.2) m l
              (JsonValue_ind' m.2) (go l)
          end) members)
  end.
End json_value_ind.

(** Nineteen characters hold the positive 64-bit integers, and the negative ones
    of eighteen digits. *)
Definition json_int_min : Z := - (10 ^ 18 - 1).

Fixpoint json_wf (v : JsonValue) : bool :=
  match v with
  | JInt z => (json_int_min <=? z) && (z <=? i64_max)
  | JArray elements => forallb json_wf elements
  | JObject members =>
    bool_decide (NoDup (members.*1)) && forallb (fun m => json_wf m.2) members
  | _ => true
  end.

(** Nesting levels of a document: one for a scalar. *)
Fixpoint json_levels (v : JsonValue) : nat :=
  match v with
  | JArray elements => S (list_max (map json_levels elements))
  | JObject members => S (list_max (map (fun m => json_levels m.2) members))
  | _ => 1
  end.

(** ** Lemmas on texts *)

Lemma string_length_app (a b : string) :
  String.length (a +:+ b) = (String.length a + String.length b)%nat.
Proof. pose proof (slen_app a b). unfold slen in *. lia. Qed.

Lemma code_range c : 0 <= code c < 256.
Proof. unfold code. pose proof (Ascii.N_ascii_bounded c). lia. Qed.

Lemma code_inj c d : code c = code d -> c = d.
Proof. unfold code. intros H. apply N_of_ascii_inj. lia. Qed.

Lemma eqb_code c d : (c =? d)%char = (code c =? code d).
Proof.
  destruct (Ascii.eqb_spec c d) as [->|Hne]; [by rewrite Z.eqb_refl|].
  symmetry. apply Z.eqb_neq. intros H. by apply Hne, code_inj.
Qed.

(** Case analysis over the characters. *)
Lemma ascii_forall (P : Ascii.ascii -> bool) c :
  forallb (fun n => P (Ascii.ascii_of_nat n)) (seq 0 256) = true -> P c = true.
Proof.
  intros HP. rewrite forallb_forall in HP.
  rewrite <-(Ascii.ascii_nat_embedding c). apply HP, in_seq.
  pose proof (Ascii.nat_ascii_bounded c). lia.
Qed.

(** ** The string literals *)
Lemma escape_char_parse c text :
  parse_chars (escape_char c +:+ text) = push (String c "") (parse_chars text).
Proof. destruct c as [[] [] [] [] [] [] [] []]; reflexivity. Qed.

Lemma escape_chars_parse s rest : parse_chars (escape_chars s +:+ rest) = Value (s, rest).
Proof.
  induction s as [|c s IH]; [done|]. cbn [escape_chars].
  by rewrite string_app_assoc, escape_char_parse, IH.
Qed.

Lemma json_escape_parse s rest : parse_string (json_escape s +:+ rest) = Value (s, rest).
Proof. unfold json_escape. rewrite string_app_cons. apply escape_chars_parse. Qed.

(** ** The numbers *)

(** What may follow a number: neither a digit nor a fraction. *)
Definition ends_value (text : string) : bool :=
  match text with
  | EmptyString => true
  | String c _ => negb (isdigit c) && negb (starts_fraction text)
  end.

Lemma span_digits_app s rest :
  str_forall isdigit s = true -> ends_value rest = true -> span_digits (s +:+ rest) = (s, rest).
Proof.
  intros Hs Hr. induction s as [|c s IH].
  - destruct rest as [|c rest]; [done|]. cbn in Hr. bool_prop.
    rewrite string_app_nil. cbn [span_digits]. by destruct (isdigit c).
  - cbn [str_forall] in Hs. apply andb_true_iff in Hs as [Hc Hs].
    rewrite string_app_cons. cbn [span_digits]. by rewrite Hc, (IH Hs).
Qed.

Lemma dec_value_mono v s : 0 <= v -> str_forall isdigit s = true -> v <= dec_value v s.
Proof.
  revert v. induction s as [|c s IH]; intros v Hv; cbn [str_forall dec_value]; [lia|].
  intros [Hc Hs]%andb_true_iff. unfold isdigit in Hc. bool_prop.
  etransitivity; [|apply IH; [lia|done]]. lia.
Qed.

Lemma number_value_dec v s :
  0 <= v -> str_forall isdigit s = true -> dec_value v s <= i64_max ->
  number_value v s = Some (dec_value v s).
Proof.
  revert v. induction s as [|c s IH]; intros v Hv; cbn [str_forall dec_value number_value]; [done|].
  intros [Hc Hs]%andb_true_iff Hm. pose proof Hc as Hd. unfold isdigit in Hd. bool_prop.
  pose proof (dec_value_mono (v * 10 + (code c - 48)) s ltac:(lia) Hs).
  rewrite (proj2 (Z.ltb_ge _ _)) by (apply Z.div_le_lower_bound; lia). apply IH; [lia|done..].
Qed.

Lemma number_value_bound v s z :
  0 <= v <= i64_max -> str_forall isdigit s = true -> number_value v s = Some z ->
  0 <= z <= i64_max /\ z = dec_value v s.
Proof.
  revert v. induction s as [|c s IH]; intros v Hv; cbn [str_forall dec_value number_value].
  { intros _ [= <-]. done. }
  intros [Hc Hs]%andb_true_iff. unfold isdigit in Hc. bool_prop.
  destruct (Z.ltb_spec ((i64_max - (code c - 48)) / 10) v); [done|]. apply IH; [|done].
  pose proof (Z.mul_div_le (i64_max - (code c - 48)) 10). lia.
Qed.

(** The digits of a magnitude below [10 ^ k]. *)
Lemma to_string_magnitude z (k : nat) : 0 <= z < 10 ^ Z.of_nat k -> (0 < k <= 19)%nat ->
  let s := dec_digits 20 z "" in
  str_forall isdigit s = true /\ s <> "" /\ slen s <= Z.of_nat k /\ dec_value 0 s = z.
Proof.
  intros Hz Hk s. subst s. split_and!.
  - rewrite dec_digits_forall; [done|lia].
  - apply dec_digits_nonempty. lia.
  - pose proof (dec_digits_slen 20 k z "" ltac:(lia) Hz). change (slen "") with 0 in *. lia.
  - rewrite dec_digits_value; [done| |lia]. split; [lia|].
    eapply Z.lt_le_trans; [apply Hz|]. apply Z.pow_le_mono_r; lia.
Qed.

Lemma parse_number_eval s rest (negative : bool) :
  str_forall isdigit s = true -> s <> "" -> slen s + (if negative then 1 else 0) <= 19 ->
  dec_value 0 s <= i64_max -> ends_value rest = true ->
  parse_number ((if negative then String "-" s else s) +:+ rest) =
    Value (JInt (if negative then - dec_value 0 s else dec_value 0 s), rest).
Proof.
  intros Hs Hne Hl Hm Hr. unfold parse_number.
  assert (H : match (if negative then String "-" s else s) +:+ rest with
              | String c t => if (c =? "-")%char then (true, t)
                              else (false, (if negative then String "-" s else s) +:+ rest)
              | EmptyString => (false, (if negative then String "-" s else s) +:+ rest)
              end = (negative, s +:+ rest)).
  { destruct negative; [done|]. destruct s as [|c s]; [done|]. rewrite string_app_cons.
    cbn [str_forall] in Hs. apply andb_true_iff in Hs as [Hc _].
    by destruct (Ascii.eqb_spec c "-") as [->|]. }
  rewrite H, span_digits_app by done.
  rewrite number_value_dec by done. destruct s as [|c s]; [done|].
  replace (starts_fraction rest) with false.
  2: { destruct rest as [|d rest]; [done|]. cbn [ends_value] in Hr. bool_prop. done. }
  by rewrite (proj2 (Z.ltb_ge _ _)).
Qed.

Lemma to_string_parse z rest :
  json_int_min <= z <= i64_max -> ends_value rest = true ->
  parse_number (to_string z +:+ rest) = Value (JInt z, rest).
Proof.
  intros Hz Hr. unfold to_string. unfold json_int_min, i64_max in *.
  destruct (Z.ltb_spec z 0).
  - destruct (to_string_magnitude (- z) 18) as (Hs & Hne & Hl & Hv); [lia..|].
    rewrite (parse_number_eval _ rest true) by (done || rewrite ?Hv; unfold i64_max; lia).
    by rewrite Hv, Z.opp_involutive.
  - destruct (to_string_magnitude z 19) as (Hs & Hne & Hl & Hv); [lia..|].
    rewrite (parse_number_eval _ rest false) by (done || rewrite ?Hv; unfold i64_max; lia).
    by rewrite Hv.
Qed.

(** ** The loops terminate *)

(** A parser that always answers, and consumes a character when it succeeds. *)
Definition progress {T} (text : string) (p : Parsed T) : Prop :=
  exists r, p = Some r /\
    forall v rest, r = Value (v, rest) -> (String.length rest < String.length text)%nat.

Lemma progress_fail {T} text code detail : progress (T := T) text (Some (parse_fail code detail)).
Proof. eexists. split; [done|]. by intros. Qed.

Lemma progress_ok {T} text (v : T) rest :
  (String.length rest < String.length text)%nat -> progress text (Some (Value (v, rest))).
Proof. intros H. eexists. split; [done|]. by intros ? ? [= _ <-]. Qed.

Lemma progress_bind {A B} text1 text (p : Parsed A) (k : A -> string -> Parsed B) :
  progress text1 p -> (String.length text1 <= String.length text)%nat ->
  (forall a rest, (String.length rest < String.length text1)%nat -> progress text (k a rest)) ->
  progress text (parsed_bind p k).
Proof.
  intros (r & -> & Hr) Hl Hk. destruct r as [[a rest]|s]; cbn.
  - apply Hk. by eapply Hr.
  - eexists. split; [done|]. by intros.
Qed.

Lemma progress_weaken {T} text1 text (p : Parsed T) :
  progress text1 p -> (String.length text1 <= String.length text)%nat -> progress text p.
Proof. intros (r & -> & Hr) Hl. eexists. split; [done|]. intros v rest H. specialize (Hr _ _ H). lia. Qed.

Lemma skip_ws_length text : (String.length (skip_ws text) <= String.length text)%nat.
Proof. induction text as [|c text IH]; cbn; [lia|]. destruct (is_ws c); cbn; lia. Qed.

Lemma skip_ws_idem text : skip_ws (skip_ws text) = skip_ws text.
Proof.
  induction text as [|c text IH]; [done|]. cbn [skip_ws].
  destruct (is_ws c) eqn:Hc; [done|]. cbn [skip_ws]. by rewrite Hc.
Qed.

Lemma starts_rest c text : starts c text = true -> text = String c (rest_of text).
Proof. destruct text as [|d text]; [done|]. cbn. by intros ->%Ascii.eqb_eq. Qed.

Lemma starts_length c text :
  starts c text = true -> String.length text = S (String.length (rest_of text)).
Proof. intros H. by rewrite (starts_rest c text) at 1. Qed.

Lemma parse_hex4_progress {A} text (k : Z -> string -> Result (A * string)) v rest :
  parse_hex4 text k = Value (v, rest) ->
  exists z after, k z after = Value (v, rest) /\ (String.length after < String.length text)%nat.
Proof.
  unfold parse_hex4, parse_fail. intros H. split_match H. do 2 eexists. split; [exact H|]. cbn. lia.
Qed.

Lemma push_Value prefix r out rest :
  push prefix r = Value (out, rest) -> exists out', r = Value (out', rest) /\ out = prefix +:+ out'.
Proof. destruct r as [[o t]|]; [|done]. cbn. intros [= <- <-]. eauto. Qed.

Lemma parse_chars_length text out rest :
  parse_chars text = Value (out, rest) -> (String.length rest < String.length text)%nat.
Proof.
  remember (String.length text) as n eqn:Hn. revert text out Hn.
  induction n as [n IH] using lt_wf_ind. intros text out ->.
  assert (Hrec : forall prefix t, (String.length t < String.length text)%nat ->
    push prefix (parse_chars t) = Value (out, rest) ->
    (String.length rest < String.length text)%nat).
  { intros prefix t Ht (out' & H & _)%push_Value. pose proof (IH _ Ht t out' eq_refl H). lia. }
  destruct text as [|c text]; [done|]. cbn [parse_chars].
  destruct (_ =? _)%char; [intros [= _ <-]; cbn; lia|].
  destruct (_ <? _); [done|]. destruct (negb _); [apply Hrec; cbn; lia|].
  destruct text as [|esc text]; [done|].
  repeat (destruct (_ =? _)%char; [try (apply Hrec; cbn; lia)|]); [|done].
  intros (cp & t & H & Ht)%parse_hex4_progress.
  destruct (_ && _).
  - destruct t as [|b [|u t]]; [done..|]. destruct (_ || _); [done|].
    apply parse_hex4_progress in H as (low & t' & H & Ht'). destruct (_ || _); [done|].
    revert H. apply Hrec. cbn in *. lia.
  - destruct (_ && _); [done|]. revert H. apply Hrec. cbn in *. lia.
Qed.

Lemma parse_string_progress text : progress text (Some (parse_string text)).
Proof.
  eexists. split; [done|]. intros v rest. unfold parse_string.
  destruct text as [|c text]; [done|]. destruct (negb _); [done|].
  intros H%parse_chars_length. cbn. lia.
Qed.

Section loops.
Context (value : string -> Parsed JsonValue) (Hvalue : forall text, progress text (value text)).

Lemma parse_members_progress fuel object text :
  (String.length text < fuel)%nat -> progress text (parse_members value fuel object text).
Proof.
  revert object text. induction fuel as [|fuel IH]; intros object text Hf; [lia|].
  cbn [parse_members]. pose proof (skip_ws_length text). set (t := skip_ws text) in *.
  destruct (negb _); [apply progress_fail|].
  apply (progress_bind t); [apply parse_string_progress|done|]. intros name t1 H1.
  pose proof (skip_ws_length t1). set (t2 := skip_ws t1) in *.
  destruct (starts ":" t2) eqn:Hc; [|apply progress_fail]. apply starts_length in Hc. cbn [negb].
  pose proof (skip_ws_length (rest_of t2)).
  apply (progress_bind (skip_ws (rest_of t2))); [apply Hvalue|lia|]. intros member t3 H3.
  destruct (json_find name object); [apply progress_fail|].
  pose proof (skip_ws_length t3). set (t4 := skip_ws t3) in *.
  destruct (starts "," t4) eqn:Hs; [|destruct (starts "}" t4) eqn:He; [|apply progress_fail]].
  - apply starts_length in Hs. eapply progress_weaken; [apply IH; lia|lia].
  - apply starts_length in He. apply progress_ok. lia.
Qed.

Lemma parse_elements_progress fuel array text :
  (String.length text < fuel)%nat -> progress text (parse_elements value fuel array text).
Proof.
  revert array text. induction fuel as [|fuel IH]; intros array text Hf; [lia|].
  cbn [parse_elements]. pose proof (skip_ws_length text).
  apply (progress_bind (skip_ws text)); [apply Hvalue|done|]. intros element t1 H1.
  pose proof (skip_ws_length t1). set (t2 := skip_ws t1) in *.
  destruct (starts "," t2) eqn:Hs; [|destruct (starts "]" t2) eqn:He; [|apply progress_fail]].
  - apply starts_length in Hs. eapply progress_weaken; [apply IH; lia|lia].
  - apply starts_length in He. apply progress_ok. lia.
Qed.

(** More fuel does not change an answer. *)
Lemma parse_members_mono fuel fuel' object text r :
  parse_members value fuel object text = Some r -> (fuel <= fuel')%nat ->
  parse_members value fuel' object text = Some r.
Proof.
  revert fuel' object text. induction fuel as [|fuel IH]; intros fuel' object text Hr Hf; [done|].
  destruct fuel' as [|fuel']; [lia|]. cbn [parse_members] in *.
  destruct (negb _); [done|]. destruct (parse_string _) as [[name t1]|]; [|done]. cbn in *.
  destruct (negb _); [done|]. destruct (value _) as [[[member t2]|]|]; [|done..]. cbn in *.
  destruct (json_find _ _); [done|]. destruct (starts "," _); [|done]. apply IH; [done|lia].
Qed.

Lemma parse_elements_mono fuel fuel' array text r :
  parse_elements value fuel array text = Some r -> (fuel <= fuel')%nat ->
  parse_elements value fuel' array text = Some r.
Proof.
  revert fuel' array text. induction fuel as [|fuel IH]; intros fuel' array text Hr Hf; [done|].
  destruct fuel' as [|fuel']; [lia|]. cbn [parse_elements] in *.
  destruct (value _) as [[[element t1]|]|]; [|done..]. cbn in *.
  destruct (starts "," _); [|done]. apply IH; [done|lia].
Qed.
End loops.

Lemma span_digits_length text digits rest :
  span_digits text = (digits, rest) ->
  (String.length text = String.length digits + String.length rest)%nat.
Proof.
  revert digits. induction text as [|c text IH]; intros digits; cbn [span_digits].
  { by intros [= <- <-]. }
  destruct (isdigit c); [|by intros [= <- <-]].
  destruct (span_digits text) as [d r] eqn:Hs. intros [= <- <-]. cbn. by rewrite (IH d).
Qed.

Lemma parse_number_progress text : progress text (Some (parse_number text)).
Proof.
  eexists. split; [done|]. intros v rest. unfold parse_number.
  set (p := match text with String c r => _ | EmptyString => _ end).
  assert (Hp : (String.length p.2 <= String.length text)%nat).
  { subst p. destruct text as [|c text]; [done|]. destruct (_ =? _)%char; cbn; lia. }
  destruct p as [negative unsigned]. cbn [snd] in Hp.
  destruct (span_digits unsigned) as [digits r] eqn:Hs. apply span_digits_length in Hs.
  destruct digits as [|d digits]; [done|]. destruct (starts_fraction r); [done|].
  destruct (_ <? _); [done|]. destruct (number_value _ _); [|done]. intros [= _ <-]. cbn in Hs. lia.
Qed.

Lemma substring_length_le n m s : (String.length (String.substring n m s) <= String.length s)%nat.
Proof.
  revert n m. induction s as [|c s IH]; intros n m; [destruct n, m; cbn; lia|].
  destruct n as [|n], m as [|m]; cbn; try lia.
  - pose proof (IH 0%nat m). lia.
  - pose proof (IH n 0%nat). lia.
  - pose proof (IH n (S m)). lia.
Qed.

Lemma parse_literal_progress literal v text :
  literal <> "" -> progress text (Some (parse_literal literal v text)).
Proof.
  intros Hl. eexists. split; [done|]. intros w rest. unfold parse_literal.
  case_bool_decide as Hs; [|done]. cbn [negb]. intros [= _ <-].
  pose proof (substring_length (String.length literal) (String.length text - String.length literal) text).
  pose proof (substring_length_le 0 (String.length literal) text) as Ht. rewrite Hs in Ht.
  assert (0 < String.length literal)%nat by (destruct literal; [done|cbn; lia]). lia.
Qed.

Lemma parse_value_progress levels text : progress text (parse_value levels text).
Proof.
  revert text. induction levels as [|below IH]; intros text; cbn [parse_value].
  { apply progress_fail. }
  destruct text as [|c text]; [apply progress_fail|].
  destruct (c =? "{")%char.
  { unfold parse_object. pose proof (skip_ws_length text). set (t := skip_ws text) in *.
    destruct (starts "}" t) eqn:He.
    - apply starts_length in He. apply progress_ok. cbn. lia.
    - apply (progress_weaken t); [by apply parse_members_progress; [|lia]|cbn; lia]. }
  destruct (c =? "[")%char.
  { unfold parse_array. pose proof (skip_ws_length text). set (t := skip_ws text) in *.
    destruct (starts "]" t) eqn:He.
    - apply starts_length in He. apply progress_ok. cbn. lia.
    - apply (progress_weaken t); [by apply parse_elements_progress; [|lia]|cbn; lia]. }
  destruct (c =? _)%char.
  { eapply progress_bind; [apply parse_string_progress|done|]. intros s t Ht. by apply progress_ok. }
  do 3 (destruct (c =? _)%char; [by apply parse_literal_progress|]).
  destruct (_ || _); [apply parse_number_progress|apply progress_fail].
Qed.

(** ** What the writer writes parses back *)
Lemma skip_ws_spaces n text : skip_ws (spaces n +:+ text) = skip_ws text.
Proof. induction n as [|n IH]; [done|]. cbn [spaces]. by rewrite string_app_cons. Qed.

Lemma skip_ws_newline pretty n text : skip_ws (newline pretty n +:+ text) = skip_ws text.
Proof. destruct pretty; [|done]. unfold newline. rewrite string_app_cons. apply skip_ws_spaces. Qed.

Lemma skip_ws_optional (b : bool) text : skip_ws ((if b then " " else "") +:+ text) = skip_ws text.
Proof. by destruct b. Qed.

Lemma newline_ends pretty n c text :
  ends_value (String c text) = true -> ends_value (newline pretty n +:+ String c text) = true.
Proof. by destruct pretty. Qed.

(** The first character of a written value. *)
Definition value_head (text : string) : bool :=
  match text with
  | String c _ => negb (is_ws c) && negb (c =? "]")%char
  | EmptyString => false
  end.

Lemma digits_head s rest : str_forall isdigit s = true -> s <> "" -> value_head (s +:+ rest) = true.
Proof.
  destruct s as [|c s]; [done|]. cbn [str_forall]. intros [Hc _]%andb_true_iff _.
  rewrite string_app_cons. cbn [value_head]. revert Hc.
  assert (Hn : negb (isdigit c) || negb (is_ws c) && negb (c =? "]")%char = true)
    by (apply (ascii_forall (fun c => negb (isdigit c) || negb (is_ws c) && negb (c =? "]")%char));
        vm_compute; reflexivity).
  intros Hc. by rewrite Hc in Hn.
Qed.

Lemma write_to_head pretty indent v rest : value_head (write_to pretty indent v +:+ rest) = true.
Proof.
  destruct v as [|[]|z|s|[|]|[|]]; try reflexivity. cbn [write_to]. unfold to_string.
  destruct (Z.ltb_spec z 0); [reflexivity|].
  apply digits_head; [by rewrite dec_digits_forall|apply dec_digits_nonempty; lia].
Qed.

Lemma value_head_skip text : value_head text = true -> skip_ws text = text.
Proof.
  destruct text as [|c text]; [done|]. cbn [value_head skip_ws]. intros [Hc _]%andb_true_iff.
  apply negb_true_iff in Hc. by rewrite Hc.
Qed.

Lemma value_head_starts text : value_head text = true -> starts "]" text = false.
Proof.
  destruct text as [|c text]; [done|]. cbn [value_head starts]. intros [_ Hc]%andb_true_iff.
  by apply negb_true_iff in Hc.
Qed.

Lemma comma_separated_cons text texts rest :
  comma_separated (text :: texts) +:+ rest =
  text +:+ match texts with
           | [] => rest
           | _ => String "," (comma_separated texts +:+ rest)
           end.
Proof.
  destruct texts as [|t texts]; [done|].
  change (comma_separated (text :: t :: texts)) with
    (text +:+ String "," (comma_separated (t :: texts))).
  by rewrite string_app_assoc, string_app_cons.
Qed.

Section write_loops.
Context (pretty : bool) (indent : nat) (value : string -> Parsed JsonValue).

Definition parses_back (v : JsonValue) : Prop := forall rest,
  ends_value rest = true -> value (write_to pretty (S indent) v +:+ rest) = Some (Value (v, rest)).
Definition write_element (element : JsonValue) : string :=
  newline pretty (S indent) +:+ write_to pretty (S indent) element.
Definition write_member (member : string * JsonValue) : string :=
  newline pretty (S indent) +:+ json_escape member.1 +:+ String ":"
    ((if pretty then " " else "") +:+ write_to pretty (S indent) member.2).

(** The first element of the loop, then what follows it. *)
Lemma parse_elements_write elements fuel acc rest :
  Forall parses_back elements -> elements <> [] -> (length elements <= fuel)%nat ->
  parse_elements value fuel (JArray acc)
    (comma_separated (map write_element elements) +:+ newline pretty indent +:+ String "]" rest) =
  Some (Value (JArray (acc ++ elements), rest)).
Proof.
  revert fuel acc. induction elements as [|e elements IH]; intros fuel acc He Hne Hf; [done|].
  destruct fuel as [|fuel]; [cbn in Hf; lia|]. apply Forall_cons in He as [He Hes].
  cbn [map]. rewrite comma_separated_cons. cbn [parse_elements]. unfold write_element at 1.
  rewrite string_app_assoc, skip_ws_newline.
  rewrite value_head_skip by apply write_to_head. rewrite He.
  2: { destruct elements; [by apply newline_ends|done]. }
  cbn [parsed_bind json_push_back]. destruct elements as [|e' elements]; cbn [map].
  - by rewrite skip_ws_newline.
  - change (skip_ws (String "," ?t)) with (String "," t). cbn [starts rest_of Ascii.eqb Bool.eqb].
    rewrite <-map_cons, (IH fuel (acc ++ [e])) by (done || cbn in *; lia). by rewrite <-app_assoc.
Qed.

Lemma find_member_None name members : name ∉ members.*1 -> find_member name members = None.
Proof.
  induction members as [|[m v] members IH]; [done|]. cbn [fmap list_fmap find_member fst].
  intros [Hm Hn]%not_elem_of_cons. rewrite bool_decide_false by done. by apply IH.
Qed.

Lemma set_member_new name v members : name ∉ members.*1 -> set_member name v members = members ++ [(name, v)].
Proof.
  induction members as [|[m w] members IH]; [done|]. cbn [fmap list_fmap set_member fst].
  intros [Hm Hn]%not_elem_of_cons. rewrite bool_decide_false by done. by rewrite IH.
Qed.

Lemma parse_members_write members fuel acc rest :
  Forall (fun m => parses_back m.2) members -> members <> [] -> (length members <= fuel)%nat ->
  NoDup ((acc ++ members).*1) ->
  parse_members value fuel (JObject acc)
    (comma_separated (map write_member members) +:+ newline pretty indent +:+ String "}" rest) =
  Some (Value (JObject (acc ++ members), rest)).
Proof.
  revert fuel acc. induction members as [|[n v] members IH]; intros fuel acc He Hne Hf Hnd; [done|].
  destruct fuel as [|fuel]; [cbn in Hf; lia|]. apply Forall_cons in He as [He Hes]. cbn [snd] in He.
  assert (Hn : n ∉ acc.*1).
  { rewrite fmap_app, fmap_cons in Hnd. apply NoDup_app in Hnd as (_ & Hd & _).
    intros Hn. apply (Hd _ Hn). by left. }
  cbn [map]. rewrite comma_separated_cons. cbn [parse_members].
  change (write_member (n, v)) with (newline pretty (S indent) +:+ json_escape n +:+
    String ":" ((if pretty then " " else "") +:+ write_to pretty (S indent) v)).
  rewrite !string_app_assoc, skip_ws_newline, !string_app_cons.
  change (skip_ws (json_escape n +:+ ?t)) with (json_escape n +:+ t).
  change (starts _ (json_escape n +:+ ?t)) with true. cbn [negb].
  rewrite json_escape_parse. cbn [parsed_bind skip_ws is_ws orb starts Ascii.eqb Bool.eqb negb rest_of].
  rewrite !string_app_assoc.
  rewrite skip_ws_optional, value_head_skip by apply write_to_head.
  rewrite He.
  2: { destruct members; [by apply newline_ends|done]. }
  cbn [parsed_bind json_set json_find json_members].
  unfold json_find. cbn [json_members]. rewrite find_member_None, set_member_new by done.
  destruct members as [|m' members]; cbn [map].
  - by rewrite skip_ws_newline.
  - change (skip_ws (String "," ?t)) with (String "," t). cbn [starts rest_of Ascii.eqb Bool.eqb].
    rewrite <-map_cons, (IH fuel (acc ++ [(n, v)])) by (done || (cbn in *; lia) || by rewrite <-app_assoc).
    by rewrite <-app_assoc.
Qed.
End write_loops.

Lemma Forall_list_max {A} (f : A -> nat) l n :
  (list_max (map f l) <= n)%nat <-> Forall (fun x => (f x <= n)%nat) l.
Proof.
  induction l as [|x l IH]; [split; [constructor|cbn; lia]|].
  change (list_max (map f (x :: l))) with (f x `max` list_max (map f l))%nat.
  rewrite Forall_cons, <-IH. split; [intros; split|]; lia.
Qed.

(** An answer at some fuel is the answer at any sufficient fuel. *)
Lemma members_at value fuel fuel' object text r :
  (forall text, progress text (value text)) -> parse_members value fuel object text = Some r ->
  (String.length text < fuel')%nat -> parse_members value fuel' object text = Some r.
Proof.
  intros Hv Hr Hf. destruct (parse_members_progress value Hv fuel' object text Hf) as (r' & Hr' & _).
  destruct (Nat.le_ge_cases fuel fuel') as [Hle|Hle].
  - by apply (parse_members_mono value fuel).
  - rewrite Hr'. by rewrite (parse_members_mono value fuel' fuel _ _ r') in Hr.
Qed.
Lemma elements_at value fuel fuel' array text r :
  (forall text, progress text (value text)) -> parse_elements value fuel array text = Some r ->
  (String.length text < fuel')%nat -> parse_elements value fuel' array text = Some r.
Proof.
  intros Hv Hr Hf. destruct (parse_elements_progress value Hv fuel' array text Hf) as (r' & Hr' & _).
  destruct (Nat.le_ge_cases fuel fuel') as [Hle|Hle].
  - by apply (parse_elements_mono value fuel).
  - rewrite Hr'. by rewrite (parse_elements_mono value fuel' fuel _ _ r') in Hr.
Qed.

Lemma parse_members_skip value fuel object text :
  parse_members value fuel object (skip_ws text) = parse_members value fuel object text.
Proof. destruct fuel; cbn [parse_members]; by rewrite ?skip_ws_idem. Qed.
Lemma parse_elements_skip value fuel array text :
  parse_elements value fuel array (skip_ws text) = parse_elements value fuel array text.
Proof. destruct fuel; cbn [parse_elements]; by rewrite ?skip_ws_idem. Qed.

Lemma write_array pretty indent e elements rest :
  write_to pretty indent (JArray (e :: elements)) +:+ rest =
  String "[" (comma_separated (map (write_element pretty indent) (e :: elements)) +:+
    newline pretty indent +:+ String "]" rest).
Proof. cbn [write_to]. by rewrite string_app_cons, !string_app_assoc, string_app_cons. Qed.
Lemma write_object pretty indent m members rest :
  write_to pretty indent (JObject (m :: members)) +:+ rest =
  String "{" (comma_separated (map (write_member pretty indent) (m :: members)) +:+
    newline pretty indent +:+ String "}" rest).
Proof. cbn [write_to]. by rewrite string_app_cons, !string_app_assoc, string_app_cons. Qed.

Lemma substring_app_take a b : String.substring 0 (String.length a) (a +:+ b) = a.
Proof. induction a as [|c a IH]; [by destruct b|]. exact (f_equal (String c) IH). Qed.
Lemma substring_app_drop a b m : String.substring (String.length a) m (a +:+ b) = String.substring 0 m b.
Proof. induction a as [|c a IH]; [done|exact IH]. Qed.

Lemma parse_literal_eval literal v rest :
  parse_literal literal v (literal +:+ rest) = Value (v, rest).
Proof.
  unfold parse_literal. rewrite substring_app_take, bool_decide_true by done.
  rewrite string_length_app, substring_app_drop, substring_all by lia. done.
Qed.

Lemma parse_value_int levels z rest :
  json_int_min <= z <= i64_max -> ends_value rest = true ->
  parse_value (S levels) (to_string z +:+ rest) = Some (Value (JInt z, rest)).
Proof.
  intros Hz Hr. rewrite <-(to_string_parse z rest Hz Hr). unfold to_string.
  destruct (Z.ltb_spec z 0) as [|Hnn]; [done|].
  pose proof (dec_digits_nonempty 20 z "" ltac:(lia)) as Hne.
  pose proof (dec_digits_forall 20 z "" Hnn) as Hd.
  destruct (dec_digits 20 z "") as [|c s]; [done|]. cbn [str_forall] in Hd.
  apply andb_true_iff in Hd as [Hc _]. rewrite string_app_cons. cbn [parse_value].
  set (special := fun c => (c =? "{")%char || (c =? "[")%char || (c =? "034")%char ||
    (c =? "t")%char || (c =? "f")%char || (c =? "n")%char).
  assert (Hn : negb (isdigit c) || negb (special c) = true)
    by (apply (ascii_forall (fun c => negb (isdigit c) || negb (special c))); vm_compute; reflexivity).
  rewrite Hc in Hn. apply negb_true_iff in Hn. unfold special in Hn. bool_prop.
  repeat match goal with H : (c =? _)%char = false |- _ => rewrite H; clear H end.
  by rewrite Hc, orb_true_r.
Qed.

Lemma parse_write pretty indent levels v rest :
  json_wf v = true -> (json_levels v <= levels)%nat -> ends_value rest = true ->
  parse_value levels (write_to pretty indent v +:+ rest) = Some (Value (v, rest)).
Proof.
  revert indent levels rest. induction v as [|b|z|s|elements IH|members IH] using JsonValue_ind';
    intros indent levels rest Hwf Hl Hr; (destruct levels as [|levels]; [cbn in Hl; lia|]).
  - exact (f_equal Some (parse_literal_eval "null" JNull rest)).
  - destruct b; exact (f_equal Some (parse_literal_eval _ (JBool _) rest)).
  - cbn [json_wf] in Hwf. bool_prop. by apply parse_value_int.
  - change (parsed_bind (Some (parse_string (json_escape s +:+ rest)))
      (fun s text => Some (Value (JString s, text))) = Some (Value (JString s, rest))).
    by rewrite json_escape_parse.
  - destruct elements as [|e elements]; [done|]. rewrite write_array.
    cbn [json_levels] in Hl. apply le_S_n in Hl. rewrite Forall_list_max in Hl.
    change (parse_value (S levels) (String "[" ?t)) with (parse_array (parse_value levels) t).
    unfold parse_array. set (t := _ +:+ _).
    assert (Hb : starts "]" (skip_ws t) = false).
    { subst t. cbn [map]. rewrite comma_separated_cons. unfold write_element at 1.
      rewrite string_app_assoc, skip_ws_newline, value_head_skip by apply write_to_head.
      apply value_head_starts, write_to_head. }
    rewrite Hb, parse_elements_skip. pose proof (skip_ws_length t).
    rewrite <-parse_elements_skip.
    eapply elements_at; [apply parse_value_progress| |lia]. rewrite parse_elements_skip.
    apply (parse_elements_write _ _ _ _ (length (e :: elements)) []); [|done|done].
    cbn [json_wf] in Hwf. apply Is_true_true, forallb_True in Hwf.
    rewrite Forall_forall in *. intros x Hx rest' Hr'.
    apply IH; [done|by apply Is_true_true, Hwf|by apply Hl|done].
  - destruct members as [|m members]; [done|]. rewrite write_object.
    cbn [json_levels] in Hl. apply le_S_n in Hl. rewrite Forall_list_max in Hl.
    change (parse_value (S levels) (String "{" ?t)) with (parse_object (parse_value levels) t).
    unfold parse_object. set (t := _ +:+ _).
    assert (Hb : starts "}" (skip_ws t) = false).
    { subst t. cbn [map]. rewrite comma_separated_cons. unfold write_member at 1.
      by rewrite !string_app_assoc, skip_ws_newline. }
    rewrite Hb, <-(parse_members_skip _ _ _ (skip_ws t)), skip_ws_idem.
    eapply members_at; [apply parse_value_progress| |lia]. rewrite parse_members_skip.
    cbn [json_wf] in Hwf. apply andb_true_iff in Hwf as [Hnd%bool_decide_eq_true Hwf].
    apply (parse_members_write _ _ _ _ (length (m :: members)) []); [|done|done|done].
    apply Is_true_true, forallb_True in Hwf.
    rewrite Forall_forall in *. intros x Hx rest' Hr'.
    apply IH; [done|by apply Is_true_true, (Hwf x)|by apply Hl|done].
Qed.

(** ** What the parser yields is well formed *)
Definition json_fits (levels : nat) (v : JsonValue) : Prop :=
  json_wf v = true /\ (json_levels v <= levels)%nat.

Lemma find_member_notin name members : find_member name members = None -> name ∉ members.*1.
Proof.
  induction members as [|[m v] members IH]; [intros _; apply not_elem_of_nil|].
  cbn [find_member fmap list_fmap fst]. case_bool_decide as Hm; [done|]. intros H.
  apply not_elem_of_cons. split; [by intros ->|by apply IH].
Qed.

Lemma json_fits_array levels elements :
  Forall (json_fits levels) elements -> json_fits (S levels) (JArray elements).
Proof.
  intros H. split; cbn [json_wf json_levels].
  - apply forallb_forall. intros x Hx. rewrite Forall_forall in H. by apply H, list_elem_of_In.
  - apply le_n_S, Forall_list_max. eapply Forall_impl; [exact H|]. by intros x [_ ?].
Qed.

Lemma json_fits_object levels members :
  NoDup (members.*1) -> Forall (fun m : string * JsonValue => json_fits levels m.2) members ->
  json_fits (S levels) (JObject members).
Proof.
  intros Hnd H. split; cbn [json_wf json_levels].
  - rewrite bool_decide_true by done. apply forallb_forall. intros x Hx.
    rewrite Forall_forall in H. by apply H, list_elem_of_In.
  - apply le_n_S, Forall_list_max. eapply Forall_impl; [exact H|]. by intros x [_ ?].
Qed.

Lemma parsed_bind_Value {A B} (p : Parsed A) (k : A -> string -> Parsed B) b rest :
  parsed_bind p k = Some (Value (b, rest)) ->
  exists a text, p = Some (Value (a, text)) /\ k a text = Some (Value (b, rest)).
Proof. destruct p as [[[a text]|]|]; [by eauto|done..]. Qed.

Section loops_fit.
Context (value : string -> Parsed JsonValue) (levels : nat)
  (Hvalue : forall text v rest, value text = Some (Value (v, rest)) -> json_fits levels v).

Lemma parse_members_fits fuel acc text v rest :
  NoDup (acc.*1) -> Forall (fun m : string * JsonValue => json_fits levels m.2) acc ->
  parse_members value fuel (JObject acc) text = Some (Value (v, rest)) -> json_fits (S levels) v.
Proof.
  revert acc text. induction fuel as [|fuel IH]; intros acc text Hnd Hacc; [done|].
  cbn [parse_members]. destruct (negb _); [done|].
  intros (name & t1 & _ & H)%parsed_bind_Value. destruct (negb _); [done|].
  apply parsed_bind_Value in H as (member & t2 & Hm%Hvalue & H).
  unfold json_find in H. cbn [json_members] in H.
  destruct (find_member name acc) eqn:Hf; [done|]. apply find_member_notin in Hf.
  cbn [json_set] in H. rewrite set_member_new in H by done.
  assert (Hnd' : NoDup ((acc ++ [(name, member)]).*1)).
  { rewrite fmap_app. apply NoDup_app. split_and!; [done| |apply NoDup_singleton].
    intros x Hx ->%list_elem_of_singleton. done. }
  assert (Hacc' : Forall (fun m : string * JsonValue => json_fits levels m.2)
    (acc ++ [(name, member)])) by by apply Forall_app_2; [|constructor].
  destruct (starts "," _); [by apply IH in H|]. destruct (starts "}" _); [|done].
  injection H as <- _. by apply json_fits_object.
Qed.

Lemma parse_elements_fits fuel acc text v rest :
  Forall (json_fits levels) acc ->
  parse_elements value fuel (JArray acc) text = Some (Value (v, rest)) -> json_fits (S levels) v.
Proof.
  revert acc text. induction fuel as [|fuel IH]; intros acc text Hacc; [done|].
  cbn [parse_elements]. intros (element & t1 & He%Hvalue & H)%parsed_bind_Value.
  cbn [json_push_back] in H.
  assert (Hacc' : Forall (json_fits levels) (acc ++ [element])) by by apply Forall_app_2; [|constructor].
  destruct (starts "," _); [by apply IH in H|]. destruct (starts "]" _); [|done].
  injection H as <- _. by apply json_fits_array.
Qed.
End loops_fit.

Lemma span_digits_digits text digits rest :
  span_digits text = (digits, rest) -> str_forall isdigit digits = true.
Proof.
  revert digits. induction text as [|c text IH]; intros digits; cbn [span_digits].
  { by intros [= <- <-]. }
  destruct (isdigit c) eqn:Hc; [|by intros [= <- <-]].
  destruct (span_digits text) as [d r] eqn:Hs. intros [= <- <-]. cbn [str_forall].
  by rewrite Hc, (IH d).
Qed.

(** A text of [n] digits is below [10 ^ n]. *)
Lemma dec_value_bound v s :
  0 <= v -> str_forall isdigit s = true -> dec_value v s < (v + 1) * 10 ^ slen s.
Proof.
  revert v. induction s as [|c s IH]; intros v Hv; cbn [str_forall dec_value]; [unfold slen; cbn; lia|].
  intros [Hc Hs]%andb_true_iff. unfold isdigit in Hc. bool_prop.
  rewrite slen_cons, Z.pow_add_r by (lia || apply slen_nonneg).
  assert (0 < 10 ^ slen s) by (apply Z.pow_pos_nonneg; [lia|apply slen_nonneg]).
  eapply Z.lt_le_trans; [apply IH; [lia|done]|]. nia.
Qed.

Lemma parse_number_fits levels text v rest :
  parse_number text = Value (v, rest) -> json_fits (S levels) v.
Proof.
  unfold parse_number. destruct (match text with String c r => _ | EmptyString => _ end)
    as [negative unsigned]. destruct (span_digits unsigned) as [digits r] eqn:Hs.
  apply span_digits_digits in Hs. intros H.
  assert (H' : (if 19 <? slen digits + (if negative then 1 else 0)
                then parse_fail ReasonCode.ValueOutOfRange "json integer too large"
                else match number_value 0 digits with
                     | None => parse_fail ReasonCode.ValueOutOfRange "json integer overflow"
                     | Some value => Value (JInt (if negative then - value else value), r)
                     end) = Value (v, rest))
    by (destruct digits; [done|]; by destruct (starts_fraction r)).
  clear H. destruct (Z.ltb_spec 19 (slen digits + (if negative then 1 else 0))); [done|].
  destruct (number_value 0 digits) as [z|] eqn:Hz; [|done]. injection H' as <- _.
  apply number_value_bound in Hz as [Hb ->]; [|unfold i64_max; lia|done].
  pose proof (dec_value_bound 0 digits ltac:(lia) Hs) as Hd.
  split; [|cbn; lia]. cbn [json_wf]. unfold json_int_min, i64_max in *.
  destruct negative; [|lia].
  assert (10 ^ slen digits <= 10 ^ 18) by (apply Z.pow_le_mono_r; lia). lia.
Qed.

Lemma parse_value_fits levels text v rest :
  parse_value levels text = Some (Value (v, rest)) -> json_fits levels v.
Proof.
  assert (Hlit : forall literal w t, parse_literal literal w t = Value (v, rest) -> w = v)
    by (intros literal w t; unfold parse_literal, parse_fail; intros H; by split_match H).
  revert text v rest Hlit. induction levels as [|below IH]; intros text v rest Hlit; cbn [parse_value]; [done|].
  assert (Hbelow : forall t w r, parse_value below t = Some (Value (w, r)) -> json_fits below w).
  { intros t w r. apply IH. intros literal u t'. unfold parse_literal, parse_fail. intros H.
    by split_match H. }
  destruct text as [|c text]; [done|].
  destruct (c =? "{")%char.
  { unfold parse_object. destruct (starts "}" _).
    - intros [= <- _]. by apply json_fits_object; [apply NoDup_nil_2|constructor].
    - apply parse_members_fits; [done|apply NoDup_nil_2|constructor]. }
  destruct (c =? "[")%char.
  { unfold parse_array. destruct (starts "]" _).
    - intros [= <- _]. by apply json_fits_array.
    - by apply parse_elements_fits. }
  destruct (c =? _)%char.
  { intros (s & t & _ & [= <- _])%parsed_bind_Value. split; [done|cbn; lia]. }
  do 3 (destruct (c =? _)%char; [intros [= <-%Hlit]; split; [done|cbn; lia]|]).
  destruct (_ || _); [|done]. intros [= H]. by eapply parse_number_fits.
Qed.

(** ** Whole documents *)

(** C33. Parsing a document always ends with an answer; an accepted document lies
    within the size limit, nests at most [kMaxDepth] levels below its root, has no
    duplicate member name at any level and holds 64-bit integers only. *)
Theorem parse_json_terminates (text : string) (max_bytes : Z) :
  exists r, parse_json text max_bytes = Some r /\
    forall v, r = Value v ->
      slen text <= max_bytes /\ json_wf v = true /\ (json_levels v <= S kMaxDepth)%nat.
Proof.
  unfold parse_json. destruct (Z.ltb_spec max_bytes (slen text)).
  { eexists. split; [done|]. by intros. }
  destruct (parse_value_progress (S kMaxDepth) (skip_ws text)) as ([[v rest]|s] & Hp & _);
    rewrite Hp; [|eexists; split; [done|by intros]].
  apply parse_value_fits in Hp as [Hw Hl].
  destruct (skip_ws rest); (eexists; split; [done|]); [|by intros].
  intros w [= <-]. done.
Qed.

Lemma json_text_write pretty v max_bytes :
  json_wf v = true -> (json_levels v <= S kMaxDepth)%nat -> slen (to_text pretty v) <= max_bytes ->
  parse_json (to_text pretty v) max_bytes = Some (Value v).
Proof.
  intros Hwf Hlevels Hsize.
  unfold parse_json. rewrite (proj2 (Z.ltb_ge _ _)) by done. unfold to_text.
  pose proof (parse_write pretty 0 (S kMaxDepth) v "" Hwf Hlevels eq_refl) as Hp.
  pose proof (write_to_head pretty 0 v "") as Hh. rewrite string_app_empty in Hp, Hh.
  by rewrite value_head_skip, Hp.
Qed.

(** C24. The text the writer gives for a well-formed document, pretty or compact, parses
    back to that document, when the text is within the size bound of the parser and the
    nesting within its depth bound. *)
Theorem json_text_roundtrip (pretty : bool) (v : JsonValue) (max_bytes : Z)
    (Hwf : json_wf v = true) (Hlevels : (json_levels v <= S kMaxDepth)%nat)
    (Hsize : slen (to_text pretty v) <= max_bytes) :
  parse_json (to_text pretty v) max_bytes = Some (Value v).
Proof. by apply json_text_write. Qed.

Definition sample_document : JsonValue :=
  JObject [("service", JString (String "010" (String "034" "caf\")));
           ("weights", JArray [JInt 1; JInt (-20); JBool true; JNull; JArray []]);
           ("empty", JObject [])].
Lemma json_text_roundtrip_witness :
  parse_json (to_text true sample_document) 1048576 = Some (Value sample_document) /\
  parse_json (to_text false sample_document) 1048576 = Some (Value sample_document).
Proof.
  split.
  - apply json_text_roundtrip; [reflexivity|vm_compute; lia|vm_compute; discriminate].
  - apply json_text_roundtrip; [reflexivity|vm_compute; lia|vm_compute; discriminate].
Defined.

(** C35. Of the 64-bit integers the writer emits, the parser reads back those of at
    most nineteen characters and refuses the negative ones of nineteen digits: the
    length test counts the sign. *)
Theorem json_integers_read_back (z : Z) (Hz : i64_min <= z <= i64_max) :
  parse_json (to_text false (JInt z)) 64 =
    Some (if json_int_min <=? z then Value (JInt z)
          else parse_fail ReasonCode.ValueOutOfRange "json integer too large").
Proof.
  destruct (Z.leb_spec json_int_min z) as [Hin|Hout].
  - apply json_text_write; [cbn [json_wf]; lia|cbn; lia|]. unfold to_text. cbn [write_to].
    unfold to_string, i64_min, i64_max, json_int_min in *. destruct (Z.ltb_spec z 0).
    + destruct (to_string_magnitude (- z) 18) as (_ & _ & Hl & _); [lia..|]. rewrite slen_cons. lia.
    + destruct (to_string_magnitude z 19) as (_ & _ & Hl & _); [lia..|]. lia.
  - unfold to_text. cbn [write_to]. unfold to_string, i64_min, json_int_min in *.
    destruct (Z.ltb_spec z 0); [|lia].
    destruct (to_string_magnitude (- z) 19) as (Hd & Hne & Hl & Hv); [lia..|].
    set (s := dec_digits 20 (- z) "") in *.
    assert (Hs : 19 <= slen s).
    { pose proof (dec_value_bound 0 s ltac:(lia) Hd). rewrite Hv in *.
      destruct (Z.le_gt_cases 19 (slen s)); [done|].
      assert (10 ^ slen s <= 10 ^ 18) by (apply Z.pow_le_mono_r; lia). lia. }
    unfold parse_json. rewrite slen_cons, (proj2 (Z.ltb_ge _ _)) by lia.
    change (match Some (parse_number (String "-" s)) with
            | None => None
            | Some (Failed st) => Some (Failed st)
            | Some (Value (root, rest)) =>
              match skip_ws rest with
              | EmptyString => Some (Value root)
              | _ => Some (parse_fail ReasonCode.MalformedInput "trailing content after json value")
              end
            end = Some (parse_fail ReasonCode.ValueOutOfRange "json integer too large")).
    unfold parse_number. cbn [Ascii.eqb Bool.eqb].
    assert (Hspan : span_digits s = (s, "")).
    { rewrite <-(string_app_empty s) at 1. by apply span_digits_app. }
    rewrite Hspan. destruct s as [|c s]; [done|]. cbn [starts_fraction].
    by rewrite (proj2 (Z.ltb_lt _ _)) by lia.
Qed.

Lemma json_integers_read_back_witness :
  parse_json (to_text false (JInt i64_min)) 64 =
    Some (parse_fail ReasonCode.ValueOutOfRange "json integer too large").
Proof. apply (json_integers_read_back i64_min). vm_compute. split; discriminate. Defined.
