(* ===== verification/JsonArchive.v ===== *)
(** * JSON archives

    The JSON half of [src/core/archive.cpp]: [JsonWriter] builds a document and
    [JsonReader] walks one, each as a stack of open containers with the member
    name or the node that waits to be filled or consumed.  The flag
    [has_pending_name_] and its name are one option, as are a writer frame's
    [named] and [name]; a reader's pointers into the document are the subtrees
    they point to.  The reader's sticky first refusal makes every later call a
    no-op, so it is an error monad. *)

From S2P Require Import Prelude Std Reason Types Digest Json.
#[local] Open Scope Z_scope.

Definition kMaxDecodedSequence : Z := 2 ^ 16.
Definition kMaxDecodedBlob : Z := 2 ^ 20.

(** ** The writer *)
Record WriterFrame := mkWriterFrame { wf_value : JsonValue; wf_name : option string }.
#[export] Instance eta_WriterFrame : Settable WriterFrame := fun f =>
  mkWriterFrame (wf_value f) (wf_name f).

(** The innermost open container comes first in [jw_stack]. *)
Record JsonWriter := mkJsonWriter {
  jw_stack : list WriterFrame;
  jw_root : JsonValue;
  jw_pending : option string;
  jw_root_set : bool
}.
#[export] Instance eta_JsonWriter : Settable JsonWriter := fun w =>
  mkJsonWriter (jw_stack w) (jw_root w) (jw_pending w) (jw_root_set w).
Definition JsonWriter_default : JsonWriter := mkJsonWriter [] JNull None false.

Definition attach (value : JsonValue) (w : JsonWriter) : JsonWriter :=
  match jw_stack w with
  | [] => w <| jw_root := value |> <| jw_root_set := true |>
  | frame :: rest =>
    if is_array (wf_value frame) then
      w <| jw_stack := (frame <| wf_value := json_push_back (wf_value frame) value |>) :: rest |>
    else
      match jw_pending w with
      | Some name =>
        w <| jw_stack := (frame <| wf_value := json_set name value (wf_value frame) |>) :: rest |>
          <| jw_pending := None |>
      | None =>
        w <| jw_stack := (frame <| wf_value := json_set "" value (wf_value frame) |>) :: rest |>
      end
  end.

(** [begin_object] and [begin_array]: the pending name waits in the frame. *)
Definition open_container (value : JsonValue) (w : JsonWriter) : JsonWriter :=
  w <| jw_stack := mkWriterFrame value (jw_pending w) :: jw_stack w |> <| jw_pending := None |>.
Definition write_begin_object : JsonWriter -> JsonWriter := open_container make_object.
Definition write_begin_array : JsonWriter -> JsonWriter := open_container make_array.

(** [end_object] and [end_array] *)
Definition close_container (w : JsonWriter) : JsonWriter :=
  match jw_stack w with
  | [] => w
  | frame :: rest =>
    let w := w <| jw_stack := rest |> in
    let w := match wf_name frame with Some name => w <| jw_pending := Some name |> | None => w end in
    attach (wf_value frame) w
  end.
Definition write_end_object : JsonWriter -> JsonWriter := close_container.
Definition write_end_array : JsonWriter -> JsonWriter := close_container.

Definition write_begin_field (name : string) (w : JsonWriter) : JsonWriter :=
  w <| jw_pending := Some name |>.
Definition write_optional_begin (present : bool) (w : JsonWriter) : JsonWriter :=
  if present then w else attach JNull w.

(** The document each [primitive] attaches.  Unsigned values above [INT64_MAX]
    are written as text. *)
Definition json_unsigned (value : Z) : JsonValue :=
  if i64_max <? value then JString (to_string value) else JInt value.
Definition json_digest (value : Digest) : JsonValue := JString (digest_hex value).
Definition json_bytes (value : list Byte) : JsonValue := JString (digest_hex value).
Definition json_enum {E} `{Enum E} (value : E) : JsonValue := JString (enum_to_string value).

(** ** The reader *)
Record ReaderFrame := mkReaderFrame {
  rf_node : JsonValue;
  rf_index : nat;
  rf_consumed : list bool
}.
#[export] Instance eta_ReaderFrame : Settable ReaderFrame := fun f =>
  mkReaderFrame (rf_node f) (rf_index f) (rf_consumed f).

Record JsonReader := mkJsonReader {
  jr_root : JsonValue;
  jr_stack : list ReaderFrame;
  jr_pending : option JsonValue;
  jr_max_sequence : Z
}.
#[export] Instance eta_JsonReader : Settable JsonReader := fun r =>
  mkJsonReader (jr_root r) (jr_stack r) (jr_pending r) (jr_max_sequence r).
Definition JsonReader_make (root : JsonValue) (max_sequence : Z) : JsonReader :=
  mkJsonReader root [] None max_sequence.

Definition JReader (T : Type) : Type := JsonReader -> Result (T * JsonReader).
Definition jret {T} (x : T) : JReader T := fun r => Value (x, r).
Definition jbind {A B} (m : JReader A) (k : A -> JReader B) : JReader B := fun r =>
  match m r with
  | Value (a, r') => k a r'
  | Failed s => Failed s
  end.
Definition jfail {T} (code : ReasonCode) (detail : string) : JReader T := fun _ =>
  Failed (Status_make code detail).
Notation "'let$' x ':=' e 'in' k" := (jbind e (fun x => k))
  (at level 10, x pattern, e at level 200, k at level 200,
   format "'[v' 'let$'  x  ':='  e  'in' '/' k ']'") : fabric_scope.

(** The node the next call looks at. *)
Definition current_node (r : JsonReader) : JsonValue :=
  match jr_pending r, jr_stack r with
  | Some node, _ => node
  | None, frame :: _ => rf_node frame
  | None, [] => jr_root r
  end.
Definition current : JReader JsonValue := fun r => Value (current_node r, r).
(** [pending_ = nullptr;] *)
Definition consume {T} (x : T) : JReader T := fun r => Value (x, r <| jr_pending := None |>).
(** [stack_.push_back(frame); pending_ = nullptr;] *)
Definition push_frame (frame : ReaderFrame) : JReader unit := fun r =>
  Value (tt, r <| jr_stack := frame :: jr_stack r |> <| jr_pending := None |>).

Definition read_begin_object (type_name : string) : JReader unit :=
  let$ node := current in
  if negb (is_object node) then
    jfail ReasonCode.MalformedInput ("expected json object for " +:+ type_name)
  else push_frame (mkReaderFrame node 0 (replicate (length (json_members node)) false)).

(** The first member that was not consumed. *)
Fixpoint unconsumed (consumed : list bool) (members : JsonMemberList) : option string :=
  match consumed, members with
  | false :: _, (name, _) :: _ => Some name
  | true :: consumed, _ :: members => unconsumed consumed members
  | _, _ => None
  end.

Definition read_end_object : JReader unit := fun r =>
  match jr_stack r with
  | [] => jfail ReasonCode.MalformedInput "unbalanced json object" r
  | frame :: rest =>
    match unconsumed (rf_consumed frame) (json_members (rf_node frame)) with
    | Some name => jfail ReasonCode.UnknownField ("unconsumed json member '" +:+ name +:+ "'") r
    | None => Value (tt, r <| jr_stack := rest |> <| jr_pending := None |>)
    end
  end.

Definition read_begin_array : JReader nat :=
  let$ node := current in
  if negb (is_array node) then jfail ReasonCode.MalformedInput "expected json array"
  else
    fun r =>
      if jr_max_sequence r <? zlen (json_elements node) then
        jfail ReasonCode.OversizedInput "json array exceeds bound" r
      else (let$ _ := push_frame (mkReaderFrame node 0 []) in
            jret (length (json_elements node))) r.

Definition read_end_array : JReader unit := fun r =>
  match jr_stack r with
  | [] => jfail ReasonCode.MalformedInput "unbalanced json array" r
  | _ :: rest => Value (tt, r <| jr_stack := rest |> <| jr_pending := None |>)
  end.

Definition read_begin_element : JReader unit := fun r =>
  match jr_stack r with
  | frame :: rest =>
    if negb (is_array (rf_node frame)) then
      jfail ReasonCode.MalformedInput "json element outside array" r
    else
      match json_elements (rf_node frame) !! rf_index frame with
      | None => jfail ReasonCode.TruncatedInput "json array shorter than declared" r
      | Some element =>
        Value (tt, r <| jr_stack := (frame <| rf_index := S (rf_index frame) |>) :: rest |>
                     <| jr_pending := Some element |>)
      end
  | [] => jfail ReasonCode.MalformedInput "json element outside array" r
  end.
Definition read_end_element : JReader unit := consume tt.

(** The first member of a name, with its position. *)
Fixpoint member_at (name : string) (members : JsonMemberList) (i : nat) : option (nat * JsonValue) :=
  match members with
  | [] => None
  | (member, value) :: rest =>
    if bool_decide (member = name) then Some (i, value) else member_at name rest (S i)
  end.

Definition read_begin_field (name : string) : JReader unit := fun r =>
  match jr_stack r with
  | frame :: rest =>
    if negb (is_object (rf_node frame)) then
      jfail ReasonCode.MalformedInput "json field outside object" r
    else
      match member_at name (json_members (rf_node frame)) 0 with
      | None => jfail ReasonCode.MissingField ("missing json member '" +:+ name +:+ "'") r
      | Some (i, value) =>
        if default false (rf_consumed frame !! i) then
          jfail ReasonCode.DuplicateIdentity "json member consumed twice" r
        else
          Value (tt, r <| jr_stack := (frame <| rf_consumed := <[i := true]> (rf_consumed frame) |>)
                                        :: rest |>
                       <| jr_pending := Some value |>)
      end
  | [] => jfail ReasonCode.MalformedInput "json field outside object" r
  end.
Definition read_end_field : JReader unit := consume tt.

Definition read_optional_begin : JReader bool :=
  let$ node := current in
  if is_null node then consume false else jret true.

Definition read_integral_signed : JReader Z :=
  let$ node := current in
  match node with
  | JInt value => consume value
  | _ => jfail ReasonCode.MalformedInput "expected json integer"
  end.

(** The digit loop of [read_integral_unsigned]. *)
Fixpoint unsigned_text (value : Z) (text : string) : Result Z :=
  match text with
  | EmptyString => Value value
  | String c text =>
    if (code c <? 48) || (57 <? code c) then
      Failed (Status_make ReasonCode.MalformedInput "expected json integer text")
    else
      match checked_mul u64_max value 10 with
      | None => Failed (Status_make ReasonCode.ValueOutOfRange "integer text overflow")
      | Some scaled =>
        match checked_add u64_max scaled (code c - 48) with
        | None => Failed (Status_make ReasonCode.ValueOutOfRange "integer text overflow")
        | Some value => unsigned_text value text
        end
      end
  end.

Definition read_integral_unsigned : JReader Z :=
  let$ node := current in
  match node with
  | JInt value =>
    if value <? 0 then jfail ReasonCode.ValueOutOfRange "negative value for unsigned field"
    else consume value
  | JString text =>
    if (slen text =? 0) || (20 <? slen text) then
      jfail ReasonCode.ValueOutOfRange "integer text out of range"
    else
      match unsigned_text 0 text with
      | Failed s => fun _ => Failed s
      | Value value => consume value
      end
  | _ => jfail ReasonCode.MalformedInput "expected json integer"
  end.

(** [primitive] of an unsigned type up to [max_value], [assign_integral]. *)
Definition read_unsigned (max_value : Z) : JReader Z :=
  let$ raw := read_integral_unsigned in
  if max_value <? raw then jfail ReasonCode.ValueOutOfRange "json integer out of range"
  else jret raw.
(** [primitive] of [int8_t], [int16_t] and [int32_t]. *)
Definition read_signed (min_value max_value : Z) : JReader Z :=
  let$ raw := read_integral_signed in
  if (raw <? min_value) || (max_value <? raw) then
    jfail ReasonCode.ValueOutOfRange "json integer out of range"
  else jret raw.
Definition read_i64 : JReader Z := read_integral_signed.

Definition read_bool : JReader bool :=
  let$ node := current in
  match node with
  | JBool value => consume value
  | _ => jfail ReasonCode.MalformedInput "expected json boolean"
  end.

Definition read_string : JReader string :=
  let$ node := current in
  match node with
  | JString value => consume value
  | _ => jfail ReasonCode.MalformedInput "expected json string"
  end.

Definition read_digest : JReader Digest :=
  let$ node := current in
  match node with
  | JString text =>
    match digest_parse_hex text with
    | Failed s => jfail (status_code s) (status_detail s)
    | Value value => consume value
    end
  | _ => jfail ReasonCode.MalformedInput "expected json digest string"
  end.

(** The byte loop of [primitive_bytes]. *)
Fixpoint hex_blob (text : string) : Result (list Byte) :=
  match text with
  | String c (String d text) =>
    match hex_value c, hex_value d with
    | Some high, Some low =>
      let? rest := hex_blob text in Value (Z.lor (Z.shiftl high 4) low :: rest)
    | _, _ => Failed (Status_make ReasonCode.InvalidEncoding "invalid hex digit")
    end
  | _ => Value []
  end.
Definition read_bytes : JReader (list Byte) :=
  let$ node := current in
  match node with
  | JString text =>
    if negb (slen text mod 2 =? 0) || (kMaxDecodedBlob <? slen text / 2) then
      jfail ReasonCode.OversizedInput "invalid hex blob length"
    else
      match hex_blob text with
      | Failed s => fun _ => Failed s
      | Value value => consume value
      end
  | _ => jfail ReasonCode.MalformedInput "expected json hex string"
  end.

Definition read_enum (E : Type) `{Enum E} : JReader E :=
  let$ node := current in
  match node with
  | JString text =>
    match enum_from_string text with
    | Some value => consume value
    | None => jfail ReasonCode.InvalidEnumeration text
    end
  | _ => jfail ReasonCode.MalformedInput "enumeration must be a string"
  end.

(** *** Sequences and optionals: the reader's branches of [do_value] *)
Fixpoint read_elements {T} (get : JReader T) (n : nat) : JReader (list T) :=
  match n with
  | O => jret []
  | S n =>
    let$ _ := read_begin_element in
    let$ x := get in
    let$ _ := read_end_element in
    let$ l := read_elements get n in
    jret (x :: l)
  end.
Definition read_vector {T} (get : JReader T) : JReader (list T) :=
  let$ count := read_begin_array in
  let$ l := read_elements get count in
  let$ _ := read_end_array in
  jret l.
Definition read_option {T} (get : JReader T) : JReader (option T) :=
  let$ present := read_optional_begin in
  if present then let$ x := get in jret (Some x) else jret None.
Definition read_field {T} (name : string) (get : JReader T) : JReader T :=
  let$ _ := read_begin_field name in
  let$ x := get in
  let$ _ := read_end_field in
  jret x.
Definition read_object {T} (type_name : string) (get : JReader T) : JReader T :=
  let$ _ := read_begin_object type_name in
  let$ x := get in
  let$ _ := read_end_object in
  jret x.
