(* ===== verification/Archive.v ===== *)
(** * Canonical archives

    [include/dpu/fabric/core/archive.hpp] and the binary half of
    [src/core/archive.cpp].  A [Codec] is what one [visit] drives through the four
    archives: the bytes [BinaryWriter] appends and the value [BinaryReader] reads,
    the steps of [JsonWriter] and of [JsonReader], together with the values each
    reader accepts, what reading back gives and the document of a value.  The
    binary reader holds its first refusal as a sticky status and every later call
    is a no-op, so it is an error monad; the sequence bound of the reader is its
    environment.  The laws of the JSON half are in JsonLaws.v. *)

From S2P Require Import Prelude Std Reason Types Digest Json JsonArchive.
#[local] Open Scope Z_scope.

Module WireTag.
Inductive WireTag : Set :=
  Null | Bool | U64 | I64 | Str | Bytes | Array | Object | Enum | Digest.
End WireTag.
Abbreviation WireTag := WireTag.WireTag.
Definition tag_value (tag : WireTag) : Z :=
  match tag with
  | WireTag.Null => 0 | WireTag.Bool => 1 | WireTag.U64 => 2 | WireTag.I64 => 3
  | WireTag.Str => 4 | WireTag.Bytes => 5 | WireTag.Array => 6 | WireTag.Object => 7
  | WireTag.Enum => 8 | WireTag.Digest => 9
  end.

(** ** The writer: bytes appended to the buffer *)
Fixpoint put_le (n : nat) (shift : Z) (value : Z) : list Byte :=
  match n with
  | O => []
  | S n => Z.land (Z.shiftr value shift) 255 :: put_le n (shift + 8) value
  end.
Definition put_u8 (value : Z) : list Byte := [value].
Definition put_u32 (value : Z) : list Byte := put_le 4 0 value.
Definition put_u64 (value : Z) : list Byte := put_le 8 0 value.
Definition put_tag (tag : WireTag) : list Byte := put_u8 (tag_value tag).
Definition put_string (value : string) : list Byte :=
  put_tag WireTag.Str ++ put_u32 (slen value) ++ bytes_of_string value.
Definition put_begin_object (type_name : string) : list Byte :=
  put_tag WireTag.Object ++ put_string type_name.
Definition put_begin_array (count : Z) : list Byte :=
  put_tag WireTag.Array ++ put_u32 (if u32_max <? count then u32_max else count).
Definition put_optional_begin (present : bool) : list Byte := put_u8 (if present then 1 else 0).

(** ** The reader *)
Definition Reader (T : Type) : Type := Z -> list Byte -> Result (T * list Byte).

Definition rret {T} (x : T) : Reader T := fun _ data => Value (x, data).
Definition rbind {A B} (r : Reader A) (k : A -> Reader B) : Reader B := fun max data =>
  match r max data with
  | Value (a, data') => k a max data'
  | Failed s => Failed s
  end.
Definition rfail {T} (code : ReasonCode) (detail : string) : Reader T := fun _ _ =>
  Failed (refuse code detail).
Notation "'let!' x ':=' e 'in' k" := (rbind e (fun x => k))
  (at level 10, x pattern, e at level 200, k at level 200,
   format "'[v' 'let!'  x  ':='  e  'in' '/' k ']'") : fabric_scope.

Definition get_u8 : Reader Z := fun _ data =>
  match data with
  | [] => Failed (refuse ReasonCode.TruncatedInput "binary stream ended")
  | b :: data' => Value (b, data')
  end.

(** The loop of [get_u32] and [get_u64]. *)
Fixpoint get_le (n : nat) (shift : Z) (value : Z) : Reader Z :=
  match n with
  | O => rret value
  | S n => let! b := get_u8 in get_le n (shift + 8) (Z.lor value (Z.shiftl b shift))
  end.
Definition get_u32 : Reader Z := get_le 4 0 0.
Definition get_u64 : Reader Z := get_le 8 0 0.

Definition expect_tag (tag : WireTag) : Reader unit :=
  let! raw := get_u8 in
  if negb (raw =? tag_value tag) then rfail ReasonCode.InvalidTag "unexpected wire tag"
  else rret tt.

Definition take_raw (count : Z) : Reader (list Byte) := fun _ data =>
  if zlen data <? count then
    Failed (refuse ReasonCode.TruncatedInput "binary blob exceeds remaining input")
  else Value (take (Z.to_nat count) data, drop (Z.to_nat count) data).

(** [read_integral] for a type whose largest value is [max_value]. *)
Definition read_integral (max_value : Z) (detail : string) (tag : WireTag) : Reader Z :=
  let! _ := expect_tag tag in
  let! raw := get_u64 in
  if max_value <? raw then rfail ReasonCode.ValueOutOfRange detail else rret raw.

Definition get_bool : Reader bool :=
  let! _ := expect_tag WireTag.Bool in
  let! raw := get_u8 in
  if 1 <? raw then rfail ReasonCode.MalformedInput "invalid boolean" else rret (raw =? 1).

Definition get_blob (tag : WireTag) (detail : string) : Reader (list Byte) :=
  let! _ := expect_tag tag in
  let! length := get_u32 in
  if kMaxDecodedBlob <? length then rfail ReasonCode.OversizedInput detail
  else take_raw length.

Definition get_string : Reader string :=
  let! raw := get_blob WireTag.Str "declared string exceeds bound" in
  rret (string_of_bytes raw).

Definition get_begin_object (type_name : string) : Reader unit :=
  let! _ := expect_tag WireTag.Object in
  let! name := get_string in
  if negb (bool_decide (name = type_name)) then
    rfail ReasonCode.InvalidTag
      ("type mismatch: expected " +:+ type_name +:+ ", found " +:+ name)
  else rret tt.

Definition get_begin_array : Reader Z :=
  let! _ := expect_tag WireTag.Array in
  let! declared := get_u32 in
  fun max_sequence data =>
    if max_sequence <? declared then
      Failed (refuse ReasonCode.OversizedInput "declared sequence exceeds bound")
    else Value (declared, data).

Definition get_optional_begin : Reader bool :=
  let! flag := get_u8 in
  if 1 <? flag then rfail ReasonCode.MalformedInput "invalid optional flag"
  else rret (flag =? 1).

(** ** Codecs *)
Record Codec (T : Type) := mkCodec {
  c_put : T -> list Byte;
  c_get : Reader T;
  c_ok : Z -> T -> bool;
  c_norm : T -> T;
  j_put : T -> JsonWriter -> JsonWriter;
  j_get : JReader T;
  j_ok : Z -> T -> bool;
  j_json : T -> JsonValue
}.
Arguments mkCodec {T}.
Arguments c_put {T}.
Arguments c_get {T}.
Arguments c_ok {T}.
Arguments c_norm {T}.
Arguments j_put {T}.
Arguments j_get {T}.
Arguments j_ok {T}.
Arguments j_json {T}.

(** [c_ok max x]: the reader with sequence bound [max] accepts what the writer
    writes for [x]; [c_norm x] is then what it reads.  Conversely whatever the
    reader accepts is the writer's encoding of the value it returns. *)
Class CodecLaws {T} (c : Codec T) : Prop := {
  codec_roundtrip : forall max x rest,
    c_ok c max x = true -> c_get c max (c_put c x ++ rest) = Value (c_norm c x, rest);
  codec_canonical : forall max data x rest,
    Forall is_byte data -> c_get c max data = Value (x, rest) ->
    data = c_put c x ++ rest /\ c_ok c max x = true /\ c_norm c x = x;
  codec_bytes : forall max x, c_ok c max x = true -> Forall is_byte (c_put c x)
}.

(** Reading back gives the value itself. *)
Class CodecExact {T} (c : Codec T) : Prop := codec_exact : forall x, c_norm c x = x.

(** A primitive: [image] is the document its JSON [primitive] attaches. *)
Definition c_exact {T} (put : T -> list Byte) (get : Reader T) (ok : T -> bool)
    (image : T -> JsonValue) (jget : JReader T) (jok : T -> bool) : Codec T :=
  mkCodec put get (fun _ => ok) (fun x => x) (fun x => attach (image x)) jget (fun _ => jok) image.

Definition in_widthb (max z : Z) : bool := (0 <=? z) && (z <=? max).

Definition c_bool : Codec bool :=
  c_exact (fun b : bool => put_tag WireTag.Bool ++ put_u8 (if b then 1 else 0)) get_bool (fun _ => true)
    JBool read_bool (fun _ => true).
(** [primitive] of [uint8_t], [uint16_t], [uint32_t] and [uint64_t]. *)
Definition c_unsigned (max_value : Z) : Codec Z :=
  c_exact (fun v => put_tag WireTag.U64 ++ put_u64 v)
    (read_integral max_value "unsigned integer field out of range" WireTag.U64)
    (in_widthb max_value)
    json_unsigned (read_unsigned max_value) (in_widthb max_value).
Definition c_u8 : Codec Z := c_unsigned u8_max.
Definition c_u16 : Codec Z := c_unsigned u16_max.
Definition c_u32 : Codec Z := c_unsigned u32_max.
Definition c_u64 : Codec Z := c_unsigned u64_max.
(** [primitive(std::int64_t&)]: the value is sent as two's complement; the reader
    refuses every pattern above [INT64_MAX]. *)
Definition c_i64 : Codec Z :=
  c_exact (fun v => put_tag WireTag.I64 ++ put_u64 (v mod 2 ^ 64))
    (read_integral i64_max "signed integer field out of range" WireTag.I64)
    (in_widthb i64_max)
    JInt read_i64 (fun _ => true).
Definition c_string : Codec string :=
  c_exact put_string get_string (fun s => slen s <=? kMaxDecodedBlob)
    JString read_string (fun _ => true).
Definition c_digest : Codec Digest :=
  c_exact (fun d : Digest => put_tag WireTag.Digest ++ d)
    (let! _ := expect_tag WireTag.Digest in take_raw 32)
    (fun d => bool_decide (wf_digest d))
    json_digest read_digest (fun d => bool_decide (wf_digest d)).
Definition c_bytes : Codec (list Byte) :=
  c_exact (fun v : list Byte => put_tag WireTag.Bytes ++ put_u32 (zlen v) ++ v)
    (get_blob WireTag.Bytes "declared blob exceeds bound")
    (fun v => (zlen v <=? kMaxDecodedBlob) && bool_decide (Forall is_byte v))
    json_bytes read_bytes (fun v => (zlen v <=? kMaxDecodedBlob) && bool_decide (Forall is_byte v)).
(** [primitive_enum]: the canonical name, never the ordinal. *)
Definition c_enum (E : Type) `{Enum E} : Codec E :=
  c_exact (fun v => put_tag WireTag.Enum ++ put_string (enum_to_string v))
    (let! _ := expect_tag WireTag.Enum in
     let! name := get_string in
     match enum_from_string name with
     | Some v => rret v
     | None => rfail ReasonCode.InvalidEnumeration name
     end)
    (fun v => slen (enum_to_string v) <=? kMaxDecodedBlob)
    json_enum (read_enum E) (fun _ => true).
(** An absent identity is the empty string; other text is parsed. *)
Definition c_id : Codec string :=
  c_exact put_string
    (let! text := get_string in
     match text with
     | EmptyString => rret EmptyString
     | _ => match StrongId_parse text with
            | Value id => rret id
            | Failed s => fun _ _ => Failed s
            end
     end)
    (fun id => bool_decide (id = EmptyString) || validate_identity_text id)
    JString
    (let$ text := read_string in
     match text with
     | EmptyString => jret EmptyString
     | _ => match StrongId_parse text with
            | Value id => jret id
            | Failed s => fun _ => Failed s
            end
     end)
    (fun id => bool_decide (id = EmptyString) || validate_identity_text id).
Definition c_counter : Codec Counter := c_u64.

(** *** Sequences, optionals and objects *)
Fixpoint get_elements {T} (get : Reader T) (n : nat) : Reader (list T) :=
  match n with
  | O => rret []
  | S n => let! x := get in let! l := get_elements get n in rret (x :: l)
  end.
Definition c_vector {T} (c : Codec T) : Codec (list T) :=
  mkCodec (fun l => put_begin_array (zlen l) ++ (l ≫= c_put c))
    (let! count := get_begin_array in get_elements (c_get c) (Z.to_nat count))
    (fun max l => (zlen l <=? max) && (zlen l <=? u32_max) && forallb (c_ok c max) l)
    (fmap (c_norm c))
    (fun l w => write_end_array (foldl (fun w x => j_put c x w) (write_begin_array w) l))
    (read_vector (j_get c))
    (fun max l => (zlen l <=? max) && forallb (j_ok c max) l)
    (fun l => JArray (map (j_json c) l)).
Definition c_option {T} (c : Codec T) : Codec (option T) :=
  mkCodec
    (fun o => match o with
              | Some x => put_optional_begin true ++ c_put c x
              | None => put_optional_begin false
              end)
    (let! present := get_optional_begin in
     if present then let! x := c_get c in rret (Some x) else rret None)
    (fun max o => match o with Some x => c_ok c max x | None => true end)
    (fmap (c_norm c))
    (fun o w =>
       let w := write_optional_begin (bool_decide (is_Some o)) w in
       match o with Some x => j_put c x w | None => w end)
    (read_option (j_get c))
    (fun max o => match o with Some x => j_ok c max x | None => true end)
    (fun o => match o with Some x => j_json c x | None => JNull end).

(** Fields in order.  Field names do not reach the binary archives; the document
    of a list of fields is the object of their members. *)
Definition c_unit : Codec unit :=
  mkCodec (fun _ => []) (rret tt) (fun _ _ => true) (fun x => x)
    (fun _ w => w) (jret tt) (fun _ _ => true) (fun _ => make_object).
Definition c_field {A B} (before : Codec A) (name : string) (c : Codec B) : Codec (A * B) :=
  mkCodec (fun p => c_put before p.1 ++ c_put c p.2)
    (let! a := c_get before in let! b := c_get c in rret (a, b))
    (fun max p => c_ok before max p.1 && c_ok c max p.2)
    (fun p => (c_norm before p.1, c_norm c p.2))
    (fun p w => j_put c p.2 (write_begin_field name (j_put before p.1 w)))
    (let$ a := j_get before in let$ b := read_field name (j_get c) in jret (a, b))
    (fun max p => j_ok before max p.1 && j_ok c max p.2)
    (fun p => JObject (json_members (j_json before p.1) ++ [(name, j_json c p.2)])).
(** A struct is its fields, taken apart and put together. *)
Definition c_iso {S B} (split : S -> B) (build : B -> S) (c : Codec B) : Codec S :=
  mkCodec (fun s => c_put c (split s))
    (let! b := c_get c in rret (build b))
    (fun max s => c_ok c max (split s))
    (fun s => build (c_norm c (split s)))
    (fun s => j_put c (split s))
    (let$ b := j_get c in jret (build b))
    (fun max s => j_ok c max (split s))
    (fun s => j_json c (split s)).
Definition c_object {S} (type_name : string) (c : Codec S) : Codec S :=
  mkCodec (fun s => put_begin_object type_name ++ c_put c s)
    (let! _ := get_begin_object type_name in c_get c)
    (fun max s => (slen type_name <=? kMaxDecodedBlob) && c_ok c max s)
    (c_norm c)
    (fun s w => write_end_object (j_put c s (write_begin_object w)))
    (read_object type_name (j_get c))
    (j_ok c)
    (j_json c).

(** *** Variants *)

(** One alternative seen from the whole variant. *)
Definition c_alternative {V A} (inj : A -> V) (proj : V -> option A) (c : Codec A) : Codec V :=
  mkCodec (fun v => match proj v with Some a => c_put c a | None => [] end)
    (let! a := c_get c in rret (inj a))
    (fun max v => match proj v with Some a => c_ok c max a | None => false end)
    (fun v => match proj v with Some a => inj (c_norm c a) | None => v end)
    (fun v => match proj v with Some a => j_put c a | None => fun w => w end)
    (let$ a := j_get c in jret (inj a))
    (fun max v => match proj v with Some a => j_ok c max a | None => false end)
    (fun v => match proj v with Some a => j_json c a | None => JNull end).

(** [variant_write] and [variant_value]: an object "Variant" with the index of
    the active alternative and its value. *)
Definition c_variant {V} (index : V -> nat) (alternatives : list (Codec V)) : Codec V :=
  mkCodec
    (fun v => put_begin_object "Variant" ++ c_put c_u32 (Z.of_nat (index v)) ++
       match alternatives !! index v with Some c => c_put c v | None => [] end)
    (let! _ := get_begin_object "Variant" in
     let! i := c_get c_u32 in
     match alternatives !! Z.to_nat i with
     | Some c => c_get c
     | None => rfail ReasonCode.InvalidEnumeration "variant index out of range"
     end)
    (fun max v => (Z.of_nat (index v) <=? u32_max) &&
       match alternatives !! index v with Some c => c_ok c max v | None => false end)
    (fun v => match alternatives !! index v with Some c => c_norm c v | None => v end)
    (fun v w => write_end_object
       (match alternatives !! index v with Some c => j_put c v | None => fun w => w end
          (write_begin_field "value"
             (j_put c_u32 (Z.of_nat (index v))
                (write_begin_field "index" (write_begin_object w))))))
    (read_object "Variant"
       (let$ i := read_field "index" (j_get c_u32) in
        match alternatives !! Z.to_nat i with
        | Some c => read_field "value" (j_get c)
        | None => jfail ReasonCode.InvalidEnumeration "variant index out of range"
        end))
    (fun max v => (Z.of_nat (index v) <=? u32_max) &&
       match alternatives !! index v with Some c => j_ok c max v | None => false end)
    (fun v => JObject [("index", j_json c_u32 (Z.of_nat (index v)));
       ("value", match alternatives !! index v with Some c => j_json c v | None => JNull end)]).

(** ** Whole values *)
Definition encode_binary {T} (c : Codec T) (value : T) : list Byte := c_put c value.
Definition decode_binary {T} (c : Codec T) (data : list Byte) (max_sequence : Z) : Result T :=
  match c_get c max_sequence data with
  | Value (value, rest) =>
    if negb (zlen rest =? 0) then
      Failed (refuse ReasonCode.MalformedInput "trailing bytes after decoded value")
    else Value value
  | Failed s => Failed s
  end.
(** [encode_json] and [decode_json] *)
Definition encode_json {T} (c : Codec T) (value : T) : JsonValue :=
  jw_root (j_put c value JsonWriter_default).
Definition decode_json {T} (c : Codec T) (value : JsonValue) (max_sequence : Z) : Result T :=
  match j_get c (JsonReader_make value max_sequence) with
  | Value (out, _) => Value out
  | Failed s => Failed s
  end.
Definition canonical_digest {T} (c : Codec T) (value : T) : Digest := sha256 (encode_binary c value).

#[export] Typeclasses Opaque c_bool c_unsigned c_u8 c_u16 c_u32 c_u64 c_i64 c_string c_digest
  c_bytes c_enum c_id c_counter c_vector c_option c_unit c_field c_iso c_object c_alternative
  c_variant.

(** ** Laws of the primitives *)
Section primitives.
Implicit Types (max : Z) (data rest : list Byte).

Lemma bytes_of_string_bytes s : Forall is_byte (bytes_of_string s).
Proof.
  induction s as [|c s IH]; cbn; constructor; [|done].
  unfold code, is_byte, in_width, u8_max. pose proof (Ascii.N_ascii_bounded c). lia.
Qed.

Lemma bytes_of_string_length s : zlen (bytes_of_string s) = slen s.
Proof.
  induction s as [|c s IH]; [done|]. cbn [bytes_of_string]. by rewrite zlen_cons, slen_cons, IH.
Qed.

Lemma string_of_bytes_of_string s : string_of_bytes (bytes_of_string s) = s.
Proof.
  induction s as [|c s IH]; cbn; [done|]. rewrite IH. f_equal. unfold char_of_byte, code.
  by rewrite N2Z.id, Ascii.ascii_N_embedding.
Qed.

Lemma bytes_of_string_of_bytes l : Forall is_byte l -> bytes_of_string (string_of_bytes l) = l.
Proof.
  induction 1 as [|b l Hb Hl IH]; cbn; [done|]. rewrite IH. f_equal.
  unfold is_byte, in_width, u8_max in Hb. unfold char_of_byte, code.
  rewrite Ascii.N_ascii_embedding; lia.
Qed.

Lemma put_le_bytes n shift z : 0 <= shift -> Forall is_byte (put_le n shift z).
Proof.
  revert shift. induction n as [|n IH]; intros shift Hs; cbn; constructor; [|apply IH; lia].
  rewrite land_255_shiftr by done. unfold is_byte, in_width, u8_max.
  pose proof (Z.mod_pos_bound (z / 2 ^ shift) 256). lia.
Qed.

Lemma put_le_length n shift z : length (put_le n shift z) = n.
Proof. revert shift. induction n as [|n IH]; intros shift; cbn; by rewrite ?IH. Qed.

(** One more byte: the value modulo [2 ^ (s + 8)] splits at [s]. *)
Lemma mod_byte_split z s : 0 <= s ->
  z mod 2 ^ (s + 8) = z mod 2 ^ s + z / 2 ^ s mod 256 * 2 ^ s.
Proof.
  intros Hs. rewrite Z.pow_add_r by lia. change (2 ^ 8) with 256.
  assert (0 < 2 ^ s) by (apply Z.pow_pos_nonneg; lia).
  rewrite Z.rem_mul_r by lia. lia.
Qed.

Lemma get_le_put_le max n s z rest : 0 <= s ->
  get_le n s (z mod 2 ^ s) max (put_le n s z ++ rest) =
    Value (z mod 2 ^ (s + 8 * Z.of_nat n), rest).
Proof.
  revert s. induction n as [|n IH]; intros s Hs.
  - replace (s + 8 * Z.of_nat 0) with s by lia. done.
  - cbn [get_le put_le]. unfold rbind. cbn [get_u8 app].
    rewrite land_255_shiftr by done.
    rewrite lor_shiftl_add, <-mod_byte_split by (done || apply Z.mod_pos_bound; apply Z.pow_pos_nonneg; lia).
    rewrite IH by lia. by replace (s + 8 + 8 * Z.of_nat n) with (s + 8 * Z.of_nat (S n)) by lia.
Qed.

Lemma get_le_canonical max n s a data v rest :
  0 <= s -> 0 <= a < 2 ^ s -> Forall is_byte data -> get_le n s a max data = Value (v, rest) ->
  data = put_le n s v ++ rest /\ v mod 2 ^ s = a /\ 0 <= v < 2 ^ (s + 8 * Z.of_nat n).
Proof.
  revert s a data. induction n as [|n IH]; intros s a data Hs Ha Hd.
  - intros [= <- <-]. replace (s + 8 * Z.of_nat 0) with s by lia.
    split_and!; [done|by apply Z.mod_small|lia|lia].
  - cbn [get_le put_le]. unfold rbind. destruct data as [|b data]; [done|]. cbn [get_u8].
    apply Forall_cons in Hd as [Hb Hd]. unfold is_byte, in_width, u8_max in Hb.
    rewrite lor_shiftl_add by done. intros Hg.
    assert (Hp : 0 < 2 ^ s) by (apply Z.pow_pos_nonneg; lia).
    apply IH in Hg as (-> & Hmod & Hv); [|lia| |done].
    2: { rewrite Z.pow_add_r by lia. change (2 ^ 8) with 256. nia. }
    rewrite mod_byte_split in Hmod by done.
    assert (v mod 2 ^ s = a /\ v / 2 ^ s mod 256 = b) as [Hva Hvb].
    { pose proof (Z.mod_pos_bound v (2 ^ s) Hp).
      assert (v / 2 ^ s mod 256 = b); [|by split; nia].
      pose proof (Z.mod_pos_bound (v / 2 ^ s) 256 ltac:(lia)).
      apply (Z.div_mod_unique (2 ^ s) _ _ (v mod 2 ^ s) a); lia. }
    split_and!; [|done|lia|].
    + rewrite land_255_shiftr, Hvb by done. done.
    + replace (s + 8 * Z.of_nat (S n)) with (s + 8 + 8 * Z.of_nat n) by lia. lia.
Qed.

Lemma get_u64_put max z rest : 0 <= z < 2 ^ 64 -> get_u64 max (put_u64 z ++ rest) = Value (z, rest).
Proof.
  intros Hz. pose proof (get_le_put_le max 8 0 z rest ltac:(lia)) as H0.
  rewrite Z.mod_1_r in H0. unfold get_u64, put_u64. rewrite H0.
  by rewrite Z.mod_small.
Qed.

Lemma get_u32_put max z rest : 0 <= z < 2 ^ 32 -> get_u32 max (put_u32 z ++ rest) = Value (z, rest).
Proof.
  intros Hz. pose proof (get_le_put_le max 4 0 z rest ltac:(lia)) as H0.
  rewrite Z.mod_1_r in H0. unfold get_u32, put_u32. rewrite H0.
  by rewrite Z.mod_small.
Qed.

Lemma get_u64_canonical max data v rest :
  Forall is_byte data -> get_u64 max data = Value (v, rest) ->
  data = put_u64 v ++ rest /\ 0 <= v < 2 ^ 64.
Proof.
  intros Hd Hg. apply get_le_canonical in Hg as (-> & _ & ?); [done|lia|lia|done].
Qed.

Lemma get_u32_canonical max data v rest :
  Forall is_byte data -> get_u32 max data = Value (v, rest) ->
  data = put_u32 v ++ rest /\ 0 <= v < 2 ^ 32.
Proof.
  intros Hd Hg. apply get_le_canonical in Hg as (-> & _ & ?); [done|lia|lia|done].
Qed.

(** Inversion of the reader's monad. *)
Lemma rbind_Value {A B} (r : Reader A) (k : A -> Reader B) max data b rest :
  rbind r k max data = Value (b, rest) ->
  exists a data', r max data = Value (a, data') /\ k a max data' = Value (b, rest).
Proof. unfold rbind. destruct (r max data) as [[a data']|s]; [by eauto|done]. Qed.

Lemma rbind_eval {A B} (r : Reader A) (k : A -> Reader B) max data a data' :
  r max data = Value (a, data') -> rbind r k max data = k a max data'.
Proof. unfold rbind. by intros ->. Qed.

Lemma expect_tag_put max tag rest : expect_tag tag max (put_tag tag ++ rest) = Value (tt, rest).
Proof. unfold expect_tag, rbind. cbn. by rewrite Z.eqb_refl. Qed.

Lemma expect_tag_canonical max tag data u rest :
  expect_tag tag max data = Value (u, rest) -> data = put_tag tag ++ rest.
Proof.
  unfold expect_tag, rbind. destruct data as [|b data]; [done|]. cbn.
  destruct (Z.eqb_spec b (tag_value tag)) as [->|]; [|done]. by intros [= _ ->].
Qed.

Lemma put_tag_bytes tag : Forall is_byte (put_tag tag).
Proof. repeat constructor; destruct tag; done. Qed.

Lemma take_raw_app max (l rest : list Byte) : take_raw (zlen l) max (l ++ rest) = Value (l, rest).
Proof.
  unfold take_raw. rewrite zlen_app. pose proof (zlen_nonneg rest).
  destruct (Z.ltb_spec (zlen l + zlen rest) (zlen l)); [lia|].
  unfold zlen. rewrite Nat2Z.id. by rewrite take_app_length, drop_app_length.
Qed.

Lemma take_raw_canonical max n data l rest :
  0 <= n -> take_raw n max data = Value (l, rest) -> data = l ++ rest /\ zlen l = n.
Proof.
  intros Hn. unfold take_raw. destruct (Z.ltb_spec (zlen data) n); [done|].
  intros [= <- <-]. rewrite take_drop. split; [done|].
  unfold zlen in *. rewrite length_take. lia.
Qed.
End primitives.

#[export] Hint Resolve bytes_of_string_bytes put_tag_bytes : fabric.

Section blobs.
Implicit Types (max : Z) (data rest : list Byte).

Lemma get_blob_put max tag detail (l rest : list Byte) :
  zlen l <= kMaxDecodedBlob ->
  get_blob tag detail max ((put_tag tag ++ put_u32 (zlen l) ++ l) ++ rest) = Value (l, rest).
Proof.
  intros Hl. unfold get_blob. rewrite <-!app_assoc. rewrite (rbind_eval _ _ _ _ _ _ (expect_tag_put _ _ _)).
  pose proof (zlen_nonneg l).
  assert (Hlt : 0 <= zlen l < 2 ^ 32) by (unfold kMaxDecodedBlob in Hl; lia).
  rewrite (rbind_eval _ _ _ _ _ _ (get_u32_put _ _ _ Hlt)).
  destruct (Z.ltb_spec kMaxDecodedBlob (zlen l)); [lia|]. apply take_raw_app.
Qed.

Lemma get_blob_canonical max tag detail data l rest :
  Forall is_byte data -> get_blob tag detail max data = Value (l, rest) ->
  data = (put_tag tag ++ put_u32 (zlen l) ++ l) ++ rest /\ zlen l <= kMaxDecodedBlob /\
  Forall is_byte l.
Proof.
  intros Hd (u & d1 & H1 & (n & d2 & H2 & H3)%rbind_Value)%rbind_Value.
  apply expect_tag_canonical in H1 as ->. apply Forall_app in Hd as [_ Hd].
  apply get_u32_canonical in H2 as [-> Hn]; [|done]. apply Forall_app in Hd as [_ Hd].
  destruct (Z.ltb_spec kMaxDecodedBlob n); [done|].
  apply take_raw_canonical in H3 as [-> <-]; [|lia]. apply Forall_app in Hd as [Hl _].
  split_and!; [by rewrite <-!app_assoc|done|done].
Qed.

Lemma get_string_put max s rest :
  slen s <= kMaxDecodedBlob -> get_string max (put_string s ++ rest) = Value (s, rest).
Proof.
  intros Hs. unfold get_string, put_string. rewrite <-(bytes_of_string_length s) in *.
  rewrite (rbind_eval _ _ _ _ _ _ (get_blob_put _ _ _ _ _ Hs)).
  unfold rret. by rewrite string_of_bytes_of_string.
Qed.

Lemma get_string_canonical max data s rest :
  Forall is_byte data -> get_string max data = Value (s, rest) ->
  data = put_string s ++ rest /\ slen s <= kMaxDecodedBlob.
Proof.
  intros Hd (l & d1 & H1 & H2)%rbind_Value.
  apply get_blob_canonical in H1 as (-> & Hl & Hb); [|done].
  injection H2 as <- <-. unfold put_string.
  rewrite <-bytes_of_string_length, bytes_of_string_of_bytes by done. done.
Qed.

Lemma put_string_bytes s : Forall is_byte (put_string s).
Proof.
  unfold put_string, put_u32. rewrite !Forall_app.
  auto using put_le_bytes with fabric lia.
Qed.

Lemma get_begin_object_put max name rest :
  slen name <= kMaxDecodedBlob ->
  get_begin_object name max (put_begin_object name ++ rest) = Value (tt, rest).
Proof.
  intros Hn. unfold get_begin_object, put_begin_object. rewrite <-app_assoc.
  rewrite (rbind_eval _ _ _ _ _ _ (expect_tag_put _ _ _)).
  rewrite (rbind_eval _ _ _ _ _ _ (get_string_put _ _ _ Hn)).
  by rewrite bool_decide_true.
Qed.

Lemma get_begin_object_canonical max name data u rest :
  Forall is_byte data -> get_begin_object name max data = Value (u, rest) ->
  data = put_begin_object name ++ rest /\ slen name <= kMaxDecodedBlob.
Proof.
  intros Hd (u1 & d1 & H1 & (s & d2 & H2 & H3)%rbind_Value)%rbind_Value.
  apply expect_tag_canonical in H1 as ->. apply Forall_app in Hd as [_ Hd].
  apply get_string_canonical in H2 as [-> Hs]; [|done].
  case_bool_decide; [|done]. injection H3 as _ <-. subst s.
  unfold put_begin_object. by rewrite <-app_assoc.
Qed.
End blobs.

Lemma put_u64_bytes z : Forall is_byte (put_u64 z).
Proof. apply put_le_bytes. lia. Qed.
Lemma put_u32_bytes z : Forall is_byte (put_u32 z).
Proof. apply put_le_bytes. lia. Qed.
#[export] Hint Resolve put_string_bytes put_u64_bytes put_u32_bytes : fabric.

Lemma put_begin_object_bytes name : Forall is_byte (put_begin_object name).
Proof. unfold put_begin_object. rewrite Forall_app. auto with fabric. Qed.
#[export] Hint Resolve put_begin_object_bytes : fabric.

(** ** Laws of the codecs *)
Lemma in_widthb_spec max z : in_widthb max z = true <-> 0 <= z <= max.
Proof. unfold in_widthb. rewrite andb_true_iff, Z.leb_le, Z.leb_le. done. Qed.

#[export] Instance c_bool_laws : CodecLaws c_bool.
Proof.
  split; cbn [c_bool c_exact c_put c_get c_ok c_norm].
  - intros max x rest _. unfold get_bool. rewrite <-app_assoc.
    rewrite (rbind_eval _ _ _ _ _ _ (expect_tag_put _ _ _)). by destruct x.
  - intros max data x rest Hd (u & d1 & H1 & (n & d2 & H2 & H3)%rbind_Value)%rbind_Value.
    apply expect_tag_canonical in H1 as ->. destruct d1 as [|b d1]; [done|].
    injection H2 as -> ->. apply Forall_app in Hd as [_ [Hb _]%Forall_cons].
    destruct (Z.ltb_spec 1 n); [done|]. injection H3 as <- <-.
    split_and!; [|done|done]. unfold is_byte, in_width in Hb.
    destruct (Z.eqb_spec n 1) as [->|]; [done|]. by replace n with 0 by lia.
  - intros max x _. apply Forall_app. split; [auto with fabric|].
    repeat constructor; by destruct x.
Qed.

(** [read_integral] under either sign. *)
Lemma read_integral_put max maxv detail tag v rest :
  0 <= v <= maxv -> v < 2 ^ 64 ->
  read_integral maxv detail tag max ((put_tag tag ++ put_u64 v) ++ rest) = Value (v, rest).
Proof.
  intros Hv Hv'. unfold read_integral. rewrite <-app_assoc.
  rewrite (rbind_eval _ _ _ _ _ _ (expect_tag_put _ _ _)).
  rewrite (rbind_eval _ _ _ _ _ _ (get_u64_put max v rest ltac:(lia))).
  destruct (Z.ltb_spec maxv v); [lia|done].
Qed.

Lemma read_integral_canonical max maxv detail tag data v rest :
  Forall is_byte data -> read_integral maxv detail tag max data = Value (v, rest) ->
  data = (put_tag tag ++ put_u64 v) ++ rest /\ 0 <= v <= maxv.
Proof.
  intros Hd (u & d1 & H1 & (n & d2 & H2 & H3)%rbind_Value)%rbind_Value.
  apply expect_tag_canonical in H1 as ->. apply Forall_app in Hd as [_ Hd].
  apply get_u64_canonical in H2 as [-> Hn]; [|done].
  destruct (Z.ltb_spec maxv n); [done|]. injection H3 as <- <-.
  split; [by rewrite <-app_assoc|lia].
Qed.

Lemma c_unsigned_laws maxv : maxv < 2 ^ 64 -> CodecLaws (c_unsigned maxv).
Proof.
  intros Hm. split; cbn [c_unsigned c_exact c_put c_get c_ok c_norm].
  - intros max x rest Hx%in_widthb_spec. apply read_integral_put; lia.
  - intros max data x rest Hd Hg. apply read_integral_canonical in Hg as [-> Hx]; [|done].
    by rewrite in_widthb_spec.
  - intros max x _. apply Forall_app. auto with fabric.
Qed.
#[export] Instance c_u8_laws : CodecLaws c_u8.
Proof. by apply c_unsigned_laws. Qed.
#[export] Instance c_u16_laws : CodecLaws c_u16.
Proof. by apply c_unsigned_laws. Qed.
#[export] Instance c_u32_laws : CodecLaws c_u32.
Proof. by apply c_unsigned_laws. Qed.
#[export] Instance c_u64_laws : CodecLaws c_u64.
Proof. by apply c_unsigned_laws. Qed.
#[export] Instance c_counter_laws : CodecLaws c_counter := c_u64_laws.

#[export] Instance c_i64_laws : CodecLaws c_i64.
Proof.
  split; cbn [c_i64 c_exact c_put c_get c_ok c_norm].
  - intros max x rest Hx%in_widthb_spec. unfold i64_max in Hx.
    rewrite Z.mod_small by lia. apply read_integral_put; unfold i64_max; lia.
  - intros max data x rest Hd Hg. apply read_integral_canonical in Hg as [-> Hx]; [|done].
    unfold i64_max in Hx. rewrite Z.mod_small by lia. by rewrite in_widthb_spec.
  - intros max x _. apply Forall_app. auto with fabric.
Qed.

#[export] Instance c_string_laws : CodecLaws c_string.
Proof.
  split; cbn [c_string c_exact c_put c_get c_ok c_norm].
  - intros max x rest Hx%Z.leb_le. by apply get_string_put.
  - intros max data x rest Hd Hg. apply get_string_canonical in Hg as [-> Hx]; [|done].
    by rewrite Z.leb_le.
  - intros max x _. auto with fabric.
Qed.

#[export] Instance c_digest_laws : CodecLaws c_digest.
Proof.
  split; cbn [c_digest c_exact c_put c_get c_ok c_norm].
  - intros max x rest [Hl Hb]%bool_decide_eq_true. rewrite <-app_assoc.
    rewrite (rbind_eval _ _ _ _ _ _ (expect_tag_put _ _ _)).
    change 32 with (Z.of_nat kDigestBytes). rewrite <-Hl. apply take_raw_app.
  - intros max data x rest Hd (u & d1 & H1 & H2)%rbind_Value.
    apply expect_tag_canonical in H1 as ->. apply Forall_app in Hd as [_ Hd].
    apply take_raw_canonical in H2 as [-> Hl]; [|lia]. apply Forall_app in Hd as [Hx _].
    split_and!; [by rewrite <-app_assoc| |done]. rewrite bool_decide_eq_true.
    split; [unfold zlen, kDigestBytes in *; lia|done].
  - intros max x [Hl Hb]%bool_decide_eq_true. apply Forall_app. auto with fabric.
Qed.

#[export] Instance c_bytes_laws : CodecLaws c_bytes.
Proof.
  split; cbn [c_bytes c_exact c_put c_get c_ok c_norm].
  - intros max x rest [Hx%Z.leb_le _]%andb_true_iff. by apply get_blob_put.
  - intros max data x rest Hd Hg.
    apply get_blob_canonical in Hg as (-> & Hx & Hb); [|done].
    by rewrite andb_true_iff, Z.leb_le, bool_decide_eq_true.
  - intros max x [_ Hb%bool_decide_eq_true]%andb_true_iff. rewrite !Forall_app. auto with fabric.
Qed.

#[export] Instance c_enum_laws E `{EnumLaws E} : CodecLaws (c_enum E).
Proof.
  split; cbn [c_enum c_exact c_put c_get c_ok c_norm].
  - intros max x rest Hx%Z.leb_le. rewrite <-app_assoc.
    rewrite (rbind_eval _ _ _ _ _ _ (expect_tag_put _ _ _)).
    rewrite (rbind_eval _ _ _ _ _ _ (get_string_put _ _ _ Hx)).
    by rewrite enum_from_to_string.
  - intros max data x rest Hd (u & d1 & H1 & (s & d2 & H2 & H3)%rbind_Value)%rbind_Value.
    apply expect_tag_canonical in H1 as ->. apply Forall_app in Hd as [_ Hd].
    apply get_string_canonical in H2 as [-> Hs]; [|done].
    destruct (enum_from_string s) as [v|] eqn:Hv; [|done]. injection H3 as <- <-.
    apply enum_from_string_Some in Hv as <-. rewrite Z.leb_le. by rewrite <-app_assoc.
  - intros max x _. apply Forall_app. auto with fabric.
Qed.

#[export] Instance c_id_laws : CodecLaws c_id.
Proof.
  split; cbn [c_id c_exact c_put c_get c_ok c_norm].
  - intros max x rest Hx.
    assert (Hl : slen x <= kMaxDecodedBlob).
    { apply orb_true_iff in Hx as [->%bool_decide_eq_true|Hv]; [by cbn|].
      destruct x as [|c x]; [done|]. cbn in Hv.
      destruct (Z.ltb_spec 64 (slen (String c x))); [done|]. unfold kMaxDecodedBlob. lia. }
    rewrite (rbind_eval _ _ _ _ _ _ (get_string_put _ _ _ Hl)).
    destruct x as [|c x]; [done|]. by rewrite StrongId_parse_valid.
  - intros max data x rest Hd (s & d1 & H1 & H2)%rbind_Value.
    apply get_string_canonical in H1 as [-> Hs]; [|done].
    destruct s as [|c s]; [by injection H2 as <- <-|].
    destruct (StrongId_parse (String c s)) as [id|] eqn:Hp; [|done].
    apply StrongId_parse_Value in Hp as [-> Hv]. injection H2 as <- <-.
    split_and!; [done|by rewrite Hv, orb_true_r|done].
  - intros max x _. auto with fabric.
Qed.

(** *** Combinators *)
#[export] Instance c_unit_laws : CodecLaws c_unit.
Proof.
  split; cbn; [by intros max [] rest| |constructor].
  intros max data [] rest _ [= <-]. done.
Qed.

#[export] Instance c_field_laws {A B} (before : Codec A) name (c : Codec B) :
  CodecLaws before -> CodecLaws c -> CodecLaws (c_field before name c).
Proof.
  intros L1 L2. split; cbn [c_field c_put c_get c_ok c_norm].
  - intros max [a b] rest [Ha Hb]%andb_true_iff. cbn [fst snd] in *. rewrite <-app_assoc.
    rewrite (rbind_eval _ _ _ _ _ _ (codec_roundtrip _ _ _ Ha)).
    by rewrite (rbind_eval _ _ _ _ _ _ (codec_roundtrip _ _ _ Hb)).
  - intros max data x rest Hd (a & d1 & H1 & (b & d2 & H2 & H3)%rbind_Value)%rbind_Value.
    apply codec_canonical in H1 as (-> & Ha & Na); [|done]. apply Forall_app in Hd as [_ Hd].
    apply codec_canonical in H2 as (-> & Hb & Nb); [|done]. injection H3 as <- <-.
    cbn [fst snd]. rewrite Ha, Hb, Na, Nb. by rewrite <-app_assoc.
  - intros max x [Ha Hb]%andb_true_iff. apply Forall_app.
    split; by eapply codec_bytes.
Qed.

Lemma c_iso_laws {S B} (split : S -> B) (build : B -> S) (c : Codec B) :
  (forall b, split (build b) = b) -> CodecLaws c -> CodecLaws (c_iso split build c).
Proof.
  intros Hb L. split; cbn [c_iso c_put c_get c_ok c_norm].
  - intros max x rest Hx. by rewrite (rbind_eval _ _ _ _ _ _ (codec_roundtrip _ _ _ Hx)).
  - intros max data x rest Hd (b & d1 & H1 & H2)%rbind_Value.
    apply codec_canonical in H1 as (-> & Ho & Hn); [|done]. injection H2 as <- <-.
    by rewrite Hb, Hn.
  - intros max x Hx. by eapply codec_bytes.
Qed.

#[export] Instance c_object_laws {S} name (c : Codec S) :
  CodecLaws c -> CodecLaws (c_object name c).
Proof.
  intros L. split; cbn [c_object c_put c_get c_ok c_norm].
  - intros max x rest [Hn%Z.leb_le Hx]%andb_true_iff. rewrite <-app_assoc.
    rewrite (rbind_eval _ _ _ _ _ _ (get_begin_object_put _ _ _ Hn)). by apply codec_roundtrip.
  - intros max data x rest Hd (u & d1 & H1 & H2)%rbind_Value.
    apply get_begin_object_canonical in H1 as [-> Hn]; [|done]. apply Forall_app in Hd as [_ Hd].
    apply codec_canonical in H2 as (-> & Ho & Hx); [|done].
    rewrite andb_true_iff, Z.leb_le. by rewrite <-app_assoc.
  - intros max x [_ Hx]%andb_true_iff. apply Forall_app. split; [auto with fabric|].
    by eapply codec_bytes.
Qed.

#[export] Instance c_option_laws {T} (c : Codec T) : CodecLaws c -> CodecLaws (c_option c).
Proof.
  intros L. split; cbn [c_option c_put c_get c_ok c_norm].
  - intros max [x|] rest Hx; [|done]. unfold put_optional_begin, get_optional_begin, put_u8.
    unfold rbind at 1. cbn. by rewrite (rbind_eval _ _ _ _ _ _ (codec_roundtrip _ _ _ Hx)).
  - intros max data x rest Hd (p & d1 & (f & d0 & H0 & H1)%rbind_Value & H2)%rbind_Value.
    destruct data as [|b data]; [done|]. injection H0 as -> ->.
    apply Forall_cons in Hd as [Hb Hd]. unfold is_byte, in_width in Hb.
    destruct (Z.ltb_spec 1 f); [done|]. injection H1 as <- ->.
    destruct (Z.eqb_spec f 1) as [->|].
    + apply rbind_Value in H2 as (y & d2 & H2 & H3).
      apply codec_canonical in H2 as (-> & Ho & Hx); [|done]. injection H3 as <- <-.
      cbn. by rewrite Hx.
    + injection H2 as <- <-. replace f with 0 by lia. done.
  - intros max [x|] Hx; cbn; [|by repeat constructor]. constructor; [done|].
    by eapply codec_bytes.
Qed.

Section elements.
Context {T : Type} (c : Codec T) `{!CodecLaws c}.

Lemma get_elements_put max l rest :
  forallb (c_ok c max) l = true ->
  get_elements (c_get c) (length l) max ((l ≫= c_put c) ++ rest) = Value (c_norm c <$> l, rest).
Proof.
  induction l as [|x l IH]; [done|]. cbn [forallb length get_elements].
  intros [Hx Hl]%andb_true_iff. rewrite bind_cons, <-app_assoc.
  rewrite (rbind_eval _ _ _ _ _ _ (codec_roundtrip _ _ _ Hx)).
  by rewrite (rbind_eval _ _ _ _ _ _ (IH Hl)).
Qed.

Lemma get_elements_canonical n max data l rest :
  Forall is_byte data -> get_elements (c_get c) n max data = Value (l, rest) ->
  data = (l ≫= c_put c) ++ rest /\ length l = n /\ forallb (c_ok c max) l = true /\
  c_norm c <$> l = l.
Proof.
  revert data l rest. induction n as [|n IH]; intros data l rest Hd; cbn [get_elements].
  { by intros [= <- <-]. }
  intros (x & d1 & H1 & (k & d2 & H2 & H3)%rbind_Value)%rbind_Value.
  apply codec_canonical in H1 as (-> & Hx & Nx); [|done]. apply Forall_app in Hd as [_ Hd].
  apply IH in H2 as (-> & Hl & Hk & Nk); [|done]. injection H3 as <- <-.
  rewrite bind_cons, fmap_cons, Nx, Nk. cbn [length forallb]. rewrite Hx, Hk, Hl.
  by rewrite <-app_assoc.
Qed.
End elements.

#[export] Instance c_vector_laws {T} (c : Codec T) : CodecLaws c -> CodecLaws (c_vector c).
Proof.
  intros L. split; cbn [c_vector c_put c_get c_ok c_norm].
  - intros max l rest [[Hm%Z.leb_le Hu%Z.leb_le]%andb_true_iff Hl]%andb_true_iff.
    unfold put_begin_array, get_begin_array. rewrite (proj2 (Z.ltb_ge _ _)) by done.
    pose proof (zlen_nonneg l). rewrite <-!app_assoc. unfold rbind at 1.
    rewrite (rbind_eval _ _ _ _ _ _ (expect_tag_put _ _ _)). unfold u32_max in Hu.
    rewrite (rbind_eval _ _ _ _ _ _ (get_u32_put max (zlen l) _ ltac:(lia))).
    rewrite (proj2 (Z.ltb_ge _ _)) by done. unfold zlen. rewrite Nat2Z.id.
    by apply get_elements_put.
  - intros max data x rest Hd (n & d1 & (u & d2 & H0 & (m & d3 & H1 & H2)%rbind_Value)%rbind_Value
      & H3)%rbind_Value.
    apply expect_tag_canonical in H0 as ->. apply Forall_app in Hd as [_ Hd].
    apply get_u32_canonical in H1 as [-> Hm]; [|done]. apply Forall_app in Hd as [_ Hd].
    destruct (Z.ltb_spec max m); [done|]. injection H2 as -> ->.
    apply get_elements_canonical in H3 as (-> & Hl & Ho & Hn); [|done|done].
    assert (Hz : zlen x = n) by (unfold zlen; lia). unfold put_begin_array, u32_max. rewrite Hz.
    rewrite (proj2 (Z.ltb_ge _ _)) by lia. rewrite !andb_true_iff, !Z.leb_le.
    rewrite <-!app_assoc. split_and!; done || lia.
  - intros max l [_ Hl]%andb_true_iff. unfold put_begin_array. rewrite !Forall_app.
    split_and!; [auto with fabric..|]. induction l as [|x l IH]; [constructor|].
    cbn [forallb] in Hl. apply andb_true_iff in Hl as [Hx Hl]. rewrite bind_cons, Forall_app.
    split; [by eapply codec_bytes|by apply IH].
Qed.

(** An alternative: its injection and projection agree. *)
Lemma c_alternative_laws {V A} (inj : A -> V) (proj : V -> option A) (c : Codec A) :
  (forall a, proj (inj a) = Some a) -> (forall v a, proj v = Some a -> v = inj a) ->
  CodecLaws c -> CodecLaws (c_alternative inj proj c).
Proof.
  intros Hpi Hip L. split; cbn [c_alternative c_put c_get c_ok c_norm].
  - intros max v rest Hv. destruct (proj v) as [a|] eqn:Hp; [|done].
    by rewrite (rbind_eval _ _ _ _ _ _ (codec_roundtrip _ _ _ Hv)).
  - intros max data x rest Hd (a & d1 & H1 & H2)%rbind_Value.
    apply codec_canonical in H1 as (-> & Ho & Hn); [|done]. injection H2 as <- <-.
    by rewrite Hpi, Hn.
  - intros max v Hv. destruct (proj v) as [a|]; [|constructor]. by eapply codec_bytes.
Qed.

(** The alternative at position [i] encodes values of index [i]. *)
Definition indexed {V} (index : V -> nat) (alternatives : list (Codec V)) : Prop :=
  forall i c, alternatives !! i = Some c ->
    CodecLaws c /\ (forall max v, c_ok c max v = true -> index v = i) /\
    (forall max v, c_ok c max v = true -> index (c_norm c v) = i).

Lemma c_variant_laws {V} (index : V -> nat) (alternatives : list (Codec V)) :
  indexed index alternatives -> CodecLaws (c_variant index alternatives).
Proof.
  intros Hi. split; cbn [c_variant c_put c_get c_ok c_norm].
  - intros max v rest [Hu%Z.leb_le Hv]%andb_true_iff.
    destruct (alternatives !! index v) as [c|] eqn:Hc; [|done].
    destruct (Hi _ _ Hc) as (L & _ & _). rewrite <-!app_assoc.
    rewrite (rbind_eval _ _ _ _ _ _ (get_begin_object_put max "Variant" _ ltac:(by cbn))).
    assert (Hok : c_ok c_u32 max (Z.of_nat (index v)) = true) by (apply in_widthb_spec; lia).
    rewrite (rbind_eval _ _ _ _ _ _ (codec_roundtrip _ _ _ Hok)). cbn [c_norm c_u32 c_unsigned c_exact].
    rewrite Nat2Z.id, Hc. by apply codec_roundtrip.
  - intros max data x rest Hd (u & d1 & H1 & (n & d2 & H2 & H3)%rbind_Value)%rbind_Value.
    apply get_begin_object_canonical in H1 as [-> _]; [|done]. apply Forall_app in Hd as [_ Hd].
    apply codec_canonical in H2 as (-> & Hn & _); [|done]. apply Forall_app in Hd as [_ Hd].
    apply in_widthb_spec in Hn.
    destruct (alternatives !! Z.to_nat n) as [c|] eqn:Hc; [|done].
    destruct (Hi _ _ Hc) as (L & Hidx & _).
    apply codec_canonical in H3 as (-> & Ho & Hx); [|done].
    pose proof (Hidx _ _ Ho) as Hix. rewrite Hix, Hc, Ho, Hx, Z2Nat.id by lia.
    split_and!; [by rewrite <-!app_assoc| |done].
    rewrite andb_true_iff, Z.leb_le. split; [lia|done].
  - intros max v [_ Hv]%andb_true_iff. destruct (alternatives !! index v) as [c|] eqn:Hc; [|done].
    destruct (Hi _ _ Hc) as (L & _ & _). rewrite !Forall_app.
    split_and!; [auto with fabric| |by eapply codec_bytes].
    cbn [c_u32 c_unsigned c_exact c_put]. apply Forall_app. auto with fabric.
Qed.

(** ** Exact codecs *)
#[export] Instance c_exact_exact {T} put get ok image jget jok :
  CodecExact (@c_exact T put get ok image jget jok).
Proof. done. Qed.
#[export] Instance c_bool_exact : CodecExact c_bool.
Proof. done. Qed.
#[export] Instance c_unsigned_exact m : CodecExact (c_unsigned m).
Proof. done. Qed.
#[export] Instance c_i64_exact : CodecExact c_i64.
Proof. done. Qed.
#[export] Instance c_string_exact : CodecExact c_string.
Proof. done. Qed.
#[export] Instance c_digest_exact : CodecExact c_digest.
Proof. done. Qed.
#[export] Instance c_id_exact : CodecExact c_id.
Proof. done. Qed.
#[export] Instance c_enum_exact E `{Enum E} : CodecExact (c_enum E).
Proof. done. Qed.
#[export] Instance c_bytes_exact : CodecExact c_bytes.
Proof. done. Qed.
#[export] Instance c_unit_exact : CodecExact c_unit.
Proof. done. Qed.
#[export] Instance c_u8_exact : CodecExact c_u8 := c_unsigned_exact _.
#[export] Instance c_u16_exact : CodecExact c_u16 := c_unsigned_exact _.
#[export] Instance c_u32_exact : CodecExact c_u32 := c_unsigned_exact _.
#[export] Instance c_u64_exact : CodecExact c_u64 := c_unsigned_exact _.
#[export] Instance c_counter_exact : CodecExact c_counter := c_unsigned_exact _.
#[export] Instance c_field_exact {A B} (before : Codec A) name (c : Codec B) :
  CodecExact before -> CodecExact c -> CodecExact (c_field before name c).
Proof. intros H1 H2 [a b]. cbn. by rewrite !codec_exact. Qed.
#[export] Instance c_object_exact {S} name (c : Codec S) :
  CodecExact c -> CodecExact (c_object name c).
Proof. done. Qed.
#[export] Instance c_option_exact {T} (c : Codec T) : CodecExact c -> CodecExact (c_option c).
Proof. intros H1 [x|]; cbn; by rewrite ?codec_exact. Qed.
#[export] Instance c_vector_exact {T} (c : Codec T) : CodecExact c -> CodecExact (c_vector c).
Proof. intros H1 l. cbn. induction l as [|x l IH]; cbn; [done|]. by rewrite codec_exact, IH. Qed.
Lemma c_iso_exact {S B} (split : S -> B) (build : B -> S) (c : Codec B) :
  (forall s, build (split s) = s) -> CodecExact c -> CodecExact (c_iso split build c).
Proof. intros Hb Hc s. cbn. by rewrite codec_exact. Qed.

(** ** Whole values *)
Section whole_values.
Context {T : Type} (c : Codec T) `{!CodecLaws c}.

Lemma decode_encode max value :
  c_ok c max value = true -> decode_binary c (encode_binary c value) max = Value (c_norm c value).
Proof.
  intros Hv. unfold decode_binary, encode_binary.
  rewrite <-(app_nil_r (c_put c value)), (codec_roundtrip _ _ _ Hv). done.
Qed.

Lemma encode_decode max data value :
  Forall is_byte data -> decode_binary c data max = Value value ->
  encode_binary c value = data /\ c_ok c max value = true /\ c_norm c value = value.
Proof.
  intros Hd. unfold decode_binary.
  destruct (c_get c max data) as [[v rest]|s] eqn:Hg; [|done].
  apply codec_canonical in Hg as (-> & Ho & Hn); [|done].
  destruct rest; [|done]. cbn. intros [= <-]. by rewrite app_nil_r.
Qed.
End whole_values.

(** ** Encodings the reader refuses

    Writers cannot fail, so some values encode to bytes that no reader accepts. *)
Definition codec_fails {T} (c : Codec T) (max : Z) (x : T) (s : Status) : Prop :=
  forall rest, c_get c max (c_put c x ++ rest) = Failed s.

Lemma rbind_fails {A B} (r : Reader A) (k : A -> Reader B) max data s :
  r max data = Failed s -> rbind r k max data = Failed s.
Proof. unfold rbind. by intros ->. Qed.

Section fails.
Context (max : Z) (s : Status).

Lemma field_fails_before {A B} (before : Codec A) name (c : Codec B) p :
  codec_fails before max p.1 s -> codec_fails (c_field before name c) max p s.
Proof. intros Hf rest. cbn. rewrite <-app_assoc. apply rbind_fails, Hf. Qed.

Lemma field_fails {A B} (before : Codec A) name (c : Codec B) p `{!CodecLaws before} :
  c_ok before max p.1 = true -> codec_fails c max p.2 s ->
  codec_fails (c_field before name c) max p s.
Proof.
  intros Ho Hf rest. cbn. rewrite <-app_assoc.
  rewrite (rbind_eval _ _ _ _ _ _ (codec_roundtrip _ _ _ Ho)). apply rbind_fails, Hf.
Qed.

Lemma iso_fails {S B} (split : S -> B) (build : B -> S) (c : Codec B) x :
  codec_fails c max (split x) s -> codec_fails (c_iso split build c) max x s.
Proof. intros Hf rest. apply rbind_fails, Hf. Qed.

Lemma object_fails {S} name (c : Codec S) x :
  slen name <= kMaxDecodedBlob -> codec_fails c max x s -> codec_fails (c_object name c) max x s.
Proof.
  intros Hn Hf rest. cbn [c_object c_put c_get]. rewrite <-app_assoc.
  rewrite (rbind_eval _ _ _ _ _ _ (get_begin_object_put _ _ _ Hn)). apply Hf.
Qed.

Lemma decode_fails {T} (c : Codec T) x :
  codec_fails c max x s -> decode_binary c (encode_binary c x) max = Failed s.
Proof.
  intros Hf. unfold decode_binary, encode_binary. rewrite <-(app_nil_r (c_put c x)). by rewrite Hf.
Qed.
End fails.

(** The sign bit of a negative value puts it above [INT64_MAX]. *)
Lemma c_i64_negative max v :
  i64_min <= v < 0 ->
  codec_fails c_i64 max v (refuse ReasonCode.ValueOutOfRange "signed integer field out of range").
Proof.
  intros Hv rest. unfold i64_min in Hv.
  assert (Hm : v mod 2 ^ 64 = v + 2 ^ 64)
    by (rewrite <-(Z.mod_small (v + 2 ^ 64) (2 ^ 64)), <-Z.add_mod_idemp_r, Z.mod_same, Z.add_0_r; lia).
  cbn [c_i64 c_exact c_get c_put]. unfold read_integral. rewrite Hm, <-app_assoc.
  rewrite (rbind_eval _ _ _ _ _ _ (expect_tag_put _ _ _)).
  rewrite (rbind_eval _ _ _ _ _ _ (get_u64_put max (v + 2 ^ 64) rest ltac:(lia))).
  unfold i64_max. destruct (Z.ltb_spec 9223372036854775807 (v + 2 ^ 64)); [done|lia].
Qed.

(** ** Notation and automation for structs *)
Abbreviation fields := c_unit.
Notation "before '&' 'field' name c" := (c_field before name c)
  (at level 50, left associativity, name at level 0, c at level 0) : fabric_scope.

(** The laws of a struct codec: taking apart what was put together is the
    identity, and each field has its laws. *)
Ltac destruct_fields :=
  repeat match goal with
  | p : (_ * _)%type |- _ => destruct p
  | u : unit |- _ => destruct u
  end.
Ltac solve_codec_laws :=
  apply c_object_laws, c_iso_laws;
  [ intros; destruct_fields; reflexivity | typeclasses eauto ].
Ltac solve_codec_exact :=
  apply c_object_exact, c_iso_exact; [ intros []; reflexivity | typeclasses eauto ].
