(* ===== verification/Model.v ===== *)
(** * The data model

    The structs of [include/dpu/fabric/model/]: a [Record] per struct in member
    order, its default member values, and the operations of [src/model/model.cpp]
    that need no encoding.  [FabricEventBody] is the [std::variant] of the event
    payloads. *)

From S2P Require Import Prelude Std Reason Types Version Resources Bounded Digest.
#[local] Open Scope Z_scope.

(** ** Capabilities, profiles and requirements *)
Record CapabilityValue := mkCapabilityValue {
  cv_kind : CapabilityValueKind;
  cv_flag : bool;
  cv_integer : Z;
  cv_text : string;
  cv_version : ServiceVersion
}.
#[export] Instance eta_CapabilityValue : Settable CapabilityValue := fun r =>
  mkCapabilityValue (cv_kind r) (cv_flag r) (cv_integer r) (cv_text r) (cv_version r).
#[export] Instance CapabilityValue_eq_dec : EqDecision CapabilityValue.
Proof. solve_decision. Defined.
Definition CapabilityValue_default : CapabilityValue :=
  mkCapabilityValue CapabilityValueKind.Unknown false 0 "" ServiceVersion_default.

Record Capability := mkCapability {
  cap_key : CapabilityKey;
  cap_value : CapabilityValue;
  cap_generation : CapabilityGeneration
}.
#[export] Instance eta_Capability : Settable Capability := fun r =>
  mkCapability (cap_key r) (cap_value r) (cap_generation r).
#[export] Instance Capability_eq_dec : EqDecision Capability.
Proof. solve_decision. Defined.
Definition Capability_default : Capability :=
  mkCapability "" CapabilityValue_default 0.

Record CapabilitySet := mkCapabilitySet {
  cs_entries : list Capability
}.
#[export] Instance eta_CapabilitySet : Settable CapabilitySet := fun r =>
  mkCapabilitySet (cs_entries r).
#[export] Instance CapabilitySet_eq_dec : EqDecision CapabilitySet.
Proof. solve_decision. Defined.
Definition CapabilitySet_default : CapabilitySet :=
  mkCapabilitySet [].

Record DpuProfile := mkDpuProfile {
  prof_architecture : DpuArchitecture;
  prof_firmware : FirmwareApiLevel;
  prof_isolation : list IsolationKind;
  prof_datapath : DatapathClass;
  prof_vendor : string;
  prof_model : string
}.
#[export] Instance eta_DpuProfile : Settable DpuProfile := fun r =>
  mkDpuProfile (prof_architecture r) (prof_firmware r) (prof_isolation r) (prof_datapath r)
  (prof_vendor r) (prof_model r).
#[export] Instance DpuProfile_eq_dec : EqDecision DpuProfile.
Proof. solve_decision. Defined.
Definition DpuProfile_default : DpuProfile :=
  mkDpuProfile DpuArchitecture.Unknown FirmwareApiLevel_default [] DatapathClass.Unspecified ""
  "".

Record CapabilityRequirement := mkCapabilityRequirement {
  creq_key : CapabilityKey;
  creq_op : CapabilityOp;
  creq_value : CapabilityValue;
  creq_alternatives : list CapabilityValue
}.
#[export] Instance eta_CapabilityRequirement : Settable CapabilityRequirement := fun r =>
  mkCapabilityRequirement (creq_key r) (creq_op r) (creq_value r) (creq_alternatives r).
#[export] Instance CapabilityRequirement_eq_dec : EqDecision CapabilityRequirement.
Proof. solve_decision. Defined.
Definition CapabilityRequirement_default : CapabilityRequirement :=
  mkCapabilityRequirement "" CapabilityOp.Present CapabilityValue_default [].

Record CompatibilityRequirement := mkCompatibilityRequirement {
  compat_architecture : option DpuArchitecture;
  compat_min_firmware : option FirmwareApiLevel;
  compat_required_isolation : list IsolationKind;
  compat_datapath : option DatapathClass;
  compat_capabilities : list CapabilityRequirement
}.
#[export] Instance eta_CompatibilityRequirement : Settable CompatibilityRequirement := fun r =>
  mkCompatibilityRequirement (compat_architecture r) (compat_min_firmware r)
  (compat_required_isolation r) (compat_datapath r) (compat_capabilities r).
#[export] Instance CompatibilityRequirement_eq_dec : EqDecision CompatibilityRequirement.
Proof. solve_decision. Defined.
Definition CompatibilityRequirement_default : CompatibilityRequirement :=
  mkCompatibilityRequirement None None [] None [].

Record IsolationRequirement := mkIsolationRequirement {
  iso_kind : IsolationKind;
  iso_exclusive_scope : option ExclusiveScopeId
}.
#[export] Instance eta_IsolationRequirement : Settable IsolationRequirement := fun r =>
  mkIsolationRequirement (iso_kind r) (iso_exclusive_scope r).
#[export] Instance IsolationRequirement_eq_dec : EqDecision IsolationRequirement.
Proof. solve_decision. Defined.
Definition IsolationRequirement_default : IsolationRequirement :=
  mkIsolationRequirement IsolationKind.None None.

Record ReplicaPolicy := mkReplicaPolicy {
  rp_min : Z;
  rp_preferred : Z;
  rp_max : Z
}.
#[export] Instance eta_ReplicaPolicy : Settable ReplicaPolicy := fun r =>
  mkReplicaPolicy (rp_min r) (rp_preferred r) (rp_max r).
#[export] Instance ReplicaPolicy_eq_dec : EqDecision ReplicaPolicy.
Proof. solve_decision. Defined.
Definition ReplicaPolicy_default : ReplicaPolicy :=
  mkReplicaPolicy 0 1 1.

Record AntiAffinityPolicy := mkAntiAffinityPolicy {
  aa_spread_across_dpus : bool;
  aa_max_replicas_per_dpu : Z;
  aa_max_replicas_per_domain : option Z;
  aa_require_distinct_domains : bool
}.
#[export] Instance eta_AntiAffinityPolicy : Settable AntiAffinityPolicy := fun r =>
  mkAntiAffinityPolicy (aa_spread_across_dpus r) (aa_max_replicas_per_dpu r)
  (aa_max_replicas_per_domain r) (aa_require_distinct_domains r).
#[export] Instance AntiAffinityPolicy_eq_dec : EqDecision AntiAffinityPolicy.
Proof. solve_decision. Defined.
Definition AntiAffinityPolicy_default : AntiAffinityPolicy :=
  mkAntiAffinityPolicy true 1 None false.

(** ** Evidence and topology *)
Record Provenance := mkProvenance {
  prov_origin : OriginId;
  prov_origin_epoch : OriginEpoch;
  prov_origin_seq : Sequence;
  prov_observed_at : LogicalInstant;
  prov_wall_clock : WallClockMs;
  prov_evidence_class : EvidenceClass;
  prov_source : string
}.
#[export] Instance eta_Provenance : Settable Provenance := fun r =>
  mkProvenance (prov_origin r) (prov_origin_epoch r) (prov_origin_seq r) (prov_observed_at r)
  (prov_wall_clock r) (prov_evidence_class r) (prov_source r).
#[export] Instance Provenance_eq_dec : EqDecision Provenance.
Proof. solve_decision. Defined.
Definition Provenance_default : Provenance :=
  mkProvenance "" 0 0 0 0 EvidenceClass.Unknown "".

Record EvidenceRef := mkEvidenceRef {
  ev_id : EvidenceId;
  ev_kind : EvidenceKind;
  ev_capability_generation : CapabilityGeneration;
  ev_topology_generation : TopologyGeneration;
  ev_policy_generation : PolicyGeneration;
  ev_observed_at : LogicalInstant;
  ev_valid_until : LogicalInstant;
  ev_digest : Digest;
  ev_provenance : Provenance
}.
#[export] Instance eta_EvidenceRef : Settable EvidenceRef := fun r =>
  mkEvidenceRef (ev_id r) (ev_kind r) (ev_capability_generation r) (ev_topology_generation r)
  (ev_policy_generation r) (ev_observed_at r) (ev_valid_until r) (ev_digest r) (ev_provenance r).
#[export] Instance EvidenceRef_eq_dec : EqDecision EvidenceRef.
Proof. solve_decision. Defined.
Definition EvidenceRef_default : EvidenceRef :=
  mkEvidenceRef "" EvidenceKind.Topology 0 0 0 0 0 Digest_zero Provenance_default.

Record DpuRecord := mkDpuRecord {
  dpu_id : DpuId;
  dpu_attachment : HostAttachmentId;
  dpu_domain : IsolationDomainId;
  dpu_profile : DpuProfile;
  dpu_capabilities : CapabilitySet;
  dpu_capacity : ResourceVector;
  dpu_allocated : ResourceVector;
  dpu_state : DpuState;
  dpu_topology_generation : TopologyGeneration;
  dpu_capability_generation : CapabilityGeneration;
  dpu_device_evidence : EvidenceRef;
  dpu_health_evidence : EvidenceRef;
  dpu_health : HealthState;
  dpu_health_observed_at : LogicalInstant;
  dpu_health_fresh : bool
}.
#[export] Instance eta_DpuRecord : Settable DpuRecord := fun r =>
  mkDpuRecord (dpu_id r) (dpu_attachment r) (dpu_domain r) (dpu_profile r) (dpu_capabilities r)
  (dpu_capacity r) (dpu_allocated r) (dpu_state r) (dpu_topology_generation r)
  (dpu_capability_generation r) (dpu_device_evidence r) (dpu_health_evidence r) (dpu_health r)
  (dpu_health_observed_at r) (dpu_health_fresh r).
#[export] Instance DpuRecord_eq_dec : EqDecision DpuRecord.
Proof. solve_decision. Defined.
Definition DpuRecord_default : DpuRecord :=
  mkDpuRecord "" "" "" DpuProfile_default CapabilitySet_default ResourceVector_zero
  ResourceVector_zero DpuState.Unknown 0 0 EvidenceRef_default EvidenceRef_default
  HealthState.Unknown 0 false.

Record TopologySnapshot := mkTopologySnapshot {
  topo_generation : TopologyGeneration;
  topo_observed_at : LogicalInstant;
  topo_dpus : list DpuRecord;
  topo_evidence : EvidenceRef;
  topo_provenance : Provenance
}.
#[export] Instance eta_TopologySnapshot : Settable TopologySnapshot := fun r =>
  mkTopologySnapshot (topo_generation r) (topo_observed_at r) (topo_dpus r) (topo_evidence r)
  (topo_provenance r).
#[export] Instance TopologySnapshot_eq_dec : EqDecision TopologySnapshot.
Proof. solve_decision. Defined.
Definition TopologySnapshot_default : TopologySnapshot :=
  mkTopologySnapshot 0 0 [] EvidenceRef_default Provenance_default.

(** ** Services, groups, intents and policy *)
Record ServiceDefinition := mkServiceDefinition {
  svc_id : ServiceId;
  svc_version : ServiceVersion;
  svc_display_name : string;
  svc_compatibility : CompatibilityRequirement;
  svc_resources : ResourceVector;
  svc_isolation : IsolationRequirement;
  svc_replicas : ReplicaPolicy
}.
#[export] Instance eta_ServiceDefinition : Settable ServiceDefinition := fun r =>
  mkServiceDefinition (svc_id r) (svc_version r) (svc_display_name r) (svc_compatibility r)
  (svc_resources r) (svc_isolation r) (svc_replicas r).
#[export] Instance ServiceDefinition_eq_dec : EqDecision ServiceDefinition.
Proof. solve_decision. Defined.
Definition ServiceDefinition_default : ServiceDefinition :=
  mkServiceDefinition "" ServiceVersion_default "" CompatibilityRequirement_default
  ResourceVector_zero IsolationRequirement_default ReplicaPolicy_default.

Record Dependency := mkDependency {
  dep_id : DependencyId;
  dep_from : ServiceId;
  dep_to : ServiceId;
  dep_kind : DependencyKind
}.
#[export] Instance eta_Dependency : Settable Dependency := fun r =>
  mkDependency (dep_id r) (dep_from r) (dep_to r) (dep_kind r).
#[export] Instance Dependency_eq_dec : EqDecision Dependency.
Proof. solve_decision. Defined.
Definition Dependency_default : Dependency :=
  mkDependency "" "" "" DependencyKind.Requires.

Record ServiceGroup := mkServiceGroup {
  grp_id : ServiceGroupId;
  grp_members : list ServiceId;
  grp_exclusive_scope : option ExclusiveScopeId;
  grp_anti_affinity : AntiAffinityPolicy
}.
#[export] Instance eta_ServiceGroup : Settable ServiceGroup := fun r =>
  mkServiceGroup (grp_id r) (grp_members r) (grp_exclusive_scope r) (grp_anti_affinity r).
#[export] Instance ServiceGroup_eq_dec : EqDecision ServiceGroup.
Proof. solve_decision. Defined.
Definition ServiceGroup_default : ServiceGroup :=
  mkServiceGroup "" [] None AntiAffinityPolicy_default.

Record ServiceReplicaIntent := mkServiceReplicaIntent {
  sri_service : ServiceId;
  sri_desired_replicas : Z
}.
#[export] Instance eta_ServiceReplicaIntent : Settable ServiceReplicaIntent := fun r =>
  mkServiceReplicaIntent (sri_service r) (sri_desired_replicas r).
#[export] Instance ServiceReplicaIntent_eq_dec : EqDecision ServiceReplicaIntent.
Proof. solve_decision. Defined.
Definition ServiceReplicaIntent_default : ServiceReplicaIntent :=
  mkServiceReplicaIntent "" 0.

Record StagedRolloutPolicy := mkStagedRolloutPolicy {
  srp_batch_size : Z;
  srp_max_unavailable : Z;
  srp_verify_between_stages : bool
}.
#[export] Instance eta_StagedRolloutPolicy : Settable StagedRolloutPolicy := fun r =>
  mkStagedRolloutPolicy (srp_batch_size r) (srp_max_unavailable r) (srp_verify_between_stages r).
#[export] Instance StagedRolloutPolicy_eq_dec : EqDecision StagedRolloutPolicy.
Proof. solve_decision. Defined.
Definition StagedRolloutPolicy_default : StagedRolloutPolicy :=
  mkStagedRolloutPolicy 1 0 true.

Record PlacementIntent := mkPlacementIntent {
  int_id : OperationId;
  int_group : ServiceGroupId;
  int_kind : IntentKind;
  int_generation : DeploymentGeneration;
  int_rollback_target : option DeploymentGeneration;
  int_services : list ServiceReplicaIntent;
  int_staging : StagedRolloutPolicy;
  int_origin : OriginId;
  int_origin_epoch : OriginEpoch;
  int_origin_seq : Sequence;
  int_submitted_at : LogicalInstant
}.
#[export] Instance eta_PlacementIntent : Settable PlacementIntent := fun r =>
  mkPlacementIntent (int_id r) (int_group r) (int_kind r) (int_generation r)
  (int_rollback_target r) (int_services r) (int_staging r) (int_origin r) (int_origin_epoch r)
  (int_origin_seq r) (int_submitted_at r).
#[export] Instance PlacementIntent_eq_dec : EqDecision PlacementIntent.
Proof. solve_decision. Defined.
Definition PlacementIntent_default : PlacementIntent :=
  mkPlacementIntent "" "" IntentKind.Deploy 0 None [] StagedRolloutPolicy_default "" 0 0 0.

Record PolicyState := mkPolicyState {
  pol_generation : PolicyGeneration;
  pol_max_replicas_per_dpu_ceiling : Z;
  pol_max_instances_per_group : Z;
  pol_max_stage_batch : Z;
  pol_allow_synthetic_evidence : bool;
  pol_require_exclusive_scope_for_dedicated_device : bool;
  pol_allow_rollback_across_policy : bool;
  pol_evidence_validity_ticks : Z;
  pol_policy_digest : Digest;
  pol_evidence : EvidenceRef
}.
#[export] Instance eta_PolicyState : Settable PolicyState := fun r =>
  mkPolicyState (pol_generation r) (pol_max_replicas_per_dpu_ceiling r)
  (pol_max_instances_per_group r) (pol_max_stage_batch r) (pol_allow_synthetic_evidence r)
  (pol_require_exclusive_scope_for_dedicated_device r) (pol_allow_rollback_across_policy r)
  (pol_evidence_validity_ticks r) (pol_policy_digest r) (pol_evidence r).
#[export] Instance PolicyState_eq_dec : EqDecision PolicyState.
Proof. solve_decision. Defined.
Definition PolicyState_default : PolicyState :=
  mkPolicyState 0 4 64 16 true true false 64 Digest_zero EvidenceRef_default.

(** ** Attempts, decisions and instances *)
Record FenceToken := mkFenceToken {
  ft_epoch : CoordinatorEpoch;
  ft_boot : BootIncarnation;
  ft_serial : Z
}.
#[export] Instance eta_FenceToken : Settable FenceToken := fun r =>
  mkFenceToken (ft_epoch r) (ft_boot r) (ft_serial r).
#[export] Instance FenceToken_eq_dec : EqDecision FenceToken.
Proof. solve_decision. Defined.
Definition FenceToken_default : FenceToken :=
  mkFenceToken 0 0 0.

Record AttemptRecord := mkAttemptRecord {
  att_number : AttemptNumber;
  att_fence : FenceToken;
  att_phase : LifecycleState;
  att_outcome : AttemptOutcome;
  att_opened_at : LogicalInstant;
  att_closed_at : LogicalInstant;
  att_request_digest : Digest;
  att_close_reason : ReasonCode
}.
#[export] Instance eta_AttemptRecord : Settable AttemptRecord := fun r =>
  mkAttemptRecord (att_number r) (att_fence r) (att_phase r) (att_outcome r) (att_opened_at r)
  (att_closed_at r) (att_request_digest r) (att_close_reason r).
#[export] Instance AttemptRecord_eq_dec : EqDecision AttemptRecord.
Proof. solve_decision. Defined.
Definition AttemptRecord_default : AttemptRecord :=
  mkAttemptRecord 0 FenceToken_default LifecycleState.Absent AttemptOutcome.Open 0 0 Digest_zero
  ReasonCode.Ok.

Record Explanation := mkExplanation {
  ex_code : ReasonCode;
  ex_kind : DecisionKind;
  ex_subject : string;
  ex_note : string;
  ex_evidence_digest : Digest;
  ex_topology : TopologyGeneration;
  ex_capability : CapabilityGeneration;
  ex_policy : PolicyGeneration;
  ex_deployment : DeploymentGeneration
}.
#[export] Instance eta_Explanation : Settable Explanation := fun r =>
  mkExplanation (ex_code r) (ex_kind r) (ex_subject r) (ex_note r) (ex_evidence_digest r)
  (ex_topology r) (ex_capability r) (ex_policy r) (ex_deployment r).
#[export] Instance Explanation_eq_dec : EqDecision Explanation.
Proof. solve_decision. Defined.
Definition Explanation_default : Explanation :=
  mkExplanation ReasonCode.Ok DecisionKind.Placement "" "" Digest_zero 0 0 0 0.

Record FabricDecision := mkFabricDecision {
  dec_operation : OperationId;
  dec_kind : DecisionKind;
  dec_accepted : bool;
  dec_primary : ReasonCode;
  dec_at : LogicalInstant;
  dec_epoch : CoordinatorEpoch;
  dec_boot : BootIncarnation;
  dec_topology : TopologyGeneration;
  dec_capability : CapabilityGeneration;
  dec_policy : PolicyGeneration;
  dec_deployment : DeploymentGeneration;
  dec_evidence_digest : Digest;
  dec_policy_digest : Digest;
  dec_decision_digest : Digest;
  dec_explanations : list Explanation;
  dec_truncations : list TruncationRecord
}.
#[export] Instance eta_FabricDecision : Settable FabricDecision := fun r =>
  mkFabricDecision (dec_operation r) (dec_kind r) (dec_accepted r) (dec_primary r) (dec_at r)
  (dec_epoch r) (dec_boot r) (dec_topology r) (dec_capability r) (dec_policy r)
  (dec_deployment r) (dec_evidence_digest r) (dec_policy_digest r) (dec_decision_digest r)
  (dec_explanations r) (dec_truncations r).
#[export] Instance FabricDecision_eq_dec : EqDecision FabricDecision.
Proof. solve_decision. Defined.
Definition FabricDecision_default : FabricDecision :=
  mkFabricDecision "" DecisionKind.Placement false ReasonCode.Ok 0 0 0 0 0 0 0 Digest_zero
  Digest_zero Digest_zero [] [].

Record InstanceState := mkInstanceState {
  inst_id : InstanceId;
  inst_service : ServiceId;
  inst_group : ServiceGroupId;
  inst_version : ServiceVersion;
  inst_index : ReplicaIndex;
  inst_incarnation : Incarnation;
  inst_dpu : DpuId;
  inst_attachment : HostAttachmentId;
  inst_domain : IsolationDomainId;
  inst_deployment_generation : DeploymentGeneration;
  inst_state : LifecycleState;
  inst_health : HealthState;
  inst_health_fresh : bool;
  inst_health_observed_at : LogicalInstant;
  inst_topology_generation : TopologyGeneration;
  inst_capability_generation : CapabilityGeneration;
  inst_attempts : list AttemptRecord;
  inst_verified_digest : Digest;
  inst_verified_at : LogicalInstant;
  inst_verified_evidence : EvidenceRef;
  inst_effect_fence_serial : Z;
  inst_effect_fenced_at : LogicalInstant;
  inst_fence_reason : ReasonCode;
  inst_reasons : list Explanation
}.
#[export] Instance eta_InstanceState : Settable InstanceState := fun r =>
  mkInstanceState (inst_id r) (inst_service r) (inst_group r) (inst_version r) (inst_index r)
  (inst_incarnation r) (inst_dpu r) (inst_attachment r) (inst_domain r)
  (inst_deployment_generation r) (inst_state r) (inst_health r) (inst_health_fresh r)
  (inst_health_observed_at r) (inst_topology_generation r) (inst_capability_generation r)
  (inst_attempts r) (inst_verified_digest r) (inst_verified_at r) (inst_verified_evidence r)
  (inst_effect_fence_serial r) (inst_effect_fenced_at r) (inst_fence_reason r) (inst_reasons r).
#[export] Instance InstanceState_eq_dec : EqDecision InstanceState.
Proof. solve_decision. Defined.
Definition InstanceState_default : InstanceState :=
  mkInstanceState "" "" "" ServiceVersion_default 0 0 "" "" "" 0 LifecycleState.Absent
  HealthState.Unknown false 0 0 0 [] Digest_zero 0 EvidenceRef_default 0 0 ReasonCode.Ok [].

Record EffectReport := mkEffectReport {
  er_operation : OperationId;
  er_instance : InstanceId;
  er_attempt : AttemptNumber;
  er_fence : FenceToken;
  er_kind : EffectKind;
  er_status : EffectStatus;
  er_reported_at : LogicalInstant;
  er_evidence : EvidenceRef;
  er_payload_digest : Digest;
  er_effect_digest : Digest;
  er_partial : bool
}.
#[export] Instance eta_EffectReport : Settable EffectReport := fun r =>
  mkEffectReport (er_operation r) (er_instance r) (er_attempt r) (er_fence r) (er_kind r)
  (er_status r) (er_reported_at r) (er_evidence r) (er_payload_digest r) (er_effect_digest r)
  (er_partial r).
#[export] Instance EffectReport_eq_dec : EqDecision EffectReport.
Proof. solve_decision. Defined.
Definition EffectReport_default : EffectReport :=
  mkEffectReport "" "" 0 FenceToken_default EffectKind.Deploy EffectStatus.Failed 0
  EvidenceRef_default Digest_zero Digest_zero false.

(** ** Plans *)
Record PlannedReplica := mkPlannedReplica {
  pr_index : ReplicaIndex;
  pr_dpu : DpuId;
  pr_attachment : HostAttachmentId;
  pr_domain : IsolationDomainId;
  pr_score : Z;
  pr_eligibility_digest : Digest
}.
#[export] Instance eta_PlannedReplica : Settable PlannedReplica := fun r =>
  mkPlannedReplica (pr_index r) (pr_dpu r) (pr_attachment r) (pr_domain r) (pr_score r)
  (pr_eligibility_digest r).
#[export] Instance PlannedReplica_eq_dec : EqDecision PlannedReplica.
Proof. solve_decision. Defined.
Definition PlannedReplica_default : PlannedReplica :=
  mkPlannedReplica 0 "" "" "" 0 Digest_zero.

Record ServicePlan := mkServicePlan {
  sp_service : ServiceId;
  sp_version : ServiceVersion;
  sp_desired_replicas : Z;
  sp_placed_replicas : Z;
  sp_replicas : list PlannedReplica
}.
#[export] Instance eta_ServicePlan : Settable ServicePlan := fun r =>
  mkServicePlan (sp_service r) (sp_version r) (sp_desired_replicas r) (sp_placed_replicas r)
  (sp_replicas r).
#[export] Instance ServicePlan_eq_dec : EqDecision ServicePlan.
Proof. solve_decision. Defined.
Definition ServicePlan_default : ServicePlan :=
  mkServicePlan "" ServiceVersion_default 0 0 [].

Record PlanStage := mkPlanStage {
  stage_index : Z;
  stage_instances : list InstanceId;
  stage_max_unavailable : Z
}.
#[export] Instance eta_PlanStage : Settable PlanStage := fun r =>
  mkPlanStage (stage_index r) (stage_instances r) (stage_max_unavailable r).
#[export] Instance PlanStage_eq_dec : EqDecision PlanStage.
Proof. solve_decision. Defined.
Definition PlanStage_default : PlanStage :=
  mkPlanStage 0 [] 0.

Record DeploymentPlan := mkDeploymentPlan {
  plan_id : PlanId;
  plan_generation : DeploymentGeneration;
  plan_group : ServiceGroupId;
  plan_kind : IntentKind;
  plan_rollback_target : option DeploymentGeneration;
  plan_services : list ServicePlan;
  plan_stages : list PlanStage;
  plan_outcome : ReasonCode;
  plan_topology : TopologyGeneration;
  plan_capability : CapabilityGeneration;
  plan_policy : PolicyGeneration;
  plan_epoch : CoordinatorEpoch;
  plan_boot : BootIncarnation;
  plan_created_at : LogicalInstant;
  plan_digest : Digest;
  plan_explanations : list Explanation
}.
#[export] Instance eta_DeploymentPlan : Settable DeploymentPlan := fun r =>
  mkDeploymentPlan (plan_id r) (plan_generation r) (plan_group r) (plan_kind r)
  (plan_rollback_target r) (plan_services r) (plan_stages r) (plan_outcome r) (plan_topology r)
  (plan_capability r) (plan_policy r) (plan_epoch r) (plan_boot r) (plan_created_at r)
  (plan_digest r) (plan_explanations r).
#[export] Instance DeploymentPlan_eq_dec : EqDecision DeploymentPlan.
Proof. solve_decision. Defined.
Definition DeploymentPlan_default : DeploymentPlan :=
  mkDeploymentPlan "" 0 "" IntentKind.Deploy None [] [] ReasonCode.Ok 0 0 0 0 0 0 Digest_zero [].

Record PlanOutcome := mkPlanOutcome {
  po_feasible : bool;
  po_primary : ReasonCode;
  po_plan : DeploymentPlan;
  po_explanations : list Explanation;
  po_truncations : list TruncationRecord
}.
#[export] Instance eta_PlanOutcome : Settable PlanOutcome := fun r =>
  mkPlanOutcome (po_feasible r) (po_primary r) (po_plan r) (po_explanations r)
  (po_truncations r).
#[export] Instance PlanOutcome_eq_dec : EqDecision PlanOutcome.
Proof. solve_decision. Defined.
Definition PlanOutcome_default : PlanOutcome :=
  mkPlanOutcome false ReasonCode.Ok DeploymentPlan_default [] [].

(** ** Events *)
Record TopologyObserved := mkTopologyObserved {
  tobs_snapshot : TopologySnapshot
}.
#[export] Instance eta_TopologyObserved : Settable TopologyObserved := fun r =>
  mkTopologyObserved (tobs_snapshot r).
#[export] Instance TopologyObserved_eq_dec : EqDecision TopologyObserved.
Proof. solve_decision. Defined.
Definition TopologyObserved_default : TopologyObserved :=
  mkTopologyObserved TopologySnapshot_default.

Record CapabilityObserved := mkCapabilityObserved {
  cobs_dpu : DpuId;
  cobs_capabilities : CapabilitySet;
  cobs_generation : CapabilityGeneration;
  cobs_topology : TopologyGeneration;
  cobs_evidence : EvidenceRef
}.
#[export] Instance eta_CapabilityObserved : Settable CapabilityObserved := fun r =>
  mkCapabilityObserved (cobs_dpu r) (cobs_capabilities r) (cobs_generation r) (cobs_topology r)
  (cobs_evidence r).
#[export] Instance CapabilityObserved_eq_dec : EqDecision CapabilityObserved.
Proof. solve_decision. Defined.
Definition CapabilityObserved_default : CapabilityObserved :=
  mkCapabilityObserved "" CapabilitySet_default 0 0 EvidenceRef_default.

Record HealthObserved := mkHealthObserved {
  hobs_dpu : DpuId;
  hobs_health : HealthState;
  hobs_evidence : EvidenceRef
}.
#[export] Instance eta_HealthObserved : Settable HealthObserved := fun r =>
  mkHealthObserved (hobs_dpu r) (hobs_health r) (hobs_evidence r).
#[export] Instance HealthObserved_eq_dec : EqDecision HealthObserved.
Proof. solve_decision. Defined.
Definition HealthObserved_default : HealthObserved :=
  mkHealthObserved "" HealthState.Unknown EvidenceRef_default.

Record PolicyAdvanced := mkPolicyAdvanced {
  padv_policy : PolicyState
}.
#[export] Instance eta_PolicyAdvanced : Settable PolicyAdvanced := fun r =>
  mkPolicyAdvanced (padv_policy r).
#[export] Instance PolicyAdvanced_eq_dec : EqDecision PolicyAdvanced.
Proof. solve_decision. Defined.
Definition PolicyAdvanced_default : PolicyAdvanced :=
  mkPolicyAdvanced PolicyState_default.

Record DpuAttached := mkDpuAttached {
  datt_dpu : DpuId;
  datt_attachment : HostAttachmentId;
  datt_domain : IsolationDomainId;
  datt_topology : TopologyGeneration;
  datt_evidence : EvidenceRef
}.
#[export] Instance eta_DpuAttached : Settable DpuAttached := fun r =>
  mkDpuAttached (datt_dpu r) (datt_attachment r) (datt_domain r) (datt_topology r)
  (datt_evidence r).
#[export] Instance DpuAttached_eq_dec : EqDecision DpuAttached.
Proof. solve_decision. Defined.
Definition DpuAttached_default : DpuAttached :=
  mkDpuAttached "" "" "" 0 EvidenceRef_default.

Record DpuLost := mkDpuLost {
  dlost_dpu : DpuId;
  dlost_topology : TopologyGeneration;
  dlost_evidence : EvidenceRef
}.
#[export] Instance eta_DpuLost : Settable DpuLost := fun r =>
  mkDpuLost (dlost_dpu r) (dlost_topology r) (dlost_evidence r).
#[export] Instance DpuLost_eq_dec : EqDecision DpuLost.
Proof. solve_decision. Defined.
Definition DpuLost_default : DpuLost :=
  mkDpuLost "" 0 EvidenceRef_default.

Record ServiceDeclared := mkServiceDeclared {
  sdecl_service : ServiceDefinition
}.
#[export] Instance eta_ServiceDeclared : Settable ServiceDeclared := fun r =>
  mkServiceDeclared (sdecl_service r).
#[export] Instance ServiceDeclared_eq_dec : EqDecision ServiceDeclared.
Proof. solve_decision. Defined.
Definition ServiceDeclared_default : ServiceDeclared :=
  mkServiceDeclared ServiceDefinition_default.

Record GroupDeclared := mkGroupDeclared {
  gdecl_group : ServiceGroup
}.
#[export] Instance eta_GroupDeclared : Settable GroupDeclared := fun r =>
  mkGroupDeclared (gdecl_group r).
#[export] Instance GroupDeclared_eq_dec : EqDecision GroupDeclared.
Proof. solve_decision. Defined.
Definition GroupDeclared_default : GroupDeclared :=
  mkGroupDeclared ServiceGroup_default.

Record DependencyDeclared := mkDependencyDeclared {
  ddecl_dependency : Dependency
}.
#[export] Instance eta_DependencyDeclared : Settable DependencyDeclared := fun r =>
  mkDependencyDeclared (ddecl_dependency r).
#[export] Instance DependencyDeclared_eq_dec : EqDecision DependencyDeclared.
Proof. solve_decision. Defined.
Definition DependencyDeclared_default : DependencyDeclared :=
  mkDependencyDeclared Dependency_default.

Record IntentSubmitted := mkIntentSubmitted {
  isub_intent : PlacementIntent
}.
#[export] Instance eta_IntentSubmitted : Settable IntentSubmitted := fun r =>
  mkIntentSubmitted (isub_intent r).
#[export] Instance IntentSubmitted_eq_dec : EqDecision IntentSubmitted.
Proof. solve_decision. Defined.
Definition IntentSubmitted_default : IntentSubmitted :=
  mkIntentSubmitted PlacementIntent_default.

Record ExecutionAcknowledged := mkExecutionAcknowledged {
  eack_instance : InstanceId;
  eack_attempt : AttemptNumber;
  eack_fence : FenceToken;
  eack_acknowledged_at : LogicalInstant
}.
#[export] Instance eta_ExecutionAcknowledged : Settable ExecutionAcknowledged := fun r =>
  mkExecutionAcknowledged (eack_instance r) (eack_attempt r) (eack_fence r)
  (eack_acknowledged_at r).
#[export] Instance ExecutionAcknowledged_eq_dec : EqDecision ExecutionAcknowledged.
Proof. solve_decision. Defined.
Definition ExecutionAcknowledged_default : ExecutionAcknowledged :=
  mkExecutionAcknowledged "" 0 FenceToken_default 0.

Record EffectReported := mkEffectReported {
  erep_report : EffectReport
}.
#[export] Instance eta_EffectReported : Settable EffectReported := fun r =>
  mkEffectReported (erep_report r).
#[export] Instance EffectReported_eq_dec : EqDecision EffectReported.
Proof. solve_decision. Defined.
Definition EffectReported_default : EffectReported :=
  mkEffectReported EffectReport_default.

Record CoordinatorAdvanced := mkCoordinatorAdvanced {
  cadv_epoch : CoordinatorEpoch;
  cadv_coordinator : OriginId
}.
#[export] Instance eta_CoordinatorAdvanced : Settable CoordinatorAdvanced := fun r =>
  mkCoordinatorAdvanced (cadv_epoch r) (cadv_coordinator r).
#[export] Instance CoordinatorAdvanced_eq_dec : EqDecision CoordinatorAdvanced.
Proof. solve_decision. Defined.
Definition CoordinatorAdvanced_default : CoordinatorAdvanced :=
  mkCoordinatorAdvanced 0 "".

Record LogicalTimeAdvanced := mkLogicalTimeAdvanced {
  ladv_now : LogicalInstant
}.
#[export] Instance eta_LogicalTimeAdvanced : Settable LogicalTimeAdvanced := fun r =>
  mkLogicalTimeAdvanced (ladv_now r).
#[export] Instance LogicalTimeAdvanced_eq_dec : EqDecision LogicalTimeAdvanced.
Proof. solve_decision. Defined.
Definition LogicalTimeAdvanced_default : LogicalTimeAdvanced :=
  mkLogicalTimeAdvanced 0.

Record QuiesceRequested := mkQuiesceRequested {
  qreq_service : ServiceId
}.
#[export] Instance eta_QuiesceRequested : Settable QuiesceRequested := fun r =>
  mkQuiesceRequested (qreq_service r).
#[export] Instance QuiesceRequested_eq_dec : EqDecision QuiesceRequested.
Proof. solve_decision. Defined.
Definition QuiesceRequested_default : QuiesceRequested :=
  mkQuiesceRequested "".

Inductive FabricEventBody : Type :=
| Body_TopologyObserved (payload : TopologyObserved)
| Body_CapabilityObserved (payload : CapabilityObserved)
| Body_HealthObserved (payload : HealthObserved)
| Body_PolicyAdvanced (payload : PolicyAdvanced)
| Body_DpuAttached (payload : DpuAttached)
| Body_DpuLost (payload : DpuLost)
| Body_ServiceDeclared (payload : ServiceDeclared)
| Body_GroupDeclared (payload : GroupDeclared)
| Body_DependencyDeclared (payload : DependencyDeclared)
| Body_IntentSubmitted (payload : IntentSubmitted)
| Body_ExecutionAcknowledged (payload : ExecutionAcknowledged)
| Body_EffectReported (payload : EffectReported)
| Body_CoordinatorAdvanced (payload : CoordinatorAdvanced)
| Body_LogicalTimeAdvanced (payload : LogicalTimeAdvanced)
| Body_QuiesceRequested (payload : QuiesceRequested).
#[export] Instance FabricEventBody_eq_dec : EqDecision FabricEventBody.
Proof. solve_decision. Defined.
Definition FabricEventBody_default : FabricEventBody := Body_TopologyObserved TopologyObserved_default.

Record FabricEvent := mkFabricEvent {
  fe_id : EventId;
  fe_origin : OriginId;
  fe_origin_epoch : OriginEpoch;
  fe_origin_seq : Sequence;
  fe_at : LogicalInstant;
  fe_wall_clock : WallClockMs;
  fe_evidence_class : EvidenceClass;
  fe_payload_digest : Digest;
  fe_body : FabricEventBody
}.
#[export] Instance eta_FabricEvent : Settable FabricEvent := fun r =>
  mkFabricEvent (fe_id r) (fe_origin r) (fe_origin_epoch r) (fe_origin_seq r) (fe_at r)
  (fe_wall_clock r) (fe_evidence_class r) (fe_payload_digest r) (fe_body r).
#[export] Instance FabricEvent_eq_dec : EqDecision FabricEvent.
Proof. solve_decision. Defined.
Definition FabricEvent_default : FabricEvent :=
  mkFabricEvent "" "" 0 0 0 0 EvidenceClass.Unknown Digest_zero FabricEventBody_default.

Record EventKey := mkEventKey {
  ek_at : LogicalInstant;
  ek_origin : OriginId;
  ek_origin_epoch : OriginEpoch;
  ek_origin_seq : Sequence;
  ek_id : EventId
}.
#[export] Instance eta_EventKey : Settable EventKey := fun r =>
  mkEventKey (ek_at r) (ek_origin r) (ek_origin_epoch r) (ek_origin_seq r) (ek_id r).
#[export] Instance EventKey_eq_dec : EqDecision EventKey.
Proof. solve_decision. Defined.
Definition EventKey_default : EventKey :=
  mkEventKey 0 "" 0 0 "".

(** ** Operations of capabilities and policies *)

(** [CapabilityValue::to_string] *)
Definition capability_value_to_string (v : CapabilityValue) : string :=
  match cv_kind v with
  | CapabilityValueKind.Unknown => "unknown"
  | CapabilityValueKind.Flag => if cv_flag v then "true" else "false"
  | CapabilityValueKind.Integer => to_string (cv_integer v)
  | CapabilityValueKind.Text => cv_text v
  | CapabilityValueKind.Version => version_to_string (cv_version v)
  end.

(** The loop of [CapabilitySet::normalize] over the sorted entries; [previous] is
    the key of the entry before, if any. *)
Fixpoint normalize_check (previous : option CapabilityKey) (entries : list Capability) : Status :=
  match entries with
  | [] => Status_success
  | entry :: rest =>
    if negb (id_valid (cap_key entry)) then
      refuse ReasonCode.InvalidIdentity "capability key missing"
    else if bool_decide (cv_kind (cap_value entry) = CapabilityValueKind.Unknown) then
      refuse ReasonCode.CapabilityUnknown (cap_key entry)
    else if 256 <? slen (cv_text (cap_value entry)) then
      refuse ReasonCode.OversizedInput (cap_key entry)
    else if bool_decide (previous = Some (cap_key entry)) then
      refuse ReasonCode.DuplicateIdentity (cap_key entry)
    else normalize_check (Some (cap_key entry)) rest
  end.

(** [CapabilitySet::normalize]: the set it leaves behind and the status.  The
    entries stay sorted even when the check refuses. *)
Definition capability_normalize (s : CapabilitySet) (max_entries : Z) : CapabilitySet * Status :=
  if max_entries <? zlen (cs_entries s) then
    (s, refuse ReasonCode.BoundExceeded "capability set exceeds bound")
  else
    let s := s <| cs_entries := std_sort (lt_by cap_key str_lt) (cs_entries s) |> in
    (s, normalize_check None (cs_entries s)).

(** [CapabilitySet::find] *)
Definition capability_find (s : CapabilitySet) (key : CapabilityKey) : option Capability :=
  match find_sorted cap_key str_lt key (cs_entries s) with
  | Some i => cs_entries s !! i
  | None => None
  end.

(** [DpuProfile::supports] *)
Definition profile_supports (p : DpuProfile) (kind : IsolationKind) : bool :=
  bool_decide (kind ∈ prof_isolation p).

(** [ReplicaPolicy::validate] *)
Definition replica_policy_validate (p : ReplicaPolicy) (ceiling : Z) : Status :=
  if rp_max p =? 0 then refuse ReasonCode.ValueOutOfRange "max replicas must be positive"
  else if (rp_preferred p <? rp_min p) || (rp_max p <? rp_preferred p) then
    refuse ReasonCode.ValueOutOfRange "replica policy is not monotone"
  else if ceiling <? rp_max p then
    refuse ReasonCode.ReplicaBoundExceeded "max replicas exceeds bound"
  else Status_success.

(** [AntiAffinityPolicy::validate] *)
Definition anti_affinity_validate (p : AntiAffinityPolicy) : Status :=
  if aa_max_replicas_per_dpu p =? 0 then
    refuse ReasonCode.ValueOutOfRange "max replicas per DPU must be positive"
  else if bool_decide (aa_max_replicas_per_domain p = Some 0) then
    refuse ReasonCode.ValueOutOfRange "max replicas per domain must be positive"
  else Status_success.

(** [StagedRolloutPolicy::validate] *)
Definition staging_validate (p : StagedRolloutPolicy) (ceiling : Z) : Status :=
  if srp_batch_size p =? 0 then refuse ReasonCode.ValueOutOfRange "batch size must be positive"
  else if ceiling <? srp_batch_size p then
    refuse ReasonCode.BoundExceeded "batch size exceeds policy ceiling"
  else if (srp_batch_size p <=? srp_max_unavailable p) && (1 <? srp_batch_size p) then
    refuse ReasonCode.StagingInfeasible "max_unavailable must be below batch size"
  else Status_success.

(** ** Evidence, devices, instances *)

(** [EvidenceRef::fresh_at] and [present] *)
Definition fresh_at (e : EvidenceRef) (now : LogicalInstant) : bool :=
  (now <=? ev_valid_until e) && (ev_observed_at e <=? now).
Definition evidence_present (e : EvidenceRef) : bool := id_valid (ev_id e).

(** [DpuRecord::attached] *)
Definition attached (d : DpuRecord) : bool := bool_decide (dpu_state d = DpuState.Attached).

(** [TopologySnapshot::find]: a linear search; the position stands for the
    pointer the mutable overload returns. *)
Definition topology_find_index (t : TopologySnapshot) (id : DpuId) : option nat :=
  match list_find (fun d => dpu_id d = id) (topo_dpus t) with
  | Some (i, _) => Some i
  | None => None
  end.
Definition topology_find (t : TopologySnapshot) (id : DpuId) : option DpuRecord :=
  match list_find (fun d => dpu_id d = id) (topo_dpus t) with
  | Some (_, d) => Some d
  | None => None
  end.

(** [FenceToken::valid] and [from] *)
Definition fence_valid (t : FenceToken) : bool := negb (ft_serial t =? 0).
Definition fence_from (t : FenceToken) (epoch : CoordinatorEpoch) (boot : BootIncarnation) : bool :=
  (ft_epoch t =? epoch) && (ft_boot t =? boot).

(** [AttemptRecord::open] *)
Definition attempt_open (a : AttemptRecord) : bool :=
  bool_decide (att_outcome a = AttemptOutcome.Open).

(** [InstanceState::current_attempt] and [serving] *)
Definition current_attempt (i : InstanceState) : option AttemptRecord := last (inst_attempts i).
Definition serving (i : InstanceState) : bool :=
  bool_decide (inst_state i = LifecycleState.Verified) &&
  bool_decide (inst_health i = HealthState.Healthy) && inst_health_fresh i.

(** [PolicyState::valid] *)
Definition policy_valid (p : PolicyState) : bool := counter_valid (pol_generation p).

(** [Explanation::operator<] *)
Definition explanation_lt (a b : Explanation) : bool :=
  if negb (bool_decide (ex_code a = ex_code b)) then
    reason_value (ex_code a) <? reason_value (ex_code b)
  else if negb (bool_decide (ex_subject a = ex_subject b)) then
    str_lt (ex_subject a) (ex_subject b)
  else if negb (bool_decide (ex_note a = ex_note b)) then str_lt (ex_note a) (ex_note b)
  else ex_deployment a <? ex_deployment b.

(** ** The order of events *)

(** [event_key] *)
Definition event_key (e : FabricEvent) : EventKey :=
  mkEventKey (fe_at e) (fe_origin e) (fe_origin_epoch e) (fe_origin_seq e) (fe_id e).

(** [event_key_less] *)
Definition event_key_less (a b : EventKey) : bool :=
  if negb (ek_at a =? ek_at b) then ek_at a <? ek_at b
  else if negb (bool_decide (ek_origin a = ek_origin b)) then str_lt (ek_origin a) (ek_origin b)
  else if negb (ek_origin_epoch a =? ek_origin_epoch b) then
    ek_origin_epoch a <? ek_origin_epoch b
  else if negb (ek_origin_seq a =? ek_origin_seq b) then ek_origin_seq a <? ek_origin_seq b
  else str_lt (ek_id a) (ek_id b).

(** [event_kind_name] *)
Definition event_kind_name (e : FabricEvent) : string :=
  match fe_body e with
  | Body_TopologyObserved _ => "TopologyObserved"
  | Body_CapabilityObserved _ => "CapabilityObserved"
  | Body_HealthObserved _ => "HealthObserved"
  | Body_PolicyAdvanced _ => "PolicyAdvanced"
  | Body_DpuAttached _ => "DpuAttached"
  | Body_DpuLost _ => "DpuLost"
  | Body_ServiceDeclared _ => "ServiceDeclared"
  | Body_GroupDeclared _ => "GroupDeclared"
  | Body_DependencyDeclared _ => "DependencyDeclared"
  | Body_IntentSubmitted _ => "IntentSubmitted"
  | Body_ExecutionAcknowledged _ => "ExecutionAcknowledged"
  | Body_EffectReported _ => "EffectReported"
  | Body_CoordinatorAdvanced _ => "CoordinatorAdvanced"
  | Body_LogicalTimeAdvanced _ => "LogicalTimeAdvanced"
  | Body_QuiesceRequested _ => "QuiesceRequested"
  end.

(** The key as nested pairs compared component by component. *)
Definition event_key_tuple (k : EventKey) : Z * (string * (Z * (Z * string))) :=
  (ek_at k, (ek_origin k, (ek_origin_epoch k, (ek_origin_seq k, ek_id k)))).

Lemma event_key_less_lex a b :
  event_key_less a b =
    lex_lt Z.ltb (lex_lt str_lt (lex_lt Z.ltb (lex_lt Z.ltb str_lt)))
      (event_key_tuple a) (event_key_tuple b).
Proof.
  unfold event_key_less, lex_lt. cbn [fst snd event_key_tuple].
  by rewrite !Zeqb_bool_decide.
Qed.

(** The order of events is a strict total order on their keys. *)
#[export] Instance event_key_less_strict : StrictTotal event_key_less.
Proof.
  assert (Hinj : Inj eq eq event_key_tuple).
  { intros [] []. unfold event_key_tuple. cbn. by intros [= -> -> -> -> ->]. }
  pose proof (strict_total_inj event_key_tuple
    (lex_lt Z.ltb (lex_lt str_lt (lex_lt Z.ltb (lex_lt Z.ltb str_lt)))) Hinj) as [H1 H2 H3].
  split.
  - intros x. rewrite event_key_less_lex. apply H1.
  - intros x y z. rewrite !event_key_less_lex. apply H2.
  - intros x y. rewrite !event_key_less_lex. apply H3.
Qed.

(** ** Capability sets *)
Definition capability_ok (c : Capability) : Prop :=
  cap_key c <> "" /\ cv_kind (cap_value c) <> CapabilityValueKind.Unknown /\
  slen (cv_text (cap_value c)) <= 256.

Lemma normalize_check_ok previous entries :
  sorted_by cap_key str_lt entries ->
  (forall k c, previous = Some k -> c ∈ entries -> str_lt (cap_key c) k = false) ->
  status_ok (normalize_check previous entries) = true ->
  strictly_by cap_key str_lt entries /\ Forall capability_ok entries /\
  (forall k c, previous = Some k -> c ∈ entries -> str_lt k (cap_key c) = true).
Proof.
  intros Hs. revert previous. induction Hs as [|c entries Hs IH Hc]; intros previous Hp.
  { intros _. split_and!; [constructor..|]. by intros ? ? _ ?%elem_of_nil. }
  cbn [normalize_check].
  destruct (id_valid (cap_key c)) eqn:Hv; cbn [negb]; [|done].
  case_bool_decide as Hk; [done|].
  destruct (Z.ltb_spec 256 (slen (cv_text (cap_value c)))); [done|].
  case_bool_decide as Hd; [done|]. intros Hok.
  rewrite Forall_forall in Hc.
  destruct (IH (Some (cap_key c))) as (I1 & I2 & I3); [by intros k x [= <-]; auto|done|].
  assert (Hlt : forall x, x ∈ entries -> str_lt (cap_key c) (cap_key x) = true) by eauto.
  rewrite <-Forall_forall in Hlt.
  split_and!.
  - by constructor.
  - constructor; [|done]. split_and!; [|done|done]. by intros Hem; rewrite Hem in Hv.
  - intros k x -> Hx.
    assert (Hkc : str_lt k (cap_key c) = true).
    { destruct (str_lt k (cap_key c)) eqn:Hkc; [done|]. destruct Hd. f_equal.
      apply (st_total (lt:=str_lt)); [done|]. apply (Hp _ c eq_refl). by left. }
    rewrite Forall_forall in Hlt. apply elem_of_cons in Hx as [->|Hx]; [done|].
    eapply st_trans; eauto.
Qed.

(** A capability set that normalizes is in strictly ascending key order, holds
    the entries it was given, each with an identity and a known value, and lookup
    by binary search finds exactly the entry of a key: no key has two answers. *)
Theorem normalize_find s max_entries s' status key :
  capability_normalize s max_entries = (s', status) -> status_ok status = true ->
  strictly_by cap_key str_lt (cs_entries s') /\ cs_entries s' ≡ₚ cs_entries s /\
  zlen (cs_entries s') <= max_entries /\ Forall capability_ok (cs_entries s') /\
  (forall c, capability_find s' key = Some c <-> c ∈ cs_entries s /\ cap_key c = key).
Proof.
  unfold capability_normalize. destruct (Z.ltb_spec max_entries (zlen (cs_entries s))).
  { by intros [= <- <-]. }
  intros [= <- <-] Hok. cbn [cs_entries set] in *.
  set (l := std_sort _ _) in *.
  assert (Hp : l ≡ₚ cs_entries s) by apply std_sort_perm.
  destruct (normalize_check_ok None l) as (Hs & Hall & _);
    [apply (std_sort_sorted cap_key str_lt)|done|done|].
  split_and!; [done|done| |done|].
  { unfold l. by rewrite std_sort_zlen. }
  intros c. unfold capability_find. cbn [cs_entries]. rewrite <-Hp.
  split.
  - destruct (find_sorted _ _ _ _) as [i|] eqn:Hf; [|done]. intros Hc.
    apply find_sorted_Some in Hf as (x & Hx & <-). simplify_eq.
    split; [by eapply list_elem_of_lookup_2|done].
  - intros [Hin <-]. apply list_elem_of_lookup in Hin as [i Hi].
    by rewrite (find_sorted_unique _ _ _ i).
Qed.

Lemma normalize_find_witness :
  let entry k v := mkCapability k (mkCapabilityValue CapabilityValueKind.Integer false v ""
    ServiceVersion_default) 1 in
  let s := mkCapabilitySet [entry "queues" 8; entry "crypto" 2] in
  let s' := mkCapabilitySet [entry "crypto" 2; entry "queues" 8] in
  strictly_by cap_key str_lt (cs_entries s') /\ cs_entries s' ≡ₚ cs_entries s /\
  zlen (cs_entries s') <= 4 /\ Forall capability_ok (cs_entries s') /\
  (forall c, capability_find s' "queues" = Some c <-> c ∈ cs_entries s /\ cap_key c = "queues").
Proof.
  intros entry s s'. refine (normalize_find s 4 s' Status_success "queues" _ _); reflexivity.
Defined.
