(* ===== verification/Codec.v ===== *)
(** * The canonical encodings of the model

    One codec per [visit] of [include/dpu/fabric/model/] (and of the core value
    types), field by field in the order the [visit] writes them.  A member no
    [visit] mentions is rebuilt with its default: [DeploymentPlan::id] and
    [digest], and [FabricEvent::payload_digest]. *)

From S2P Require Import Prelude Std Reason Types Version Resources Bounded Digest Json JsonArchive Archive Model.
#[local] Open Scope Z_scope.

(** ** Core values *)
Definition c_instant : Codec LogicalInstant := c_object "LogicalInstant" (c_iso
  (fun t => (tt, t)) (fun '(_, ticks) => ticks) (fields & field "ticks" c_u64)).
#[export] Typeclasses Opaque c_instant.
#[export] Instance c_instant_laws : CodecLaws c_instant.
Proof. solve_codec_laws. Qed.
#[export] Instance c_instant_exact : CodecExact c_instant.
Proof. apply c_object_exact, c_iso_exact; [done|typeclasses eauto]. Qed.
Definition c_wallclock : Codec WallClockMs := c_object "WallClockMs" (c_iso
  (fun t => (tt, t)) (fun '(_, ms) => ms) (fields & field "ms" c_i64)).
#[export] Typeclasses Opaque c_wallclock.
#[export] Instance c_wallclock_laws : CodecLaws c_wallclock.
Proof. solve_codec_laws. Qed.
#[export] Instance c_wallclock_exact : CodecExact c_wallclock.
Proof. apply c_object_exact, c_iso_exact; [done|typeclasses eauto]. Qed.
Definition ServiceVersion_codec : Codec ServiceVersion := c_object "ServiceVersion" (c_iso
  (fun v => (tt, ver_major v, ver_minor v, ver_patch v, ver_prerelease v))
  (fun '(_, x_major, x_minor, x_patch, x_prerelease) =>
     mkServiceVersion x_major x_minor x_patch x_prerelease)
  (fields
     & field "major" c_u32
     & field "minor" c_u32
     & field "patch" c_u32
     & field "prerelease" c_string)).
#[export] Typeclasses Opaque ServiceVersion_codec.
#[export] Instance ServiceVersion_codec_laws : CodecLaws ServiceVersion_codec.
Proof. solve_codec_laws. Qed.
#[export] Instance ServiceVersion_codec_exact : CodecExact ServiceVersion_codec.
Proof. solve_codec_exact. Qed.
Definition FirmwareApiLevel_codec : Codec FirmwareApiLevel := c_object "FirmwareApiLevel" (c_iso
  (fun f => (tt, fw_major f, fw_minor f))
  (fun '(_, x_major, x_minor) => mkFirmwareApiLevel x_major x_minor)
  (fields & field "major" c_u32 & field "minor" c_u32)).
#[export] Typeclasses Opaque FirmwareApiLevel_codec.
#[export] Instance FirmwareApiLevel_codec_laws : CodecLaws FirmwareApiLevel_codec.
Proof. solve_codec_laws. Qed.
#[export] Instance FirmwareApiLevel_codec_exact : CodecExact FirmwareApiLevel_codec.
Proof. solve_codec_exact. Qed.
Definition ResourceVector_codec : Codec ResourceVector := c_object "ResourceVector" (c_iso
  (fun r => (tt, cpu_millicores r, memory_bytes r, network_bps r, crypto_ops_per_sec r,
     storage_bytes r))
  (fun '(_, cpu, memory, network, crypto, storage) =>
     mkResourceVector cpu memory network crypto storage)
  (fields
     & field "cpu_millicores" c_u64
     & field "memory_bytes" c_u64
     & field "network_bps" c_u64
     & field "crypto_ops_per_sec" c_u64
     & field "storage_bytes" c_u64)).
#[export] Typeclasses Opaque ResourceVector_codec.
#[export] Instance ResourceVector_codec_laws : CodecLaws ResourceVector_codec.
Proof. solve_codec_laws. Qed.
#[export] Instance ResourceVector_codec_exact : CodecExact ResourceVector_codec.
Proof. solve_codec_exact. Qed.
Definition TruncationRecord_codec : Codec TruncationRecord := c_object "TruncationRecord" (c_iso
  (fun s =>
     (tt, tr_container s, tr_requested s, tr_accepted s, tr_dropped s, tr_reason s))
  (fun '(_, x_container, x_requested, x_accepted, x_dropped, x_reason) =>
     mkTruncationRecord x_container x_requested x_accepted x_dropped x_reason)
  (fields
     & field "container" c_string
     & field "requested" c_u64
     & field "accepted" c_u64
     & field "dropped" c_u64
     & field "reason" (c_enum ReasonCode))).
#[export] Typeclasses Opaque TruncationRecord_codec.
#[export] Instance TruncationRecord_codec_laws : CodecLaws TruncationRecord_codec.
Proof. solve_codec_laws. Qed.
#[export] Instance TruncationRecord_codec_exact : CodecExact TruncationRecord_codec.
Proof. solve_codec_exact. Qed.

(** ** Capabilities, profiles and requirements *)
Definition CapabilityValue_codec : Codec CapabilityValue := c_object "CapabilityValue" (c_iso
  (fun s =>
     (tt, cv_kind s, cv_flag s, cv_integer s, cv_text s, cv_version s))
  (fun '(_, x_kind, x_flag, x_integer, x_text, x_version) =>
     mkCapabilityValue x_kind x_flag x_integer x_text x_version)
  (fields
     & field "kind" (c_enum CapabilityValueKind)
     & field "flag" c_bool
     & field "integer" c_i64
     & field "text" c_string
     & field "version" ServiceVersion_codec)).
#[export] Typeclasses Opaque CapabilityValue_codec.
#[export] Instance CapabilityValue_codec_laws : CodecLaws CapabilityValue_codec.
Proof. solve_codec_laws. Qed.
#[export] Instance CapabilityValue_codec_exact : CodecExact CapabilityValue_codec.
Proof. solve_codec_exact. Qed.

Definition Capability_codec : Codec Capability := c_object "Capability" (c_iso
  (fun s =>
     (tt, cap_key s, cap_value s, cap_generation s))
  (fun '(_, x_key, x_value, x_generation) =>
     mkCapability x_key x_value x_generation)
  (fields
     & field "key" c_id
     & field "value" CapabilityValue_codec
     & field "generation" c_counter)).
#[export] Typeclasses Opaque Capability_codec.
#[export] Instance Capability_codec_laws : CodecLaws Capability_codec.
Proof. solve_codec_laws. Qed.
#[export] Instance Capability_codec_exact : CodecExact Capability_codec.
Proof. solve_codec_exact. Qed.

Definition CapabilitySet_codec : Codec CapabilitySet := c_object "CapabilitySet" (c_iso
  (fun s =>
     (tt, cs_entries s))
  (fun '(_, x_entries) =>
     mkCapabilitySet x_entries)
  (fields
     & field "entries" (c_vector Capability_codec))).
#[export] Typeclasses Opaque CapabilitySet_codec.
#[export] Instance CapabilitySet_codec_laws : CodecLaws CapabilitySet_codec.
Proof. solve_codec_laws. Qed.
#[export] Instance CapabilitySet_codec_exact : CodecExact CapabilitySet_codec.
Proof. solve_codec_exact. Qed.

Definition DpuProfile_codec : Codec DpuProfile := c_object "DpuProfile" (c_iso
  (fun s =>
     (tt, prof_architecture s, prof_firmware s, prof_isolation s, prof_datapath s,
     prof_vendor s, prof_model s))
  (fun '(_, x_architecture, x_firmware, x_isolation, x_datapath, x_vendor, x_model) =>
     mkDpuProfile x_architecture x_firmware x_isolation x_datapath x_vendor x_model)
  (fields
     & field "architecture" (c_enum DpuArchitecture)
     & field "firmware" FirmwareApiLevel_codec
     & field "isolation" (c_vector (c_enum IsolationKind))
     & field "datapath" (c_enum DatapathClass)
     & field "vendor" c_string
     & field "model" c_string)).
#[export] Typeclasses Opaque DpuProfile_codec.
#[export] Instance DpuProfile_codec_laws : CodecLaws DpuProfile_codec.
Proof. solve_codec_laws. Qed.
#[export] Instance DpuProfile_codec_exact : CodecExact DpuProfile_codec.
Proof. solve_codec_exact. Qed.

Definition CapabilityRequirement_codec : Codec CapabilityRequirement := c_object "CapabilityRequirement" (c_iso
  (fun s =>
     (tt, creq_key s, creq_op s, creq_value s, creq_alternatives s))
  (fun '(_, x_key, x_op, x_value, x_alternatives) =>
     mkCapabilityRequirement x_key x_op x_value x_alternatives)
  (fields
     & field "key" c_id
     & field "op" (c_enum CapabilityOp)
     & field "value" CapabilityValue_codec
     & field "alternatives" (c_vector CapabilityValue_codec))).
#[export] Typeclasses Opaque CapabilityRequirement_codec.
#[export] Instance CapabilityRequirement_codec_laws : CodecLaws CapabilityRequirement_codec.
Proof. solve_codec_laws. Qed.
#[export] Instance CapabilityRequirement_codec_exact : CodecExact CapabilityRequirement_codec.
Proof. solve_codec_exact. Qed.

Definition CompatibilityRequirement_codec : Codec CompatibilityRequirement := c_object "CompatibilityRequirement" (c_iso
  (fun s =>
     (tt, compat_architecture s, compat_min_firmware s, compat_required_isolation s,
     compat_datapath s, compat_capabilities s))
  (fun '(_, x_architecture, x_min_firmware, x_required_isolation, x_datapath, x_capabilities) =>
     mkCompatibilityRequirement x_architecture x_min_firmware x_required_isolation x_datapath
     x_capabilities)
  (fields
     & field "architecture" (c_option (c_enum DpuArchitecture))
     & field "min_firmware" (c_option FirmwareApiLevel_codec)
     & field "required_isolation" (c_vector (c_enum IsolationKind))
     & field "datapath" (c_option (c_enum DatapathClass))
     & field "capabilities" (c_vector CapabilityRequirement_codec))).
#[export] Typeclasses Opaque CompatibilityRequirement_codec.
#[export] Instance CompatibilityRequirement_codec_laws : CodecLaws CompatibilityRequirement_codec.
Proof. solve_codec_laws. Qed.
#[export] Instance CompatibilityRequirement_codec_exact : CodecExact CompatibilityRequirement_codec.
Proof. solve_codec_exact. Qed.

Definition IsolationRequirement_codec : Codec IsolationRequirement := c_object "IsolationRequirement" (c_iso
  (fun s =>
     (tt, iso_kind s, iso_exclusive_scope s))
  (fun '(_, x_kind, x_exclusive_scope) =>
     mkIsolationRequirement x_kind x_exclusive_scope)
  (fields
     & field "kind" (c_enum IsolationKind)
     & field "exclusive_scope" (c_option c_id))).
#[export] Typeclasses Opaque IsolationRequirement_codec.
#[export] Instance IsolationRequirement_codec_laws : CodecLaws IsolationRequirement_codec.
Proof. solve_codec_laws. Qed.
#[export] Instance IsolationRequirement_codec_exact : CodecExact IsolationRequirement_codec.
Proof. solve_codec_exact. Qed.

Definition ReplicaPolicy_codec : Codec ReplicaPolicy := c_object "ReplicaPolicy" (c_iso
  (fun s =>
     (tt, rp_min s, rp_preferred s, rp_max s))
  (fun '(_, x_min, x_preferred, x_max) =>
     mkReplicaPolicy x_min x_preferred x_max)
  (fields
     & field "min" c_u32
     & field "preferred" c_u32
     & field "max" c_u32)).
#[export] Typeclasses Opaque ReplicaPolicy_codec.
#[export] Instance ReplicaPolicy_codec_laws : CodecLaws ReplicaPolicy_codec.
Proof. solve_codec_laws. Qed.
#[export] Instance ReplicaPolicy_codec_exact : CodecExact ReplicaPolicy_codec.
Proof. solve_codec_exact. Qed.

Definition AntiAffinityPolicy_codec : Codec AntiAffinityPolicy := c_object "AntiAffinityPolicy" (c_iso
  (fun s =>
     (tt, aa_spread_across_dpus s, aa_max_replicas_per_dpu s, aa_max_replicas_per_domain s,
     aa_require_distinct_domains s))
  (fun '(_, x_spread_across_dpus, x_max_replicas_per_dpu, x_max_replicas_per_domain,
     x_require_distinct_domains) =>
     mkAntiAffinityPolicy x_spread_across_dpus x_max_replicas_per_dpu x_max_replicas_per_domain
     x_require_distinct_domains)
  (fields
     & field "spread_across_dpus" c_bool
     & field "max_replicas_per_dpu" c_u32
     & field "max_replicas_per_domain" (c_option c_u32)
     & field "require_distinct_domains" c_bool)).
#[export] Typeclasses Opaque AntiAffinityPolicy_codec.
#[export] Instance AntiAffinityPolicy_codec_laws : CodecLaws AntiAffinityPolicy_codec.
Proof. solve_codec_laws. Qed.
#[export] Instance AntiAffinityPolicy_codec_exact : CodecExact AntiAffinityPolicy_codec.
Proof. solve_codec_exact. Qed.

(** ** Evidence and topology *)
Definition Provenance_codec : Codec Provenance := c_object "Provenance" (c_iso
  (fun s =>
     (tt, prov_origin s, prov_origin_epoch s, prov_origin_seq s, prov_observed_at s,
     prov_wall_clock s, prov_evidence_class s, prov_source s))
  (fun '(_, x_origin, x_origin_epoch, x_origin_seq, x_observed_at, x_wall_clock, x_evidence_class,
     x_source) =>
     mkProvenance x_origin x_origin_epoch x_origin_seq x_observed_at x_wall_clock
     x_evidence_class x_source)
  (fields
     & field "origin" c_id
     & field "origin_epoch" c_counter
     & field "origin_seq" c_counter
     & field "observed_at" c_instant
     & field "wall_clock" c_wallclock
     & field "evidence_class" (c_enum EvidenceClass)
     & field "source" c_string)).
#[export] Typeclasses Opaque Provenance_codec.
#[export] Instance Provenance_codec_laws : CodecLaws Provenance_codec.
Proof. solve_codec_laws. Qed.
#[export] Instance Provenance_codec_exact : CodecExact Provenance_codec.
Proof. solve_codec_exact. Qed.

Definition EvidenceRef_codec : Codec EvidenceRef := c_object "EvidenceRef" (c_iso
  (fun s =>
     (tt, ev_id s, ev_kind s, ev_capability_generation s, ev_topology_generation s,
     ev_policy_generation s, ev_observed_at s, ev_valid_until s, ev_digest s, ev_provenance s))
  (fun '(_, x_id, x_kind, x_capability_generation, x_topology_generation, x_policy_generation,
     x_observed_at, x_valid_until, x_digest, x_provenance) =>
     mkEvidenceRef x_id x_kind x_capability_generation x_topology_generation x_policy_generation
     x_observed_at x_valid_until x_digest x_provenance)
  (fields
     & field "id" c_id
     & field "kind" (c_enum EvidenceKind)
     & field "capability_generation" c_counter
     & field "topology_generation" c_counter
     & field "policy_generation" c_counter
     & field "observed_at" c_instant
     & field "valid_until" c_instant
     & field "digest" c_digest
     & field "provenance" Provenance_codec)).
#[export] Typeclasses Opaque EvidenceRef_codec.
#[export] Instance EvidenceRef_codec_laws : CodecLaws EvidenceRef_codec.
Proof. solve_codec_laws. Qed.
#[export] Instance EvidenceRef_codec_exact : CodecExact EvidenceRef_codec.
Proof. solve_codec_exact. Qed.

Definition DpuRecord_codec : Codec DpuRecord := c_object "DpuRecord" (c_iso
  (fun s =>
     (tt, dpu_id s, dpu_attachment s, dpu_domain s, dpu_profile s, dpu_capabilities s,
     dpu_capacity s, dpu_allocated s, dpu_state s, dpu_topology_generation s,
     dpu_capability_generation s, dpu_device_evidence s, dpu_health_evidence s, dpu_health s,
     dpu_health_observed_at s, dpu_health_fresh s))
  (fun '(_, x_id, x_attachment, x_domain, x_profile, x_capabilities, x_capacity, x_allocated,
     x_state, x_topology_generation, x_capability_generation, x_device_evidence,
     x_health_evidence, x_health, x_health_observed_at, x_health_fresh) =>
     mkDpuRecord x_id x_attachment x_domain x_profile x_capabilities x_capacity x_allocated
     x_state x_topology_generation x_capability_generation x_device_evidence x_health_evidence
     x_health x_health_observed_at x_health_fresh)
  (fields
     & field "id" c_id
     & field "attachment" c_id
     & field "domain" c_id
     & field "profile" DpuProfile_codec
     & field "capabilities" CapabilitySet_codec
     & field "capacity" ResourceVector_codec
     & field "allocated" ResourceVector_codec
     & field "state" (c_enum DpuState)
     & field "topology_generation" c_counter
     & field "capability_generation" c_counter
     & field "device_evidence" EvidenceRef_codec
     & field "health_evidence" EvidenceRef_codec
     & field "health" (c_enum HealthState)
     & field "health_observed_at" c_instant
     & field "health_fresh" c_bool)).
#[export] Typeclasses Opaque DpuRecord_codec.
#[export] Instance DpuRecord_codec_laws : CodecLaws DpuRecord_codec.
Proof. solve_codec_laws. Qed.
#[export] Instance DpuRecord_codec_exact : CodecExact DpuRecord_codec.
Proof. solve_codec_exact. Qed.

Definition TopologySnapshot_codec : Codec TopologySnapshot := c_object "TopologySnapshot" (c_iso
  (fun s =>
     (tt, topo_generation s, topo_observed_at s, topo_dpus s, topo_evidence s, topo_provenance s))
  (fun '(_, x_generation, x_observed_at, x_dpus, x_evidence, x_provenance) =>
     mkTopologySnapshot x_generation x_observed_at x_dpus x_evidence x_provenance)
  (fields
     & field "generation" c_counter
     & field "observed_at" c_instant
     & field "dpus" (c_vector DpuRecord_codec)
     & field "evidence" EvidenceRef_codec
     & field "provenance" Provenance_codec)).
#[export] Typeclasses Opaque TopologySnapshot_codec.
#[export] Instance TopologySnapshot_codec_laws : CodecLaws TopologySnapshot_codec.
Proof. solve_codec_laws. Qed.
#[export] Instance TopologySnapshot_codec_exact : CodecExact TopologySnapshot_codec.
Proof. solve_codec_exact. Qed.

(** ** Services, groups, intents and policy *)
Definition ServiceDefinition_codec : Codec ServiceDefinition := c_object "ServiceDefinition" (c_iso
  (fun s =>
     (tt, svc_id s, svc_version s, svc_display_name s, svc_compatibility s, svc_resources s,
     svc_isolation s, svc_replicas s))
  (fun '(_, x_id, x_version, x_display_name, x_compatibility, x_resources, x_isolation, x_replicas) =>
     mkServiceDefinition x_id x_version x_display_name x_compatibility x_resources x_isolation
     x_replicas)
  (fields
     & field "id" c_id
     & field "version" ServiceVersion_codec
     & field "display_name" c_string
     & field "compatibility" CompatibilityRequirement_codec
     & field "resources" ResourceVector_codec
     & field "isolation" IsolationRequirement_codec
     & field "replicas" ReplicaPolicy_codec)).
#[export] Typeclasses Opaque ServiceDefinition_codec.
#[export] Instance ServiceDefinition_codec_laws : CodecLaws ServiceDefinition_codec.
Proof. solve_codec_laws. Qed.
#[export] Instance ServiceDefinition_codec_exact : CodecExact ServiceDefinition_codec.
Proof. solve_codec_exact. Qed.

Definition Dependency_codec : Codec Dependency := c_object "Dependency" (c_iso
  (fun s =>
     (tt, dep_id s, dep_from s, dep_to s, dep_kind s))
  (fun '(_, x_id, x_from, x_to, x_kind) =>
     mkDependency x_id x_from x_to x_kind)
  (fields
     & field "id" c_id
     & field "from" c_id
     & field "to" c_id
     & field "kind" (c_enum DependencyKind))).
#[export] Typeclasses Opaque Dependency_codec.
#[export] Instance Dependency_codec_laws : CodecLaws Dependency_codec.
Proof. solve_codec_laws. Qed.
#[export] Instance Dependency_codec_exact : CodecExact Dependency_codec.
Proof. solve_codec_exact. Qed.

Definition ServiceGroup_codec : Codec ServiceGroup := c_object "ServiceGroup" (c_iso
  (fun s =>
     (tt, grp_id s, grp_members s, grp_exclusive_scope s, grp_anti_affinity s))
  (fun '(_, x_id, x_members, x_exclusive_scope, x_anti_affinity) =>
     mkServiceGroup x_id x_members x_exclusive_scope x_anti_affinity)
  (fields
     & field "id" c_id
     & field "members" (c_vector c_id)
     & field "exclusive_scope" (c_option c_id)
     & field "anti_affinity" AntiAffinityPolicy_codec)).
#[export] Typeclasses Opaque ServiceGroup_codec.
#[export] Instance ServiceGroup_codec_laws : CodecLaws ServiceGroup_codec.
Proof. solve_codec_laws. Qed.
#[export] Instance ServiceGroup_codec_exact : CodecExact ServiceGroup_codec.
Proof. solve_codec_exact. Qed.

Definition ServiceReplicaIntent_codec : Codec ServiceReplicaIntent := c_object "ServiceReplicaIntent" (c_iso
  (fun s =>
     (tt, sri_service s, sri_desired_replicas s))
  (fun '(_, x_service, x_desired_replicas) =>
     mkServiceReplicaIntent x_service x_desired_replicas)
  (fields
     & field "service" c_id
     & field "desired_replicas" c_u32)).
#[export] Typeclasses Opaque ServiceReplicaIntent_codec.
#[export] Instance ServiceReplicaIntent_codec_laws : CodecLaws ServiceReplicaIntent_codec.
Proof. solve_codec_laws. Qed.
#[export] Instance ServiceReplicaIntent_codec_exact : CodecExact ServiceReplicaIntent_codec.
Proof. solve_codec_exact. Qed.

Definition StagedRolloutPolicy_codec : Codec StagedRolloutPolicy := c_object "StagedRolloutPolicy" (c_iso
  (fun s =>
     (tt, srp_batch_size s, srp_max_unavailable s, srp_verify_between_stages s))
  (fun '(_, x_batch_size, x_max_unavailable, x_verify_between_stages) =>
     mkStagedRolloutPolicy x_batch_size x_max_unavailable x_verify_between_stages)
  (fields
     & field "batch_size" c_u32
     & field "max_unavailable" c_u32
     & field "verify_between_stages" c_bool)).
#[export] Typeclasses Opaque StagedRolloutPolicy_codec.
#[export] Instance StagedRolloutPolicy_codec_laws : CodecLaws StagedRolloutPolicy_codec.
Proof. solve_codec_laws. Qed.
#[export] Instance StagedRolloutPolicy_codec_exact : CodecExact StagedRolloutPolicy_codec.
Proof. solve_codec_exact. Qed.

Definition PlacementIntent_codec : Codec PlacementIntent := c_object "PlacementIntent" (c_iso
  (fun s =>
     (tt, int_id s, int_group s, int_kind s, int_generation s, int_rollback_target s,
     int_services s, int_staging s, int_origin s, int_origin_epoch s, int_origin_seq s,
     int_submitted_at s))
  (fun '(_, x_id, x_group, x_kind, x_generation, x_rollback_target, x_services, x_staging,
     x_origin, x_origin_epoch, x_origin_seq, x_submitted_at) =>
     mkPlacementIntent x_id x_group x_kind x_generation x_rollback_target x_services x_staging
     x_origin x_origin_epoch x_origin_seq x_submitted_at)
  (fields
     & field "id" c_id
     & field "group" c_id
     & field "kind" (c_enum IntentKind)
     & field "generation" c_counter
     & field "rollback_target" (c_option c_counter)
     & field "services" (c_vector ServiceReplicaIntent_codec)
     & field "staging" StagedRolloutPolicy_codec
     & field "origin" c_id
     & field "origin_epoch" c_counter
     & field "origin_seq" c_counter
     & field "submitted_at" c_instant)).
#[export] Typeclasses Opaque PlacementIntent_codec.
#[export] Instance PlacementIntent_codec_laws : CodecLaws PlacementIntent_codec.
Proof. solve_codec_laws. Qed.
#[export] Instance PlacementIntent_codec_exact : CodecExact PlacementIntent_codec.
Proof. solve_codec_exact. Qed.

Definition PolicyState_codec : Codec PolicyState := c_object "PolicyState" (c_iso
  (fun s =>
     (tt, pol_generation s, pol_max_replicas_per_dpu_ceiling s, pol_max_instances_per_group s,
     pol_max_stage_batch s, pol_allow_synthetic_evidence s,
     pol_require_exclusive_scope_for_dedicated_device s, pol_allow_rollback_across_policy s,
     pol_evidence_validity_ticks s, pol_policy_digest s, pol_evidence s))
  (fun '(_, x_generation, x_max_replicas_per_dpu_ceiling, x_max_instances_per_group,
     x_max_stage_batch, x_allow_synthetic_evidence,
     x_require_exclusive_scope_for_dedicated_device, x_allow_rollback_across_policy,
     x_evidence_validity_ticks, x_policy_digest, x_evidence) =>
     mkPolicyState x_generation x_max_replicas_per_dpu_ceiling x_max_instances_per_group
     x_max_stage_batch x_allow_synthetic_evidence x_require_exclusive_scope_for_dedicated_device
     x_allow_rollback_across_policy x_evidence_validity_ticks x_policy_digest x_evidence)
  (fields
     & field "generation" c_counter
     & field "max_replicas_per_dpu_ceiling" c_u32
     & field "max_instances_per_group" c_u32
     & field "max_stage_batch" c_u32
     & field "allow_synthetic_evidence" c_bool
     & field "require_exclusive_scope_for_dedicated_device" c_bool
     & field "allow_rollback_across_policy" c_bool
     & field "evidence_validity_ticks" c_u64
     & field "policy_digest" c_digest
     & field "evidence" EvidenceRef_codec)).
#[export] Typeclasses Opaque PolicyState_codec.
#[export] Instance PolicyState_codec_laws : CodecLaws PolicyState_codec.
Proof. solve_codec_laws. Qed.
#[export] Instance PolicyState_codec_exact : CodecExact PolicyState_codec.
Proof. solve_codec_exact. Qed.

(** ** Attempts, decisions and instances *)
Definition FenceToken_codec : Codec FenceToken := c_object "FenceToken" (c_iso
  (fun s =>
     (tt, ft_epoch s, ft_boot s, ft_serial s))
  (fun '(_, x_epoch, x_boot, x_serial) =>
     mkFenceToken x_epoch x_boot x_serial)
  (fields
     & field "epoch" c_counter
     & field "boot" c_counter
     & field "serial" c_u64)).
#[export] Typeclasses Opaque FenceToken_codec.
#[export] Instance FenceToken_codec_laws : CodecLaws FenceToken_codec.
Proof. solve_codec_laws. Qed.
#[export] Instance FenceToken_codec_exact : CodecExact FenceToken_codec.
Proof. solve_codec_exact. Qed.

Definition AttemptRecord_codec : Codec AttemptRecord := c_object "AttemptRecord" (c_iso
  (fun s =>
     (tt, att_number s, att_fence s, att_phase s, att_outcome s, att_opened_at s,
     att_closed_at s, att_request_digest s, att_close_reason s))
  (fun '(_, x_number, x_fence, x_phase, x_outcome, x_opened_at, x_closed_at, x_request_digest,
     x_close_reason) =>
     mkAttemptRecord x_number x_fence x_phase x_outcome x_opened_at x_closed_at x_request_digest
     x_close_reason)
  (fields
     & field "number" c_counter
     & field "fence" FenceToken_codec
     & field "phase" (c_enum LifecycleState)
     & field "outcome" (c_enum AttemptOutcome)
     & field "opened_at" c_instant
     & field "closed_at" c_instant
     & field "request_digest" c_digest
     & field "close_reason" (c_enum ReasonCode))).
#[export] Typeclasses Opaque AttemptRecord_codec.
#[export] Instance AttemptRecord_codec_laws : CodecLaws AttemptRecord_codec.
Proof. solve_codec_laws. Qed.
#[export] Instance AttemptRecord_codec_exact : CodecExact AttemptRecord_codec.
Proof. solve_codec_exact. Qed.

Definition Explanation_codec : Codec Explanation := c_object "Explanation" (c_iso
  (fun s =>
     (tt, ex_code s, ex_kind s, ex_subject s, ex_note s, ex_evidence_digest s, ex_topology s,
     ex_capability s, ex_policy s, ex_deployment s))
  (fun '(_, x_code, x_kind, x_subject, x_note, x_evidence_digest, x_topology, x_capability,
     x_policy, x_deployment) =>
     mkExplanation x_code x_kind x_subject x_note x_evidence_digest x_topology x_capability
     x_policy x_deployment)
  (fields
     & field "code" (c_enum ReasonCode)
     & field "kind" (c_enum DecisionKind)
     & field "subject" c_string
     & field "note" c_string
     & field "evidence_digest" c_digest
     & field "topology" c_counter
     & field "capability" c_counter
     & field "policy" c_counter
     & field "deployment" c_counter)).
#[export] Typeclasses Opaque Explanation_codec.
#[export] Instance Explanation_codec_laws : CodecLaws Explanation_codec.
Proof. solve_codec_laws. Qed.
#[export] Instance Explanation_codec_exact : CodecExact Explanation_codec.
Proof. solve_codec_exact. Qed.

Definition FabricDecision_codec : Codec FabricDecision := c_object "Decision" (c_iso
  (fun s =>
     (tt, dec_operation s, dec_kind s, dec_accepted s, dec_primary s, dec_at s, dec_epoch s,
     dec_boot s, dec_topology s, dec_capability s, dec_policy s, dec_deployment s,
     dec_evidence_digest s, dec_policy_digest s, dec_decision_digest s, dec_explanations s,
     dec_truncations s))
  (fun '(_, x_operation, x_kind, x_accepted, x_primary, x_at, x_epoch, x_boot, x_topology,
     x_capability, x_policy, x_deployment, x_evidence_digest, x_policy_digest,
     x_decision_digest, x_explanations, x_truncations) =>
     mkFabricDecision x_operation x_kind x_accepted x_primary x_at x_epoch x_boot x_topology
     x_capability x_policy x_deployment x_evidence_digest x_policy_digest x_decision_digest
     x_explanations x_truncations)
  (fields
     & field "operation" c_id
     & field "kind" (c_enum DecisionKind)
     & field "accepted" c_bool
     & field "primary" (c_enum ReasonCode)
     & field "at" c_instant
     & field "epoch" c_counter
     & field "boot" c_counter
     & field "topology" c_counter
     & field "capability" c_counter
     & field "policy" c_counter
     & field "deployment" c_counter
     & field "evidence_digest" c_digest
     & field "policy_digest" c_digest
     & field "decision_digest" c_digest
     & field "explanations" (c_vector Explanation_codec)
     & field "truncations" (c_vector TruncationRecord_codec))).
#[export] Typeclasses Opaque FabricDecision_codec.
#[export] Instance FabricDecision_codec_laws : CodecLaws FabricDecision_codec.
Proof. solve_codec_laws. Qed.
#[export] Instance FabricDecision_codec_exact : CodecExact FabricDecision_codec.
Proof. solve_codec_exact. Qed.

Definition InstanceState_codec : Codec InstanceState := c_object "InstanceState" (c_iso
  (fun s =>
     (tt, inst_id s, inst_service s, inst_group s, inst_version s, inst_index s,
     inst_incarnation s, inst_dpu s, inst_attachment s, inst_domain s,
     inst_deployment_generation s, inst_state s, inst_health s, inst_health_fresh s,
     inst_health_observed_at s, inst_topology_generation s, inst_capability_generation s,
     inst_attempts s, inst_verified_digest s, inst_verified_at s, inst_verified_evidence s,
     inst_effect_fence_serial s, inst_effect_fenced_at s, inst_fence_reason s, inst_reasons s))
  (fun '(_, x_id, x_service, x_group, x_version, x_index, x_incarnation, x_dpu, x_attachment,
     x_domain, x_deployment_generation, x_state, x_health, x_health_fresh, x_health_observed_at,
     x_topology_generation, x_capability_generation, x_attempts, x_verified_digest,
     x_verified_at, x_verified_evidence, x_effect_fence_serial, x_effect_fenced_at,
     x_fence_reason, x_reasons) =>
     mkInstanceState x_id x_service x_group x_version x_index x_incarnation x_dpu x_attachment
     x_domain x_deployment_generation x_state x_health x_health_fresh x_health_observed_at
     x_topology_generation x_capability_generation x_attempts x_verified_digest x_verified_at
     x_verified_evidence x_effect_fence_serial x_effect_fenced_at x_fence_reason x_reasons)
  (fields
     & field "id" c_id
     & field "service" c_id
     & field "group" c_id
     & field "version" ServiceVersion_codec
     & field "index" c_counter
     & field "incarnation" c_counter
     & field "dpu" c_id
     & field "attachment" c_id
     & field "domain" c_id
     & field "deployment_generation" c_counter
     & field "state" (c_enum LifecycleState)
     & field "health" (c_enum HealthState)
     & field "health_fresh" c_bool
     & field "health_observed_at" c_instant
     & field "topology_generation" c_counter
     & field "capability_generation" c_counter
     & field "attempts" (c_vector AttemptRecord_codec)
     & field "verified_digest" c_digest
     & field "verified_at" c_instant
     & field "verified_evidence" EvidenceRef_codec
     & field "effect_fence_serial" c_u64
     & field "effect_fenced_at" c_instant
     & field "fence_reason" (c_enum ReasonCode)
     & field "reasons" (c_vector Explanation_codec))).
#[export] Typeclasses Opaque InstanceState_codec.
#[export] Instance InstanceState_codec_laws : CodecLaws InstanceState_codec.
Proof. solve_codec_laws. Qed.
#[export] Instance InstanceState_codec_exact : CodecExact InstanceState_codec.
Proof. solve_codec_exact. Qed.

Definition EffectReport_codec : Codec EffectReport := c_object "EffectReport" (c_iso
  (fun s =>
     (tt, er_operation s, er_instance s, er_attempt s, er_fence s, er_kind s, er_status s,
     er_reported_at s, er_evidence s, er_payload_digest s, er_effect_digest s, er_partial s))
  (fun '(_, x_operation, x_instance, x_attempt, x_fence, x_kind, x_status, x_reported_at,
     x_evidence, x_payload_digest, x_effect_digest, x_partial) =>
     mkEffectReport x_operation x_instance x_attempt x_fence x_kind x_status x_reported_at
     x_evidence x_payload_digest x_effect_digest x_partial)
  (fields
     & field "operation" c_id
     & field "instance" c_id
     & field "attempt" c_counter
     & field "fence" FenceToken_codec
     & field "kind" (c_enum EffectKind)
     & field "status" (c_enum EffectStatus)
     & field "reported_at" c_instant
     & field "evidence" EvidenceRef_codec
     & field "payload_digest" c_digest
     & field "effect_digest" c_digest
     & field "partial" c_bool)).
#[export] Typeclasses Opaque EffectReport_codec.
#[export] Instance EffectReport_codec_laws : CodecLaws EffectReport_codec.
Proof. solve_codec_laws. Qed.
#[export] Instance EffectReport_codec_exact : CodecExact EffectReport_codec.
Proof. solve_codec_exact. Qed.

(** ** Plans *)
Definition PlannedReplica_codec : Codec PlannedReplica := c_object "PlannedReplica" (c_iso
  (fun s =>
     (tt, pr_index s, pr_dpu s, pr_attachment s, pr_domain s, pr_score s,
     pr_eligibility_digest s))
  (fun '(_, x_index, x_dpu, x_attachment, x_domain, x_score, x_eligibility_digest) =>
     mkPlannedReplica x_index x_dpu x_attachment x_domain x_score x_eligibility_digest)
  (fields
     & field "index" c_counter
     & field "dpu" c_id
     & field "attachment" c_id
     & field "domain" c_id
     & field "score" c_u64
     & field "eligibility_digest" c_digest)).
#[export] Typeclasses Opaque PlannedReplica_codec.
#[export] Instance PlannedReplica_codec_laws : CodecLaws PlannedReplica_codec.
Proof. solve_codec_laws. Qed.
#[export] Instance PlannedReplica_codec_exact : CodecExact PlannedReplica_codec.
Proof. solve_codec_exact. Qed.

Definition ServicePlan_codec : Codec ServicePlan := c_object "ServicePlan" (c_iso
  (fun s =>
     (tt, sp_service s, sp_version s, sp_desired_replicas s, sp_placed_replicas s, sp_replicas s))
  (fun '(_, x_service, x_version, x_desired_replicas, x_placed_replicas, x_replicas) =>
     mkServicePlan x_service x_version x_desired_replicas x_placed_replicas x_replicas)
  (fields
     & field "service" c_id
     & field "version" ServiceVersion_codec
     & field "desired_replicas" c_u32
     & field "placed_replicas" c_u32
     & field "replicas" (c_vector PlannedReplica_codec))).
#[export] Typeclasses Opaque ServicePlan_codec.
#[export] Instance ServicePlan_codec_laws : CodecLaws ServicePlan_codec.
Proof. solve_codec_laws. Qed.
#[export] Instance ServicePlan_codec_exact : CodecExact ServicePlan_codec.
Proof. solve_codec_exact. Qed.

Definition PlanStage_codec : Codec PlanStage := c_object "PlanStage" (c_iso
  (fun s =>
     (tt, stage_index s, stage_instances s, stage_max_unavailable s))
  (fun '(_, x_index, x_instances, x_max_unavailable) =>
     mkPlanStage x_index x_instances x_max_unavailable)
  (fields
     & field "index" c_u32
     & field "instances" (c_vector c_id)
     & field "max_unavailable" c_u32)).
#[export] Typeclasses Opaque PlanStage_codec.
#[export] Instance PlanStage_codec_laws : CodecLaws PlanStage_codec.
Proof. solve_codec_laws. Qed.
#[export] Instance PlanStage_codec_exact : CodecExact PlanStage_codec.
Proof. solve_codec_exact. Qed.

Definition DeploymentPlan_codec : Codec DeploymentPlan := c_object "DeploymentPlan" (c_iso
  (fun s =>
     (tt, plan_generation s, plan_group s, plan_kind s, plan_rollback_target s, plan_services s,
     plan_stages s, plan_outcome s, plan_topology s, plan_capability s, plan_policy s,
     plan_epoch s, plan_boot s, plan_created_at s, plan_explanations s))
  (fun '(_, x_generation, x_group, x_kind, x_rollback_target, x_services, x_stages, x_outcome,
     x_topology, x_capability, x_policy, x_epoch, x_boot, x_created_at, x_explanations) =>
     mkDeploymentPlan "" x_generation x_group x_kind x_rollback_target x_services x_stages
     x_outcome x_topology x_capability x_policy x_epoch x_boot x_created_at Digest_zero
     x_explanations)
  (fields
     & field "generation" c_counter
     & field "group" c_id
     & field "kind" (c_enum IntentKind)
     & field "rollback_target" (c_option c_counter)
     & field "services" (c_vector ServicePlan_codec)
     & field "stages" (c_vector PlanStage_codec)
     & field "outcome" (c_enum ReasonCode)
     & field "topology" c_counter
     & field "capability" c_counter
     & field "policy" c_counter
     & field "epoch" c_counter
     & field "boot" c_counter
     & field "created_at" c_instant
     & field "explanations" (c_vector Explanation_codec))).
#[export] Typeclasses Opaque DeploymentPlan_codec.
#[export] Instance DeploymentPlan_codec_laws : CodecLaws DeploymentPlan_codec.
Proof. solve_codec_laws. Qed.

Definition PlanOutcome_codec : Codec PlanOutcome := c_object "PlanOutcome" (c_iso
  (fun s =>
     (tt, po_feasible s, po_primary s, po_plan s, po_explanations s, po_truncations s))
  (fun '(_, x_feasible, x_primary, x_plan, x_explanations, x_truncations) =>
     mkPlanOutcome x_feasible x_primary x_plan x_explanations x_truncations)
  (fields
     & field "feasible" c_bool
     & field "primary" (c_enum ReasonCode)
     & field "plan" DeploymentPlan_codec
     & field "explanations" (c_vector Explanation_codec)
     & field "truncations" (c_vector TruncationRecord_codec))).
#[export] Typeclasses Opaque PlanOutcome_codec.
#[export] Instance PlanOutcome_codec_laws : CodecLaws PlanOutcome_codec.
Proof. solve_codec_laws. Qed.

(** ** Events *)
Definition TopologyObserved_codec : Codec TopologyObserved := c_object "TopologyObserved" (c_iso
  (fun s =>
     (tt, tobs_snapshot s))
  (fun '(_, x_snapshot) =>
     mkTopologyObserved x_snapshot)
  (fields
     & field "snapshot" TopologySnapshot_codec)).
#[export] Typeclasses Opaque TopologyObserved_codec.
#[export] Instance TopologyObserved_codec_laws : CodecLaws TopologyObserved_codec.
Proof. solve_codec_laws. Qed.
#[export] Instance TopologyObserved_codec_exact : CodecExact TopologyObserved_codec.
Proof. solve_codec_exact. Qed.

Definition CapabilityObserved_codec : Codec CapabilityObserved := c_object "CapabilityObserved" (c_iso
  (fun s =>
     (tt, cobs_dpu s, cobs_capabilities s, cobs_generation s, cobs_topology s, cobs_evidence s))
  (fun '(_, x_dpu, x_capabilities, x_generation, x_topology, x_evidence) =>
     mkCapabilityObserved x_dpu x_capabilities x_generation x_topology x_evidence)
  (fields
     & field "dpu" c_id
     & field "capabilities" CapabilitySet_codec
     & field "generation" c_counter
     & field "topology" c_counter
     & field "evidence" EvidenceRef_codec)).
#[export] Typeclasses Opaque CapabilityObserved_codec.
#[export] Instance CapabilityObserved_codec_laws : CodecLaws CapabilityObserved_codec.
Proof. solve_codec_laws. Qed.
#[export] Instance CapabilityObserved_codec_exact : CodecExact CapabilityObserved_codec.
Proof. solve_codec_exact. Qed.

Definition HealthObserved_codec : Codec HealthObserved := c_object "HealthObserved" (c_iso
  (fun s =>
     (tt, hobs_dpu s, hobs_health s, hobs_evidence s))
  (fun '(_, x_dpu, x_health, x_evidence) =>
     mkHealthObserved x_dpu x_health x_evidence)
  (fields
     & field "dpu" c_id
     & field "health" (c_enum HealthState)
     & field "evidence" EvidenceRef_codec)).
#[export] Typeclasses Opaque HealthObserved_codec.
#[export] Instance HealthObserved_codec_laws : CodecLaws HealthObserved_codec.
Proof. solve_codec_laws. Qed.
#[export] Instance HealthObserved_codec_exact : CodecExact HealthObserved_codec.
Proof. solve_codec_exact. Qed.

Definition PolicyAdvanced_codec : Codec PolicyAdvanced := c_object "PolicyAdvanced" (c_iso
  (fun s =>
     (tt, padv_policy s))
  (fun '(_, x_policy) =>
     mkPolicyAdvanced x_policy)
  (fields
     & field "policy" PolicyState_codec)).
#[export] Typeclasses Opaque PolicyAdvanced_codec.
#[export] Instance PolicyAdvanced_codec_laws : CodecLaws PolicyAdvanced_codec.
Proof. solve_codec_laws. Qed.
#[export] Instance PolicyAdvanced_codec_exact : CodecExact PolicyAdvanced_codec.
Proof. solve_codec_exact. Qed.

Definition DpuAttached_codec : Codec DpuAttached := c_object "DpuAttached" (c_iso
  (fun s =>
     (tt, datt_dpu s, datt_attachment s, datt_domain s, datt_topology s, datt_evidence s))
  (fun '(_, x_dpu, x_attachment, x_domain, x_topology, x_evidence) =>
     mkDpuAttached x_dpu x_attachment x_domain x_topology x_evidence)
  (fields
     & field "dpu" c_id
     & field "attachment" c_id
     & field "domain" c_id
     & field "topology" c_counter
     & field "evidence" EvidenceRef_codec)).
#[export] Typeclasses Opaque DpuAttached_codec.
#[export] Instance DpuAttached_codec_laws : CodecLaws DpuAttached_codec.
Proof. solve_codec_laws. Qed.
#[export] Instance DpuAttached_codec_exact : CodecExact DpuAttached_codec.
Proof. solve_codec_exact. Qed.

Definition DpuLost_codec : Codec DpuLost := c_object "DpuLost" (c_iso
  (fun s =>
     (tt, dlost_dpu s, dlost_topology s, dlost_evidence s))
  (fun '(_, x_dpu, x_topology, x_evidence) =>
     mkDpuLost x_dpu x_topology x_evidence)
  (fields
     & field "dpu" c_id
     & field "topology" c_counter
     & field "evidence" EvidenceRef_codec)).
#[export] Typeclasses Opaque DpuLost_codec.
#[export] Instance DpuLost_codec_laws : CodecLaws DpuLost_codec.
Proof. solve_codec_laws. Qed.
#[export] Instance DpuLost_codec_exact : CodecExact DpuLost_codec.
Proof. solve_codec_exact. Qed.

Definition ServiceDeclared_codec : Codec ServiceDeclared := c_object "ServiceDeclared" (c_iso
  (fun s =>
     (tt, sdecl_service s))
  (fun '(_, x_service) =>
     mkServiceDeclared x_service)
  (fields
     & field "service" ServiceDefinition_codec)).
#[export] Typeclasses Opaque ServiceDeclared_codec.
#[export] Instance ServiceDeclared_codec_laws : CodecLaws ServiceDeclared_codec.
Proof. solve_codec_laws. Qed.
#[export] Instance ServiceDeclared_codec_exact : CodecExact ServiceDeclared_codec.
Proof. solve_codec_exact. Qed.

Definition GroupDeclared_codec : Codec GroupDeclared := c_object "GroupDeclared" (c_iso
  (fun s =>
     (tt, gdecl_group s))
  (fun '(_, x_group) =>
     mkGroupDeclared x_group)
  (fields
     & field "group" ServiceGroup_codec)).
#[export] Typeclasses Opaque GroupDeclared_codec.
#[export] Instance GroupDeclared_codec_laws : CodecLaws GroupDeclared_codec.
Proof. solve_codec_laws. Qed.
#[export] Instance GroupDeclared_codec_exact : CodecExact GroupDeclared_codec.
Proof. solve_codec_exact. Qed.

Definition DependencyDeclared_codec : Codec DependencyDeclared := c_object "DependencyDeclared" (c_iso
  (fun s =>
     (tt, ddecl_dependency s))
  (fun '(_, x_dependency) =>
     mkDependencyDeclared x_dependency)
  (fields
     & field "dependency" Dependency_codec)).
#[export] Typeclasses Opaque DependencyDeclared_codec.
#[export] Instance DependencyDeclared_codec_laws : CodecLaws DependencyDeclared_codec.
Proof. solve_codec_laws. Qed.
#[export] Instance DependencyDeclared_codec_exact : CodecExact DependencyDeclared_codec.
Proof. solve_codec_exact. Qed.

Definition IntentSubmitted_codec : Codec IntentSubmitted := c_object "IntentSubmitted" (c_iso
  (fun s =>
     (tt, isub_intent s))
  (fun '(_, x_intent) =>
     mkIntentSubmitted x_intent)
  (fields
     & field "intent" PlacementIntent_codec)).
#[export] Typeclasses Opaque IntentSubmitted_codec.
#[export] Instance IntentSubmitted_codec_laws : CodecLaws IntentSubmitted_codec.
Proof. solve_codec_laws. Qed.
#[export] Instance IntentSubmitted_codec_exact : CodecExact IntentSubmitted_codec.
Proof. solve_codec_exact. Qed.

Definition ExecutionAcknowledged_codec : Codec ExecutionAcknowledged := c_object "ExecutionAcknowledged" (c_iso
  (fun s =>
     (tt, eack_instance s, eack_attempt s, eack_fence s, eack_acknowledged_at s))
  (fun '(_, x_instance, x_attempt, x_fence, x_acknowledged_at) =>
     mkExecutionAcknowledged x_instance x_attempt x_fence x_acknowledged_at)
  (fields
     & field "instance" c_id
     & field "attempt" c_counter
     & field "fence" FenceToken_codec
     & field "acknowledged_at" c_instant)).
#[export] Typeclasses Opaque ExecutionAcknowledged_codec.
#[export] Instance ExecutionAcknowledged_codec_laws : CodecLaws ExecutionAcknowledged_codec.
Proof. solve_codec_laws. Qed.
#[export] Instance ExecutionAcknowledged_codec_exact : CodecExact ExecutionAcknowledged_codec.
Proof. solve_codec_exact. Qed.

Definition EffectReported_codec : Codec EffectReported := c_object "EffectReported" (c_iso
  (fun s =>
     (tt, erep_report s))
  (fun '(_, x_report) =>
     mkEffectReported x_report)
  (fields
     & field "report" EffectReport_codec)).
#[export] Typeclasses Opaque EffectReported_codec.
#[export] Instance EffectReported_codec_laws : CodecLaws EffectReported_codec.
Proof. solve_codec_laws. Qed.
#[export] Instance EffectReported_codec_exact : CodecExact EffectReported_codec.
Proof. solve_codec_exact. Qed.

Definition CoordinatorAdvanced_codec : Codec CoordinatorAdvanced := c_object "CoordinatorAdvanced" (c_iso
  (fun s =>
     (tt, cadv_epoch s, cadv_coordinator s))
  (fun '(_, x_epoch, x_coordinator) =>
     mkCoordinatorAdvanced x_epoch x_coordinator)
  (fields
     & field "epoch" c_counter
     & field "coordinator" c_id)).
#[export] Typeclasses Opaque CoordinatorAdvanced_codec.
#[export] Instance CoordinatorAdvanced_codec_laws : CodecLaws CoordinatorAdvanced_codec.
Proof. solve_codec_laws. Qed.
#[export] Instance CoordinatorAdvanced_codec_exact : CodecExact CoordinatorAdvanced_codec.
Proof. solve_codec_exact. Qed.

Definition LogicalTimeAdvanced_codec : Codec LogicalTimeAdvanced := c_object "LogicalTimeAdvanced" (c_iso
  (fun s =>
     (tt, ladv_now s))
  (fun '(_, x_now) =>
     mkLogicalTimeAdvanced x_now)
  (fields
     & field "now" c_instant)).
#[export] Typeclasses Opaque LogicalTimeAdvanced_codec.
#[export] Instance LogicalTimeAdvanced_codec_laws : CodecLaws LogicalTimeAdvanced_codec.
Proof. solve_codec_laws. Qed.
#[export] Instance LogicalTimeAdvanced_codec_exact : CodecExact LogicalTimeAdvanced_codec.
Proof. solve_codec_exact. Qed.

Definition QuiesceRequested_codec : Codec QuiesceRequested := c_object "QuiesceRequested" (c_iso
  (fun s =>
     (tt, qreq_service s))
  (fun '(_, x_service) =>
     mkQuiesceRequested x_service)
  (fields
     & field "service" c_id)).
#[export] Typeclasses Opaque QuiesceRequested_codec.
#[export] Instance QuiesceRequested_codec_laws : CodecLaws QuiesceRequested_codec.
Proof. solve_codec_laws. Qed.
#[export] Instance QuiesceRequested_codec_exact : CodecExact QuiesceRequested_codec.
Proof. solve_codec_exact. Qed.

(** The variant: [index()] is the position of the active alternative. *)
Definition body_index (body : FabricEventBody) : nat :=
  match body with
  | Body_TopologyObserved _ => 0
  | Body_CapabilityObserved _ => 1
  | Body_HealthObserved _ => 2
  | Body_PolicyAdvanced _ => 3
  | Body_DpuAttached _ => 4
  | Body_DpuLost _ => 5
  | Body_ServiceDeclared _ => 6
  | Body_GroupDeclared _ => 7
  | Body_DependencyDeclared _ => 8
  | Body_IntentSubmitted _ => 9
  | Body_ExecutionAcknowledged _ => 10
  | Body_EffectReported _ => 11
  | Body_CoordinatorAdvanced _ => 12
  | Body_LogicalTimeAdvanced _ => 13
  | Body_QuiesceRequested _ => 14
  end%nat.
Definition body_alternatives : list (Codec FabricEventBody) := [
  c_alternative Body_TopologyObserved
    (fun v => match v with Body_TopologyObserved x => Some x | _ => None end) TopologyObserved_codec;
  c_alternative Body_CapabilityObserved
    (fun v => match v with Body_CapabilityObserved x => Some x | _ => None end) CapabilityObserved_codec;
  c_alternative Body_HealthObserved
    (fun v => match v with Body_HealthObserved x => Some x | _ => None end) HealthObserved_codec;
  c_alternative Body_PolicyAdvanced
    (fun v => match v with Body_PolicyAdvanced x => Some x | _ => None end) PolicyAdvanced_codec;
  c_alternative Body_DpuAttached
    (fun v => match v with Body_DpuAttached x => Some x | _ => None end) DpuAttached_codec;
  c_alternative Body_DpuLost
    (fun v => match v with Body_DpuLost x => Some x | _ => None end) DpuLost_codec;
  c_alternative Body_ServiceDeclared
    (fun v => match v with Body_ServiceDeclared x => Some x | _ => None end) ServiceDeclared_codec;
  c_alternative Body_GroupDeclared
    (fun v => match v with Body_GroupDeclared x => Some x | _ => None end) GroupDeclared_codec;
  c_alternative Body_DependencyDeclared
    (fun v => match v with Body_DependencyDeclared x => Some x | _ => None end) DependencyDeclared_codec;
  c_alternative Body_IntentSubmitted
    (fun v => match v with Body_IntentSubmitted x => Some x | _ => None end) IntentSubmitted_codec;
  c_alternative Body_ExecutionAcknowledged
    (fun v => match v with Body_ExecutionAcknowledged x => Some x | _ => None end) ExecutionAcknowledged_codec;
  c_alternative Body_EffectReported
    (fun v => match v with Body_EffectReported x => Some x | _ => None end) EffectReported_codec;
  c_alternative Body_CoordinatorAdvanced
    (fun v => match v with Body_CoordinatorAdvanced x => Some x | _ => None end) CoordinatorAdvanced_codec;
  c_alternative Body_LogicalTimeAdvanced
    (fun v => match v with Body_LogicalTimeAdvanced x => Some x | _ => None end) LogicalTimeAdvanced_codec;
  c_alternative Body_QuiesceRequested
    (fun v => match v with Body_QuiesceRequested x => Some x | _ => None end) QuiesceRequested_codec].
Definition FabricEventBody_codec : Codec FabricEventBody :=
  c_variant body_index body_alternatives.
#[export] Typeclasses Opaque FabricEventBody_codec.
Lemma body_alternatives_indexed : indexed body_index body_alternatives.
Proof.
  intros i c Hc. unfold body_alternatives in Hc.
  repeat (destruct i as [|i];
    [injection Hc as <-; split_and!;
       [apply c_alternative_laws; [done|by intros [] ? [= ->]|typeclasses eauto]
       |by intros max []|by intros max []]|]).
  done.
Qed.
#[export] Instance FabricEventBody_codec_laws : CodecLaws FabricEventBody_codec.
Proof. apply c_variant_laws, body_alternatives_indexed. Qed.
#[export] Instance FabricEventBody_codec_exact : CodecExact FabricEventBody_codec.
Proof.
  intros []; cbn [c_norm FabricEventBody_codec c_variant body_index body_alternatives lookup
    list_lookup c_alternative]; by rewrite codec_exact.
Qed.
Definition FabricEvent_codec : Codec FabricEvent := c_object "FabricEvent" (c_iso
  (fun s =>
     (tt, fe_id s, fe_origin s, fe_origin_epoch s, fe_origin_seq s, fe_at s, fe_wall_clock s,
     fe_evidence_class s, fe_body s))
  (fun '(_, x_id, x_origin, x_origin_epoch, x_origin_seq, x_at, x_wall_clock, x_evidence_class,
     x_body) =>
     mkFabricEvent x_id x_origin x_origin_epoch x_origin_seq x_at x_wall_clock x_evidence_class
     Digest_zero x_body)
  (fields
     & field "id" c_id
     & field "origin" c_id
     & field "origin_epoch" c_counter
     & field "origin_seq" c_counter
     & field "at" c_instant
     & field "wall_clock" c_wallclock
     & field "evidence_class" (c_enum EvidenceClass)
     & field "body" FabricEventBody_codec)).
#[export] Typeclasses Opaque FabricEvent_codec.
#[export] Instance FabricEvent_codec_laws : CodecLaws FabricEvent_codec.
Proof. solve_codec_laws. Qed.

(** ** Digests of plans and events *)

(** [DeploymentPlan::seal] *)
Definition plan_seal (p : DeploymentPlan) : DeploymentPlan :=
  let body := canonical_digest DeploymentPlan_codec p in
  p <| plan_digest := body |>
    <| plan_id := "plan-" +:+ String.substring 0 32 (digest_hex body) |>.

(** [FabricEvent::compute_payload_digest] *)
Definition compute_payload_digest (e : FabricEvent) : Digest :=
  canonical_digest FabricEventBody_codec (fe_body e).

Record EventIdentity := mkEventIdentity {
  eid_id : EventId;
  eid_origin : OriginId;
  eid_origin_epoch : OriginEpoch;
  eid_origin_seq : Sequence;
  eid_at : LogicalInstant;
  eid_payload : Digest
}.
Definition EventIdentity_codec : Codec EventIdentity := c_object "EventIdentity" (c_iso
  (fun s =>
     (tt, eid_id s, eid_origin s, eid_origin_epoch s, eid_origin_seq s, eid_at s, eid_payload s))
  (fun '(_, x_id, x_origin, x_origin_epoch, x_origin_seq, x_at, x_payload) =>
     mkEventIdentity x_id x_origin x_origin_epoch x_origin_seq x_at x_payload)
  (fields
     & field "id" c_id
     & field "origin" c_id
     & field "origin_epoch" c_counter
     & field "origin_seq" c_counter
     & field "at" c_instant
     & field "payload" c_digest)).
#[export] Typeclasses Opaque EventIdentity_codec.
#[export] Instance EventIdentity_codec_laws : CodecLaws EventIdentity_codec.
Proof. solve_codec_laws. Qed.
#[export] Instance EventIdentity_codec_exact : CodecExact EventIdentity_codec.
Proof. solve_codec_exact. Qed.

(** [event_digest] *)
Definition event_digest (e : FabricEvent) : Digest :=
  canonical_digest EventIdentity_codec
    (mkEventIdentity (fe_id e) (fe_origin e) (fe_origin_epoch e) (fe_origin_seq e) (fe_at e)
       (compute_payload_digest e)).

(** ** Round trips *)
Definition drop_payload_digest (e : FabricEvent) : FabricEvent :=
  e <| fe_payload_digest := Digest_zero |>.
Definition drop_seal (p : DeploymentPlan) : DeploymentPlan :=
  p <| plan_id := "" |> <| plan_digest := Digest_zero |>.

Lemma FabricEvent_codec_norm e : c_norm FabricEvent_codec e = drop_payload_digest e.
Proof.
  cbn [FabricEvent_codec c_object c_iso c_norm c_field fst snd].
  rewrite !codec_exact. by destruct e.
Qed.

Lemma DeploymentPlan_codec_norm p : c_norm DeploymentPlan_codec p = drop_seal p.
Proof.
  cbn [DeploymentPlan_codec c_object c_iso c_norm c_field fst snd].
  rewrite !codec_exact. by destruct p.
Qed.

(** C23. An event inside the reader's bounds survives the archive up to its
    [payload_digest], which no [visit] carries; conversely every byte string the
    reader accepts is the canonical encoding of the event it returns, so no event
    has two encodings and no two encodings decode to the same event. *)
Theorem event_archive_roundtrip max e :
  c_ok FabricEvent_codec max e = true ->
  decode_binary FabricEvent_codec (encode_binary FabricEvent_codec e) max =
    Value (drop_payload_digest e) /\
  forall data e', Forall is_byte data ->
    decode_binary FabricEvent_codec data max = Value e' ->
    encode_binary FabricEvent_codec e' = data.
Proof.
  intros He. split.
  - by rewrite (decode_encode FabricEvent_codec max e He), FabricEvent_codec_norm.
  - intros data e' Hd Hdec.
    by destruct (encode_decode FabricEvent_codec max data e' Hd Hdec) as (? & _ & _).
Qed.

(** A concrete event: a device observed healthy. *)
Definition sample_event : FabricEvent :=
  FabricEvent_default
    <| fe_id := "ev-1" |> <| fe_origin := "probe" |> <| fe_origin_epoch := 1 |>
    <| fe_origin_seq := 7 |> <| fe_at := 12 |> <| fe_wall_clock := 1700000000000 |>
    <| fe_evidence_class := EvidenceClass.Unknown |>
    <| fe_body := Body_HealthObserved (HealthObserved_default
         <| hobs_dpu := "dpu-1" |> <| hobs_health := HealthState.Healthy |>) |>.

Lemma event_archive_roundtrip_witness :
  decode_binary FabricEvent_codec (encode_binary FabricEvent_codec sample_event)
    kMaxDecodedSequence = Value (drop_payload_digest sample_event) /\
  forall data e', Forall is_byte data ->
    decode_binary FabricEvent_codec data kMaxDecodedSequence = Value e' ->
    encode_binary FabricEvent_codec e' = data.
Proof. apply (event_archive_roundtrip kMaxDecodedSequence sample_event). vm_compute. reflexivity. Defined.

Lemma c_wallclock_negative max ms :
  i64_min <= ms < 0 ->
  codec_fails c_wallclock max ms
    (refuse ReasonCode.ValueOutOfRange "signed integer field out of range").
Proof.
  intros Hms. apply object_fails; [by cbn|].
  apply iso_fails, field_fails; [typeclasses eauto|done|by apply c_i64_negative].
Qed.

(** A negative wall clock is written and cannot be read back: the writer sends
    the two's complement and the reader refuses every pattern above [INT64_MAX].
    One such event in the journal therefore stops the store from decoding. *)
Theorem negative_wall_clock_undecodable e ms max :
  i64_min <= ms < 0 -> c_ok FabricEvent_codec max (e <| fe_wall_clock := 0 |>) = true ->
  decode_binary FabricEvent_codec (encode_binary FabricEvent_codec (e <| fe_wall_clock := ms |>)) max =
    Failed (refuse ReasonCode.ValueOutOfRange "signed integer field out of range").
Proof.
  intros Hms Hok. apply decode_fails. apply object_fails; [by cbn|].
  apply iso_fails, field_fails_before, field_fails_before, field_fails;
    [typeclasses eauto| |by apply c_wallclock_negative].
  apply andb_true_iff in Hok as [_ Hok]. cbn [c_ok c_iso c_field] in Hok.
  apply andb_true_iff in Hok as [[[Hok _]%andb_true_iff _]%andb_true_iff _].
  by destruct e.
Qed.

Lemma negative_wall_clock_undecodable_witness :
  decode_binary FabricEvent_codec
    (encode_binary FabricEvent_codec (sample_event <| fe_wall_clock := -5 |>)) kMaxDecodedSequence =
    Failed (refuse ReasonCode.ValueOutOfRange "signed integer field out of range").
Proof.
  apply negative_wall_clock_undecodable; [unfold i64_min; lia|vm_compute; reflexivity].
Defined.
