(* ===== verification/Authority.v ===== *)
(** * Authority grants and fence tokens

    [include/dpu/fabric/engine/authority.hpp] and [src/engine/authority.cpp].  The
    registry is a vector sorted by device; it is refined to a finite map from a
    device to its only owner.  The fence issuer numbers the tokens of an
    instance; a token is good only while it is the last one issued. *)

From S2P Require Import Prelude Std Reason Types Version Resources Bounded Digest Json JsonArchive Archive Model Codec.
#[local] Open Scope Z_scope.

Record AuthorityGrant := mkAuthorityGrant {
  ag_dpu : DpuId;
  ag_scope : ExclusiveScopeId;
  ag_group : ServiceGroupId;
  ag_epoch : CoordinatorEpoch;
  ag_boot : BootIncarnation;
  ag_granted_at : LogicalInstant
}.
#[export] Instance eta_AuthorityGrant : Settable AuthorityGrant := fun r =>
  mkAuthorityGrant (ag_dpu r) (ag_scope r) (ag_group r) (ag_epoch r) (ag_boot r)
  (ag_granted_at r).
#[export] Instance AuthorityGrant_eq_dec : EqDecision AuthorityGrant.
Proof. solve_decision. Defined.
Definition AuthorityGrant_default : AuthorityGrant :=
  mkAuthorityGrant "" "" "" 0 0 0.
Record AuthorityRegistry := mkAuthorityRegistry {
  ar_grants : list AuthorityGrant
}.
#[export] Instance eta_AuthorityRegistry : Settable AuthorityRegistry := fun r =>
  mkAuthorityRegistry (ar_grants r).
#[export] Instance AuthorityRegistry_eq_dec : EqDecision AuthorityRegistry.
Proof. solve_decision. Defined.
Definition AuthorityRegistry_default : AuthorityRegistry :=
  mkAuthorityRegistry [].
Record FenceEntry := mkFenceEntry {
  fen_instance : InstanceId;
  fen_serial : Z
}.
#[export] Instance eta_FenceEntry : Settable FenceEntry := fun r =>
  mkFenceEntry (fen_instance r) (fen_serial r).
#[export] Instance FenceEntry_eq_dec : EqDecision FenceEntry.
Proof. solve_decision. Defined.
Definition FenceEntry_default : FenceEntry :=
  mkFenceEntry "" 0.
Record FenceIssuer := mkFenceIssuer {
  fi_serials : list FenceEntry;
  fi_epoch : CoordinatorEpoch;
  fi_boot : BootIncarnation
}.
#[export] Instance eta_FenceIssuer : Settable FenceIssuer := fun r =>
  mkFenceIssuer (fi_serials r) (fi_epoch r) (fi_boot r).
#[export] Instance FenceIssuer_eq_dec : EqDecision FenceIssuer.
Proof. solve_decision. Defined.
Definition FenceIssuer_default : FenceIssuer :=
  mkFenceIssuer [] 0 0.
Definition AuthorityGrant_codec : Codec AuthorityGrant := c_object "AuthorityGrant" (c_iso
  (fun s =>
     (tt, ag_dpu s, ag_scope s, ag_group s, ag_epoch s, ag_boot s, ag_granted_at s))
  (fun '(_, x_dpu, x_scope, x_group, x_epoch, x_boot, x_granted_at) =>
     mkAuthorityGrant x_dpu x_scope x_group x_epoch x_boot x_granted_at)
  (fields
     & field "dpu" c_id
     & field "scope" c_id
     & field "group" c_id
     & field "epoch" c_counter
     & field "boot" c_counter
     & field "granted_at" c_instant)).
#[export] Typeclasses Opaque AuthorityGrant_codec.
#[export] Instance AuthorityGrant_codec_laws : CodecLaws AuthorityGrant_codec.
Proof. solve_codec_laws. Qed.
#[export] Instance AuthorityGrant_codec_exact : CodecExact AuthorityGrant_codec.
Proof. solve_codec_exact. Qed.
Definition AuthorityRegistry_codec : Codec AuthorityRegistry := c_object "AuthorityRegistry" (c_iso
  (fun s =>
     (tt, ar_grants s))
  (fun '(_, x_grants) =>
     mkAuthorityRegistry x_grants)
  (fields
     & field "grants" (c_vector AuthorityGrant_codec))).
#[export] Typeclasses Opaque AuthorityRegistry_codec.
#[export] Instance AuthorityRegistry_codec_laws : CodecLaws AuthorityRegistry_codec.
Proof. solve_codec_laws. Qed.
#[export] Instance AuthorityRegistry_codec_exact : CodecExact AuthorityRegistry_codec.
Proof. solve_codec_exact. Qed.
Definition FenceEntry_codec : Codec FenceEntry := c_object "FenceEntry" (c_iso
  (fun s =>
     (tt, fen_instance s, fen_serial s))
  (fun '(_, x_instance, x_serial) =>
     mkFenceEntry x_instance x_serial)
  (fields
     & field "instance" c_id
     & field "serial" c_u64)).
#[export] Typeclasses Opaque FenceEntry_codec.
#[export] Instance FenceEntry_codec_laws : CodecLaws FenceEntry_codec.
Proof. solve_codec_laws. Qed.
#[export] Instance FenceEntry_codec_exact : CodecExact FenceEntry_codec.
Proof. solve_codec_exact. Qed.
Definition FenceIssuer_codec : Codec FenceIssuer := c_object "FenceIssuer" (c_iso
  (fun s =>
     (tt, fi_epoch s, fi_boot s, fi_serials s))
  (fun '(_, x_epoch, x_boot, x_serials) =>
     mkFenceIssuer x_serials x_epoch x_boot)
  (fields
     & field "epoch" c_counter
     & field "boot" c_counter
     & field "serials" (c_vector FenceEntry_codec))).
#[export] Typeclasses Opaque FenceIssuer_codec.
#[export] Instance FenceIssuer_codec_laws : CodecLaws FenceIssuer_codec.
Proof. solve_codec_laws. Qed.
#[export] Instance FenceIssuer_codec_exact : CodecExact FenceIssuer_codec.
Proof. solve_codec_exact. Qed.

(** ** Operations of the registry *)

(** The [lower_bound] every operation starts with. *)
Definition grant_position (r : AuthorityRegistry) (dpu : DpuId) : nat :=
  lower_bound (fun g => str_lt (ag_dpu g) dpu) (ar_grants r).

(** [AuthorityRegistry::owner_of] and [owned_by_other] *)
Definition owner_of (r : AuthorityRegistry) (dpu : DpuId) : option AuthorityGrant :=
  match ar_grants r !! grant_position r dpu with
  | Some g => if decide (ag_dpu g = dpu) then Some g else None
  | None => None
  end.
Definition owned_by_other (r : AuthorityRegistry) (dpu : DpuId) (scope : ExclusiveScopeId) : bool :=
  match owner_of r dpu with
  | Some g => negb (bool_decide (ag_scope g = scope))
  | None => false
  end.

(** [AuthorityRegistry::claim] *)
Definition claim (r : AuthorityRegistry) (scope : ExclusiveScopeId) (group : ServiceGroupId)
    (dpu : DpuId) (epoch : CoordinatorEpoch) (boot : BootIncarnation) (at_ : LogicalInstant)
    (max_grants : Z) : AuthorityRegistry * Status :=
  if negb (id_valid scope) || negb (id_valid dpu) || negb (id_valid group) then
    (r, refuse ReasonCode.InvalidIdentity "authority grant identity")
  else
  let it := grant_position r dpu in
  match ar_grants r !! it with
  | Some g =>
    if decide (ag_dpu g = dpu) then
      if bool_decide (ag_scope g = scope) then
        (r <| ar_grants :=
           <[it := g <| ag_epoch := epoch |> <| ag_boot := boot |> <| ag_granted_at := at_ |>]>
             (ar_grants r) |>, Status_success)
      else
        (r, refuse ReasonCode.ExclusiveScopeConflict
              (ag_dpu g +:+ " owned by scope " +:+ ag_scope g +:+ " of group " +:+ ag_group g))
    else if max_grants <=? zlen (ar_grants r) then
      (r, refuse ReasonCode.BoundExceeded "authority grant table full")
    else
      (r <| ar_grants := insert_at it (mkAuthorityGrant dpu scope group epoch boot at_)
              (ar_grants r) |>, Status_success)
  | None =>
    if max_grants <=? zlen (ar_grants r) then
      (r, refuse ReasonCode.BoundExceeded "authority grant table full")
    else
      (r <| ar_grants := insert_at it (mkAuthorityGrant dpu scope group epoch boot at_)
              (ar_grants r) |>, Status_success)
  end.

(** [AuthorityRegistry::release] *)
Definition release (r : AuthorityRegistry) (scope : ExclusiveScopeId) (dpu : DpuId)
  : AuthorityRegistry * bool :=
  let it := grant_position r dpu in
  match ar_grants r !! it with
  | Some g =>
    if decide (ag_dpu g = dpu) then
      if bool_decide (ag_scope g = scope) then
        (r <| ar_grants := delete it (ar_grants r) |>, true)
      else (r, false)
    else (r, false)
  | None => (r, false)
  end.

(** [AuthorityRegistry::release_group] and [fence_all] *)
Definition release_group (r : AuthorityRegistry) (group : ServiceGroupId) : AuthorityRegistry * Z :=
  let kept := filter (fun g => ag_group g <> group) (ar_grants r) in
  (r <| ar_grants := kept |>, zlen (ar_grants r) - zlen kept).
Definition fence_all (r : AuthorityRegistry) : AuthorityRegistry * Z :=
  (r <| ar_grants := [] |>, zlen (ar_grants r)).

(** ** Operations of the fence issuer *)
(** [FenceIssuer::find]: the position stands for the entry's address. *)
Definition fence_find (f : FenceIssuer) (instance : InstanceId) : option (nat * FenceEntry) :=
  list_find (fun e => fen_instance e = instance) (fi_serials f).

(** [FenceIssuer::reset], [advance_epoch] and [advance_boot] *)
Definition fence_reset (f : FenceIssuer) (epoch : CoordinatorEpoch) (boot : BootIncarnation)
  : FenceIssuer :=
  f <| fi_epoch := epoch |> <| fi_boot := boot |> <| fi_serials := [] |>.
Definition advance_epoch (f : FenceIssuer) (epoch : CoordinatorEpoch) (boot : BootIncarnation)
  : FenceIssuer * Status :=
  if epoch <? fi_epoch f then
    (f, refuse ReasonCode.EpochRegressed "coordinator epoch cannot regress")
  else (f <| fi_epoch := epoch |> <| fi_boot := boot |> <| fi_serials := [] |>, Status_success).
Definition advance_boot (f : FenceIssuer) (boot : BootIncarnation) : FenceIssuer * Status :=
  if boot <? fi_boot f then
    (f, refuse ReasonCode.GenerationRegressed "boot incarnation cannot regress")
  else (f <| fi_boot := boot |> <| fi_serials := [] |>, Status_success).

(** [FenceIssuer::issue]; the instant is not used. *)
Definition fence_issue (f : FenceIssuer) (instance : InstanceId)
  : FenceIssuer * Result FenceToken :=
  if negb (id_valid instance) then
    (f, Failed (refuse ReasonCode.InvalidIdentity "fence target"))
  else if negb (counter_valid (fi_epoch f)) || negb (counter_valid (fi_boot f)) then
    (f, Failed (refuse ReasonCode.AuthorityNotGranted "fence issuer has no epoch or boot"))
  else
  match fence_find f instance with
  | None =>
    (f <| fi_serials := fi_serials f ++ [mkFenceEntry instance 1] |>,
     Value (mkFenceToken (fi_epoch f) (fi_boot f) 1))
  | Some (i, entry) =>
    match checked_add u64_max (fen_serial entry) 1 with
    | None => (f, Failed (refuse ReasonCode.ArithmeticOverflow "fence serial exhausted"))
    | Some next_serial =>
      (f <| fi_serials := <[i := entry <| fen_serial := next_serial |>]> (fi_serials f) |>,
       Value (mkFenceToken (fi_epoch f) (fi_boot f) next_serial))
    end
  end.

(** [FenceIssuer::invalidate] *)
Definition fence_invalidate (f : FenceIssuer) (instance : InstanceId) : FenceIssuer :=
  match fence_find f instance with
  | None => f
  | Some (i, entry) =>
    f <| fi_serials :=
      <[i := entry <| fen_serial := saturating_add u64_max (fen_serial entry) 1 |>]>
        (fi_serials f) |>
  end.

(** [FenceIssuer::validate] and [current] *)
Definition fence_validate (f : FenceIssuer) (instance : InstanceId) (token : FenceToken) : bool :=
  if negb (fence_valid token) then false
  else if negb (fence_from token (fi_epoch f) (fi_boot f)) then false
  else match fence_find f instance with
       | None => false
       | Some (_, entry) => fen_serial entry =? ft_serial token
       end.
Definition fence_current (f : FenceIssuer) (instance : InstanceId) : FenceToken :=
  match fence_find f instance with
  | None => FenceToken_default
  | Some (_, entry) => mkFenceToken (fi_epoch f) (fi_boot f) (fen_serial entry)
  end.

(** ** The registry is a map from a device to its only owner *)
Definition grant_ok (g : AuthorityGrant) : Prop :=
  ag_dpu g <> "" /\ ag_scope g <> "" /\ ag_group g <> "".

(** Grants in ascending device order, one per device, each with its identities. *)
Definition registry_ok (r : AuthorityRegistry) : Prop :=
  strictly_by ag_dpu str_lt (ar_grants r) /\ Forall grant_ok (ar_grants r).

Definition owners (r : AuthorityRegistry) : gmap string AuthorityGrant :=
  as_map ag_dpu (ar_grants r).

Inductive AuthorityOp : Type :=
| OpClaim (scope : ExclusiveScopeId) (group : ServiceGroupId) (dpu : DpuId)
    (epoch : CoordinatorEpoch) (boot : BootIncarnation) (at_ : LogicalInstant) (max_grants : Z)
| OpRelease (scope : ExclusiveScopeId) (dpu : DpuId)
| OpReleaseGroup (group : ServiceGroupId)
| OpFenceAll.

Inductive AuthorityAnswer : Type :=
| AnswerStatus (s : Status)
| AnswerFlag (released : bool)
| AnswerCount (n : Z).

Definition run_authority (r : AuthorityRegistry) (op : AuthorityOp)
  : AuthorityRegistry * AuthorityAnswer :=
  match op with
  | OpClaim scope group dpu epoch boot at_ max_grants =>
    let '(r', s) := claim r scope group dpu epoch boot at_ max_grants in (r', AnswerStatus s)
  | OpRelease scope dpu => let '(r', b) := release r scope dpu in (r', AnswerFlag b)
  | OpReleaseGroup group => let '(r', n) := release_group r group in (r', AnswerCount n)
  | OpFenceAll => let '(r', n) := fence_all r in (r', AnswerCount n)
  end.

(** What the registry promises, on the map alone. *)
Definition spec_authority (m : gmap string AuthorityGrant) (op : AuthorityOp)
  : gmap string AuthorityGrant * AuthorityAnswer :=
  match op with
  | OpClaim scope group dpu epoch boot at_ max_grants =>
    if negb (id_valid scope) || negb (id_valid dpu) || negb (id_valid group) then
      (m, AnswerStatus (refuse ReasonCode.InvalidIdentity "authority grant identity"))
    else
    match m !! dpu with
    | Some g =>
      if bool_decide (ag_scope g = scope) then
        (<[dpu := mkAuthorityGrant dpu scope (ag_group g) epoch boot at_]> m,
         AnswerStatus Status_success)
      else
        (m, AnswerStatus (refuse ReasonCode.ExclusiveScopeConflict
              (dpu +:+ " owned by scope " +:+ ag_scope g +:+ " of group " +:+ ag_group g)))
    | None =>
      if max_grants <=? Z.of_nat (size m) then
        (m, AnswerStatus (refuse ReasonCode.BoundExceeded "authority grant table full"))
      else
        (<[dpu := mkAuthorityGrant dpu scope group epoch boot at_]> m,
         AnswerStatus Status_success)
    end
  | OpRelease scope dpu =>
    match m !! dpu with
    | Some g => if bool_decide (ag_scope g = scope) then (delete dpu m, AnswerFlag true)
                else (m, AnswerFlag false)
    | None => (m, AnswerFlag false)
    end
  | OpReleaseGroup group =>
    let kept := filter (fun p => ag_group p.2 <> group) m in
    (kept, AnswerCount (Z.of_nat (size m) - Z.of_nat (size kept)))
  | OpFenceAll => (∅, AnswerCount (Z.of_nat (size m)))
  end.

Lemma registry_NoDup r : registry_ok r -> NoDup (ag_dpu <$> ar_grants r).
Proof. intros [Hs _]. exact (strictly_NoDup _ _ _ Hs). Qed.
#[local] Hint Resolve registry_NoDup : fabric.

Lemma owners_size r : registry_ok r -> Z.of_nat (size (owners r)) = zlen (ar_grants r).
Proof. intros Hr. unfold owners. rewrite as_map_size; auto with fabric. Qed.

(** The grant under the search position, when it is the device's, is its owner. *)
Lemma grant_position_owner r dpu :
  registry_ok r ->
  match ar_grants r !! grant_position r dpu with
  | Some g => if decide (ag_dpu g = dpu) then owners r !! dpu = Some g else owners r !! dpu = None
  | None => owners r !! dpu = None
  end.
Proof.
  intros [Hs _]. unfold owners. rewrite <-(find_sorted_as_map ag_dpu _ dpu Hs).
  unfold find_sorted, grant_position.
  destruct (ar_grants r !! _) as [g|] eqn:Hg; [|done].
  destruct (decide (ag_dpu g = dpu)); [|done]. cbn. exact Hg.
Qed.

Lemma owner_of_owners r dpu : registry_ok r -> owner_of r dpu = owners r !! dpu.
Proof.
  intros Hr. pose proof (grant_position_owner r dpu Hr) as Hp. unfold owner_of.
  destruct (ar_grants r !! _) as [g|]; [|done]. by destruct (decide _).
Qed.

Lemma insert_grant_ok r g :
  registry_ok r -> grant_ok g -> owners r !! ag_dpu g = None ->
  let r' := r <| ar_grants := insert_at (grant_position r (ag_dpu g)) g (ar_grants r) |> in
  registry_ok r' /\ owners r' = <[ag_dpu g := g]> (owners r).
Proof.
  intros Hr Hok Hnone. apply as_map_None in Hnone. split; [split|]; cbn [ar_grants set].
  - by apply (insert_at_strictly ag_dpu str_lt); [apply Hr|].
  - rewrite insert_at_perm, Forall_cons. split; [done|apply Hr].
  - apply as_map_insert; auto with fabric.
Qed.

Lemma claim_refines r scope group dpu epoch boot at_ max_grants :
  registry_ok r ->
  let '(r', a) := run_authority r (OpClaim scope group dpu epoch boot at_ max_grants) in
  registry_ok r' /\ spec_authority (owners r) (OpClaim scope group dpu epoch boot at_ max_grants)
    = (owners r', a).
Proof.
  intros Hr. pose proof (grant_position_owner r dpu Hr) as Hp.
  cbn [run_authority spec_authority]. unfold claim.
  destruct (negb (id_valid scope) || negb (id_valid dpu) || negb (id_valid group)) eqn:Hv; [done|].
  rewrite owners_size by done.
  assert (Hok : grant_ok (mkAuthorityGrant dpu scope group epoch boot at_)).
  { bool_prop. split_and!; cbn; intros ->; done. }
  assert (Hins : owners r !! dpu = None ->
    let r' := r <| ar_grants := insert_at (grant_position r dpu)
                 (mkAuthorityGrant dpu scope group epoch boot at_) (ar_grants r) |> in
    registry_ok r' /\
    owners r' = <[dpu := mkAuthorityGrant dpu scope group epoch boot at_]> (owners r)).
  { intros Hnone. exact (insert_grant_ok r _ Hr Hok Hnone). }
  destruct (ar_grants r !! grant_position r dpu) as [g|] eqn:Hg.
  - destruct (decide (ag_dpu g = dpu)) as [Hd|Hd].
    + rewrite Hp. case_bool_decide as Hscope; [|by rewrite Hd].
      pose proof Hr as [Hs Hall]. split.
      * split; cbn.
        -- apply (strictly_keys _ _ (ar_grants r)); [|exact Hs]. symmetry.
           by apply (list_insert_keys _ _ _ _ g).
        -- apply Forall_insert; [done|]. rewrite Forall_lookup in Hall. exact (Hall _ g Hg).
      * unfold owners. cbn [ar_grants set]. rewrite (as_map_update _ _ _ _ g); [|by auto with fabric|done|done].
        cbn. rewrite Hd. unfold set. cbn. by rewrite Hd, Hscope.
    + rewrite Hp. destruct (max_grants <=? _); [done|]. destruct (Hins Hp) as [? ->]. done.
  - rewrite Hp. destruct (max_grants <=? _); [done|]. destruct (Hins Hp) as [? ->]. done.
Qed.

Lemma filter_grants_ok r (P : AuthorityGrant -> Prop) `{!forall g, Decision (P g)} :
  registry_ok r ->
  registry_ok (r <| ar_grants := filter P (ar_grants r) |>) /\
  owners (r <| ar_grants := filter P (ar_grants r) |>) = filter (fun p => P p.2) (owners r).
Proof.
  intros [Hs Hall]. split; [split; cbn|].
  - eapply strictly_sublist; [apply sublist_filter|done].
  - by apply Forall_filter.
  - apply as_map_filter. exact (strictly_NoDup _ _ _ Hs).
Qed.

Lemma release_refines r scope dpu :
  registry_ok r ->
  let '(r', a) := run_authority r (OpRelease scope dpu) in
  registry_ok r' /\ spec_authority (owners r) (OpRelease scope dpu) = (owners r', a).
Proof.
  intros Hr. pose proof (grant_position_owner r dpu Hr) as Hp.
  cbn [run_authority spec_authority]. unfold release.
  destruct (ar_grants r !! grant_position r dpu) as [g|] eqn:Hg; [|by rewrite Hp].
  destruct (decide (ag_dpu g = dpu)) as [Hd|Hd]; rewrite Hp; [|done].
  case_bool_decide as Hscope; [|done].
  rewrite (list_delete_filter ag_dpu _ _ g); [|by auto with fabric|done].
  destruct (filter_grants_ok r (fun x => ag_dpu x <> ag_dpu g) Hr) as [Hok ->].
  split; [done|]. f_equal. rewrite Hd. apply map_eq. intros k.
  destruct (decide (k = dpu)) as [->|Hk].
  - rewrite lookup_delete_eq. symmetry. apply map_lookup_filter_None. right.
    intros x Hx. rewrite Hp in Hx. simplify_eq. cbn. auto.
  - rewrite lookup_delete_ne by done. destruct (owners r !! k) as [x|] eqn:Hx; symmetry.
    + apply map_lookup_filter_Some. split; [done|]. cbn.
      apply as_map_Some in Hx as [_ <-]; [done|]. auto with fabric.
    + apply map_lookup_filter_None. by left.
Qed.

(** C6. The authority registry refines a finite map from devices to owners: every
    operation, on every branch, keeps the vector in device order with one grant
    per device, answers what the map operation answers and leaves the same map. In
    particular no sequence of claims gives a device two owners, and an exclusive
    scope never takes a device another scope holds. *)
Theorem registry_refines_map r op :
  registry_ok r ->
  let '(r', answer) := run_authority r op in
  registry_ok r' /\ spec_authority (owners r) op = (owners r', answer) /\
  forall dpu, owner_of r' dpu = owners r' !! dpu.
Proof.
  intros Hr. assert (Hstep : let '(r', answer) := run_authority r op in
    registry_ok r' /\ spec_authority (owners r) op = (owners r', answer)).
  { destruct op; [by apply claim_refines|by apply release_refines|..]; cbn.
    - destruct (filter_grants_ok r (fun g => ag_group g <> group) Hr) as [Hok Heq].
      split; [done|]. rewrite <-Heq, !owners_size by done. done.
    - rewrite owners_size by done. split; [|done]. split; constructor. }
  destruct (run_authority r op) as [r' a]. destruct Hstep as [Hok Hs].
  split_and!; [done|done|]. intros dpu. by apply owner_of_owners.
Qed.

Lemma registry_refines_map_witness :
  let r := mkAuthorityRegistry [mkAuthorityGrant "dpu-1" "scope-a" "web" 1 1 4] in
  let '(r', answer) := run_authority r (OpClaim "scope-b" "db" "dpu-1" 1 1 9 8) in
  registry_ok r' /\
  spec_authority (owners r) (OpClaim "scope-b" "db" "dpu-1" 1 1 9 8) = (owners r', answer) /\
  forall dpu, owner_of r' dpu = owners r' !! dpu.
Proof.
  apply (registry_refines_map (mkAuthorityRegistry [mkAuthorityGrant "dpu-1" "scope-a" "web" 1 1 4])
    (OpClaim "scope-b" "db" "dpu-1" 1 1 9 8)).
  split; [|by repeat constructor]. repeat constructor.
Defined.

(** ** Fence tokens *)

(** One serial per instance, each in range and never zero. *)
Definition issuer_ok (f : FenceIssuer) : Prop :=
  NoDup (fen_instance <$> fi_serials f) /\
  Forall (fun e => 1 <= fen_serial e <= u64_max) (fi_serials f).

Definition serials (f : FenceIssuer) : gmap string FenceEntry := as_map fen_instance (fi_serials f).

Lemma fence_find_serials f i :
  issuer_ok f ->
  match fence_find f i with
  | Some (n, e) => fi_serials f !! n = Some e /\ fen_instance e = i /\ serials f !! i = Some e
  | None => serials f !! i = None
  end.
Proof.
  intros [Hnd _]. unfold fence_find.
  destruct (list_find _ _) as [[n e]|] eqn:Hf.
  - apply list_find_Some in Hf as (Hn & He & _). split_and!; [done|done|].
    apply as_map_Some; [done|]. split; [by eapply list_elem_of_lookup_2|done].
  - apply as_map_None. rewrite list_elem_of_fmap. intros (e & -> & He).
    apply list_find_None in Hf. rewrite Forall_forall in Hf. by apply (Hf e).
Qed.

(** A token validates exactly when it is the non-zero current token. *)
Lemma fence_validate_serials f i t :
  issuer_ok f ->
  fence_validate f i t = true <->
  exists e, serials f !! i = Some e /\ t = mkFenceToken (fi_epoch f) (fi_boot f) (fen_serial e).
Proof.
  intros Hf. pose proof (fence_find_serials f i Hf) as Hfind. unfold fence_validate, fence_from.
  split.
  - destruct (fence_valid t) eqn:Hv; [|done].
    destruct ((ft_epoch t =? fi_epoch f) && (ft_boot t =? fi_boot f)) eqn:Hfrom; [|done]. cbn.
    destruct (fence_find f i) as [[n e]|]; [|done]. intros Hs. exists e. bool_prop.
    split; [by apply Hfind|]. destruct t; cbn in *; congruence.
  - intros (e & He & ->). destruct (fence_find f i) as [[n e']|]; [|congruence].
    destruct Hfind as (Hn & _ & He'). rewrite He in He'. simplify_eq.
    destruct Hf as [_ Hall]. rewrite Forall_lookup in Hall. specialize (Hall _ _ Hn).
    cbn. unfold fence_valid. cbn. rewrite !Z.eqb_refl. destruct (Z.eqb_spec (fen_serial e') 0); lia || done.
Qed.

(** How [issue] and [invalidate] change the serials. *)
Lemma update_serial_ok f n e s :
  issuer_ok f -> fi_serials f !! n = Some e -> 1 <= s <= u64_max ->
  let f' := f <| fi_serials := <[n := e <| fen_serial := s |>]> (fi_serials f) |> in
  issuer_ok f' /\ serials f' = <[fen_instance e := e <| fen_serial := s |>]> (serials f).
Proof.
  intros [Hnd Hall] Hn Hs. cbn zeta. split; [split; cbn [fi_serials set]|].
  - by rewrite (list_insert_keys fen_instance _ _ _ e).
  - by apply Forall_insert.
  - unfold serials. cbn [fi_serials set]. by rewrite (as_map_update _ _ _ _ e).
Qed.

Lemma fence_issue_spec f i f' t :
  issuer_ok f -> fence_issue f i = (f', Value t) ->
  issuer_ok f' /\ fi_epoch f' = fi_epoch f /\ fi_boot f' = fi_boot f /\
  t = mkFenceToken (fi_epoch f) (fi_boot f) (ft_serial t) /\
  serials f' = <[i := mkFenceEntry i (ft_serial t)]> (serials f) /\
  (forall e, serials f !! i = Some e -> ft_serial t = fen_serial e + 1).
Proof.
  intros Hf. pose proof (fence_find_serials f i Hf) as Hfind. unfold fence_issue.
  destruct (id_valid i); [|done]. destruct (negb _ || negb _); [done|]. cbn [negb].
  destruct (fence_find f i) as [[n e]|].
  - destruct Hfind as (Hn & <- & He). pose proof Hf as [_ Hall].
    rewrite Forall_lookup in Hall. pose proof (Hall _ _ Hn) as Hr.
    rewrite checked_add_spec by (unfold in_width, u64_max in *; lia). case_decide; [|done].
    intros [= <- <-]. cbn [ft_serial].
    destruct (update_serial_ok f n e (fen_serial e + 1) Hf Hn ltac:(lia)) as [Hok Hser].
    split_and!; [done..| |].
    + by rewrite Hser.
    + intros e' He'. rewrite He in He'. by simplify_eq.
  - intros [= <- <-]. destruct Hf as [Hnd Hall]. cbn [ft_serial].
    split_and!; [|done|done|done| |congruence].
    + split; cbn [fi_serials set].
      * rewrite fmap_app, NoDup_app. split_and!; [done| |apply NoDup_singleton].
        intros x Hx ->%list_elem_of_singleton. by apply as_map_None in Hfind.
      * apply Forall_app. split; [done|]. repeat constructor; cbn; unfold u64_max; lia.
    + unfold serials. cbn [fi_serials set].
      assert (Hi : i ∉ fen_instance <$> fi_serials f) by by apply as_map_None.
      pose proof (as_map_insert fen_instance (fi_serials f) (length (fi_serials f))
        (mkFenceEntry i 1) Hnd Hi) as Hm.
      unfold insert_at in Hm. by rewrite take_ge, drop_ge in Hm by lia.
Qed.

(** Issuing supersedes: the token returned is the only token that validates for
    its instance afterwards, it did not validate before, and no other instance is
    affected. *)
Theorem issued_token_is_the_only_valid f i f' t :
  issuer_ok f -> fence_issue f i = (f', Value t) ->
  issuer_ok f' /\ fence_validate f i t = false /\
  (forall t', fence_validate f' i t' = true <-> t' = t) /\
  (forall j t', j <> i -> fence_validate f' j t' = fence_validate f j t').
Proof.
  intros Hf Hi. destruct (fence_issue_spec f i f' t Hf Hi) as (Hf' & He & Hb & Ht & Hser & Hnext).
  split_and!; [done| | |].
  - apply not_true_iff_false. rewrite fence_validate_serials by done.
    intros (e & Hs & Heq). apply Hnext in Hs. rewrite Heq in Hs. cbn in Hs. lia.
  - intros t'. rewrite fence_validate_serials by done. rewrite Hser, lookup_insert_eq, He, Hb.
    split.
    + intros (e & [= <-] & ->). by rewrite Ht.
    + intros ->. eauto.
  - intros j t' Hj. apply Bool.eq_iff_eq_true.
    rewrite !fence_validate_serials by done. by rewrite Hser, lookup_insert_ne, He, Hb.
Qed.

Lemma issued_token_is_the_only_valid_witness :
  let f := mkFenceIssuer [mkFenceEntry "i-1" 3] 2 5 in
  let f' := mkFenceIssuer [mkFenceEntry "i-1" 4] 2 5 in
  let t := mkFenceToken 2 5 4 in
  issuer_ok f' /\ fence_validate f "i-1" t = false /\
  (forall t', fence_validate f' "i-1" t' = true <-> t' = t) /\
  (forall j t', j <> "i-1" -> fence_validate f' j t' = fence_validate f j t').
Proof.
  intros f f' t. apply (issued_token_is_the_only_valid f "i-1" f' t); [|reflexivity].
  apply (bool_decide_unpack _). vm_compute. exact I.
Defined.

(** *** Superseded tokens stay superseded *)
Inductive FenceOp : Type :=
| FIssue (i : InstanceId)
| FInvalidate (i : InstanceId)
| FAdvanceEpoch (epoch : CoordinatorEpoch) (boot : BootIncarnation)
| FAdvanceBoot (boot : BootIncarnation).

Definition run_fence (f : FenceIssuer) (op : FenceOp) : FenceIssuer :=
  match op with
  | FIssue i => (fence_issue f i).1
  | FInvalidate i => fence_invalidate f i
  | FAdvanceEpoch epoch boot => (advance_epoch f epoch boot).1
  | FAdvanceBoot boot => (advance_boot f boot).1
  end.

(** An advance that really advances: a new epoch, or a new boot of the epoch. *)
Definition advances (f : FenceIssuer) (op : FenceOp) : Prop :=
  match op with
  | FAdvanceEpoch epoch _ => fi_epoch f < epoch
  | FAdvanceBoot boot => fi_boot f < boot
  | _ => True
  end.

(** [t] is behind the issuer for instance [i]: an older epoch or boot, or an older
    serial of the current ones. *)
Definition behind (f : FenceIssuer) (i : InstanceId) (t : FenceToken) : Prop :=
  ft_epoch t < fi_epoch f \/
  ft_epoch t = fi_epoch f /\ (ft_boot t < fi_boot f \/
    ft_boot t = fi_boot f /\ exists e, serials f !! i = Some e /\ ft_serial t < fen_serial e).

Lemma behind_invalid f i t : issuer_ok f -> behind f i t -> fence_validate f i t = false.
Proof.
  intros Hf Hb. apply not_true_iff_false. rewrite fence_validate_serials by done.
  intros (e & He & ->). unfold behind in Hb. cbn in Hb.
  destruct Hb as [?|[_ [?|[_ (e' & He' & ?)]]]]; [lia|lia|]. rewrite He in He'. simplify_eq. lia.
Qed.

Lemma cleared_ok f epoch boot : issuer_ok (f <| fi_epoch := epoch |> <| fi_boot := boot |> <| fi_serials := [] |>).
Proof. split; constructor. Qed.

Lemma behind_issue f j i t :
  issuer_ok f -> behind f i t ->
  issuer_ok (fence_issue f j).1 /\ behind (fence_issue f j).1 i t.
Proof.
  intros Hf Hb. destruct (fence_issue f j) as [f' [tok|s]] eqn:Hi.
  - destruct (fence_issue_spec f j f' tok Hf Hi) as (Hf' & He & Hbo & _ & Hser & Hnext).
    split; [done|]. unfold behind in *. cbn [fst]. rewrite He, Hbo, Hser.
    destruct Hb as [?|[? [?|[? (e & Hs & ?)]]]]; [tauto|tauto|]. right. split; [done|right].
    split; [done|]. destruct (decide (j = i)) as [->|Hji].
    + rewrite lookup_insert_eq. eexists. split; [done|]. cbn. apply Hnext in Hs. lia.
    + rewrite lookup_insert_ne by done. eauto.
  - assert (f' = f) as ->; [|done]. revert Hi. unfold fence_issue.
    destruct (negb (id_valid j)); [by intros [= <-]|].
    destruct (negb _ || negb _); [by intros [= <-]|].
    destruct (fence_find f j) as [[n e]|]; [|done].
    destruct (checked_add _ _ _); [done|by intros [= <-]].
Qed.

Lemma behind_invalidate f j i t :
  issuer_ok f -> behind f i t ->
  issuer_ok (fence_invalidate f j) /\ behind (fence_invalidate f j) i t.
Proof.
  intros Hf Hb. unfold fence_invalidate. pose proof (fence_find_serials f j Hf) as Hfind.
  destruct (fence_find f j) as [[n e]|]; [|done]. destruct Hfind as (Hn & <- & He).
  pose proof Hf as [_ Hall]. rewrite Forall_lookup in Hall. pose proof (Hall _ _ Hn) as Hr.
  rewrite saturating_add_spec by (unfold in_width, u64_max in *; lia).
  destruct (update_serial_ok f n e (Z.min (fen_serial e + 1) u64_max) Hf Hn ltac:(lia))
    as [Hok Hser]. split; [done|].
  unfold behind in *. rewrite Hser. cbn [fi_epoch fi_boot set].
  destruct Hb as [?|[? [?|[? (e' & Hs & ?)]]]]; [tauto|tauto|]. right. split; [done|right].
  split; [done|]. destruct (decide (fen_instance e = i)) as [<-|Hne].
  - rewrite lookup_insert_eq. eexists. split; [done|]. cbn. rewrite He in Hs. simplify_eq. lia.
  - rewrite lookup_insert_ne by done. eauto.
Qed.

Lemma behind_step f op i t :
  issuer_ok f -> advances f op -> behind f i t ->
  issuer_ok (run_fence f op) /\ behind (run_fence f op) i t.
Proof.
  intros Hf Ha Hb. destruct op as [j|j|epoch boot|boot]; cbn [run_fence advances] in *.
  - by apply behind_issue.
  - by apply behind_invalidate.
  - unfold advance_epoch. rewrite (proj2 (Z.ltb_ge _ _)) by lia. cbn [fst].
    split; [apply cleared_ok|]. left. cbn. unfold behind in Hb. lia.
  - unfold advance_boot. rewrite (proj2 (Z.ltb_ge _ _)) by lia. cbn [fst].
    split; [split; constructor|]. unfold behind in *. cbn. lia.
Qed.

(** The operations run in order; each advance advances the issuer it meets. *)
Fixpoint advancing (f : FenceIssuer) (ops : list FenceOp) : Prop :=
  match ops with
  | [] => True
  | op :: ops => advances f op /\ advancing (run_fence f op) ops
  end.

(** C38. A superseded token never validates again: once a token is behind the issuer
    for its instance, no sequence of issues, invalidations and advances brings it
    back, as long as every advance moves to a later epoch or boot. *)
Theorem superseded_token_stays_invalid f i t ops :
  issuer_ok f -> behind f i t -> advancing f ops ->
  fence_validate (foldl run_fence f ops) i t = false.
Proof.
  revert f. induction ops as [|op ops IH]; intros f Hf Hb Ha; cbn [foldl].
  - by apply behind_invalid.
  - destruct Ha as [Ha Hops]. destruct (behind_step f op i t Hf Ha Hb) as [Hf' Hb']. by apply IH.
Qed.

Lemma superseded_token_stays_invalid_witness :
  fence_validate (foldl run_fence (mkFenceIssuer [mkFenceEntry "i-1" 2] 1 1)
    [FInvalidate "i-1"; FAdvanceEpoch 2 1; FIssue "i-1"]) "i-1" (mkFenceToken 1 1 1) = false.
Proof.
  apply superseded_token_stays_invalid.
  - apply (bool_decide_unpack _). vm_compute. exact I.
  - right. split; [reflexivity|]. right. split; [reflexivity|].
    exists (mkFenceEntry "i-1" 2). split; [reflexivity|cbn; lia].
  - cbn [advancing advances]. split_and!; try exact I. vm_compute. reflexivity.
Defined.

(** The hypothesis is needed: [advance_epoch] accepts the epoch it already has,
    clears the serials, and the next token issued to an instance is the very token
    its first attempt carried. *)
Theorem same_epoch_reissues_token f i f1 t f2 :
  issuer_ok f -> serials f !! i = None -> fence_issue f i = (f1, Value t) ->
  advance_epoch f1 (fi_epoch f) (fi_boot f) = (f2, Status_success) ->
  fence_validate f2 i t = false /\
  fence_validate (run_fence f2 (FIssue i)) i t = true.
Proof.
  intros Hf Hnone Hi Ha. pose proof (fence_find_serials f i Hf) as Hfind.
  revert Hi Ha. unfold fence_issue, advance_epoch.
  destruct (fence_find f i) as [[n e]|]; [destruct Hfind as (_ & _ & ?); congruence|].
  destruct (id_valid i) eqn:Hid; [|done]. cbn [negb].
  destruct (negb (counter_valid (fi_epoch f)) || negb (counter_valid (fi_boot f))) eqn:Hc; [done|].
  intros [= <- <-]. cbn [fi_epoch set]. rewrite Z.ltb_irrefl. intros [= <-]. split.
  - unfold fence_validate. by repeat case_match.
  - cbn [run_fence]. unfold fence_issue. rewrite Hid. cbn. rewrite Hc. cbn.
    unfold fence_validate, fence_from. cbn. rewrite !Z.eqb_refl. cbn.
    unfold fence_find. cbn. by rewrite decide_True.
Qed.

Lemma same_epoch_reissues_token_witness :
  let t := mkFenceToken 1 1 1 in
  fence_validate (mkFenceIssuer [] 1 1) "i-1" t = false /\
  fence_validate (run_fence (mkFenceIssuer [] 1 1) (FIssue "i-1")) "i-1" t = true.
Proof.
  apply (same_epoch_reissues_token (mkFenceIssuer [] 1 1) "i-1"
    (mkFenceIssuer [mkFenceEntry "i-1" 1] 1 1)); [|reflexivity|reflexivity|reflexivity].
  split; constructor.
Defined.
