(* ===== verification/Dependency.v ===== *)
(** * The dependency graph

    [include/dpu/fabric/engine/dependency.hpp] and [src/engine/dependency.cpp]:
    validation and canonical order of the edges, their queries, and the
    deterministic topological order with its cycle report. *)

From S2P Require Import Prelude Std Reason Types Model.
#[local] Open Scope Z_scope.

Record DependencyGraph := mkDependencyGraph { dg_edges : list Dependency }.
Definition DependencyGraph_default : DependencyGraph := mkDependencyGraph [].

(** ** Building *)
Definition kDependencyKindCount : Z := zlen (@enum_rows DependencyKind _).

(** The validation loop of [build]: the first refusal, if any. *)
Fixpoint validate_edges (edges : list Dependency) : option Status :=
  match edges with
  | [] => None
  | edge :: rest =>
    if negb (id_valid (dep_id edge)) || negb (id_valid (dep_from edge)) ||
       negb (id_valid (dep_to edge)) then
      Some (refuse ReasonCode.InvalidIdentity "dependency edge identity")
    else if bool_decide (dep_from edge = dep_to edge) then
      Some (refuse ReasonCode.SelfDependency (dep_from edge))
    else if kDependencyKindCount <=? enum_ordinal (dep_kind edge) then
      Some (refuse ReasonCode.DependencyKindUnsupported (dep_from edge))
    else validate_edges rest
  end.

(** The comparison of the sort: by (from, to, kind, id). *)
Definition edge_key (d : Dependency) : string * (string * (Z * string)) :=
  (dep_from d, (dep_to d, (enum_ordinal (dep_kind d), dep_id d))).
Definition edge_lt : Dependency -> Dependency -> bool :=
  lt_by edge_key (lex_lt str_lt (lex_lt str_lt (lex_lt Z.ltb str_lt))).

(** The duplicate loop over neighbours. *)
Fixpoint duplicate_edge (edges : list Dependency) : option Status :=
  match edges with
  | previous :: ((current :: _) as rest) =>
    if bool_decide (dep_from previous = dep_from current) &&
       bool_decide (dep_to previous = dep_to current) &&
       bool_decide (dep_kind previous = dep_kind current) then
      Some (refuse ReasonCode.DependencyDuplicate (dep_id previous))
    else duplicate_edge rest
  | _ => None
  end.

(** [DependencyGraph::build] *)
Definition graph_build (g : DependencyGraph) (edges : list Dependency) (max_edges : Z)
  : DependencyGraph * Status :=
  if max_edges <? zlen edges then
    (g, refuse ReasonCode.BoundExceeded "dependency edge count")
  else
  match validate_edges edges with
  | Some refused => (g, refused)
  | None =>
    let edges := std_sort edge_lt edges in
    match duplicate_edge edges with
    | Some refused => (g, refused)
    | None => (mkDependencyGraph edges, Status_success)
    end
  end.

(** ** Queries *)

(** The loop [it != end && it->from == from]. *)
Fixpoint while_from (from : ServiceId) (edges : list Dependency) : list Dependency :=
  match edges with
  | edge :: rest => if bool_decide (dep_from edge = from) then edge :: while_from from rest else []
  | [] => []
  end.

(** [DependencyGraph::outgoing] *)
Definition outgoing (g : DependencyGraph) (from : ServiceId) : list Dependency :=
  while_from from (drop (lower_bound (fun e => str_lt (dep_from e) from) (dg_edges g)) (dg_edges g)).

(** [DependencyGraph::requirements] *)
Definition requirements (g : DependencyGraph) (from : ServiceId) : list ServiceId :=
  foldl (fun out edge =>
    if bool_decide (dep_kind edge = DependencyKind.Requires) ||
       bool_decide (dep_kind edge = DependencyKind.RequiresCapability) then
      if bool_decide (dep_to edge ∈ out) then out else out ++ [dep_to edge]
    else out) [] (outgoing g from).

(** [DependencyGraph::has_edge] *)
Definition has_edge (g : DependencyGraph) (id : ServiceId) : bool :=
  existsb (fun e => bool_decide (dep_from e = id) || bool_decide (dep_to e = id)) (dg_edges g).

(** ** Topological order *)
Definition id_key (x : ServiceId) : ServiceId := x.

(** [std::unique] on a vector. *)
Fixpoint std_unique (l : list ServiceId) : list ServiceId :=
  match l with
  | x :: ((y :: _) as rest) => if bool_decide (x = y) then std_unique rest else x :: std_unique rest
  | other => other
  end.

(** Insertion into a [std::set]. *)
Definition set_insert (x : ServiceId) (s : list ServiceId) : list ServiceId :=
  if bool_decide (x ∈ s) then s else insert_sorted (lt_by id_key str_lt) x s.

Definition Edge : Type := ServiceId * ServiceId.

Section topological.
Context (nodes : list ServiceId).

(** [index_of] *)
Definition index_of (id : ServiceId) : option nat := find_sorted id_key str_lt id nodes.

(** The loop that selects the ordering edges and counts them per dependent. *)
Fixpoint select_edges (all : list Dependency) (edges : list Edge) (indegree : list Z)
  : list Edge * list Z :=
  match all with
  | [] => (edges, indegree)
  | edge :: rest =>
    if bool_decide (dep_kind edge = DependencyKind.RequiresCapability) then
      select_edges rest edges indegree
    else
      match index_of (dep_from edge), index_of (dep_to edge) with
      | Some from, Some _ =>
        select_edges rest (edges ++ [(dep_from edge, dep_to edge)])
          (alter (fun n => n + 1) from indegree)
      | _, _ => select_edges rest edges indegree
      end
  end.

(** The inner loop: emitting [current] releases the services that require it. *)
Fixpoint release_dependents (current : ServiceId) (edges : list Edge) (indegree : list Z)
    (ready : list ServiceId) : list Z * list ServiceId :=
  match edges with
  | [] => (indegree, ready)
  | edge :: rest =>
    if negb (bool_decide (edge.2 = current)) then release_dependents current rest indegree ready
    else
      match index_of edge.1 with
      | None => release_dependents current rest indegree ready
      | Some dependent =>
        if default 0 (indegree !! dependent) =? 0 then
          release_dependents current rest indegree ready
        else
          let indegree := alter (fun n => n - 1) dependent indegree in
          let ready := if default 0 (indegree !! dependent) =? 0
                       then set_insert edge.1 ready else ready in
          release_dependents current rest indegree ready
      end
  end.

(** The loop [while (!ready.empty())]: every pass emits a node, and no node twice,
    so as much fuel as there are nodes suffices.  It returns the nodes still ready
    when it stops, which are none. *)
Fixpoint kahn (fuel : nat) (edges : list Edge) (indegree : list Z) (ready order : list ServiceId)
  : list ServiceId * list ServiceId :=
  match fuel, ready with
  | O, _ | _, [] => (order, ready)
  | S fuel, current :: ready =>
    let order := order ++ [current] in
    match index_of current with
    | None => kahn fuel edges indegree ready order
    | Some _ =>
      let '(indegree, ready) := release_dependents current edges indegree ready in
      kahn fuel edges indegree ready order
    end
  end.
End topological.

Definition edge_pair_lt : Edge -> Edge -> bool := lex_lt str_lt str_lt.

(** The walk that reports a cycle: [path] is kept in order, [cursor] is its last
    node, and the walk follows the first edge into an unresolved node. *)
Fixpoint follow_cycle (guard : nat) (edges : list Edge) (unresolved : list ServiceId)
    (cursor : ServiceId) (path : list ServiceId) : list ServiceId :=
  match guard with
  | O => path
  | S guard =>
    match list_find (fun e => e.1 = cursor /\ e.2 ∈ unresolved) edges with
    | None => path
    | Some (_, (_, next)) =>
      if bool_decide (head path = Some next) then path ++ [next]
      else if bool_decide (next ∈ path) then path ++ [next]
      else follow_cycle guard edges unresolved next (path ++ [next])
    end
  end.

(** [DependencyGraph::topological_order]: the order or the refusal, and the cycle
    path. *)
Definition topological_order (g : DependencyGraph) (services : list ServiceId)
  : Result (list ServiceId) * list ServiceId :=
  let nodes := std_unique (std_sort (lt_by id_key str_lt) services) in
  let '(edges, indegree) :=
    select_edges nodes (dg_edges g) [] (replicate (length nodes) 0) in
  let edges := std_sort edge_pair_lt edges in
  let ready := foldl (fun ready p => if p.2 =? 0 then set_insert p.1 ready else ready) []
                 (zip nodes indegree) in
  let '(order, _) := kahn nodes (length nodes) edges indegree ready [] in
  if negb (zlen order =? zlen nodes) then
    let unresolved := filter (fun n => n ∉ order) nodes in
    match unresolved with
    | [] => (Failed (refuse ReasonCode.DependencyCycle "dependency cycle detected"), [])
    | cursor :: _ =>
      (Failed (refuse ReasonCode.DependencyCycle "dependency cycle detected"),
       follow_cycle (S (length unresolved)) edges unresolved cursor [cursor])
    end
  else (Value order, []).

Example topological_order_chain :
  let dep i f t := mkDependency i f t DependencyKind.Requires in
  (topological_order (mkDependencyGraph [dep "d1" "api" "db"; dep "d2" "web" "api"])
     ["web"; "api"; "db"; "api"]) = (Value ["db"; "api"; "web"], []).
Proof. vm_compute. reflexivity. Qed.
Example topological_order_cycle :
  let dep i f t := mkDependency i f t DependencyKind.Requires in
  (topological_order (mkDependencyGraph [dep "d1" "a" "b"; dep "d2" "b" "a"]) ["b"; "a"; "c"]) =
    (Failed (refuse ReasonCode.DependencyCycle "dependency cycle detected"), ["a"; "b"; "a"]).
Proof. vm_compute. reflexivity. Qed.

(** ** Correctness of the order *)

Lemma std_unique_cons x y l :
  std_unique (x :: y :: l) =
    if bool_decide (x = y) then std_unique (y :: l) else x :: std_unique (y :: l).
Proof. done. Qed.

Lemma std_unique_elem x l : x ∈ std_unique l <-> x ∈ l.
Proof.
  induction l as [|y [|z l] IH]; [done|done|]. rewrite std_unique_cons.
  case_bool_decide as Hyz; [subst|].
  - rewrite IH. rewrite !elem_of_cons. tauto.
  - rewrite elem_of_cons, IH, !elem_of_cons. tauto.
Qed.

Lemma std_unique_strictly l : sorted_by id_key str_lt l -> strictly_by id_key str_lt (std_unique l).
Proof.
  intros Hs. induction Hs as [|x l Hs IH Hx]; [constructor|].
  destruct l as [|y l]; [repeat constructor|]. rewrite std_unique_cons.
  case_bool_decide as Hxy; [exact IH|]. constructor; [exact IH|].
  apply Forall_forall. intros z Hz. rewrite std_unique_elem in Hz.
  assert (Hlt : str_lt x y = true).
  { destruct (str_lt x y) eqn:Hlt; [done|]. destruct Hxy.
    apply (st_total (lt:=str_lt)); [done|]. rewrite Forall_forall in Hx. apply (Hx y). by left. }
  apply elem_of_cons in Hz as [->|Hz]; [done|].
  apply StronglySorted_inv in Hs as [_ Hy]. rewrite Forall_forall in Hy.
  destruct (str_lt x z) eqn:Hxz; [done|]. exfalso.
  pose proof (st_le_trans str_lt z x y) as Ht. unfold id_key in *.
  destruct (str_lt z x) eqn:Hzx.
  - pose proof (st_trans _ _ _ Hzx Hlt) as Hzy. by rewrite (Hy z Hz) in Hzy.
  - pose proof (st_total (lt:=str_lt) _ _ Hxz Hzx) as ->. by rewrite (Hy z Hz) in Hlt.
Qed.

Lemma set_insert_elem x y s : x ∈ set_insert y s <-> x = y \/ x ∈ s.
Proof.
  unfold set_insert. case_bool_decide.
  - split; [tauto|]. by intros [->|].
  - by rewrite insert_sorted_perm, elem_of_cons.
Qed.

Lemma set_insert_NoDup y s : NoDup s -> NoDup (set_insert y s).
Proof.
  intros Hs. unfold set_insert. case_bool_decide; [done|]. rewrite insert_sorted_perm.
  by constructor.
Qed.

Section kahn_proof.
Context (nodes : list ServiceId) (Hnodes : strictly_by id_key str_lt nodes).

Lemma nodes_NoDup : NoDup nodes.
Proof. pose proof (strictly_NoDup _ _ _ Hnodes) as Hn. by rewrite list_fmap_id in Hn. Qed.

Lemma index_of_Some v i : index_of nodes v = Some i <-> nodes !! i = Some v.
Proof.
  split.
  - intros Hi. apply find_sorted_Some in Hi as (x & Hx & <-). done.
  - intros Hi. exact (find_sorted_unique id_key str_lt nodes i v Hnodes Hi).
Qed.

Lemma index_of_elem v : v ∈ nodes -> exists i, index_of nodes v = Some i /\ nodes !! i = Some v.
Proof.
  intros (i & Hi)%list_elem_of_lookup. exists i. by rewrite index_of_Some.
Qed.

Lemma index_of_None v : index_of nodes v = None -> v ∉ nodes.
Proof. intros Hn (i & Hi)%list_elem_of_lookup. apply index_of_Some in Hi. congruence. Qed.

(** Edges of [v] whose dependency is not in [D]. *)
Definition waits (v : ServiceId) (D : list ServiceId) (e : Edge) : Prop := e.1 = v /\ e.2 ∉ D.
#[local] Instance waits_dec v D e : Decision (waits v D e).
Proof. unfold waits. apply _. Defined.
Definition pending (E : list Edge) (D : list ServiceId) (v : ServiceId) : Z :=
  zlen (filter (waits v D) E).

Lemma pending_cons e E D v :
  pending (e :: E) D v = (if decide (waits v D e) then 1 else 0) + pending E D v.
Proof.
  unfold pending. rewrite filter_cons. case_decide; [by rewrite zlen_cons|lia].
Qed.
Lemma pending_snoc e E D v :
  pending (E ++ [e]) D v = pending E D v + (if decide (waits v D e) then 1 else 0).
Proof.
  unfold pending. rewrite filter_app, zlen_app, filter_cons. by case_decide.
Qed.
Lemma pending_nonneg E D v : 0 <= pending E D v.
Proof. apply zlen_nonneg. Qed.

Lemma pending_zero E D v e : pending E D v = 0 -> e ∈ E -> e.1 = v -> e.2 ∈ D.
Proof.
  intros Hp He Hv. destruct (decide (e.2 ∈ D)) as [|Hn]; [done|]. exfalso.
  assert (Hin : e ∈ filter (waits v D) E) by (apply list_elem_of_filter; by split).
  unfold pending in Hp. destruct (filter (waits v D) E) as [|x l]; [by apply elem_of_nil in Hin|].
  rewrite zlen_cons in Hp. pose proof (zlen_nonneg l). lia.
Qed.

Lemma pending_pos E D v : 0 < pending E D v -> exists e, e ∈ E /\ e.1 = v /\ e.2 ∉ D.
Proof.
  unfold pending. destruct (filter (waits v D) E) as [|e l] eqn:Hf; [done|]. intros _.
  assert (Hin : e ∈ filter (waits v D) E) by (rewrite Hf; left).
  apply list_elem_of_filter in Hin as [[H1' H2'] H3']. eauto.
Qed.

(** What the counts mean: the position of [v] holds [count v]. *)
Definition counts (indegree : list Z) (count : ServiceId -> Z) : Prop :=
  length indegree = length nodes /\
  forall i v, nodes !! i = Some v -> indegree !! i = Some (count v).

Lemma counts_alter indegree count f v i :
  counts indegree count -> nodes !! i = Some v ->
  counts (alter f i indegree) (fun w => if decide (w = v) then f (count w) else count w).
Proof.
  intros [Hl Hc] Hi. split; [by rewrite length_alter|]. intros j w Hj.
  destruct (decide (j = i)) as [->|Hji].
  - simplify_eq. rewrite list_lookup_alter_eq, (Hc _ _ Hi). by rewrite decide_True.
  - rewrite list_lookup_alter_ne by done. rewrite (Hc _ _ Hj).
    rewrite decide_False; [done|]. intros ->.
    destruct Hji. exact (NoDup_lookup _ _ _ _ nodes_NoDup Hj Hi).
Qed.

Lemma counts_ext indegree c1 c2 :
  (forall v, v ∈ nodes -> c1 v = c2 v) -> counts indegree c1 -> counts indegree c2.
Proof.
  intros Heq [Hl Hc]. split; [done|]. intros i v Hi. rewrite (Hc i v Hi). f_equal.
  apply Heq. by eapply list_elem_of_lookup_2.
Qed.

(** *** Selecting the edges *)
Definition orders (d : Dependency) : Prop :=
  dep_kind d <> DependencyKind.RequiresCapability /\ dep_from d ∈ nodes /\ dep_to d ∈ nodes.
#[local] Instance orders_dec d : Decision (orders d).
Proof. unfold orders. apply _. Defined.
Definition ordering_edges (all : list Dependency) : list Edge :=
  (fun d => (dep_from d, dep_to d)) <$> filter orders all.

Lemma select_edges_spec all edges indegree :
  counts indegree (pending edges []) ->
  let '(edges', indegree') := select_edges nodes all edges indegree in
  edges' = edges ++ ordering_edges all /\ counts indegree' (pending edges' []).
Proof.
  revert edges indegree. induction all as [|d all IH]; intros edges indegree Hc.
  { cbn. by rewrite app_nil_r. }
  cbn [select_edges]. unfold ordering_edges. rewrite filter_cons.
  assert (Hskip : ~ orders d -> let '(edges', indegree') := select_edges nodes all edges indegree in
    edges' = edges ++ ((fun d => (dep_from d, dep_to d)) <$>
      (if decide (orders d) then d :: filter orders all else filter orders all)) /\
    counts indegree' (pending edges' [])).
  { intros Hn. rewrite decide_False by done. by apply IH. }
  case_bool_decide as Hk; [apply Hskip; by intros [? _]|].
  destruct (index_of nodes (dep_from d)) as [i|] eqn:Hi.
  2: { apply Hskip. intros (_ & Hf & _). by apply index_of_None in Hi. }
  destruct (index_of nodes (dep_to d)) as [j|] eqn:Hj.
  2: { apply Hskip. intros (_ & _ & Ht). by apply index_of_None in Hj. }
  apply index_of_Some in Hi, Hj.
  rewrite decide_True by (split_and!; [done|by eapply list_elem_of_lookup_2..]).
  specialize (IH (edges ++ [(dep_from d, dep_to d)]) (alter (fun n => n + 1) i indegree)).
  destruct (select_edges _ _ _ _) as [edges' indegree'].
  destruct IH as [-> IH]; [|split; [by rewrite <-app_assoc|done]].
  eapply counts_ext; [|apply (counts_alter _ _ _ _ _ Hc Hi)].
  intros v _. cbn beta. rewrite pending_snoc. unfold waits. cbn [fst snd].
  pose proof (not_elem_of_nil (dep_to d)). repeat case_decide; try lia; exfalso; set_solver.
Qed.

(** *** The main loop *)
Context (E : list Edge) (HE : Forall (fun e => e.1 ∈ nodes /\ e.2 ∈ nodes) E).

(** Every emitted node comes after the nodes it requires. *)
Definition ordered (D : list ServiceId) : Prop :=
  forall D1 v D2, D = D1 ++ (v :: D2) -> forall e, e ∈ E -> e.1 = v -> e.2 ∈ D1.

Definition ready_is (ready D : list ServiceId) (count : ServiceId -> Z) : Prop :=
  NoDup ready /\ (forall v, (v ∈ ready) <-> (v ∈ nodes /\ v ∉ D /\ count v = 0)).

Record kahn_inv (indegree : list Z) (ready D : list ServiceId) : Prop := {
  ki_counts : counts indegree (pending E D);
  ki_ready : ready_is ready D (pending E D);
  ki_NoDup : NoDup D;
  ki_sub : D ⊆ nodes;
  ki_ordered : ordered D
}.

(** Emitted nodes wait for nothing outside. *)
Lemma ordered_closed D e : ordered D -> e ∈ E -> e.1 ∈ D -> e.2 ∈ D.
Proof.
  intros Ho He Hin. apply list_elem_of_split in Hin as (D1 & D2 & HD).
  rewrite HD. apply elem_of_app. left. by apply (Ho D1 e.1 D2 HD).
Qed.

(** Halfway through the inner loop: processed edges count against [D ++ [c]],
    the rest still against [D]. *)
(** Passing the dependency [e] while [c] is emitted releases one wait of its source. *)
Lemma pending_shift c D P e Q : c ∉ D -> forall v,
  pending (P ++ [e]) (D ++ [c]) v + pending Q D v =
  pending P (D ++ [c]) v + pending (e :: Q) D v - (if decide (v = e.1 /\ e.2 = c) then 1 else 0).
Proof.
  intros Hc v. rewrite pending_snoc, pending_cons. unfold waits.
  repeat case_decide; try lia; exfalso; set_solver.
Qed.

(** What depends on the service just emitted is not emitted yet. *)
Lemma dependent_not_done e c D : e ∈ E -> e.2 = c -> c ∉ D -> ordered (D ++ [c]) -> e.1 ∉ D ++ [c].
Proof.
  intros He Hec Hc Ho Hin. apply elem_of_app in Hin as [Hin|Hin%list_elem_of_singleton].
  - apply Hc. rewrite <-Hec. apply (ordered_closed D); [|done|done].
    intros D1 v D2 HD. apply (Ho D1 v (D2 ++ [c])). by rewrite HD, <-app_assoc.
  - apply Hc. rewrite <-Hec. by apply (Ho D c []).
Qed.

Lemma release_dependents_spec c D P Q indegree ready :
  E = P ++ Q -> c ∉ D -> ordered (D ++ [c]) ->
  counts indegree (fun v => pending P (D ++ [c]) v + pending Q D v) ->
  ready_is ready (D ++ [c]) (fun v => pending P (D ++ [c]) v + pending Q D v) ->
  let '(indegree', ready') := release_dependents nodes c Q indegree ready in
  counts indegree' (pending E (D ++ [c])) /\ ready_is ready' (D ++ [c]) (pending E (D ++ [c])).
Proof.
  intros HEq Hc Ho. revert P indegree ready HEq.
  induction Q as [|e Q IH]; intros P indegree ready HEq Hcnt Hready.
  - rewrite app_nil_r in HEq. subst P. cbn [release_dependents].
    assert (Hz : forall v, pending E (D ++ [c]) v + pending [] D v = pending E (D ++ [c]) v)
      by (intros v; change (pending [] D v) with 0; lia).
    split; [eapply counts_ext; [|exact Hcnt]; intros v _; apply Hz|].
    destruct Hready as [Hnd Hr]. split; [done|]. intros v. by rewrite Hr, Hz.
  - assert (He : e ∈ E) by (rewrite HEq; set_solver).
    pose proof HE as Hends. rewrite Forall_forall in Hends. destruct (Hends e He) as [Hf Ht].
    pose proof (pending_shift c D P e Q Hc) as Hshift.
    cbn [release_dependents]. case_bool_decide as Hec; cbn [negb].
    2: { apply (IH (P ++ [e])); [by rewrite <-app_assoc|..].
      - eapply counts_ext; [|exact Hcnt]. intros v _. cbn beta. rewrite Hshift.
        rewrite decide_False by tauto. lia.
      - destruct Hready as [Hnd Hr]. split; [done|]. intros v. rewrite Hr, Hshift.
        rewrite decide_False by tauto. by rewrite Z.sub_0_r. }
    destruct (index_of_elem e.1 Hf) as (i & -> & Hi).
    pose proof (proj2 Hcnt _ _ Hi) as Hcount. cbn beta in Hcount. rewrite Hcount. cbn [default from_option id].
    assert (Hpos : 1 <= pending P (D ++ [c]) e.1 + pending (e :: Q) D e.1).
    { rewrite pending_cons, decide_True by (split; [done|by rewrite Hec]).
      pose proof (pending_nonneg P (D ++ [c]) e.1). pose proof (pending_nonneg Q D e.1). lia. }
    destruct (Z.eqb_spec (pending P (D ++ [c]) e.1 + pending (e :: Q) D e.1) 0); [lia|].
    assert (Hcnt' : counts (alter (fun n => n - 1) i indegree)
      (fun v => pending (P ++ [e]) (D ++ [c]) v + pending Q D v)).
    { eapply counts_ext; [|exact (counts_alter _ _ _ _ _ Hcnt Hi)]. intros v _. cbn beta.
      rewrite Hshift. destruct (decide (v = e.1)) as [->|Hv].
      - by rewrite decide_True by done.
      - rewrite decide_False by tauto. lia. }
    rewrite (proj2 Hcnt' _ _ Hi). cbn [default from_option id].
    assert (Hout : e.1 ∉ D ++ [c]) by (by apply (dependent_not_done e)).
    apply (IH (P ++ [e])); [by rewrite <-app_assoc|done|].
    destruct Hready as [Hnd Hr].
    destruct (Z.eqb_spec (pending (P ++ [e]) (D ++ [c]) e.1 + pending Q D e.1) 0) as [Hz|Hz].
    + split; [by apply set_insert_NoDup|]. intros v. rewrite set_insert_elem, Hr.
      destruct (decide (v = e.1)) as [->|Hv]; [split; [done|by left]|].
      rewrite Hshift, decide_False by tauto. rewrite Z.sub_0_r. tauto.
    + split; [done|]. intros v. rewrite Hr. destruct (decide (v = e.1)) as [->|Hv].
      * split; intros (_ & _ & ?); lia.
      * by rewrite Hshift, decide_False, Z.sub_0_r by tauto.
Qed.

Lemma kahn_step indegree current ready D :
  kahn_inv indegree (current :: ready) D ->
  let '(indegree', ready') := release_dependents nodes current E indegree ready in
  kahn_inv indegree' ready' (D ++ [current]).
Proof.
  intros [Hcnt [Hnd Hr] HD Hsub Ho].
  pose proof (proj1 (Hr current) ltac:(left)) as (Hcn & HcD & Hcz).
  apply NoDup_cons in Hnd as [Hcr Hnd].
  assert (Ho' : ordered (D ++ [current])).
  { intros D1 v D2 Heq e He Hv. destruct D2 as [|x D2 _] using rev_ind.
    - apply app_inj_tail in Heq as [-> ->]. by apply (pending_zero E D1 v).
    - rewrite app_comm_cons, app_assoc in Heq. apply app_inj_tail in Heq as [-> ->].
      by apply (Ho D1 v D2). }
  pose proof (release_dependents_spec current D [] E indegree ready eq_refl HcD Ho') as Hspec.
  destruct (release_dependents _ _ _ _ _) as [indegree' ready'].
  destruct Hspec as [Hc' Hr'].
  - eapply counts_ext; [|exact Hcnt]. intros v _. change (pending [] (D ++ [current]) v) with 0. lia.
  - split; [done|]. intros v. change (pending [] (D ++ [current]) v) with 0.
    rewrite Z.add_0_l. split.
    + intros Hv. pose proof (proj1 (Hr v) ltac:(by right)) as (? & ? & ?).
      split_and!; [done| |done]. intros [?|?%list_elem_of_singleton]%elem_of_app; [done|by subst].
    + intros (Hvn & Hv & Hz). assert (Hin : v ∈ current :: ready) by (apply Hr; set_solver).
      apply elem_of_cons in Hin as [->|]; [|done]. destruct Hv. set_solver.
  - split; [done|done| | |done].
    + apply NoDup_app. split_and!; [done| |apply NoDup_singleton]. set_solver.
    + set_solver.
Qed.

Lemma kahn_spec fuel indegree ready D :
  kahn_inv indegree ready D -> (length nodes <= fuel + length D)%nat ->
  exists D' indegree', kahn nodes fuel E indegree ready D = (D', []) /\ kahn_inv indegree' [] D'.
Proof.
  revert indegree ready D. induction fuel as [|fuel IH]; intros indegree ready D Hinv Hf.
  - assert (ready = []) as ->; [|cbn; eauto].
    destruct ready as [|v ready]; [done|]. exfalso. destruct Hinv as [_ [_ Hr] HD Hsub _].
    pose proof (proj1 (Hr v) ltac:(left)) as (Hvn & HvD & _).
    assert (Hle : (length (v :: D) <= length nodes)%nat); [|cbn in *; lia].
    apply submseteq_length, NoDup_submseteq; [by constructor|]. set_solver.
  - cbn [kahn]. destruct ready as [|current ready]; [eauto|].
    pose proof Hinv as [_ [_ Hr] _ _ _].
    pose proof (proj1 (Hr current) ltac:(left)) as (Hcn & _ & _).
    destruct (index_of_elem current Hcn) as (i & -> & _).
    pose proof (kahn_step _ _ _ _ Hinv) as Hstep.
    destruct (release_dependents _ _ _ _ _) as [indegree' ready'].
    apply (IH _ _ _ Hstep). rewrite length_app. cbn. lia.
Qed.
End kahn_proof.

Lemma pending_perm E E' D v : E ≡ₚ E' -> pending E D v = pending E' D v.
Proof. intros Hp. unfold pending, zlen. by rewrite Hp. Qed.

Lemma ready_fold_elem (l : list (ServiceId * Z)) acc :
  NoDup acc ->
  let ready := foldl (fun ready p => if p.2 =? 0 then set_insert p.1 ready else ready) acc l in
  NoDup ready /\ forall v, v ∈ ready <-> v ∈ acc \/ (v, 0) ∈ l.
Proof.
  revert acc. induction l as [|[w n] l IH]; intros acc Hnd; cbn [foldl].
  - split; [done|]. intros v. rewrite elem_of_nil. tauto.
  - cbn [fst snd]. destruct (Z.eqb_spec n 0) as [->|Hn].
    + destruct (IH _ (set_insert_NoDup w acc Hnd)) as [I1 I2]. split; [done|].
      intros v. rewrite I2, set_insert_elem, elem_of_cons. naive_solver.
    + destruct (IH _ Hnd) as [I1 I2]. split; [done|].
      intros v. rewrite I2, elem_of_cons. naive_solver.
Qed.

Section order.
Context (g : DependencyGraph) (services : list ServiceId).

(** The constraint the order must meet: [f] needs [t] first. *)
Definition needs (f t : ServiceId) : Prop :=
  exists d, d ∈ dg_edges g /\ dep_kind d <> DependencyKind.RequiresCapability /\
    dep_from d = f /\ dep_to d = t /\ f ∈ services /\ t ∈ services.

Let nodes : list ServiceId := std_unique (std_sort (lt_by id_key str_lt) services).
Let E : list Edge := std_sort edge_pair_lt (ordering_edges nodes (dg_edges g)).

Lemma nodes_elem v : v ∈ nodes <-> v ∈ services.
Proof. unfold nodes. by rewrite std_unique_elem, elem_of_std_sort. Qed.

Lemma nodes_strictly : strictly_by id_key str_lt nodes.
Proof. apply std_unique_strictly, std_sort_sorted, _. Qed.

Lemma E_elem f t : (f, t) ∈ E <-> needs f t.
Proof.
  unfold E, ordering_edges. rewrite elem_of_std_sort, list_elem_of_fmap. split.
  - intros (d & [= -> ->] & Hd). apply list_elem_of_filter in Hd as [(Hk & Hf & Ht) Hd].
    rewrite nodes_elem in Hf, Ht. exists d. naive_solver.
  - intros (d & Hd & Hk & <- & <- & Hf & Ht). exists d. split; [done|].
    apply list_elem_of_filter. split; [|done]. split_and!; [done|by apply nodes_elem..].
Qed.

Lemma E_nodes : Forall (fun e => e.1 ∈ nodes /\ e.2 ∈ nodes) E.
Proof.
  apply Forall_forall. intros [f t] He. apply E_elem in He as (d & _ & _ & _ & _ & Hf & Ht).
  by rewrite !nodes_elem.
Qed.

(** The whole run, from the selected edges to an exhausted ready set. *)
Lemma topological_run :
  exists D indegree, kahn_inv nodes E indegree [] D /\
    topological_order g services =
      (if negb (zlen D =? zlen nodes) then
         let unresolved := filter (fun n => n ∉ D) nodes in
         match unresolved with
         | [] => (Failed (refuse ReasonCode.DependencyCycle "dependency cycle detected"), [])
         | cursor :: _ =>
           (Failed (refuse ReasonCode.DependencyCycle "dependency cycle detected"),
            follow_cycle (S (length unresolved)) E unresolved cursor [cursor])
         end
       else (Value D, [])).
Proof.
  unfold topological_order. fold nodes.
  assert (Hc0 : counts nodes (replicate (length nodes) 0) (pending [] [])).
  { split; [by rewrite length_replicate|]. intros i v Hi. apply lookup_replicate.
    split; [done|by eapply lookup_lt_Some]. }
  pose proof (select_edges_spec nodes nodes_strictly (dg_edges g) [] _ Hc0) as Hsel.
  destruct (select_edges nodes (dg_edges g) [] _) as [edges indegree].
  destruct Hsel as [-> Hcnt]. cbn [app] in *. fold E.
  assert (HcntE : counts nodes indegree (pending E [])).
  { eapply counts_ext; [|exact Hcnt]. intros v _. symmetry. apply pending_perm, std_sort_perm. }
  destruct (ready_fold_elem (zip nodes indegree) []) as [Hnd Hready]; [constructor|].
  set (ready := foldl _ [] (zip nodes indegree)) in *.
  assert (Hinv : kahn_inv nodes E indegree ready []).
  { split; [done| |constructor|set_solver|by intros [] ? ? ?].
    split; [done|]. intros v. rewrite Hready, elem_of_nil. split.
    - intros [[]|Hin]. apply list_elem_of_lookup in Hin as [i Hi].
      apply lookup_zip_with_Some in Hi as (x & y & [= <- <-] & Hx & Hy).
      pose proof (proj2 HcntE _ _ Hx) as Hz. rewrite Hy in Hz. injection Hz as Hz.
      split_and!; [by eapply list_elem_of_lookup_2|tauto|by symmetry].
    - intros (Hv & _ & Hz). right. apply list_elem_of_lookup in Hv as [i Hi].
      apply (list_elem_of_lookup_2 _ i). apply lookup_zip_with_Some. exists v, 0.
      split_and!; [done|done|]. by rewrite (proj2 HcntE _ _ Hi), Hz. }
  destruct (kahn_spec nodes nodes_strictly E E_nodes (length nodes) indegree ready [] Hinv)
    as (D & indegree' & -> & HD); [lia|]. by exists D, indegree'.
Qed.

(** Everything left over waits for something left over. *)
Lemma unresolved_waits indegree D v :
  kahn_inv nodes E indegree [] D -> v ∈ nodes -> v ∉ D ->
  exists t, (v, t) ∈ E /\ t ∈ nodes /\ t ∉ D.
Proof.
  intros [_ [_ Hr] _ _ _] Hv HvD.
  assert (Hp : pending E D v <> 0).
  { intros Hz. by apply (not_elem_of_nil v), Hr. }
  pose proof (pending_nonneg E D v). destruct (pending_pos E D v) as ([f t] & He & <- & Ht); [lia|].
  exists t. split_and!; [done| |done]. pose proof E_nodes as HE. rewrite Forall_forall in HE.
  by apply (HE _ He).
Qed.

Lemma complete_D D : NoDup D -> D ⊆ nodes -> zlen D = zlen nodes -> forall v, v ∈ nodes -> v ∈ D.
Proof.
  intros Hnd Hsub Hlen v Hv.
  assert (Hp : D ≡ₚ nodes); [|by rewrite Hp].
  apply submseteq_length_Permutation; [|unfold zlen in Hlen; lia].
  by apply NoDup_submseteq.
Qed.

(** An acyclic constraint leaves nothing over. *)
Lemma ranked_complete (rank : ServiceId -> nat) indegree D :
  (forall f t, needs f t -> (rank t < rank f)%nat) -> kahn_inv nodes E indegree [] D ->
  forall v, v ∈ nodes -> v ∈ D.
Proof.
  intros Hrank Hinv v. remember (rank v) as n eqn:Hn. revert v Hn.
  induction n as [n IH] using lt_wf_ind. intros v -> Hv.
  destruct (decide (v ∈ D)) as [|HvD]; [done|]. exfalso.
  destruct (unresolved_waits indegree D v Hinv Hv HvD) as (t & He & Ht & HtD).
  apply HtD, (IH (rank t)); [|done|done]. by apply Hrank, E_elem.
Qed.

(** The walk that reports the cycle. *)
Definition walk (path : list ServiceId) : Prop :=
  forall i x y, path !! i = Some x -> path !! S i = Some y -> needs x y.

Lemma walk_snoc path x y : walk (path ++ [x]) -> needs x y -> walk ((path ++ [x]) ++ [y]).
Proof.
  intros Hw Hn i a b Ha Hb.
  destruct (decide (S i < length (path ++ [x]))%nat) as [Hlt|Hge].
  - rewrite lookup_app_l in Ha by lia. rewrite lookup_app_l in Hb by lia. by apply (Hw i).
  - apply lookup_lt_Some in Hb as Hl. rewrite length_app in Hl. cbn in Hl.
    assert (S i = length (path ++ [x])) as Hi by lia.
    rewrite Hi, list_lookup_middle in Hb by done.
    rewrite length_app in Hi. cbn in Hi. assert (i = length path) as -> by lia.
    rewrite lookup_app_l, list_lookup_middle in Ha; [|done|rewrite length_app; cbn; lia].
    by simplify_eq.
Qed.

Lemma follow_cycle_spec guard unresolved pre cursor :
  (forall v, v ∈ unresolved -> exists t, (v, t) ∈ E /\ t ∈ unresolved) ->
  NoDup (pre ++ [cursor]) -> pre ++ [cursor] ⊆ unresolved -> walk (pre ++ [cursor]) ->
  (length unresolved < guard + length (pre ++ [cursor]))%nat ->
  exists front x back,
    follow_cycle guard E unresolved cursor (pre ++ [cursor]) = front ++ x :: back ++ [x] /\
    walk (front ++ x :: back ++ [x]).
Proof.
  intros Hnext. revert pre cursor.
  induction guard as [|guard IH]; intros pre cursor Hnd Hsub Hw Hg.
  { exfalso. assert ((length (pre ++ [cursor]) <= length unresolved)%nat); [|lia].
    by apply submseteq_length, NoDup_submseteq. }
  cbn [follow_cycle].
  destruct (Hnext cursor) as (t & He & Ht); [apply Hsub; set_solver|].
  destruct (list_find_elem_of (fun e => e.1 = cursor /\ e.2 ∈ unresolved) E (cursor, t) He)
    as [[i [f next]] Hfind]; [by split|]. rewrite Hfind.
  apply list_find_Some in Hfind as (Hi & [Hf Hn] & _). cbn [fst snd] in Hf, Hn. subst f.
  apply list_elem_of_lookup_2, E_elem in Hi.
  pose proof (walk_snoc _ _ _ Hw Hi) as Hw'.
  assert (Hclose : next ∈ pre ++ [cursor] -> exists front x back,
    (pre ++ [cursor]) ++ [next] = front ++ x :: back ++ [x] /\
    walk (front ++ x :: back ++ [x])).
  { intros Hin. apply list_elem_of_split in Hin as (front & back & Heq).
    exists front, next, back. rewrite Heq, <-app_assoc in *. by split. }
  case_bool_decide as Hh.
  { apply Hclose. destruct pre; cbn in Hh; simplify_eq; cbn; set_solver. }
  case_bool_decide as Hin; [by apply Hclose|].
  apply IH; [|set_solver|done|rewrite !length_app in *; cbn in *; lia].
  apply NoDup_app. split_and!; [done| |apply NoDup_singleton]. set_solver.
Qed.
End order.

Lemma topological_order_spec g services :
  match (topological_order g services).1 with
  | Value order =>
    NoDup order /\ (forall s, s ∈ order <-> s ∈ services) /\
    (forall f t, needs g services f t ->
       exists before after, order = before ++ f :: after /\ t ∈ before)
  | Failed s =>
    s = refuse ReasonCode.DependencyCycle "dependency cycle detected" /\
    ~ exists rank : ServiceId -> nat, forall f t, needs g services f t -> (rank t < rank f)%nat
  end.
Proof.
  destruct (topological_run g services) as (D & indegree & Hinv & ->).
  pose proof Hinv as [_ _ Hnd Hsub Ho].
  destruct (Z.eqb_spec (zlen D) (zlen (std_unique (std_sort (lt_by id_key str_lt) services))))
    as [Hlen|Hlen]; cbn [negb].
  - assert (Hall : forall s, s ∈ D <-> s ∈ services).
    { intros s. rewrite <-(nodes_elem services). split; [intros ?; by apply Hsub|].
      by apply (complete_D services D). }
    split_and!; [done|done|]. intros f t Hn.
    assert (Hf : f ∈ D) by (apply Hall; destruct Hn as (d & _ & _ & _ & _ & Hs & _); exact Hs).
    apply list_elem_of_split in Hf as (D1 & D2 & HD). exists D1, D2. split; [done|].
    apply (Ho D1 f D2 HD (f, t)); [by apply E_elem|done].
  - assert (Hno : ~ exists rank : ServiceId -> nat,
      forall f t, needs g services f t -> (rank t < rank f)%nat).
    { intros [rank Hrank]. apply Hlen. unfold zlen. f_equal.
      apply Permutation_length, NoDup_Permutation; [done|apply nodes_NoDup, nodes_strictly|].
      intros v. split; [intros ?; by apply Hsub|]. by apply (ranked_complete g services rank indegree). }
    cbn zeta. by destruct (filter _ _).
Qed.

(** C11. [topological_order] decides whether the services can be ordered. An order
    it returns lists every requested service once, each after the services it
    needs; when it refuses, the reason is [DependencyCycle] and no order exists:
    no ranking of services puts every dependency below its dependent. *)
Theorem topological_order_decides g services :
  match (topological_order g services).1 with
  | Value order =>
    NoDup order /\ (forall s, s ∈ order <-> s ∈ services) /\
    (forall f t, needs g services f t ->
       exists before after, order = before ++ f :: after /\ t ∈ before)
  | Failed s =>
    s = refuse ReasonCode.DependencyCycle "dependency cycle detected" /\
    ~ exists rank : ServiceId -> nat, forall f t, needs g services f t -> (rank t < rank f)%nat
  end.
Proof. apply topological_order_spec. Qed.

(** The cycle reported with a refusal is a cycle: consecutive nodes of the path
    are dependency edges among the services, and the path ends at a node it passed
    before. The walk always closes within its guard. *)
Theorem cycle_report_is_a_cycle g services s path :
  topological_order g services = (Failed s, path) ->
  exists front x back, path = front ++ x :: back ++ [x] /\ walk g services path.
Proof.
  destruct (topological_run g services) as (D & indegree & Hinv & ->).
  destruct (Z.eqb_spec (zlen D) (zlen (std_unique (std_sort (lt_by id_key str_lt) services))))
    as [Hlen|Hlen]; cbn [negb]; [done|]. cbn zeta.
  destruct (filter _ _) as [|cursor rest] eqn:Hun.
  - exfalso. apply Hlen. unfold zlen. f_equal. destruct Hinv as [_ _ Hnd Hsub _].
    apply Permutation_length, NoDup_Permutation; [done|apply nodes_NoDup, nodes_strictly|].
    intros v. split; [intros ?; by apply Hsub|]. intros Hv. destruct (decide (v ∈ D)) as [|HvD]; [done|].
    exfalso. apply (not_elem_of_nil v). rewrite <-Hun. by apply list_elem_of_filter.
  - intros Hpath%(f_equal snd). cbn [snd] in Hpath. rewrite <-Hun in Hpath. subst path.
    assert (Hin : cursor ∈ filter (fun n => n ∉ D)
      (std_unique (std_sort (lt_by id_key str_lt) services))) by (rewrite Hun; left).
    destruct (follow_cycle_spec g services
      (S (length (filter (fun n => n ∉ D) (std_unique (std_sort (lt_by id_key str_lt) services)))))
      (filter (fun n => n ∉ D) (std_unique (std_sort (lt_by id_key str_lt) services))) [] cursor)
      as (front & x & back & Heq & Hw).
    + intros v [HvD Hv]%list_elem_of_filter.
      destruct (unresolved_waits g services indegree D v Hinv Hv HvD) as (t & He & Ht & HtD).
      exists t. split; [done|]. by apply list_elem_of_filter.
    + apply NoDup_singleton.
    + cbn. by intros y ->%list_elem_of_singleton.
    + intros i y z Hy Hz. by destruct i.
    + cbn. lia.
    + exists front, x, back. cbn [app] in Heq. by rewrite Heq.
Qed.

Lemma cycle_report_is_a_cycle_witness :
  let g := mkDependencyGraph [mkDependency "d1" "a" "b" DependencyKind.Requires;
    mkDependency "d2" "b" "a" DependencyKind.Requires] in
  exists front x back, ["a"; "b"; "a"] = front ++ x :: back ++ [x] /\
    walk g ["b"; "a"] ["a"; "b"; "a"].
Proof.
  intros g. apply (cycle_report_is_a_cycle g ["b"; "a"]
    (refuse ReasonCode.DependencyCycle "dependency cycle detected")). vm_compute. reflexivity.
Defined.

(** The answer is a function of the set of services: neither the order in which
    they are listed nor repetitions change the order or the reported cycle. *)
Theorem topological_order_set_only g l k :
  (forall s, s ∈ l <-> s ∈ k) -> topological_order g l = topological_order g k.
Proof.
  intros Heq. unfold topological_order.
  assert (std_unique (std_sort (lt_by id_key str_lt) l) =
          std_unique (std_sort (lt_by id_key str_lt) k)) as ->; [|done].
  pose proof (nodes_strictly l) as Hl. pose proof (nodes_strictly k) as Hk.
  apply (sorted_unique id_key str_lt); [exact (strictly_sorted _ _ _ Hl)|
    exact (strictly_sorted _ _ _ Hk)|exact (strictly_NoDup _ _ _ Hl)|].
  apply NoDup_Permutation; [exact (nodes_NoDup _ Hl)|exact (nodes_NoDup _ Hk)|].
  intros s. rewrite (nodes_elem l), (nodes_elem k). apply Heq.
Qed.

Lemma topological_order_set_only_witness :
  let g := mkDependencyGraph [mkDependency "d1" "a" "b" DependencyKind.Requires] in
  topological_order g ["a"; "b"; "a"] = topological_order g ["b"; "a"].
Proof. intros g. apply topological_order_set_only. intros s. set_solver. Defined.

(** ** Building and querying *)
Lemma sorted_lt_by_from l :
  StronglySorted (fun x y => edge_lt y x = false) l -> sorted_by dep_from str_lt l.
Proof.
  induction 1 as [|x l Hl IH Hx]; constructor; [done|].
  eapply Forall_impl; [exact Hx|]. intros y. unfold edge_lt, lt_by, lex_lt, edge_key.
  cbn [fst snd]. case_bool_decide as Heq; [by rewrite Heq, st_irrefl|done].
Qed.

Lemma while_from_rank from l :
  sorted_by dep_from str_lt l ->
  while_from from (drop (rank dep_from str_lt from l) l) = filter (fun d => dep_from d = from) l.
Proof.
  induction 1 as [|x l Hl IH Hx]; [done|]. cbn [rank].
  destruct (str_lt (dep_from x) from) eqn:Hlt.
  - cbn [drop]. rewrite IH, filter_cons_False; [done|]. intros Heq.
    by rewrite Heq, st_irrefl in Hlt.
  - cbn [drop while_from]. case_bool_decide as Heq.
    + rewrite filter_cons_True by done. f_equal. rewrite <-IH. destruct l as [|y l]; [done|].
      cbn [rank]. apply Forall_cons in Hx as [Hy _].
      destruct (str_lt (dep_from y) from) eqn:Hyf; [|done]. by rewrite <-Heq, Hy in Hyf.
    + rewrite filter_cons_False by done. symmetry. apply filter_Forall_none.
      eapply Forall_impl; [exact Hx|]. cbn. intros y Hy Heq'. subst from.
      by apply Heq, (st_total (lt:=str_lt)).
Qed.

Lemma validate_edges_None edges :
  validate_edges edges = None ->
  Forall (fun d => dep_id d <> "" /\ dep_from d <> "" /\ dep_to d <> "" /\ dep_from d <> dep_to d)
    edges.
Proof.
  induction edges as [|d edges IH]; [constructor|]. cbn [validate_edges].
  destruct (negb (id_valid (dep_id d)) || negb (id_valid (dep_from d)) ||
    negb (id_valid (dep_to d))) eqn:Hv; [done|].
  case_bool_decide as Hself; [done|]. destruct (_ <=? _); [done|]. intros He.
  constructor; [|by apply IH]. bool_prop. split_and!; [..|done]; intros Hem; by rewrite Hem in *.
Qed.

Definition require_step (out : list ServiceId) (edge : Dependency) : list ServiceId :=
  if bool_decide (dep_kind edge = DependencyKind.Requires) ||
     bool_decide (dep_kind edge = DependencyKind.RequiresCapability) then
    if bool_decide (dep_to edge ∈ out) then out else out ++ [dep_to edge]
  else out.

Lemma requirements_fold l out :
  NoDup out ->
  NoDup (foldl require_step out l) /\
  forall s, s ∈ foldl require_step out l <-> s ∈ out \/ exists d, d ∈ l /\
    (dep_kind d = DependencyKind.Requires \/ dep_kind d = DependencyKind.RequiresCapability) /\
    dep_to d = s.
Proof.
  revert out. induction l as [|d l IH]; intros out Hnd; cbn [foldl].
  { split; [done|]. intros s. split; [by left|]. intros [?|(d & ?%elem_of_nil & _)]; done. }
  assert (Hstep : NoDup (require_step out d) /\ forall s, s ∈ require_step out d <-> s ∈ out \/
    ((dep_kind d = DependencyKind.Requires \/ dep_kind d = DependencyKind.RequiresCapability) /\
     dep_to d = s)).
  { unfold require_step. destruct (_ || _) eqn:Hk.
    - apply orb_true_iff in Hk. rewrite !bool_decide_eq_true in Hk. case_bool_decide as Hin.
      + split; [done|]. naive_solver.
      + split; [|set_solver]. apply NoDup_app. split_and!; [done| |apply NoDup_singleton]. set_solver.
    - apply orb_false_iff in Hk. rewrite !bool_decide_eq_false in Hk. split; [done|]. naive_solver. }
  destruct Hstep as [Hnd' Hs]. destruct (IH _ Hnd') as [I1 I2]. split; [done|].
  intros s. rewrite I2, Hs. setoid_rewrite elem_of_cons. naive_solver.
Qed.

(** A graph that builds is the given edges in canonical order, none of them a
    self-dependency or without identity, and its queries are exact: [outgoing]
    returns the edges of a service in order, and [requirements] the services it
    requires, once each. *)
Theorem graph_build_queries g edges max_edges g' status from :
  graph_build g edges max_edges = (g', status) -> status_ok status = true ->
  dg_edges g' ≡ₚ edges /\ zlen (dg_edges g') <= max_edges /\
  Forall (fun d => dep_from d <> dep_to d) (dg_edges g') /\
  outgoing g' from = filter (fun d => dep_from d = from) (dg_edges g') /\
  NoDup (requirements g' from) /\
  forall s, s ∈ requirements g' from <-> exists d, d ∈ edges /\ dep_from d = from /\ dep_to d = s /\
    (dep_kind d = DependencyKind.Requires \/ dep_kind d = DependencyKind.RequiresCapability).
Proof.
  unfold graph_build. destruct (Z.ltb_spec max_edges (zlen edges)); [by intros [= <- <-]|].
  destruct (validate_edges edges) as [refused|] eqn:Hv.
  { intros [= <- <-]. intros Hok. exfalso. revert Hv Hok. clear.
    induction edges as [|d edges IH]; [done|]. cbn [validate_edges].
    destruct (_ || _); [by intros [= <-]|]. destruct (bool_decide _); [by intros [= <-]|].
    destruct (_ <=? _); [by intros [= <-]|done]. }
  destruct (duplicate_edge _) as [refused|] eqn:Hd.
  { intros [= <- <-]. intros Hok. exfalso. revert Hd Hok. generalize (std_sort edge_lt edges).
    induction l as [|x [|y l] IH]; [done|done|]. cbn [duplicate_edge].
    destruct (_ && _); [by intros [= <-]|done]. }
  intros [= <- <-] _. cbn [dg_edges].
  pose proof (std_sort_perm edge_lt edges) as Hp.
  apply validate_edges_None in Hv.
  assert (Hself : Forall (fun d => dep_from d <> dep_to d) (std_sort edge_lt edges)).
  { rewrite Hp. eapply Forall_impl; [exact Hv|]. cbn. tauto. }
  assert (Hout : outgoing (mkDependencyGraph (std_sort edge_lt edges)) from =
    filter (fun d => dep_from d = from) (std_sort edge_lt edges)).
  { unfold outgoing. cbn [dg_edges].
    assert (Hs : sorted_by dep_from str_lt (std_sort edge_lt edges))
      by (apply sorted_lt_by_from; exact (std_sort_sorted edge_key _ edges)).
    rewrite (lower_bound_rank dep_from str_lt) by done. by apply while_from_rank. }
  split_and!; [done|by rewrite std_sort_zlen|done|done|..];
    unfold requirements; rewrite Hout;
    destruct (requirements_fold (filter (fun d => dep_from d = from) (std_sort edge_lt edges)) [])
      as [Hnd Hreq]; [by constructor|exact Hnd|by constructor|].
  intros s. etransitivity; [apply Hreq|]. split.
  - intros [?%elem_of_nil|(d & Hin & Hk & <-)]; [done|].
    apply list_elem_of_filter in Hin as [Hf Hin]. rewrite Hp in Hin. eauto 10.
  - intros (d & Hin & Hf & <- & Hk). right. exists d. split; [|done].
    apply list_elem_of_filter. split; [done|]. by rewrite Hp.
Qed.

Lemma graph_build_queries_witness :
  let e i f t k := mkDependency i f t k in
  let edges := [e "d2" "web" "api" DependencyKind.Requires;
    e "d1" "api" "db" DependencyKind.RequiresCapability] in
  let g' := mkDependencyGraph [e "d1" "api" "db" DependencyKind.RequiresCapability;
    e "d2" "web" "api" DependencyKind.Requires] in
  dg_edges g' ≡ₚ edges /\ zlen (dg_edges g') <= 8 /\
  Forall (fun d => dep_from d <> dep_to d) (dg_edges g') /\
  outgoing g' "api" = filter (fun d => dep_from d = "api") (dg_edges g') /\
  NoDup (requirements g' "api") /\
  forall s, s ∈ requirements g' "api" <-> exists d, d ∈ edges /\ dep_from d = "api" /\ dep_to d = s /\
    (dep_kind d = DependencyKind.Requires \/ dep_kind d = DependencyKind.RequiresCapability).
Proof.
  intros e edges g'.
  apply (graph_build_queries DependencyGraph_default edges 8 g' Status_success "api"); reflexivity.
Defined.
