(* ===== verification/Eligibility.v ===== *)
(** * Placement eligibility

    [include/dpu/fabric/engine/eligibility.hpp] and [src/engine/eligibility.cpp].
    [evaluate] appends one result per check; each block of the handler is a
    definition here that returns the results it pushes, and the verdict folds
    them.  [admissible] says, as a proposition on the device and the service, when
    a device may host a service; [eligible_iff_admissible] is the contract. *)

From S2P Require Import Prelude Std Reason Types Version Resources Digest Model.
#[local] Open Scope Z_scope.

Module RequirementOutcome.
Inductive RequirementOutcome : Set :=
  Satisfied | Violated | Unknown.
#[export] Instance eq_dec : EqDecision RequirementOutcome.
Proof. solve_decision. Defined.
End RequirementOutcome.
Abbreviation RequirementOutcome := RequirementOutcome.RequirementOutcome.
#[export] Instance RequirementOutcome_Enum : Enum RequirementOutcome := {| enum_eq_dec := RequirementOutcome.eq_dec; enum_rows := [
  (RequirementOutcome.Satisfied, "Satisfied"); (RequirementOutcome.Violated, "Violated");
  (RequirementOutcome.Unknown, "Unknown")] |}.
#[export] Instance RequirementOutcome_laws : EnumLaws RequirementOutcome.
Proof. solve_enum_laws. Qed.

Record RequirementResult := mkRequirementResult {
  rr_outcome : RequirementOutcome;
  rr_code : ReasonCode;
  rr_subject : string;
  rr_note : string
}.
#[export] Instance eta_RequirementResult : Settable RequirementResult := fun r =>
  mkRequirementResult (rr_outcome r) (rr_code r) (rr_subject r) (rr_note r).
#[export] Instance RequirementResult_eq_dec : EqDecision RequirementResult.
Proof. solve_decision. Defined.
Definition RequirementResult_default : RequirementResult :=
  mkRequirementResult RequirementOutcome.Unknown ReasonCode.Ok "" "".
Record Eligibility := mkEligibility {
  el_eligible : bool;
  el_unknown : bool;
  el_primary : ReasonCode;
  el_results : list RequirementResult;
  el_evidence_digest : Digest;
  el_topology : TopologyGeneration;
  el_capability : CapabilityGeneration
}.
#[export] Instance eta_Eligibility : Settable Eligibility := fun r =>
  mkEligibility (el_eligible r) (el_unknown r) (el_primary r) (el_results r)
  (el_evidence_digest r) (el_topology r) (el_capability r).
#[export] Instance Eligibility_eq_dec : EqDecision Eligibility.
Proof. solve_decision. Defined.
Definition Eligibility_default : Eligibility :=
  mkEligibility false false ReasonCode.Ok [] Digest_zero 0 0.
(** [RequirementResult::satisfied] and [Eligibility::decisive] *)
Definition satisfied (r : RequirementResult) : bool :=
  bool_decide (rr_outcome r = RequirementOutcome.Satisfied).
Definition decisive (e : Eligibility) : bool := el_eligible e && negb (el_unknown e).

(** ** One capability requirement *)

(** [result] with each of the three outcomes. *)
Definition Satisfied (subject note : string) : RequirementResult :=
  mkRequirementResult RequirementOutcome.Satisfied ReasonCode.Ok subject note.
Definition Violated (code : ReasonCode) (subject note : string) : RequirementResult :=
  mkRequirementResult RequirementOutcome.Violated code subject note.
Definition Unknown (code : ReasonCode) (subject note : string) : RequirementResult :=
  mkRequirementResult RequirementOutcome.Unknown code subject note.

(** [ordered_compare]: [None] when the values are of different kinds or of no
    known kind. *)
Definition ordered_compare (lhs rhs : CapabilityValue) : option Z :=
  if negb (bool_decide (cv_kind lhs = cv_kind rhs)) then None
  else match cv_kind lhs with
  | CapabilityValueKind.Integer =>
    Some (if cv_integer lhs <? cv_integer rhs then -1
          else if cv_integer rhs <? cv_integer lhs then 1 else 0)
  | CapabilityValueKind.Version =>
    Some (match version_compare (cv_version lhs) (cv_version rhs) with
          | Lt => -1 | Gt => 1 | Eq => 0 end)
  | CapabilityValueKind.Flag =>
    Some (if Bool.eqb (cv_flag lhs) (cv_flag rhs) then 0 else if cv_flag lhs then 1 else -1)
  | CapabilityValueKind.Text =>
    Some (if str_lt (cv_text lhs) (cv_text rhs) then -1
          else if str_lt (cv_text rhs) (cv_text lhs) then 1 else 0)
  | CapabilityValueKind.Unknown => None
  end.

(** [EligibilityEvaluator::evaluate_capability] *)
Definition evaluate_capability (capabilities : CapabilitySet) (capabilities_known : bool)
    (requirement : CapabilityRequirement) (key : CapabilityKey) : RequirementResult :=
  let subject := key in
  let observed := capability_find capabilities key in
  if negb capabilities_known then
    Unknown ReasonCode.CapabilityUnknown subject
      "capability state unknown: no fresh capability evidence"
  else if bool_decide (creq_op requirement = CapabilityOp.Absent) then
    match observed with
    | None => Satisfied subject "known absent"
    | Some _ =>
      Violated ReasonCode.CapabilityMismatch subject "capability present but must be absent"
    end
  else
  match observed with
  | None =>
    Violated ReasonCode.CapabilityMissing subject "capability absent from fresh evidence"
  | Some observed =>
    let ordering (accepts : Z -> bool) :=
      match ordered_compare (cap_value observed) (creq_value requirement) with
      | None =>
        Violated ReasonCode.UnsupportedValue subject "capability value kinds are not orderable"
      | Some cmp =>
        if accepts cmp then Satisfied subject "ordered"
        else Violated ReasonCode.CapabilityMismatch subject "ordering requirement not met"
      end in
    match creq_op requirement with
    | CapabilityOp.Present =>
      if bool_decide (cv_kind (cap_value observed) = CapabilityValueKind.Flag) &&
         negb (cv_flag (cap_value observed)) then
        Violated ReasonCode.CapabilityMismatch subject "capability flag is false"
      else Satisfied subject "present"
    | CapabilityOp.Absent =>
      Violated ReasonCode.UnsupportedValue subject "unsupported capability operator"
    | CapabilityOp.Equals =>
      if bool_decide (cap_value observed = creq_value requirement) then Satisfied subject "equal"
      else
        Violated ReasonCode.CapabilityMismatch subject
          ("value differs: observed " +:+ capability_value_to_string (cap_value observed) +:+
           ", required " +:+ capability_value_to_string (creq_value requirement))
    | CapabilityOp.AtLeast => ordering (fun cmp => 0 <=? cmp)
    | CapabilityOp.AtMost => ordering (fun cmp => cmp <=? 0)
    | CapabilityOp.OneOf =>
      if existsb (fun alternative => bool_decide (cap_value observed = alternative))
           (creq_alternatives requirement)
      then Satisfied subject "alternative"
      else Violated ReasonCode.CapabilityMismatch subject "no alternative matched"
    end
  end.

(** ** The blocks of [evaluate] *)
Section evaluate.
Context (dpu : DpuRecord) (service : ServiceDefinition) (policy : PolicyState)
  (now : LogicalInstant).

Definition identity_results : list RequirementResult :=
  if negb (id_valid (dpu_id dpu)) then
    [Violated ReasonCode.InvalidIdentity "<dpu>" "device record has no identity"]
  else [].

Definition state_results : list RequirementResult :=
  if negb (bool_decide (dpu_state dpu = DpuState.Attached)) then
    [Violated ReasonCode.DpuUnavailable (dpu_id dpu)
       ("device state is " +:+ enum_to_string (dpu_state dpu))]
  else [].

(** The chain on device evidence: it pushes a result unless the capabilities are
    known. *)
Definition evidence_result : option RequirementResult :=
  let evidence := dpu_device_evidence dpu in
  let evidence_class := prov_evidence_class (ev_provenance evidence) in
  if negb (evidence_present evidence) then
    Some (Unknown ReasonCode.EvidenceMissing (dpu_id dpu) "no device evidence reference")
  else if negb (fresh_at evidence now) then
    Some (Unknown ReasonCode.EvidenceStale (dpu_id dpu)
            "device evidence is stale at the decision instant")
  else if bool_decide (evidence_class = EvidenceClass.Unsupported) then
    Some (Unknown ReasonCode.CapabilityUnknown (dpu_id dpu)
            "device evidence is marked unsupported")
  else if bool_decide (evidence_class = EvidenceClass.Synthetic) &&
          negb (pol_allow_synthetic_evidence policy) then
    Some (Violated ReasonCode.CapabilityUnknown (dpu_id dpu)
            "policy rejects synthetic device evidence")
  else if negb (counter_valid (dpu_capability_generation dpu)) then
    Some (Unknown ReasonCode.CapabilityUnknown (dpu_id dpu) "no capability generation")
  else None.
Definition capabilities_known : bool := negb (bool_decide (is_Some evidence_result)).

Definition architecture_results : list RequirementResult :=
  match compat_architecture (svc_compatibility service) with
  | None => []
  | Some architecture =>
    let observed := prof_architecture (dpu_profile dpu) in
    if bool_decide (observed = DpuArchitecture.Unknown) then
      [Unknown ReasonCode.CapabilityUnknown (dpu_id dpu) "architecture unknown"]
    else if negb (bool_decide (observed = architecture)) then
      [Violated ReasonCode.ArchitectureMismatch (dpu_id dpu)
         ("architecture is " +:+ enum_to_string observed)]
    else [Satisfied (dpu_id dpu) "architecture"]
  end.

Definition firmware_results : list RequirementResult :=
  match compat_min_firmware (svc_compatibility service) with
  | None => []
  | Some min_firmware =>
    let observed := prof_firmware (dpu_profile dpu) in
    if negb capabilities_known then
      [Unknown ReasonCode.CapabilityUnknown (dpu_id dpu) "firmware level unknown"]
    else if firmware_lt observed min_firmware then
      [Violated ReasonCode.FirmwareLevelUnsupported (dpu_id dpu)
         ("firmware " +:+ firmware_to_string observed +:+ " below required " +:+
          firmware_to_string min_firmware)]
    else [Satisfied (dpu_id dpu) "firmware"]
  end.

Definition datapath_results : list RequirementResult :=
  match compat_datapath (svc_compatibility service) with
  | None => []
  | Some datapath =>
    if bool_decide (datapath = DatapathClass.Unspecified) then []
    else if negb capabilities_known then
      [Unknown ReasonCode.CapabilityUnknown (dpu_id dpu) "datapath class unknown"]
    else if negb (bool_decide (prof_datapath (dpu_profile dpu) = datapath)) then
      [Violated ReasonCode.DatapathUnsupported (dpu_id dpu)
         ("datapath is " +:+ enum_to_string (prof_datapath (dpu_profile dpu)))]
    else [Satisfied (dpu_id dpu) "datapath"]
  end.

(** The body of the loop over [required_isolation]. *)
Definition isolation_result (kind : IsolationKind) : RequirementResult :=
  if negb capabilities_known then
    Unknown ReasonCode.CapabilityUnknown (dpu_id dpu)
      ("isolation " +:+ enum_to_string kind +:+ " unknown")
  else if negb (profile_supports (dpu_profile dpu) kind) then
    Violated ReasonCode.IsolationUnsupported (dpu_id dpu)
      ("isolation " +:+ enum_to_string kind +:+ " unsupported")
  else Satisfied (dpu_id dpu) "isolation".

Definition dedicated_results : list RequirementResult :=
  let isolation := svc_isolation service in
  if bool_decide (iso_kind isolation = IsolationKind.DedicatedDevice) &&
     pol_require_exclusive_scope_for_dedicated_device policy &&
     negb (bool_decide (is_Some (iso_exclusive_scope isolation))) then
    [Violated ReasonCode.ExclusiveScopeRequired (svc_id service)
       "dedicated device isolation requires an exclusive scope"]
  else [].

Definition isolation_kind_results : list RequirementResult :=
  let isolation := svc_isolation service in
  if negb (bool_decide (iso_kind isolation = IsolationKind.None)) ||
     bool_decide (is_Some (iso_exclusive_scope isolation)) then
    if negb capabilities_known then
      [Unknown ReasonCode.CapabilityUnknown (dpu_id dpu) "isolation capability unknown"]
    else if negb (bool_decide (iso_kind isolation = IsolationKind.None)) &&
            negb (profile_supports (dpu_profile dpu) (iso_kind isolation)) then
      [Violated ReasonCode.IsolationUnsupported (dpu_id dpu)
         "service isolation kind unsupported"]
    else [Satisfied (dpu_id dpu) "isolation kind"]
  else [].

Definition capacity_result : RequirementResult :=
  if negb (capabilities_known && negb (rv_is_zero (dpu_capacity dpu))) then
    Unknown ReasonCode.CapacityUnknown (dpu_id dpu) "device capacity unknown"
  else
  match rv_headroom (dpu_capacity dpu) (dpu_allocated dpu) with
  | Failed _ =>
    Violated ReasonCode.AllocationExhausted (dpu_id dpu)
      "accounted allocation exceeds capacity"
  | Value free =>
    if negb (rv_covers free (svc_resources service)) then
      Violated ReasonCode.AllocationExhausted (dpu_id dpu) "insufficient free capacity"
    else Satisfied (dpu_id dpu) "capacity"
  end.

Definition evaluate_results : list RequirementResult :=
  identity_results ++ state_results ++ option_list evidence_result ++
  architecture_results ++ firmware_results ++ datapath_results ++
  map isolation_result (compat_required_isolation (svc_compatibility service)) ++
  dedicated_results ++ isolation_kind_results ++ [capacity_result] ++
  map (fun capability =>
         evaluate_capability (dpu_capabilities dpu) capabilities_known capability
           (creq_key capability))
    (compat_capabilities (svc_compatibility service)).

(** The aggregation loop on [(violated, unknown, primary)]. *)
Definition aggregate_step (acc : bool * bool * ReasonCode) (entry : RequirementResult)
  : bool * bool * ReasonCode :=
  let '(violated, unknown, primary) := acc in
  match rr_outcome entry with
  | RequirementOutcome.Violated =>
    (true, unknown, if violated then primary else rr_code entry)
  | RequirementOutcome.Unknown =>
    (violated, true, if negb violated && bool_decide (primary = ReasonCode.Ok)
                     then rr_code entry else primary)
  | RequirementOutcome.Satisfied => acc
  end.
Definition aggregate (results : list RequirementResult) : bool * bool * ReasonCode :=
  foldl aggregate_step (false, false, ReasonCode.Ok) results.

(** [EligibilityEvaluator::evaluate] *)
Definition evaluate : Eligibility :=
  let '(violated, unknown, primary) := aggregate evaluate_results in
  mkEligibility (negb violated && negb unknown) unknown primary evaluate_results
    (ev_digest (dpu_device_evidence dpu)) (dpu_topology_generation dpu)
    (dpu_capability_generation dpu).
End evaluate.

(** ** Capability requirements *)

(** [lhs] is at most [rhs]: values of one orderable kind, in its order. *)
Definition value_le (lhs rhs : CapabilityValue) : Prop :=
  cv_kind lhs = cv_kind rhs /\
  match cv_kind lhs with
  | CapabilityValueKind.Integer => cv_integer lhs <= cv_integer rhs
  | CapabilityValueKind.Version => version_lt (cv_version rhs) (cv_version lhs) = false
  | CapabilityValueKind.Flag => cv_flag lhs = true -> cv_flag rhs = true
  | CapabilityValueKind.Text => str_lt (cv_text rhs) (cv_text lhs) = false
  | CapabilityValueKind.Unknown => False
  end.

(** What a requirement asks of a capability set. *)
Definition capability_meets (s : CapabilitySet) (r : CapabilityRequirement) (key : CapabilityKey)
  : Prop :=
  match creq_op r with
  | CapabilityOp.Absent => capability_find s key = None
  | CapabilityOp.Present => exists c, capability_find s key = Some c /\
      (cv_kind (cap_value c) = CapabilityValueKind.Flag -> cv_flag (cap_value c) = true)
  | CapabilityOp.Equals => exists c, capability_find s key = Some c /\ cap_value c = creq_value r
  | CapabilityOp.AtLeast => exists c, capability_find s key = Some c /\
      value_le (creq_value r) (cap_value c)
  | CapabilityOp.AtMost => exists c, capability_find s key = Some c /\
      value_le (cap_value c) (creq_value r)
  | CapabilityOp.OneOf => exists c, capability_find s key = Some c /\
      cap_value c ∈ creq_alternatives r
  end.

Lemma version_compare_antisym v w : version_compare w v = CompOpp (version_compare v w).
Proof.
  unfold version_compare. rewrite (Z.compare_antisym (ver_major v)),
    (Z.compare_antisym (ver_minor v)), (Z.compare_antisym (ver_patch v)).
  destruct (_ ?= _); [|done..]. destruct (_ ?= _); [|done..]. destruct (_ ?= _); [|done..]. cbn.
  destruct (decide (ver_prerelease v = ver_prerelease w)) as [->|Hne];
    [by rewrite !bool_decide_true|].
  rewrite !(bool_decide_false (ver_prerelease _ = ver_prerelease _)) by congruence.
  destruct (decide (ver_prerelease v = "")) as [Hv|Hv],
    (decide (ver_prerelease w = "")) as [Hw|Hw];
    rewrite ?Hv, ?Hw, ?(bool_decide_true ("" = "")), ?bool_decide_false by done; try done.
  { congruence. }
  destruct (str_lt (ver_prerelease v) (ver_prerelease w)) eqn:Hlt.
  - by rewrite (st_asym str_lt _ _ Hlt).
  - destruct (str_lt (ver_prerelease w) (ver_prerelease v)) eqn:Hgt; [done|].
    destruct Hne. by apply (st_total (lt:=str_lt)).
Qed.

Lemma ordered_compare_spec lhs rhs :
  (forall cmp, ordered_compare lhs rhs = Some cmp -> (cmp <= 0 <-> value_le lhs rhs) /\
    (0 <= cmp <-> value_le rhs lhs)) /\
  (ordered_compare lhs rhs = None -> ~ value_le lhs rhs /\ ~ value_le rhs lhs).
Proof.
  unfold ordered_compare, value_le. case_bool_decide as Hk; cbn [negb]; cycle 1.
  { split; [done|]. split; intros [? _]; congruence. }
  rewrite <-Hk. destruct (cv_kind lhs); (split; [|try done; tauto]); intros cmp [= <-].
  - destruct (cv_flag lhs), (cv_flag rhs); cbn; split; (split; [|tauto || lia]); intros; try lia;
      tauto || (split; [done|tauto]).
  - destruct (Z.ltb_spec (cv_integer lhs) (cv_integer rhs)),
      (Z.ltb_spec (cv_integer rhs) (cv_integer lhs)); split; (split; [split; [done|]|intros [_ ?]]); lia.
  - destruct (str_lt (cv_text lhs) (cv_text rhs)) eqn:Hlt.
    + rewrite (st_asym str_lt _ _ Hlt). split; (split; [|intros [_ ?]]); done || lia.
    + destruct (str_lt (cv_text rhs) (cv_text lhs)); split; (split; [|intros [_ ?]]); done || lia.
  - unfold version_lt. rewrite (version_compare_antisym (cv_version lhs)).
    destruct (version_compare _ _); cbn; split; (split; [|intros [_ ?]]); done || lia.
Qed.

(** Closes a verdict whose outcome is a constructor. *)
Ltac judge := cbn; split_and!; try done; split; try discriminate; try done; try tauto.

Lemma evaluate_capability_exact s known r key :
  let verdict := evaluate_capability s known r key in
  rr_subject verdict = key /\
  (rr_outcome verdict = RequirementOutcome.Unknown <-> known = false) /\
  (satisfied verdict = true <-> known = true /\ capability_meets s r key).
Proof.
  cbn zeta. unfold evaluate_capability, capability_meets, satisfied.
  destruct known; cbn [negb]; [|cbn; naive_solver].
  destruct (capability_find s key) as [c|]; cycle 1.
  { destruct (creq_op r); cbn; naive_solver. }
  assert (Hc : forall P, (exists c', Some c = Some c' /\ P c') <-> P c) by naive_solver.
  destruct (ordered_compare_spec (cap_value c) (creq_value r)) as [Hs Hn].
  destruct (creq_op r); rewrite ?Hc; clear Hc.
  - clear Hs Hn. destruct (cv_kind (cap_value c)), (cv_flag (cap_value c)); cbn; naive_solver.
  - clear Hs Hn. naive_solver.
  - clear Hs Hn. destruct (decide (cap_value c = creq_value r)) as [Heq|Hne];
      [rewrite (bool_decide_true (cap_value c = creq_value r)) by done|rewrite (bool_decide_false (cap_value c = creq_value r)) by done];
      judge.
  - destruct (ordered_compare _ _) as [cmp|]; [|cbn; specialize (Hn eq_refl); clear Hs; naive_solver].
    destruct (Hs cmp eq_refl) as [_ <-]. clear Hs Hn.
    destruct (Z.leb_spec 0 cmp); judge; lia || (split; [done|lia]) || (intros [_ ?]; lia).
  - destruct (ordered_compare _ _) as [cmp|]; [|cbn; specialize (Hn eq_refl); clear Hs; naive_solver].
    destruct (Hs cmp eq_refl) as [<- _]. clear Hs Hn.
    destruct (Z.leb_spec cmp 0); judge; lia || (split; [done|lia]) || (intros [_ ?]; lia).
  - destruct (existsb _ _) eqn:He; cbn.
    + apply existsb_exists in He as (a & Hin%list_elem_of_In & Heq%bool_decide_eq_true). subst a. naive_solver.
    + split_and!; [done|by split|]. split; [done|]. intros [_ Hin].
      apply not_true_iff_false in He. destruct He. apply existsb_exists.
      exists (cap_value c). split; [by apply list_elem_of_In|by apply bool_decide_eq_true].
Qed.

Lemma evaluate_capability_satisfied s known r key :
  satisfied (evaluate_capability s known r key) = true <->
  known = true /\ capability_meets s r key.
Proof. apply evaluate_capability_exact. Qed.

(** One capability requirement is judged exactly: the verdict names the key; it
    is [Unknown] precisely when the capabilities are not known, whatever they are;
    and it is [Satisfied] precisely when they are known and meet the requirement. *)
Theorem capability_requirement_exact s known r key :
  let verdict := evaluate_capability s known r key in
  rr_subject verdict = key /\
  (rr_outcome verdict = RequirementOutcome.Unknown <-> known = false) /\
  (satisfied verdict = true <-> known = true /\ capability_meets s r key).
Proof. apply evaluate_capability_exact. Qed.

(** ** The verdict *)

(** When a device may host a service at [now], under [policy]. *)
Record admissible (dpu : DpuRecord) (service : ServiceDefinition) (policy : PolicyState)
    (now : LogicalInstant) : Prop := {
  ad_identity : dpu_id dpu <> "";
  ad_attached : dpu_state dpu = DpuState.Attached;
  ad_evidence : ev_id (dpu_device_evidence dpu) <> "";
  ad_fresh : ev_observed_at (dpu_device_evidence dpu) <= now <=
             ev_valid_until (dpu_device_evidence dpu);
  ad_supported : prov_evidence_class (ev_provenance (dpu_device_evidence dpu)) <>
                 EvidenceClass.Unsupported;
  ad_synthetic : prov_evidence_class (ev_provenance (dpu_device_evidence dpu)) =
                 EvidenceClass.Synthetic -> pol_allow_synthetic_evidence policy = true;
  ad_generation : dpu_capability_generation dpu <> 0;
  ad_architecture : forall a, compat_architecture (svc_compatibility service) = Some a ->
    prof_architecture (dpu_profile dpu) = a /\ a <> DpuArchitecture.Unknown;
  ad_firmware : forall f, compat_min_firmware (svc_compatibility service) = Some f ->
    firmware_lt (prof_firmware (dpu_profile dpu)) f = false;
  ad_datapath : forall d, compat_datapath (svc_compatibility service) = Some d ->
    d = DatapathClass.Unspecified \/ prof_datapath (dpu_profile dpu) = d;
  ad_isolation : forall k, k ∈ compat_required_isolation (svc_compatibility service) ->
    k ∈ prof_isolation (dpu_profile dpu);
  ad_dedicated : iso_kind (svc_isolation service) = IsolationKind.DedicatedDevice ->
    pol_require_exclusive_scope_for_dedicated_device policy = true ->
    is_Some (iso_exclusive_scope (svc_isolation service));
  ad_isolation_kind : iso_kind (svc_isolation service) = IsolationKind.None \/
    iso_kind (svc_isolation service) ∈ prof_isolation (dpu_profile dpu);
  ad_capacity : rv_is_zero (dpu_capacity dpu) = false;
  ad_free : exists free, rv_headroom (dpu_capacity dpu) (dpu_allocated dpu) = Value free /\
    rv_covers free (svc_resources service) = true;
  ad_capabilities : forall r, r ∈ compat_capabilities (svc_compatibility service) ->
    capability_meets (dpu_capabilities dpu) r (creq_key r)
}.

(** The outcomes of the aggregation. *)
Definition first_with (o : RequirementOutcome) (results : list RequirementResult)
  : option RequirementResult :=
  snd <$> list_find (fun r => rr_outcome r = o) results.

Lemma first_with_cons o x l :
  first_with o (x :: l) = if bool_decide (rr_outcome x = o) then Some x else first_with o l.
Proof.
  unfold first_with. cbn [list_find]. destruct (decide (rr_outcome x = o)).
  - by rewrite bool_decide_true.
  - rewrite bool_decide_false by done. by destruct (list_find _ l) as [[]|].
Qed.

Lemma first_with_elem o l x : first_with o l = Some x -> x ∈ l /\ rr_outcome x = o.
Proof.
  unfold first_with. intros ([i y] & Hf & [= ->])%fmap_Some.
  apply list_find_Some in Hf as (Hl & Ho & _). split; [by eapply list_elem_of_lookup_2|done].
Qed.

(** Every result that is not [Satisfied] has a code of its own. *)
Definition coded (r : RequirementResult) : Prop :=
  rr_outcome r = RequirementOutcome.Satisfied \/ rr_code r <> ReasonCode.Ok.

Definition blocking (results : list RequirementResult) : option RequirementResult :=
  match first_with RequirementOutcome.Violated results with
  | Some r => Some r
  | None => first_with RequirementOutcome.Unknown results
  end.

Lemma aggregate_from v u p results :
  Forall coded results ->
  foldl aggregate_step (v, u, p) results =
    (v || bool_decide (is_Some (first_with RequirementOutcome.Violated results)),
     u || bool_decide (is_Some (first_with RequirementOutcome.Unknown results)),
     if v then p else
     match first_with RequirementOutcome.Violated results with
     | Some r => rr_code r
     | None => if bool_decide (p = ReasonCode.Ok)
               then from_option rr_code p (first_with RequirementOutcome.Unknown results) else p
     end).
Proof.
  intros Hc. revert v u p. induction Hc as [|x l Hx Hc IH]; intros v u p.
  { cbn. rewrite !orb_false_r. destruct v; [done|]. by case_bool_decide. }
  cbn [foldl]. rewrite !first_with_cons. destruct x as [o c s n].
  unfold aggregate_step at 2. cbn [rr_outcome rr_code].
  destruct o.
  - by rewrite IH.
  - rewrite IH.
    change (bool_decide (RequirementOutcome.Violated = RequirementOutcome.Violated)) with true.
    change (bool_decide (RequirementOutcome.Violated = RequirementOutcome.Unknown)) with false.
    cbn iota. rewrite (bool_decide_true (is_Some (Some _))) by done. rewrite orb_true_r.
    by destruct v.
  - rewrite IH. destruct Hx as [Hx|Hx]; [done|]. cbn [rr_code] in Hx.
    change (bool_decide (RequirementOutcome.Unknown = RequirementOutcome.Violated)) with false.
    change (bool_decide (RequirementOutcome.Unknown = RequirementOutcome.Unknown)) with true.
    cbn iota. rewrite (bool_decide_true (is_Some (Some _))) by done. rewrite orb_true_r.
    destruct v; [done|]. f_equal.
    destruct (first_with RequirementOutcome.Violated l); [done|]. cbn [negb andb from_option rr_code].
    destruct (decide (p = ReasonCode.Ok)) as [->|Hp].
    + rewrite (bool_decide_true (ReasonCode.Ok = ReasonCode.Ok)) by done.
      by rewrite (bool_decide_false (c = ReasonCode.Ok)).
    + by rewrite !(bool_decide_false (p = ReasonCode.Ok)).
Qed.

Lemma satisfied_outcome r : satisfied r = true <-> rr_outcome r = RequirementOutcome.Satisfied.
Proof. apply bool_decide_eq_true. Qed.

Lemma coded_Satisfied subject note : coded (Satisfied subject note).
Proof. by left. Qed.
Lemma coded_Violated c subject note : c <> ReasonCode.Ok -> coded (Violated c subject note).
Proof. by right. Qed.
Lemma coded_Unknown c subject note : c <> ReasonCode.Ok -> coded (Unknown c subject note).
Proof. by right. Qed.

(** Case analysis on a block of results. *)
Ltac blocks :=
  repeat match goal with
    | |- context [if ?b then _ else _] => destruct b; cbn [negb andb orb]
    | |- context [match ?x with Some _ => _ | None => _ end] => destruct x
    | |- context [match ?x with Value _ => _ | Failed _ => _ end] => destruct x
    end.
Ltac solve_coded :=
  first [apply coded_Satisfied | apply coded_Violated; discriminate
    | apply coded_Unknown; discriminate].

Lemma evaluate_capability_coded s known r key : coded (evaluate_capability s known r key).
Proof.
  unfold evaluate_capability. cbn zeta. destruct (creq_op r); blocks; solve_coded.
Qed.

Section verdict.
Context (dpu : DpuRecord) (service : ServiceDefinition) (policy : PolicyState)
  (now : LogicalInstant).

Lemma evaluate_results_coded : Forall coded (evaluate_results dpu service policy now).
Proof.
  unfold evaluate_results. rewrite !Forall_app, !Forall_cons. split_and!; try apply Forall_nil_2.
  1: unfold identity_results. 2: unfold state_results. 3: unfold evidence_result.
  4: unfold architecture_results. 5: unfold firmware_results. 6: unfold datapath_results.
  8: unfold dedicated_results. 9: unfold isolation_kind_results. 10: unfold capacity_result.
  1-6,8-10: blocks; cbn [option_list];
    first [apply Forall_nil_2 | apply Forall_singleton; solve_coded | solve_coded].
  - apply Forall_forall. intros r (k & -> & _)%list_elem_of_fmap. unfold isolation_result.
    blocks; solve_coded.
  - apply Forall_forall. intros r (k & -> & _)%list_elem_of_fmap. apply evaluate_capability_coded.
Qed.
End verdict.

Lemma first_with_None o l : first_with o l = None <-> Forall (fun r => rr_outcome r <> o) l.
Proof.
  unfold first_with. rewrite fmap_None, list_find_None. done.
Qed.

Lemma blocking_elem l r :
  blocking l = Some r -> r ∈ l /\ rr_outcome r <> RequirementOutcome.Satisfied.
Proof.
  unfold blocking. destruct (first_with RequirementOutcome.Violated l) as [x|] eqn:Hv.
  - intros [= <-]. apply first_with_elem in Hv as [? ->]. done.
  - intros Hu. apply first_with_elem in Hu as [? ->]. done.
Qed.

Lemma aggregate_eligible results :
  Forall coded results ->
  let '(v, u, p) := aggregate results in
  (negb v && negb u = true <-> Forall (fun r => satisfied r = true) results) /\
  (u = true <-> exists r, r ∈ results /\ rr_outcome r = RequirementOutcome.Unknown) /\
  p = from_option rr_code ReasonCode.Ok (blocking results).
Proof.
  intros Hc. unfold aggregate. rewrite (aggregate_from _ _ _ _ Hc). cbn [orb].
  split_and!.
  - rewrite andb_true_iff, !negb_true_iff, !bool_decide_eq_false, <-!eq_None_not_Some, !first_with_None.
    rewrite <-Forall_and. split; intros Hf; (eapply Forall_impl; [exact Hf|]); cbn; intros r.
    + intros [? ?]. apply satisfied_outcome. by destruct (rr_outcome r).
    + intros ->%satisfied_outcome. done.
  - rewrite bool_decide_eq_true. split.
    + intros [r Hr]. exists r. by apply first_with_elem.
    + intros (r & Hr & Ho). apply not_eq_None_Some. rewrite first_with_None, Forall_forall. naive_solver.
  - unfold blocking. rewrite bool_decide_true by done. by destruct (first_with _ results).
Qed.

Lemma evaluate_spec dpu service policy now :
  let verdict := evaluate dpu service policy now in
  el_results verdict = evaluate_results dpu service policy now /\
  (el_eligible verdict = true <->
     Forall (fun r => satisfied r = true) (evaluate_results dpu service policy now)) /\
  (el_unknown verdict = true <-> exists r, r ∈ evaluate_results dpu service policy now /\
     rr_outcome r = RequirementOutcome.Unknown) /\
  el_primary verdict =
    from_option rr_code ReasonCode.Ok (blocking (evaluate_results dpu service policy now)).
Proof.
  cbn zeta. unfold evaluate.
  pose proof (aggregate_eligible _ (evaluate_results_coded dpu service policy now)) as Ha.
  destruct (aggregate _) as [[v u] p]. done.
Qed.

Section admission.
Context (dpu : DpuRecord) (service : ServiceDefinition) (policy : PolicyState)
  (now : LogicalInstant).
#[local] Notation all_satisfied := (Forall (fun r => satisfied r = true)).

Lemma identity_admits : all_satisfied (identity_results dpu) <-> dpu_id dpu <> "".
Proof.
  rewrite <-id_valid_true. unfold identity_results. destruct (id_valid _); cbn [negb].
  - by rewrite Forall_nil.
  - rewrite Forall_singleton. done.
Qed.

Lemma state_admits : all_satisfied (state_results dpu) <-> dpu_state dpu = DpuState.Attached.
Proof.
  unfold state_results. case_bool_decide; cbn [negb]; [by rewrite Forall_nil|].
  rewrite Forall_singleton. cbn. naive_solver.
Qed.

Lemma evidence_admits :
  all_satisfied (option_list (evidence_result dpu policy now)) <->
  capabilities_known dpu policy now = true.
Proof.
  unfold capabilities_known. destruct (evidence_result _ _ _) as [r|] eqn:Hr; cbn [option_list].
  - change (option_list (Some r)) with [r].
    rewrite Forall_singleton, bool_decide_true by done. cbn [negb]. split; [|done].
    intros Hs. exfalso. revert Hr Hs. unfold evidence_result. blocks; by intros [= <-].
  - change (option_list None) with (@nil RequirementResult).
    rewrite Forall_nil, bool_decide_false by (by intros []). done.
Qed.

Lemma known_spec :
  capabilities_known dpu policy now = true <->
  ev_id (dpu_device_evidence dpu) <> "" /\
  ev_observed_at (dpu_device_evidence dpu) <= now <= ev_valid_until (dpu_device_evidence dpu) /\
  prov_evidence_class (ev_provenance (dpu_device_evidence dpu)) <> EvidenceClass.Unsupported /\
  (prov_evidence_class (ev_provenance (dpu_device_evidence dpu)) = EvidenceClass.Synthetic ->
     pol_allow_synthetic_evidence policy = true) /\
  dpu_capability_generation dpu <> 0.
Proof.
  rewrite <-id_valid_true, <-counter_valid_true.
  assert (Hk : forall o : option RequirementResult,
    negb (bool_decide (is_Some o)) = true <-> o = None).
  { intros o. rewrite negb_true_iff, bool_decide_eq_false. symmetry. apply eq_None_not_Some. }
  unfold capabilities_known. rewrite Hk. clear Hk. unfold evidence_result, evidence_present, fresh_at.
  destruct (id_valid _); cbn [negb]; [|naive_solver].
  destruct (Z.leb_spec now (ev_valid_until (dpu_device_evidence dpu))),
    (Z.leb_spec (ev_observed_at (dpu_device_evidence dpu)) now); cbn [negb andb];
    try (split; [done|intros (_ & ? & _); lia]).
  destruct (prov_evidence_class _), (pol_allow_synthetic_evidence _), (counter_valid _); cbn;
    naive_solver.
Qed.

Lemma architecture_admits :
  all_satisfied (architecture_results dpu service) <->
  forall a, compat_architecture (svc_compatibility service) = Some a ->
    prof_architecture (dpu_profile dpu) = a /\ a <> DpuArchitecture.Unknown.
Proof.
  unfold architecture_results. destruct (compat_architecture _) as [a|]; [|by rewrite Forall_nil].
  assert (Ha : forall P : DpuArchitecture -> Prop, (forall b, Some a = Some b -> P b) <-> P a)
    by naive_solver.
  rewrite Ha. repeat case_bool_decide; cbn [negb]; rewrite Forall_singleton; cbn; naive_solver.
Qed.

Lemma dedicated_admits :
  all_satisfied (dedicated_results service policy) <->
  (iso_kind (svc_isolation service) = IsolationKind.DedicatedDevice ->
   pol_require_exclusive_scope_for_dedicated_device policy = true ->
   is_Some (iso_exclusive_scope (svc_isolation service))).
Proof.
  unfold dedicated_results.
  destruct (pol_require_exclusive_scope_for_dedicated_device policy); cycle 1.
  { rewrite andb_false_r. cbn [andb]. rewrite Forall_nil. naive_solver. }
  repeat case_bool_decide; cbn [negb andb]; rewrite ?Forall_nil, ?Forall_singleton; cbn; naive_solver.
Qed.

Section known.
Hypothesis (Hknown : capabilities_known dpu policy now = true).

Lemma firmware_admits :
  all_satisfied (firmware_results dpu service policy now) <->
  forall f, compat_min_firmware (svc_compatibility service) = Some f ->
    firmware_lt (prof_firmware (dpu_profile dpu)) f = false.
Proof using Hknown.
  unfold firmware_results. rewrite Hknown. cbn [negb].
  destruct (compat_min_firmware _) as [f|]; [|by rewrite Forall_nil].
  assert (Ha : forall P : FirmwareApiLevel -> Prop, (forall b, Some f = Some b -> P b) <-> P f)
    by naive_solver.
  rewrite Ha. destruct (firmware_lt _ _); rewrite Forall_singleton; done.
Qed.

Lemma datapath_admits :
  all_satisfied (datapath_results dpu service policy now) <->
  forall d, compat_datapath (svc_compatibility service) = Some d ->
    d = DatapathClass.Unspecified \/ prof_datapath (dpu_profile dpu) = d.
Proof using Hknown.
  unfold datapath_results. rewrite Hknown. cbn [negb].
  destruct (compat_datapath _) as [d|]; [|by rewrite Forall_nil].
  assert (Ha : forall P : DatapathClass -> Prop, (forall b, Some d = Some b -> P b) <-> P d)
    by naive_solver.
  rewrite Ha. repeat case_bool_decide; cbn [negb]; rewrite ?Forall_nil, ?Forall_singleton; cbn;
    naive_solver.
Qed.

Lemma isolation_admits :
  all_satisfied (map (isolation_result dpu policy now)
    (compat_required_isolation (svc_compatibility service))) <->
  forall k, k ∈ compat_required_isolation (svc_compatibility service) ->
    k ∈ prof_isolation (dpu_profile dpu).
Proof using Hknown.
  change (map ?f ?l) with (f <$> l). rewrite Forall_fmap, Forall_forall.
  unfold compose, isolation_result, profile_supports. rewrite Hknown. cbn [negb].
  split; intros Hall k Hk; specialize (Hall k Hk); revert Hall; case_bool_decide; done.
Qed.

Lemma isolation_kind_admits :
  all_satisfied (isolation_kind_results dpu service policy now) <->
  iso_kind (svc_isolation service) = IsolationKind.None \/
  iso_kind (svc_isolation service) ∈ prof_isolation (dpu_profile dpu).
Proof using Hknown.
  unfold isolation_kind_results, profile_supports. rewrite Hknown.
  repeat case_bool_decide; cbn [negb andb orb]; rewrite ?Forall_nil, ?Forall_singleton; cbn;
    naive_solver.
Qed.

Lemma capacity_admits :
  satisfied (capacity_result dpu service policy now) = true <->
  rv_is_zero (dpu_capacity dpu) = false /\
  exists free, rv_headroom (dpu_capacity dpu) (dpu_allocated dpu) = Value free /\
    rv_covers free (svc_resources service) = true.
Proof using Hknown.
  unfold capacity_result. rewrite Hknown. destruct (rv_is_zero _); cbn [negb andb]; [naive_solver|].
  destruct (rv_headroom _ _) as [free|]; [|naive_solver].
  destruct (rv_covers _ _) eqn:Hc; cbn [negb]; naive_solver.
Qed.

Lemma capabilities_admit :
  all_satisfied (map (fun capability => evaluate_capability (dpu_capabilities dpu)
      (capabilities_known dpu policy now) capability (creq_key capability))
    (compat_capabilities (svc_compatibility service))) <->
  forall r, r ∈ compat_capabilities (svc_compatibility service) ->
    capability_meets (dpu_capabilities dpu) r (creq_key r).
Proof using Hknown.
  change (map ?f ?l) with (f <$> l). rewrite Forall_fmap, Forall_forall.
  unfold compose. split; intros Hall r Hr; specialize (Hall r Hr); revert Hall;
    rewrite evaluate_capability_satisfied; tauto.
Qed.
End known.

(** The results are all satisfied exactly when the device is admissible. *)
Lemma admission :
  all_satisfied (evaluate_results dpu service policy now) <->
  admissible dpu service policy now.
Proof.
  unfold evaluate_results. rewrite !Forall_app, Forall_singleton, identity_admits, state_admits,
    evidence_admits, architecture_admits, dedicated_admits.
  split.
  - intros (Hi & Hs & Hk & Ha & Hf & Hd & Hr & Hded & Hkind & Hc & Hcap).
    rewrite firmware_admits in Hf by done. rewrite datapath_admits in Hd by done.
    rewrite isolation_admits in Hr by done. rewrite isolation_kind_admits in Hkind by done.
    rewrite capacity_admits in Hc by done. rewrite capabilities_admit in Hcap by done.
    apply known_spec in Hk. destruct_and!. by split.
  - intros [].
    assert (Hk : capabilities_known dpu policy now = true) by (apply known_spec; tauto).
    rewrite firmware_admits, datapath_admits, isolation_admits, isolation_kind_admits,
      capacity_admits, capabilities_admit by done. tauto.
Qed.
End admission.

Lemma eligible_admissible dpu service policy now :
  el_eligible (evaluate dpu service policy now) = true <-> admissible dpu service policy now.
Proof.
  destruct (evaluate_spec dpu service policy now) as (_ & He & _). by rewrite He, admission.
Qed.

(** C12. [evaluate] admits a device exactly when it is admissible for the service:
    identified, attached, described by fresh supported evidence of a known
    capability generation, with matching architecture, firmware, datapath and
    isolation, free capacity, and every required capability. *)
Theorem eligible_iff_admissible dpu service policy now :
  el_eligible (evaluate dpu service policy now) = true <-> admissible dpu service policy now.
Proof. apply eligible_admissible. Qed.

(** Unknown is never collapsed: the [unknown] flag is set exactly when some check
    could not be evaluated, and then the device is not eligible; without fresh
    supported evidence the flag or a refusal by policy is there.  A device that is
    not eligible cites a check that blocks it, a violated one if there is any, and
    the code it cites is not [Ok]. *)
Theorem verdict_cites_its_blocker dpu service policy now :
  let verdict := evaluate dpu service policy now in
  (el_unknown verdict = true <->
     exists r, r ∈ el_results verdict /\ rr_outcome r = RequirementOutcome.Unknown) /\
  (el_unknown verdict = true -> el_eligible verdict = false) /\
  (el_eligible verdict = true -> el_primary verdict = ReasonCode.Ok) /\
  (el_eligible verdict = false ->
     el_primary verdict <> ReasonCode.Ok /\
     exists r, r ∈ el_results verdict /\ rr_code r = el_primary verdict /\
       (rr_outcome r = RequirementOutcome.Violated \/
        rr_outcome r = RequirementOutcome.Unknown /\
        Forall (fun r => rr_outcome r <> RequirementOutcome.Violated) (el_results verdict))).
Proof.
  cbn zeta. destruct (evaluate_spec dpu service policy now) as (-> & He & Hu & ->).
  pose proof (evaluate_results_coded dpu service policy now) as Hc.
  generalize dependent (evaluate_results dpu service policy now). intros results He Hu Hc.
  rewrite Forall_forall in He, Hc. split_and!; [done|..].
  - intros (r & Hr & Ho)%Hu. apply not_true_iff_false. intros Hall.
    pose proof (proj1 He Hall r Hr) as Hsat.
    apply satisfied_outcome in Hsat. congruence.
  - intros Heq. pose proof (proj1 He Heq) as Hall. destruct (blocking results) as [r|] eqn:Hb; [|done].
    pose proof (blocking_elem _ _ Hb) as Hr.
    destruct Hr as [Hr []]. by apply satisfied_outcome, Hall.
  - intros Hne. unfold blocking.
    assert (Hcode : forall r, r ∈ results -> rr_outcome r <> RequirementOutcome.Satisfied ->
      rr_code r <> ReasonCode.Ok) by (intros r Hr ?; by destruct (Hc r Hr)).
    destruct (first_with RequirementOutcome.Violated results) as [r|] eqn:Hv; cbn [from_option].
    { apply first_with_elem in Hv as [Hr Ho]. split; [apply Hcode; congruence|]. eauto 6. }
    apply first_with_None in Hv.
    destruct (first_with RequirementOutcome.Unknown results) as [r|] eqn:Hu'; cbn [from_option].
    { apply first_with_elem in Hu' as [Hr Ho]. split; [apply Hcode; congruence|]. eauto 8. }
    apply first_with_None in Hu'. exfalso. apply not_true_iff_false in Hne. apply Hne, (proj2 He).
    intros r Hr. apply satisfied_outcome. rewrite Forall_forall in Hv, Hu'.
    specialize (Hv r Hr). specialize (Hu' r Hr). by destruct (rr_outcome r).
Qed.
