(* ===== verification/Planner.v ===== *)
(** * Placement planning

    [include/dpu/fabric/engine/planner.hpp] and [src/engine/planner.cpp].  The
    body of [build_plan] is cut at its comments: intent validation, service set
    and dependency closure, candidate devices, placement, staged rollout.  Each
    part returns either what the next part uses or the outcome the program
    returns early ([inl]).  The [std::map]s are [gmap]s; an entry that
    [operator[]] creates with value 0 is not distinguished from an absent one.
    The pointers of the request are options. *)

From S2P Require Import Prelude Std Reason Types Version Resources Bounded Digest Json JsonArchive Archive Model.
From S2P Require Import Codec Authority Dependency Eligibility.
#[local] Open Scope Z_scope.

(** ** Explanations *)
Record ExplanationSink := mkExplanationSink {
  snk_out : list Explanation;
  snk_limit : Z;
  snk_requested : Z;
  snk_dropped : Z
}.
Definition sink_empty (limit : Z) : ExplanationSink := mkExplanationSink [] limit 0 0.

(** [ExplanationSink::add] and [flush] *)
Definition sink_add (s : ExplanationSink) (e : Explanation) : ExplanationSink :=
  if snk_limit s <=? zlen (snk_out s) then
    mkExplanationSink (snk_out s) (snk_limit s) (snk_requested s + 1) (snk_dropped s + 1)
  else mkExplanationSink (snk_out s ++ [e]) (snk_limit s) (snk_requested s + 1) (snk_dropped s).
Definition sink_flush (s : ExplanationSink) : list TruncationRecord :=
  if snk_dropped s =? 0 then []
  else [mkTruncationRecord "plan.explanations" (snk_requested s)
          (snk_requested s - snk_dropped s) (snk_dropped s) ReasonCode.HistoryTruncated].

Definition make_explanation (code : ReasonCode) (kind : DecisionKind) (subject note : string)
  : Explanation :=
  mkExplanation code kind subject note Digest_zero 0 0 0 0.

(** Flush the sink and [fail] with a code: the outcome of an early return. *)
Definition fail_with (truncations : list TruncationRecord) (s : ExplanationSink)
    (code : ReasonCode) : PlanOutcome :=
  mkPlanOutcome false code DeploymentPlan_default (snk_out s) (truncations ++ sink_flush s).

(** Running a part that may return early. *)
Definition or_return {A} (r : PlanOutcome + A) (k : A -> PlanOutcome) : PlanOutcome :=
  match r with inl outcome => outcome | inr a => k a end.
Notation "'let^' x ':=' e 'in' k" := (or_return e (fun x => k))
  (at level 10, x pattern, e at level 200, k at level 200,
   format "'[v' 'let^'  x  ':='  e  'in' '/' k ']'") : fabric_scope.

(** ** Identities and scores *)

(** The text [make_instance_id] hands to [InstanceId::literal], which ends the
    process on an invalid text; [make_instance_id_valid] below excludes that. *)
Definition readable_instance_id (group : ServiceGroupId) (service : ServiceId)
    (index : ReplicaIndex) : string :=
  "i-" +:+ group +:+ "." +:+ service +:+ "." +:+ to_string index.
Definition make_instance_id (group : ServiceGroupId) (service : ServiceId) (index : ReplicaIndex)
  : InstanceId :=
  let readable := readable_instance_id group service index in
  if slen readable <=? 64 then readable
  else
    let digest := sha256 (bytes_of_string (group +:+ "." +:+ service)) in
    "i-" +:+ String.substring 0 24 (digest_hex digest) +:+ "." +:+ to_string index.

Record PlacementWeights := mkPlacementWeights {
  pw_capacity : Z;
  pw_isolation_match : Z;
  pw_domain_spread : Z;
  pw_dpu_pressure : Z
}.
Definition PlacementWeights_default : PlacementWeights := mkPlacementWeights 1000 100000 100 10.

(** [score_placement] *)
Definition score_placement (dpu : DpuRecord) (service : ServiceDefinition)
    (replicas_on_dpu replicas_in_domain : Z) (weights : PlacementWeights) : Z :=
  let score := 0 in
  let score :=
    match rv_headroom (dpu_capacity dpu) (dpu_allocated dpu) with
    | Failed _ => score
    | Value free =>
      match rv_headroom_permille free (svc_resources service) with
      | Failed _ => score
      | Value permille =>
        saturating_add u64_max score (saturating_mul u64_max permille (pw_capacity weights))
      end
    end in
  let score :=
    if negb (bool_decide (iso_kind (svc_isolation service) = IsolationKind.None)) &&
       profile_supports (dpu_profile dpu) (iso_kind (svc_isolation service))
    then saturating_add u64_max score (pw_isolation_match weights) else score in
  let slack := if 100 <=? replicas_in_domain then 0 else 100 - replicas_in_domain in
  let score :=
    saturating_add u64_max score (saturating_mul u64_max slack (pw_domain_spread weights)) in
  let penalty := saturating_mul u64_max replicas_on_dpu (pw_dpu_pressure weights) in
  if penalty <? score then score - penalty else 0.

(** ** The request *)
Record PlanRequest := mkPlanRequest {
  req_topology : option TopologySnapshot;
  req_policy : option PolicyState;
  req_services : option (list ServiceDefinition);
  req_dependencies : option DependencyGraph;
  req_group : option ServiceGroup;
  req_intent : option PlacementIntent;
  req_authority : option AuthorityRegistry;
  req_generation : DeploymentGeneration;
  req_now : LogicalInstant;
  req_epoch : CoordinatorEpoch;
  req_boot : BootIncarnation;
  req_bounds : option RuntimeBounds
}.

(** [find_service] *)
Definition find_service (services : list ServiceDefinition) (id : ServiceId)
  : option ServiceDefinition :=
  snd <$> list_find (fun s => svc_id s = id) services.

(** ** The local state of the parts *)
Record Admission := mkAdmission {
  adm_services : list ServiceId;
  adm_desired : gmap string Z;
  adm_rejected : bool
}.

Record Placement := mkPlacement {
  pl_sink : ExplanationSink;
  pl_replicas_on_dpu : gmap string Z;
  pl_replicas_in_domain : gmap string Z;
  pl_remaining : gmap string ResourceVector;
  pl_scope_owner : gmap string string;
  pl_domain_replicas : gmap string Z;
  pl_infeasible : option ReasonCode;
  pl_services : list ServicePlan
}.
#[export] Instance eta_Placement : Settable Placement := fun p =>
  mkPlacement (pl_sink p) (pl_replicas_on_dpu p) (pl_replicas_in_domain p) (pl_remaining p)
    (pl_scope_owner p) (pl_domain_replicas p) (pl_infeasible p) (pl_services p).

Record Candidate := mkCandidate {
  cand_dpu : DpuRecord;
  cand_score : Z;
  cand_evidence : Digest
}.
Definition cand_key (c : Candidate) : Z * string := (cand_score c, dpu_id (cand_dpu c)).


Section build_plan.
Context (bounds : RuntimeBounds) (topology : TopologySnapshot) (policy : PolicyState)
  (services : list ServiceDefinition) (graph : DependencyGraph) (group : ServiceGroup)
  (intent : PlacementIntent) (authority : AuthorityRegistry) (now : LogicalInstant)
  (epoch : CoordinatorEpoch) (boot : BootIncarnation) (weights : PlacementWeights).

(** ** Intent validation *)
Definition intent_refusal : option Explanation :=
  let staging := staging_validate (int_staging intent) (pol_max_stage_batch policy) in
  if negb (id_valid (int_id intent)) || negb (id_valid (int_group intent)) ||
     negb (counter_valid (int_generation intent)) then
    Some (make_explanation ReasonCode.MalformedInput DecisionKind.Placement "<intent>"
            "intent identity or generation missing")
  else if negb (bool_decide (int_group intent = grp_id group)) then
    Some (make_explanation ReasonCode.GroupNotDeclared DecisionKind.Placement (int_group intent)
            "intent names a group that is not declared")
  else if bool_decide (int_services intent = []) then
    Some (make_explanation ReasonCode.MalformedInput DecisionKind.Placement (int_id intent)
            "intent carries no service replica intents")
  else if max_services bounds <? zlen (int_services intent) then
    Some (make_explanation ReasonCode.BoundExceeded DecisionKind.Placement (int_id intent)
            "intent exceeds the service bound")
  else if bool_decide (int_kind intent = IntentKind.Rollback) &&
          bool_decide (int_rollback_target intent = None) then
    Some (make_explanation ReasonCode.RollbackUnavailable DecisionKind.Rollback (int_id intent)
            "rollback intent has no target generation")
  else if negb (status_ok staging) then
    Some (make_explanation (status_code staging) DecisionKind.Placement (int_id intent)
            "invalid staging policy")
  else None.

(** ** Service set and dependency closure *)

(** Why an entry of the intent is rejected, given the services admitted before. *)
Definition entry_refusal (desired_by_service : gmap string Z) (entry : ServiceReplicaIntent)
  : option Explanation :=
  let id := sri_service entry in
  match find_service services id with
  | None =>
    Some (make_explanation ReasonCode.ServiceNotDeclared DecisionKind.Dependency id
            "service is not declared")
  | Some service =>
    let policy_ok := replica_policy_validate (svc_replicas service)
                       (max_replicas_per_service bounds) in
    if negb (bool_decide (id ∈ grp_members group)) then
      Some (make_explanation ReasonCode.IntentNotAccepted DecisionKind.Placement id
              "service is not a member of the group")
    else if negb (status_ok policy_ok) then
      Some (make_explanation (status_code policy_ok) DecisionKind.Placement id
              "service replica policy is invalid")
    else if (sri_desired_replicas entry <? rp_min (svc_replicas service)) ||
            (rp_max (svc_replicas service) <? sri_desired_replicas entry) then
      Some (make_explanation ReasonCode.ReplicaBoundExceeded DecisionKind.Placement id
              "desired replicas outside the declared replica policy")
    else if pol_max_instances_per_group policy <? sri_desired_replicas entry then
      Some (make_explanation ReasonCode.ReplicaBoundExceeded DecisionKind.Placement id
              "desired replicas exceed policy ceiling")
    else if bool_decide (is_Some (desired_by_service !! id)) then
      Some (make_explanation ReasonCode.DuplicateIdentity DecisionKind.Placement id
              "service intent appears twice")
    else None
  end.

(** The loop over the services of the intent. *)
Definition admit_step (acc : ExplanationSink * Admission) (entry : ServiceReplicaIntent)
  : ExplanationSink * Admission :=
  let '(sink, a) := acc in
  match entry_refusal (adm_desired a) entry with
  | Some explanation => (sink_add sink explanation, mkAdmission (adm_services a) (adm_desired a) true)
  | None =>
    (sink, mkAdmission (adm_services a ++ [sri_service entry])
             (<[sri_service entry := sri_desired_replicas entry]> (adm_desired a))
             (adm_rejected a))
  end.
Definition admit_services (sink : ExplanationSink) : PlanOutcome + ExplanationSink * Admission :=
  let '(sink, a) := foldl admit_step (sink, mkAdmission [] ∅ false) (int_services intent) in
  if adm_rejected a then inl (fail_with [] sink ReasonCode.IntentNotAccepted) else inr (sink, a).

(** The cycle path joined by arrows. *)
Definition join_path (path : list ServiceId) : string :=
  match path with
  | [] => ""
  | first :: rest => foldl (fun text id => text +:+ " -> " +:+ id) first rest
  end.
Definition order_services (sink : ExplanationSink) (intent_services : list ServiceId)
  : PlanOutcome + list ServiceId :=
  match topological_order graph intent_services with
  | (Value order, _) => inr order
  | (Failed _, cycle_path) =>
    inl (fail_with [] (sink_add sink
      (make_explanation ReasonCode.DependencyCycle DecisionKind.Dependency (join_path cycle_path)
         "dependency cycle among intent services")) ReasonCode.DependencyCycle)
  end.

(** The loops over the requirements of the services: the explanations of the
    requirements that are not part of the intent. *)
Definition missing_requirements (intent_services : list ServiceId) (service_id : ServiceId)
  : list Explanation :=
  omap (fun required =>
    if bool_decide (required ∈ intent_services) then None
    else match find_service services required with
    | None =>
      Some (make_explanation ReasonCode.ServiceNotDeclared DecisionKind.Dependency service_id
              ("requires undeclared service " +:+ required))
    | Some _ =>
      Some (make_explanation ReasonCode.DependencyUnsatisfied DecisionKind.Dependency service_id
              ("requires " +:+ required +:+ " which is not part of the intent"))
    end) (requirements graph service_id).
Definition close_dependencies (sink : ExplanationSink) (intent_services : list ServiceId)
  : PlanOutcome + ExplanationSink :=
  let missing := concat (missing_requirements intent_services <$> intent_services) in
  let sink := foldl sink_add sink missing in
  if bool_decide (missing = []) then inr sink
  else inl (fail_with [] sink ReasonCode.DependencyUnsatisfied).

(** ** Candidate devices *)
Definition candidate_devices (sink : ExplanationSink) : PlanOutcome + list DpuRecord :=
  let devices := std_sort (lt_by dpu_id str_lt) (topo_dpus topology) in
  if max_dpus bounds <? zlen devices then
    inl (fail_with [] (sink_add sink
      (make_explanation ReasonCode.BoundExceeded DecisionKind.Placement "<topology>"
         "topology exceeds the DPU bound")) ReasonCode.BoundExceeded)
  else inr devices.

(** ** Placement *)
Definition count (m : gmap string Z) (key : string) : Z := default 0 (m !! key).
Definition incr (key : string) (m : gmap string Z) : gmap string Z := <[key := count m key + 1]> m.

(** [emplace] keeps the first grant of a device. *)
Definition initial_owners : gmap string string :=
  foldl (fun m grant =>
    match m !! ag_dpu grant with
    | Some _ => m
    | None => <[ag_dpu grant := ag_scope grant]> m
    end) ∅ (ar_grants authority).
Definition initial_placement (sink : ExplanationSink) : Placement :=
  mkPlacement sink ∅ ∅ ∅ initial_owners ∅ None [].

(** The owner of a device whose scope is not the one the service needs. *)
Definition scope_conflict (p : Placement) (service : ServiceDefinition) (dpu : DpuRecord)
  : option string :=
  match iso_exclusive_scope (svc_isolation service), pl_scope_owner p !! dpu_id dpu with
  | Some scope, Some owner => if bool_decide (owner = scope) then None else Some owner
  | _, _ => None
  end.

(** The loop that collects the candidates of a service. *)
Definition candidate_step (p : Placement) (service : ServiceDefinition)
    (acc : ExplanationSink * list Candidate) (dpu : DpuRecord)
  : ExplanationSink * list Candidate :=
  let '(sink, candidates) := acc in
  let verdict := evaluate dpu service policy now in
  if negb (el_eligible verdict) then
    (sink_add sink (make_explanation (el_primary verdict) DecisionKind.Eligibility (dpu_id dpu)
       ("ineligible for " +:+ svc_id service)), candidates)
  else if el_unknown verdict then
    (sink_add sink (make_explanation (el_primary verdict) DecisionKind.Eligibility (dpu_id dpu)
       ("unknown capability state blocks " +:+ svc_id service)), candidates)
  else
    match scope_conflict p service dpu with
    | Some owner =>
      (sink_add sink (make_explanation ReasonCode.ExclusiveScopeConflict DecisionKind.Authority
         (dpu_id dpu) ("DPU is exclusively owned by scope " +:+ owner)), candidates)
    | None =>
      (sink, candidates ++ [mkCandidate dpu
         (score_placement dpu service (count (pl_replicas_on_dpu p) (dpu_id dpu))
            (count (pl_replicas_in_domain p) (dpu_domain dpu)) weights)
         (el_evidence_digest verdict)])
    end.
Definition collect_candidates (p : Placement) (service : ServiceDefinition)
    (devices : list DpuRecord) : Placement * list Candidate :=
  let '(sink, candidates) := foldl (candidate_step p service) (pl_sink p, []) devices in
  (p <| pl_sink := sink |>,
   std_sort (lt_by cand_key (lex_lt (fun x y => y <? x) str_lt)) candidates).

(** The tighter of the group's cap and the policy ceiling. *)
Definition max_per_dpu : Z :=
  Z.min (aa_max_replicas_per_dpu (grp_anti_affinity group))
        (Z.max 1 (pol_max_replicas_per_dpu_ceiling policy)).

(** What is left on a device. *)
Definition free_on (p : Placement) (dpu : DpuRecord) : ResourceVector :=
  match pl_remaining p !! dpu_id dpu with
  | Some free => free
  | None => value_or (rv_headroom (dpu_capacity dpu) (dpu_allocated dpu)) ResourceVector_zero
  end.

(** The [continue]s of the placement loop. *)
Definition skip_candidate (p : Placement) (domains_used : gmap string Z)
    (service : ServiceDefinition) (dpu : DpuRecord) : bool :=
  (max_per_dpu <=? count (pl_replicas_on_dpu p) (dpu_id dpu)) ||
  match aa_max_replicas_per_domain (grp_anti_affinity group) with
  | Some cap => cap <=? count (pl_domain_replicas p) (dpu_domain dpu)
  | None => false
  end ||
  aa_require_distinct_domains (grp_anti_affinity group) &&
    (0 <? count domains_used (dpu_domain dpu)) ||
  negb (rv_covers (free_on p dpu) (svc_resources service)).

(** The placement of one replica on a candidate. *)
Definition place_replica (p : Placement) (service : ServiceDefinition) (c : Candidate) : Placement :=
  let dpu := cand_dpu c in
  p <| pl_replicas_on_dpu := incr (dpu_id dpu) (pl_replicas_on_dpu p) |>
    <| pl_replicas_in_domain := incr (dpu_domain dpu) (pl_replicas_in_domain p) |>
    <| pl_domain_replicas := incr (dpu_domain dpu) (pl_domain_replicas p) |>
    <| pl_remaining :=
         match rv_subtract (free_on p dpu) (svc_resources service) with
         | Value after => <[dpu_id dpu := after]> (pl_remaining p)
         | Failed _ => pl_remaining p
         end |>
    <| pl_scope_owner :=
         match iso_exclusive_scope (svc_isolation service) with
         | Some scope => <[dpu_id dpu := scope]> (pl_scope_owner p)
         | None => pl_scope_owner p
         end |>.
Definition planned_replica (c : Candidate) (index : Z) : PlannedReplica :=
  let dpu := cand_dpu c in
  mkPlannedReplica index (dpu_id dpu) (dpu_attachment dpu) (dpu_domain dpu) (cand_score c)
    (cand_evidence c).

(** The loop over the candidates of a service. *)
Fixpoint place_candidates (p : Placement) (service : ServiceDefinition) (plan : ServicePlan)
    (domains_used : gmap string Z) (candidates : list Candidate) : Placement * ServicePlan :=
  match candidates with
  | [] => (p, plan)
  | c :: rest =>
    if sp_desired_replicas plan <=? sp_placed_replicas plan then (p, plan)
    else if skip_candidate p domains_used service (cand_dpu c) then
      place_candidates p service plan domains_used rest
    else
      let plan :=
        plan <| sp_replicas := sp_replicas plan ++ [planned_replica c (sp_placed_replicas plan)] |>
             <| sp_placed_replicas := sp_placed_replicas plan + 1 |> in
      place_candidates (place_replica p service c) service plan
        (incr (dpu_domain (cand_dpu c)) domains_used) rest
  end.

(** The body of the loop over the ordered services. *)
Definition place_service (devices : list DpuRecord) (desired_by_service : gmap string Z)
    (p : Placement) (service_id : ServiceId) : Placement :=
  match find_service services service_id with
  | None => p
  | Some service =>
    let desired := count desired_by_service service_id in
    let '(p, candidates) := collect_candidates p service devices in
    let plan := mkServicePlan (svc_id service) (svc_version service) desired 0 [] in
    let '(p, plan) := place_candidates p service plan ∅ candidates in
    let p :=
      if sp_placed_replicas plan <? desired then
        let code := if bool_decide (length candidates = O) then ReasonCode.NoEligibleDpu
                    else ReasonCode.InsufficientEligibleDpus in
        p <| pl_sink := sink_add (pl_sink p)
               (make_explanation code DecisionKind.Placement (svc_id service)
                  ("placed " +:+ to_string (sp_placed_replicas plan) +:+ " of " +:+
                   to_string desired +:+ " replicas")) |>
          <| pl_infeasible := Some code |>
      else p in
    p <| pl_services := pl_services p ++ [plan] |>
  end.
Definition place_services (devices : list DpuRecord) (desired_by_service : gmap string Z)
    (order : list ServiceId) (sink : ExplanationSink) : PlanOutcome + Placement :=
  let p := foldl (place_service devices desired_by_service) (initial_placement sink) order in
  match pl_infeasible p with
  | Some code => inl (fail_with [] (pl_sink p) code)
  | None => inr p
  end.

(** ** Staged rollout *)
Definition rollout_order (plans : list ServicePlan) : list InstanceId :=
  concat ((fun plan =>
    (fun r => make_instance_id (grp_id group) (sp_service plan) (pr_index r)) <$> sp_replicas plan)
    <$> plans).

(** The stage loop, on the instances not yet staged; every stage takes at least one
    instance, so as much fuel as there are instances suffices. *)
Fixpoint stage_loop (fuel : nat) (total : Z) (rest : list InstanceId) (stages : list PlanStage)
  : TruncationRecord + list PlanStage :=
  match fuel, rest with
  | O, _ | _, [] => inr stages
  | S fuel, _ =>
    let batch := srp_batch_size (int_staging intent) in
    if max_stages bounds <=? zlen stages then
      let requested := (total + batch - 1) / batch in
      inl (mkTruncationRecord "plan.stages" requested (zlen stages) (requested - zlen stages)
             ReasonCode.BoundExceeded)
    else
      let stage := mkPlanStage (zlen stages) (take (Z.to_nat batch) rest)
                     (srp_max_unavailable (int_staging intent)) in
      stage_loop fuel total (drop (Z.to_nat batch) rest) (stages ++ [stage])
  end.
Definition build_stages (sink : ExplanationSink) (instances : list InstanceId)
  : PlanOutcome + list PlanStage :=
  match stage_loop (length instances) (zlen instances) instances [] with
  | inl record => inl (fail_with [record] sink ReasonCode.BoundExceeded)
  | inr stages => inr stages
  end.

(** ** The plan *)
Definition placed_explanation (plan : ServicePlan) : Explanation :=
  make_explanation ReasonCode.Ok DecisionKind.Placement (sp_service plan)
    ("placed " +:+ to_string (sp_placed_replicas plan) +:+ " replicas at generation " +:+
     to_string (int_generation intent)).

(** Everything after the null checks of [build_plan]. *)
Definition plan_intent : PlanOutcome :=
  let sink := sink_empty (max_explanations bounds) in
  match intent_refusal with
  | Some explanation => fail_with [] (sink_add sink explanation) (ex_code explanation)
  | None =>
    let^ (sink, a) := admit_services sink in
    let^ order := order_services sink (adm_services a) in
    let^ sink := close_dependencies sink (adm_services a) in
    let^ devices := candidate_devices sink in
    let^ p := place_services devices (adm_desired a) order sink in
    let^ stages := build_stages (pl_sink p) (rollout_order (pl_services p)) in
    let placed := placed_explanation <$> pl_services p in
    let sink := foldl sink_add (pl_sink p) placed in
    let plan := DeploymentPlan_default
      <| plan_generation := int_generation intent |>
      <| plan_group := grp_id group |>
      <| plan_kind := int_kind intent |>
      <| plan_rollback_target := int_rollback_target intent |>
      <| plan_services := pl_services p |>
      <| plan_stages := stages |>
      <| plan_outcome := ReasonCode.Ok |>
      <| plan_topology := topo_generation topology |>
      <| plan_policy := pol_generation policy |>
      <| plan_epoch := epoch |>
      <| plan_boot := boot |>
      <| plan_created_at := now |>
      <| plan_explanations := take (Z.to_nat (max_explanations bounds)) placed |> in
    mkPlanOutcome true ReasonCode.Ok (plan_seal plan) (snk_out sink) (sink_flush sink)
  end.
End build_plan.

(** [build_plan] *)
Definition build_plan (request : PlanRequest) (weights : PlacementWeights) : PlanOutcome :=
  match req_topology request, req_policy request, req_services request,
        req_dependencies request, req_group request, req_intent request,
        req_authority request, req_bounds request with
  | Some topology, Some policy, Some services, Some graph, Some group, Some intent,
    Some authority, Some bounds =>
    plan_intent bounds topology policy services graph group intent authority (req_now request)
      (req_epoch request) (req_boot request) weights
  | _, _, _, _, _, _, _, bounds =>
    fail_with [] (sink_add (sink_empty (from_option max_explanations 64 bounds))
      (make_explanation ReasonCode.MalformedInput DecisionKind.Placement "<request>"
         "incomplete plan request")) ReasonCode.MalformedInput
  end.

(** ** Resource accounting *)
Definition rv_components : list (ResourceVector -> Z) :=
  [cpu_millicores; memory_bytes; network_bps; crypto_ops_per_sec; storage_bytes].

Lemma rv_covers_components free r :
  rv_covers free r = true <-> forall f, f ∈ rv_components -> f r <= f free.
Proof.
  unfold rv_covers. rewrite !andb_true_iff, !Z.leb_le. split.
  - intros [[[[? ?] ?] ?] ?] f Hf. unfold rv_components in Hf. set_unfold in Hf. naive_solver.
  - intros Hall. split_and!; apply Hall; unfold rv_components; set_solver.
Qed.

Lemma rv_subtract_covers free r :
  rv_covers free r = true ->
  exists after, rv_subtract free r = Value after /\
    forall f, f ∈ rv_components -> f after + f r = f free.
Proof.
  intros Hc. unfold rv_covers in Hc. rewrite !andb_true_iff, !Z.leb_le in Hc.
  destruct Hc as [[[[? ?] ?] ?] ?].
  unfold rv_subtract, rv_map2, checked_sub.
  rewrite !(proj2 (Z.ltb_ge _ _)) by done. cbn [component result_bind].
  eexists. split; [reflexivity|]. intros f Hf. unfold rv_components in Hf. set_unfold in Hf.
  destruct Hf as [->|[->|[->|[->|[->|[]]]]]]; cbn; lia.
Qed.

Definition total {A} (f : A -> Z) (l : list A) : Z := foldr (fun x n => f x + n) 0 l.
Lemma total_snoc {A} (f : A -> Z) l x : total f (l ++ [x]) = total f l + f x.
Proof. induction l as [|y l IH]; cbn; [lia|]. unfold total in IH. rewrite IH. lia. Qed.

Lemma count_incr k k' m : count (incr k m) k' = count m k' + (if decide (k' = k) then 1 else 0).
Proof.
  unfold count, incr. destruct (decide (k' = k)) as [->|Hne].
  - by rewrite lookup_insert_eq.
  - rewrite lookup_insert_ne by done. lia.
Qed.

Lemma zlen_filter_snoc {A} (P : A -> Prop) `{!forall x, Decision (P x)} l x :
  zlen (filter P (l ++ [x])) = zlen (filter P l) + (if decide (P x) then 1 else 0).
Proof.
  rewrite filter_app, zlen_app, filter_cons. by case_decide.
Qed.

Lemma total_filter_snoc {A} (P : A -> Prop) `{!forall x, Decision (P x)} (f : A -> Z) l x :
  total f (filter P (l ++ [x])) = total f (filter P l) + (if decide (P x) then f x else 0).
Proof.
  rewrite filter_app, filter_cons. case_decide.
  - apply total_snoc.
  - rewrite app_nil_r. lia.
Qed.

(** ** The placement invariant *)
Definition Placed : Type := ServiceId * PlannedReplica.
Definition on_dpu (d : DpuId) (x : Placed) : Prop := pr_dpu x.2 = d.
Definition in_domain (m : IsolationDomainId) (x : Placed) : Prop := pr_domain x.2 = m.
#[export] Instance on_dpu_dec d x : Decision (on_dpu d x).
Proof. unfold on_dpu. apply _. Defined.
#[export] Instance in_domain_dec m x : Decision (in_domain m x).
Proof. unfold in_domain. apply _. Defined.

(** What a placed replica consumes, and the scope it needs. *)
Definition demand (services : list ServiceDefinition) (x : Placed) : ResourceVector :=
  from_option svc_resources ResourceVector_zero (find_service services x.1).
Definition scope_of (services : list ServiceDefinition) (x : Placed) : option ExclusiveScopeId :=
  find_service services x.1 ≫= fun s => iso_exclusive_scope (svc_isolation s).
(** The free capacity the program starts from. *)
Definition free_capacity (dpu : DpuRecord) : ResourceVector :=
  value_or (rv_headroom (dpu_capacity dpu) (dpu_allocated dpu)) ResourceVector_zero.

Section placing.
Context (policy : PolicyState) (services : list ServiceDefinition) (group : ServiceGroup)
  (authority : AuthorityRegistry) (devices : list DpuRecord).
Hypothesis (Hdevices : NoDup (dpu_id <$> devices)).

Record place_inv (p : Placement) (ps : list Placed) : Prop := {
  pi_on_dpu : forall d, count (pl_replicas_on_dpu p) d = zlen (filter (on_dpu d) ps);
  pi_in_domain : forall m, count (pl_domain_replicas p) m = zlen (filter (in_domain m) ps);
  pi_dpu_cap : forall x, x ∈ ps ->
    zlen (filter (on_dpu (pr_dpu x.2)) ps) <= max_per_dpu policy group;
  pi_domain_cap : forall x cap, x ∈ ps ->
    aa_max_replicas_per_domain (grp_anti_affinity group) = Some cap ->
    zlen (filter (in_domain (pr_domain x.2)) ps) <= cap;
  pi_free : forall dpu f, dpu ∈ devices -> f ∈ rv_components ->
    f (free_on p dpu) + total (fun x => f (demand services x)) (filter (on_dpu (dpu_id dpu)) ps) =
      f (free_capacity dpu);
  pi_fits : forall dpu f x, dpu ∈ devices -> f ∈ rv_components -> x ∈ ps ->
    on_dpu (dpu_id dpu) x -> 0 <= f (free_on p dpu);
  pi_owner : forall x scope, x ∈ ps -> scope_of services x = Some scope ->
    pl_scope_owner p !! pr_dpu x.2 = Some scope;
  pi_initial : forall d o, initial_owners authority !! d = Some o -> pl_scope_owner p !! d = Some o
}.

Lemma place_inv_initial sink : place_inv (initial_placement authority sink) [].
Proof.
  split; try (intros; by set_unfold). intros dpu f Hd Hf. apply Z.add_0_r.
Qed.

(** The scope of a service does not conflict on a device. *)
Definition scope_free (p : Placement) (service : ServiceDefinition) (d : DpuId) : Prop :=
  forall scope o, iso_exclusive_scope (svc_isolation service) = Some scope ->
    pl_scope_owner p !! d = Some o -> o = scope.

Lemma same_device x y : x ∈ devices -> y ∈ devices -> dpu_id x = dpu_id y -> x = y.
Proof using Hdevices.
  intros (i & Hi)%list_elem_of_lookup (j & Hj)%list_elem_of_lookup Heq.
  assert (i = j) as ->; [|congruence].
  eapply (NoDup_lookup (dpu_id <$> devices)); [done|..]; rewrite list_lookup_fmap;
    [by rewrite Hi|]. rewrite Hj. cbn. by rewrite Heq.
Qed.

Section step.
Context (p : Placement) (ps : list Placed) (service : ServiceDefinition) (c : Candidate)
  (used : gmap string Z) (i : Z).
Hypothesis (Hservice : find_service services (svc_id service) = Some service).
Hypothesis (Hdpu : cand_dpu c ∈ devices).
Hypothesis (Hskip : skip_candidate policy group p used service (cand_dpu c) = false).
Hypothesis (Hscope : scope_free p service (dpu_id (cand_dpu c))).
Hypothesis (Hinv : place_inv p ps).

Lemma skip_inv :
  count (pl_replicas_on_dpu p) (dpu_id (cand_dpu c)) < max_per_dpu policy group /\
  (forall cap, aa_max_replicas_per_domain (grp_anti_affinity group) = Some cap ->
     count (pl_domain_replicas p) (dpu_domain (cand_dpu c)) < cap) /\
  (aa_require_distinct_domains (grp_anti_affinity group) = true ->
     count used (dpu_domain (cand_dpu c)) <= 0) /\
  rv_covers (free_on p (cand_dpu c)) (svc_resources service) = true.
Proof using Hskip.
  unfold skip_candidate in Hskip. rewrite !orb_false_iff in Hskip.
  destruct Hskip as [[[H1' H2'] H3'] H4']. split_and!.
  - lia.
  - intros cap Hcap. rewrite Hcap in H2'. lia.
  - intros Hd. rewrite Hd in H3'. cbn [andb] in H3'. lia.
  - by apply negb_false_iff.
Qed.

Lemma free_on_place dpu :
  dpu ∈ devices ->
  forall f, f ∈ rv_components ->
  f (free_on (place_replica p service c) dpu) + (if decide (dpu_id dpu = dpu_id (cand_dpu c))
    then f (svc_resources service) else 0) = f (free_on p dpu).
Proof using Hskip Hdevices Hdpu.
  intros Hd f Hf. destruct skip_inv as (_ & _ & _ & Hc).
  destruct (rv_subtract_covers _ _ Hc) as (after & Hsub & Hafter).
  unfold place_replica. rewrite Hsub. unfold free_on at 1. cbn [pl_remaining set].
  destruct (decide (dpu_id dpu = dpu_id (cand_dpu c))) as [Heq|Hne].
  - cbn. rewrite Heq, lookup_insert_eq. rewrite (same_device _ _ Hd Hdpu Heq). by apply Hafter.
  - cbn. rewrite lookup_insert_ne by done. apply Z.add_0_r.
Qed.

(** Placing does not take a device away from the scope that owns it. *)
Lemma place_keeps_owner d owner :
  pl_scope_owner p !! d = Some owner -> pl_scope_owner (place_replica p service c) !! d = Some owner.
Proof using Hscope.
  intros Hd. unfold place_replica. cbn [pl_scope_owner set].
  destruct (iso_exclusive_scope _) as [mine|] eqn:Hm; [|exact Hd].
  cbn. destruct (decide (dpu_id (cand_dpu c) = d)) as [Heq|Hne].
  - rewrite Heq, lookup_insert_eq. f_equal. symmetry. eapply (Hscope mine); [done|]. by rewrite Heq.
  - by rewrite lookup_insert_ne.
Qed.

Lemma place_replica_inv :
  place_inv (place_replica p service c) (ps ++ [(svc_id service, planned_replica c i)]).
Proof using Hservice Hskip Hdevices Hdpu Hscope Hinv.
  destruct Hinv as [I1 I2 I3 I4 I5 I6 I7 I8]. destruct skip_inv as (S1 & S2 & S3 & S4).
  assert (Hdem : demand services (svc_id service, planned_replica c i) = svc_resources service).
  { unfold demand. cbn [fst]. by rewrite Hservice. }
  split.
  - intros d. rewrite zlen_filter_snoc. unfold on_dpu at 2. cbn [fst snd pr_dpu planned_replica].
    unfold place_replica. cbn [pl_replicas_on_dpu set]. rewrite count_incr, I1.
    repeat case_decide; congruence || lia.
  - intros d. rewrite zlen_filter_snoc. unfold in_domain at 2.
    cbn [fst snd pr_domain planned_replica].
    unfold place_replica. cbn [pl_domain_replicas set]. rewrite count_incr, I2.
    repeat case_decide; congruence || lia.
  - intros x Hx. rewrite zlen_filter_snoc. unfold on_dpu at 2. cbn [snd pr_dpu planned_replica].
    case_decide as Heq.
    + rewrite <-Heq, <-I1. lia.
    + rewrite Z.add_0_r. apply I3. apply elem_of_app in Hx as [Hx|Hx%list_elem_of_singleton]; [done|].
      subst x. done.
  - intros x cap Hx Hcap. rewrite zlen_filter_snoc. unfold in_domain at 2.
    cbn [snd pr_domain planned_replica]. case_decide as Heq.
    + rewrite <-Heq, <-I2. specialize (S2 cap Hcap). lia.
    + rewrite Z.add_0_r. apply I4; [|done].
      apply elem_of_app in Hx as [Hx|Hx%list_elem_of_singleton]; [done|]. subst x. done.
  - intros dpu f Hd Hf. rewrite total_filter_snoc.
    pose proof (free_on_place dpu Hd f Hf) as Hfree. pose proof (I5 dpu f Hd Hf) as Hold.
    unfold on_dpu at 2. cbn [snd pr_dpu planned_replica]. rewrite Hdem.
    destruct (decide (dpu_id dpu = dpu_id (cand_dpu c))) as [Heq|Hne].
    + rewrite decide_True by (unfold on_dpu; cbn; congruence). lia.
    + rewrite decide_False by (unfold on_dpu; cbn; congruence). lia.
  - intros dpu f x Hd Hf Hx Hon. pose proof (free_on_place dpu Hd f Hf) as Hfree.
    rewrite rv_covers_components in S4. specialize (S4 f Hf).
    destruct (decide (dpu_id dpu = dpu_id (cand_dpu c))) as [Heq|Hne].
    + rewrite (same_device _ _ Hd Hdpu Heq) in Hfree |- *. lia.
    + apply elem_of_app in Hx as [Hx|Hx%list_elem_of_singleton].
      * specialize (I6 dpu f x Hd Hf Hx Hon). lia.
      * subst x. by destruct Hne.
  - intros x scope Hx Hs. apply elem_of_app in Hx as [Hx|Hx%list_elem_of_singleton].
    + by apply place_keeps_owner, I7.
    + subst x. unfold scope_of in Hs. cbn [fst] in Hs. rewrite Hservice in Hs. cbn in Hs.
      unfold place_replica. cbn [pl_scope_owner set]. rewrite Hs. cbn. by rewrite lookup_insert_eq.
  - intros d o Ho. by apply place_keeps_owner, I8.
Qed.

Lemma scope_free_place d :
  scope_free p service d -> scope_free (place_replica p service c) service d.
Proof.
  intros Hd scope o Hs. unfold place_replica. cbn [pl_scope_owner set]. rewrite Hs. cbn.
  destruct (decide (dpu_id (cand_dpu c) = d)) as [Heq|Hne].
  - rewrite Heq, lookup_insert_eq. by intros [= <-].
  - rewrite lookup_insert_ne by done. by apply Hd.
Qed.
End step.
End placing.

(** ** One service *)
Section service.
Context (policy : PolicyState) (services : list ServiceDefinition) (group : ServiceGroup)
  (authority : AuthorityRegistry) (now : LogicalInstant) (weights : PlacementWeights)
  (devices : list DpuRecord).
Hypothesis (Hdevices : NoDup (dpu_id <$> devices)).
#[local] Notation inv := (place_inv policy services group authority devices).

Lemma place_inv_sink p ps sink : inv p ps -> inv (p <| pl_sink := sink |>) ps.
Proof. intros []. by split. Qed.

Lemma fmap_sublist {A B} (f : A -> B) l k : l `sublist_of` k -> f <$> l `sublist_of` f <$> k.
Proof. induction 1; by constructor. Qed.

(** What a candidate is. *)
Record candidate_ok (p : Placement) (service : ServiceDefinition) (c : Candidate) : Prop := {
  co_device : cand_dpu c ∈ devices;
  co_eligible : el_eligible (evaluate (cand_dpu c) service policy now) = true;
  co_evidence : cand_evidence c = ev_digest (dpu_device_evidence (cand_dpu c));
  co_scope : scope_free p service (dpu_id (cand_dpu c))
}.

Lemma evaluate_evidence dpu service :
  el_evidence_digest (evaluate dpu service policy now) = ev_digest (dpu_device_evidence dpu).
Proof. unfold evaluate. by destruct (aggregate _) as [[? ?] ?]. Qed.

Lemma candidate_fold p service devs sink acc :
  devs ⊆ devices ->
  exists sink' new, foldl (candidate_step policy now weights p service) (sink, acc) devs =
    (sink', acc ++ new) /\ cand_dpu <$> new `sublist_of` devs /\
    Forall (candidate_ok p service) new.
Proof.
  revert sink acc. induction devs as [|d devs IH]; intros sink acc Hsub.
  { exists sink, []. rewrite app_nil_r. split_and!; [done|constructor|constructor]. }
  cbn [foldl]. assert (Hrest : devs ⊆ devices) by set_solver.
  assert (Hskip : forall sink, exists sink' new,
    foldl (candidate_step policy now weights p service) (sink, acc) devs = (sink', acc ++ new) /\
    cand_dpu <$> new `sublist_of` d :: devs /\ Forall (candidate_ok p service) new).
  { intros s. destruct (IH s acc Hrest) as (s' & new & ? & ? & ?). exists s', new.
    split_and!; [done|by apply sublist_cons|done]. }
  unfold candidate_step at 2.
  destruct (el_eligible _) eqn:He; cbn [negb]; [|apply Hskip].
  destruct (el_unknown _); [apply Hskip|].
  destruct (scope_conflict p service d) as [owner|] eqn:Hconf; [apply Hskip|].
  destruct (IH sink (acc ++ [mkCandidate d (score_placement d service
      (count (pl_replicas_on_dpu p) (dpu_id d)) (count (pl_replicas_in_domain p) (dpu_domain d))
      weights) (el_evidence_digest (evaluate d service policy now))]) Hrest)
    as (s' & new & Heq & Hsl & Hok).
  eexists s', (_ :: new). rewrite Heq, <-app_assoc. split_and!; [reflexivity|by constructor|].
  constructor; [|done]. split; cbn [cand_dpu cand_evidence].
  - apply Hsub. left.
  - done.
  - apply evaluate_evidence.
  - intros scope o Hs Ho. unfold scope_conflict in Hconf. rewrite Hs, Ho in Hconf.
    by case_bool_decide.
Qed.

Lemma collect_candidates_spec p service :
  exists sink candidates,
    collect_candidates policy now weights p service devices = (p <| pl_sink := sink |>, candidates) /\
    NoDup (dpu_id ∘ cand_dpu <$> candidates) /\ Forall (candidate_ok p service) candidates.
Proof using Hdevices.
  unfold collect_candidates.
  destruct (candidate_fold p service devices (pl_sink p) []) as (sink & new & -> & Hsl & Hok); [done|].
  cbn [app]. eexists sink, _. split_and!; [reflexivity|..].
  - rewrite std_sort_perm, list_fmap_compose. eapply sublist_NoDup; [exact Hdevices|].
    by apply fmap_sublist.
  - by apply Forall_std_sort.
Qed.

(** What the replicas planned for a service are. *)
Record replicas_ok (service : ServiceDefinition) (plan : ServicePlan) : Prop := {
  ro_count : sp_placed_replicas plan = zlen (sp_replicas plan);
  ro_index : pr_index <$> sp_replicas plan = seqZ 0 (zlen (sp_replicas plan));
  ro_desired : sp_placed_replicas plan <= Z.max 0 (sp_desired_replicas plan);
  ro_distinct : NoDup (pr_dpu <$> sp_replicas plan);
  ro_domains : aa_require_distinct_domains (grp_anti_affinity group) = true ->
    NoDup (pr_domain <$> sp_replicas plan);
  ro_devices : forall r, r ∈ sp_replicas plan -> exists dpu, dpu ∈ devices /\
    pr_dpu r = dpu_id dpu /\ pr_attachment r = dpu_attachment dpu /\
    pr_domain r = dpu_domain dpu /\
    pr_eligibility_digest r = ev_digest (dpu_device_evidence dpu) /\
    el_eligible (evaluate dpu service policy now) = true
}.

Definition placed_of (plan : ServicePlan) : list Placed :=
  (fun r => (sp_service plan, r)) <$> sp_replicas plan.


Lemma replicas_ok_snoc service plan used p c :
  replicas_ok service plan -> candidate_ok p service c ->
  sp_placed_replicas plan < sp_desired_replicas plan ->
  (forall m, count used m = zlen (filter (fun r => pr_domain r = m) (sp_replicas plan))) ->
  (aa_require_distinct_domains (grp_anti_affinity group) = true ->
     count used (dpu_domain (cand_dpu c)) <= 0) ->
  dpu_id (cand_dpu c) ∉ pr_dpu <$> sp_replicas plan ->
  let plan' :=
    plan <| sp_replicas := sp_replicas plan ++ [planned_replica c (sp_placed_replicas plan)] |>
         <| sp_placed_replicas := sp_placed_replicas plan + 1 |> in
  replicas_ok service plan' /\
  forall m, count (incr (dpu_domain (cand_dpu c)) used) m =
    zlen (filter (fun r => pr_domain r = m) (sp_replicas plan')).
Proof.
  intros [R1 R2 R3 R4 R5 R6] [C1 C2 C3 C4] Hd Hused Hdom Hnew. cbn zeta. split.
  - split; cbn [sp_placed_replicas sp_replicas sp_desired_replicas set].
    + rewrite zlen_app, R1. done.
    + rewrite fmap_app, R2, zlen_app. cbn [fmap list_fmap planned_replica pr_index].
      rewrite R1. change (zlen [_]) with 1.
      rewrite seqZ_app; [|apply zlen_nonneg|lia]. done.
    + cbn. lia.
    + rewrite fmap_app, NoDup_app. cbn. split_and!; [done| |apply NoDup_singleton].
      intros x Hx ->%list_elem_of_singleton. done.
    + intros Hreq. rewrite fmap_app, NoDup_app. cbn. split_and!; [by apply R5| |apply NoDup_singleton].
      intros x Hx ->%list_elem_of_singleton. specialize (Hdom Hreq). rewrite Hused in Hdom.
      apply list_elem_of_fmap in Hx as (r & Hr & Hin).
      assert (Hf : r ∈ filter (fun r => pr_domain r = dpu_domain (cand_dpu c)) (sp_replicas plan))
        by (by apply list_elem_of_filter).
      destruct (filter _ (sp_replicas plan)) as [|y l]; [by apply elem_of_nil in Hf|].
      rewrite zlen_cons in Hdom. pose proof (zlen_nonneg l). lia.
    + intros r [Hr|Hr%list_elem_of_singleton]%elem_of_app; [by apply R6|]. subst r.
      exists (cand_dpu c). cbn. done.
  - intros m. rewrite count_incr, Hused. cbn [sp_replicas set].
    change (sp_replicas (set sp_placed_replicas ?n ?q)) with (sp_replicas q).
    rewrite zlen_filter_snoc. cbn [pr_domain planned_replica].
    repeat case_decide; congruence || lia.
Qed.
End service.

(** ** The loops of the placement *)
Section loops.
Context (policy : PolicyState) (services : list ServiceDefinition) (group : ServiceGroup)
  (authority : AuthorityRegistry) (now : LogicalInstant) (weights : PlacementWeights)
  (devices : list DpuRecord).
Hypothesis (Hdevices : NoDup (dpu_id <$> devices)).
#[local] Notation inv := (place_inv policy services group authority devices).
#[local] Notation ok := (replicas_ok policy group now devices).

(** The parts of the state the replicas do not touch. *)
Definition same_report (p q : Placement) : Prop :=
  pl_sink q = pl_sink p /\ pl_infeasible q = pl_infeasible p /\ pl_services q = pl_services p.

Lemma place_candidates_spec service candidates p plan used ps :
  find_service services (svc_id service) = Some service -> sp_service plan = svc_id service ->
  inv p (ps ++ placed_of plan) -> ok service plan ->
  (forall m, count used m = zlen (filter (fun r => pr_domain r = m) (sp_replicas plan))) ->
  Forall (candidate_ok policy now devices p service) candidates ->
  NoDup ((pr_dpu <$> sp_replicas plan) ++ (dpu_id ∘ cand_dpu <$> candidates)) ->
  exists p' plan', place_candidates policy group p service plan used candidates = (p', plan') /\
    inv p' (ps ++ placed_of plan') /\ ok service plan' /\ same_report p p' /\
    sp_service plan' = sp_service plan /\ sp_version plan' = sp_version plan /\
    sp_desired_replicas plan' = sp_desired_replicas plan.
Proof using Hdevices.
  intros Hservice. revert p plan used.
  induction candidates as [|c rest IH]; intros p plan used Hid Hinv Hok Hused Hcands Hnd.
  { exists p, plan. by split_and!. }
  cbn [place_candidates]. destruct (Z.leb_spec (sp_desired_replicas plan) (sp_placed_replicas plan)).
  { exists p, plan. by split_and!. }
  apply Forall_cons in Hcands as [Hc Hrest].
  cbn [fmap list_fmap] in Hnd. apply NoDup_app in Hnd as (Hn1 & Hn2 & [Hn3 Hn4]%NoDup_cons).
  destruct (skip_candidate _ _ _ _ _ _) eqn:Hskip.
  { apply (IH p plan used); [done..|]. apply NoDup_app. split_and!; [done| |done].
    intros x Hx Hx'. apply (Hn2 x Hx). by right. }
  destruct (skip_inv policy group p service c used Hskip) as (_ & _ & Hdom & _).
  assert (Hnew : dpu_id (cand_dpu c) ∉ pr_dpu <$> sp_replicas plan)
    by (intros Hin; apply (Hn2 _ Hin); left).
  destruct (replicas_ok_snoc policy group now devices service plan used p c)
    as [Hok' Hused']; [done..|].
  destruct Hc as [C1 C2 C3 C4].
  set (plan1 := plan <| sp_replicas := _ |> <| sp_placed_replicas := _ |>) in *.
  assert (Hplaced : placed_of plan1 =
    placed_of plan ++ [(svc_id service, planned_replica c (sp_placed_replicas plan))]).
  { unfold placed_of. cbn. rewrite fmap_app. cbn. by rewrite Hid. }
  assert (Hreplicas : sp_replicas plan1 =
    sp_replicas plan ++ [planned_replica c (sp_placed_replicas plan)]) by done.
  assert (Hinv' : inv (place_replica p service c) (ps ++ placed_of plan1))
    by (rewrite Hplaced, app_assoc; by eapply place_replica_inv).
  destruct (IH (place_replica p service c) plan1 (incr (dpu_domain (cand_dpu c)) used))
    as (p' & plan' & Hrun & Hres & Hres' & (Hs1 & Hs2 & Hs3) & I1 & I2 & I3); [done..| | |].
  - eapply Forall_impl; [exact Hrest|]. intros d [D1 D2 D3 D4]. split; [done..|].
    by apply scope_free_place.
  - rewrite Hreplicas, fmap_app, <-app_assoc. cbn.
    apply NoDup_app. split_and!; [done| |].
    + intros x Hx [->|Hx']%elem_of_cons; [by apply Hnew|]. apply (Hn2 x Hx). by right.
    + by constructor.
  - exists p', plan'. unfold same_report. by rewrite Hrun, Hs1, Hs2, Hs3, I1, I2, I3.
Qed.

Definition placements (plans : list ServicePlan) : list Placed := concat (placed_of <$> plans).

Lemma placements_snoc plans plan : placements (plans ++ [plan]) = placements plans ++ placed_of plan.
Proof. unfold placements. rewrite fmap_app, concat_app. cbn. by rewrite app_nil_r. Qed.

(** What the plan of one service is. *)
Record service_planned (desired_by_service : gmap string Z) (plan : ServicePlan) : Prop := {
  spl_service : exists service, find_service services (sp_service plan) = Some service /\
    sp_version plan = svc_version service /\ ok service plan;
  spl_desired : sp_desired_replicas plan = count desired_by_service (sp_service plan)
}.

Lemma find_service_Some id service :
  find_service services id = Some service -> service ∈ services /\ svc_id service = id.
Proof.
  unfold find_service. intros ([i s] & Hf & [= ->])%fmap_Some.
  apply list_find_Some in Hf as (Hl & Hid & _). split; [by eapply list_elem_of_lookup_2|done].
Qed.

Lemma place_service_spec desired p id :
  is_Some (find_service services id) -> inv p (placements (pl_services p)) ->
  exists p' plan,
    place_service policy services group now weights devices desired p id = p' /\
    pl_services p' = pl_services p ++ [plan] /\ inv p' (placements (pl_services p')) /\
    service_planned desired plan /\ sp_service plan = id /\
    (pl_infeasible p' = None ->
       pl_infeasible p = None /\ sp_desired_replicas plan <= sp_placed_replicas plan).
Proof using Hdevices.
  intros [service Hfind] Hinv. unfold place_service. rewrite Hfind.
  destruct (find_service_Some _ _ Hfind) as [_ Hid].
  destruct (collect_candidates_spec policy now weights devices Hdevices p service)
    as (sink & candidates & -> & Hnd & Hok).
  set (plan0 := mkServicePlan (svc_id service) (svc_version service) (count desired id) 0 []).
  destruct (place_candidates_spec service candidates (p <| pl_sink := sink |>) plan0 ∅
    (placements (pl_services p))) as (p' & plan & -> & Hinv' & Hplan & (S1 & S2 & S3) & E1 & E2 & E3).
  - by rewrite Hid.
  - done.
  - cbn [plan0 placed_of sp_replicas fmap list_fmap]. rewrite app_nil_r. by apply place_inv_sink.
  - split; try done; cbn; try constructor; try lia. intros r Hr. by apply elem_of_nil in Hr.
  - done.
  - eapply Forall_impl; [exact Hok|]. intros c [C1 C2 C3 C4]. by split.
  - done.
  - set (p1 := if sp_placed_replicas plan <? count desired id then _ else p').
    assert (Hp1 : inv p1 (placements (pl_services p) ++ placed_of plan) /\
      pl_services p1 = pl_services p /\
      (pl_infeasible p1 = None ->
         pl_infeasible p = None /\ count desired id <= sp_placed_replicas plan)).
    { unfold p1. destruct (Z.ltb_spec (sp_placed_replicas plan) (count desired id)).
      - split_and!; [|exact S3|done]. destruct Hinv'. by split.
      - split_and!; [done|exact S3|]. rewrite S2. done. }
    destruct Hp1 as (I1 & I2 & I3). eexists _, plan. split; [reflexivity|].
    cbn [pl_services set].
    change (pl_services (set pl_services ?f ?q)) with (f (pl_services q)). cbn beta.
    rewrite I2. split_and!; [done|..].
    + rewrite placements_snoc. destruct I1. by split.
    + split; [|by rewrite E1, E3; cbn; rewrite Hid].
      exists service. rewrite E1, E2. cbn. by rewrite Hid.
    + by rewrite E1.
    + rewrite E3. exact I3.
Qed.

Lemma place_services_spec desired order p :
  (forall id, id ∈ order -> is_Some (find_service services id)) ->
  inv p (placements (pl_services p)) ->
  let p' := foldl (place_service policy services group now weights devices desired) p order in
  exists plans, pl_services p' = pl_services p ++ plans /\ inv p' (placements (pl_services p')) /\
    Forall (service_planned desired) plans /\ sp_service <$> plans = order /\
    (pl_infeasible p' = None -> pl_infeasible p = None /\
       Forall (fun plan => sp_desired_replicas plan <= sp_placed_replicas plan) plans).
Proof using Hdevices.
  revert p. induction order as [|id order IH]; intros p Hall Hinv; cbn zeta; cbn [foldl].
  { exists []. rewrite app_nil_r. split_and!; [done..|]. intros ?. split; [done|constructor]. }
  destruct (place_service_spec desired p id) as (p1 & plan & -> & Hs & Hinv1 & Hpl & Hid & Hinf);
    [apply Hall; left|done|].
  destruct (IH p1) as (plans & Hs' & Hinv' & Hpls & Hids & Hinf'); [set_solver|done|].
  exists (plan :: plans). split_and!.
  - by rewrite Hs', Hs, <-app_assoc.
  - done.
  - by constructor.
  - cbn. by rewrite Hid, Hids.
  - intros Hn. destruct (Hinf' Hn) as [Hn1 Hall1]. destruct (Hinf Hn1) as [Hn2 Hle].
    split; [done|by constructor].
Qed.
End loops.

(** ** Admission and stages *)
Lemma staging_validate_batch s ceiling :
  status_ok (staging_validate s ceiling) = true -> srp_batch_size s <> 0 /\ srp_batch_size s <= ceiling.
Proof.
  unfold staging_validate. destruct (Z.eqb_spec (srp_batch_size s) 0); [done|].
  destruct (Z.ltb_spec ceiling (srp_batch_size s)); [done|]. intros _. lia.
Qed.

Lemma replica_policy_validate_max p ceiling :
  status_ok (replica_policy_validate p ceiling) = true ->
  rp_min p <= rp_preferred p <= rp_max p /\ rp_max p <= ceiling.
Proof.
  unfold replica_policy_validate. destruct (rp_max p =? 0); [done|].
  destruct (Z.ltb_spec (rp_preferred p) (rp_min p)); [done|]. cbn [orb].
  destruct (Z.ltb_spec (rp_max p) (rp_preferred p)); [done|].
  destruct (Z.ltb_spec ceiling (rp_max p)); [done|]. intros _. lia.
Qed.

Section parts.
Context (bounds : RuntimeBounds) (topology : TopologySnapshot) (policy : PolicyState)
  (services : list ServiceDefinition) (graph : DependencyGraph) (group : ServiceGroup)
  (intent : PlacementIntent) (authority : AuthorityRegistry) (now : LogicalInstant)
  (epoch : CoordinatorEpoch) (boot : BootIncarnation) (weights : PlacementWeights).

(** When an entry of the intent is admitted. *)
Record entry_admitted (entry : ServiceReplicaIntent) : Prop := {
  ea_member : sri_service entry ∈ grp_members group;
  ea_service : exists service, find_service services (sri_service entry) = Some service /\
    rp_min (svc_replicas service) <= sri_desired_replicas entry <= rp_max (svc_replicas service) /\
    rp_max (svc_replicas service) <= max_replicas_per_service bounds;
  ea_ceiling : sri_desired_replicas entry <= pol_max_instances_per_group policy
}.

Lemma entry_refusal_None desired entry :
  entry_refusal bounds policy services group desired entry = None ->
  entry_admitted entry /\ desired !! sri_service entry = None.
Proof.
  unfold entry_refusal. destruct (find_service _ _) as [service|] eqn:Hf; [|done].
  case_bool_decide as Hmem; cbn [negb]; [|done].
  destruct (status_ok _) eqn:Hok; cbn [negb]; [|done].
  destruct (Z.ltb_spec (sri_desired_replicas entry) (rp_min (svc_replicas service))); [done|].
  destruct (Z.ltb_spec (rp_max (svc_replicas service)) (sri_desired_replicas entry)); [done|].
  cbn [orb]. destruct (Z.ltb_spec (pol_max_instances_per_group policy) (sri_desired_replicas entry));
    [done|]. case_bool_decide as Hdup; [done|]. intros _.
  apply replica_policy_validate_max in Hok. split.
  - split; [done| |done]. exists service. split; [done|]. lia.
  - by apply eq_None_not_Some.
Qed.

Lemma admit_fold entries sink a :
  (forall id, id ∈ adm_services a <-> is_Some (adm_desired a !! id)) -> NoDup (adm_services a) ->
  let a' := (foldl (admit_step bounds policy services group) (sink, a) entries).2 in
  adm_rejected a' = false ->
  adm_rejected a = false /\ adm_services a' = adm_services a ++ (sri_service <$> entries) /\
  NoDup (adm_services a') /\ Forall entry_admitted entries /\
  (forall id n, adm_desired a !! id = Some n -> adm_desired a' !! id = Some n) /\
  Forall (fun e => adm_desired a' !! sri_service e = Some (sri_desired_replicas e)) entries.
Proof.
  revert sink a. induction entries as [|e entries IH]; intros sink a Hdom Hnd; cbn zeta; cbn [foldl].
  { cbn. rewrite app_nil_r. intros ?. split_and!; done || constructor. }
  unfold admit_step at 2 4 6 8 10. destruct (entry_refusal _ _ _ _ _ _) as [x|] eqn:He.
  { intros Hr. exfalso. destruct (IH (sink_add sink x)
      (mkAdmission (adm_services a) (adm_desired a) true)) as [? _]; done. }
  apply entry_refusal_None in He as [He Hnew]. intros Hr.
  assert (Hnot : sri_service e ∉ adm_services a) by (rewrite Hdom, Hnew; by intros []).
  destruct (IH sink (mkAdmission (adm_services a ++ [sri_service e])
    (<[sri_service e := sri_desired_replicas e]> (adm_desired a)) (adm_rejected a)))
    as (I1 & I2 & I3 & I4 & I5 & I6); cbn [adm_services adm_desired adm_rejected]; [..|exact Hr|].
  - intros id. rewrite elem_of_app, list_elem_of_singleton, Hdom.
    destruct (decide (id = sri_service e)) as [->|Hne].
    + rewrite lookup_insert_eq. naive_solver.
    + rewrite lookup_insert_ne by done. naive_solver.
  - apply NoDup_app. split_and!; [done| |apply NoDup_singleton]. set_solver.
  - cbn [adm_services adm_desired adm_rejected] in *. split_and!; [done| |done|by constructor|..].
    + rewrite I2, <-app_assoc. done.
    + intros id n Hid. apply I5. rewrite lookup_insert_ne; [done|]. congruence.
    + constructor; [|done]. apply I5. apply lookup_insert_eq.
Qed.

Lemma stage_loop_step fuel total x rest stages :
  let batch := srp_batch_size (int_staging intent) in
  stage_loop bounds intent (S fuel) total (x :: rest) stages =
  if max_stages bounds <=? zlen stages then
    inl (mkTruncationRecord "plan.stages" ((total + batch - 1) / batch) (zlen stages)
      ((total + batch - 1) / batch - zlen stages) ReasonCode.BoundExceeded)
  else stage_loop bounds intent fuel total (drop (Z.to_nat batch) (x :: rest))
    (stages ++ [mkPlanStage (zlen stages) (take (Z.to_nat batch) (x :: rest)) (srp_max_unavailable (int_staging intent))]).
Proof. done. Qed.

(** One more stage than the instances the next one leaves take. *)
Lemma stages_left {A} (l : list A) batch : 0 < batch -> 0 < zlen l ->
  Z.succ ((zlen (drop (Z.to_nat batch) l) + batch - 1) / batch) = (zlen l + batch - 1) / batch.
Proof.
  intros Hb Hl. unfold zlen in *. rewrite length_drop.
  destruct (Z.leb_spec (Z.of_nat (length l)) batch).
  - replace (Z.of_nat (length l - Z.to_nat batch)) with 0 by lia.
    rewrite (Z.div_small (0 + batch - 1)) by lia.
    replace (Z.of_nat (length l) + batch - 1) with ((Z.of_nat (length l) - 1) + 1 * batch) by lia.
    rewrite Z.div_add, (Z.div_small (Z.of_nat (length l) - 1)) by lia. done.
  - replace (Z.of_nat (length l) + batch - 1) with
      ((Z.of_nat (length l - Z.to_nat batch) + batch - 1) + 1 * batch) by lia.
    rewrite Z.div_add by lia. lia.
Qed.

Lemma stage_loop_spec fuel total rest stages stages' :
  0 < srp_batch_size (int_staging intent) -> (length rest <= fuel)%nat ->
  stage_loop bounds intent fuel total rest stages = inr stages' ->
  let batch := srp_batch_size (int_staging intent) in
  exists new, stages' = stages ++ new /\ concat (stage_instances <$> new) = rest /\
    Forall (fun s => 0 < zlen (stage_instances s) <= batch /\
      stage_max_unavailable s = srp_max_unavailable (int_staging intent)) new /\
    stage_index <$> new = seqZ (zlen stages) (zlen new) /\
    zlen new = (zlen rest + batch - 1) / batch /\
    (new = [] \/ zlen stages' <= max_stages bounds).
Proof.
  intros Hb. cbn zeta. set (batch := srp_batch_size (int_staging intent)) in *.
  revert rest stages. induction fuel as [|fuel IH]; intros rest stages Hf.
  { destruct rest; [|cbn in Hf; lia]. cbn. intros [= <-]. exists []. rewrite app_nil_r.
    split_and!; [done|done|constructor|done| |by left].
    symmetry. apply Z.div_small. unfold zlen. cbn. lia. }
  destruct rest as [|x rest].
  { cbn. intros [= <-]. exists []. rewrite app_nil_r.
    split_and!; [done|done|constructor|done| |by left].
    symmetry. apply Z.div_small. unfold zlen. cbn. lia. }
  rewrite stage_loop_step. cbn zeta. fold batch. set (all := x :: rest) in *.
  destruct (Z.leb_spec (max_stages bounds) (zlen stages)); [done|]. intros Hrun.
  assert (Hlen : (length (drop (Z.to_nat batch) all) <= fuel)%nat)
    by (rewrite length_drop; unfold all in *; cbn in *; lia).
  destruct (IH _ _ Hlen Hrun) as (new & -> & Hc & Hs & Hi & Hn & Hm).
  eexists (_ :: new). split; [by rewrite <-app_assoc|].
  assert (Hall : 0 < zlen all) by (unfold all; rewrite zlen_cons; pose proof (zlen_nonneg rest); lia).
  split_and!.
  - cbn. rewrite Hc. apply take_drop.
  - constructor; [|done]. cbn. split; [|done]. unfold zlen in *. rewrite length_take. lia.
  - cbn [fmap list_fmap stage_index]. rewrite Hi, zlen_app, !zlen_cons, zlen_nil.
    rewrite (seqZ_cons (zlen stages)) by (pose proof (zlen_nonneg new); lia).
    unfold Z.succ, Z.pred. f_equal. f_equal; lia.
  - rewrite zlen_cons, Hn, <-(stages_left all batch Hb Hall). lia.
  - right. destruct Hm as [->|Hm]; [|exact Hm].
    rewrite app_nil_r, zlen_app. change (zlen [_]) with 1. lia.
Qed.
End parts.

(** ** Feasible plans *)
Section feasible.
Context (bounds : RuntimeBounds) (topology : TopologySnapshot) (policy : PolicyState)
  (services : list ServiceDefinition) (graph : DependencyGraph) (group : ServiceGroup)
  (intent : PlacementIntent) (authority : AuthorityRegistry) (now : LogicalInstant)
  (epoch : CoordinatorEpoch) (boot : BootIncarnation) (weights : PlacementWeights).
#[local] Notation outcome := (plan_intent bounds topology policy services graph group intent
  authority now epoch boot weights).
#[local] Notation admitted := (entry_admitted bounds policy services group).

(** What a feasible outcome was computed from. *)
Record plan_trace (plan : DeploymentPlan) : Prop := {
  pt_staging : status_ok (staging_validate (int_staging intent) (pol_max_stage_batch policy)) = true;
  pt_entries : Forall admitted (int_services intent);
  pt_distinct : NoDup (sri_service <$> int_services intent);
  pt_order : (topological_order graph (sri_service <$> int_services intent)).1 =
    Value (sp_service <$> plan_services plan);
  pt_planned : exists desired,
    Forall (service_planned policy services group now
      (std_sort (lt_by dpu_id str_lt) (topo_dpus topology)) desired) (plan_services plan) /\
    Forall (fun e => desired !! sri_service e = Some (sri_desired_replicas e)) (int_services intent);
  pt_full : Forall (fun sp => sp_desired_replicas sp <= sp_placed_replicas sp) (plan_services plan);
  pt_inv : exists p, place_inv policy services group authority
    (std_sort (lt_by dpu_id str_lt) (topo_dpus topology)) p (placements (plan_services plan));
  pt_stages : stage_loop bounds intent (length (rollout_order group (plan_services plan)))
    (zlen (rollout_order group (plan_services plan))) (rollout_order group (plan_services plan)) [] =
    inr (plan_stages plan)
}.

Lemma order_elem l order s :
  (topological_order graph l).1 = Value order -> s ∈ order <-> s ∈ l.
Proof.
  intros Ho. pose proof (topological_order_spec graph l) as Hspec. rewrite Ho in Hspec.
  apply Hspec.
Qed.

Lemma intent_staging_valid :
  intent_refusal bounds policy group intent = None ->
  status_ok (staging_validate (int_staging intent) (pol_max_stage_batch policy)) = true.
Proof.
  unfold intent_refusal. repeat (destruct (_ || _); [done|]).
  destruct (negb (bool_decide (int_group _ = _))); [done|].
  destruct (bool_decide (int_services _ = _)); [done|].
  destruct (max_services bounds <? _); [done|].
  destruct (_ && _); [done|].
  by destruct (status_ok (staging_validate (int_staging intent) (pol_max_stage_batch policy))).
Qed.

(** The services of an order are declared when those of the intent are. *)
Lemma ordered_declared order :
  (topological_order graph (sri_service <$> int_services intent)).1 = Value order ->
  Forall admitted (int_services intent) ->
  forall id, id ∈ order -> is_Some (find_service services id).
Proof.
  intros Ho Hent id Hid. apply (order_elem _ order id Ho) in Hid.
  apply list_elem_of_fmap in Hid as (e & -> & He). rewrite Forall_forall in Hent.
  destruct (Hent e He) as [_ (service & Hf & _) _]. by exists service.
Qed.

Lemma feasible_trace :
  NoDup (dpu_id <$> topo_dpus topology) ->
  po_feasible outcome = true -> plan_trace (po_plan outcome).
Proof.
  intros Hnd. unfold plan_intent.
  destruct (intent_refusal bounds policy group intent) as [x|] eqn:Hint; [done|].
  pose proof (intent_staging_valid Hint) as Hstaging.
  unfold admit_services.
  pose proof (admit_fold bounds policy services group (int_services intent)
    (sink_empty (max_explanations bounds)) (mkAdmission [] ∅ false)) as Hadm.
  destruct (foldl _ _ (int_services intent)) as [sink1 a]. cbn [snd] in Hadm.
  destruct (adm_rejected a); [done|].
  destruct Hadm as (_ & Ha & Hdist & Hent & _ & Hdes).
  { intros id. cbn. rewrite lookup_empty. split; [by intros ?%elem_of_nil|by intros []]. }
  { constructor. }
  { done. }
  cbn [adm_services app] in Ha. cbn [or_return].
  unfold order_services. rewrite Ha in *.
  destruct (topological_order graph (sri_service <$> int_services intent)) as [[order|s] path] eqn:Ho;
    [|done]. cbn [or_return].
  unfold close_dependencies. destruct (bool_decide _); [|done]. cbn [or_return].
  unfold candidate_devices. destruct (max_dpus bounds <? _); [done|]. cbn [or_return].
  set (devices := std_sort (lt_by dpu_id str_lt) (topo_dpus topology)).
  assert (Hdevices : NoDup (dpu_id <$> devices)) by (unfold devices; by rewrite std_sort_perm).
  unfold place_services.
  set (sink2 := foldl sink_add sink1 _).
  pose proof (place_services_spec policy services group authority now weights devices Hdevices
    (adm_desired a) order (initial_placement authority sink2)) as Hplace.
  cbn zeta in Hplace. destruct (foldl _ (initial_placement authority sink2) order) as
    [s1 m1 m2 m3 m4 m5 infeasible plans] eqn:Hp. cbn [pl_infeasible].
  destruct infeasible; [done|]. cbn [or_return].
  pose proof (ordered_declared order ltac:(by rewrite Ho) Hent) as Hfound.
  destruct (Hplace Hfound ltac:(by apply place_inv_initial)) as (plans' & Hs & Hinv & Hpl & Hids & Hfull).
  cbn [pl_services initial_placement app pl_infeasible] in *. subst plans'.
  destruct (Hfull eq_refl) as [_ Hfull'].
  unfold build_stages. destruct (stage_loop _ _ _ _ _ _) as [record|stages] eqn:Hst; [done|].
  cbn [or_return po_feasible po_plan]. intros _.
  split; cbn [plan_services plan_stages plan_seal set].
  all: try done.
  - by rewrite Ho, Hids.
  - exists (adm_desired a). done.
  - eexists. exact Hinv.
Qed.

#[local] Notation plan := (po_plan outcome).
Hypothesis (Hdistinct : NoDup (dpu_id <$> topo_dpus topology)).
Hypothesis (Hfeasible : po_feasible outcome = true).

(** C21. A feasible plan is complete: its services are those of the intent in
    dependency order, each with exactly the replicas the intent asks for, numbered
    from 0, and every replica sits on a device of the topology that is admissible
    for its service, citing that device's evidence. *)
Theorem feasible_plan_is_complete :
  (topological_order graph (sri_service <$> int_services intent)).1 =
    Value (sp_service <$> plan_services plan) /\
  forall sp, sp ∈ plan_services plan ->
    exists entry service, entry ∈ int_services intent /\ sri_service entry = sp_service sp /\
      find_service services (sp_service sp) = Some service /\
      sp_version sp = svc_version service /\
      zlen (sp_replicas sp) = Z.max 0 (sri_desired_replicas entry) /\
      pr_index <$> sp_replicas sp = seqZ 0 (zlen (sp_replicas sp)) /\
      forall r, r ∈ sp_replicas sp -> exists dpu, dpu ∈ topo_dpus topology /\
        pr_dpu r = dpu_id dpu /\ pr_domain r = dpu_domain dpu /\
        pr_attachment r = dpu_attachment dpu /\
        pr_eligibility_digest r = ev_digest (dpu_device_evidence dpu) /\
        admissible dpu service policy now.
Proof using Hdistinct Hfeasible.
  destruct (feasible_trace Hdistinct Hfeasible) as [_ _ _ Ho (desired & Hpl & Hdes) Hfull _ _].
  split; [exact Ho|]. intros sp Hsp.
  pose proof (proj1 (Forall_forall _ _) Hpl) as Hpl'. clear Hpl. rename Hpl' into Hpl.
  rewrite Forall_forall in Hdes. rewrite Forall_forall in Hfull.
  destruct (Hpl sp Hsp) as [(service & Hf & Hv & Hok) Hd].
  assert (Hin : sp_service sp ∈ sri_service <$> int_services intent).
  { apply (order_elem _ _ _ Ho). by apply list_elem_of_fmap_2. }
  apply list_elem_of_fmap in Hin as (e & He & Hin). specialize (Hdes e Hin).
  exists e, service. destruct Hok as [R1 R2 R3 R4 R5 R6].
  unfold count in Hd. rewrite He, Hdes in Hd. cbn [default from_option id] in Hd.
  specialize (Hfull sp Hsp). pose proof (zlen_nonneg (sp_replicas sp)).
  split_and!; [done|done|done|done|lia|done|].
  intros r Hr. destruct (R6 r Hr) as (dpu & Hdpu & E1 & E2 & E3 & E4 & E5).
  exists dpu. rewrite elem_of_std_sort in Hdpu.
  apply eligible_admissible in E5. done.
Qed.

(** C22. A feasible plan keeps the anti-affinity limits: the replicas of one service
    are on different devices, in different domains where the group requires it,
    and over all services no device holds more replicas than the tighter of the
    group's cap and the policy ceiling, no domain more than the group's cap. *)
Theorem feasible_plan_respects_limits :
  (forall sp, sp ∈ plan_services plan -> NoDup (pr_dpu <$> sp_replicas sp) /\
     (aa_require_distinct_domains (grp_anti_affinity group) = true ->
        NoDup (pr_domain <$> sp_replicas sp))) /\
  forall x, x ∈ placements (plan_services plan) ->
    zlen (filter (on_dpu (pr_dpu x.2)) (placements (plan_services plan))) <=
      max_per_dpu policy group /\
    forall cap, aa_max_replicas_per_domain (grp_anti_affinity group) = Some cap ->
      zlen (filter (in_domain (pr_domain x.2)) (placements (plan_services plan))) <= cap.
Proof using Hdistinct Hfeasible.
  destruct (feasible_trace Hdistinct Hfeasible) as [_ _ _ _ (desired & Hpl & _) _ (p & Hinv) _].
  rewrite Forall_forall in Hpl. split.
  - intros sp Hsp. destruct (Hpl sp Hsp) as [(service & _ & _ & []) _]. done.
  - intros x Hx. split; [exact (pi_dpu_cap _ _ _ _ _ _ _ Hinv x Hx)|].
    intros cap. exact (pi_domain_cap _ _ _ _ _ _ _ Hinv x cap Hx).
Qed.

(** C7. A feasible plan never oversubscribes a device: in each of the five resources
    the replicas it places on a device need together at most the device's free
    capacity.  And it never double-owns one: services placed on one device that
    require exclusive scopes require the same scope, and it is the scope that
    already owns the device if one does. *)
Theorem feasible_plan_never_oversubscribes :
  (forall dpu f x, dpu ∈ topo_dpus topology -> f ∈ rv_components ->
     x ∈ placements (plan_services plan) -> on_dpu (dpu_id dpu) x ->
     total (fun y => f (demand services y))
       (filter (on_dpu (dpu_id dpu)) (placements (plan_services plan))) <= f (free_capacity dpu)) /\
  (forall x y scope scope', x ∈ placements (plan_services plan) ->
     y ∈ placements (plan_services plan) -> pr_dpu x.2 = pr_dpu y.2 ->
     scope_of services x = Some scope -> scope_of services y = Some scope' -> scope = scope') /\
  (forall x scope owner, x ∈ placements (plan_services plan) ->
     scope_of services x = Some scope ->
     initial_owners authority !! pr_dpu x.2 = Some owner -> scope = owner).
Proof using Hdistinct Hfeasible.
  destruct (feasible_trace Hdistinct Hfeasible) as [_ _ _ _ _ _ (p & [_ _ _ _ I5 I6 I7 I8]) _].
  split_and!.
  - intros dpu f x Hd Hf Hx Hon. rewrite <-(elem_of_std_sort (lt_by dpu_id str_lt)) in Hd.
    specialize (I5 dpu f Hd Hf). specialize (I6 dpu f x Hd Hf Hx Hon). lia.
  - intros x y scope scope' Hx Hy Heq Hsx Hsy. specialize (I7 _ _ Hx Hsx) as Ix.
    specialize (I7 _ _ Hy Hsy) as Iy. rewrite Heq in Ix. congruence.
  - intros x scope owner Hx Hs Ho. specialize (I7 _ _ Hx Hs). specialize (I8 _ _ Ho). congruence.
Qed.

(** The stages of a feasible plan roll out every planned instance exactly once and
    in plan order, in as few batches of the requested size as cover them, numbered
    from 0, each with at least one instance and the requested unavailability, and
    no more of them than the bound allows. *)
Theorem feasible_plan_stages_cover :
  0 <= srp_batch_size (int_staging intent) ->
  let batch := srp_batch_size (int_staging intent) in
  let instances := rollout_order group (plan_services plan) in
  concat (stage_instances <$> plan_stages plan) = instances /\
  Forall (fun s => 0 < zlen (stage_instances s) <= batch /\
    stage_max_unavailable s = srp_max_unavailable (int_staging intent)) (plan_stages plan) /\
  stage_index <$> plan_stages plan = seqZ 0 (zlen (plan_stages plan)) /\
  zlen (plan_stages plan) = (zlen instances + batch - 1) / batch /\
  (plan_stages plan = [] \/ zlen (plan_stages plan) <= max_stages bounds).
Proof using Hdistinct Hfeasible.
  intros Hpos. cbn zeta.
  destruct (feasible_trace Hdistinct Hfeasible) as [Hst _ _ _ _ _ _ Hstages].
  apply staging_validate_batch in Hst as [Hb _].
  apply stage_loop_spec in Hstages as (new & Heq & Hc & Hs & Hi & Hn & Hm); [|lia|done].
  cbn [app] in Heq. rewrite zlen_nil in Hi. rewrite Heq in *. split_and!; done || lia.
Qed.
End feasible.

(** ** Refusals and listing order *)
Section outcomes.
Context (bounds : RuntimeBounds) (topology : TopologySnapshot) (policy : PolicyState)
  (services : list ServiceDefinition) (graph : DependencyGraph) (group : ServiceGroup)
  (intent : PlacementIntent) (authority : AuthorityRegistry) (now : LogicalInstant)
  (epoch : CoordinatorEpoch) (boot : BootIncarnation) (weights : PlacementWeights).

(** C40. The plan does not depend on the order in which the topology lists its devices:
    two listings of the same distinct devices give the same outcome, explanations
    and digest included. *)
Theorem plan_ignores_listing_order dpus :
  NoDup (dpu_id <$> topo_dpus topology) -> dpus ≡ₚ topo_dpus topology ->
  plan_intent bounds (topology <| topo_dpus := dpus |>) policy services graph group intent
    authority now epoch boot weights =
  plan_intent bounds topology policy services graph group intent authority now epoch boot weights.
Proof.
  intros Hnd Hp.
  assert (Hdev : forall sink, candidate_devices bounds (topology <| topo_dpus := dpus |>) sink =
    candidate_devices bounds topology sink).
  { intros sink. unfold candidate_devices. cbn [topo_dpus set].
    change (topo_dpus (set topo_dpus ?f topology)) with (f (topo_dpus topology)). cbn beta.
    rewrite (std_sort_perm_eq dpu_id str_lt dpus (topo_dpus topology)); [done|done|by rewrite Hp]. }
  unfold plan_intent. destruct (intent_refusal bounds policy group intent); [done|].
  destruct (admit_services _ _ _ _ _ _) as [|[sink a]]; [done|]. cbn [or_return].
  destruct (order_services _ _ _); [done|]. cbn [or_return].
  destruct (close_dependencies _ _ _ _); [done|]. cbn [or_return]. by rewrite Hdev.
Qed.

Lemma place_candidates_infeasible service candidates p plan used :
  pl_infeasible (place_candidates policy group p service plan used candidates).1 = pl_infeasible p.
Proof.
  revert p plan used. induction candidates as [|c rest IH]; intros p plan used; [done|].
  cbn [place_candidates]. destruct (_ <=? _); [done|]. destruct (skip_candidate _ _ _ _ _ _); [done|].
  by rewrite IH.
Qed.

Lemma place_services_infeasible devices desired order p :
  (forall code, pl_infeasible p = Some code -> code <> ReasonCode.Ok) ->
  forall code, pl_infeasible (foldl (place_service policy services group now weights devices desired)
    p order) = Some code -> code <> ReasonCode.Ok.
Proof.
  revert p. induction order as [|id order IH]; intros p Hp; [done|]. cbn [foldl]. apply IH.
  unfold place_service. destruct (find_service services id) as [service|]; [|done].
  unfold collect_candidates. destruct (foldl _ _ devices) as [sink candidates].
  match goal with |- context [place_candidates ?a ?b ?c ?d ?e ?f ?g] =>
    pose proof (place_candidates_infeasible d g c e f) as Hc; destruct (place_candidates a b c d e f g)
  end.
  cbn in Hc. intros code. cbn. destruct (_ <? _); cbn; [|by rewrite Hc; apply Hp].
  intros [= <-]. by destruct (bool_decide _).
Qed.

(** A refused intent leaves nothing that looks deployable: the outcome carries the
    default plan, without identity or services, and a reason that is not [Ok]. *)
Theorem refused_outcome_has_no_plan outcome :
  plan_intent bounds topology policy services graph group intent authority now epoch boot weights =
    outcome -> po_feasible outcome = false ->
  po_plan outcome = DeploymentPlan_default /\ po_primary outcome <> ReasonCode.Ok.
Proof.
  intros <-. unfold plan_intent.
  destruct (intent_refusal bounds policy group intent) as [x|] eqn:Hx.
  { intros _. split; [done|]. cbn [fail_with po_primary]. revert Hx. unfold intent_refusal.
    cbn zeta. repeat (match goal with
      | |- (if negb (status_ok ?s) then _ else _) = _ -> _ => fail 1
      | |- (if ?b then _ else _) = _ -> _ => destruct b; [by intros [= <-]|]
      end).
    destruct (status_ok _) eqn:Hs; cbn [negb]; [done|]. intros [= <-].
    cbn [ex_code make_explanation]. intros Hok. unfold status_ok in Hs. by rewrite Hok in Hs. }
  unfold admit_services. destruct (foldl _ _ (int_services intent)) as [sink a].
  destruct (adm_rejected a); [done|]. cbn [or_return].
  unfold order_services. destruct (topological_order _ _) as [[order|s] path]; [|done]. cbn [or_return].
  unfold close_dependencies. destruct (bool_decide _); [|done]. cbn [or_return].
  unfold candidate_devices. destruct (max_dpus bounds <? _); [done|]. cbn [or_return].
  unfold place_services.
  match goal with |- context [pl_infeasible ?p] => destruct (pl_infeasible p) as [code|] eqn:Hp end.
  { cbn [or_return]. intros _. split; [done|]. cbn [fail_with po_primary].
    eapply place_services_infeasible, Hp. done. }
  cbn [or_return]. unfold build_stages. by destruct (stage_loop _ _ _ _ _ _).
Qed.
End outcomes.

(** ** Instance identities *)
Lemma last_dot a b c d :
  str_forall isdigit b = true -> str_forall isdigit d = true ->
  a +:+ "." +:+ b = c +:+ "." +:+ d -> a = c /\ b = d.
Proof.
  intros Hb Hd. revert c.
  assert (Hdot : forall x y, str_forall isdigit (x +:+ "." +:+ y) = false).
  { intros x y. rewrite str_forall_app. cbn. by rewrite andb_false_r. }
  induction a as [|x a IH]; intros [|y c] Heq.
  - split; [done|]. by injection Heq.
  - exfalso. assert (b = c +:+ "." +:+ d) as -> by (by injection Heq). by rewrite Hdot in Hb.
  - exfalso. assert (d = a +:+ "." +:+ b) as -> by (by injection Heq). by rewrite Hdot in Hd.
  - injection Heq as -> Heq. destruct (IH c Heq) as [-> ->]. done.
Qed.

Lemma app_inv_head_string a b c : a +:+ b = a +:+ c -> b = c.
Proof. induction a as [|x a IH]; [done|]. intros Heq. apply IH. by injection Heq. Qed.

Lemma readable_instance_id_inj group s s' i i' :
  in_width u32_max i -> in_width u32_max i' ->
  readable_instance_id group s i = readable_instance_id group s' i' -> s = s' /\ i = i'.
Proof.
  unfold readable_instance_id, in_width, u32_max. intros Hi Hi' Heq.
  apply app_inv_head_string, app_inv_head_string, app_inv_head_string in Heq.
  apply last_dot in Heq as [-> Heq]; [|apply to_string_digits; lia..].
  split; [done|]. apply to_string_inj in Heq; unfold u64_max; lia.
Qed.

(** Within a group, replicas have identities of their own: two replicas with the
    same identity, in its readable form, are the same replica of the same
    service; and the identity of valid names is a valid identity text, so
    [InstanceId::literal] never ends the process on it. *)
Theorem instance_id_of_replica group s s' i i' :
  validate_identity_text group = true -> validate_identity_text s = true ->
  in_width u32_max i -> in_width u32_max i' ->
  slen (readable_instance_id group s i) <= 64 -> slen (readable_instance_id group s' i') <= 64 ->
  validate_identity_text (make_instance_id group s i) = true /\
  (make_instance_id group s i = make_instance_id group s' i' -> s = s' /\ i = i').
Proof.
  intros Hg Hs Hi Hi' Hl Hl'. unfold make_instance_id.
  rewrite (proj2 (Z.leb_le _ _) Hl), (proj2 (Z.leb_le _ _) Hl').
  split; [|by apply readable_instance_id_inj].
  unfold readable_instance_id in *.
  apply (validate_identity_app "i-"); [done| |done].
  assert (Hvalid : forall t, validate_identity_text t = true -> str_forall id_char t = true).
  { intros [|c t]; [done|]. cbn [validate_identity_text].
    destruct (64 <? _); [done|]. by destruct (_ && _). }
  assert (Hdigits : str_forall id_char (to_string i) = true).
  { assert (Hd : str_forall isdigit (to_string i) = true) by (apply to_string_digits; apply Hi).
    revert Hd. apply str_forall_impl. intros c Hc. unfold id_char. rewrite Hc. by rewrite orb_true_r. }
  rewrite !str_forall_app, (Hvalid group), (Hvalid s), Hdigits by done. done.
Qed.
Lemma instance_id_of_replica_witness :
  validate_identity_text (make_instance_id "edge" "web" 3) = true /\
  (make_instance_id "edge" "web" 3 = make_instance_id "edge" "web" 4 -> "web" = "web" /\ 3 = 4).
Proof.
  apply (instance_id_of_replica "edge" "web" "web" 3 4);
    apply (bool_decide_unpack _); vm_compute; exact I.
Defined.

(** Across groups they are not: a dot is an identity character, so the names of two
    group and service pairs can run together. *)
Theorem instance_ids_collide_across_groups :
  validate_identity_text "edge.a" = true /\ validate_identity_text "edge" = true /\
  validate_identity_text "b" = true /\ validate_identity_text "a.b" = true /\
  make_instance_id "edge.a" "b" 0 = make_instance_id "edge" "a.b" 0.
Proof. by vm_compute. Qed.

(** ** A concrete plan *)
Definition sample_device (id domain : string) : DpuRecord := DpuRecord_default
  <| dpu_id := id |> <| dpu_domain := domain |> <| dpu_state := DpuState.Attached |>
  <| dpu_capability_generation := 1 |> <| dpu_capacity := mkResourceVector 100 100 100 100 100 |>
  <| dpu_allocated := mkResourceVector 10 0 0 0 0 |>
  <| dpu_device_evidence := EvidenceRef_default <| ev_id := "ev" |> <| ev_valid_until := 64 |> |>.
Definition sample_topology : TopologySnapshot := TopologySnapshot_default
  <| topo_generation := 1 |>
  <| topo_dpus := [sample_device "dpu-2" "rack-b"; sample_device "dpu-1" "rack-a"] |>.
Definition sample_service (id : string) : ServiceDefinition := ServiceDefinition_default
  <| svc_id := id |> <| svc_resources := mkResourceVector 30 10 0 0 0 |>
  <| svc_replicas := mkReplicaPolicy 0 1 2 |>
  <| svc_isolation := mkIsolationRequirement IsolationKind.None (Some "scope-a") |>.
Definition sample_services : list ServiceDefinition := [sample_service "db"; sample_service "web"].
Definition sample_graph : DependencyGraph :=
  mkDependencyGraph [mkDependency "d1" "web" "db" DependencyKind.Requires].
Definition sample_group : ServiceGroup := ServiceGroup_default
  <| grp_id := "edge" |> <| grp_members := ["db"; "web"] |>
  <| grp_anti_affinity := mkAntiAffinityPolicy true 2 (Some 2) true |>.
Definition sample_intent : PlacementIntent := PlacementIntent_default
  <| int_id := "op-1" |> <| int_group := "edge" |> <| int_generation := 1 |>
  <| int_services := [mkServiceReplicaIntent "web" 2; mkServiceReplicaIntent "db" 2] |>
  <| int_staging := mkStagedRolloutPolicy 3 1 true |>.
Definition sample_outcome (topology : TopologySnapshot) : PlanOutcome :=
  plan_intent RuntimeBounds_default topology PolicyState_default sample_services sample_graph
    sample_group sample_intent AuthorityRegistry_default 5 1 1 PlacementWeights_default.
Definition sample_plan : DeploymentPlan := po_plan (sample_outcome sample_topology).

Example sample_plan_services :
  (fun sp => (sp_service sp, pr_dpu <$> sp_replicas sp)) <$> plan_services sample_plan =
    [("db", ["dpu-1"; "dpu-2"]); ("web", ["dpu-1"; "dpu-2"])].
Proof. vm_compute. reflexivity. Qed.
Example sample_plan_stages :
  stage_instances <$> plan_stages sample_plan =
    [["i-edge.db.0"; "i-edge.db.1"; "i-edge.web.0"]; ["i-edge.web.1"]].
Proof. vm_compute. reflexivity. Qed.

Lemma sample_distinct : NoDup (dpu_id <$> topo_dpus sample_topology).
Proof. apply (bool_decide_unpack _). vm_compute. exact I. Qed.
Lemma sample_feasible : po_feasible (sample_outcome sample_topology) = true.
Proof. vm_compute. reflexivity. Qed.
#[local] Notation at_sample thm :=
  (thm RuntimeBounds_default sample_topology PolicyState_default sample_services sample_graph
    sample_group sample_intent AuthorityRegistry_default 5 1 1 PlacementWeights_default).

Lemma feasible_plan_is_complete_witness :
  (topological_order sample_graph (sri_service <$> int_services sample_intent)).1 =
    Value (sp_service <$> plan_services sample_plan) /\
  forall sp, sp ∈ plan_services sample_plan ->
    exists entry service, entry ∈ int_services sample_intent /\ sri_service entry = sp_service sp /\
      find_service sample_services (sp_service sp) = Some service /\
      sp_version sp = svc_version service /\
      zlen (sp_replicas sp) = Z.max 0 (sri_desired_replicas entry) /\
      pr_index <$> sp_replicas sp = seqZ 0 (zlen (sp_replicas sp)) /\
      forall r, r ∈ sp_replicas sp -> exists dpu, dpu ∈ topo_dpus sample_topology /\
        pr_dpu r = dpu_id dpu /\ pr_domain r = dpu_domain dpu /\
        pr_attachment r = dpu_attachment dpu /\
        pr_eligibility_digest r = ev_digest (dpu_device_evidence dpu) /\
        admissible dpu service PolicyState_default 5.
Proof. exact (at_sample feasible_plan_is_complete sample_distinct sample_feasible). Defined.

Lemma feasible_plan_respects_limits_witness :
  (forall sp, sp ∈ plan_services sample_plan -> NoDup (pr_dpu <$> sp_replicas sp) /\
     (aa_require_distinct_domains (grp_anti_affinity sample_group) = true ->
        NoDup (pr_domain <$> sp_replicas sp))) /\
  forall x, x ∈ placements (plan_services sample_plan) ->
    zlen (filter (on_dpu (pr_dpu x.2)) (placements (plan_services sample_plan))) <=
      max_per_dpu PolicyState_default sample_group /\
    forall cap, aa_max_replicas_per_domain (grp_anti_affinity sample_group) = Some cap ->
      zlen (filter (in_domain (pr_domain x.2)) (placements (plan_services sample_plan))) <= cap.
Proof. exact (at_sample feasible_plan_respects_limits sample_distinct sample_feasible). Defined.

Lemma feasible_plan_never_oversubscribes_witness :
  (forall dpu f x, dpu ∈ topo_dpus sample_topology -> f ∈ rv_components ->
     x ∈ placements (plan_services sample_plan) -> on_dpu (dpu_id dpu) x ->
     total (fun y => f (demand sample_services y))
       (filter (on_dpu (dpu_id dpu)) (placements (plan_services sample_plan))) <=
     f (free_capacity dpu)) /\
  (forall x y scope scope', x ∈ placements (plan_services sample_plan) ->
     y ∈ placements (plan_services sample_plan) -> pr_dpu x.2 = pr_dpu y.2 ->
     scope_of sample_services x = Some scope -> scope_of sample_services y = Some scope' ->
     scope = scope') /\
  (forall x scope owner, x ∈ placements (plan_services sample_plan) ->
     scope_of sample_services x = Some scope ->
     initial_owners AuthorityRegistry_default !! pr_dpu x.2 = Some owner -> scope = owner).
Proof. exact (at_sample feasible_plan_never_oversubscribes sample_distinct sample_feasible). Defined.

Lemma feasible_plan_stages_cover_witness :
  concat (stage_instances <$> plan_stages sample_plan) =
    rollout_order sample_group (plan_services sample_plan) /\
  Forall (fun s => 0 < zlen (stage_instances s) <= 3 /\ stage_max_unavailable s = 1)
    (plan_stages sample_plan) /\
  stage_index <$> plan_stages sample_plan = seqZ 0 (zlen (plan_stages sample_plan)) /\
  zlen (plan_stages sample_plan) =
    (zlen (rollout_order sample_group (plan_services sample_plan)) + 3 - 1) / 3 /\
  (plan_stages sample_plan = [] \/ zlen (plan_stages sample_plan) <= 64).
Proof.
  apply (at_sample feasible_plan_stages_cover sample_distinct sample_feasible). cbn. lia.
Defined.

Lemma plan_ignores_listing_order_witness :
  sample_outcome (sample_topology <| topo_dpus :=
    [sample_device "dpu-1" "rack-a"; sample_device "dpu-2" "rack-b"] |>) =
  sample_outcome sample_topology.
Proof.
  apply plan_ignores_listing_order; [exact sample_distinct|apply Permutation_swap].
Defined.

Lemma refused_outcome_has_no_plan_witness :
  let outcome := sample_outcome (sample_topology <| topo_dpus := [] |>) in
  po_feasible outcome = false /\ po_plan outcome = DeploymentPlan_default /\
  po_primary outcome <> ReasonCode.Ok.
Proof.
  intros outcome. assert (Hf : po_feasible outcome = false) by (vm_compute; reflexivity).
  split; [exact Hf|]. eapply refused_outcome_has_no_plan; [reflexivity|exact Hf].
Defined.

Lemma feasible_plan_generation bounds topology policy services graph group intent authority
    generation now epoch boot weights :
  let outcome := build_plan (mkPlanRequest (Some topology) (Some policy) (Some services)
    (Some graph) (Some group) (Some intent) (Some authority) generation now epoch boot
    (Some bounds)) weights in
  po_feasible outcome = true -> plan_generation (po_plan outcome) = int_generation intent.
Proof.
  cbn zeta. unfold build_plan. cbn [req_topology req_policy req_services req_dependencies req_group
    req_intent req_authority req_bounds req_now req_epoch req_boot]. unfold plan_intent.
  destruct (intent_refusal bounds policy group intent); [done|].
  destruct (admit_services _ _ _ _ _ _) as [o|[sink a]] eqn:H1'; cbn [or_return].
  { revert H1'. unfold admit_services. destruct (foldl _ _ _) as [? ?].
    destruct (adm_rejected _); [by intros [= <-]|done]. }
  destruct (order_services _ _ _) as [o|order] eqn:H2'; cbn [or_return].
  { revert H2'. unfold order_services. destruct (topological_order _ _) as [[?|?] ?]; [done|].
    by intros [= <-]. }
  destruct (close_dependencies _ _ _ _) as [o|sink'] eqn:H3'; cbn [or_return].
  { revert H3'. unfold close_dependencies. destruct (bool_decide _); [done|]. by intros [= <-]. }
  destruct (candidate_devices _ _ _) as [o|devices] eqn:H4'; cbn [or_return].
  { revert H4'. unfold candidate_devices. destruct (_ <? _); [|done]. by intros [= <-]. }
  destruct (place_services _ _ _ _ _ _ _ _ _ _) as [o|p] eqn:H5'; cbn [or_return].
  { revert H5'. unfold place_services. destruct (pl_infeasible _); [|done]. by intros [= <-]. }
  destruct (build_stages _ _ _ _) as [o|stages] eqn:H6'; cbn [or_return].
  { revert H6'. unfold build_stages. destruct (stage_loop _ _ _ _ _ _); [|done]. by intros [= <-]. }
  done.
Qed.
