(* ===== verification/JsonLaws.v ===== *)
(** * The JSON archives read back what they write

    The laws of the JSON half of a [Codec]: the writer's steps attach the
    document of the value, the reader's steps turn that document back into the
    value, and a reader that succeeds has consumed every member of the objects it
    opened.  Fields satisfy laws of their own, relative to the object that is
    open around them. *)

From S2P Require Import Prelude Std Reason Types Digest Json JsonArchive Archive.
#[local] Open Scope Z_scope.

(** ** Laws *)
Definition settled (r : JsonReader) : JsonReader := r <| jr_pending := None |>.

Class JsonLaws {T} (c : Codec T) : Prop := {
  json_put : forall x w, j_put c x w = attach (j_json c x) w;
  json_get : forall x r,
    j_ok c (jr_max_sequence r) x = true -> current_node r = j_json c x ->
    j_get c r = Value (c_norm c x, settled r);
  json_accepts : forall x r r', j_get c r = Value (x, r') ->
    r' = settled r /\ j_ok c (jr_max_sequence r) x = true /\ c_norm c x = x
}.
Lemma json_balanced {T} (c : Codec T) `{!JsonLaws c} x r r' :
  j_get c r = Value (x, r') -> r' = settled r.
Proof. by intros (? & _ & _)%json_accepts. Qed.
Class JsonNonNull {T} (c : Codec T) : Prop :=
  json_nonnull : forall x, is_null (j_json c x) = false.

(** The reader inside an open object, and with other members consumed. *)
Definition inside (frame : ReaderFrame) (r : JsonReader) : JsonReader :=
  r <| jr_stack := frame :: jr_stack r |> <| jr_pending := None |>.
Definition with_consumed (consumed : list bool) (frame : ReaderFrame) : ReaderFrame :=
  frame <| rf_consumed := consumed |>.

(** The position [i] is marked, by now or by then. *)
Definition marks (names : list string) (members : JsonMemberList) (before after : list bool) : Prop :=
  length after = length before /\
  (forall i, after !! i = Some true ->
     before !! i = Some true \/ exists n, n ∈ names /\ members.*1 !! i = Some n) /\
  (forall n, n ∈ names -> n ∈ members.*1).

(** [names]: the members the fields write and read, in order. *)
Class JsonFields {B} (c : Codec B) (names : list string) : Prop := {
  fields_json : forall x, j_json c x = JObject (json_members (j_json c x));
  fields_names : forall x, (json_members (j_json c x)).*1 = names;
  fields_put : forall x members name w,
    NoDup (members.*1 ++ names) ->
    j_put c x (w <| jw_stack := mkWriterFrame (JObject members) name :: jw_stack w |>
                 <| jw_pending := None |>) =
    w <| jw_stack := mkWriterFrame (JObject (members ++ json_members (j_json c x))) name
                       :: jw_stack w |> <| jw_pending := None |>;
  fields_get : forall x r post index consumed,
    j_ok c (jr_max_sequence r) x = true ->
    NoDup (names ++ post.*1) ->
    let members := json_members (j_json c x) ++ post in
    let frame := mkReaderFrame (JObject members) index in
    j_get c (inside (frame (replicate (length names) false ++ consumed)) r) =
      Value (c_norm c x, inside (frame (replicate (length names) true ++ consumed)) r);
  fields_marks : forall x r r' members index consumed,
    j_get c (inside (mkReaderFrame (JObject members) index consumed) r) = Value (x, r') ->
    (exists consumed', r' = inside (mkReaderFrame (JObject members) index consumed') r /\
       marks names members consumed consumed') /\
    j_ok c (jr_max_sequence r) x = true /\ c_norm c x = x
}.

(** ** The reader's monad *)
Lemma jbind_eval {A B} (m : JReader A) (k : A -> JReader B) r a r' :
  m r = Value (a, r') -> jbind m k r = k a r'.
Proof. unfold jbind. by intros ->. Qed.

Lemma jbind_Value {A B} (m : JReader A) (k : A -> JReader B) r b r' :
  jbind m k r = Value (b, r') -> exists a r1, m r = Value (a, r1) /\ k a r1 = Value (b, r').
Proof. unfold jbind. destruct (m r) as [[a r1]|s]; [by eauto|done]. Qed.

Lemma settled_idem r : settled (settled r) = settled r.
Proof. done. Qed.

(** ** Primitives *)

(** A primitive reads the node and settles. *)
Lemma primitive_laws {T} put get ok image (jget : JReader T) jok :
  (forall x r, jok x = true -> current_node r = image x -> jget r = Value (x, settled r)) ->
  (forall x r r', jget r = Value (x, r') -> r' = settled r /\ jok x = true) ->
  JsonLaws (c_exact put get ok image jget jok).
Proof.
  intros Hget Hacc. split; [done|exact (fun x r => Hget x r)|].
  intros x r r' (? & ?)%Hacc. done.
Qed.

(** A primitive that inspects the current node. *)
Ltac read_node :=
  intros x r r'; unfold jbind, current, consume, jfail, jret; cbn [fst snd];
  let Hr := fresh "Hr" in intros Hr; split_match Hr; try done.

Lemma read_string_balanced x r r' : read_string r = Value (x, r') -> r' = settled r.
Proof. revert x r r'. unfold read_string. read_node. Qed.

#[export] Instance c_bool_json : JsonLaws c_bool.
Proof.
  apply primitive_laws.
  - intros x r _ Hr. unfold read_bool, jbind, current. by rewrite Hr.
  - unfold read_bool. read_node.
Qed.

Lemma unsigned_text_value v text :
  0 <= v -> str_forall isdigit text = true -> dec_value v text <= u64_max ->
  unsigned_text v text = Value (dec_value v text).
Proof.
  revert v. induction text as [|c text IH]; intros v Hv; cbn [str_forall dec_value unsigned_text]; [done|].
  intros [Hc Hs]%andb_true_iff Hm. pose proof Hc as Hd. unfold isdigit in Hd. bool_prop.
  pose proof (dec_value_mono (v * 10 + (code c - 48)) text ltac:(lia) Hs).
  assert (Hlow : (code c <? 48) || (57 <? code c) = false) by lia. rewrite Hlow.
  rewrite checked_mul_spec by (unfold in_width, u64_max in *; lia).
  rewrite decide_True by lia. rewrite checked_add_spec by (unfold in_width, u64_max in *; lia).
  rewrite decide_True by lia. apply IH; [lia|done..].
Qed.

Lemma unsigned_text_to_string z :
  0 <= z <= u64_max -> unsigned_text 0 (to_string z) = Value z.
Proof.
  intros Hz. pose proof (to_string_value z Hz) as Hv.
  rewrite unsigned_text_value; rewrite ?Hv; [done|lia| |lia]. apply to_string_digits. lia.
Qed.

Lemma to_string_length z : 0 <= z <= u64_max -> 0 < slen (to_string z) <= 20.
Proof.
  intros Hz. unfold to_string, u64_max in *. destruct (Z.ltb_spec z 0); [lia|].
  pose proof (dec_digits_slen 20 20 z "" ltac:(lia) ltac:(lia)) as Hl.
  pose proof (dec_digits_nonempty 20 z "" ltac:(lia)) as Hne.
  change (slen "") with 0 in Hl. split; [|lia].
  destruct (dec_digits 20 z "") as [|c s]; [done|]. rewrite slen_cons. pose proof (slen_nonneg s). lia.
Qed.

Lemma read_unsigned_json max_value x r :
  0 <= x <= max_value -> max_value <= u64_max -> current_node r = json_unsigned x ->
  read_unsigned max_value r = Value (x, settled r).
Proof.
  intros Hx Hm Hr. unfold read_unsigned, read_integral_unsigned, jbind, current. rewrite Hr.
  unfold json_unsigned. destruct (Z.ltb_spec i64_max x).
  - pose proof (to_string_length x ltac:(lia)).
    assert (Hl : (slen (to_string x) =? 0) || (20 <? slen (to_string x)) = false) by lia. rewrite Hl.
    rewrite unsigned_text_to_string by lia. cbn. by rewrite (proj2 (Z.ltb_ge _ _)) by lia.
  - rewrite (proj2 (Z.ltb_ge x 0)) by lia. cbn. by rewrite (proj2 (Z.ltb_ge _ _)) by lia.
Qed.

Lemma unsigned_text_nonneg v text z : 0 <= v -> unsigned_text v text = Value z -> 0 <= z.
Proof.
  revert v. induction text as [|c text IH]; intros v Hv; cbn [unsigned_text]; [by intros [= <-]|].
  destruct ((code c <? 48) || (57 <? code c)) eqn:Hc; [done|]. bool_prop.
  unfold checked_mul, checked_add. destruct (_ || _); [|destruct (_ <? _); [done|]];
    (destruct (_ <? _); [done|]); apply IH; lia.
Qed.

Lemma read_integral_unsigned_accepts x r r' :
  read_integral_unsigned r = Value (x, r') -> r' = settled r /\ 0 <= x.
Proof.
  revert x r r'. unfold read_integral_unsigned. read_node; (split; [done|]).
  - bool_prop. lia.
  - by eapply (unsigned_text_nonneg 0).
Qed.

Lemma c_unsigned_json max_value : max_value <= u64_max -> JsonLaws (c_unsigned max_value).
Proof.
  intros Hm. apply primitive_laws.
  - intros x r Hx%in_widthb_spec Hr. by apply read_unsigned_json.
  - intros x r r' (raw & r1 & [-> Hraw]%read_integral_unsigned_accepts & H2)%jbind_Value.
    destruct (Z.ltb_spec max_value raw); [done|]. injection H2 as <- <-.
    split; [done|]. by apply in_widthb_spec.
Qed.
#[export] Instance c_u8_json : JsonLaws c_u8.
Proof. by apply c_unsigned_json. Qed.
#[export] Instance c_u16_json : JsonLaws c_u16.
Proof. by apply c_unsigned_json. Qed.
#[export] Instance c_u32_json : JsonLaws c_u32.
Proof. by apply c_unsigned_json. Qed.
#[export] Instance c_u64_json : JsonLaws c_u64.
Proof. by apply c_unsigned_json. Qed.
#[export] Instance c_counter_json : JsonLaws c_counter := c_u64_json.

#[export] Instance c_i64_json : JsonLaws c_i64.
Proof.
  apply primitive_laws.
  - intros x r _ Hr. unfold read_i64, read_integral_signed, jbind, current. by rewrite Hr.
  - unfold read_i64, read_integral_signed. read_node.
Qed.

#[export] Instance c_string_json : JsonLaws c_string.
Proof.
  apply primitive_laws; [|intros x r r' H%read_string_balanced; done].
  intros x r _ Hr. unfold read_string, jbind, current. by rewrite Hr.
Qed.

#[export] Instance c_digest_json : JsonLaws c_digest.
Proof.
  apply primitive_laws.
  - intros x r Hx%bool_decide_eq_true Hr. unfold read_digest, jbind, current. rewrite Hr.
    unfold json_digest. by rewrite digest_parse_hex_hex.
  - unfold read_digest. read_node. split; [done|]. apply bool_decide_eq_true.
    by eapply digest_parse_hex_sound.
Qed.

Lemma hex_blob_hex d : Forall is_byte d -> hex_blob (digest_hex d) = Value d.
Proof.
  induction 1 as [|b d Hb Hd IH]; [done|]. cbn [digest_hex hex_blob].
  destruct (hex_byte b Hb) as (-> & -> & Hor). by rewrite IH; cbn; rewrite Hor.
Qed.

Lemma hex_blob_sound text d :
  slen text mod 2 = 0 -> slen text / 2 <= kMaxDecodedBlob -> hex_blob text = Value d ->
  zlen d <= kMaxDecodedBlob /\ Forall is_byte d.
Proof.
  intros Hmod Hl Hd. assert (Hlen : zlen d = slen text / 2 /\ Forall is_byte d); [|by destruct Hlen as [-> ?]].
  clear Hl. remember (String.length text) as n eqn:Hn. revert text d Hmod Hd Hn.
  induction n as [n IH] using lt_wf_ind. intros text d Hmod Hd Hn.
  destruct text as [|c [|c' text]]; [by injection Hd as <-|done|]. cbn [hex_blob] in Hd.
  destruct (hex_value c) as [high|] eqn:Hh; [|done]. destruct (hex_value c') as [low|] eqn:Hlo; [|done].
  apply result_bind_Value in Hd as (rest & Hr & [= <-]). rewrite !slen_cons in *.
  replace (1 + (1 + slen text)) with (slen text + 1 * 2) in * by lia.
  rewrite Z.div_add by lia. rewrite Z.mod_add in Hmod by lia.
  destruct (IH (String.length text) ltac:(cbn in Hn; lia) text rest Hmod Hr eq_refl) as [IH1 IH2].
  rewrite zlen_cons, IH1. split; [lia|]. constructor; [|done].
  by apply nibbles_byte; eapply hex_value_range.
Qed.

#[export] Instance c_bytes_json : JsonLaws c_bytes.
Proof.
  apply primitive_laws.
  - intros x r [Hl%Z.leb_le Hb%bool_decide_eq_true]%andb_true_iff Hr.
    unfold read_bytes, jbind, current. rewrite Hr. unfold json_bytes.
    rewrite digest_hex_length, (Z.mul_comm 2), Z.mod_mul, Z.div_mul by lia.
    rewrite (proj2 (Z.ltb_ge _ _)) by done. cbn. by rewrite hex_blob_hex.
  - unfold read_bytes. read_node. split; [done|]. bool_prop.
    rewrite andb_true_iff, Z.leb_le, bool_decide_eq_true. by eapply hex_blob_sound.
Qed.

#[export] Instance c_enum_json E `{!Enum E, !EnumLaws E} : JsonLaws (c_enum E).
Proof.
  apply primitive_laws.
  - intros x r _ Hr. unfold read_enum, jbind, current. rewrite Hr. unfold json_enum.
    by rewrite enum_from_to_string.
  - unfold read_enum. read_node.
Qed.

#[export] Instance c_id_json : JsonLaws c_id.
Proof.
  apply primitive_laws.
  - intros x r Hx Hr. unfold jbind at 1, read_string, jbind, current. rewrite Hr. cbn.
    destruct x as [|c x]; [done|]. by rewrite StrongId_parse_valid.
  - intros x r r' (text & r1 & Hs%read_string_balanced & H2)%jbind_Value. subst r1.
    destruct text as [|c text]; [by injection H2 as <- <-|].
    destruct (StrongId_parse _) as [id|] eqn:Hp; [|done]. injection H2 as <- <-.
    apply StrongId_parse_Value in Hp as [-> Hv]. split; [done|]. by rewrite Hv, orb_true_r.
Qed.

(** ** Sequences *)
Lemma attach_element e elements name w :
  attach e (w <| jw_stack := mkWriterFrame (JArray elements) name :: jw_stack w |>
              <| jw_pending := None |>) =
  w <| jw_stack := mkWriterFrame (JArray (elements ++ [e])) name :: jw_stack w |>
    <| jw_pending := None |>.
Proof. done. Qed.

(** Closing a container attaches it where it was opened. *)
Lemma close_opened value w :
  close_container (w <| jw_stack := mkWriterFrame value (jw_pending w) :: jw_stack w |>
                     <| jw_pending := None |>) = attach value w.
Proof. by destruct w as [stack root [name|] set]. Qed.

Lemma settle_inside frame r : settled r = (inside frame r) <| jr_stack := jr_stack r |>.
Proof. done. Qed.

Section vectors.
Context {T : Type} (c : Codec T) `{!JsonLaws c}.

Lemma put_elements l elements name w :
  foldl (fun w x => j_put c x w)
    (w <| jw_stack := mkWriterFrame (JArray elements) name :: jw_stack w |> <| jw_pending := None |>) l =
  w <| jw_stack := mkWriterFrame (JArray (elements ++ map (j_json c) l)) name :: jw_stack w |>
    <| jw_pending := None |>.
Proof.
  revert elements. induction l as [|x l IH]; intros elements; cbn [foldl map].
  - by rewrite app_nil_r.
  - rewrite json_put, attach_element, IH. by rewrite <-app_assoc.
Qed.

Lemma get_json_elements l before r :
  forallb (j_ok c (jr_max_sequence r)) l = true ->
  let node := JArray (before ++ map (j_json c) l) in
  read_elements (j_get c) (length l) (inside (mkReaderFrame node (length before) []) r) =
    Value (c_norm c <$> l, inside (mkReaderFrame node (length before + length l) []) r).
Proof.
  revert before. induction l as [|x l IH]; intros before; cbn [forallb length read_elements].
  { intros _. by rewrite Nat.add_0_r. }
  intros [Hx Hl]%andb_true_iff. set (node := JArray _).
  assert (Hb : read_begin_element (inside (mkReaderFrame node (length before) []) r) =
    Value (tt, (inside (mkReaderFrame node (S (length before)) []) r)
                 <| jr_pending := Some (j_json c x) |>)).
  { unfold read_begin_element. cbn [jr_stack inside set rf_node is_array negb json_elements rf_index].
    cbn [node is_array negb json_elements map]. rewrite lookup_app_r by lia.
    by rewrite Nat.sub_diag. }
  rewrite (jbind_eval _ _ _ _ _ Hb). rewrite (jbind_eval _ _ _ (c_norm c x) (inside (mkReaderFrame node (S (length before)) []) r)).
  2: { by apply (json_get x). }
  rewrite (jbind_eval read_end_element _ _ tt _ eq_refl).
  specialize (IH (before ++ [j_json c x]) Hl).
  rewrite length_app, Nat.add_1_r, <-app_assoc in IH.
  erewrite jbind_eval; [|exact IH]. unfold jret. do 4 f_equal. cbn [length]. lia.
Qed.

Lemma read_elements_accepts n frame r l r' :
  read_elements (j_get c) n (inside frame r) = Value (l, r') ->
  (exists frame', r' = inside frame' r) /\
  length l = n /\ forallb (j_ok c (jr_max_sequence r)) l = true /\ c_norm c <$> l = l.
Proof.
  revert frame l. induction n as [|n IH]; intros frame l; cbn [read_elements].
  { intros [= <- <-]. eauto. }
  intros (u & r1 & H1 & (x & r2 & H2 & (u' & r3 & H3 & (k & r4 & H4 & H5)%jbind_Value)%jbind_Value)%jbind_Value)%jbind_Value.
  injection H5 as <- <-.
  assert (exists frame1, settled r1 = inside frame1 r) as [frame1 Hr1].
  { revert H1. unfold read_begin_element. cbn [inside set jr_stack].
    destruct (negb _); [done|].
    destruct (json_elements (rf_node frame) !! rf_index frame); [|done]. intros [= _ <-]. by eexists. }
  apply json_accepts in H2 as (-> & Hok & Hnorm). injection H3 as _ <-.
  rewrite settled_idem, Hr1 in H4. apply IH in H4 as (Hf & Hl & Hoks & Hnorms).
  change (jr_max_sequence r1) with (jr_max_sequence (settled r1)) in Hok. rewrite Hr1 in Hok.
  split_and!; [done|by cbn; rewrite Hl|cbn [forallb]; by rewrite Hoks, andb_true_r|].
  by rewrite fmap_cons, Hnorm, Hnorms.
Qed.
End vectors.

#[export] Instance c_vector_json {T} (c : Codec T) : JsonLaws c -> JsonLaws (c_vector c).
Proof.
  intros L. split; cbn [c_vector j_put j_get j_ok j_json c_norm].
  - intros l w. unfold write_begin_array, open_container, make_array.
    rewrite (put_elements c). apply close_opened.
  - intros l r [Hl%Z.leb_le Hok]%andb_true_iff Hr. unfold read_vector.
    assert (Hb : read_begin_array r =
      Value (length l, inside (mkReaderFrame (JArray (map (j_json c) l)) 0 []) r)).
    { unfold read_begin_array, jbind at 1, current. rewrite Hr. cbn [is_array negb json_elements].
      assert (Hz : zlen (map (j_json c) l) = zlen l) by (unfold zlen; by rewrite length_map).
      rewrite Hz, (proj2 (Z.ltb_ge _ _)) by done. by rewrite length_map. }
    rewrite (jbind_eval _ _ _ _ _ Hb).
    erewrite jbind_eval; [|by apply (get_json_elements c l [])]. done.
  - intros l r r' (n & r1 & H1 & (k & r2 & H2 & (u & r3 & H3 & H4)%jbind_Value)%jbind_Value)%jbind_Value.
    injection H4 as <- <-. apply jbind_Value in H1 as (node & r0 & [= <- <-] & H1).
    destruct (negb _); [done|].
    destruct (Z.ltb_spec (jr_max_sequence r) (zlen (json_elements (current_node r)))); [done|].
    injection H1 as <- <-.
    apply (read_elements_accepts c _ _ r) in H2 as ([frame' ->] & Hl & Hoks & Hnorms).
    injection H3 as _ <-. split_and!; [done| |done].
    rewrite Hoks, andb_true_r, Z.leb_le. unfold zlen in *. by rewrite Hl.
Qed.

#[export] Instance c_option_json {T} (c : Codec T) :
  JsonLaws c -> JsonNonNull c -> JsonLaws (c_option c).
Proof.
  intros L N. split; cbn [c_option j_put j_get j_ok j_json c_norm].
  - intros [x|] w; [|done]. rewrite bool_decide_true by eauto. apply json_put.
  - intros [x|] r Hx Hr; unfold read_option, read_optional_begin, current.
    + unfold jbind at 1 2. rewrite Hr, (json_nonnull x). cbn.
      by rewrite (jbind_eval _ _ _ _ _ (json_get x r Hx Hr)).
    + unfold jbind. by rewrite Hr.
  - intros x r r'. unfold read_option, read_optional_begin, current.
    unfold jbind at 1 2. destruct (is_null _); [by intros [= <- <-]|].
    intros (y & r1 & (-> & Hok & Hn)%json_accepts & [= <- <-])%jbind_Value. cbn. by rewrite Hn.
Qed.

(** ** Fields of an open object *)
Lemma attach_member name value members frame_name w :
  name ∉ members.*1 ->
  attach value (write_begin_field name
    (w <| jw_stack := mkWriterFrame (JObject members) frame_name :: jw_stack w |>
       <| jw_pending := None |>)) =
  w <| jw_stack := mkWriterFrame (JObject (members ++ [(name, value)])) frame_name :: jw_stack w |>
    <| jw_pending := None |>.
Proof.
  intros Hn. unfold attach, write_begin_field.
  cbn [set jw_stack jw_pending wf_value wf_name is_array]. unfold json_set.
  by rewrite set_member_new.
Qed.

Lemma member_at_app name before after v k :
  name ∉ before.*1 ->
  member_at name (before ++ (name, v) :: after) k = Some (k + length before, v)%nat.
Proof.
  revert k. induction before as [|[m w] before IH]; intros k; cbn [app member_at fmap list_fmap fst].
  - intros _. rewrite bool_decide_true by done. by rewrite Nat.add_0_r.
  - intros [Hm Hn]%not_elem_of_cons. rewrite bool_decide_false by done.
    rewrite IH by done. cbn [length]. do 2 f_equal. lia.
Qed.

Lemma member_at_Some name members k i v :
  member_at name members k = Some (i, v) -> exists j, i = (k + j)%nat /\ members.*1 !! j = Some name.
Proof.
  revert k. induction members as [|[m w] members IH]; intros k; cbn [member_at]; [done|].
  case_bool_decide as Hm.
  - intros [= <- _]. exists 0%nat. subst m. by rewrite Nat.add_0_r.
  - intros (j & -> & Hj)%IH. exists (S j). split; [lia|done].
Qed.

Lemma replicate_insert n (post : list bool) :
  <[n := true]> (replicate n true ++ false :: post) = replicate (S n) true ++ post.
Proof.
  rewrite insert_app_r_alt, length_replicate, Nat.sub_diag by (rewrite length_replicate; lia).
  by rewrite (replicate_S_end n true), <-app_assoc.
Qed.

Lemma lookup_replicate_next n x (post : list bool) :
  (replicate n true ++ x :: post) !! n = Some x.
Proof. by rewrite lookup_app_r, length_replicate, Nat.sub_diag by (rewrite length_replicate; lia). Qed.

Lemma marks_refl members consumed : marks [] members consumed consumed.
Proof. split_and!; [done|by left|by intros n Hn%elem_of_nil]. Qed.

Lemma marks_step names name members i before mid :
  marks names members before mid -> members.*1 !! i = Some name ->
  marks (names ++ [name]) members before (<[i := true]> mid).
Proof.
  intros (Hl & Hm & Hn) Hi. split_and!.
  - by rewrite length_insert.
  - intros j. destruct (decide (j = i)) as [->|Hne].
    + intros _. right. exists name. split; [|done]. apply elem_of_app. right. by left.
    + rewrite list_lookup_insert_ne by done. intros [?|(n & ? & ?)]%Hm; [by left|].
      right. exists n. split; [|done]. apply elem_of_app. by left.
  - intros n [Hin | ->%list_elem_of_singleton]%elem_of_app; [by apply Hn|].
    by eapply list_elem_of_lookup_2.
Qed.

#[export] Instance c_unit_fields : JsonFields c_unit [].
Proof.
  split; cbn [c_unit j_put j_get j_ok j_json c_norm make_object json_members]; try done.
  - intros x members name w _. by rewrite app_nil_r.
  - by intros [].
  - intros [] r r' members index consumed H. injection H as <-. eauto 6 using marks_refl.
Qed.

Lemma read_begin_field_inside name node index consumed r i v :
  member_at name (json_members node) 0 = Some (i, v) -> is_object node = true ->
  default false (consumed !! i) = false ->
  read_begin_field name (inside (mkReaderFrame node index consumed) r) =
    Value (tt, (inside (mkReaderFrame node index (<[i := true]> consumed)) r)
      <| jr_pending := Some v |>).
Proof.
  intros Hm Ho Hc. unfold read_begin_field.
  cbn [inside set jr_stack rf_node rf_index rf_consumed]. by rewrite Ho, Hm, Hc.
Qed.

#[export] Instance c_field_fields {A B} (before : Codec A) name (c : Codec B) names :
  JsonFields before names -> JsonLaws c -> JsonFields (c_field before name c) (names ++ [name]).
Proof.
  intros F L. split; cbn [c_field j_put j_get j_ok j_json c_norm json_members]; [done|..].
  - intros [a b]. rewrite fmap_app. cbn [fst snd fmap list_fmap].
    by rewrite (fields_names (c := before)).
  - intros [a b] members frame_name w Hnd. rewrite (assoc_L (++)) in Hnd.
    apply NoDup_app in Hnd as (Hnd & Hd & _).
    rewrite (fields_put (c := before)) by done. cbn [fst snd].
    rewrite (json_put (c := c)), attach_member; [by rewrite <-(assoc_L (++))|].
    rewrite fmap_app, (fields_names (c := before)). intros Hn. apply (Hd _ Hn). by left.
  - intros [a b] r post index consumed [Ha Hb]%andb_true_iff Hnd. cbn [fst snd] in *.
    rewrite length_app, Nat.add_1_r, <-!(assoc_L (++)) in *. cbn [app] in *.
    rewrite replicate_S_end, <-(assoc_L (++)). cbn [app].
    pose proof (fields_get (c := before) a r ((name, j_json c b) :: post) index (false :: consumed) Ha Hnd) as Hg.
    cbn zeta in Hg. rewrite (jbind_eval _ _ _ _ _ Hg).
    pose proof (fields_names (c := before) a) as Hnames. rewrite <-Hnames in Hnd.
    assert (Hlen : length names = length (json_members (j_json before a)))
      by by rewrite <-Hnames, length_fmap.
    apply NoDup_app in Hnd as (_ & Hd & _).
    assert (Hn : name ∉ (json_members (j_json before a)).*1) by (intros Hn; apply (Hd _ Hn); by left).
    unfold read_field. set (members := json_members (j_json before a) ++ (name, j_json c b) :: post) in *.
    assert (Hbegin : read_begin_field name (inside (mkReaderFrame (JObject members) index
        (replicate (length names) true ++ false :: consumed)) r) =
      Value (tt, (inside (mkReaderFrame (JObject members) index
        (replicate (S (length names)) true ++ consumed)) r) <| jr_pending := Some (j_json c b) |>)).
    { rewrite <-replicate_insert. apply read_begin_field_inside; [|done|by rewrite lookup_replicate_next].
      cbn [json_members]. unfold members. by rewrite member_at_app, Hlen. }
    erewrite jbind_eval; [|rewrite (jbind_eval _ _ _ _ _ Hbegin);
      erewrite jbind_eval; [reflexivity|by apply (json_get (c := c) b)]].
    reflexivity.
  - intros [a b] r r' members index consumed
      (a' & r1 & H1 & (b' & r2 & H2 & H3)%jbind_Value)%jbind_Value.
    injection H3 as <- <- <-.
    apply (fields_marks (c := before)) in H1 as ((mid & -> & Hmid) & Hok & Hnorm).
    apply jbind_Value in H2 as (u & r3 & H3 & (y & r4 & H4 & (u' & r5 & H5 & H6)%jbind_Value)%jbind_Value).
    injection H6 as <- <-. injection H5 as _ <-. apply (json_accepts (c := c)) in H4 as (-> & Hok' & Hnorm').
    unfold read_begin_field in H3. cbn [inside set jr_stack rf_node rf_index rf_consumed is_object negb json_members] in H3.
    destruct (member_at name members 0) as [[i v]|] eqn:Hm; [|done].
    destruct (default false (mid !! i)); [done|]. injection H3 as _ <-.
    apply member_at_Some in Hm as (j & -> & Hj). cbn [fst snd]. rewrite Hnorm, Hnorm', Hok.
    split_and!; [|exact Hok'|done]. eexists. split; [reflexivity|]. by apply marks_step.
Qed.

Lemma c_iso_fields {S B} (split : S -> B) (build : B -> S) (c : Codec B) names :
  (forall b, split (build b) = b) -> JsonFields c names -> JsonFields (c_iso split build c) names.
Proof.
  intros Hb F. split; cbn [c_iso j_put j_get j_ok j_json c_norm].
  - intros x. apply (fields_json (c := c)).
  - intros x. apply (fields_names (c := c)).
  - intros x. apply (fields_put (c := c)).
  - intros x r post index consumed Hx Hnd.
    by rewrite (jbind_eval _ _ _ _ _ (fields_get (c := c) (split x) r post index consumed Hx Hnd)).
  - intros x r r' members index consumed (b & r1 & H1 & [= <- <-])%jbind_Value. rewrite Hb.
    apply (fields_marks (c := c)) in H1 as (Hm & Hok & Hn). by rewrite Hn.
Qed.

(** ** Objects *)
Lemma unconsumed_None consumed members :
  length consumed = length members -> unconsumed consumed members = None ->
  forall i, (i < length members)%nat -> consumed !! i = Some true.
Proof.
  revert members. induction consumed as [|[] consumed IH]; intros [|m members] Hl Hu i Hi;
    cbn in *; try lia; [|by destruct m].
  destruct i as [|i]; [done|]. apply (IH members); [lia|done|lia].
Qed.

Lemma unconsumed_all n members : unconsumed (replicate n true) members = None.
Proof.
  revert members. induction n as [|n IH]; intros members; [done|]. destruct members; [done|]. apply IH.
Qed.

Section objects.
Context {T : Type} (c : Codec T) (names : list string) `{!JsonFields c names}.

(** A successful reader has met an object with exactly the members of the struct. *)
Lemma read_object_strict type_name x r r' :
  read_object type_name (j_get c) r = Value (x, r') ->
  (r' = settled r /\ j_ok c (jr_max_sequence r) x = true /\ c_norm c x = x) /\
  exists members, current_node r = JObject members /\ forall n, n ∈ members.*1 <-> n ∈ names.
Proof.
  intros (u & r1 & H1 & (y & r2 & H2 & (u' & r3 & H3 & H4)%jbind_Value)%jbind_Value)%jbind_Value.
  injection H4 as <- <-. unfold read_begin_object, jbind, current in H1.
  destruct (current_node r) as [| | | | |members] eqn:Hc; [done..|].
  injection H1 as _ <-.
  apply (fields_marks (c := c) y r) in H2 as ((consumed & -> & Hl & Hm & Hn) & Hok & Hnorm).
  cbn [json_members] in *. rewrite length_replicate in Hl. unfold read_end_object in H3.
  cbn [inside set jr_stack rf_consumed rf_node json_members] in H3.
  destruct (unconsumed consumed members) eqn:Hu; [done|]. injection H3 as _ <-.
  split; [done|]. exists members. split; [done|]. intros n. split; [|apply Hn].
  intros [i Hi]%list_elem_of_lookup.
  assert (Hlt : (i < length members)%nat)
    by (rewrite <-(length_fmap fst); by eapply lookup_lt_Some).
  destruct (Hm i) as [Hf|(n' & Hn' & Hi')].
  - by apply (unconsumed_None consumed members).
  - by apply lookup_replicate in Hf as [? _].
  - rewrite Hi in Hi'. by injection Hi' as ->.
Qed.

Lemma c_object_json type_name : NoDup names -> JsonLaws (c_object type_name c).
Proof.
  intros Hnd. split; cbn [c_object j_put j_get j_ok j_json c_norm].
  - intros x w. unfold write_begin_object, open_container, make_object.
    rewrite (fields_put (c := c) x [] _ w) by done. cbn [app].
    rewrite <-(fields_json (c := c)). apply close_opened.
  - intros x r Hx Hr. unfold read_object, read_begin_object, jbind, current. rewrite Hr.
    rewrite (fields_json (c := c)). cbn [is_object negb json_members push_frame].
    pose proof (fields_get (c := c) x r [] 0 [] Hx) as Hg. cbn [fmap list_fmap] in Hg.
    rewrite !app_nil_r in Hg. specialize (Hg Hnd). cbn zeta in Hg.
    rewrite <-(length_fmap fst), (fields_names (c := c) x).
    change (r <| jr_stack := ?f :: jr_stack r |> <| jr_pending := None |>) with (inside f r).
    rewrite Hg. unfold read_end_object. cbn [inside set jr_stack rf_consumed rf_node].
    by rewrite unconsumed_all.
  - intros x r r' H. by apply read_object_strict in H as [? _].
Qed.

Lemma c_object_nonnull type_name : JsonNonNull (c_object type_name c).
Proof. intros x. cbn [c_object j_json]. by rewrite (fields_json (c := c)). Qed.
End objects.

(** ** Nesting of the documents

    The types are not recursive, so the documents of a type nest to a fixed
    depth. *)
Class JsonDepth {T} (c : Codec T) (depth : nat) : Prop :=
  json_depth : forall x, (json_levels (j_json c x) <= depth)%nat.

Lemma exact_depth {T} put get ok image (jget : JReader T) jok :
  (forall x, json_levels (image x) = 1%nat) -> JsonDepth (c_exact put get ok image jget jok) 1.
Proof. intros H x. cbn. by rewrite H. Qed.
#[export] Instance c_bool_depth : JsonDepth c_bool 1.
Proof. by apply exact_depth. Qed.
#[export] Instance c_unsigned_depth m : JsonDepth (c_unsigned m) 1.
Proof. apply exact_depth. intros x. unfold json_unsigned. by destruct (_ <? _). Qed.
#[export] Instance c_u8_depth : JsonDepth c_u8 1 := c_unsigned_depth _.
#[export] Instance c_u16_depth : JsonDepth c_u16 1 := c_unsigned_depth _.
#[export] Instance c_u32_depth : JsonDepth c_u32 1 := c_unsigned_depth _.
#[export] Instance c_u64_depth : JsonDepth c_u64 1 := c_unsigned_depth _.
#[export] Instance c_counter_depth : JsonDepth c_counter 1 := c_unsigned_depth _.
#[export] Instance c_i64_depth : JsonDepth c_i64 1.
Proof. by apply exact_depth. Qed.
#[export] Instance c_string_depth : JsonDepth c_string 1.
Proof. by apply exact_depth. Qed.
#[export] Instance c_digest_depth : JsonDepth c_digest 1.
Proof. by apply exact_depth. Qed.
#[export] Instance c_bytes_depth : JsonDepth c_bytes 1.
Proof. by apply exact_depth. Qed.
#[export] Instance c_id_depth : JsonDepth c_id 1.
Proof. by apply exact_depth. Qed.
#[export] Instance c_enum_depth E `{!Enum E} : JsonDepth (c_enum E) 1.
Proof. by apply exact_depth. Qed.

#[export] Instance c_vector_depth {T} (c : Codec T) d : JsonDepth c d -> JsonDepth (c_vector c) (S d).
Proof.
  intros H l. cbn [c_vector j_json json_levels]. apply le_n_S. rewrite map_map.
  apply Forall_list_max, Forall_forall. intros x _. apply H.
Qed.
#[export] Instance c_option_depth {T} (c : Codec T) d : JsonDepth c d -> JsonDepth (c_option c) (S d).
Proof. intros H [x|]; cbn; [|lia]. specialize (H x). lia. Qed.
#[export] Instance c_unit_depth : JsonDepth c_unit 1.
Proof. intros x. cbn. lia. Qed.
Lemma members_levels v :
  (S (list_max (map (fun m => json_levels m.2) (json_members v))) <= json_levels v)%nat.
Proof. destruct v; first [exact (Nat.le_refl _)|apply le_n_S, Nat.le_0_l]. Qed.
#[export] Instance c_field_depth {A B} (before : Codec A) name (c : Codec B) d1 d2 :
  JsonDepth before d1 -> JsonDepth c d2 -> JsonDepth (c_field before name c) (d1 `max` S d2).
Proof.
  intros H1 H2 [a b]. cbn [c_field j_json json_levels fst snd].
  specialize (H1 a). specialize (H2 b). pose proof (members_levels (j_json before a)).
  rewrite map_app, list_max_app. cbn [map]. unfold list_max at 2. cbn [foldr snd]. lia.
Qed.
#[export] Instance c_iso_depth {S B} (split : S -> B) (build : B -> S) (c : Codec B) d :
  JsonDepth c d -> JsonDepth (c_iso split build c) d.
Proof. intros H x. apply H. Qed.
#[export] Instance c_object_depth {S} name (c : Codec S) d :
  JsonDepth c d -> JsonDepth (c_object name c) d.
Proof. done. Qed.
Lemma c_alternative_levels {V A} (inj : A -> V) (proj : V -> option A) (c : Codec A) d v :
  JsonDepth c d -> (json_levels (j_json (c_alternative inj proj c) v) <= S d)%nat.
Proof. intros H. cbn. destruct (proj v) as [a|]; [|cbn; lia]. specialize (H a). lia. Qed.
Lemma c_variant_depth {V} (index : V -> nat) (alternatives : list (Codec V)) d :
  (forall i c, alternatives !! i = Some c -> JsonDepth c d) -> (1 <= d)%nat ->
  JsonDepth (c_variant index alternatives) (S d).
Proof.
  intros H Hd v. cbn [c_variant j_json json_levels map snd]. apply le_n_S.
  pose proof (c_u32_depth (Z.of_nat (index v))).
  unfold list_max. cbn [foldr]. unfold JsonDepth in *.
  destruct (alternatives !! index v) as [c|] eqn:Hc; [|cbn [json_levels]; lia].
  specialize (H _ _ Hc v). lia.
Qed.
Lemma depth_weaken {T} (c : Codec T) d d' : JsonDepth c d -> (d <= d')%nat -> JsonDepth c d'.
Proof. intros H Hd x. specialize (H x). lia. Qed.

Ltac solve_depth :=
  eapply depth_weaken; [apply c_object_depth, c_iso_depth; typeclasses eauto|];
  by apply (bool_decide_unpack _).

(** ** Variants *)

(** The laws of a codec at one value: an alternative has them at its own values. *)
Definition json_at {V} (c : Codec V) (v : V) : Prop :=
  (forall w, j_put c v w = attach (j_json c v) w) /\
  (forall r, j_ok c (jr_max_sequence r) v = true -> current_node r = j_json c v ->
     j_get c r = Value (c_norm c v, settled r)).
Definition json_yields {V} (c : Codec V) (P : V -> Prop) : Prop :=
  forall x r r', j_get c r = Value (x, r') ->
    r' = settled r /\ j_ok c (jr_max_sequence r) x = true /\ c_norm c x = x /\ P x.

Lemma alternative_at {V A} (inj : A -> V) (proj : V -> option A) (c : Codec A) a :
  JsonLaws c -> proj (inj a) = Some a -> json_at (c_alternative inj proj c) (inj a).
Proof.
  intros L Hp. split; cbn [c_alternative j_put j_get j_ok j_json c_norm]; rewrite Hp.
  - intros w. apply json_put.
  - intros r Hx Hr. by rewrite (jbind_eval _ _ _ _ _ (json_get a r Hx Hr)).
Qed.
Lemma alternative_yields {V A} (inj : A -> V) (proj : V -> option A) (c : Codec A) (P : V -> Prop) :
  JsonLaws c -> (forall a, proj (inj a) = Some a) -> (forall a, P (inj a)) ->
  json_yields (c_alternative inj proj c) P.
Proof.
  intros L Hp HP x r r' (a & r1 & (-> & Hok & Hn)%json_accepts & [= <- <-])%jbind_Value.
  cbn [c_alternative j_ok c_norm]. by rewrite Hp, Hn.
Qed.

(** Reading one member of an open object. *)
Lemma read_field_inside {T} name (get : JReader T) node index consumed r i v x :
  member_at name (json_members node) 0 = Some (i, v) -> is_object node = true ->
  default false (consumed !! i) = false ->
  (forall r', jr_max_sequence r' = jr_max_sequence r -> current_node r' = v ->
     get r' = Value (x, settled r')) ->
  read_field name get (inside (mkReaderFrame node index consumed) r) =
    Value (x, inside (mkReaderFrame node index (<[i := true]> consumed)) r).
Proof.
  intros Hm Ho Hc Hget. unfold read_field.
  rewrite (jbind_eval _ _ _ _ _ (read_begin_field_inside _ _ _ _ r _ _ Hm Ho Hc)).
  erewrite jbind_eval; [|by apply Hget]. done.
Qed.

Lemma read_field_balanced {T} name (get : JReader T) frame r x r' :
  (forall x r r', get r = Value (x, r') -> r' = settled r) ->
  read_field name get (inside frame r) = Value (x, r') ->
  (exists frame', r' = inside frame' r) /\
  exists r1, jr_max_sequence r1 = jr_max_sequence r /\ get r1 = Value (x, settled r1).
Proof.
  intros Hget (u & r1 & H1 & (y & r2 & H2 & (u' & r3 & H3 & H4)%jbind_Value)%jbind_Value)%jbind_Value.
  injection H4 as <- <-. injection H3 as _ <-. pose proof (Hget _ _ _ H2) as ->.
  unfold read_begin_field in H1. cbn [inside set jr_stack] in H1.
  destruct (negb _); [done|]. destruct (member_at _ _ _) as [[i v]|]; [|done].
  destruct (default _ _); [done|]. injection H1 as _ <-. split; [by eexists|].
  eexists. split; [|exact H2]. done.
Qed.

Section variants.
Context {V : Type} (index : V -> nat) (alternatives : list (Codec V)).
Context (Hat : forall v, exists c, alternatives !! index v = Some c /\ json_at c v)
  (Hyields : forall i c, alternatives !! i = Some c -> json_yields c (fun v => index v = i)).

Lemma variant_put v w : j_put (c_variant index alternatives) v w =
  attach (j_json (c_variant index alternatives) v) w.
Proof.
  destruct (Hat v) as (c & Hc & Hput & _). cbn [c_variant j_put j_json]. rewrite Hc.
  unfold write_begin_object, open_container, make_object.
  rewrite (json_put (c := c_u32)), attach_member by apply not_elem_of_nil. cbn [app].
  rewrite Hput, attach_member by (cbn; rewrite list_elem_of_singleton; done).
  apply close_opened.
Qed.

Lemma variant_get v r :
  j_ok (c_variant index alternatives) (jr_max_sequence r) v = true ->
  current_node r = j_json (c_variant index alternatives) v ->
  j_get (c_variant index alternatives) r = Value (c_norm (c_variant index alternatives) v, settled r).
Proof.
  destruct (Hat v) as (c & Hc & _ & Hget). cbn [c_variant j_get j_json j_ok c_norm]. rewrite Hc.
  intros [Hi%Z.leb_le Hok]%andb_true_iff Hr.
  set (jindex := j_json c_u32 (Z.of_nat (index v))) in *.
  set (node := JObject [("index", jindex); ("value", j_json c v)]) in *.
  assert (Hbody : (let$ i := read_field "index" (j_get c_u32) in
       match alternatives !! Z.to_nat i with
       | Some c => read_field "value" (j_get c)
       | None => jfail ReasonCode.InvalidEnumeration "variant index out of range"
       end) (inside (mkReaderFrame node 0 [false; false]) r) =
     Value (c_norm c v, inside (mkReaderFrame node 0 [true; true]) r)).
  { assert (Hindex : forall r', jr_max_sequence r' = jr_max_sequence r -> current_node r' = jindex ->
      j_get c_u32 r' = Value (Z.of_nat (index v), settled r')).
    { intros r' _ Hr'. apply (json_get (c := c_u32)); [|done].
      apply (proj2 (in_widthb_spec u32_max (Z.of_nat (index v)))). lia. }
    pose proof (read_field_inside "index" (j_get c_u32) node 0 [false; false] r 0 jindex
      (Z.of_nat (index v)) eq_refl eq_refl eq_refl Hindex) as H1.
    rewrite (jbind_eval _ _ _ _ _ H1), Nat2Z.id, Hc.
    apply (read_field_inside "value" (j_get c) node 0 [true; false] r 1 (j_json c v)
      (c_norm c v) eq_refl eq_refl eq_refl).
    intros r' Hm Hr'. apply Hget; [by rewrite Hm|done]. }
  assert (Hbegin : read_begin_object "Variant" r =
      Value (tt, inside (mkReaderFrame node 0 [false; false]) r))
    by (unfold read_begin_object, jbind, current; by rewrite Hr).
  unfold read_object. rewrite (jbind_eval _ _ _ _ _ Hbegin), (jbind_eval _ _ _ _ _ Hbody). done.
Qed.

Lemma variant_accepts v r r' :
  j_get (c_variant index alternatives) r = Value (v, r') ->
  r' = settled r /\ j_ok (c_variant index alternatives) (jr_max_sequence r) v = true /\
  c_norm (c_variant index alternatives) v = v.
Proof.
  intros (u & r1 & H1 & (y & r2 & H2 & (u' & r3 & H3 & H4)%jbind_Value)%jbind_Value)%jbind_Value.
  injection H4 as <- <-. unfold read_begin_object, jbind, current in H1.
  destruct (negb _); [done|]. injection H1 as _ <-.
  apply jbind_Value in H2 as (i & r4 & H4 & H2).
  apply (read_field_balanced _ _ _ r) in H4 as [[frame ->] (r5 & _ & Hi)];
    [|intros x0 r0 r0' H; exact (json_balanced c_u32 _ _ _ H)].
  apply (json_accepts (c := c_u32)) in Hi as (_ & Hi%in_widthb_spec & _).
  destruct (alternatives !! Z.to_nat i) as [c|] eqn:Hc; [|done].
  apply (read_field_balanced _ _ _ r) in H2 as [[frame' ->] (r6 & Hmax & H6)];
    [|intros x0 r0 r0' H; exact (proj1 (Hyields _ _ Hc _ _ _ H))].
  apply (Hyields _ _ Hc) in H6 as (_ & Hok & Hnorm & Hidx). rewrite Hmax in Hok.
  unfold read_end_object in H3. cbn [inside set jr_stack] in H3.
  destruct (unconsumed _ _); [done|]. injection H3 as _ <-.
  cbn [c_variant j_ok c_norm]. rewrite Hidx, Hc, Hok, Hnorm. split_and!; [done| |done].
  rewrite andb_true_r, Z.leb_le. lia.
Qed.

Lemma c_variant_json : JsonLaws (c_variant index alternatives).
Proof. split; [apply variant_put|apply variant_get|apply variant_accepts]. Qed.
End variants.

(** ** Documents that are not null *)
#[export] Instance c_u32_nonnull : JsonNonNull c_u32.
Proof. intros x. cbn. unfold json_unsigned. by destruct (_ <? _). Qed.
#[export] Instance c_u64_nonnull : JsonNonNull c_u64.
Proof. intros x. cbn. unfold json_unsigned. by destruct (_ <? _). Qed.
#[export] Instance c_counter_nonnull : JsonNonNull c_counter := c_u64_nonnull.
#[export] Instance c_enum_nonnull E `{!Enum E} : JsonNonNull (c_enum E).
Proof. done. Qed.
#[export] Instance c_string_nonnull : JsonNonNull c_string.
Proof. done. Qed.
#[export] Instance c_id_nonnull : JsonNonNull c_id.
Proof. done. Qed.

(** ** Whole values *)
Section whole_values.
Context {T : Type} (c : Codec T) `{!JsonLaws c}.

Lemma encode_json_document value : encode_json c value = j_json c value.
Proof. unfold encode_json. by rewrite json_put. Qed.

Lemma decode_encode_json max value :
  j_ok c max value = true -> decode_json c (encode_json c value) max = Value (c_norm c value).
Proof.
  intros Hv. unfold decode_json. rewrite encode_json_document.
  by rewrite (json_get value (JsonReader_make (j_json c value) max) Hv eq_refl).
Qed.
End whole_values.

(** An accepted document yields a value of the type: within its widths, with valid
    identities and within the sequence bound; writing that value and reading it
    again gives the same value. *)
Lemma decode_json_accepts {T} (c : Codec T) `{!JsonLaws c} document max value :
  decode_json c document max = Value value ->
  j_ok c max value = true /\ decode_json c (encode_json c value) max = Value value.
Proof.
  intros Hd. assert (Hok : j_ok c max value = true /\ c_norm c value = value).
  { unfold decode_json in Hd. destruct (j_get _ _) as [[x r]|] eqn:Hg; [|done].
    injection Hd as <-. by apply json_accepts in Hg as (_ & ? & ?). }
  destruct Hok as [Hok Hn]. by rewrite decode_encode_json, Hn.
Qed.

(** A struct is read from an object with exactly its members. *)
Lemma decode_json_members {T} (c : Codec T) names type_name document max value :
  JsonFields c names -> decode_json (c_object type_name c) document max = Value value ->
  exists members, document = JObject members /\ forall n, n ∈ members.*1 <-> n ∈ names.
Proof.
  intros F. unfold decode_json. destruct (j_get _ _) as [[x r]|] eqn:Hg; [|done].
  intros _. by apply (read_object_strict c names) in Hg as [_ H].
Qed.

Lemma json_fields_eq {B} (c : Codec B) names names' :
  JsonFields c names -> names = names' -> JsonFields c names'.
Proof. by intros ? <-. Qed.

Ltac solve_json_fields := repeat first [apply c_unit_fields | eapply c_field_fields; [|typeclasses eauto]].
Ltac solve_json :=
  eapply c_object_json; [apply c_iso_fields; [intros; destruct_fields; reflexivity|solve_json_fields] | by apply (bool_decide_unpack _)].
Ltac solve_nonnull :=
  eapply c_object_nonnull, c_iso_fields; [intros; destruct_fields; reflexivity|solve_json_fields].
