(* ===== verification/State.v ===== *)
(** * The state of the runtime

    The structs of [include/dpu/fabric/engine/runtime.hpp], their canonical
    encodings, and the helpers of [src/engine/runtime.cpp] the reducers share:
    searches, [refresh_health], [fence_instance], [cancel_open_attempts] and the
    result of a reducer. *)

From S2P Require Import Prelude Std Reason Types Version Resources Bounded Digest Json JsonArchive Archive Model.
From S2P Require Import Codec Authority Planner.
#[local] Open Scope Z_scope.

#[export] Instance TruncationLedger_eq_dec : EqDecision TruncationLedger.
Proof. solve_decision. Defined.
Record EventOutcome := mkEventOutcome {
  eo_id : EventId;
  eo_code : ReasonCode;
  eo_applied : bool;
  eo_detail : string
}.
#[export] Instance eta_EventOutcome : Settable EventOutcome := fun r =>
  mkEventOutcome (eo_id r) (eo_code r) (eo_applied r) (eo_detail r).
#[export] Instance EventOutcome_eq_dec : EqDecision EventOutcome.
Proof. solve_decision. Defined.
Definition EventOutcome_default : EventOutcome :=
  mkEventOutcome "" ReasonCode.Ok false "".
Record BatchReport := mkBatchReport {
  br_upto : LogicalInstant;
  br_applied : Z;
  br_suppressed : Z;
  br_refused : Z;
  br_evicted : Z;
  br_state_digest : Digest;
  br_outcomes : list EventOutcome;
  br_truncations : list TruncationRecord;
  br_primary : ReasonCode
}.
#[export] Instance eta_BatchReport : Settable BatchReport := fun r =>
  mkBatchReport (br_upto r) (br_applied r) (br_suppressed r) (br_refused r) (br_evicted r)
  (br_state_digest r) (br_outcomes r) (br_truncations r) (br_primary r).
#[export] Instance BatchReport_eq_dec : EqDecision BatchReport.
Proof. solve_decision. Defined.
Definition BatchReport_default : BatchReport :=
  mkBatchReport 0 0 0 0 0 Digest_zero [] [] ReasonCode.Ok.
Record RuntimeState := mkRuntimeState {
  rs_store_id : StoreId;
  rs_coordinator : OriginId;
  rs_epoch : CoordinatorEpoch;
  rs_boot : BootIncarnation;
  rs_clock : LogicalInstant;
  rs_watermark : LogicalInstant;
  rs_topology_generation : TopologyGeneration;
  rs_capability_generation : CapabilityGeneration;
  rs_policy_generation : PolicyGeneration;
  rs_deployment_generation : DeploymentGeneration;
  rs_policy : PolicyState;
  rs_topology : TopologySnapshot;
  rs_services : list ServiceDefinition;
  rs_groups : list ServiceGroup;
  rs_dependencies : list Dependency;
  rs_instances : list InstanceState;
  rs_plans : list DeploymentPlan;
  rs_authority : AuthorityRegistry;
  rs_fences : FenceIssuer;
  rs_truncations : TruncationLedger;
  rs_decisions : list FabricDecision;
  rs_restart_fenced : list InstanceId;
  rs_journaled_events : Z
}.
#[export] Instance eta_RuntimeState : Settable RuntimeState := fun r =>
  mkRuntimeState (rs_store_id r) (rs_coordinator r) (rs_epoch r) (rs_boot r) (rs_clock r)
  (rs_watermark r) (rs_topology_generation r) (rs_capability_generation r)
  (rs_policy_generation r) (rs_deployment_generation r) (rs_policy r) (rs_topology r)
  (rs_services r) (rs_groups r) (rs_dependencies r) (rs_instances r) (rs_plans r)
  (rs_authority r) (rs_fences r) (rs_truncations r) (rs_decisions r) (rs_restart_fenced r)
  (rs_journaled_events r).
#[export] Instance RuntimeState_eq_dec : EqDecision RuntimeState.
Proof. solve_decision. Defined.
Definition RuntimeState_default : RuntimeState :=
  mkRuntimeState "" "" 0 0 0 0 0 0 0 0 PolicyState_default TopologySnapshot_default [] [] [] []
  [] AuthorityRegistry_default FenceIssuer_default TruncationLedger_empty [] [] 0.
Record PlacementProjection := mkPlacementProjection {
  ppj_store_id : StoreId;
  ppj_epoch : CoordinatorEpoch;
  ppj_clock : LogicalInstant;
  ppj_watermark : LogicalInstant;
  ppj_topology_generation : TopologyGeneration;
  ppj_capability_generation : CapabilityGeneration;
  ppj_policy_generation : PolicyGeneration;
  ppj_deployment_generation : DeploymentGeneration;
  ppj_policy : PolicyState;
  ppj_services : list ServiceDefinition;
  ppj_groups : list ServiceGroup;
  ppj_dependencies : list Dependency;
  ppj_plans : list DeploymentPlan
}.
#[export] Instance eta_PlacementProjection : Settable PlacementProjection := fun r =>
  mkPlacementProjection (ppj_store_id r) (ppj_epoch r) (ppj_clock r) (ppj_watermark r)
  (ppj_topology_generation r) (ppj_capability_generation r) (ppj_policy_generation r)
  (ppj_deployment_generation r) (ppj_policy r) (ppj_services r) (ppj_groups r)
  (ppj_dependencies r) (ppj_plans r).
#[export] Instance PlacementProjection_eq_dec : EqDecision PlacementProjection.
Proof. solve_decision. Defined.
Definition PlacementProjection_default : PlacementProjection :=
  mkPlacementProjection "" 0 0 0 0 0 0 0 PolicyState_default [] [] [] [].
Record RecoverySummary := mkRecoverySummary {
  rsum_classification : RecoveryClass;
  rsum_recovered_from_store : bool;
  rsum_torn_tail : bool;
  rsum_journal_records_replayed : Z;
  rsum_records_dropped : Z;
  rsum_previous_epoch : CoordinatorEpoch;
  rsum_previous_boot : BootIncarnation;
  rsum_restart_fenced : list InstanceId
}.
#[export] Instance eta_RecoverySummary : Settable RecoverySummary := fun r =>
  mkRecoverySummary (rsum_classification r) (rsum_recovered_from_store r) (rsum_torn_tail r)
  (rsum_journal_records_replayed r) (rsum_records_dropped r) (rsum_previous_epoch r)
  (rsum_previous_boot r) (rsum_restart_fenced r).
#[export] Instance RecoverySummary_eq_dec : EqDecision RecoverySummary.
Proof. solve_decision. Defined.
Definition RecoverySummary_default : RecoverySummary :=
  mkRecoverySummary RecoveryClass.Fresh false false 0 0 0 0 [].
Definition TruncationLedger_codec : Codec TruncationLedger := c_object "TruncationLedger" (c_iso
  (fun s => (tt, tl_records s, tl_overflow s))
  (fun '(_, x_records, x_overflow) => mkTruncationLedger x_records x_overflow)
  (fields
     & field "records" (c_vector TruncationRecord_codec)
     & field "ledger_overflow" c_u64)).
#[export] Typeclasses Opaque TruncationLedger_codec.
#[export] Instance TruncationLedger_codec_laws : CodecLaws TruncationLedger_codec.
Proof. solve_codec_laws. Qed.
#[export] Instance TruncationLedger_codec_exact : CodecExact TruncationLedger_codec.
Proof. solve_codec_exact. Qed.
Definition EventOutcome_codec : Codec EventOutcome := c_object "EventOutcome" (c_iso
  (fun s =>
     (tt, eo_id s, eo_code s, eo_applied s, eo_detail s))
  (fun '(_, x_id, x_code, x_applied, x_detail) =>
     mkEventOutcome x_id x_code x_applied x_detail)
  (fields
     & field "id" c_id
     & field "code" (c_enum ReasonCode)
     & field "applied" c_bool
     & field "detail" c_string)).
#[export] Typeclasses Opaque EventOutcome_codec.
#[export] Instance EventOutcome_codec_laws : CodecLaws EventOutcome_codec.
Proof. solve_codec_laws. Qed.
#[export] Instance EventOutcome_codec_exact : CodecExact EventOutcome_codec.
Proof. solve_codec_exact. Qed.
Definition BatchReport_codec : Codec BatchReport := c_object "BatchReport" (c_iso
  (fun s =>
     (tt, br_upto s, br_applied s, br_suppressed s, br_refused s, br_evicted s,
     br_state_digest s, br_outcomes s, br_truncations s, br_primary s))
  (fun '(_, x_upto, x_applied, x_suppressed, x_refused, x_evicted, x_state_digest, x_outcomes,
     x_truncations, x_primary) =>
     mkBatchReport x_upto x_applied x_suppressed x_refused x_evicted x_state_digest x_outcomes
     x_truncations x_primary)
  (fields
     & field "upto" c_instant
     & field "applied" c_u64
     & field "suppressed" c_u64
     & field "refused" c_u64
     & field "evicted" c_u64
     & field "state_digest" c_digest
     & field "outcomes" (c_vector EventOutcome_codec)
     & field "truncations" (c_vector TruncationRecord_codec)
     & field "primary" (c_enum ReasonCode))).
#[export] Typeclasses Opaque BatchReport_codec.
#[export] Instance BatchReport_codec_laws : CodecLaws BatchReport_codec.
Proof. solve_codec_laws. Qed.
#[export] Instance BatchReport_codec_exact : CodecExact BatchReport_codec.
Proof. solve_codec_exact. Qed.
Definition RuntimeState_codec : Codec RuntimeState := c_object "RuntimeState" (c_iso
  (fun s =>
     (tt, rs_store_id s, rs_coordinator s, rs_epoch s, rs_boot s, rs_clock s, rs_watermark s,
     rs_topology_generation s, rs_capability_generation s, rs_policy_generation s,
     rs_deployment_generation s, rs_policy s, rs_topology s, rs_services s, rs_groups s,
     rs_dependencies s, rs_instances s, rs_plans s, rs_authority s, rs_fences s,
     rs_truncations s, rs_decisions s, rs_restart_fenced s, rs_journaled_events s))
  (fun '(_, x_store_id, x_coordinator, x_epoch, x_boot, x_clock, x_watermark,
     x_topology_generation, x_capability_generation, x_policy_generation,
     x_deployment_generation, x_policy, x_topology, x_services, x_groups, x_dependencies,
     x_instances, x_plans, x_authority, x_fences, x_truncations, x_decisions, x_restart_fenced,
     x_journaled_events) =>
     mkRuntimeState x_store_id x_coordinator x_epoch x_boot x_clock x_watermark
     x_topology_generation x_capability_generation x_policy_generation x_deployment_generation
     x_policy x_topology x_services x_groups x_dependencies x_instances x_plans x_authority
     x_fences x_truncations x_decisions x_restart_fenced x_journaled_events)
  (fields
     & field "store_id" c_id
     & field "coordinator" c_id
     & field "epoch" c_counter
     & field "boot" c_counter
     & field "clock" c_instant
     & field "watermark" c_instant
     & field "topology_generation" c_counter
     & field "capability_generation" c_counter
     & field "policy_generation" c_counter
     & field "deployment_generation" c_counter
     & field "policy" PolicyState_codec
     & field "topology" TopologySnapshot_codec
     & field "services" (c_vector ServiceDefinition_codec)
     & field "groups" (c_vector ServiceGroup_codec)
     & field "dependencies" (c_vector Dependency_codec)
     & field "instances" (c_vector InstanceState_codec)
     & field "plans" (c_vector DeploymentPlan_codec)
     & field "authority" AuthorityRegistry_codec
     & field "fences" FenceIssuer_codec
     & field "truncations" TruncationLedger_codec
     & field "decisions" (c_vector FabricDecision_codec)
     & field "restart_fenced" (c_vector c_id)
     & field "journaled_events" c_u64)).
#[export] Typeclasses Opaque RuntimeState_codec.
#[export] Instance RuntimeState_codec_laws : CodecLaws RuntimeState_codec.
Proof. solve_codec_laws. Qed.
Definition PlacementProjection_codec : Codec PlacementProjection := c_object "PlacementProjection" (c_iso
  (fun s =>
     (tt, ppj_store_id s, ppj_epoch s, ppj_clock s, ppj_watermark s, ppj_topology_generation s,
     ppj_capability_generation s, ppj_policy_generation s, ppj_deployment_generation s,
     ppj_policy s, ppj_services s, ppj_groups s, ppj_dependencies s, ppj_plans s))
  (fun '(_, x_store_id, x_epoch, x_clock, x_watermark, x_topology_generation,
     x_capability_generation, x_policy_generation, x_deployment_generation, x_policy,
     x_services, x_groups, x_dependencies, x_plans) =>
     mkPlacementProjection x_store_id x_epoch x_clock x_watermark x_topology_generation
     x_capability_generation x_policy_generation x_deployment_generation x_policy x_services
     x_groups x_dependencies x_plans)
  (fields
     & field "store_id" c_id
     & field "epoch" c_counter
     & field "clock" c_instant
     & field "watermark" c_instant
     & field "topology_generation" c_counter
     & field "capability_generation" c_counter
     & field "policy_generation" c_counter
     & field "deployment_generation" c_counter
     & field "policy" PolicyState_codec
     & field "services" (c_vector ServiceDefinition_codec)
     & field "groups" (c_vector ServiceGroup_codec)
     & field "dependencies" (c_vector Dependency_codec)
     & field "plans" (c_vector DeploymentPlan_codec))).
#[export] Typeclasses Opaque PlacementProjection_codec.
#[export] Instance PlacementProjection_codec_laws : CodecLaws PlacementProjection_codec.
Proof. solve_codec_laws. Qed.
Definition RecoverySummary_codec : Codec RecoverySummary := c_object "RecoverySummary" (c_iso
  (fun s =>
     (tt, rsum_classification s, rsum_recovered_from_store s, rsum_torn_tail s,
     rsum_journal_records_replayed s, rsum_records_dropped s, rsum_previous_epoch s,
     rsum_previous_boot s, rsum_restart_fenced s))
  (fun '(_, x_classification, x_recovered_from_store, x_torn_tail, x_journal_records_replayed,
     x_records_dropped, x_previous_epoch, x_previous_boot, x_restart_fenced) =>
     mkRecoverySummary x_classification x_recovered_from_store x_torn_tail
     x_journal_records_replayed x_records_dropped x_previous_epoch x_previous_boot
     x_restart_fenced)
  (fields
     & field "classification" (c_enum RecoveryClass)
     & field "recovered_from_store" c_bool
     & field "torn_tail" c_bool
     & field "journal_records_replayed" c_u64
     & field "records_dropped" c_u64
     & field "previous_epoch" c_counter
     & field "previous_boot" c_counter
     & field "restart_fenced" (c_vector c_id))).
#[export] Typeclasses Opaque RecoverySummary_codec.
#[export] Instance RecoverySummary_codec_laws : CodecLaws RecoverySummary_codec.
Proof. solve_codec_laws. Qed.
#[export] Instance RecoverySummary_codec_exact : CodecExact RecoverySummary_codec.
Proof. solve_codec_exact. Qed.

(** ** Searches *)

(** [find_instance]: the position stands for the pointer. *)
Definition find_instance (instances : list InstanceState) (id : InstanceId) : option nat :=
  find_sorted inst_id str_lt id instances.
Definition find_group (groups : list ServiceGroup) (id : ServiceGroupId) : option ServiceGroup :=
  snd <$> list_find (fun g => grp_id g = id) groups.
Definition sort_instances (instances : list InstanceState) : list InstanceState :=
  std_sort (lt_by inst_id str_lt) instances.

Definition explanation : ReasonCode -> DecisionKind -> string -> string -> Explanation :=
  make_explanation.

(** ** Health freshness *)

(** The body of the device loop of [refresh_health]: the device, and whether its
    instances lose their freshness here. *)
Definition refresh_dpu (clock : LogicalInstant) (dpu : DpuRecord) : DpuRecord * bool :=
  if bool_decide (dpu_state dpu = DpuState.Lost) ||
     bool_decide (dpu_health dpu = HealthState.Unknown) then
    (dpu <| dpu_health_fresh := false |>, false)
  else
    let fresh := evidence_present (dpu_health_evidence dpu) &&
                 fresh_at (dpu_health_evidence dpu) clock &&
                 (dpu_health_observed_at dpu <=? ev_observed_at (dpu_health_evidence dpu)) in
    (dpu <| dpu_health_fresh := fresh |>, negb fresh).

Definition lose_freshness (id : DpuId) (i : InstanceState) : InstanceState :=
  if bool_decide (inst_dpu i = id) then i <| inst_health_fresh := false |> else i.

(** The body of the instance loop. *)
Definition refresh_instance (topology : TopologySnapshot) (i : InstanceState) : InstanceState :=
  match topology_find topology (inst_dpu i) with
  | None => i <| inst_health_fresh := false |>
  | Some dpu =>
    if negb (attached dpu) then i <| inst_health_fresh := false |>
    else
      let fresh := dpu_health_fresh dpu && bool_decide (dpu_health dpu = HealthState.Healthy) in
      let i := i <| inst_health := dpu_health dpu |> <| inst_health_fresh := fresh |> in
      if fresh then i <| inst_health_observed_at := dpu_health_observed_at dpu |> else i
  end.

(** [refresh_health] *)
Definition refresh_health (s : RuntimeState) : RuntimeState :=
  let '(dpus, instances) :=
    foldl (fun '(dpus, instances) dpu =>
      let '(dpu, stale) := refresh_dpu (rs_clock s) dpu in
      (dpus ++ [dpu],
       if stale then lose_freshness (dpu_id dpu) <$> instances else instances))
      ([], rs_instances s) (topo_dpus (rs_topology s)) in
  let topology := (rs_topology s) <| topo_dpus := dpus |> in
  s <| rs_topology := topology |>
    <| rs_instances := refresh_instance topology <$> instances |>.

(** ** Fencing *)

(** The loop that closes the open attempts. *)
Definition cancel_attempt (at_ : LogicalInstant) (reason : ReasonCode) (a : AttemptRecord)
  : AttemptRecord :=
  if attempt_open a then
    a <| att_outcome := AttemptOutcome.Cancelled |> <| att_close_reason := reason |>
      <| att_closed_at := at_ |> <| att_phase := LifecycleState.Cancelled |>
  else a.

(** The states whose claim a fence takes back. *)
Definition claims_effect (s : LifecycleState) : bool :=
  match s with
  | LifecycleState.Verified | LifecycleState.Acknowledged | LifecycleState.Deploying
  | LifecycleState.Authorized | LifecycleState.Planned => true
  | _ => false
  end.

(** [fence_instance_without_state] and [fence_instance] *)
Definition fence_instance_without_state (at_ : LogicalInstant) (reason : ReasonCode)
    (i : InstanceState) : InstanceState :=
  i <| inst_effect_fence_serial := saturating_add u64_max (inst_effect_fence_serial i) 1 |>
    <| inst_effect_fenced_at := at_ |>
    <| inst_fence_reason := reason |>.
Definition fence_instance (at_ : LogicalInstant) (reason : ReasonCode) (i : InstanceState)
  : InstanceState :=
  let i := fence_instance_without_state at_ reason i in
  i <| inst_health := HealthState.Unknown |>
    <| inst_health_fresh := false |>
    <| inst_attempts := cancel_attempt at_ reason <$> inst_attempts i |>
    <| inst_state := if claims_effect (inst_state i) then LifecycleState.Unverified
                     else inst_state i |>
    <| inst_reasons := [explanation reason DecisionKind.Recovery (inst_id i)
         "previously proven effect is no longer authoritative"] |>.

(** [cancel_open_attempts] *)
Definition cancel_open_attempts (at_ : LogicalInstant) (reason : ReasonCode)
    (next : LifecycleState) (i : InstanceState) : InstanceState :=
  i <| inst_attempts := cancel_attempt at_ reason <$> inst_attempts i |> <| inst_state := next |>.

(** Releasing every grant of a device, scope by scope. *)
Definition release_device (authority : AuthorityRegistry) (id : DpuId) : AuthorityRegistry :=
  let scopes := ag_scope <$> filter (fun g => ag_dpu g = id) (ar_grants authority) in
  foldl (fun a scope => (release a scope id).1) authority scopes.

(** [placement_projection] *)
Definition placement_projection (s : RuntimeState) : PlacementProjection :=
  mkPlacementProjection (rs_store_id s) (rs_epoch s) (rs_clock s) (rs_watermark s)
    (rs_topology_generation s) (rs_capability_generation s) (rs_policy_generation s)
    (rs_deployment_generation s) (rs_policy s) (rs_services s) (rs_groups s)
    (rs_dependencies s) (rs_plans s).

(** ** The result of a reducer *)
Record ApplyResult := mkApplyResult {
  app_code : ReasonCode;
  app_applied : bool;
  app_detail : string;
  app_explanations : list Explanation;
  app_kind : DecisionKind;
  app_accepted : bool
}.

(** An early return with a code and a detail, and with the explanation the code
    pushes there if it does. *)
Definition refused (kind : DecisionKind) (code : ReasonCode) (detail : string) : ApplyResult :=
  mkApplyResult code false detail [] kind false.
Definition refused_at (kind : DecisionKind) (code : ReasonCode) (subject detail : string)
  : ApplyResult :=
  mkApplyResult code false detail [explanation code kind subject detail] kind false.
(** The end of a reducer that applied the event. *)
Definition applied (kind : DecisionKind) (code : ReasonCode) (explanations : list Explanation)
  : ApplyResult :=
  mkApplyResult code true "" explanations kind true.

(** ** The encoded state *)

Definition drop_seals (s : RuntimeState) : RuntimeState :=
  s <| rs_plans := drop_seal <$> rs_plans s |>.

Lemma vector_norm {A} (c : Codec A) (l : list A) : c_norm (c_vector c) l = c_norm c <$> l.
Proof. done. Qed.

Lemma RuntimeState_codec_norm s : c_norm RuntimeState_codec s = drop_seals s.
Proof.
  cbn [RuntimeState_codec c_object c_iso c_norm c_field fst snd].
  rewrite (vector_norm DeploymentPlan_codec), (list_fmap_ext _ drop_seal (rs_plans s)) by (intros;
    apply DeploymentPlan_codec_norm).
  rewrite !codec_exact. by destruct s.
Qed.

(** The state a checkpoint writes is determined by its bytes: a state whose fields
    fit their widths and bounds is read back as itself, up to the identity and
    digest of its plans, which no [visit] carries; and every byte string that reads
    as a state is the canonical encoding of that state, so equal digests of states
    are digests of equal bytes. *)
Theorem runtime_state_roundtrip max s :
  c_ok RuntimeState_codec max s = true ->
  decode_binary RuntimeState_codec (encode_binary RuntimeState_codec s) max =
    Value (drop_seals s) /\
  forall data s', Forall is_byte data ->
    decode_binary RuntimeState_codec data max = Value s' ->
    encode_binary RuntimeState_codec s' = data.
Proof.
  intros Hs. split.
  - by rewrite (decode_encode RuntimeState_codec max s Hs), RuntimeState_codec_norm.
  - intros data s' Hd Hdec.
    by destruct (encode_decode RuntimeState_codec max data s' Hd Hdec) as (? & _ & _).
Qed.

Lemma runtime_state_roundtrip_witness :
  let s := RuntimeState_default <| rs_store_id := "store-1" |> <| rs_clock := 7 |>
    <| rs_plans := [DeploymentPlan_default <| plan_id := "plan-1" |>] |> in
  decode_binary RuntimeState_codec (encode_binary RuntimeState_codec s) 1024 =
    Value (s <| rs_plans := [DeploymentPlan_default] |>) /\
  forall data s', Forall is_byte data ->
    decode_binary RuntimeState_codec data 1024 = Value s' ->
    encode_binary RuntimeState_codec s' = data.
Proof. intros s. apply (runtime_state_roundtrip 1024 s). vm_compute. reflexivity. Defined.
