(* ===== verification/JsonCodec.v ===== *)
(** * The documents of the model

    The laws of JsonLaws.v for every struct of the model, the authority records and
    the runtime state, and what follows for the event documents the tools read. *)

From S2P Require Import Prelude Std Reason Types Version Resources Bounded Digest Json JsonArchive Archive Model Codec Authority Dependency Eligibility Planner State JsonLaws.
#[local] Open Scope Z_scope.

(** ** The structs of the model *)

(** *** Codec.v *)
#[export] Instance c_instant_json : JsonLaws c_instant.
Proof. solve_json. Qed.
#[export] Instance c_instant_depth : JsonDepth c_instant 2.
Proof. solve_depth. Qed.
#[export] Instance c_instant_nonnull : JsonNonNull c_instant.
Proof. solve_nonnull. Qed.
#[export] Instance c_wallclock_json : JsonLaws c_wallclock.
Proof. solve_json. Qed.
#[export] Instance c_wallclock_depth : JsonDepth c_wallclock 2.
Proof. solve_depth. Qed.
#[export] Instance c_wallclock_nonnull : JsonNonNull c_wallclock.
Proof. solve_nonnull. Qed.
#[export] Instance ServiceVersion_codec_json : JsonLaws ServiceVersion_codec.
Proof. solve_json. Qed.
#[export] Instance ServiceVersion_codec_depth : JsonDepth ServiceVersion_codec 2.
Proof. solve_depth. Qed.
#[export] Instance ServiceVersion_codec_nonnull : JsonNonNull ServiceVersion_codec.
Proof. solve_nonnull. Qed.
#[export] Instance FirmwareApiLevel_codec_json : JsonLaws FirmwareApiLevel_codec.
Proof. solve_json. Qed.
#[export] Instance FirmwareApiLevel_codec_depth : JsonDepth FirmwareApiLevel_codec 2.
Proof. solve_depth. Qed.
#[export] Instance FirmwareApiLevel_codec_nonnull : JsonNonNull FirmwareApiLevel_codec.
Proof. solve_nonnull. Qed.
#[export] Instance ResourceVector_codec_json : JsonLaws ResourceVector_codec.
Proof. solve_json. Qed.
#[export] Instance ResourceVector_codec_depth : JsonDepth ResourceVector_codec 2.
Proof. solve_depth. Qed.
#[export] Instance ResourceVector_codec_nonnull : JsonNonNull ResourceVector_codec.
Proof. solve_nonnull. Qed.
#[export] Instance TruncationRecord_codec_json : JsonLaws TruncationRecord_codec.
Proof. solve_json. Qed.
#[export] Instance TruncationRecord_codec_depth : JsonDepth TruncationRecord_codec 2.
Proof. solve_depth. Qed.
#[export] Instance TruncationRecord_codec_nonnull : JsonNonNull TruncationRecord_codec.
Proof. solve_nonnull. Qed.
#[export] Instance CapabilityValue_codec_json : JsonLaws CapabilityValue_codec.
Proof. solve_json. Qed.
#[export] Instance CapabilityValue_codec_depth : JsonDepth CapabilityValue_codec 3.
Proof. solve_depth. Qed.
#[export] Instance CapabilityValue_codec_nonnull : JsonNonNull CapabilityValue_codec.
Proof. solve_nonnull. Qed.
#[export] Instance Capability_codec_json : JsonLaws Capability_codec.
Proof. solve_json. Qed.
#[export] Instance Capability_codec_depth : JsonDepth Capability_codec 4.
Proof. solve_depth. Qed.
#[export] Instance Capability_codec_nonnull : JsonNonNull Capability_codec.
Proof. solve_nonnull. Qed.
#[export] Instance CapabilitySet_codec_json : JsonLaws CapabilitySet_codec.
Proof. solve_json. Qed.
#[export] Instance CapabilitySet_codec_depth : JsonDepth CapabilitySet_codec 6.
Proof. solve_depth. Qed.
#[export] Instance CapabilitySet_codec_nonnull : JsonNonNull CapabilitySet_codec.
Proof. solve_nonnull. Qed.
#[export] Instance DpuProfile_codec_json : JsonLaws DpuProfile_codec.
Proof. solve_json. Qed.
#[export] Instance DpuProfile_codec_depth : JsonDepth DpuProfile_codec 3.
Proof. solve_depth. Qed.
#[export] Instance DpuProfile_codec_nonnull : JsonNonNull DpuProfile_codec.
Proof. solve_nonnull. Qed.
#[export] Instance CapabilityRequirement_codec_json : JsonLaws CapabilityRequirement_codec.
Proof. solve_json. Qed.
#[export] Instance CapabilityRequirement_codec_depth : JsonDepth CapabilityRequirement_codec 5.
Proof. solve_depth. Qed.
#[export] Instance CapabilityRequirement_codec_nonnull : JsonNonNull CapabilityRequirement_codec.
Proof. solve_nonnull. Qed.
#[export] Instance CompatibilityRequirement_codec_json : JsonLaws CompatibilityRequirement_codec.
Proof. solve_json. Qed.
#[export] Instance CompatibilityRequirement_codec_depth : JsonDepth CompatibilityRequirement_codec 7.
Proof. solve_depth. Qed.
#[export] Instance CompatibilityRequirement_codec_nonnull : JsonNonNull CompatibilityRequirement_codec.
Proof. solve_nonnull. Qed.
#[export] Instance IsolationRequirement_codec_json : JsonLaws IsolationRequirement_codec.
Proof. solve_json. Qed.
#[export] Instance IsolationRequirement_codec_depth : JsonDepth IsolationRequirement_codec 3.
Proof. solve_depth. Qed.
#[export] Instance IsolationRequirement_codec_nonnull : JsonNonNull IsolationRequirement_codec.
Proof. solve_nonnull. Qed.
#[export] Instance ReplicaPolicy_codec_json : JsonLaws ReplicaPolicy_codec.
Proof. solve_json. Qed.
#[export] Instance ReplicaPolicy_codec_depth : JsonDepth ReplicaPolicy_codec 2.
Proof. solve_depth. Qed.
#[export] Instance ReplicaPolicy_codec_nonnull : JsonNonNull ReplicaPolicy_codec.
Proof. solve_nonnull. Qed.
#[export] Instance AntiAffinityPolicy_codec_json : JsonLaws AntiAffinityPolicy_codec.
Proof. solve_json. Qed.
#[export] Instance AntiAffinityPolicy_codec_depth : JsonDepth AntiAffinityPolicy_codec 3.
Proof. solve_depth. Qed.
#[export] Instance AntiAffinityPolicy_codec_nonnull : JsonNonNull AntiAffinityPolicy_codec.
Proof. solve_nonnull. Qed.
#[export] Instance Provenance_codec_json : JsonLaws Provenance_codec.
Proof. solve_json. Qed.
#[export] Instance Provenance_codec_depth : JsonDepth Provenance_codec 3.
Proof. solve_depth. Qed.
#[export] Instance Provenance_codec_nonnull : JsonNonNull Provenance_codec.
Proof. solve_nonnull. Qed.
#[export] Instance EvidenceRef_codec_json : JsonLaws EvidenceRef_codec.
Proof. solve_json. Qed.
#[export] Instance EvidenceRef_codec_depth : JsonDepth EvidenceRef_codec 4.
Proof. solve_depth. Qed.
#[export] Instance EvidenceRef_codec_nonnull : JsonNonNull EvidenceRef_codec.
Proof. solve_nonnull. Qed.
#[export] Instance DpuRecord_codec_json : JsonLaws DpuRecord_codec.
Proof. solve_json. Qed.
#[export] Instance DpuRecord_codec_depth : JsonDepth DpuRecord_codec 7.
Proof. solve_depth. Qed.
#[export] Instance DpuRecord_codec_nonnull : JsonNonNull DpuRecord_codec.
Proof. solve_nonnull. Qed.
#[export] Instance TopologySnapshot_codec_json : JsonLaws TopologySnapshot_codec.
Proof. solve_json. Qed.
#[export] Instance TopologySnapshot_codec_depth : JsonDepth TopologySnapshot_codec 9.
Proof. solve_depth. Qed.
#[export] Instance TopologySnapshot_codec_nonnull : JsonNonNull TopologySnapshot_codec.
Proof. solve_nonnull. Qed.
#[export] Instance ServiceDefinition_codec_json : JsonLaws ServiceDefinition_codec.
Proof. solve_json. Qed.
#[export] Instance ServiceDefinition_codec_depth : JsonDepth ServiceDefinition_codec 8.
Proof. solve_depth. Qed.
#[export] Instance ServiceDefinition_codec_nonnull : JsonNonNull ServiceDefinition_codec.
Proof. solve_nonnull. Qed.
#[export] Instance Dependency_codec_json : JsonLaws Dependency_codec.
Proof. solve_json. Qed.
#[export] Instance Dependency_codec_depth : JsonDepth Dependency_codec 2.
Proof. solve_depth. Qed.
#[export] Instance Dependency_codec_nonnull : JsonNonNull Dependency_codec.
Proof. solve_nonnull. Qed.
#[export] Instance ServiceGroup_codec_json : JsonLaws ServiceGroup_codec.
Proof. solve_json. Qed.
#[export] Instance ServiceGroup_codec_depth : JsonDepth ServiceGroup_codec 4.
Proof. solve_depth. Qed.
#[export] Instance ServiceGroup_codec_nonnull : JsonNonNull ServiceGroup_codec.
Proof. solve_nonnull. Qed.
#[export] Instance ServiceReplicaIntent_codec_json : JsonLaws ServiceReplicaIntent_codec.
Proof. solve_json. Qed.
#[export] Instance ServiceReplicaIntent_codec_depth : JsonDepth ServiceReplicaIntent_codec 2.
Proof. solve_depth. Qed.
#[export] Instance ServiceReplicaIntent_codec_nonnull : JsonNonNull ServiceReplicaIntent_codec.
Proof. solve_nonnull. Qed.
#[export] Instance StagedRolloutPolicy_codec_json : JsonLaws StagedRolloutPolicy_codec.
Proof. solve_json. Qed.
#[export] Instance StagedRolloutPolicy_codec_depth : JsonDepth StagedRolloutPolicy_codec 2.
Proof. solve_depth. Qed.
#[export] Instance StagedRolloutPolicy_codec_nonnull : JsonNonNull StagedRolloutPolicy_codec.
Proof. solve_nonnull. Qed.
#[export] Instance PlacementIntent_codec_json : JsonLaws PlacementIntent_codec.
Proof. solve_json. Qed.
#[export] Instance PlacementIntent_codec_depth : JsonDepth PlacementIntent_codec 4.
Proof. solve_depth. Qed.
#[export] Instance PlacementIntent_codec_nonnull : JsonNonNull PlacementIntent_codec.
Proof. solve_nonnull. Qed.
#[export] Instance PolicyState_codec_json : JsonLaws PolicyState_codec.
Proof. solve_json. Qed.
#[export] Instance PolicyState_codec_depth : JsonDepth PolicyState_codec 5.
Proof. solve_depth. Qed.
#[export] Instance PolicyState_codec_nonnull : JsonNonNull PolicyState_codec.
Proof. solve_nonnull. Qed.
#[export] Instance FenceToken_codec_json : JsonLaws FenceToken_codec.
Proof. solve_json. Qed.
#[export] Instance FenceToken_codec_depth : JsonDepth FenceToken_codec 2.
Proof. solve_depth. Qed.
#[export] Instance FenceToken_codec_nonnull : JsonNonNull FenceToken_codec.
Proof. solve_nonnull. Qed.
#[export] Instance AttemptRecord_codec_json : JsonLaws AttemptRecord_codec.
Proof. solve_json. Qed.
#[export] Instance AttemptRecord_codec_depth : JsonDepth AttemptRecord_codec 3.
Proof. solve_depth. Qed.
#[export] Instance AttemptRecord_codec_nonnull : JsonNonNull AttemptRecord_codec.
Proof. solve_nonnull. Qed.
#[export] Instance Explanation_codec_json : JsonLaws Explanation_codec.
Proof. solve_json. Qed.
#[export] Instance Explanation_codec_depth : JsonDepth Explanation_codec 2.
Proof. solve_depth. Qed.
#[export] Instance Explanation_codec_nonnull : JsonNonNull Explanation_codec.
Proof. solve_nonnull. Qed.
#[export] Instance FabricDecision_codec_json : JsonLaws FabricDecision_codec.
Proof. solve_json. Qed.
#[export] Instance FabricDecision_codec_depth : JsonDepth FabricDecision_codec 4.
Proof. solve_depth. Qed.
#[export] Instance FabricDecision_codec_nonnull : JsonNonNull FabricDecision_codec.
Proof. solve_nonnull. Qed.
#[export] Instance InstanceState_codec_json : JsonLaws InstanceState_codec.
Proof. solve_json. Qed.
#[export] Instance InstanceState_codec_depth : JsonDepth InstanceState_codec 5.
Proof. solve_depth. Qed.
#[export] Instance InstanceState_codec_nonnull : JsonNonNull InstanceState_codec.
Proof. solve_nonnull. Qed.
#[export] Instance EffectReport_codec_json : JsonLaws EffectReport_codec.
Proof. solve_json. Qed.
#[export] Instance EffectReport_codec_depth : JsonDepth EffectReport_codec 5.
Proof. solve_depth. Qed.
#[export] Instance EffectReport_codec_nonnull : JsonNonNull EffectReport_codec.
Proof. solve_nonnull. Qed.
#[export] Instance PlannedReplica_codec_json : JsonLaws PlannedReplica_codec.
Proof. solve_json. Qed.
#[export] Instance PlannedReplica_codec_depth : JsonDepth PlannedReplica_codec 2.
Proof. solve_depth. Qed.
#[export] Instance PlannedReplica_codec_nonnull : JsonNonNull PlannedReplica_codec.
Proof. solve_nonnull. Qed.
#[export] Instance ServicePlan_codec_json : JsonLaws ServicePlan_codec.
Proof. solve_json. Qed.
#[export] Instance ServicePlan_codec_depth : JsonDepth ServicePlan_codec 4.
Proof. solve_depth. Qed.
#[export] Instance ServicePlan_codec_nonnull : JsonNonNull ServicePlan_codec.
Proof. solve_nonnull. Qed.
#[export] Instance PlanStage_codec_json : JsonLaws PlanStage_codec.
Proof. solve_json. Qed.
#[export] Instance PlanStage_codec_depth : JsonDepth PlanStage_codec 3.
Proof. solve_depth. Qed.
#[export] Instance PlanStage_codec_nonnull : JsonNonNull PlanStage_codec.
Proof. solve_nonnull. Qed.
#[export] Instance DeploymentPlan_codec_json : JsonLaws DeploymentPlan_codec.
Proof. solve_json. Qed.
#[export] Instance DeploymentPlan_codec_depth : JsonDepth DeploymentPlan_codec 6.
Proof. solve_depth. Qed.
#[export] Instance DeploymentPlan_codec_nonnull : JsonNonNull DeploymentPlan_codec.
Proof. solve_nonnull. Qed.
#[export] Instance PlanOutcome_codec_json : JsonLaws PlanOutcome_codec.
Proof. solve_json. Qed.
#[export] Instance PlanOutcome_codec_depth : JsonDepth PlanOutcome_codec 7.
Proof. solve_depth. Qed.
#[export] Instance PlanOutcome_codec_nonnull : JsonNonNull PlanOutcome_codec.
Proof. solve_nonnull. Qed.
#[export] Instance TopologyObserved_codec_json : JsonLaws TopologyObserved_codec.
Proof. solve_json. Qed.
#[export] Instance TopologyObserved_codec_depth : JsonDepth TopologyObserved_codec 10.
Proof. solve_depth. Qed.
#[export] Instance TopologyObserved_codec_nonnull : JsonNonNull TopologyObserved_codec.
Proof. solve_nonnull. Qed.
#[export] Instance CapabilityObserved_codec_json : JsonLaws CapabilityObserved_codec.
Proof. solve_json. Qed.
#[export] Instance CapabilityObserved_codec_depth : JsonDepth CapabilityObserved_codec 7.
Proof. solve_depth. Qed.
#[export] Instance CapabilityObserved_codec_nonnull : JsonNonNull CapabilityObserved_codec.
Proof. solve_nonnull. Qed.
#[export] Instance HealthObserved_codec_json : JsonLaws HealthObserved_codec.
Proof. solve_json. Qed.
#[export] Instance HealthObserved_codec_depth : JsonDepth HealthObserved_codec 5.
Proof. solve_depth. Qed.
#[export] Instance HealthObserved_codec_nonnull : JsonNonNull HealthObserved_codec.
Proof. solve_nonnull. Qed.
#[export] Instance PolicyAdvanced_codec_json : JsonLaws PolicyAdvanced_codec.
Proof. solve_json. Qed.
#[export] Instance PolicyAdvanced_codec_depth : JsonDepth PolicyAdvanced_codec 6.
Proof. solve_depth. Qed.
#[export] Instance PolicyAdvanced_codec_nonnull : JsonNonNull PolicyAdvanced_codec.
Proof. solve_nonnull. Qed.
#[export] Instance DpuAttached_codec_json : JsonLaws DpuAttached_codec.
Proof. solve_json. Qed.
#[export] Instance DpuAttached_codec_depth : JsonDepth DpuAttached_codec 5.
Proof. solve_depth. Qed.
#[export] Instance DpuAttached_codec_nonnull : JsonNonNull DpuAttached_codec.
Proof. solve_nonnull. Qed.
#[export] Instance DpuLost_codec_json : JsonLaws DpuLost_codec.
Proof. solve_json. Qed.
#[export] Instance DpuLost_codec_depth : JsonDepth DpuLost_codec 5.
Proof. solve_depth. Qed.
#[export] Instance DpuLost_codec_nonnull : JsonNonNull DpuLost_codec.
Proof. solve_nonnull. Qed.
#[export] Instance ServiceDeclared_codec_json : JsonLaws ServiceDeclared_codec.
Proof. solve_json. Qed.
#[export] Instance ServiceDeclared_codec_depth : JsonDepth ServiceDeclared_codec 9.
Proof. solve_depth. Qed.
#[export] Instance ServiceDeclared_codec_nonnull : JsonNonNull ServiceDeclared_codec.
Proof. solve_nonnull. Qed.
#[export] Instance GroupDeclared_codec_json : JsonLaws GroupDeclared_codec.
Proof. solve_json. Qed.
#[export] Instance GroupDeclared_codec_depth : JsonDepth GroupDeclared_codec 5.
Proof. solve_depth. Qed.
#[export] Instance GroupDeclared_codec_nonnull : JsonNonNull GroupDeclared_codec.
Proof. solve_nonnull. Qed.
#[export] Instance DependencyDeclared_codec_json : JsonLaws DependencyDeclared_codec.
Proof. solve_json. Qed.
#[export] Instance DependencyDeclared_codec_depth : JsonDepth DependencyDeclared_codec 3.
Proof. solve_depth. Qed.
#[export] Instance DependencyDeclared_codec_nonnull : JsonNonNull DependencyDeclared_codec.
Proof. solve_nonnull. Qed.
#[export] Instance IntentSubmitted_codec_json : JsonLaws IntentSubmitted_codec.
Proof. solve_json. Qed.
#[export] Instance IntentSubmitted_codec_depth : JsonDepth IntentSubmitted_codec 5.
Proof. solve_depth. Qed.
#[export] Instance IntentSubmitted_codec_nonnull : JsonNonNull IntentSubmitted_codec.
Proof. solve_nonnull. Qed.
#[export] Instance ExecutionAcknowledged_codec_json : JsonLaws ExecutionAcknowledged_codec.
Proof. solve_json. Qed.
#[export] Instance ExecutionAcknowledged_codec_depth : JsonDepth ExecutionAcknowledged_codec 3.
Proof. solve_depth. Qed.
#[export] Instance ExecutionAcknowledged_codec_nonnull : JsonNonNull ExecutionAcknowledged_codec.
Proof. solve_nonnull. Qed.
#[export] Instance EffectReported_codec_json : JsonLaws EffectReported_codec.
Proof. solve_json. Qed.
#[export] Instance EffectReported_codec_depth : JsonDepth EffectReported_codec 6.
Proof. solve_depth. Qed.
#[export] Instance EffectReported_codec_nonnull : JsonNonNull EffectReported_codec.
Proof. solve_nonnull. Qed.
#[export] Instance CoordinatorAdvanced_codec_json : JsonLaws CoordinatorAdvanced_codec.
Proof. solve_json. Qed.
#[export] Instance CoordinatorAdvanced_codec_depth : JsonDepth CoordinatorAdvanced_codec 2.
Proof. solve_depth. Qed.
#[export] Instance CoordinatorAdvanced_codec_nonnull : JsonNonNull CoordinatorAdvanced_codec.
Proof. solve_nonnull. Qed.
#[export] Instance LogicalTimeAdvanced_codec_json : JsonLaws LogicalTimeAdvanced_codec.
Proof. solve_json. Qed.
#[export] Instance LogicalTimeAdvanced_codec_depth : JsonDepth LogicalTimeAdvanced_codec 3.
Proof. solve_depth. Qed.
#[export] Instance LogicalTimeAdvanced_codec_nonnull : JsonNonNull LogicalTimeAdvanced_codec.
Proof. solve_nonnull. Qed.
#[export] Instance QuiesceRequested_codec_json : JsonLaws QuiesceRequested_codec.
Proof. solve_json. Qed.
#[export] Instance QuiesceRequested_codec_depth : JsonDepth QuiesceRequested_codec 2.
Proof. solve_depth. Qed.
#[export] Instance QuiesceRequested_codec_nonnull : JsonNonNull QuiesceRequested_codec.
Proof. solve_nonnull. Qed.
Lemma body_alternatives_json i c :
  body_alternatives !! i = Some c -> json_yields c (fun v => body_index v = i) /\ JsonDepth c 11.
Proof.
  intros Hc. unfold body_alternatives in Hc.
  repeat (destruct i as [|i]; [injection Hc as <-; split;
    [apply alternative_yields; [typeclasses eauto|done|done]
    |eapply depth_weaken; [intros v; apply c_alternative_levels; typeclasses eauto|lia]]|]).
  done.
Qed.
#[export] Instance FabricEventBody_codec_json : JsonLaws FabricEventBody_codec.
Proof.
  apply c_variant_json; [|by intros i c [? _]%body_alternatives_json].
  intros []; eexists; (split; [reflexivity|]); apply alternative_at; (typeclasses eauto || done).
Qed.
#[export] Instance FabricEventBody_codec_depth : JsonDepth FabricEventBody_codec 12.
Proof. apply c_variant_depth; [by intros i c [_ ?]%body_alternatives_json|lia]. Qed.
#[export] Instance FabricEventBody_codec_nonnull : JsonNonNull FabricEventBody_codec.
Proof. done. Qed.
#[export] Instance FabricEvent_codec_json : JsonLaws FabricEvent_codec.
Proof. solve_json. Qed.
#[export] Instance FabricEvent_codec_depth : JsonDepth FabricEvent_codec 13.
Proof. solve_depth. Qed.
#[export] Instance FabricEvent_codec_nonnull : JsonNonNull FabricEvent_codec.
Proof. solve_nonnull. Qed.

(** *** Authority.v *)
#[export] Instance AuthorityGrant_codec_json : JsonLaws AuthorityGrant_codec.
Proof. solve_json. Qed.
#[export] Instance AuthorityGrant_codec_depth : JsonDepth AuthorityGrant_codec 3.
Proof. solve_depth. Qed.
#[export] Instance AuthorityGrant_codec_nonnull : JsonNonNull AuthorityGrant_codec.
Proof. solve_nonnull. Qed.
#[export] Instance AuthorityRegistry_codec_json : JsonLaws AuthorityRegistry_codec.
Proof. solve_json. Qed.
#[export] Instance AuthorityRegistry_codec_depth : JsonDepth AuthorityRegistry_codec 5.
Proof. solve_depth. Qed.
#[export] Instance AuthorityRegistry_codec_nonnull : JsonNonNull AuthorityRegistry_codec.
Proof. solve_nonnull. Qed.
#[export] Instance FenceEntry_codec_json : JsonLaws FenceEntry_codec.
Proof. solve_json. Qed.
#[export] Instance FenceEntry_codec_depth : JsonDepth FenceEntry_codec 2.
Proof. solve_depth. Qed.
#[export] Instance FenceEntry_codec_nonnull : JsonNonNull FenceEntry_codec.
Proof. solve_nonnull. Qed.
#[export] Instance FenceIssuer_codec_json : JsonLaws FenceIssuer_codec.
Proof. solve_json. Qed.
#[export] Instance FenceIssuer_codec_depth : JsonDepth FenceIssuer_codec 4.
Proof. solve_depth. Qed.
#[export] Instance FenceIssuer_codec_nonnull : JsonNonNull FenceIssuer_codec.
Proof. solve_nonnull. Qed.

(** *** State.v *)
#[export] Instance TruncationLedger_codec_json : JsonLaws TruncationLedger_codec.
Proof. solve_json. Qed.
#[export] Instance TruncationLedger_codec_depth : JsonDepth TruncationLedger_codec 4.
Proof. solve_depth. Qed.
#[export] Instance TruncationLedger_codec_nonnull : JsonNonNull TruncationLedger_codec.
Proof. solve_nonnull. Qed.
#[export] Instance EventOutcome_codec_json : JsonLaws EventOutcome_codec.
Proof. solve_json. Qed.
#[export] Instance EventOutcome_codec_depth : JsonDepth EventOutcome_codec 2.
Proof. solve_depth. Qed.
#[export] Instance EventOutcome_codec_nonnull : JsonNonNull EventOutcome_codec.
Proof. solve_nonnull. Qed.
#[export] Instance BatchReport_codec_json : JsonLaws BatchReport_codec.
Proof. solve_json. Qed.
#[export] Instance BatchReport_codec_depth : JsonDepth BatchReport_codec 4.
Proof. solve_depth. Qed.
#[export] Instance BatchReport_codec_nonnull : JsonNonNull BatchReport_codec.
Proof. solve_nonnull. Qed.
#[export] Instance RuntimeState_codec_json : JsonLaws RuntimeState_codec.
Proof. solve_json. Qed.
#[export] Instance RuntimeState_codec_depth : JsonDepth RuntimeState_codec 10.
Proof. solve_depth. Qed.
#[export] Instance RuntimeState_codec_nonnull : JsonNonNull RuntimeState_codec.
Proof. solve_nonnull. Qed.
#[export] Instance PlacementProjection_codec_json : JsonLaws PlacementProjection_codec.
Proof. solve_json. Qed.
#[export] Instance PlacementProjection_codec_depth : JsonDepth PlacementProjection_codec 10.
Proof. solve_depth. Qed.
#[export] Instance PlacementProjection_codec_nonnull : JsonNonNull PlacementProjection_codec.
Proof. solve_nonnull. Qed.
#[export] Instance RecoverySummary_codec_json : JsonLaws RecoverySummary_codec.
Proof. solve_json. Qed.
#[export] Instance RecoverySummary_codec_depth : JsonDepth RecoverySummary_codec 3.
Proof. solve_depth. Qed.
#[export] Instance RecoverySummary_codec_nonnull : JsonNonNull RecoverySummary_codec.
Proof. solve_nonnull. Qed.

(** ** Documents of the model *)
Section texts.
Context {T : Type} (c : Codec T) (d : nat) `{!JsonLaws c, !JsonDepth c d}.

(** A value that the JSON archives carry survives the text. *)
Lemma text_roundtrip pretty max_bytes max value :
  (d <= S kMaxDepth)%nat -> j_ok c max value = true -> json_wf (encode_json c value) = true ->
  slen (to_text pretty (encode_json c value)) <= max_bytes ->
  exists document, parse_json (to_text pretty (encode_json c value)) max_bytes = Some (Value document) /\
    decode_json c document max = Value (c_norm c value).
Proof.
  intros Hd Hok Hwf Hsize. exists (encode_json c value). split.
  - apply json_text_write; [done| |done]. rewrite encode_json_document by done.
    etransitivity; [apply json_depth|done].
  - by apply decode_encode_json.
Qed.
End texts.

(** C25. An event survives its JSON text, pretty or compact: an event whose fields fit
    their widths and whose identities are valid is read back from the text the
    writer gives, up to its payload digest, provided no integer of it is a negative
    one of nineteen digits. *)
Theorem event_text_roundtrip (pretty : bool) (max_bytes max : Z) (e : FabricEvent)
    (Hok : j_ok FabricEvent_codec max e = true)
    (Hwf : json_wf (encode_json FabricEvent_codec e) = true)
    (Hsize : slen (to_text pretty (encode_json FabricEvent_codec e)) <= max_bytes) :
  exists document,
    parse_json (to_text pretty (encode_json FabricEvent_codec e)) max_bytes = Some (Value document) /\
    decode_json FabricEvent_codec document max = Value (drop_payload_digest e).
Proof.
  rewrite <-FabricEvent_codec_norm. eapply text_roundtrip; [typeclasses eauto..| |done|done|done].
  by apply (bool_decide_unpack _).
Qed.

Definition sample_event : FabricEvent :=
  mkFabricEvent "event-1" "dpu-7" 3 12 40 (-5) EvidenceClass.Real Digest_zero
    (Body_LogicalTimeAdvanced (mkLogicalTimeAdvanced 41)).
Lemma event_text_roundtrip_witness :
  exists document,
    parse_json (to_text true (encode_json FabricEvent_codec sample_event)) 4194304 =
      Some (Value document) /\
    decode_json FabricEvent_codec document kMaxDecodedSequence = Value sample_event.
Proof.
  apply (event_text_roundtrip true 4194304 kMaxDecodedSequence sample_event);
    [vm_compute; reflexivity|vm_compute; reflexivity|vm_compute; discriminate].
Defined.

(** What the JSON reader accepts as an event is an event: its document is an
    object with the members of [FabricEvent::visit], none missing and none unknown;
    every field is within its width, every
    identity valid and every sequence within the bound; and writing the event and
    reading it again changes nothing. *)
Theorem event_document_accepted (document : JsonValue) (max : Z) (e : FabricEvent)
    (Hdecode : decode_json FabricEvent_codec document max = Value e) :
  (exists members, document = JObject members /\
     forall name, name ∈ members.*1 <->
       name ∈ ["id"; "origin"; "origin_epoch"; "origin_seq"; "at"; "wall_clock"; "evidence_class"; "body"]) /\
  j_ok FabricEvent_codec max e = true /\
  decode_json FabricEvent_codec (encode_json FabricEvent_codec e) max = Value e.
Proof.
  split; [|by apply (decode_json_accepts FabricEvent_codec document)].
  eapply decode_json_members; [|exact Hdecode].
  eapply json_fields_eq;
    [apply c_iso_fields; [intros; destruct_fields; reflexivity|solve_json_fields]|reflexivity].
Qed.

Lemma event_document_accepted_witness :
  let document := encode_json FabricEvent_codec sample_event in
  (exists members, document = JObject members /\
     forall name, name ∈ members.*1 <->
       name ∈ ["id"; "origin"; "origin_epoch"; "origin_seq"; "at"; "wall_clock"; "evidence_class"; "body"]) /\
  j_ok FabricEvent_codec 16 sample_event = true /\
  decode_json FabricEvent_codec document 16 = Value sample_event.
Proof. intros document. apply (event_document_accepted document 16). vm_compute. reflexivity. Defined.
