(* ===== verification/Wire.v ===== *)
(** * Frames on disk and on the wire

    [src/persist/store.cpp] ([Store::frame], [parse_frame]) and
    [src/transport/frame.cpp] ([encode_frame], [decode_frame]): two length-prefixed
    framings, each protected by a SHA-256 digest, whole on disk and cut to sixteen
    bytes on the wire.  A span and an offset are a list of bytes and what is left
    after dropping the offset. *)

From S2P Require Import Prelude Std Reason Types Version Resources Bounded Digest Json JsonArchive Archive Model.
From S2P Require Import Codec Authority Planner State.
#[local] Open Scope Z_scope.

(** ** Enumerations of the formats *)
Module RecordKind.
Inductive RecordKind : Set :=
  Event | Snapshot | Marker.
#[export] Instance eq_dec : EqDecision RecordKind.
Proof. solve_decision. Defined.
End RecordKind.
Abbreviation RecordKind := RecordKind.RecordKind.
#[export] Instance RecordKind_Enum : Enum RecordKind := {| enum_eq_dec := RecordKind.eq_dec; enum_rows := [
  (RecordKind.Event, "Event"); (RecordKind.Snapshot, "Snapshot"); (RecordKind.Marker,
  "Marker")] |}.
#[export] Instance RecordKind_laws : EnumLaws RecordKind.
Proof. solve_enum_laws. Qed.

(** [static_cast] of a number below the count. *)
Definition enum_of_ordinal {E} `{Enum E} (ordinal : Z) : option E :=
  if ordinal <? 0 then None else fst <$> (@enum_rows E _) !! Z.to_nat ordinal.

Lemma enum_of_ordinal_ordinal {E} `{EnumLaws E} (v : E) :
  enum_of_ordinal (enum_ordinal v) = Some v.
Proof.
  destruct (enum_find_value v) as (i & n & Hf & Hl). unfold enum_ordinal, enum_of_ordinal.
  rewrite Hf. destruct (Z.ltb_spec (Z.of_nat i) 0); [lia|]. by rewrite Nat2Z.id, Hl.
Qed.

Lemma enum_ordinal_of {E} `{EnumLaws E} (z : Z) (v : E) :
  enum_of_ordinal z = Some v -> enum_ordinal v = z.
Proof.
  unfold enum_of_ordinal. destruct (Z.ltb_spec z 0); [done|].
  intros ([w m] & Hl & ->)%fmap_Some. cbn [fst].
  destruct (enum_find_value w) as (i & n & Hf & Hi). unfold enum_ordinal. rewrite Hf.
  assert (i = Z.to_nat z) as ->; [|lia].
  eapply (NoDup_lookup _ _ _ w enum_values_NoDup); rewrite list_lookup_fmap;
    [by rewrite Hi|by rewrite Hl].
Qed.

Lemma enum_ordinal_range {E} `{EnumLaws E} (v : E) : 0 <= enum_ordinal v < zlen (@enum_rows E _).
Proof.
  destruct (enum_find_value v) as (i & n & Hf & Hl). unfold enum_ordinal. rewrite Hf.
  apply lookup_lt_Some in Hl. unfold zlen. lia.
Qed.

(** ** Little-endian integers at an offset *)
Definition put_u16 (value : Z) : list Byte := put_le 2 0 value.

(** The loop of [read_u32] and [read_u64], over the bytes at the pointer. *)
Fixpoint read_le (n : nat) (shift value : Z) (data : list Byte) : Z :=
  match n with
  | O => value
  | S n => read_le n (shift + 8) (Z.lor value (Z.shiftl (nth0 data 0) shift)) (tail data)
  end.
Definition read_u16 (data : list Byte) : Z := read_le 2 0 0 data.
Definition read_u32 (data : list Byte) : Z := read_le 4 0 0 data.
Definition read_u64 (data : list Byte) : Z := read_le 8 0 0 data.

Lemma read_le_get n shift value max data v rest :
  get_le n shift value max data = Value (v, rest) -> read_le n shift value data = v.
Proof.
  revert shift value data. induction n as [|n IH]; intros shift value data; [by intros [= -> _]|].
  cbn [get_le read_le]. unfold rbind. destruct data as [|b data]; [done|]. cbn [get_u8 nth0 nth tail].
  apply IH.
Qed.

Lemma read_le_put n z rest :
  0 <= z < 2 ^ (8 * Z.of_nat n) -> read_le n 0 0 (put_le n 0 z ++ rest) = z.
Proof.
  intros Hz. pose proof (get_le_put_le 0 n 0 z rest ltac:(lia)) as Hg.
  rewrite Z.mod_1_r in Hg. apply read_le_get in Hg. rewrite Hg.
  replace (0 + 8 * Z.of_nat n) with (8 * Z.of_nat n) by lia. by apply Z.mod_small.
Qed.

Lemma read_u16_put z rest : in_width u16_max z -> read_u16 (put_u16 z ++ rest) = z.
Proof. intros Hz. apply read_le_put. unfold in_width, u16_max in Hz. lia. Qed.
Lemma read_u32_put z rest : in_width u32_max z -> read_u32 (put_u32 z ++ rest) = z.
Proof. intros Hz. apply read_le_put. unfold in_width, u32_max in Hz. lia. Qed.
Lemma read_u64_put z rest : in_width u64_max z -> read_u64 (put_u64 z ++ rest) = z.
Proof. intros Hz. apply read_le_put. unfold in_width, u64_max in Hz. lia. Qed.

(** Reading enough bytes is exact: the bytes are the encoding of what is read. *)
Lemma read_le_exact n data :
  Forall is_byte data -> (n <= length data)%nat ->
  exists rest, data = put_le n 0 (read_le n 0 0 data) ++ rest /\
    0 <= read_le n 0 0 data < 2 ^ (8 * Z.of_nat n).
Proof.
  intros Hd Hn.
  assert (Hget : forall m s a d, (m <= length d)%nat -> exists v rest, get_le m s a 0 d = Value (v, rest)).
  { induction m as [|m IH]; intros s a d Hm; [by eexists _, _|]. cbn [get_le]. unfold rbind.
    destruct d as [|b d]; [cbn in Hm; lia|]. cbn [get_u8]. apply IH. cbn in Hm. lia. }
  destruct (Hget n 0 0 data Hn) as (v & rest & Hg). pose proof (read_le_get _ _ _ _ _ _ _ Hg) as Hv.
  apply get_le_canonical in Hg as (Hdata & _ & Hr); [|lia|lia|done].
  exists rest. rewrite Hv. split; [done|]. by replace (8 * Z.of_nat n) with (0 + 8 * Z.of_nat n) by lia.
Qed.

Lemma read_le_split n data :
  Forall is_byte data -> (n <= length data)%nat ->
  data = put_le n 0 (read_le n 0 0 data) ++ drop n data /\
  0 <= read_le n 0 0 data < 2 ^ (8 * Z.of_nat n).
Proof.
  intros Hd Hn. destruct (read_le_exact n data Hd Hn) as (rest & Hdata & Hr). split; [|done].
  rewrite Hdata at 3. rewrite (drop_app_length' _ _ n) by (by rewrite put_le_length). done.
Qed.

(** ** Records of the store *)
Definition kFrameHeaderBytes : Z := 16.
Definition kFrameDigestBytes : Z := 32.
Definition kFrameMagic : Z := 0x46555044.

(** [Store::frame] *)
Definition frame (kind : RecordKind) (format_version semantic_version : Z) (payload : list Byte)
  : list Byte :=
  put_u32 kFrameMagic ++ put_u16 (Z.land format_version 0xFFFF) ++
  put_u16 (Z.land semantic_version 0xFFFF) ++ [enum_ordinal kind; 0; 0; 0] ++
  put_u32 (zlen payload mod 2 ^ 32) ++ payload ++ sha256 payload.

Record FrameParseResult := mkFrameParseResult {
  fp_status : Status;
  fp_complete : bool;
  fp_torn_tail : bool;
  fp_kind : RecordKind;
  fp_payload_offset : Z;
  fp_payload_length : Z;
  fp_consumed : Z
}.
#[export] Instance eta_FrameParseResult : Settable FrameParseResult := fun r =>
  mkFrameParseResult (fp_status r) (fp_complete r) (fp_torn_tail r) (fp_kind r)
    (fp_payload_offset r) (fp_payload_length r) (fp_consumed r).

(** A result that only carries a status. *)
Definition parse_stop (status : Status) (torn : bool) : FrameParseResult :=
  mkFrameParseResult status false torn RecordKind.Event 0 0 0.

(** [parse_frame] *)
Definition parse_frame (data : list Byte) (offset expected_format expected_semantic
    max_record_bytes : Z) : FrameParseResult :=
  if zlen data <? offset then
    parse_stop (refuse ReasonCode.StoreTruncated "offset beyond end of record stream") false
  else if offset =? zlen data then parse_stop Status_success false
  else if zlen data - offset <? kFrameHeaderBytes then
    parse_stop (refuse ReasonCode.StoreTruncated "torn frame header") true
  else
  let header := drop (Z.to_nat offset) data in
  if negb (read_u32 header =? kFrameMagic) then
    parse_stop (refuse ReasonCode.StoreCorrupt "frame magic mismatch") false
  else
  let format := read_u16 (drop 4 header) in
  let semantic := read_u16 (drop 6 header) in
  if negb (format =? Z.land expected_format 0xFFFF) then
    parse_stop (refuse ReasonCode.StoreVersionIncompatible "frame format version") false
  else if negb (semantic =? Z.land expected_semantic 0xFFFF) then
    parse_stop (refuse ReasonCode.StoreSemanticsIncompatible "frame semantic version") false
  else
  let raw_kind := nth0 header 8 in
  match (if enum_ordinal RecordKind.Marker <? raw_kind then None
         else @enum_of_ordinal RecordKind _ raw_kind) with
  | None => parse_stop (refuse ReasonCode.StoreCorrupt "unknown record kind") false
  | Some kind =>
    let length := read_u32 (drop 12 header) in
    if max_record_bytes <? length then
      (parse_stop (refuse ReasonCode.StoreRecordOversized "frame payload exceeds bound") false)
        <| fp_kind := kind |>
    else
    let needed := kFrameHeaderBytes + length + kFrameDigestBytes in
    if zlen data - offset <? needed then
      (parse_stop (refuse ReasonCode.StoreTruncated "torn frame payload") true)
        <| fp_kind := kind |>
    else
    let payload := take (Z.to_nat length) (drop 16 header) in
    let stored := take (Z.to_nat kFrameDigestBytes) (drop (Z.to_nat (16 + length)) header) in
    if negb (bool_decide (sha256 payload = stored)) then
      (parse_stop (refuse ReasonCode.StoreIntegrityFailure "frame digest mismatch") false)
        <| fp_kind := kind |>
    else
      mkFrameParseResult Status_success true false kind (offset + kFrameHeaderBytes) length needed
  end.

(** The bytes a complete result designates. *)
Definition parsed_payload (data : list Byte) (r : FrameParseResult) : list Byte :=
  take (Z.to_nat (fp_payload_length r)) (drop (Z.to_nat (fp_payload_offset r)) data).

Section records.
Context (format semantic max_record : Z).

Definition record_header (kind : RecordKind) (length : Z) : list Byte :=
  put_u32 kFrameMagic ++ put_u16 (Z.land format 0xFFFF) ++
  put_u16 (Z.land semantic 0xFFFF) ++ [enum_ordinal kind; 0; 0; 0] ++
  put_u32 (length mod 2 ^ 32).

Lemma frame_split kind payload :
  frame kind format semantic payload = record_header kind (zlen payload) ++ payload ++ sha256 payload.
Proof. unfold frame, record_header. by rewrite <-!app_assoc. Qed.

Lemma record_header_length kind n : length (record_header kind n) = 16%nat.
Proof.
  unfold record_header, put_u32, put_u16. rewrite !length_app, !put_le_length. done.
Qed.

Lemma frame_length kind payload : zlen (frame kind format semantic payload) = zlen payload + 48.
Proof.
  rewrite frame_split, !zlen_app. unfold zlen at 1. rewrite record_header_length.
  unfold zlen at 2. rewrite (proj1 (sha256_wf payload)). unfold kDigestBytes. lia.
Qed.

Lemma land_16_width z : in_width u16_max (Z.land z 0xFFFF).
Proof.
  change 0xFFFF with (Z.ones 16). rewrite Z.land_ones by lia.
  pose proof (Z.mod_pos_bound z (2 ^ 16) ltac:(lia)). unfold in_width, u16_max. lia.
Qed.

Lemma nth0_drop l n : nth0 l n = nth0 (drop n l) 0.
Proof. unfold nth0. revert l. induction n as [|n IH]; intros [|x l]; try done. apply IH. Qed.

(** The header fields a record starting with a header shows. *)
Lemma record_header_fields kind n rest :
  in_width u32_max n ->
  let header := record_header kind n ++ rest in
  read_u32 header = kFrameMagic /\ read_u16 (drop 4 header) = Z.land format 0xFFFF /\
  read_u16 (drop 6 header) = Z.land semantic 0xFFFF /\ nth0 header 8 = enum_ordinal kind /\
  read_u32 (drop 12 header) = n /\ drop 16 header = rest.
Proof.
  intros Hl header. unfold header, record_header.
  rewrite Z.mod_small by (unfold in_width, u32_max in Hl; lia).
  assert (Hp : forall n z, length (put_le n 0 z) = n) by (intros; apply put_le_length).
  rewrite <-!app_assoc. unfold put_u32, put_u16. split_and!.
  - apply (read_u32_put kFrameMagic). unfold in_width, kFrameMagic, u32_max. lia.
  - rewrite (drop_app_length' _ _ 4) by (by rewrite Hp). apply read_u16_put, land_16_width.
  - rewrite app_assoc, (drop_app_length' _ _ 6) by (by rewrite length_app, !Hp).
    apply read_u16_put, land_16_width.
  - rewrite nth0_drop, 2!app_assoc, (drop_app_length' _ _ 8) by (by rewrite !length_app, !Hp). done.
  - rewrite 3!app_assoc, (drop_app_length' _ _ 12) by (by rewrite !length_app, !Hp).
    by apply read_u32_put.
  - rewrite 4!app_assoc, (drop_app_length' _ _ 16) by (by rewrite !length_app, !Hp). done.
Qed.

Lemma kind_of_ordinal kind :
  (if enum_ordinal RecordKind.Marker <? enum_ordinal kind then None
   else @enum_of_ordinal RecordKind _ (enum_ordinal kind)) = Some kind.
Proof. by destruct kind. Qed.

Lemma zlen_drop_app {A} (l k : list A) : drop (Z.to_nat (zlen l)) (l ++ k) = k.
Proof. unfold zlen. by rewrite Nat2Z.id, drop_app_length. Qed.

Lemma to_nat_zlen {A} (l : list A) : Z.to_nat (zlen l) = length l.
Proof. unfold zlen. apply Nat2Z.id. Qed.

(** A whole record is parsed as itself, wherever it stands. *)
Lemma parse_frame_whole pre kind payload rest :
  zlen payload <= max_record -> zlen payload <= u32_max ->
  let data := pre ++ frame kind format semantic payload ++ rest in
  let r := parse_frame data (zlen pre) format semantic max_record in
  fp_complete r = true /\ fp_kind r = kind /\
  fp_consumed r = zlen (frame kind format semantic payload) /\ parsed_payload data r = payload.
Proof.
  intros Hm Hl data r. pose proof (zlen_nonneg pre) as Hpre. pose proof (zlen_nonneg rest) as Hrest.
  pose proof (zlen_nonneg payload) as Hpay.
  assert (Hlen : zlen data = zlen pre + (zlen payload + 48) + zlen rest)
    by (unfold data; rewrite !zlen_app, frame_length; lia).
  assert (Hdrop : drop (Z.to_nat (zlen pre)) data =
    record_header kind (zlen payload) ++ payload ++ sha256 payload ++ rest).
  { unfold data. rewrite zlen_drop_app, frame_split. by rewrite <-!app_assoc. }
  destruct (record_header_fields kind (zlen payload) (payload ++ sha256 payload ++ rest) ltac:(by split))
    as (F1 & F2 & F3 & F4 & F5 & F6). cbn zeta in *.
  assert (Hr : r = mkFrameParseResult Status_success true false kind (zlen pre + 16) (zlen payload)
    (16 + zlen payload + 32)).
  { unfold r, parse_frame. rewrite Hlen.
    destruct (Z.ltb_spec (zlen pre + (zlen payload + 48) + zlen rest) (zlen pre)); [lia|].
    destruct (Z.eqb_spec (zlen pre) (zlen pre + (zlen payload + 48) + zlen rest)); [lia|].
    unfold kFrameHeaderBytes, kFrameDigestBytes.
    destruct (Z.ltb_spec (zlen pre + (zlen payload + 48) + zlen rest - zlen pre) 16); [lia|].
    rewrite Hdrop. cbn zeta. rewrite F1, Z.eqb_refl, F2, Z.eqb_refl, F3, Z.eqb_refl, F4. cbn [negb].
    rewrite kind_of_ordinal, F5. destruct (Z.ltb_spec max_record (zlen payload)); [lia|].
    destruct (Z.ltb_spec (zlen pre + (zlen payload + 48) + zlen rest - zlen pre)
      (16 + zlen payload + 32)); [lia|].
    replace (Z.to_nat (16 + zlen payload)) with (16 + length payload)%nat by (unfold zlen; lia).
    rewrite <-drop_drop, F6. unfold zlen. rewrite Nat2Z.id, take_app_length, drop_app_length.
    change (Z.to_nat 32) with kDigestBytes. rewrite <-(proj1 (sha256_wf payload)), take_app_length.
    by rewrite bool_decide_true. }
  rewrite Hr. cbn [fp_complete fp_kind fp_consumed]. split_and!; [done|done|rewrite frame_length; lia|].
  unfold parsed_payload. cbn [fp_payload_length fp_payload_offset].
  replace (Z.to_nat (zlen pre + 16)) with (Z.to_nat (zlen pre) + 16)%nat by lia.
  rewrite <-drop_drop, Hdrop, F6. unfold zlen. by rewrite Nat2Z.id, take_app_length.
Qed.

(** A header that announces more than there is makes a torn tail, whatever follows. *)
Lemma parse_frame_short pre kind n tl :
  in_width u32_max n -> n <= max_record -> zlen tl < n + 32 ->
  let data := pre ++ record_header kind n ++ tl in
  let r := parse_frame data (zlen pre) format semantic max_record in
  fp_complete r = false /\ fp_torn_tail r = true.
Proof.
  intros Hn Hm Htl data r. pose proof (zlen_nonneg pre). pose proof (zlen_nonneg tl).
  assert (Hlen : zlen data = zlen pre + 16 + zlen tl).
  { unfold data. rewrite !zlen_app. unfold zlen at 2. rewrite record_header_length. lia. }
  destruct (record_header_fields kind n tl Hn) as (F1 & F2 & F3 & F4 & F5 & _). cbn zeta in *.
  unfold r, parse_frame. rewrite Hlen.
  destruct (Z.ltb_spec (zlen pre + 16 + zlen tl) (zlen pre)); [lia|].
  destruct (Z.eqb_spec (zlen pre) (zlen pre + 16 + zlen tl)); [lia|].
  unfold kFrameHeaderBytes, kFrameDigestBytes.
  destruct (Z.ltb_spec (zlen pre + 16 + zlen tl - zlen pre) 16); [lia|].
  unfold data. rewrite zlen_drop_app, F1, Z.eqb_refl, F2, Z.eqb_refl, F3, Z.eqb_refl, F4. cbn [negb].
  rewrite kind_of_ordinal, F5. destruct (Z.ltb_spec max_record n); [lia|].
  match goal with |- context [?a <? ?b] => destruct (Z.ltb_spec a b) as [|Hge] end; [done|].
  exfalso. lia.
Qed.

(** A proper prefix of a record at the end of the data is a torn tail. *)
Lemma parse_frame_torn pre kind payload part :
  zlen payload <= max_record -> zlen payload <= u32_max ->
  part `prefix_of` frame kind format semantic payload -> part <> [] ->
  part <> frame kind format semantic payload ->
  let r := parse_frame (pre ++ part) (zlen pre) format semantic max_record in
  fp_complete r = false /\ fp_torn_tail r = true.
Proof.
  intros Hm Hl [rest Hpart] Hne Hwhole. pose proof (zlen_nonneg pre) as Hpre.
  pose proof (zlen_nonneg payload) as Hpay.
  assert (Hp0 : 0 < zlen part) by (unfold zlen; destruct part; cbn; [done|lia]).
  assert (Hr0 : 0 < zlen rest).
  { unfold zlen. destruct rest; cbn; [|lia]. rewrite app_nil_r in Hpart. by destruct Hwhole. }
  pose proof (frame_length kind payload) as Hlen. rewrite Hpart, zlen_app in Hlen.
  destruct (Z.ltb_spec (zlen part) 16) as [H16|H16].
  { unfold parse_frame. rewrite zlen_app.
    destruct (Z.ltb_spec (zlen pre + zlen part) (zlen pre)); [lia|].
    destruct (Z.eqb_spec (zlen pre) (zlen pre + zlen part)); [lia|].
    unfold kFrameHeaderBytes.
    destruct (Z.ltb_spec (zlen pre + zlen part - zlen pre) 16); [done|lia]. }
  assert (exists tl, part = record_header kind (zlen payload) ++ tl) as [tl ->].
  { exists (drop 16 part). rewrite <-(take_drop 16 part) at 1. f_equal.
    rewrite frame_split in Hpart.
    assert (Hhd : take 16 (record_header kind (zlen payload) ++ payload ++ sha256 payload) =
      take 16 (part ++ rest)) by by rewrite Hpart.
    rewrite (take_app_length' (record_header kind (zlen payload))) in Hhd by (symmetry;
      apply record_header_length).
    rewrite Hhd, take_app_le by (unfold zlen in H16; lia). done. }
  apply parse_frame_short; [by split|done|].
  rewrite zlen_app in Hlen. unfold zlen at 1 in Hlen. rewrite record_header_length in Hlen. lia.
Qed.
End records.
