(* ===== verification/Frame.v ===== *)
(** * Frames of the transport

    [src/transport/frame.cpp] and [include/dpu/fabric/transport/frame.hpp]: the bounded,
    integrity-checked frames requests and responses travel in, and the payload structs
    with their canonical encodings. *)

From S2P Require Import Prelude Std Reason Types Version Resources Bounded Digest Json JsonArchive Archive Model.
From S2P Require Import Codec Authority Planner State Wire.
#[local] Open Scope Z_scope.

Module OpCode.
Inductive OpCode : Set :=
  Ping | Submit | Query | Explain | Export | Shutdown.
#[export] Instance eq_dec : EqDecision OpCode.
Proof. solve_decision. Defined.
End OpCode.
Abbreviation OpCode := OpCode.OpCode.
#[export] Instance OpCode_Enum : Enum OpCode := {| enum_eq_dec := OpCode.eq_dec; enum_rows := [
  (OpCode.Ping, "Ping"); (OpCode.Submit, "Submit"); (OpCode.Query, "Query");
  (OpCode.Explain, "Explain"); (OpCode.Export, "Export"); (OpCode.Shutdown, "Shutdown")] |}.
#[export] Instance OpCode_laws : EnumLaws OpCode.
Proof. solve_enum_laws. Qed.

Module ResponseStatus.
Inductive ResponseStatus : Set :=
  Ok | Refused | Error.
#[export] Instance eq_dec : EqDecision ResponseStatus.
Proof. solve_decision. Defined.
End ResponseStatus.
Abbreviation ResponseStatus := ResponseStatus.ResponseStatus.
#[export] Instance ResponseStatus_Enum : Enum ResponseStatus := {| enum_eq_dec := ResponseStatus.eq_dec; enum_rows := [
  (ResponseStatus.Ok, "Ok"); (ResponseStatus.Refused, "Refused"); (ResponseStatus.Error,
  "Error")] |}.
#[export] Instance ResponseStatus_laws : EnumLaws ResponseStatus.
Proof. solve_enum_laws. Qed.

Record RefusalPayload := mkRefusalPayload {
  rfp_code : ReasonCode;
  rfp_detail : string
}.
#[export] Instance eta_RefusalPayload : Settable RefusalPayload := fun r =>
  mkRefusalPayload (rfp_code r) (rfp_detail r).
#[export] Instance RefusalPayload_eq_dec : EqDecision RefusalPayload.
Proof. solve_decision. Defined.
Definition RefusalPayload_default : RefusalPayload :=
  mkRefusalPayload ReasonCode.Ok "".
Definition RefusalPayload_codec : Codec RefusalPayload := c_object "RefusalPayload" (c_iso
  (fun s =>
     (tt, rfp_code s, rfp_detail s))
  (fun '(_, x_code, x_detail) =>
     mkRefusalPayload x_code x_detail)
  (fields
     & field "code" (c_enum ReasonCode)
     & field "detail" c_string)).
#[export] Typeclasses Opaque RefusalPayload_codec.
#[export] Instance RefusalPayload_codec_laws : CodecLaws RefusalPayload_codec.
Proof. solve_codec_laws. Qed.
#[export] Instance RefusalPayload_codec_exact : CodecExact RefusalPayload_codec.
Proof. solve_codec_exact. Qed.
Record PingRequest := mkPingRequest {
  pingq_nonce : string
}.
#[export] Instance eta_PingRequest : Settable PingRequest := fun r =>
  mkPingRequest (pingq_nonce r).
#[export] Instance PingRequest_eq_dec : EqDecision PingRequest.
Proof. solve_decision. Defined.
Definition PingRequest_default : PingRequest :=
  mkPingRequest "".
Definition PingRequest_codec : Codec PingRequest := c_object "PingRequest" (c_iso
  (fun s =>
     (tt, pingq_nonce s))
  (fun '(_, x_nonce) =>
     mkPingRequest x_nonce)
  (fields
     & field "nonce" c_string)).
#[export] Typeclasses Opaque PingRequest_codec.
#[export] Instance PingRequest_codec_laws : CodecLaws PingRequest_codec.
Proof. solve_codec_laws. Qed.
#[export] Instance PingRequest_codec_exact : CodecExact PingRequest_codec.
Proof. solve_codec_exact. Qed.
Record PingResponse := mkPingResponse {
  pings_nonce : string;
  pings_product : string;
  pings_version : string
}.
#[export] Instance eta_PingResponse : Settable PingResponse := fun r =>
  mkPingResponse (pings_nonce r) (pings_product r) (pings_version r).
#[export] Instance PingResponse_eq_dec : EqDecision PingResponse.
Proof. solve_decision. Defined.
Definition PingResponse_default : PingResponse :=
  mkPingResponse "" "" "".
Definition PingResponse_codec : Codec PingResponse := c_object "PingResponse" (c_iso
  (fun s =>
     (tt, pings_nonce s, pings_product s, pings_version s))
  (fun '(_, x_nonce, x_product, x_version) =>
     mkPingResponse x_nonce x_product x_version)
  (fields
     & field "nonce" c_string
     & field "product" c_string
     & field "version" c_string)).
#[export] Typeclasses Opaque PingResponse_codec.
#[export] Instance PingResponse_codec_laws : CodecLaws PingResponse_codec.
Proof. solve_codec_laws. Qed.
#[export] Instance PingResponse_codec_exact : CodecExact PingResponse_codec.
Proof. solve_codec_exact. Qed.
Record SubmitRequest := mkSubmitRequest {
  subq_events : list FabricEvent
}.
#[export] Instance eta_SubmitRequest : Settable SubmitRequest := fun r =>
  mkSubmitRequest (subq_events r).
#[export] Instance SubmitRequest_eq_dec : EqDecision SubmitRequest.
Proof. solve_decision. Defined.
Definition SubmitRequest_default : SubmitRequest :=
  mkSubmitRequest [].
Definition SubmitRequest_codec : Codec SubmitRequest := c_object "SubmitRequest" (c_iso
  (fun s =>
     (tt, subq_events s))
  (fun '(_, x_events) =>
     mkSubmitRequest x_events)
  (fields
     & field "events" (c_vector FabricEvent_codec))).
#[export] Typeclasses Opaque SubmitRequest_codec.
#[export] Instance SubmitRequest_codec_laws : CodecLaws SubmitRequest_codec.
Proof. solve_codec_laws. Qed.
Record SubmitResponse := mkSubmitResponse {
  subs_report : BatchReport;
  subs_state_digest : Digest;
  subs_durable_digest : Digest
}.
#[export] Instance eta_SubmitResponse : Settable SubmitResponse := fun r =>
  mkSubmitResponse (subs_report r) (subs_state_digest r) (subs_durable_digest r).
#[export] Instance SubmitResponse_eq_dec : EqDecision SubmitResponse.
Proof. solve_decision. Defined.
Definition SubmitResponse_default : SubmitResponse :=
  mkSubmitResponse BatchReport_default Digest_zero Digest_zero.
Definition SubmitResponse_codec : Codec SubmitResponse := c_object "SubmitResponse" (c_iso
  (fun s =>
     (tt, subs_report s, subs_state_digest s, subs_durable_digest s))
  (fun '(_, x_report, x_state_digest, x_durable_digest) =>
     mkSubmitResponse x_report x_state_digest x_durable_digest)
  (fields
     & field "report" BatchReport_codec
     & field "state_digest" c_digest
     & field "durable_digest" c_digest)).
#[export] Typeclasses Opaque SubmitResponse_codec.
#[export] Instance SubmitResponse_codec_laws : CodecLaws SubmitResponse_codec.
Proof. solve_codec_laws. Qed.
#[export] Instance SubmitResponse_codec_exact : CodecExact SubmitResponse_codec.
Proof. solve_codec_exact. Qed.
Record QueryRequest := mkQueryRequest {
  qryq_reserved : Z
}.
#[export] Instance eta_QueryRequest : Settable QueryRequest := fun r =>
  mkQueryRequest (qryq_reserved r).
#[export] Instance QueryRequest_eq_dec : EqDecision QueryRequest.
Proof. solve_decision. Defined.
Definition QueryRequest_default : QueryRequest :=
  mkQueryRequest 0.
Definition QueryRequest_codec : Codec QueryRequest := c_object "QueryRequest" (c_iso
  (fun s =>
     (tt, qryq_reserved s))
  (fun '(_, x_reserved) =>
     mkQueryRequest x_reserved)
  (fields
     & field "reserved" c_u32)).
#[export] Typeclasses Opaque QueryRequest_codec.
#[export] Instance QueryRequest_codec_laws : CodecLaws QueryRequest_codec.
Proof. solve_codec_laws. Qed.
#[export] Instance QueryRequest_codec_exact : CodecExact QueryRequest_codec.
Proof. solve_codec_exact. Qed.
Record QueryResponse := mkQueryResponse {
  qrys_state_digest : Digest;
  qrys_durable_digest : Digest;
  qrys_instances : Z;
  qrys_staged : Z;
  qrys_recovery : RecoverySummary
}.
#[export] Instance eta_QueryResponse : Settable QueryResponse := fun r =>
  mkQueryResponse (qrys_state_digest r) (qrys_durable_digest r) (qrys_instances r)
  (qrys_staged r) (qrys_recovery r).
#[export] Instance QueryResponse_eq_dec : EqDecision QueryResponse.
Proof. solve_decision. Defined.
Definition QueryResponse_default : QueryResponse :=
  mkQueryResponse Digest_zero Digest_zero 0 0 RecoverySummary_default.
Definition QueryResponse_codec : Codec QueryResponse := c_object "QueryResponse" (c_iso
  (fun s =>
     (tt, qrys_state_digest s, qrys_durable_digest s, qrys_instances s, qrys_staged s,
     qrys_recovery s))
  (fun '(_, x_state_digest, x_durable_digest, x_instances, x_staged, x_recovery) =>
     mkQueryResponse x_state_digest x_durable_digest x_instances x_staged x_recovery)
  (fields
     & field "state_digest" c_digest
     & field "durable_digest" c_digest
     & field "instances" c_u64
     & field "staged" c_u64
     & field "recovery" RecoverySummary_codec)).
#[export] Typeclasses Opaque QueryResponse_codec.
#[export] Instance QueryResponse_codec_laws : CodecLaws QueryResponse_codec.
Proof. solve_codec_laws. Qed.
#[export] Instance QueryResponse_codec_exact : CodecExact QueryResponse_codec.
Proof. solve_codec_exact. Qed.
Record ExplainRequest := mkExplainRequest {
  expq_has_instance : bool;
  expq_instance : InstanceId
}.
#[export] Instance eta_ExplainRequest : Settable ExplainRequest := fun r =>
  mkExplainRequest (expq_has_instance r) (expq_instance r).
#[export] Instance ExplainRequest_eq_dec : EqDecision ExplainRequest.
Proof. solve_decision. Defined.
Definition ExplainRequest_default : ExplainRequest :=
  mkExplainRequest false "".
Definition ExplainRequest_codec : Codec ExplainRequest := c_object "ExplainRequest" (c_iso
  (fun s =>
     (tt, expq_has_instance s, expq_instance s))
  (fun '(_, x_has_instance, x_instance) =>
     mkExplainRequest x_has_instance x_instance)
  (fields
     & field "has_instance" c_bool
     & field "instance" c_id)).
#[export] Typeclasses Opaque ExplainRequest_codec.
#[export] Instance ExplainRequest_codec_laws : CodecLaws ExplainRequest_codec.
Proof. solve_codec_laws. Qed.
#[export] Instance ExplainRequest_codec_exact : CodecExact ExplainRequest_codec.
Proof. solve_codec_exact. Qed.
Record ExplainResponse := mkExplainResponse {
  exps_explanations : list Explanation
}.
#[export] Instance eta_ExplainResponse : Settable ExplainResponse := fun r =>
  mkExplainResponse (exps_explanations r).
#[export] Instance ExplainResponse_eq_dec : EqDecision ExplainResponse.
Proof. solve_decision. Defined.
Definition ExplainResponse_default : ExplainResponse :=
  mkExplainResponse [].
Definition ExplainResponse_codec : Codec ExplainResponse := c_object "ExplainResponse" (c_iso
  (fun s =>
     (tt, exps_explanations s))
  (fun '(_, x_explanations) =>
     mkExplainResponse x_explanations)
  (fields
     & field "explanations" (c_vector Explanation_codec))).
#[export] Typeclasses Opaque ExplainResponse_codec.
#[export] Instance ExplainResponse_codec_laws : CodecLaws ExplainResponse_codec.
Proof. solve_codec_laws. Qed.
#[export] Instance ExplainResponse_codec_exact : CodecExact ExplainResponse_codec.
Proof. solve_codec_exact. Qed.
Record ExportRequest := mkExportRequest {
  exoq_pretty : bool
}.
#[export] Instance eta_ExportRequest : Settable ExportRequest := fun r =>
  mkExportRequest (exoq_pretty r).
#[export] Instance ExportRequest_eq_dec : EqDecision ExportRequest.
Proof. solve_decision. Defined.
Definition ExportRequest_default : ExportRequest :=
  mkExportRequest true.
Definition ExportRequest_codec : Codec ExportRequest := c_object "ExportRequest" (c_iso
  (fun s =>
     (tt, exoq_pretty s))
  (fun '(_, x_pretty) =>
     mkExportRequest x_pretty)
  (fields
     & field "pretty" c_bool)).
#[export] Typeclasses Opaque ExportRequest_codec.
#[export] Instance ExportRequest_codec_laws : CodecLaws ExportRequest_codec.
Proof. solve_codec_laws. Qed.
#[export] Instance ExportRequest_codec_exact : CodecExact ExportRequest_codec.
Proof. solve_codec_exact. Qed.
Record ExportResponse := mkExportResponse {
  exos_document : string
}.
#[export] Instance eta_ExportResponse : Settable ExportResponse := fun r =>
  mkExportResponse (exos_document r).
#[export] Instance ExportResponse_eq_dec : EqDecision ExportResponse.
Proof. solve_decision. Defined.
Definition ExportResponse_default : ExportResponse :=
  mkExportResponse "".
Definition ExportResponse_codec : Codec ExportResponse := c_object "ExportResponse" (c_iso
  (fun s =>
     (tt, exos_document s))
  (fun '(_, x_document) =>
     mkExportResponse x_document)
  (fields
     & field "document" c_string)).
#[export] Typeclasses Opaque ExportResponse_codec.
#[export] Instance ExportResponse_codec_laws : CodecLaws ExportResponse_codec.
Proof. solve_codec_laws. Qed.
#[export] Instance ExportResponse_codec_exact : CodecExact ExportResponse_codec.
Proof. solve_codec_exact. Qed.
Record ShutdownRequest := mkShutdownRequest {
  shq_reserved : Z
}.
#[export] Instance eta_ShutdownRequest : Settable ShutdownRequest := fun r =>
  mkShutdownRequest (shq_reserved r).
#[export] Instance ShutdownRequest_eq_dec : EqDecision ShutdownRequest.
Proof. solve_decision. Defined.
Definition ShutdownRequest_default : ShutdownRequest :=
  mkShutdownRequest 0.
Definition ShutdownRequest_codec : Codec ShutdownRequest := c_object "ShutdownRequest" (c_iso
  (fun s =>
     (tt, shq_reserved s))
  (fun '(_, x_reserved) =>
     mkShutdownRequest x_reserved)
  (fields
     & field "reserved" c_u32)).
#[export] Typeclasses Opaque ShutdownRequest_codec.
#[export] Instance ShutdownRequest_codec_laws : CodecLaws ShutdownRequest_codec.
Proof. solve_codec_laws. Qed.
#[export] Instance ShutdownRequest_codec_exact : CodecExact ShutdownRequest_codec.
Proof. solve_codec_exact. Qed.
Record ShutdownResponse := mkShutdownResponse {
  shs_instances : Z;
  shs_state_digest : Digest
}.
#[export] Instance eta_ShutdownResponse : Settable ShutdownResponse := fun r =>
  mkShutdownResponse (shs_instances r) (shs_state_digest r).
#[export] Instance ShutdownResponse_eq_dec : EqDecision ShutdownResponse.
Proof. solve_decision. Defined.
Definition ShutdownResponse_default : ShutdownResponse :=
  mkShutdownResponse 0 Digest_zero.
Definition ShutdownResponse_codec : Codec ShutdownResponse := c_object "ShutdownResponse" (c_iso
  (fun s =>
     (tt, shs_instances s, shs_state_digest s))
  (fun '(_, x_instances, x_state_digest) =>
     mkShutdownResponse x_instances x_state_digest)
  (fields
     & field "instances" c_u64
     & field "state_digest" c_digest)).
#[export] Typeclasses Opaque ShutdownResponse_codec.
#[export] Instance ShutdownResponse_codec_laws : CodecLaws ShutdownResponse_codec.
Proof. solve_codec_laws. Qed.
#[export] Instance ShutdownResponse_codec_exact : CodecExact ShutdownResponse_codec.
Proof. solve_codec_exact. Qed.

(** ** Wire frames *)
Definition kProtocolMagic : Z := 0x46555044.
Definition kProtocolVersion : Z := 1.
Definition kProtocolHeaderBytes : Z := 24.
Definition kProtocolTrailerBytes : Z := 16.
Definition kOpCodeCount : Z := zlen (@enum_rows OpCode _).

Record Frame := mkFrame {
  fr_op : OpCode;
  fr_flags : Z;
  fr_request_id : Z;
  fr_payload : list Byte
}.
#[export] Instance eta_Frame : Settable Frame := fun f =>
  mkFrame (fr_op f) (fr_flags f) (fr_request_id f) (fr_payload f).
Definition Frame_default : Frame := mkFrame OpCode.Ping 0 0 [].

(** [Frame::status] and [set_status]: a low byte above the last status is no
    enumerator. *)
Definition frame_response_status (f : Frame) : option ResponseStatus :=
  enum_of_ordinal (Z.land (fr_flags f) 0xFF).
Definition set_response_status (f : Frame) (value : ResponseStatus) : Frame :=
  f <| fr_flags := Z.lor (Z.land (fr_flags f) (Z.lxor u32_max 0xFF)) (enum_ordinal value) |>.

(** Header and payload, what the trailer protects. *)
Definition frame_body (f : Frame) : list Byte :=
  put_u32 kProtocolMagic ++ put_u16 kProtocolVersion ++ put_u16 (enum_ordinal (fr_op f)) ++
  put_u32 (fr_flags f) ++ put_u64 (fr_request_id f) ++ put_u32 (zlen (fr_payload f) mod 2 ^ 32) ++
  fr_payload f.

(** [encode_frame] *)
Definition encode_frame (f : Frame) (max_frame_bytes : Z) : Result (list Byte) :=
  let total := kProtocolHeaderBytes + zlen (fr_payload f) + kProtocolTrailerBytes in
  if max_frame_bytes <? total then
    Failed (refuse ReasonCode.FrameOversized "frame exceeds the configured bound")
  else
    let out := frame_body f in
    Value (out ++ take (Z.to_nat kProtocolTrailerBytes) (sha256 out)).

Record DecodedFrame := mkDecodedFrame {
  df_complete : bool;
  df_header_ready : bool;
  df_consumed : Z;
  df_expected : Z;
  df_frame : Frame
}.

(** [decode_frame] *)
Definition decode_frame (buffer : list Byte) (max_frame_bytes : Z) : Result DecodedFrame :=
  if zlen buffer <? kProtocolHeaderBytes then
    Value (mkDecodedFrame false false 0 kProtocolHeaderBytes Frame_default)
  else if negb (read_u32 buffer =? kProtocolMagic) then
    Failed (refuse ReasonCode.ProtocolViolation "frame magic mismatch")
  else if negb (read_u16 (drop 4 buffer) =? kProtocolVersion) then
    Failed (refuse ReasonCode.UnsupportedVersion "unsupported protocol version")
  else
  let raw_op := read_u16 (drop 6 buffer) in
  match (if kOpCodeCount <=? raw_op then None else @enum_of_ordinal OpCode _ raw_op) with
  | None => Failed (refuse ReasonCode.UnknownOperation "unknown operation code")
  | Some op =>
    let flags := read_u32 (drop 8 buffer) in
    let request_id := read_u64 (drop 12 buffer) in
    let length := read_u32 (drop 20 buffer) in
    if max_frame_bytes <? length then
      Failed (refuse ReasonCode.FrameOversized "declared payload exceeds the bound")
    else
    let total := kProtocolHeaderBytes + length + kProtocolTrailerBytes in
    if max_frame_bytes <? total then
      Failed (refuse ReasonCode.FrameOversized "frame exceeds the configured bound")
    else if zlen buffer <? total then
      Value (mkDecodedFrame false true 0 total (mkFrame op flags request_id []))
    else
    let protected := take (Z.to_nat (kProtocolHeaderBytes + length)) buffer in
    let trailer := take (Z.to_nat kProtocolTrailerBytes)
                     (drop (Z.to_nat (kProtocolHeaderBytes + length)) buffer) in
    if negb (bool_decide (take (Z.to_nat kProtocolTrailerBytes) (sha256 protected) = trailer)) then
      Failed (refuse ReasonCode.FrameTruncated "frame digest mismatch")
    else
      Value (mkDecodedFrame true true total total
               (mkFrame op flags request_id
                  (take (Z.to_nat length) (drop (Z.to_nat kProtocolHeaderBytes) buffer))))
  end.

(** ** What a decoder may rely on *)
#[local] Opaque sha256.

Definition wf_frame (f : Frame) : Prop :=
  in_width u32_max (fr_flags f) /\ in_width u64_max (fr_request_id f) /\
  zlen (fr_payload f) <= u32_max.

(** The header, whatever follows: its length field need not be the payload's. *)
Definition wire_header (op : OpCode) (flags request_id length : Z) : list Byte :=
  put_u32 kProtocolMagic ++ put_u16 kProtocolVersion ++ put_u16 (enum_ordinal op) ++
  put_u32 flags ++ put_u64 request_id ++ put_u32 length.

Lemma wire_header_length (op : OpCode) flags request_id n :
  List.length (wire_header op flags request_id n) = 24%nat.
Proof. unfold wire_header, put_u32, put_u16, put_u64. rewrite !length_app, !put_le_length. done. Qed.

Lemma op_width (op : OpCode) : in_width u16_max (enum_ordinal op : Z).
Proof. destruct op; vm_compute; split; congruence. Qed.

Lemma op_of_ordinal (op : OpCode) :
  (if kOpCodeCount <=? enum_ordinal op then None else @enum_of_ordinal OpCode _ (enum_ordinal op))
    = Some op.
Proof. by destruct op. Qed.

Lemma wire_header_fields op flags request_id n rest :
  in_width u32_max flags -> in_width u64_max request_id -> in_width u32_max n ->
  let buffer := wire_header op flags request_id n ++ rest in
  read_u32 buffer = kProtocolMagic /\ read_u16 (drop 4 buffer) = kProtocolVersion /\
  read_u16 (drop 6 buffer) = enum_ordinal op /\ read_u32 (drop 8 buffer) = flags /\
  read_u64 (drop 12 buffer) = request_id /\ read_u32 (drop 20 buffer) = n /\
  drop 24 buffer = rest.
Proof.
  intros Hf Hr Hn buffer. unfold buffer, wire_header.
  assert (Hp : forall n z, List.length (put_le n 0 z) = n) by (intros; apply put_le_length).
  rewrite <-!app_assoc. unfold put_u32, put_u16, put_u64. split_and!.
  - apply (read_u32_put kProtocolMagic). unfold in_width, kProtocolMagic, u32_max. lia.
  - rewrite (drop_app_length' _ _ 4) by (by rewrite Hp). apply read_u16_put.
    unfold in_width, kProtocolVersion, u16_max. lia.
  - rewrite app_assoc, (drop_app_length' _ _ 6) by (by rewrite length_app, !Hp).
    apply read_u16_put, op_width.
  - rewrite 2!app_assoc, (drop_app_length' _ _ 8) by (by rewrite !length_app, !Hp).
    by apply read_u32_put.
  - rewrite 3!app_assoc, (drop_app_length' _ _ 12) by (by rewrite !length_app, !Hp).
    by apply read_u64_put.
  - rewrite 4!app_assoc, (drop_app_length' _ _ 20) by (by rewrite !length_app, !Hp).
    by apply read_u32_put.
  - rewrite 5!app_assoc, (drop_app_length' _ _ 24) by (by rewrite !length_app, !Hp). done.
Qed.

Lemma frame_body_split f :
  zlen (fr_payload f) <= u32_max ->
  frame_body f = wire_header (fr_op f) (fr_flags f) (fr_request_id f) (zlen (fr_payload f)) ++
    fr_payload f.
Proof.
  intros Hl. unfold frame_body, wire_header. pose proof (zlen_nonneg (fr_payload f)).
  rewrite Z.mod_small by (unfold u32_max in Hl; lia). by rewrite <-!app_assoc.
Qed.

(** [decode_frame] on a buffer that starts with a header, up to the whole frame. *)
Lemma decode_header op flags request_id n rest max :
  in_width u32_max flags -> in_width u64_max request_id -> in_width u32_max n -> 40 + n <= max ->
  decode_frame (wire_header op flags request_id n ++ rest) max =
    if zlen rest <? n + 16 then
      Value (mkDecodedFrame false true 0 (40 + n) (mkFrame op flags request_id []))
    else if bool_decide (take 16 (sha256 (wire_header op flags request_id n ++ take (Z.to_nat n) rest))
                         = take 16 (drop (Z.to_nat n) rest)) then
      Value (mkDecodedFrame true true (40 + n) (40 + n)
               (mkFrame op flags request_id (take (Z.to_nat n) rest)))
    else Failed (refuse ReasonCode.FrameTruncated "frame digest mismatch").
Proof.
  intros Hf Hr Hn Hmax. destruct (wire_header_fields op flags request_id n rest Hf Hr Hn)
    as (F1 & F2 & F3 & F4 & F5 & F6 & F7). cbn zeta in *.
  set (buffer := wire_header op flags request_id n ++ rest) in *.
  assert (Hlen : zlen buffer = 24 + zlen rest).
  { unfold buffer. rewrite zlen_app. unfold zlen at 1. rewrite wire_header_length. lia. }
  pose proof (zlen_nonneg rest) as Hrest. unfold in_width in Hn. unfold decode_frame.
  unfold kProtocolHeaderBytes, kProtocolTrailerBytes. rewrite Hlen.
  destruct (Z.ltb_spec (24 + zlen rest) 24); [lia|].
  rewrite F1, Z.eqb_refl, F2, Z.eqb_refl, F3. cbn [negb]. rewrite op_of_ordinal, F4, F5, F6.
  destruct (Z.ltb_spec max n); [lia|]. destruct (Z.ltb_spec max (24 + n + 16)); [lia|].
  destruct (Z.ltb_spec (24 + zlen rest) (24 + n + 16)), (Z.ltb_spec (zlen rest) (n + 16)); try lia.
  { do 2 f_equal. lia. }
  replace (Z.to_nat (24 + n)) with (24 + Z.to_nat n)%nat by lia.
  rewrite <-drop_drop. change (Z.to_nat 16) with 16%nat. change (Z.to_nat 24) with 24%nat. rewrite F7.
  assert (Ht : take (24 + Z.to_nat n) buffer = wire_header op flags request_id n ++ take (Z.to_nat n) rest).
  { unfold buffer. rewrite take_app_ge by (rewrite wire_header_length; lia).
    rewrite wire_header_length. do 2 f_equal. lia. }
  rewrite Ht. destruct (bool_decide _); cbn [negb]; [|done]. do 2 f_equal; lia.
Qed.

Lemma sha_trailer_length data : List.length (take 16 (sha256 data)) = 16%nat.
Proof. rewrite length_take, (proj1 (sha256_wf data)). done. Qed.

Lemma encode_frame_Value f max bytes :
  encode_frame f max = Value bytes ->
  bytes = frame_body f ++ take 16 (sha256 (frame_body f)) /\ 40 + zlen (fr_payload f) <= max.
Proof.
  unfold encode_frame, kProtocolHeaderBytes, kProtocolTrailerBytes.
  destruct (Z.ltb_spec max (24 + zlen (fr_payload f) + 16)); [done|]. intros [= <-].
  split; [done|lia].
Qed.

(** A buffer a complete frame is decoded from starts with its header. *)
Lemma decode_complete_header buffer max d :
  Forall is_byte buffer -> decode_frame buffer max = Value d -> df_complete d = true ->
  exists op flags request_id n rest, buffer = wire_header op flags request_id n ++ rest /\
    in_width u32_max flags /\ in_width u64_max request_id /\ in_width u32_max n /\ 40 + n <= max.
Proof.
  intros Hb. unfold decode_frame, kProtocolHeaderBytes, kProtocolTrailerBytes.
  destruct (Z.ltb_spec (zlen buffer) 24) as [|Hlen]; [by intros [= <-]|].
  destruct (Z.eqb_spec (read_u32 buffer) kProtocolMagic) as [Hm|]; [|done].
  destruct (Z.eqb_spec (read_u16 (drop 4 buffer)) kProtocolVersion) as [Hv|]; [|done]. cbn [negb].
  destruct (kOpCodeCount <=? read_u16 (drop 6 buffer)); [done|].
  destruct (enum_of_ordinal (read_u16 (drop 6 buffer))) as [op|] eqn:Hop; [|done].
  apply enum_ordinal_of in Hop.
  destruct (Z.ltb_spec max (read_u32 (drop 20 buffer))); [done|].
  destruct (Z.ltb_spec max (24 + read_u32 (drop 20 buffer) + 16)) as [|Hmax]; [done|]. intros _ _.
  assert (Hl : (24 <= List.length buffer)%nat) by (unfold zlen in Hlen; lia).
  assert (Hsp : forall n k, (n + k <= 24)%nat -> let data := drop n buffer in
    data = put_le k 0 (read_le k 0 0 data) ++ drop (n + k) buffer /\
    0 <= read_le k 0 0 data < 2 ^ (8 * Z.of_nat k)).
  { intros n k Hnk. rewrite <-drop_drop. apply read_le_split; [by apply Forall_drop|].
    rewrite length_drop. lia. }
  destruct (Hsp 0%nat 4%nat ltac:(lia)) as [E1 _], (Hsp 4%nat 2%nat ltac:(lia)) as [E2 _],
    (Hsp 6%nat 2%nat ltac:(lia)) as [E3 _], (Hsp 8%nat 4%nat ltac:(lia)) as [E4 R4],
    (Hsp 12%nat 8%nat ltac:(lia)) as [E5 R5], (Hsp 20%nat 4%nat ltac:(lia)) as [E6 R6].
  cbn [Nat.add] in *. rewrite drop_0 in E1. fold (read_u32 buffer) in E1. fold (read_u16 (drop 4 buffer)) in E2.
  fold (read_u16 (drop 6 buffer)) in E3. fold (read_u32 (drop 8 buffer)) in E4, R4.
  fold (read_u64 (drop 12 buffer)) in E5, R5. fold (read_u32 (drop 20 buffer)) in E6, R6.
  exists op, (read_u32 (drop 8 buffer)), (read_u64 (drop 12 buffer)), (read_u32 (drop 20 buffer)),
    (drop 24 buffer).
  unfold in_width, u32_max, u64_max. split_and!; try lia.
  unfold wire_header. rewrite <-!app_assoc. unfold put_u32, put_u16, put_u64.
  rewrite Hop, <-Hm, <-Hv. by rewrite <-E6, <-E5, <-E4, <-E3, <-E2.
Qed.

Lemma decode_encoded_frame f max bytes rest :
  wf_frame f -> encode_frame f max = Value bytes ->
  decode_frame (bytes ++ rest) max = Value (mkDecodedFrame true true (zlen bytes) (zlen bytes) f).
Proof.
  intros (Hf & Hr & Hl) He.
  apply encode_frame_Value in He as [-> Hmax]. pose proof (zlen_nonneg (fr_payload f)) as Hp.
  rewrite frame_body_split by done. set (header := wire_header _ _ _ _).
  rewrite <-!app_assoc. unfold header. rewrite decode_header by first [assumption | unfold in_width; lia].
  fold header. rewrite !zlen_app.
  assert (Ht : zlen (take 16 (sha256 (header ++ fr_payload f))) = 16)
    by (unfold zlen; by rewrite sha_trailer_length).
  rewrite Ht. pose proof (zlen_nonneg rest).
  destruct (Z.ltb_spec (zlen (fr_payload f) + (16 + zlen rest)) (zlen (fr_payload f) + 16)); [lia|].
  rewrite !to_nat_zlen, !take_app_length, drop_app_length.
  rewrite bool_decide_true by (by rewrite (take_app_length' _ _ 16) by by rewrite sha_trailer_length).
  assert (Hh : zlen header = 24) by (unfold zlen, header; by rewrite wire_header_length).
  rewrite Hh. do 2 f_equal; [lia|lia|by destruct f].
Qed.

Lemma encode_decoded_frame buffer max d :
  Forall is_byte buffer -> max <= u32_max -> decode_frame buffer max = Value d ->
  df_complete d = true ->
  encode_frame (df_frame d) max = Value (take (Z.to_nat (df_consumed d)) buffer).
Proof.
  intros Hb Hmax Hd Hc.
  destruct (decode_complete_header buffer max d Hb Hd Hc)
    as (op & flags & request_id & n & tl & -> & Hf' & Hr' & Hn' & Hm').
  rewrite decode_header in Hd by done. unfold in_width in Hn'.
  destruct (Z.ltb_spec (zlen tl) (n + 16)) as [|Htl]; [by injection Hd as <-|].
  destruct (bool_decide_reflect (take 16 (sha256 (wire_header op flags request_id n ++
    take (Z.to_nat n) tl)) = take 16 (drop (Z.to_nat n) tl))) as [Hsha|]; [|done].
  injection Hd as <-. cbn [df_frame df_consumed].
  assert (Hpl : zlen (take (Z.to_nat n) tl) = n) by (unfold zlen in *; rewrite length_take; lia).
  unfold encode_frame, kProtocolHeaderBytes, kProtocolTrailerBytes. cbn [fr_payload]. rewrite Hpl.
  destruct (Z.ltb_spec max (24 + n + 16)); [lia|]. f_equal.
  rewrite frame_body_split by (cbn [fr_payload]; unfold u32_max in *; lia).
  cbn [fr_op fr_flags fr_request_id fr_payload]. rewrite Hpl.
  change (Z.to_nat 16) with 16%nat. rewrite Hsha.
  replace (Z.to_nat (40 + n)) with (24 + (Z.to_nat n + 16))%nat by lia.
  rewrite take_app_ge by (rewrite wire_header_length; lia). rewrite wire_header_length, <-app_assoc.
  f_equal. replace (24 + (Z.to_nat n + 16) - 24)%nat with (Z.to_nat n + 16)%nat by lia.
  by rewrite take_take_drop.
Qed.

(** Wire frames round-trip and are canonical: a frame that encodes within the bound
    is decoded from the front of any buffer that starts with its bytes, whole, with
    exactly those bytes consumed; and whatever buffer a complete frame is decoded
    from, the bytes consumed are the encoding of that frame. *)
Theorem wire_frame_roundtrip f max bytes rest :
  wf_frame f -> encode_frame f max = Value bytes ->
  decode_frame (bytes ++ rest) max =
    Value (mkDecodedFrame true true (zlen bytes) (zlen bytes) f) /\
  forall buffer d, Forall is_byte buffer -> max <= u32_max -> decode_frame buffer max = Value d ->
    df_complete d = true ->
    encode_frame (df_frame d) max = Value (take (Z.to_nat (df_consumed d)) buffer).
Proof.
  intros Hf He. split; [by apply decode_encoded_frame|].
  intros buffer d. apply encode_decoded_frame.
Qed.

(** A reader driven by [decode_frame] never fails on a frame still arriving: every
    proper prefix of an encoded frame is answered without a refusal, as incomplete,
    and with an expected size above what is there and at most the frame's, equal to it
    as soon as the header is complete. *)
Theorem partial_frame_asks_for_more f max bytes part :
  wf_frame f -> encode_frame f max = Value bytes -> part `prefix_of` bytes -> part <> bytes ->
  exists d, decode_frame part max = Value d /\ df_complete d = false /\
    zlen part < df_expected d <= zlen bytes /\
    (df_header_ready d = true <-> 24 <= zlen part) /\
    (24 <= zlen part -> df_expected d = zlen bytes).
Proof.
  intros (Hf & Hr & Hl) He [rest Hrest] Hne. apply encode_frame_Value in He as [Hb Hmax].
  pose proof (zlen_nonneg (fr_payload f)) as Hp. rewrite frame_body_split in Hb by done.
  set (header := wire_header _ _ _ _) in Hb.
  assert (Hh : zlen header = 24) by (unfold zlen, header; by rewrite wire_header_length).
  assert (Hlen : zlen bytes = 40 + zlen (fr_payload f)).
  { rewrite Hb, !zlen_app, Hh. unfold zlen at 2. rewrite sha_trailer_length. lia. }
  assert (Hpart : zlen part < zlen bytes).
  { rewrite Hrest, zlen_app. destruct rest; [|rewrite zlen_cons; pose proof (zlen_nonneg rest); lia].
    rewrite app_nil_r in Hrest. by destruct Hne. }
  destruct (Z.ltb_spec (zlen part) 24) as [Hs|Hs].
  - exists (mkDecodedFrame false false 0 24 Frame_default). unfold decode_frame, kProtocolHeaderBytes.
    destruct (Z.ltb_spec (zlen part) 24); [|lia]. cbn. split_and!; try done; lia.
  - assert (exists tl, part = header ++ tl) as [tl Hpt].
    { exists (drop 24 part). rewrite <-(take_drop 24 part) at 1. f_equal.
      assert (Hhd : take 24 bytes = take 24 (part ++ rest)) by by rewrite Hrest.
      rewrite Hb, <-app_assoc, (take_app_length' header) in Hhd by (unfold zlen in Hh; lia).
      rewrite Hhd, take_app_le by (unfold zlen in Hs; lia). done. }
    rewrite Hpt in Hpart, Hs |- *. rewrite zlen_app, Hh in *. unfold header.
    rewrite decode_header by first [assumption | unfold in_width; lia].
    destruct (Z.ltb_spec (zlen tl) (zlen (fr_payload f) + 16)); [|lia].
    pose proof (zlen_nonneg tl). eexists. split_and!; try done; cbn; try lia.

Qed.

Definition sample_frame : Frame := mkFrame OpCode.Query 2 7 [1; 2; 3].
Definition sample_bytes : list Byte :=
  match encode_frame sample_frame 64 with Value bytes => bytes | Failed _ => [] end.

Lemma sample_frame_wf : wf_frame sample_frame.
Proof. unfold wf_frame, in_width. cbn. unfold u32_max, u64_max, zlen. cbn. lia. Qed.
Lemma sample_frame_encodes : encode_frame sample_frame 64 = Value sample_bytes.
Proof. vm_compute. reflexivity. Qed.

Lemma wire_frame_roundtrip_witness :
  decode_frame (sample_bytes ++ [9; 9]) 64 =
    Value (mkDecodedFrame true true (zlen sample_bytes) (zlen sample_bytes) sample_frame) /\
  forall buffer d, Forall is_byte buffer -> 64 <= u32_max -> decode_frame buffer 64 = Value d ->
    df_complete d = true ->
    encode_frame (df_frame d) 64 = Value (take (Z.to_nat (df_consumed d)) buffer).
Proof. exact (wire_frame_roundtrip sample_frame 64 sample_bytes [9; 9] sample_frame_wf sample_frame_encodes). Defined.

Lemma partial_frame_asks_for_more_witness :
  exists d, decode_frame (take 30 sample_bytes) 64 = Value d /\ df_complete d = false /\
    zlen (take 30 sample_bytes) < df_expected d <= zlen sample_bytes /\
    (df_header_ready d = true <-> 24 <= zlen (take 30 sample_bytes)) /\
    (24 <= zlen (take 30 sample_bytes) -> df_expected d = zlen sample_bytes).
Proof.
  apply (partial_frame_asks_for_more sample_frame 64 sample_bytes (take 30 sample_bytes)
    sample_frame_wf sample_frame_encodes); [exists (drop 30 sample_bytes); by rewrite take_drop|].
  vm_compute. congruence.
Defined.
