(* ===== verification/Store.v ===== *)
(** * The durable store

    [src/persist/store.cpp] and [include/dpu/fabric/persist/store.hpp].  The file
    system is explicit: a world holds the files, the directories, whether another
    process holds the lock, and what the next operating-system calls will do.  A call
    works, or fails with an error text after letting some bytes through; a schedule of
    failures that never works again is a crash.  Bytes let through to a file stay there:
    without [so_fsync] the theorems speak of a process that stops, not of a machine that
    does.  An open journal is a handle with the
    bytes its stdio buffer still holds.  The POSIX branches are modelled. *)

From S2P Require Import Prelude Std Reason Types Version Resources Bounded Digest Json JsonArchive Archive Model.
From S2P Require Import Codec Authority Planner State Wire.
#[local] Open Scope Z_scope.

(** ** The operating system *)
Inductive Fault : Type :=
| Works
| Fails (written : nat) (error : string).

Record World := mkWorld {
  w_files : gmap string (list Byte);
  w_dirs : list string;
  w_locked : bool;
  w_faults : list Fault
}.
#[export] Instance eta_World : Settable World := fun w =>
  mkWorld (w_files w) (w_dirs w) (w_locked w) (w_faults w).

Definition IO (A : Type) : Type := World -> A * World.
#[export] Instance io_ret : MRet IO := fun _ x w => (x, w).
#[export] Instance io_bind : MBind IO := fun _ _ k e w => let '(x, w) := e w in k x w.
Definition io_then {A B} (e : IO A) (k : A -> IO B) : IO B := mbind k e.
Notation "'let*' x ':=' e 'in' k" := (io_then e (fun x => k))
  (at level 10, x name, e at level 200, k at level 200,
   format "'[v' 'let*'  x  ':='  e  'in' '/' k ']'") : fabric_scope.

(** What the next call does; past the schedule everything works. *)
Definition next_fault : IO Fault := fun w =>
  match w_faults w with
  | [] => (Works, w)
  | f :: faults => (f, w <| w_faults := faults |>)
  end.
Definition get_file (path : string) : IO (option (list Byte)) := fun w => (w_files w !! path, w).
Definition put_file (path : string) (data : list Byte) : IO unit := fun w =>
  (tt, w <| w_files := <[path := data]> (w_files w) |>).
Definition get_dirs : IO (list string) := fun w => (w_dirs w, w).
Definition make_dir (directory : string) : IO unit := fun w =>
  (tt, w <| w_dirs := directory :: w_dirs w |>).
Definition drop_file (path : string) : IO unit := fun w =>
  (tt, w <| w_files := delete path (w_files w) |>).

Definition io_failure (detail : string) : Status := refuse ReasonCode.StoreIoFailure detail.

(** [join]: [fs::path::operator/] with a relative name. *)
Fixpoint ends_with_slash (s : string) : bool :=
  match s with
  | EmptyString => false
  | String c EmptyString => bool_decide (c = "/"%char)
  | String _ s => ends_with_slash s
  end.
Definition join (directory name : string) : string :=
  if ends_with_slash directory then directory +:+ name else directory +:+ "/" +:+ name.

Definition ensure_directory (directory : string) : IO Status :=
  let* stat := next_fault in
  match stat with
  | Fails _ _ => mret (io_failure "cannot stat store directory")
  | Works =>
    let* dirs := get_dirs in
    if bool_decide (directory ∈ dirs) then mret Status_success
    else
      let* made := next_fault in
      match made with
      | Fails _ _ => mret (io_failure "cannot create store directory")
      | Works => make_dir directory ≫= fun _ => mret Status_success
      end
  end.

Definition file_exists (path : string) : IO bool :=
  let* stat := next_fault in
  match stat with
  | Fails _ _ => mret false
  | Works => let* file := get_file path in mret (bool_decide (is_Some file))
  end.

Definition file_size_of (path : string) : IO (Result Z) :=
  let* stat := next_fault in
  let* file := get_file path in
  match stat, file with
  | Works, Some data => mret (Value (zlen data))
  | _, _ => mret (Failed (refuse ReasonCode.StoreNotFound path))
  end.

Definition remove_file (path : string) : IO Status :=
  let* removed := next_fault in
  match removed with
  | Fails _ _ => mret (io_failure "remove failed")
  | Works => drop_file path ≫= fun _ => mret Status_success
  end.

Definition atomic_replace (from to : string) : IO Status :=
  let* renamed := next_fault in
  let* file := get_file from in
  match renamed, file with
  | Works, Some data =>
    put_file to data ≫= fun _ => drop_file from ≫= fun _ => mret Status_success
  | _, _ => mret (io_failure "atomic replace failed")
  end.

Definition truncate_file (path : string) (size : Z) : IO Status :=
  let* resized := next_fault in
  let* file := get_file path in
  match resized, file with
  | Works, Some data => put_file path (take (Z.to_nat size) data) ≫= fun _ => mret Status_success
  | _, _ => mret (io_failure "truncate failed")
  end.

(** *** Files opened by stdio *)
Inductive Mode : Set := ModeRead | ModeWrite | ModeAppend.
Record Handle := mkHandle { h_path : string; h_buffer : list Byte }.
#[export] Instance eta_Handle : Settable Handle := fun h => mkHandle (h_path h) (h_buffer h).

Definition open_refusal (path error : string) : Status :=
  io_failure ("cannot open " +:+ path +:+ ": " +:+ error).

(** [open_file]: ["wb"] empties the file, ["ab"] creates it when it is missing. *)
Definition open_file (path : string) (mode : Mode) : IO (Result Handle) :=
  let* opened := next_fault in
  let* file := get_file path in
  match opened with
  | Fails _ error => mret (Failed (open_refusal path error))
  | Works =>
    match mode, file with
    | ModeRead, None => mret (Failed (open_refusal path "No such file or directory"))
    | ModeRead, Some _ => mret (Value (mkHandle path []))
    | ModeWrite, _ => put_file path [] ≫= fun _ => mret (Value (mkHandle path []))
    | ModeAppend, None => put_file path [] ≫= fun _ => mret (Value (mkHandle path []))
    | ModeAppend, Some _ => mret (Value (mkHandle path []))
    end
  end.

(** Bytes that reach the file. *)
Definition write_through (path : string) (data : list Byte) : IO unit :=
  let* file := get_file path in put_file path (default [] file ++ data).

(** [std::fwrite] (whether everything was taken), [std::fflush], [fclose] and [fsync].  A failing write or flush lets
    a prefix of the buffer through; stdio keeps the rest of a failed flush. *)
Definition fwrite (h : Handle) (data : list Byte) : IO (Handle * bool) :=
  let* wrote := next_fault in
  match wrote with
  | Works => mret (h <| h_buffer := h_buffer h ++ data |>, true)
  | Fails n _ =>
    write_through (h_path h) (take n (h_buffer h ++ data)) ≫= fun _ =>
    mret (h <| h_buffer := [] |>, false)
  end.
Definition fflush (h : Handle) : IO (Handle * bool) :=
  let* flushed := next_fault in
  match flushed with
  | Works => write_through (h_path h) (h_buffer h) ≫= fun _ => mret (h <| h_buffer := [] |>, true)
  | Fails n _ =>
    write_through (h_path h) (take n (h_buffer h)) ≫= fun _ =>
    mret (h <| h_buffer := drop n (h_buffer h) |>, false)
  end.
Definition sync_file (h : Handle) : IO Status :=
  let* synced := next_fault in
  mret (match synced with Works => Status_success | Fails _ _ => io_failure "flush to device failed" end).
Definition close_file (h : Handle) : IO Status :=
  let* closed := next_fault in
  match closed with
  | Works => write_through (h_path h) (h_buffer h) ≫= fun _ => mret Status_success
  | Fails n _ =>
    write_through (h_path h) (take n (h_buffer h)) ≫= fun _ => mret (io_failure "close failed")
  end.

Definition read_whole_file (path : string) (max_bytes : Z) : IO (Result (list Byte)) :=
  let* sized := next_fault in
  let* file := get_file path in
  match sized, file with
  | Works, Some data =>
    if max_bytes <? zlen data then
      mret (Failed (refuse ReasonCode.StoreRecordOversized "file exceeds the configured bound"))
    else
      let* opened := open_file path ModeRead in
      match opened with
      | Failed status => mret (Failed status)
      | Value handle =>
        let* read := (if bool_decide (data = []) then mret Works else next_fault) in
        let* closed := close_file handle in
        match read with
        | Fails _ _ => mret (Failed (refuse ReasonCode.StoreTruncated "short read"))
        | Works => if negb (status_ok closed) then mret (Failed closed) else mret (Value data)
        end
      end
  | _, _ => mret (Failed (io_failure ("cannot size " +:+ path)))
  end.

(** [acquire_lock] and [release_lock]: opening the lock file, then [flock]. *)
Definition try_lock : IO bool := fun w =>
  if w_locked w then (false, w) else (true, w <| w_locked := true |>).
Definition acquire_lock (path : string) : IO Status :=
  let* opened := next_fault in
  match opened with
  | Fails _ _ => mret (io_failure "cannot open lock file")
  | Works =>
    let* taken := try_lock in
    mret (if taken : bool then Status_success
          else refuse ReasonCode.StoreAlreadyOpen "store is already open elsewhere")
  end.
Definition release_lock : IO unit := fun w => (tt, w <| w_locked := false |>).

(** ** The store *)
Definition kFormatVersion : Z := 1.
Definition kSemanticVersion : Z := 1.
Definition kSnapshotName : string := "fabric.snapshot".
Definition kSnapshotTempName : string := "fabric.snapshot.tmp".
Definition kJournalName : string := "fabric.journal".
Definition kLockName : string := "fabric.lock".

Record StoreOptions := mkStoreOptions {
  so_directory : string;
  so_store_id : StoreId;
  so_max_journal_bytes : Z;
  so_format_version : Z;
  so_semantic_version : Z;
  so_fsync : bool;
  so_max_record_bytes : Z;
  so_allow_mid_file_truncation : bool
}.
#[export] Instance eta_StoreOptions : Settable StoreOptions := fun r =>
  mkStoreOptions (so_directory r) (so_store_id r) (so_max_journal_bytes r) (so_format_version r)
  (so_semantic_version r) (so_fsync r) (so_max_record_bytes r) (so_allow_mid_file_truncation r).
#[export] Instance StoreOptions_eq_dec : EqDecision StoreOptions.
Proof. solve_decision. Defined.
Definition StoreOptions_default : StoreOptions :=
  mkStoreOptions "" "" (4 * 1024 * 1024) kFormatVersion kSemanticVersion true (1024 * 1024)
  false.
Record StoreRecovery := mkStoreRecovery {
  sr_classification : RecoveryClass;
  sr_found_snapshot : bool;
  sr_found_journal : bool;
  sr_snapshot_bytes : Z;
  sr_journal_bytes : Z;
  sr_journal_records : Z;
  sr_records_dropped : Z;
  sr_torn_bytes_dropped : Z;
  sr_snapshot_rewrites : Z;
  sr_snapshot_digest : Digest;
  sr_truncations : list TruncationRecord
}.
#[export] Instance eta_StoreRecovery : Settable StoreRecovery := fun r =>
  mkStoreRecovery (sr_classification r) (sr_found_snapshot r) (sr_found_journal r)
  (sr_snapshot_bytes r) (sr_journal_bytes r) (sr_journal_records r) (sr_records_dropped r)
  (sr_torn_bytes_dropped r) (sr_snapshot_rewrites r) (sr_snapshot_digest r) (sr_truncations r).
#[export] Instance StoreRecovery_eq_dec : EqDecision StoreRecovery.
Proof. solve_decision. Defined.
Definition StoreRecovery_default : StoreRecovery :=
  mkStoreRecovery RecoveryClass.EmptyStore false false 0 0 0 0 0 0 Digest_zero [].
Definition StoreRecovery_codec : Codec StoreRecovery := c_object "StoreRecovery" (c_iso
  (fun s =>
     (tt, sr_classification s, sr_found_snapshot s, sr_found_journal s, sr_snapshot_bytes s,
     sr_journal_bytes s, sr_journal_records s, sr_records_dropped s, sr_torn_bytes_dropped s,
     sr_snapshot_rewrites s, sr_snapshot_digest s, sr_truncations s))
  (fun '(_, x_classification, x_found_snapshot, x_found_journal, x_snapshot_bytes, x_journal_bytes,
     x_journal_records, x_records_dropped, x_torn_bytes_dropped, x_snapshot_rewrites,
     x_snapshot_digest, x_truncations) =>
     mkStoreRecovery x_classification x_found_snapshot x_found_journal x_snapshot_bytes
     x_journal_bytes x_journal_records x_records_dropped x_torn_bytes_dropped
     x_snapshot_rewrites x_snapshot_digest x_truncations)
  (fields
     & field "classification" (c_enum RecoveryClass)
     & field "found_snapshot" c_bool
     & field "found_journal" c_bool
     & field "snapshot_bytes" c_u64
     & field "journal_bytes" c_u64
     & field "journal_records" c_u64
     & field "records_dropped" c_u64
     & field "torn_bytes_dropped" c_u64
     & field "snapshot_rewrites" c_u64
     & field "snapshot_digest" c_digest
     & field "truncations" (c_vector TruncationRecord_codec))).
#[export] Typeclasses Opaque StoreRecovery_codec.
#[export] Instance StoreRecovery_codec_laws : CodecLaws StoreRecovery_codec.
Proof. solve_codec_laws. Qed.
#[export] Instance StoreRecovery_codec_exact : CodecExact StoreRecovery_codec.
Proof. solve_codec_exact. Qed.

(** [handle_] and [lock_] are the open journal and whether the lock is held. *)
Record Store := mkStore {
  st_options : StoreOptions;
  st_recovery : StoreRecovery;
  st_handle : option Handle;
  st_lock : bool;
  st_journal_bytes : Z;
  st_journal_records : Z;
  st_closed : bool
}.
#[export] Instance eta_Store : Settable Store := fun s =>
  mkStore (st_options s) (st_recovery s) (st_handle s) (st_lock s) (st_journal_bytes s)
    (st_journal_records s) (st_closed s).

Definition store_path (s : Store) (name : string) : string := join (so_directory (st_options s)) name.
Definition classify (c : RecoveryClass) (s : Store) : Store :=
  s <| st_recovery := (st_recovery s) <| sr_classification := c |> |>.

(** [Store::open] *)
Definition store_open (options : StoreOptions) : IO (Result Store) :=
  if bool_decide (so_directory options = "") then
    mret (Failed (refuse ReasonCode.MalformedInput "store directory is required"))
  else if (so_max_record_bytes options =? 0) || (so_max_journal_bytes options =? 0) then
    mret (Failed (refuse ReasonCode.ValueOutOfRange "store bounds must be positive"))
  else
  let* prepared := ensure_directory (so_directory options) in
  if negb (status_ok prepared) then mret (Failed prepared) else
  let path name := join (so_directory options) name in
  let* found_snapshot := file_exists (path kSnapshotName) in
  let* found_journal := file_exists (path kJournalName) in
  let* found_temp := file_exists (path kSnapshotTempName) in
  let* removed := (if found_temp then remove_file (path kSnapshotTempName) else mret Status_success) in
  if negb (status_ok removed) then mret (Failed removed) else
  let* locked := acquire_lock (path kLockName) in
  if negb (status_ok locked) then mret (Failed locked) else
  let* size := (if found_journal then file_size_of (path kJournalName) else mret (Value 0)) in
  mret (Value (mkStore options
    (StoreRecovery_default <| sr_found_snapshot := found_snapshot |>
       <| sr_found_journal := found_journal |>)
    None true (value_or size 0) 0 false)).

(** How a snapshot that is no complete record is classified. *)
Definition snapshot_refusal (code : ReasonCode) : RecoveryClass :=
  match code with
  | ReasonCode.StoreVersionIncompatible | ReasonCode.StoreSemanticsIncompatible =>
    RecoveryClass.RefusedVersion
  | ReasonCode.StoreTruncated => RecoveryClass.RefusedTruncated
  | ReasonCode.StoreIntegrityFailure | ReasonCode.StoreRecordOversized =>
    RecoveryClass.RefusedIntegrity
  | _ => RecoveryClass.RefusedCorrupt
  end.

(** The largest snapshot file that is read, a [size_t]. *)
Definition snapshot_bound (options : StoreOptions) : Z :=
  (so_max_record_bytes options + kFrameHeaderBytes + kFrameDigestBytes) mod 2 ^ 64.

(** The part of [Store::load] that reads the snapshot: the store, and the payload
    (empty without one) or the early return. *)
Definition load_snapshot (s : Store) : IO (Store * (Status + list Byte)) :=
  let path := store_path s kSnapshotName in
  let options := st_options s in
  let* found := file_exists path in
  if negb found then mret (s, inr []) else
  let* raw := read_whole_file path (snapshot_bound options) in
  match raw with
  | Failed status =>
    mret (classify (if bool_decide (status_code status = ReasonCode.StoreRecordOversized)
                    then RecoveryClass.RefusedIntegrity else RecoveryClass.RefusedCorrupt) s,
          inl status)
  | Value raw =>
    if bool_decide (raw = []) then mret (s, inr []) else
    let parsed := parse_frame raw 0 (so_format_version options) (so_semantic_version options)
                    (so_max_record_bytes options) in
    if negb (fp_complete parsed) then
      mret (classify (snapshot_refusal (status_code (fp_status parsed))) s, inl (fp_status parsed))
    else if negb (bool_decide (fp_kind parsed = RecordKind.Snapshot)) then
      mret (classify RecoveryClass.RefusedCorrupt s,
            inl (refuse ReasonCode.StoreCorrupt "snapshot file does not hold a snapshot record"))
    else if negb (fp_consumed parsed =? zlen raw) then
      mret (classify RecoveryClass.RefusedCorrupt s,
            inl (refuse ReasonCode.StoreCorrupt "trailing bytes after snapshot record"))
    else
      let payload := parsed_payload raw parsed in
      mret (classify RecoveryClass.CleanReopen
              (s <| st_recovery := (st_recovery s)
                      <| sr_snapshot_digest := sha256 payload |>
                      <| sr_snapshot_bytes := zlen raw |> |>),
            inr payload)
  end.

(** The loop over the journal: the records, and how it ended. *)
Inductive JournalEnd : Type :=
| JournalWhole
| JournalRefused (classification : RecoveryClass) (status : Status)
| JournalTorn (offset : Z).

Definition journal_refusal (code : ReasonCode) : RecoveryClass :=
  match code with
  | ReasonCode.StoreIntegrityFailure => RecoveryClass.RefusedIntegrity
  | ReasonCode.StoreVersionIncompatible | ReasonCode.StoreSemanticsIncompatible =>
    RecoveryClass.RefusedVersion
  | _ => RecoveryClass.RefusedCorrupt
  end.

(** Every complete record consumes at least one byte, so a unit of fuel per byte is
    enough. *)
Fixpoint read_journal (fuel : nat) (options : StoreOptions) (raw : list Byte) (offset : Z)
    (records : list (list Byte)) : list (list Byte) * JournalEnd :=
  match fuel with
  | O => (records, JournalWhole)
  | S fuel =>
    if offset <? zlen raw then
      let parsed := parse_frame raw offset (so_format_version options) (so_semantic_version options)
                      (so_max_record_bytes options) in
      if fp_complete parsed then
        if negb (bool_decide (fp_kind parsed = RecordKind.Event)) then
          (records, JournalRefused RecoveryClass.RefusedCorrupt
             (refuse ReasonCode.StoreCorrupt "journal holds a non-event record"))
        else
          read_journal fuel options raw (offset + fp_consumed parsed)
            (records ++ [parsed_payload raw parsed])
      else if fp_torn_tail parsed || (zlen raw <=? offset + kFrameHeaderBytes) then
        (records, JournalTorn offset)
      else
        (records, JournalRefused (journal_refusal (status_code (fp_status parsed)))
           (fp_status parsed))
    else (records, JournalWhole)
  end.

Definition torn_tail_record : TruncationRecord :=
  mkTruncationRecord "store.journal.tail" 1 0 1 ReasonCode.StoreTornTailRecovered.

(** The end of the journal part: the counters and the classification of a clean
    journal. *)
Definition finish_journal (s : Store) (records : list (list Byte)) : Store :=
  let s := s <| st_recovery := (st_recovery s) <| sr_journal_records := zlen records |> |> in
  if bool_decide (sr_classification (st_recovery s) = RecoveryClass.EmptyStore) &&
     negb (bool_decide (records = [])) then classify RecoveryClass.CleanReopen s
  else s.

(** The part of [Store::load] that reads the journal. *)
Definition load_journal (s : Store) : IO (Store * (Status + unit) * list (list Byte)) :=
  let path := store_path s kJournalName in
  let options := st_options s in
  let* found := file_exists path in
  if negb found then mret (s, inr tt, []) else
  let* raw := read_whole_file path (so_max_journal_bytes options) in
  match raw with
  | Failed status =>
    mret (if bool_decide (status_code status = ReasonCode.StoreRecordOversized)
          then classify RecoveryClass.RefusedIntegrity s else s, inl status, [])
  | Value raw =>
    let s := s <| st_recovery := (st_recovery s) <| sr_journal_bytes := zlen raw |> |> in
    match read_journal (length raw) options raw 0 [] with
    | (records, JournalRefused classification status) =>
      mret (classify classification s, inl status, records)
    | (records, JournalTorn offset) =>
      let s := classify RecoveryClass.TornTailTruncated
        (s <| st_recovery := (st_recovery s)
                <| sr_torn_bytes_dropped := zlen raw - offset |>
                <| sr_records_dropped := 1 |>
                <| sr_truncations := sr_truncations (st_recovery s) ++ [torn_tail_record] |> |>) in
      let* truncated := truncate_file path offset in
      if negb (status_ok truncated) then mret (s, inl truncated, records)
      else mret (finish_journal s records, inr tt, records)
    | (records, JournalWhole) => mret (finish_journal s records, inr tt, records)
    end
  end.

(** [Store::load]: the store, the recovery report or a refusal, and the two
    outputs. *)
Record Loaded := mkLoaded {
  ld_result : Result StoreRecovery;
  ld_snapshot : list Byte;
  ld_records : list (list Byte)
}.
Definition store_load (s : Store) : IO (Store * Loaded) :=
  let s := classify RecoveryClass.EmptyStore s in
  let* snapshot := load_snapshot s in
  match snapshot with
  | (s, inl status) => mret (s, mkLoaded (Failed status) [] [])
  | (s, inr payload) =>
    let* journal := load_journal s in
    match journal with
    | (s, inl status, records) => mret (s, mkLoaded (Failed status) payload records)
    | (s, inr _, records) => mret (s, mkLoaded (Value (st_recovery s)) payload records)
    end
  end.

(** [Store::ensure_appender] *)
Definition ensure_appender (s : Store) : IO (Store * Status) :=
  match st_handle s with
  | Some _ => mret (s, Status_success)
  | None =>
    let* opened := open_file (store_path s kJournalName) ModeAppend in
    match opened with
    | Failed status => mret (s, status)
    | Value handle => mret (s <| st_handle := Some handle |>, Status_success)
    end
  end.

(** [Store::append_event], on the encoded event. *)
Definition append_record (s : Store) (payload : list Byte) : IO (Store * Status) :=
  if st_closed s then mret (s, refuse ReasonCode.StoreClosed "store is closed") else
  let* opened := ensure_appender s in
  let '(s, opened) := opened in
  match st_handle s with
  | None => mret (s, opened)
  | Some handle =>
    let options := st_options s in
    let framed := frame RecordKind.Event (so_format_version options)
                    (so_semantic_version options) payload in
    if so_max_record_bytes options <? zlen framed then
      mret (s, refuse ReasonCode.StoreRecordOversized "event record exceeds bound")
    else if so_max_journal_bytes options <? st_journal_bytes s + zlen framed then
      mret (s, refuse ReasonCode.BoundExceeded "journal bound reached; rotation required")
    else
    let* wrote := fwrite handle framed in
    let s := s <| st_handle := Some wrote.1 |> in
    if negb wrote.2 then mret (s, io_failure "journal write failed") else
    let* flushed := fflush wrote.1 in
    let s := s <| st_handle := Some flushed.1 |> in
    if negb flushed.2 then mret (s, io_failure "journal flush failed") else
    let* synced := (if so_fsync options then sync_file flushed.1 else mret Status_success) in
    if negb (status_ok synced) then mret (s, synced) else
    mret (s <| st_journal_bytes := st_journal_bytes s + zlen framed |>
            <| st_journal_records := st_journal_records s + 1 |>, Status_success)
  end.
Definition append_event (s : Store) (event : FabricEvent) : IO (Store * Status) :=
  append_record s (encode_binary FabricEvent_codec event).

(** [Store::rotate] up to the durable snapshot: the first return. *)
Definition write_snapshot (s : Store) (framed : list Byte) : IO Status :=
  let temp := store_path s kSnapshotTempName in
  let* removed := remove_file temp in
  if negb (status_ok removed) then mret removed else
  let* writer := open_file temp ModeWrite in
  match writer with
  | Failed status => mret status
  | Value writer =>
    let* wrote := fwrite writer framed in
    if negb wrote.2 then
      close_file wrote.1 ≫= fun _ => mret (io_failure "snapshot write failed")
    else
    let* flushed := fflush wrote.1 in
    if negb flushed.2 then
      close_file flushed.1 ≫= fun _ => mret (io_failure "snapshot flush failed")
    else
    let* synced := sync_file flushed.1 in
    let* closed_ok := close_file flushed.1 in
    if negb (status_ok synced) then mret synced
    else if negb (status_ok closed_ok) then mret closed_ok
    else atomic_replace temp (store_path s kSnapshotName)
  end.

(** The rest: the journal is emptied. *)
Definition empty_journal (s : Store) : IO (Store * Status) :=
  let* closed := (match st_handle s with
            | Some handle => close_file handle
            | None => mret Status_success
            end) in
  if negb (status_ok closed) then mret (s, closed) else
  let s := s <| st_handle := None |> in
  let* fresh := open_file (store_path s kJournalName) ModeWrite in
  match fresh with
  | Failed status => mret (s, status)
  | Value fresh =>
    let* flushed := fflush fresh in
    if negb flushed.2 then
      close_file flushed.1 ≫= fun _ => mret (s, io_failure "journal truncate failed")
    else
    let* synced := (if so_fsync (st_options s) then sync_file flushed.1 else mret Status_success) in
    let* closed := close_file flushed.1 in
    if negb (status_ok synced) then mret (s, synced)
    else mret (s, closed)
  end.

Definition rotate (s : Store) (payload : list Byte) : IO (Store * Status) :=
  if st_closed s then mret (s, refuse ReasonCode.StoreClosed "store is closed") else
  let options := st_options s in
  let framed := frame RecordKind.Snapshot (so_format_version options)
                  (so_semantic_version options) payload in
  if so_max_record_bytes options <? zlen framed then
    mret (s, refuse ReasonCode.StoreRecordOversized "snapshot exceeds bound")
  else
  let* replaced := write_snapshot s framed in
  if negb (status_ok replaced) then mret (s, replaced) else
  let* emptied := empty_journal s in
  let '(s, status) := emptied in
  if negb (status_ok status) then mret (s, status) else
  mret (s <| st_journal_bytes := 0 |> <| st_journal_records := 0 |>
          <| st_recovery := (st_recovery s)
               <| sr_snapshot_rewrites := sr_snapshot_rewrites (st_recovery s) + 1 |>
               <| sr_snapshot_digest := sha256 payload |> |>, Status_success).

(** [Store::close] *)
Definition store_close (s : Store) : IO (Store * Status) :=
  if st_closed s then mret (s, Status_success) else
  let handle := st_handle s in
  let s := s <| st_handle := None |> <| st_closed := true |> <| st_lock := false |> in
  release_lock ≫= fun _ =>
  match handle with
  | None => mret (s, Status_success)
  | Some handle =>
    let* flushed := fflush handle in
    if negb flushed.2 then
      close_file flushed.1 ≫= fun _ => mret (s, io_failure "journal flush on close failed")
    else
    let* synced := (if so_fsync (st_options s) then sync_file flushed.1 else mret Status_success) in
    let* closed := close_file flushed.1 in
    mret (s, if negb (status_ok synced) then synced else closed)
  end.
