(* ===== verification/Journal.v ===== *)
(** * Reading the durable store

    What [Store.store_open] and [Store.store_load] find: the journal as a list of whole
    records with a possibly torn part behind them, and the recovery of a directory that
    holds such files, when every call works. *)

From S2P Require Import Prelude Std Reason Types Version Resources Bounded Digest Json JsonArchive Archive Model.
From S2P Require Import Codec Authority Planner State Wire Store.
#[local] Open Scope Z_scope.

(** ** Recovery after a crash *)

(** What the next process finds: nothing fails, and the lock died with the process. *)
Definition after_crash (w : World) : World := w <| w_faults := [] |> <| w_locked := false |>.

(** Opening the store and loading it. *)
Definition reopen (options : StoreOptions) : IO (option Loaded) :=
  let* opened := store_open options in
  match opened with
  | Failed _ => mret None
  | Value s => let* loaded := store_load s in mret (Some loaded.2)
  end.
Definition recovers (options : StoreOptions) (w : World) : option Loaded :=
  (reopen options (after_crash w)).1.

(** *** Names in a directory *)
Lemma string_app_inj_l a b c : a +:+ b = a +:+ c -> b = c.
Proof. induction a as [|x a IH]; [done|]. intros [= H]. by apply IH. Qed.

Lemma join_inj d a b : join d a = join d b -> a = b.
Proof.
  unfold join. destruct (ends_with_slash d); [apply string_app_inj_l|].
  intros H%string_app_inj_l. by injection H.
Qed.

(** *** Journals *)
Section journal.
Context (o : StoreOptions).

Definition event_frame (payload : list Byte) : list Byte :=
  frame RecordKind.Event (so_format_version o) (so_semantic_version o) payload.
Definition snapshot_frame (payload : list Byte) : list Byte :=
  frame RecordKind.Snapshot (so_format_version o) (so_semantic_version o) payload.
Definition journal (records : list (list Byte)) : list Byte := concat (event_frame <$> records).

(** A payload whose record is within the bounds. *)
Definition fits (payload : list Byte) : Prop :=
  zlen payload + 48 <= so_max_record_bytes o /\ zlen payload <= u32_max.

(** What a crash may leave after the last whole record. *)
Definition torn (part : list Byte) : Prop :=
  exists payload, fits payload /\ part `prefix_of` event_frame payload /\ part <> [] /\
    part <> event_frame payload.

Lemma journal_snoc records payload :
  journal (records ++ [payload]) = journal records ++ event_frame payload.
Proof. unfold journal. rewrite fmap_app, concat_app. cbn. by rewrite app_nil_r. Qed.

(** Whole records at the front are read, whatever follows. *)
Lemma read_journal_records records pre rest fuel acc :
  Forall fits records ->
  read_journal (length records + fuel) o (pre ++ journal records ++ rest) (zlen pre) acc =
  read_journal fuel o (pre ++ journal records ++ rest) (zlen pre + zlen (journal records)) (acc ++ records).
Proof.
  intros Hr. revert pre acc. induction Hr as [|payload records [Hm Hl] _ IH]; intros pre acc.
  - cbn [journal fmap list_fmap concat length Nat.add]. by rewrite zlen_nil, Z.add_0_r, app_nil_r.
  - assert (Hj : journal (payload :: records) = event_frame payload ++ journal records) by done.
    rewrite Hj, <-app_assoc. cbn [length Nat.add read_journal].
    pose proof (frame_length (so_format_version o) (so_semantic_version o) RecordKind.Event payload) as Hf.
    fold (event_frame payload) in Hf. pose proof (zlen_nonneg payload).
    pose proof (zlen_nonneg (journal records ++ rest)).
    destruct (Z.ltb_spec (zlen pre) (zlen (pre ++ event_frame payload ++ journal records ++ rest))) as [|Hlt];
      [|rewrite !(zlen_app pre), (zlen_app (event_frame payload)) in Hlt; lia].
    pose proof (parse_frame_whole (so_format_version o) (so_semantic_version o)
      (so_max_record_bytes o) pre RecordKind.Event payload (journal records ++ rest) ltac:(lia) Hl)
      as Hwhole. cbn zeta in Hwhole. fold (event_frame payload) in Hwhole.
    destruct Hwhole as (-> & -> & -> & ->). cbn [negb]. rewrite bool_decide_true by done. cbn [negb].
    rewrite <-zlen_app, (app_assoc pre), IH, !zlen_app, <-(app_assoc acc), Z.add_assoc. done.
Qed.

(** Every record takes bytes. *)
Lemma journal_length records : (length records <= length (journal records))%nat.
Proof.
  induction records as [|payload records IH]; [done|].
  change (journal (payload :: records)) with (event_frame payload ++ journal records).
  pose proof (frame_length (so_format_version o) (so_semantic_version o) RecordKind.Event payload) as Hf.
  fold (event_frame payload) in Hf. pose proof (zlen_nonneg payload).
  rewrite length_app. unfold zlen in *. cbn [length]. lia.
Qed.

Lemma read_journal_torn fuel raw offset acc :
  (0 < fuel)%nat -> offset < zlen raw ->
  (let r := parse_frame raw offset (so_format_version o) (so_semantic_version o) (so_max_record_bytes o) in
   fp_complete r = false /\ fp_torn_tail r = true) ->
  read_journal fuel o raw offset acc = (acc, JournalTorn offset).
Proof.
  intros Hf Ho [Hc Ht]. destruct fuel; [lia|]. cbn [read_journal].
  destruct (Z.ltb_spec offset (zlen raw)); [|lia]. by rewrite Hc, Ht.
Qed.

Lemma read_journal_spec records part :
  Forall fits records -> part = [] \/ torn part ->
  let raw := journal records ++ part in
  read_journal (length raw) o raw 0 [] =
    (records, if decide (part = []) then JournalWhole else JournalTorn (zlen (journal records))).
Proof.
  intros Hr Hpart raw. pose proof (journal_length records) as Hlen.
  assert (exists fuel, length raw = (length records + fuel)%nat /\ (length part <= fuel)%nat) as (fuel & -> & Hfuel).
  { exists (length raw - length records)%nat. unfold raw. rewrite length_app. lia. }
  pose proof (read_journal_records records [] part fuel [] Hr) as Hread.
  cbn [app] in Hread. rewrite zlen_nil in Hread. unfold raw. rewrite Hread, Z.add_0_l.
  case_decide as Hp.
  - subst part. rewrite app_nil_r. destruct fuel; cbn [read_journal]; by rewrite ?Z.ltb_irrefl.
  - destruct Hpart as [|(payload & [Hm Hl] & Hpre & _ & Hwhole)]; [done|].
    assert (0 < length part)%nat by (destruct part; cbn; [done|lia]).
    apply read_journal_torn; [lia|rewrite zlen_app; unfold zlen; lia|].
    by apply parse_frame_torn with (kind := RecordKind.Event) (payload := payload); [lia|..].
Qed.
End journal.

(** *** The loop ends *)
Lemma parse_frame_consumed data offset format semantic max :
  Forall is_byte data -> 0 <= offset ->
  let r := parse_frame data offset format semantic max in
  fp_complete r = true -> 48 <= fp_consumed r <= zlen data - offset.
Proof.
  intros Hd Ho r. unfold r, parse_frame, kFrameHeaderBytes, kFrameDigestBytes.
  destruct (_ <? _); [done|]. destruct (_ =? _); [done|].
  destruct (Z.ltb_spec (zlen data - offset) 16) as [|H16]; [done|]. cbn zeta.
  set (header := drop (Z.to_nat offset) data).
  assert (Hh : 0 <= read_u32 (drop 12 header)).
  { apply (read_le_split 4); [by do 2 apply Forall_drop|].
    unfold header. rewrite !length_drop. unfold zlen in H16. lia. }
  destruct (negb _); [done|]. destruct (negb _); [done|]. destruct (negb _); [done|].
  destruct (if _ <? _ then _ else _) as [kind|]; [|done]. destruct (_ <? _); [done|].
  destruct (Z.ltb_spec (zlen data - offset) (16 + read_u32 (drop 12 header) + 32)); [done|].
  destruct (negb _); [done|]. intros _. cbn [fp_consumed]. lia.
Qed.

(** Fuel for the rest of the file at 48 bytes a pass is enough. *)
Lemma read_journal_fuel o raw : Forall is_byte raw -> forall n m offset acc, 0 <= offset ->
  zlen raw - offset <= 48 * Z.of_nat n -> zlen raw - offset <= 48 * Z.of_nat m ->
  read_journal n o raw offset acc = read_journal m o raw offset acc.
Proof.
  intros Hd. induction n as [|n IH]; intros [|m] offset acc Ho Hn Hm; [done|..]; cbn [read_journal];
    (destruct (Z.ltb_spec offset (zlen raw)); [|done]); [lia|lia|].
  destruct (fp_complete _) eqn:Hc; [|done].
  pose proof (parse_frame_consumed raw offset (so_format_version o) (so_semantic_version o)
    (so_max_record_bytes o) Hd Ho Hc).
  destruct (negb _); [done|]. apply IH; lia.
Qed.

(** Every record that is read has taken 48 bytes. *)
Lemma read_journal_taken o raw : Forall is_byte raw -> forall fuel offset acc, 0 <= offset <= zlen raw ->
  48 * zlen (read_journal fuel o raw offset acc).1 <= 48 * zlen acc + (zlen raw - offset).
Proof.
  intros Hd. induction fuel as [|fuel IH]; intros offset acc Ho; cbn [read_journal]; [cbn; lia|].
  destruct (Z.ltb_spec offset (zlen raw)); [|cbn; lia]. cbn zeta.
  destruct (fp_complete _) eqn:Hc; [|destruct (_ || _); cbn; lia].
  pose proof (parse_frame_consumed raw offset (so_format_version o) (so_semantic_version o)
    (so_max_record_bytes o) Hd (proj1 Ho) Hc) as Hk. cbn zeta in Hk.
  destruct (negb _); [cbn; lia|]. etransitivity; [apply IH; lia|].
  rewrite zlen_app, zlen_cons, zlen_nil. lia.
Qed.

(** C31. Loading a journal ends: every record that is read consumes at least the 48 bytes
    of its frame, so the loop runs at most once per 48 bytes of the file, rounded up: any
    fuel that covers the file at 48 bytes a pass gives what unlimited fuel gives, and no
    more records are read than 48-byte frames fit into the file. *)
Theorem read_journal_terminates o raw fuel :
  Forall is_byte raw -> zlen raw <= 48 * Z.of_nat fuel ->
  read_journal fuel o raw 0 [] = read_journal (length raw) o raw 0 [] /\
  48 * zlen (read_journal fuel o raw 0 []).1 <= zlen raw.
Proof.
  intros Hd Hfuel. split.
  - apply read_journal_fuel; [done|lia|lia|unfold zlen; lia].
  - pose proof (read_journal_taken o raw Hd fuel 0 [] ltac:(pose proof (zlen_nonneg raw); lia)) as H.
    change (zlen []) with 0 in H. lia.
Qed.

Lemma read_journal_terminates_witness :
  let raw := event_frame StoreOptions_default [1] ++ [68; 80] in
  read_journal 2 StoreOptions_default raw 0 [] = read_journal (length raw) StoreOptions_default raw 0 [] /\
  48 * zlen (read_journal 2 StoreOptions_default raw 0 []).1 <= zlen raw.
Proof.
  apply read_journal_terminates.
  - apply (bool_decide_unpack _). vm_compute. exact I.
  - vm_compute. discriminate.
Defined.

(** *** Loading what is on the disk *)
Lemma io_then_eval {A B} (e : IO A) (k : A -> IO B) w x w' :
  e w = (x, w') -> io_then e k w = k x w'.
Proof. intros H. unfold io_then, mbind, io_bind. by rewrite H. Qed.

Ltac io_reduce :=
  cbn beta iota zeta; change (status_ok Status_success) with true; cbn [negb]; cbn beta iota zeta.

(** A world where every call works. *)
Abbreviation sound fs ds l := (mkWorld fs ds l []) (only parsing).

Lemma file_exists_works p fs ds l :
  file_exists p (sound fs ds l) = (bool_decide (is_Some (fs !! p)), sound fs ds l).
Proof. done. Qed.

Lemma close_unbuffered p fs ds l data :
  fs !! p = Some data -> close_file (mkHandle p []) (sound fs ds l) = (Status_success, sound fs ds l).
Proof.
  intros Hp. unfold close_file. erewrite io_then_eval by done.
  unfold mbind, io_bind, write_through. erewrite io_then_eval by done. cbn [w_files].
  cbn [h_path h_buffer]. rewrite Hp. cbn. by rewrite app_nil_r, insert_id.
Qed.

Lemma read_whole_file_works p max fs ds l data :
  fs !! p = Some data -> zlen data <= max ->
  read_whole_file p max (sound fs ds l) = (Value data, sound fs ds l).
Proof.
  intros Hp Hmax. unfold read_whole_file. erewrite io_then_eval by done.
  erewrite io_then_eval by done. cbn [w_files]. rewrite Hp. destruct (Z.ltb_spec max (zlen data)); [lia|].
  erewrite io_then_eval. 2: { unfold open_file. do 2 (erewrite io_then_eval by done). cbn [w_files].
  by rewrite Hp. }
  cbn beta iota. erewrite io_then_eval. 2: { instantiate (1 := sound fs ds l). instantiate (1 := Works).
  by destruct (bool_decide _). }
  erewrite io_then_eval by by eapply close_unbuffered. done.
Qed.

Lemma file_size_works p fs ds l : exists size, file_size_of p (sound fs ds l) = (size, sound fs ds l).
Proof.
  unfold file_size_of. do 2 (erewrite io_then_eval by done; cbn beta iota zeta). cbn [w_files].
  destruct (fs !! p); eexists; reflexivity.
Qed.

Section load.
Context (o : StoreOptions).
Abbreviation path name := (join (so_directory o) name) (only parsing).

(** The durable contents: a snapshot, whole journal records, and what a crash left
    after them. *)
Record holds (fs : gmap string (list Byte)) (snap : option (list Byte))
    (records : list (list Byte)) (part : list Byte) : Prop := {
  hold_snapshot : fs !! path kSnapshotName = snapshot_frame o <$> snap;
  hold_snapshot_fits : forall payload, snap = Some payload -> fits o payload;
  hold_journal : match fs !! path kJournalName with
                 | Some data => data = journal o records ++ part
                 | None => records = [] /\ part = []
                 end;
  hold_records : Forall (fits o) records;
  hold_part : part = [] \/ torn o part;
  hold_bound : zlen (journal o records ++ part) <= so_max_journal_bytes o
}.

Record options_ok (ds : list string) : Prop := {
  opt_directory : so_directory o <> "" /\ so_directory o ∈ ds;
  opt_bounds : so_max_record_bytes o <> 0 /\ so_max_journal_bytes o <> 0;
  opt_width : 0 <= so_max_record_bytes o <= u32_max
}.

(** What loading leaves alone. *)
Record same_handles (s s' : Store) : Prop := {
  same_options : st_options s' = st_options s;
  same_handle : st_handle s' = st_handle s;
  same_closed : st_closed s' = st_closed s;
  same_bytes : st_journal_bytes s' = st_journal_bytes s
}.

Lemma same_handles_trans s t u : same_handles s t -> same_handles t u -> same_handles s u.
Proof. intros [A B C D] [E F G H]. split; congruence. Qed.

Lemma load_snapshot_works s fs ds l snap records part :
  0 <= so_max_record_bytes o <= u32_max -> st_options s = o -> holds fs snap records part ->
  exists s', load_snapshot s (sound fs ds l) = (s', inr (default [] snap), sound fs ds l) /\
    same_handles s s' /\ sr_records_dropped (st_recovery s') = sr_records_dropped (st_recovery s).
Proof.
  intros Hwidth Ho [Hs Hfit _ _ _ _]. unfold load_snapshot, store_path. rewrite Ho.
  erewrite io_then_eval by apply file_exists_works. rewrite Hs.
  destruct snap as [payload|]; cbn [fmap option_fmap option_map].
  2: { rewrite bool_decide_false by by intros []. cbn [negb]. by exists s. }
  rewrite bool_decide_true by done. cbn [negb].
  destruct (Hfit payload eq_refl) as [Hm Hl]. pose proof (zlen_nonneg payload).
  pose proof (frame_length (so_format_version o) (so_semantic_version o) RecordKind.Snapshot payload) as Hlen.
  fold (snapshot_frame o payload) in Hlen.
  erewrite io_then_eval.
  2: { apply read_whole_file_works; [exact Hs|]. unfold snapshot_bound, kFrameHeaderBytes, kFrameDigestBytes.
       unfold u32_max in *. rewrite Z.mod_small; lia. }
  cbn beta iota zeta. rewrite bool_decide_false by (intros He; rewrite He, zlen_nil in Hlen; lia).
  pose proof (parse_frame_whole (so_format_version o) (so_semantic_version o)
    (so_max_record_bytes o) [] RecordKind.Snapshot payload [] ltac:(lia) Hl) as Hp.
  cbn zeta in Hp. cbn [app] in Hp. fold (snapshot_frame o payload) in Hp.
  rewrite app_nil_r, zlen_nil in Hp. destruct Hp as (-> & -> & -> & ->). cbn [negb].
  rewrite bool_decide_true by done. cbn [negb]. rewrite Z.eqb_refl. cbn [negb].
  eexists. split_and!; done.
Qed.

Lemma load_journal_works s fs ds l snap records part :
  st_options s = o -> holds fs snap records part -> sr_records_dropped (st_recovery s) = 0 ->
  exists s' fs', load_journal s (sound fs ds l) = (s', inr tt, records, sound fs' ds l) /\
    same_handles s s' /\ holds fs' snap records [] /\
    sr_records_dropped (st_recovery s') = if decide (part = []) then 0 else 1.
Proof.
  intros Ho Hh Hdrop. pose proof Hh as [H1 H2 Hj Hr Hpart Hb]. unfold load_journal, store_path. rewrite Ho.
  erewrite io_then_eval by apply file_exists_works.
  destruct (fs !! join (so_directory o) kJournalName) as [data|] eqn:Hdata.
  2: { destruct Hj as [-> ->]. rewrite bool_decide_false by by intros []. cbn [negb].
       exists s, fs. split_and!; [done|done|done|by rewrite decide_True]. }
  subst data. rewrite bool_decide_true by done. cbn [negb].
  erewrite io_then_eval by by apply read_whole_file_works.
  cbn beta iota zeta. set (s1 := s <| st_recovery := _ |>).
  rewrite (read_journal_spec o records part Hr Hpart).
  assert (Hfin : forall t, same_handles t (finish_journal t records) /\
      sr_records_dropped (st_recovery (finish_journal t records)) = sr_records_dropped (st_recovery t)).
  { intros t. unfold finish_journal. destruct (_ && _); by split; [split|]. }
  case_decide as Hp.
  - subst part. eexists _, fs. split_and!;
      [done|by eapply same_handles_trans, Hfin|done|by rewrite (proj2 (Hfin _))].
  - unfold truncate_file. erewrite io_then_eval.
    2: { do 2 (erewrite io_then_eval by done; cbn beta iota zeta). cbn [w_files]. rewrite Hdata. reflexivity. }
    io_reduce. eexists _, _. split_and!; [done| | |by rewrite (proj2 (Hfin _))].
    + by eapply same_handles_trans, Hfin.
    + rewrite take_app_length' by apply to_nat_zlen. split; try done.
      * rewrite lookup_insert_ne; [done|]. by intros Heq%join_inj.
      * by rewrite lookup_insert_eq, app_nil_r.
      * by left.
      * rewrite app_nil_r. rewrite zlen_app in Hb. pose proof (zlen_nonneg part). lia.
Qed.

(** Opening when every call works. *)
Lemma open_works fs ds snap records part :
  options_ok ds -> holds fs snap records part ->
  exists s fs', store_open o (sound fs ds false) = (Value s, sound fs' ds true) /\
    st_options s = o /\ st_handle s = None /\ st_closed s = false /\
    zlen (journal o records) <= st_journal_bytes s /\
    sr_records_dropped (st_recovery s) = 0 /\ holds fs' snap records part.
Proof.
  intros [[Hd Hin] [Hb1 Hb2] _] Hh. unfold store_open. rewrite bool_decide_false by done.
  destruct (Z.eqb_spec (so_max_record_bytes o) 0); [done|].
  destruct (Z.eqb_spec (so_max_journal_bytes o) 0); [done|]. cbn [orb].
  erewrite io_then_eval.
  2: { unfold ensure_directory. do 2 (erewrite io_then_eval by done; cbn beta iota zeta). cbn [w_dirs].
       by rewrite bool_decide_true. }
  io_reduce. do 3 (erewrite io_then_eval by apply file_exists_works; cbn beta iota zeta).
  set (fs' := if bool_decide (is_Some (fs !! path kSnapshotTempName))
             then delete (path kSnapshotTempName) fs else fs).
  assert (Hne : forall name, name <> kSnapshotTempName -> fs' !! path name = fs !! path name).
  { intros name Hn. unfold fs'. destruct (bool_decide _); [|done].
    apply lookup_delete_ne. intros Heq%join_inj. congruence. }
  assert (Hh' : holds fs' snap records part).
  { destruct Hh as [H1 H2 H3 H4 H5 H6]. split; rewrite ?Hne; done. }
  erewrite io_then_eval.
  2: { instantiate (2 := Status_success). instantiate (1 := sound fs' ds false).
       unfold fs'. by destruct (bool_decide _). }
  io_reduce.
  erewrite io_then_eval. 2: { instantiate (2 := Status_success). instantiate (1 := sound fs' ds true).
  reflexivity. }
  io_reduce.
  assert (exists size, (if bool_decide (is_Some (fs !! path kJournalName))
      then file_size_of (path kJournalName) else mret (Value 0)) (sound fs' ds true) =
    (size, sound fs' ds true) /\ zlen (journal o records) <= value_or size 0) as (size & Hsize & Hle).
  { rewrite <-(Hne kJournalName) by done. destruct Hh' as [_ _ Hj _ _ _].
    destruct (fs' !! path kJournalName) as [data|] eqn:Hdata.
    - rewrite bool_decide_true by done. exists (Value (zlen data)). split.
      + unfold file_size_of. do 2 (erewrite io_then_eval by done; cbn beta iota zeta).
        cbn [w_files]. by rewrite Hdata.
      + cbn. rewrite Hj, zlen_app. pose proof (zlen_nonneg part). lia.
    - destruct Hj as [-> ->]. rewrite bool_decide_false by by intros []. by exists (Value 0). }
  erewrite io_then_eval by exact Hsize. cbn beta iota zeta.
  eexists _, fs'. split_and!; done.
Qed.

Lemma load_works s fs ds snap records part :
  options_ok ds -> st_options s = o -> sr_records_dropped (st_recovery s) = 0 ->
  holds fs snap records part ->
  exists s' fs' recovery,
    store_load s (sound fs ds true) =
      (s', mkLoaded (Value recovery) (default [] snap) records, sound fs' ds true) /\
    same_handles s s' /\ holds fs' snap records [] /\
    sr_records_dropped recovery = if decide (part = []) then 0 else 1.
Proof.
  intros [_ _ Hwidth] Ho Hdrop Hh. unfold store_load. set (s1 := classify RecoveryClass.EmptyStore s).
  destruct (load_snapshot_works s1 fs ds true snap records part) as (s2 & Hs2 & Hsame2 & Hd2);
    [done|done|done|].
  destruct (load_journal_works s2 fs ds true snap records part) as (s3 & fs3 & Hs3 & Hsame3 & Hh3 & Hd3);
    [by rewrite (same_options _ _ Hsame2)|done|by rewrite Hd2|].
  erewrite io_then_eval by exact Hs2. cbn beta iota zeta. erewrite io_then_eval by exact Hs3.
  cbn beta iota zeta. eexists _, _, _. split_and!; [done| |exact Hh3|exact Hd3].
  by apply (same_handles_trans s s1), (same_handles_trans s1 s2).
Qed.

(** Reopening returns what is durable. *)
Lemma recovers_holds w snap records part :
  options_ok (w_dirs w) -> holds (w_files w) snap records part ->
  exists recovery, recovers o w = Some (mkLoaded (Value recovery) (default [] snap) records) /\
    sr_records_dropped recovery = if decide (part = []) then 0 else 1.
Proof.
  intros Hok Hh. unfold recovers, reopen.
  assert (Hw0 : after_crash w = sound (w_files w) (w_dirs w) false) by (by destruct w). rewrite Hw0.
  destruct (open_works _ _ _ _ _ Hok Hh) as (s & fs & Hopen & Ho & _ & _ & _ & H0 & Hfs).
  destruct (load_works s fs _ _ _ _ Hok Ho H0 Hfs) as (s' & fs' & recovery & Hload & _ & _ & Hd).
  erewrite io_then_eval by exact Hopen. cbn beta iota zeta. erewrite io_then_eval by exact Hload.
  by exists recovery.
Qed.
End load.
