(* ===== verification/Durability.v ===== *)
(** * Durability of the store

    What a session of appends and rotations leaves, whatever calls fail and wherever the
    process stops, and what the next process recovers from it; the lock; damage and
    failures that recovery takes for something else. *)

From S2P Require Import Prelude Std Reason Types Version Resources Bounded Digest Json JsonArchive Archive Model.
From S2P Require Import Codec Authority Planner State Wire Store Journal.
#[local] Open Scope Z_scope.

(** *** Running under any faults

    [runs ds fs e Q]: from the files [fs], whatever the calls do, [e] ends with a result
    and files satisfying [Q], and leaves the directories alone. *)
Definition runs {A} (fs : gmap string (list Byte)) (e : IO A)
    (Q : A -> gmap string (list Byte) -> Prop) : Prop :=
  forall w, w_files w = fs -> Q (e w).1 (w_files (e w).2) /\ w_dirs (e w).2 = w_dirs w.

Lemma runs_ret {A} fs (x : A) Q : Q x fs -> runs fs (mret x) Q.
Proof. by intros HQ w <-. Qed.

Lemma runs_then {A B} fs (e : IO A) (k : A -> IO B) Q :
  runs fs e (fun x fs' => runs fs' (k x) Q) -> runs fs (io_then e k) Q.
Proof.
  intros He w Hw. unfold io_then, mbind, io_bind. destruct (He w Hw) as [Hk Hd].
  destruct (e w) as [x w']. cbn in *. destruct (Hk w' eq_refl) as [HQ Hd']. split; [done|congruence].
Qed.

Lemma runs_bind {A B} fs (e : IO A) (k : A -> IO B) Q :
  runs fs e (fun x fs' => runs fs' (k x) Q) -> runs fs (e ≫= k) Q.
Proof. apply runs_then. Qed.

Lemma runs_weaken {A} fs (e : IO A) (Q Q' : A -> gmap string (list Byte) -> Prop) :
  runs fs e Q -> (forall x fs', Q x fs' -> Q' x fs') -> runs fs e Q'.
Proof. intros He HQ w Hw. destruct (He w Hw). auto. Qed.

Lemma runs_fault fs (Q : Fault -> gmap string (list Byte) -> Prop) :
  (forall f, Q f fs) -> runs fs next_fault Q.
Proof. intros HQ w <-. unfold next_fault. by destruct (w_faults w). Qed.

Lemma runs_get fs p (Q : option (list Byte) -> gmap string (list Byte) -> Prop) :
  Q (fs !! p) fs -> runs fs (get_file p) Q.
Proof. by intros HQ w <-. Qed.

Lemma runs_put fs p d (Q : unit -> gmap string (list Byte) -> Prop) :
  Q tt (<[p := d]> fs) -> runs fs (put_file p d) Q.
Proof. by intros HQ w <-. Qed.

Lemma runs_drop fs p (Q : unit -> gmap string (list Byte) -> Prop) :
  Q tt (delete p fs) -> runs fs (drop_file p) Q.
Proof. by intros HQ w <-. Qed.

Lemma runs_write_through fs p d (Q : unit -> gmap string (list Byte) -> Prop) :
  Q tt (<[p := default [] (fs !! p) ++ d]> fs) -> runs fs (write_through p d) Q.
Proof. intros HQ. by apply runs_then, runs_get, runs_put. Qed.

(** The specifications of the calls. *)
Lemma runs_sync fs h (Q : Status -> gmap string (list Byte) -> Prop) :
  Q Status_success fs -> Q (io_failure "flush to device failed") fs -> runs fs (sync_file h) Q.
Proof. intros H1 H2. apply runs_then, runs_fault. intros [|n e]; by apply runs_ret. Qed.

(** A write through an empty buffer, and the flush of what it left. *)
Lemma runs_fwrite fs p data (Q : Handle * bool -> gmap string (list Byte) -> Prop) :
  Q (mkHandle p data, true) fs ->
  (forall n, Q (mkHandle p [], false) (<[p := default [] (fs !! p) ++ take n data]> fs)) ->
  runs fs (fwrite (mkHandle p []) data) Q.
Proof.
  intros Hall Hpart. apply runs_then, runs_fault. intros [|n e]; [by apply runs_ret|].
  cbn [h_path h_buffer app]. apply runs_bind, runs_write_through, runs_ret, Hpart.
Qed.

Lemma runs_fflush fs p data (Q : Handle * bool -> gmap string (list Byte) -> Prop) :
  Q (mkHandle p [], true) (<[p := default [] (fs !! p) ++ data]> fs) ->
  (forall n, Q (mkHandle p (drop n data), false) (<[p := default [] (fs !! p) ++ take n data]> fs)) ->
  runs fs (fflush (mkHandle p data)) Q.
Proof.
  intros Hall Hpart. apply runs_then, runs_fault.
  intros [|n e]; cbn [h_path h_buffer]; apply runs_bind, runs_write_through, runs_ret; [exact Hall|apply Hpart].
Qed.

Lemma runs_close fs p data (Q : Status -> gmap string (list Byte) -> Prop) :
  Q Status_success (<[p := default [] (fs !! p) ++ data]> fs) ->
  (forall n, Q (io_failure "close failed") (<[p := default [] (fs !! p) ++ take n data]> fs)) ->
  runs fs (close_file (mkHandle p data)) Q.
Proof.
  intros Hall Hpart. apply runs_then, runs_fault.
  intros [|n e]; cbn [h_path h_buffer]; apply runs_bind, runs_write_through, runs_ret; [exact Hall|apply Hpart].
Qed.

Lemma runs_open_append fs p (Q : Result Handle -> gmap string (list Byte) -> Prop) :
  (forall e, Q (Failed (open_refusal p e)) fs) ->
  Q (Value (mkHandle p [])) (<[p := default [] (fs !! p)]> fs) ->
  runs fs (open_file p ModeAppend) Q.
Proof.
  intros Hno Hyes. apply runs_then, runs_fault. intros f. apply runs_then, runs_get.
  destruct f as [|n e]; [|by apply runs_ret].
  destruct (fs !! p) as [data|] eqn:Hp; cbn [default from_option] in Hyes.
  - apply runs_ret. by rewrite insert_id in Hyes.
  - apply runs_bind, runs_put, runs_ret. exact Hyes.
Qed.

Lemma runs_open_write fs p (Q : Result Handle -> gmap string (list Byte) -> Prop) :
  (forall e, Q (Failed (open_refusal p e)) fs) -> Q (Value (mkHandle p [])) (<[p := []]> fs) ->
  runs fs (open_file p ModeWrite) Q.
Proof.
  intros Hno Hyes. apply runs_then, runs_fault. intros f. apply runs_then, runs_get.
  destruct f as [|n e]; [|by apply runs_ret]. apply runs_bind, runs_put, runs_ret. exact Hyes.
Qed.

(** *** Appending under any faults *)
Section crash.
Context (o : StoreOptions) (Hwidth : so_max_record_bytes o <= u32_max).
Abbreviation path name := (join (so_directory o) name) (only parsing).

(** A store that runs: its options, its counters and its handle agree with the disk. *)
Record ready (s : Store) (fs : gmap string (list Byte)) (snap : option (list Byte))
    (records : list (list Byte)) : Prop := {
  ready_options : st_options s = o;
  ready_open : st_closed s = false;
  ready_holds : holds o fs snap records [];
  ready_bytes : zlen (journal o records) <= st_journal_bytes s;
  ready_handle : st_handle s = None \/ st_handle s = Some (mkHandle (path kJournalName) [])
}.

Lemma path_ne a b : a <> b -> path a <> path b.
Proof. by intros Hne Heq%join_inj. Qed.

Lemma journal_contents fs snap records part :
  holds o fs snap records part ->
  default [] (fs !! path kJournalName) = journal o records ++ part.
Proof. intros [_ _ Hj _ _ _]. by destruct (fs !! _); [|destruct Hj as [-> ->]]. Qed.

Lemma fits_framed payload :
  zlen (event_frame o payload) <= so_max_record_bytes o -> fits o payload.
Proof.
  unfold event_frame. rewrite frame_length. intros Hl. split; [done|].
  pose proof (zlen_nonneg payload). lia.
Qed.

(** Writing the journal: the new contents decide what is held. *)
Lemma holds_journal fs snap records part records' part' :
  holds o fs snap records part -> Forall (fits o) records' -> part' = [] \/ torn o part' ->
  zlen (journal o records' ++ part') <= so_max_journal_bytes o ->
  holds o (<[path kJournalName := journal o records' ++ part']> fs) snap records' part'.
Proof.
  intros [H1 H2 _ _ _ _] Hr Hp Hb. split; [|done| |done..].
  - rewrite lookup_insert_ne; [done|]. by apply path_ne.
  - by rewrite lookup_insert_eq.
Qed.

Lemma holds_appended fs snap records payload n :
  holds o fs snap records [] -> fits o payload ->
  zlen (journal o records) + zlen (event_frame o payload) <= so_max_journal_bytes o ->
  exists records' part,
    holds o (<[path kJournalName := default [] (fs !! path kJournalName) ++
               take n (event_frame o payload)]> fs) snap records' part /\
    (records' = records \/ records' = records ++ [payload]).
Proof.
  intros Hh Hf Hb. rewrite (journal_contents _ _ _ _ Hh), app_nil_r.
  assert (Hr : Forall (fits o) records) by apply Hh.
  pose proof (zlen_nonneg (event_frame o payload)).
  destruct (decide (take n (event_frame o payload) = [])) as [Hnil|Hnil].
  - exists records, []. rewrite Hnil. split; [|by left].
    apply (holds_journal fs snap records []); [done|done|by left|]. rewrite app_nil_r. lia.
  - destruct (decide (take n (event_frame o payload) = event_frame o payload)) as [->|Hne].
    + exists (records ++ [payload]), []. split; [|by right].
      rewrite <-journal_snoc, <-(app_nil_r (journal o (records ++ [payload]))).
      apply (holds_journal fs snap records []); [done| |by left|].
      * apply Forall_app. split; [done|by constructor].
      * rewrite app_nil_r, journal_snoc, zlen_app. lia.
    + exists records, (take n (event_frame o payload)). split; [|by left].
      apply (holds_journal fs snap records []); [done|done| |].
      * right. exists payload. split_and!; [done| |done|done]. apply prefix_take.
      * rewrite zlen_app. pose proof (f_equal zlen (take_drop n (event_frame o payload))) as Ht.
        rewrite zlen_app in Ht. pose proof (zlen_nonneg (drop n (event_frame o payload))). lia.
Qed.

(** A refusal for a bound of the store, which is decided before anything is written. *)
Definition refused_for_bounds (status : Status) : bool :=
  bool_decide (status_code status = ReasonCode.StoreRecordOversized) ||
  bool_decide (status_code status = ReasonCode.BoundExceeded).

(** What an append may leave: the records as they were or with the payload; the latter,
    ready for more, when it reports success, and the former, as ready, when it is refused
    for a bound. *)
Definition append_outcome snap records payload (s' : Store) (status : Status) fs' : Prop :=
  exists records' part, holds o fs' snap records' part /\
    (records' = records \/ records' = records ++ [payload]) /\
    (status_ok status = true -> ready s' fs' snap (records ++ [payload])) /\
    (refused_for_bounds status = true -> ready s' fs' snap records).

Lemma append_unchanged snap records payload s' status fs' :
  status_ok status = false -> holds o fs' snap records [] ->
  (refused_for_bounds status = true -> ready s' fs' snap records) ->
  append_outcome snap records payload s' status fs'.
Proof. intros Hs Hfs Hb. exists records, []. split_and!; [done|by left|by rewrite Hs|done]. Qed.

Lemma append_cut fs snap records payload n s' status :
  holds o fs snap records [] -> fits o payload ->
  zlen (journal o records) + zlen (event_frame o payload) <= so_max_journal_bytes o ->
  status_ok status = false -> refused_for_bounds status = false ->
  append_outcome snap records payload s' status
    (<[path kJournalName := default [] (fs !! path kJournalName) ++ take n (event_frame o payload)]> fs).
Proof.
  intros Hfs Hfit Hjou Hs Hb. destruct (holds_appended fs snap records payload n Hfs Hfit Hjou)
    as (records' & part & Hh' & Hr'). exists records', part. split_and!; [done|done|by rewrite Hs|by rewrite Hb].
Qed.

Lemma append_whole fs snap records payload :
  holds o fs snap records [] -> fits o payload ->
  zlen (journal o records) + zlen (event_frame o payload) <= so_max_journal_bytes o ->
  holds o (<[path kJournalName := default [] (fs !! path kJournalName) ++ event_frame o payload]> fs)
    snap (records ++ [payload]) [].
Proof.
  intros Hfs Hfit Hjou. rewrite (journal_contents _ _ _ _ Hfs), app_nil_r, <-journal_snoc,
    <-(app_nil_r (journal o (records ++ [payload]))).
  apply (holds_journal fs snap records []); [done| |by left|].
  - apply Forall_app. split; [apply Hfs|by constructor].
  - rewrite app_nil_r, journal_snoc, zlen_app. lia.
Qed.

Lemma ensure_appender_runs s fs snap records :
  ready s fs snap records ->
  runs fs (ensure_appender s) (fun '(s', opened) fs' =>
    holds o fs' snap records [] /\
    ((st_handle s' = None /\ status_ok opened = false /\ refused_for_bounds opened = false) \/
     (s' = s <| st_handle := Some (mkHandle (path kJournalName) []) |>))).
Proof.
  intros [Ho Hc Hh Hb Hhandle]. unfold ensure_appender. destruct Hhandle as [Hnone|Hsome].
  - rewrite Hnone. apply runs_then. unfold store_path. rewrite Ho. apply runs_open_append.
    + intros e. apply runs_ret. split; [done|by left].
    + apply runs_ret. split; [|by right]. rewrite (journal_contents _ _ _ _ Hh).
      apply (holds_journal fs snap records []); [done|apply Hh|by left|apply Hh].
  - rewrite Hsome. apply runs_ret. split; [done|]. right. destruct s; cbn in *; by subst.
Qed.

Lemma sync_runs fs (sync : bool) h :
  runs fs (if sync then sync_file h else mret Status_success) (fun synced fs' => refused_for_bounds synced = false /\ fs' = fs).
Proof. destruct sync; [by apply runs_sync|by apply runs_ret]. Qed.

Lemma append_runs s fs snap records payload :
  ready s fs snap records ->
  runs fs (append_record s payload) (fun '(s', status) fs' => append_outcome snap records payload s' status fs').
Proof.
  intros Hready. pose proof Hready as [Ho Hc Hh Hb Hhandle].
  unfold append_record. rewrite Hc. apply runs_then.
  eapply runs_weaken; [by apply ensure_appender_runs|]. intros [s1 opened] fs1 [Hfs1 [(Hn & Hst & Hcode)| ->]].
  { rewrite Hn. apply runs_ret, append_unchanged; [done|done|by rewrite Hcode]. }
  set (s1 := s <| st_handle := _ |>). change (st_handle s1) with (Some (mkHandle (path kJournalName) [])).
  change (st_options s1) with (st_options s). change (st_journal_bytes s1) with (st_journal_bytes s).
  assert (Hs1 : ready s1 fs1 snap records) by (split; [done|done|done|exact Hb|by right]).
  rewrite Ho. cbn beta iota zeta. fold (event_frame o payload).
  destruct (Z.ltb_spec (so_max_record_bytes o) (zlen (event_frame o payload))) as [|Hrec];
    [by apply runs_ret, append_unchanged|].
  destruct (Z.ltb_spec (so_max_journal_bytes o) (st_journal_bytes s + zlen (event_frame o payload)))
    as [|Hjou']; [by apply runs_ret, append_unchanged|].
  assert (Hjou : zlen (journal o records) + zlen (event_frame o payload) <= so_max_journal_bytes o) by lia.
  apply fits_framed in Hrec as Hfit.
  apply runs_then, runs_fwrite; cbn [fst snd negb]; [|intros n; by apply runs_ret, append_cut].
  apply runs_then, runs_fflush; cbn [fst snd negb]; [|intros n; by apply runs_ret, append_cut].
  pose proof (append_whole fs1 snap records payload Hfs1 Hfit Hjou) as Hdone.
  set (fs2 := <[path kJournalName := _]> fs1) in *.
  apply runs_then. eapply runs_weaken; [apply sync_runs|]. intros synced fs' [Hcode ->].
  destruct (status_ok synced) eqn:Hs; cbn [negb]; apply runs_ret; exists (records ++ [payload]), [];
    (split_and!; [done|by right| |]); [|done|by rewrite Hs|by rewrite Hcode].
  intros _. split; try done.
  - change (st_journal_bytes _) with (st_journal_bytes s + zlen (event_frame o payload)).
    rewrite journal_snoc, zlen_app. lia.
  - by right.
Qed.

(** *** Rotating under any faults *)

(** The temporary snapshot is no part of what is held. *)
Lemma holds_other fs snap records part name data :
  holds o fs snap records part -> name <> kSnapshotName -> name <> kJournalName ->
  holds o (<[path name := data]> fs) snap records part.
Proof.
  intros [H1 H2 H3 H4 H5 H6] Hs Hj. split; try done.
  - by rewrite lookup_insert_ne by by apply path_ne.
  - by rewrite lookup_insert_ne by by apply path_ne.
Qed.

Lemma holds_removed fs snap records part name :
  holds o fs snap records part -> name <> kSnapshotName -> name <> kJournalName ->
  holds o (delete (path name) fs) snap records part.
Proof.
  intros [H1 H2 H3 H4 H5 H6] Hs Hj. split; try done.
  - by rewrite lookup_delete_ne by by apply path_ne.
  - by rewrite lookup_delete_ne by by apply path_ne.
Qed.

Lemma holds_replaced fs snap records part payload :
  holds o fs snap records part -> fits o payload ->
  holds o (<[path kSnapshotName := snapshot_frame o payload]> fs) (Some payload) records part.
Proof.
  intros [H1 H2 H3 H4 H5 H6] Hf. split; try done.
  - by rewrite lookup_insert_eq.
  - by intros ? [= <-].
  - by rewrite lookup_insert_ne by by apply path_ne.
Qed.

Lemma holds_emptied fs snap records :
  holds o fs snap records [] -> holds o (<[path kJournalName := []]> fs) snap [] [].
Proof.
  intros Hh. change (@nil Byte) with (journal o [] ++ []) at 1.
  apply (holds_journal fs snap records [] [] []); [done|constructor|by left|].
  change (journal o [] ++ []) with (@nil Byte). rewrite zlen_nil.
  pose proof (hold_bound _ _ _ _ _ Hh) as Hb. pose proof (zlen_nonneg (journal o records ++ [])). lia.
Qed.

Lemma default_same fs snap records :
  holds o fs snap records [] ->
  holds o (<[path kJournalName := default [] (fs !! path kJournalName) ++ []]> fs) snap records [].
Proof.
  intros Hh. rewrite app_nil_r, (journal_contents _ _ _ _ Hh).
  by apply (holds_journal fs snap records []); [done|apply Hh|left|apply Hh].
Qed.

Lemma write_snapshot_runs s fs snap records payload :
  st_options s = o -> holds o fs snap records [] -> fits o payload ->
  runs fs (write_snapshot s (snapshot_frame o payload)) (fun status fs' =>
    refused_for_bounds status = false /\
    if status_ok status then holds o fs' (Some payload) records []
    else holds o fs' snap records []).
Proof.
  intros Ho Hh Hfit. unfold write_snapshot, store_path. rewrite Ho. cbn zeta.
  set (temp := path kSnapshotTempName).
  assert (Htemp : forall fs data, holds o fs snap records [] ->
    holds o (<[temp := data]> fs) snap records []) by (intros; by apply holds_other).
  apply runs_then. unfold remove_file. apply runs_then, runs_fault. intros [|n e].
  2: { by apply runs_ret, runs_ret. }
  apply runs_bind, runs_drop, runs_ret. cbn [negb].
  change (status_ok Status_success) with true. cbn [negb].
  assert (Hh1 : holds o (delete temp fs) snap records []) by by apply holds_removed.
  assert (H0 : delete temp fs !! temp = None) by apply lookup_delete_eq.
  revert Hh1 H0. generalize (delete temp fs). clear Hh fs. intros fs Hh Hnone.
  apply runs_then, runs_open_write; [intros e; by apply runs_ret|].
  assert (Hclose : forall fs1 h detail, holds o fs1 snap records [] -> h_path h = temp ->
    runs fs1 (close_file h ≫= fun _ => mret (io_failure detail)) (fun status fs' =>
      refused_for_bounds status = false /\
      if status_ok status then holds o fs' (Some payload) records []
      else holds o fs' snap records [])).
  { intros fs1 [p b] detail Hfs1 Hp. cbn in Hp. subst p. apply runs_bind, runs_close; [|intros n];
      (apply runs_ret; split; [done|by apply Htemp]). }
  apply runs_then, runs_fwrite; cbn [fst snd negb]; [|intros n; apply Hclose; [|done]; by apply Htemp, Htemp].
  apply runs_then, runs_fflush; cbn [fst snd negb]; [|intros n; apply Hclose; [|done]; by apply Htemp, Htemp].
  rewrite lookup_insert_eq. cbn [default from_option id app]. rewrite insert_insert_eq.
  set (fs1 := <[temp := snapshot_frame o payload]> fs).
  assert (Hh1 : holds o fs1 snap records []) by by apply Htemp.
  assert (Hl : fs1 !! temp = Some (snapshot_frame o payload)) by apply lookup_insert_eq.
  apply runs_then, runs_sync.
  - apply runs_then, runs_close; [|intros n].
    + rewrite Hl. cbn [default from_option id app]. rewrite app_nil_r, insert_id by done.
      change (status_ok Status_success) with true. cbn [negb].
      unfold atomic_replace. apply runs_then, runs_fault. intros f. apply runs_then, runs_get.
      rewrite Hl. destruct f as [|n e]; [|by apply runs_ret].
      apply runs_bind, runs_put, runs_bind, runs_drop, runs_ret.
      change (status_ok Status_success) with true. cbn [negb].
      split; [done|]. apply holds_removed; [|done|done]. by eapply holds_replaced.
    + change (status_ok Status_success) with true. cbn [negb]. (apply runs_ret; split; [done|by apply Htemp]).
  - apply runs_then, runs_close; [|intros n]; (apply runs_ret; split; [done|by apply Htemp]).
Qed.

(** Emptying either leaves the records alone or leaves none, and none when it succeeds. *)
Definition empty_outcome snap records (s' : Store) (status : Status) fs' : Prop :=
  refused_for_bounds status = false /\
  exists records', holds o fs' snap records' [] /\ (records' = records \/ records' = []) /\
    (status_ok status = true -> records' = [] /\ st_handle s' = None /\ st_options s' = o /\ st_closed s' = false).

Lemma empty_failed snap records s' status fs' :
  status_ok status = false -> refused_for_bounds status = false -> holds o fs' snap records [] ->
  empty_outcome snap records s' status fs'.
Proof. intros Hs Hb Hfs. split; [done|]. exists records. split_and!; [done|by left|by rewrite Hs]. Qed.
Lemma empty_done snap records s' status fs' :
  refused_for_bounds status = false -> holds o fs' snap [] [] ->
  st_handle s' = None -> st_options s' = o -> st_closed s' = false -> empty_outcome snap records s' status fs'.
Proof. intros Hb Hfs H1 H2 H3. split; [done|]. exists []. split_and!; [done|by right|done]. Qed.

Lemma close_appender_runs s fs snap records :
  ready s fs snap records ->
  runs fs (match st_handle s with Some handle => close_file handle | None => mret Status_success end)
    (fun closed fs' => refused_for_bounds closed = false /\ holds o fs' snap records []).
Proof.
  intros [Ho Hc Hh Hb Hhandle]. destruct Hhandle as [->| ->]; [by apply runs_ret|].
  apply runs_close; [|intros n; rewrite take_nil]; (split; [done|]); by apply default_same.
Qed.

(** What a handle with nothing buffered lets through changes nothing. *)
Lemma emptied_same (fs : gmap string (list Byte)) l :
  let fs' := <[path kJournalName := []]> fs in
  <[path kJournalName := default [] (fs' !! path kJournalName) ++ take l []]> fs' = fs'.
Proof. cbn zeta. rewrite lookup_insert_eq. cbn. by rewrite take_nil, insert_insert_eq. Qed.

Lemma empty_journal_runs s fs snap records :
  ready s fs snap records ->
  runs fs (empty_journal s) (fun '(s', status) fs' => empty_outcome snap records s' status fs').
Proof.
  intros Hready. pose proof Hready as [Ho Hc Hh Hb Hhandle]. unfold empty_journal, store_path.
  apply runs_then. eapply runs_weaken; [by apply close_appender_runs|]. intros closed fs1 [Hcode Hh1].
  destruct (status_ok closed) eqn:Hcl; cbn [negb]; [|by apply runs_ret, empty_failed].
  cbn zeta. change (st_options (s <| st_handle := None |>)) with (st_options s). rewrite Ho.
  apply runs_then, runs_open_write; [intros e; by apply runs_ret, empty_failed|].
  pose proof (holds_emptied fs1 snap records Hh1) as Hh2. pose proof (emptied_same fs1) as Hsame.
  cbn zeta in Hsame.
  set (fs2 := <[path kJournalName := []]> fs1) in *.
  pose proof (Hsame 0%nat : <[path kJournalName := default [] (fs2 !! path kJournalName) ++ []]> fs2 = fs2)
    as Hsame0.
  apply runs_then, runs_fflush; cbn [fst snd negb].
  2: { intros n. rewrite (Hsame n), drop_nil. apply runs_bind, runs_close; [|intros m; rewrite (Hsame m)].
       - rewrite Hsame0. by apply runs_ret, empty_done.
       - by apply runs_ret, empty_done. }
  rewrite Hsame0. apply runs_then. eapply runs_weaken; [apply sync_runs|]. intros synced fs' [Hsynced ->].
  apply runs_then, runs_close; [rewrite Hsame0|intros n; rewrite (Hsame n)];
    cbn beta; destruct (negb (status_ok _)); by apply runs_ret, empty_done.
Qed.

Lemma rotate_runs s fs snap records payload :
  ready s fs snap records ->
  runs fs (rotate s payload) (fun '(s', status) fs' =>
    exists snap' records', holds o fs' snap' records' [] /\
      (snap' = snap /\ records' = records \/
       snap' = Some payload /\ (records' = records \/ records' = [])) /\
      (status_ok status = true -> ready s' fs' (Some payload) []) /\
      (refused_for_bounds status = true -> ready s' fs' snap records)).
Proof.
  intros Hready. pose proof Hready as [Ho Hc Hh Hb Hhandle].
  assert (Hfail : forall (s' : Store) status fs', status_ok status = false ->
    (refused_for_bounds status = true -> ready s' fs' snap records) ->
    holds o fs' snap records [] -> exists snap' records', holds o fs' snap' records' [] /\
      (snap' = snap /\ records' = records \/
       snap' = Some payload /\ (records' = records \/ records' = [])) /\
      (status_ok status = true -> ready s' fs' (Some payload) []) /\
      (refused_for_bounds status = true -> ready s' fs' snap records)).
  { intros s' status fs' Hs Hb' Hfs. exists snap, records. split_and!; [done|by left|by rewrite Hs|done]. }
  unfold rotate. rewrite Hc, Ho. cbn zeta. fold (snapshot_frame o payload).
  destruct (Z.ltb_spec (so_max_record_bytes o) (zlen (snapshot_frame o payload))) as [|Hrec];
    [by apply runs_ret, Hfail|].
  assert (Hfit : fits o payload).
  { apply fits_framed. unfold event_frame, snapshot_frame in *. by rewrite frame_length in *. }
  apply runs_then. eapply runs_weaken; [exact (write_snapshot_runs s fs snap records payload Ho Hh Hfit)|].
  intros replaced fs1 [Hcode Hreplaced]. destruct (status_ok replaced) eqn:Hs; cbn [negb].
  2: { apply runs_ret, Hfail; [done|by rewrite Hcode|done]. }
  apply runs_then. eapply runs_weaken; [apply (empty_journal_runs s fs1 (Some payload) records); by split|].
  intros [s1 status] fs2 (Hempty & records' & Hh2 & Hr & Hok).
  destruct (status_ok status) eqn:Hst; cbn [negb]; apply runs_ret.
  - destruct (Hok eq_refl) as (-> & Hn & Ho1 & Hc1). exists (Some payload), [].
    split_and!; [done|by right; split; [done|right]| |done]. intros _. split; try done. by left.
  - exists (Some payload), records'. split_and!; [done|by right|by rewrite Hst|by rewrite Hempty].
Qed.

(** *** A session of the store *)
Inductive StoreOp : Type :=
| OpAppend (payload : list Byte)
| OpRotate (payload : list Byte).
Definition store_op (s : Store) (op : StoreOp) : IO (Store * Status) :=
  match op with OpAppend payload => append_record s payload | OpRotate payload => rotate s payload end.

(** What the acknowledged operations mean: a snapshot and the records after it. *)
Definition Durable : Type := option (list Byte) * list (list Byte).
Definition apply_op (d : Durable) (op : StoreOp) : Durable :=
  match op with
  | OpAppend payload => (d.1, d.2 ++ [payload])
  | OpRotate payload => (Some payload, [])
  end.

(** What may be found after the operation in progress was cut short: nothing of it,
    all of it, or the new snapshot with the records it covers. *)
Definition survives (d : Durable) (op : option StoreOp) (d' : Durable) : Prop :=
  match op with
  | None => d' = d
  | Some (OpAppend payload) => d' = d \/ d' = apply_op d (OpAppend payload)
  | Some (OpRotate payload) =>
    d' = d \/ d' = apply_op d (OpRotate payload) \/ d' = (Some payload, d.2)
  end.

(** A session: the operations that were acknowledged, and the one that failed if one did.
    It goes on after a refusal for a bound and ends at the first failure of another kind. *)
Record Session := mkSession {
  ses_store : Store;
  ses_acknowledged : list StoreOp;
  ses_failed : option StoreOp
}.
Fixpoint run_ops (s : Store) (ops : list StoreOp) : IO Session :=
  match ops with
  | [] => mret (mkSession s [] None)
  | op :: ops =>
    let* done := store_op s op in
    let '(s, status) := done in
    if status_ok status then
      let* rest := run_ops s ops in
      mret (mkSession (ses_store rest) (op :: ses_acknowledged rest) (ses_failed rest))
    else if refused_for_bounds status then run_ops s ops
    else mret (mkSession s [] (Some op))
  end.

Definition durably (fs : gmap string (list Byte)) (d : Durable) : Prop :=
  exists part, holds o fs d.1 d.2 part.

Lemma store_op_runs s fs d op :
  ready s fs d.1 d.2 ->
  runs fs (store_op s op) (fun '(s', status) fs' =>
    (exists d', durably fs' d' /\ survives d (Some op) d') /\
    (status_ok status = true -> ready s' fs' (apply_op d op).1 (apply_op d op).2) /\
    (refused_for_bounds status = true -> ready s' fs' d.1 d.2)).
Proof.
  intros Hr. destruct op as [payload|payload]; cbn [store_op].
  - eapply runs_weaken; [exact (append_runs s fs d.1 d.2 payload Hr)|].
    intros [s' status] fs' (records' & part & Hh & Hrec & Hok). split; [|done].
    exists (d.1, records'). split; [by exists part|].
    destruct d, Hrec as [-> | ->]; [by left|by right].
  - eapply runs_weaken; [exact (rotate_runs s fs d.1 d.2 payload Hr)|].
    intros [s' status] fs' (snap' & records' & Hh & Hrec & Hok). split; [|done].
    exists (snap', records'). split; [by exists []|].
    destruct d, Hrec as [[-> ->]|[-> [-> | ->]]]; [by left|by right; right|by right; left].
Qed.

Lemma run_ops_runs ops s fs d :
  ready s fs d.1 d.2 ->
  runs fs (run_ops s ops) (fun r fs' =>
    let acknowledged := foldl apply_op d (ses_acknowledged r) in
    (exists d', durably fs' d' /\ survives acknowledged (ses_failed r) d') /\
    (ses_failed r = None -> ready (ses_store r) fs' acknowledged.1 acknowledged.2)).
Proof.
  revert s fs d. induction ops as [|op ops IH]; intros s fs d Hr; cbn [run_ops].
  { apply runs_ret. split; [|done]. exists d. split; [by exists []; apply Hr|done]. }
  apply runs_then. eapply runs_weaken; [exact (store_op_runs s fs d op Hr)|].
  intros [s1 status] fs1 (Hd & Hok & Hbounds). destruct (status_ok status).
  - apply runs_then. eapply runs_weaken; [exact (IH s1 fs1 (apply_op d op) (Hok eq_refl))|].
    intros r fs2 Hrest. apply runs_ret. exact Hrest.
  - destruct (refused_for_bounds status); [exact (IH s1 fs1 d (Hbounds eq_refl))|].
    apply runs_ret. split; [exact Hd|done].
Qed.
End crash.

(** Opening the store after a crash and going on. *)
Lemma reopened_ready o w d :
  options_ok o (w_dirs w) -> durably o (w_files w) d ->
  exists s w1 s' recovery w2,
    store_open o (after_crash w) = (Value s, w1) /\
    store_load s w1 = (s', mkLoaded (Value recovery) (default [] d.1) d.2, w2) /\
    ready o s' (w_files w2) d.1 d.2.
Proof.
  intros Hok [part Hh].
  assert (Hw0 : after_crash w = mkWorld (w_files w) (w_dirs w) false []) by (by destruct w). rewrite Hw0.
  destruct (open_works o _ _ _ _ _ Hok Hh) as (s & fs & Hopen & Ho & Hn & Hc & Hb & H0 & Hfs).
  destruct (load_works o s fs _ _ _ _ Hok Ho H0 Hfs) as (s' & fs' & recovery & Hload & [S1 S2 S3 S4] & Hfs' & _).
  eexists _, _, _, _, _. split_and!; [exact Hopen|exact Hload|].
  split; [congruence|congruence|done|by rewrite S4|left; congruence].
Qed.

(** *** Running when every call works *)
Definition works {A} (fs : gmap string (list Byte)) (e : IO A)
    (Q : A -> gmap string (list Byte) -> Prop) : Prop :=
  forall w, w_files w = fs -> w_faults w = [] ->
  Q (e w).1 (w_files (e w).2) /\ w_faults (e w).2 = [].

Lemma works_ret {A} fs (x : A) Q : Q x fs -> works fs (mret x) Q.
Proof. by intros HQ w <-. Qed.
Lemma works_then {A B} fs (e : IO A) (k : A -> IO B) Q :
  works fs e (fun x fs' => works fs' (k x) Q) -> works fs (io_then e k) Q.
Proof.
  intros He w Hw Hf. unfold io_then, mbind, io_bind. destruct (He w Hw Hf) as [Hk Hd].
  destruct (e w) as [x w']. cbn in *. exact (Hk w' eq_refl Hd).
Qed.
Lemma works_bind {A B} fs (e : IO A) (k : A -> IO B) Q :
  works fs e (fun x fs' => works fs' (k x) Q) -> works fs (e ≫= k) Q.
Proof. apply works_then. Qed.
Lemma works_weaken {A} fs (e : IO A) (Q Q' : A -> gmap string (list Byte) -> Prop) :
  works fs e Q -> (forall x fs', Q x fs' -> Q' x fs') -> works fs e Q'.
Proof. intros He HQ w Hw Hf. destruct (He w Hw Hf). auto. Qed.
Lemma works_fault fs (Q : Fault -> gmap string (list Byte) -> Prop) :
  Q Works fs -> works fs next_fault Q.
Proof. intros HQ w <- Hf. unfold next_fault. by rewrite Hf. Qed.
Lemma works_get fs p (Q : option (list Byte) -> gmap string (list Byte) -> Prop) :
  Q (fs !! p) fs -> works fs (get_file p) Q.
Proof. by intros HQ w <-. Qed.
Lemma works_put fs p d (Q : unit -> gmap string (list Byte) -> Prop) :
  Q tt (<[p := d]> fs) -> works fs (put_file p d) Q.
Proof. by intros HQ w <-. Qed.
Lemma works_drop fs p (Q : unit -> gmap string (list Byte) -> Prop) :
  Q tt (delete p fs) -> works fs (drop_file p) Q.
Proof. by intros HQ w <-. Qed.
Lemma works_write_through fs p d (Q : unit -> gmap string (list Byte) -> Prop) :
  Q tt (<[p := default [] (fs !! p) ++ d]> fs) -> works fs (write_through p d) Q.
Proof. intros HQ. by apply works_then, works_get, works_put. Qed.

Lemma works_fwrite fs p data more (Q : Handle * bool -> gmap string (list Byte) -> Prop) :
  Q (mkHandle p (data ++ more), true) fs -> works fs (fwrite (mkHandle p data) more) Q.
Proof. intros HQ. by apply works_then, works_fault, works_ret. Qed.
Lemma works_fflush fs p data (Q : Handle * bool -> gmap string (list Byte) -> Prop) :
  Q (mkHandle p [], true) (<[p := default [] (fs !! p) ++ data]> fs) -> works fs (fflush (mkHandle p data)) Q.
Proof. intros HQ. by apply works_then, works_fault, works_bind, works_write_through, works_ret. Qed.
Lemma works_close fs p data (Q : Status -> gmap string (list Byte) -> Prop) :
  Q Status_success (<[p := default [] (fs !! p) ++ data]> fs) -> works fs (close_file (mkHandle p data)) Q.
Proof. intros HQ. by apply works_then, works_fault, works_bind, works_write_through, works_ret. Qed.
Lemma works_sync fs h (Q : Status -> gmap string (list Byte) -> Prop) :
  Q Status_success fs -> works fs (sync_file h) Q.
Proof. intros HQ. by apply works_then, works_fault, works_ret. Qed.
Lemma works_open_write fs p (Q : Result Handle -> gmap string (list Byte) -> Prop) :
  Q (Value (mkHandle p [])) (<[p := []]> fs) -> works fs (open_file p ModeWrite) Q.
Proof.
  intros HQ. apply works_then, works_fault, works_then, works_get, works_bind, works_put, works_ret. exact HQ.
Qed.
Lemma works_open_append fs p (Q : Result Handle -> gmap string (list Byte) -> Prop) :
  (forall fs', Q (Value (mkHandle p [])) fs') -> works fs (open_file p ModeAppend) Q.
Proof.
  intros HQ. apply works_then, works_fault, works_then, works_get.
  destruct (fs !! p); [by apply works_ret|]. by apply works_bind, works_put, works_ret.
Qed.

(** *** Operations within the bounds are acknowledged *)
Section progress.
Context (o : StoreOptions).
Abbreviation path name := (join (so_directory o) name) (only parsing).

Record live (s : Store) : Prop := {
  live_options : st_options s = o;
  live_open : st_closed s = false;
  live_handle : st_handle s = None \/ st_handle s = Some (mkHandle (path kJournalName) [])
}.

(** From [bytes] in the journal, every operation is within the bounds. *)
Fixpoint within (bytes : Z) (ops : list StoreOp) : Prop :=
  match ops with
  | [] => True
  | OpAppend payload :: ops =>
    zlen payload + 48 <= so_max_record_bytes o /\
    bytes + (zlen payload + 48) <= so_max_journal_bytes o /\ within (bytes + (zlen payload + 48)) ops
  | OpRotate payload :: ops => zlen payload + 48 <= so_max_record_bytes o /\ within 0 ops
  end.

Lemma append_works s fs payload :
  live s -> zlen payload + 48 <= so_max_record_bytes o ->
  st_journal_bytes s + (zlen payload + 48) <= so_max_journal_bytes o ->
  works fs (append_record s payload) (fun '(s', status) _ =>
    status = Status_success /\ live s' /\ st_journal_bytes s' = st_journal_bytes s + (zlen payload + 48)).
Proof.
  intros [Ho Hc Hh] Hr Hj. unfold append_record. rewrite Hc. apply works_then.
  assert (Hopen : works fs (ensure_appender s) (fun '(s', opened) _ =>
    s' = s <| st_handle := Some (mkHandle (path kJournalName) []) |>)).
  { unfold ensure_appender, store_path. destruct Hh as [-> | Hs].
    - apply works_then. rewrite Ho. apply works_open_append. intros fs'. by apply works_ret.
    - rewrite Hs. apply works_ret. destruct s; cbn in *. by subst. }
  eapply works_weaken; [exact Hopen|]. intros [s1 opened] fs1 ->. set (s1 := s <| st_handle := _ |>).
  change (st_handle s1) with (Some (mkHandle (path kJournalName) [])).
  change (st_options s1) with (st_options s). change (st_journal_bytes s1) with (st_journal_bytes s).
  cbn beta iota zeta. rewrite !Ho, frame_length.
  destruct (Z.ltb_spec (so_max_record_bytes o) (zlen payload + 48)); [lia|].
  destruct (Z.ltb_spec (so_max_journal_bytes o) (st_journal_bytes s + (zlen payload + 48))); [lia|].
  apply works_then, works_fwrite. cbn [fst snd negb app].
  apply works_then, works_fflush. cbn [fst snd negb].
  match goal with |- works ?f _ _ => generalize f end. intros fs2.
  apply works_then.
  assert (Hsync : works fs2 (if so_fsync o then sync_file (mkHandle (path kJournalName) [])
      else mret Status_success) (fun synced fs' => synced = Status_success)).
  { destruct (so_fsync o); [by apply works_sync|by apply works_ret]. }
  eapply works_weaken; [exact Hsync|]. intros synced fs3 ->.
  change (status_ok Status_success) with true. cbn [negb]. apply works_ret.
  split_and!; [done|split; [done|done|by right]|done].
Qed.

(** Closing the journal leaves the snapshot alone. *)
Lemma close_journal_works fs s :
  live s ->
  works fs (match st_handle s with Some handle => close_file handle | None => mret Status_success end)
    (fun status fs' => status = Status_success /\ fs' !! path kSnapshotName = fs !! path kSnapshotName).
Proof.
  intros [_ _ [-> | ->]]; [by apply works_ret|]. apply works_close. split; [done|].
  by rewrite lookup_insert_ne by (by intros ?%join_inj).
Qed.

Lemma write_snapshot_works s fs framed :
  st_options s = o ->
  works fs (write_snapshot s framed) (fun status fs' =>
    status = Status_success /\ fs' !! path kSnapshotName = Some framed).
Proof.
  intros Ho. unfold write_snapshot, store_path. rewrite Ho. cbn zeta.
  apply works_then, works_then, works_fault, works_bind, works_drop, works_ret.
  change (status_ok Status_success) with true. cbn [negb].
  apply works_then, works_open_write, works_then, works_fwrite. cbn [fst snd negb app].
  apply works_then, works_fflush. cbn [fst snd negb]. rewrite lookup_insert_eq.
  apply works_then, works_sync, works_then, works_close.
  change (status_ok Status_success) with true. cbn [negb].
  apply works_then, works_fault, works_then, works_get. rewrite !lookup_insert_eq.
  apply works_bind, works_put, works_bind, works_drop, works_ret. split; [done|].
  rewrite lookup_delete_ne by (by intros ?%join_inj). rewrite lookup_insert_eq.
  cbn [default from_option id app]. by rewrite app_nil_r.
Qed.

Lemma sync_works fs (sync : bool) h :
  works fs (if sync then sync_file h else mret Status_success) (fun synced fs' => synced = Status_success /\ fs' = fs).
Proof. destruct sync; [by apply works_sync|by apply works_ret]. Qed.

Lemma empty_journal_works s fs framed :
  live s -> fs !! path kSnapshotName = Some framed ->
  works fs (empty_journal s) (fun '(s', status) fs' =>
    status = Status_success /\ s' = s <| st_handle := None |> /\
    fs' !! path kSnapshotName = Some framed /\ fs' !! path kJournalName = Some []).
Proof.
  intros Hlive Hfs1. pose proof Hlive as [Ho Hc Hh]. unfold empty_journal, store_path. apply works_then.
  eapply works_weaken; [by apply close_journal_works|]. intros closed fs2 [-> Hfs2]. rewrite Hfs1 in Hfs2.
  change (status_ok Status_success) with true. cbn [negb]. cbn zeta.
  change (st_options (s <| st_handle := None |>)) with (st_options s). rewrite Ho.
  apply works_then, works_open_write, works_then, works_fflush. cbn [fst snd negb]. apply works_then.
  rewrite lookup_insert_eq. cbn [default from_option id app]. rewrite insert_insert_eq.
  set (fs3 := <[path kJournalName := []]> fs2).
  assert (H3 : fs3 !! path kSnapshotName = Some framed /\ fs3 !! path kJournalName = Some []).
  { unfold fs3. rewrite lookup_insert_eq. split; [|done].
    by rewrite lookup_insert_ne by (by intros ?%join_inj). }
  eapply works_weaken; [apply sync_works|]. intros synced fs4 [-> ->].
  apply works_then, works_close. change (status_ok Status_success) with true. cbn [negb].
  apply works_ret. destruct H3 as [H3 H3']. rewrite H3'. cbn [default from_option id app].
  split_and!; [done|done| |by rewrite lookup_insert_eq].
  by rewrite lookup_insert_ne by (by intros ?%join_inj).
Qed.

Lemma rotate_works s fs payload :
  live s -> zlen payload + 48 <= so_max_record_bytes o ->
  works fs (rotate s payload) (fun '(s', status) fs' =>
    status = Status_success /\ live s' /\ st_journal_bytes s' = 0 /\ st_handle s' = None /\
    fs' !! path kSnapshotName = Some (snapshot_frame o payload) /\ fs' !! path kJournalName = Some []).
Proof.
  intros Hlive Hr. pose proof Hlive as [Ho Hc Hh]. unfold rotate. rewrite Hc, Ho, frame_length.
  cbn beta iota zeta.
  destruct (Z.ltb_spec (so_max_record_bytes o) (zlen payload + 48)); [lia|].
  fold (snapshot_frame o payload). generalize (snapshot_frame o payload) as framed.
  intros framed. apply works_then.
  eapply works_weaken; [by apply write_snapshot_works|]. intros replaced fs1 [-> Hfs1].
  change (status_ok Status_success) with true. cbn [negb]. apply works_then.
  eapply works_weaken; [by apply empty_journal_works|]. intros [s1 status] fs2 (-> & -> & H1 & H2).
  change (status_ok Status_success) with true. cbn [negb]. apply works_ret.
  split_and!; [done|split; [done|done|by left]|done|done|done|done].
Qed.

Lemma run_ops_works ops s fs :
  live s -> within (st_journal_bytes s) ops ->
  works fs (run_ops s ops) (fun r _ => ses_acknowledged r = ops /\ ses_failed r = None).
Proof.
  revert s fs. induction ops as [|op ops IH]; intros s fs Hl Hw; cbn [run_ops]; [by apply works_ret|].
  assert (Hop : works fs (store_op s op) (fun '(s', status) _ =>
    status = Status_success /\ live s' /\ within (st_journal_bytes s') ops)).
  { destruct op as [payload|payload]; cbn [store_op].
    - destruct Hw as (H1 & H2 & H3). eapply works_weaken; [by apply append_works|].
      intros [s' status] _ (-> & Hl' & ->). done.
    - destruct Hw as (H1 & H2). eapply works_weaken; [by apply rotate_works|].
      intros [s' status] _ (-> & Hl' & -> & _). done. }
  apply works_then. eapply works_weaken; [exact Hop|]. intros [s' status] fs' (-> & Hl' & Hw').
  change (status_ok Status_success) with true. cbn iota. apply works_then.
  eapply works_weaken; [by apply IH|]. intros r fs'' [Hr Hnone]. apply works_ret. cbn. by rewrite Hr.
Qed.
End progress.

(** ** What a caller relies on *)

(** A store in an empty directory, for the witnesses. *)
Definition sample_options : StoreOptions :=
  StoreOptions_default <| so_directory := "/s" |> <| so_max_record_bytes := 64 |>
    <| so_max_journal_bytes := 200 |>.
Definition sample_world : World := mkWorld ∅ ["/s"] false [].
Definition sample_store : Store := mkStore sample_options StoreRecovery_default None true 0 0 false.
Definition sample_locked : World := sample_world <| w_locked := true |>.

Example sample_opened : store_open sample_options sample_world = (Value sample_store, sample_locked).
Proof. reflexivity. Qed.

Lemma sample_options_ok : options_ok sample_options ["/s"].
Proof. split; [|by split|by split]. split; [done|by apply list_elem_of_singleton]. Qed.

Lemma sample_ready : ready sample_options sample_store ∅ None [].
Proof.
  split; [done|done| |done|by left]. split; [done|done| |by constructor|by left|].
  - by rewrite lookup_empty.
  - vm_compute. discriminate.
Qed.

(** A session; its third append is over the bound on records. *)
Definition sample_session : list StoreOp :=
  [OpAppend [1]; OpRotate [7]; OpAppend [2]; OpAppend (repeat 0 17); OpAppend [3; 4]; OpRotate [8]].
(** The calls of the session up to the last snapshot, then everything fails. *)
Definition sample_faults : list Fault :=
  replicate 30 Works ++ replicate 40 (Fails 3 "lost").

(** C1. Let a session of appends and rotations go on after refusals for a bound and end at
    its first other failure, or in the call in which the process dies.  Whatever the
    operating system does in any of its calls, and after however many bytes a write is cut
    short, the next process opens and loads the store: it finds every acknowledged operation, nothing of
    those refused for a bound, and of the operation that failed nothing, all, or (for a
    rotation) the new snapshot before the records it covers are dropped.  The reopened
    store is ready to go on from what it found.  (A session that goes on after a failure
    is not covered: an append behind a failed one can make the journal unreadable, see
    [append_after_failed_append].) *)
Theorem store_crash_recovery o s ops w d :
  options_ok o (w_dirs w) -> ready o s (w_files w) d.1 d.2 ->
  let '(r, w') := run_ops s ops w in
  exists d' s1 w1 s2 recovery w2,
    survives (foldl apply_op d (ses_acknowledged r)) (ses_failed r) d' /\
    store_open o (after_crash w') = (Value s1, w1) /\
    store_load s1 w1 = (s2, mkLoaded (Value recovery) (default [] d'.1) d'.2, w2) /\
    ready o s2 (w_files w2) d'.1 d'.2.
Proof.
  intros Hok Hr.
  destruct (run_ops_runs o (proj2 (opt_width _ _ Hok)) ops s (w_files w) d Hr w eq_refl) as [Hn Hd].
  destruct (run_ops s ops w) as [r w']. destruct Hn as [(d' & Hd' & Hs) _]. cbn [fst snd] in *.
  rewrite <-Hd in Hok. destruct (reopened_ready o w' d' Hok Hd')
    as (s1 & w1 & s2 & recovery & w2 & H1 & H2 & H3).
  by exists d', s1, w1, s2, recovery, w2.
Qed.

Lemma store_crash_recovery_witness :
  let '(r, w') := run_ops sample_store sample_session (sample_locked <| w_faults := sample_faults |>) in
  exists d' s1 w1 s2 recovery w2,
    survives (foldl apply_op (None, []) (ses_acknowledged r)) (ses_failed r) d' /\
    store_open sample_options (after_crash w') = (Value s1, w1) /\
    store_load s1 w1 = (s2, mkLoaded (Value recovery) (default [] d'.1) d'.2, w2) /\
    ready sample_options s2 (w_files w2) d'.1 d'.2.
Proof.
  apply (store_crash_recovery sample_options sample_store sample_session
    (sample_locked <| w_faults := sample_faults |>) (None, []));
    [exact sample_options_ok|exact sample_ready].
Defined.

(** C32. When every call works, every operation within the bounds is acknowledged: an
    append is refused only for its size or a full journal, and a rotation makes room
    again. *)
Theorem operations_within_bounds_succeed o s ops w :
  live o s -> within o (st_journal_bytes s) ops -> w_faults w = [] ->
  ses_acknowledged (run_ops s ops w).1 = ops /\ ses_failed (run_ops s ops w).1 = None.
Proof. intros Hl Hw Hf. exact (proj1 (run_ops_works o ops s (w_files w) Hl Hw w eq_refl Hf)). Qed.

Definition sample_fitting : list StoreOp :=
  [OpAppend [1]; OpRotate [7]; OpAppend [2]; OpAppend [3; 4]; OpRotate [8]].
Lemma operations_within_bounds_succeed_witness :
  ses_acknowledged (run_ops sample_store sample_fitting sample_locked).1 = sample_fitting /\
  ses_failed (run_ops sample_store sample_fitting sample_locked).1 = None.
Proof.
  apply (operations_within_bounds_succeed sample_options sample_store sample_fitting); [|by cbn|done].
  by split; [| |left].
Defined.

(** *** The lock *)
Definition same_but_temp (o : StoreOptions) (fs fs' : gmap string (list Byte)) : Prop :=
  fs' = fs \/ fs' = delete (join (so_directory o) kSnapshotTempName) fs.

(** Calls that leave the files and the lock alone. *)
Definition quiet {A} (e : IO A) : Prop :=
  forall w, w_files (e w).2 = w_files w /\ w_locked (e w).2 = w_locked w.

Lemma quiet_ret {A} (x : A) : quiet (mret x).
Proof. done. Qed.
Lemma quiet_then {A B} (e : IO A) (k : A -> IO B) :
  quiet e -> (forall x, quiet (k x)) -> quiet (io_then e k).
Proof.
  intros He Hk w. unfold io_then, mbind, io_bind. specialize (He w). destruct (e w) as [x w'].
  destruct (Hk x w') as [-> ->]. exact He.
Qed.
Lemma quiet_fault : quiet next_fault.
Proof. intros w. unfold next_fault. by destruct (w_faults w). Qed.
Lemma quiet_file_exists p : quiet (file_exists p).
Proof. apply quiet_then; [apply quiet_fault|]. by intros []. Qed.
Lemma quiet_file_size p : quiet (file_size_of p).
Proof.
  apply quiet_then; [apply quiet_fault|]. intros []; apply quiet_then; [done| |done|]; by intros [].
Qed.
Lemma quiet_ensure_directory d : quiet (ensure_directory d).
Proof.
  apply quiet_then; [apply quiet_fault|]. intros []; [|done].
  apply quiet_then; [done|]. intros dirs. case_bool_decide; [done|].
  apply quiet_then; [apply quiet_fault|]. by intros [].
Qed.

Lemma quiet_step {A B} (e : IO A) (k : A -> IO B) (P : B * World -> Prop) w :
  quiet e -> (forall x w', w_files w' = w_files w -> w_locked w' = w_locked w -> P (k x w')) ->
  P (io_then e k w).
Proof.
  intros He Hk. unfold io_then, mbind, io_bind. specialize (He w). destruct (e w) as [x w'].
  destruct He as [Hf Hl]. by apply Hk.
Qed.

Lemma remove_file_locked p w :
  w_locked (remove_file p w).2 = w_locked w /\
  (w_files (remove_file p w).2 = w_files w \/ w_files (remove_file p w).2 = delete p (w_files w)).
Proof.
  unfold remove_file. apply (quiet_step next_fault _ (fun r => w_locked r.2 = w_locked w /\
    (w_files r.2 = w_files w \/ w_files r.2 = delete p (w_files w))) w quiet_fault).
  intros [] w' Hf Hl; [|by split; [|left]]. split; [done|]. right.
  change (delete p (w_files w') = delete p (w_files w)). by rewrite Hf.
Qed.

Lemma acquire_lock_spec p w :
  let '(status, w') := acquire_lock p w in
  w_files w' = w_files w /\
  (if status_ok status then w_locked w = false /\ w_locked w' = true else w_locked w' = w_locked w).
Proof.
  unfold acquire_lock. apply (quiet_step next_fault _ (fun r => let '(status, w') := r in
    w_files w' = w_files w /\
    (if status_ok status then w_locked w = false /\ w_locked w' = true else w_locked w' = w_locked w))
    w quiet_fault).
  intros [] w' Hf Hl; [|done]. unfold io_then, mbind, io_bind, try_lock. rewrite Hl.
  destruct (w_locked w) eqn:Hw; cbn; [|done]. by rewrite Hl.
Qed.

Definition open_excludes (o : StoreOptions) (w : World) (r : Result Store * World) : Prop :=
  same_but_temp o (w_files w) (w_files r.2) /\
  match r.1 with
  | Value s => w_locked w = false /\ w_locked r.2 = true /\ st_lock s = true /\ st_options s = o
  | Failed _ => w_locked r.2 = w_locked w
  end.

(** At most one store has the directory: an open succeeds only when nobody holds the
    lock, and then holds it.  Whether it succeeds or not, and whatever calls fail, it
    touches neither the snapshot nor the journal. *)
Theorem store_open_excludes o w : open_excludes o w (store_open o w).
Proof.
  assert (Hno : forall st w', w_files w' = w_files w -> w_locked w' = w_locked w ->
    open_excludes o w (Failed st, w')) by (by split; [left|]).
  unfold store_open. case_bool_decide; [by apply Hno|]. destruct (_ || _); [by apply Hno|].
  apply quiet_step; [apply quiet_ensure_directory|]. intros prepared w1 Hf1 Hl1.
  destruct (status_ok prepared); cbn [negb]; [|by apply Hno].
  apply quiet_step; [apply quiet_file_exists|]. intros found_snapshot w2 Hf2 Hl2.
  apply quiet_step; [apply quiet_file_exists|]. intros found_journal w3 Hf3 Hl3.
  apply quiet_step; [apply quiet_file_exists|]. intros found_temp w4 Hf4 Hl4.
  set (removal := if found_temp then _ else _).
  assert (Htemp : same_but_temp o (w_files w) (w_files (removal w4).2) /\
    w_locked (removal w4).2 = w_locked w).
  { unfold removal. destruct found_temp; cbn.
    - destruct (remove_file_locked (join (so_directory o) kSnapshotTempName) w4) as [-> [-> | ->]];
        (split; [|congruence]); [left|right]; congruence.
    - split; [left|]; congruence. }
  unfold io_then at 1, mbind at 1, io_bind at 1.
  destruct (removal w4) as [removed w5]. cbn [fst snd] in Htemp. destruct Htemp as [Hf5 Hl5].
  destruct (status_ok removed); cbn [negb]; [|by split].
  unfold io_then at 1, mbind at 1, io_bind at 1.
  pose proof (acquire_lock_spec (join (so_directory o) kLockName) w5) as Hlock.
  destruct (acquire_lock _ w5) as [locked w6]. destruct Hlock as [Hf6 Hl6].
  destruct (status_ok locked); cbn [negb]; [|by split; cbn; [rewrite Hf6|congruence]].
  destruct Hl6 as [Hl6 Hl6'].
  apply quiet_step; [destruct found_journal; [apply quiet_file_size|done]|].
  intros size w7 Hf7 Hl7. split; cbn; [by rewrite Hf7, Hf6|]. split_and!; congruence.
Qed.

(** *** Damage that is taken for a torn tail *)

(** A journal record whose length field was overwritten. *)
Definition corrupt_length (length : Z) (framed : list Byte) : list Byte :=
  take 12 framed ++ put_u32 length ++ drop 16 framed.

Lemma corrupt_length_header o length payload :
  in_width u32_max length ->
  corrupt_length length (event_frame o payload) =
    record_header (so_format_version o) (so_semantic_version o) RecordKind.Event length ++
    payload ++ sha256 payload.
Proof.
  intros [H0 H1]. unfold corrupt_length, event_frame. rewrite frame_split.
  rewrite (drop_app_length' (record_header _ _ _ _)) by by rewrite record_header_length.
  set (start := put_u32 kFrameMagic ++ put_u16 (Z.land (so_format_version o) 0xFFFF) ++
    put_u16 (Z.land (so_semantic_version o) 0xFFFF) ++ [enum_ordinal RecordKind.Event; 0; 0; 0]).
  assert (Hh : forall n, record_header (so_format_version o) (so_semantic_version o) RecordKind.Event n =
    start ++ put_u32 (n mod 2 ^ 32)) by (intros; unfold record_header, start; by rewrite <-!app_assoc).
  assert (Hp : List.length start = 12%nat).
  { unfold start, put_u32, put_u16. by rewrite !length_app, !put_le_length. }
  rewrite !Hh, (Z.mod_small length) by (unfold u32_max in H1; lia).
  rewrite <-!app_assoc, take_app_length' by done. done.
Qed.

(** A corrupted length field in the middle of the journal is not refused as damage of
    live data: when the announced length runs past the end of the file, loading takes the
    record for a torn tail and drops it with all records after it. *)
Theorem corrupted_length_drops_records o pre payload post length :
  Forall (fits o) pre -> in_width u32_max length -> length <= so_max_record_bytes o ->
  zlen payload + zlen (journal o post) < length ->
  let raw := journal o pre ++ corrupt_length length (event_frame o payload) ++ journal o post in
  read_journal (List.length raw) o raw 0 [] = (pre, JournalTorn (zlen (journal o pre))).
Proof.
  intros Hpre Hlen Hmax Hrun raw. unfold raw. rewrite corrupt_length_header, <-!app_assoc by done.
  set (tl := payload ++ sha256 payload ++ journal o post).
  set (header := record_header _ _ _ _).
  pose proof (journal_length o pre) as Hle.
  assert (H16 : List.length header = 16%nat) by apply record_header_length.
  assert (exists fuel, List.length (journal o pre ++ header ++ tl) = (List.length pre + S fuel)%nat)
    as [fuel ->].
  { exists (List.length (journal o pre ++ header ++ tl) - List.length pre - 1)%nat.
    rewrite !length_app. lia. }
  pose proof (read_journal_records o pre [] (header ++ tl) (S fuel) [] Hpre) as Hread.
  cbn [app] in Hread. rewrite zlen_nil, Z.add_0_l in Hread. rewrite Hread.
  apply read_journal_torn; [lia| |].
  - rewrite !zlen_app. unfold zlen at 3. rewrite H16. pose proof (zlen_nonneg tl). lia.
  - apply parse_frame_short; [done|done|]. unfold tl. rewrite !zlen_app.
    unfold zlen at 2. rewrite (proj1 (sha256_wf payload)). unfold kDigestBytes. lia.
Qed.

Lemma corrupted_length_drops_records_witness :
  let raw := journal sample_options [[1]] ++ corrupt_length 63 (event_frame sample_options [2]) ++
             journal sample_options [[3]] in
  read_journal (List.length raw) sample_options raw 0 [] = ([[1]], JournalTorn 49).
Proof.
  apply (corrupted_length_drops_records sample_options [[1]] [2] [[3]] 63).
  - by repeat constructor; vm_compute.
  - by split; vm_compute.
  - by vm_compute.
  - by vm_compute.
Defined.

(** A failing stat is taken for a missing file: loading then reports an empty store,
    successfully, whatever the directory holds. *)
Theorem failed_stat_loads_nothing s w n m e f faults :
  w_faults w = Fails n e :: Fails m f :: faults ->
  exists recovery s', (store_load s w).1 = (s', mkLoaded (Value recovery) [] []) /\
    sr_classification recovery = RecoveryClass.EmptyStore /\
    w_files (store_load s w).2 = w_files w.
Proof.
  intros Hf. destruct w as [files dirs locked fs]. cbn in Hf. subst fs.
  eexists _, _. split; [reflexivity|]. done.
Qed.

Lemma failed_stat_loads_nothing_witness :
  let w := mkWorld {["/s/fabric.snapshot" := snapshot_frame sample_options [7]]} ["/s"] true
             [Fails 0 "EIO"; Fails 0 "EIO"] in
  exists recovery s', (store_load sample_store w).1 = (s', mkLoaded (Value recovery) [] []) /\
    sr_classification recovery = RecoveryClass.EmptyStore /\ w_files (store_load sample_store w).2 = w_files w.
Proof. by eapply (failed_stat_loads_nothing sample_store). Defined.

(** A failed append leaves its first bytes in the journal; once a later append succeeds
    behind them, the journal is refused as damaged. *)
Example append_after_failed_append :
  let '((s1, status1), w1) := append_record sample_store [1]
    (sample_locked <| w_faults := [Works; Fails 20 "ENOSPC"] |>) in
  let '((s2, status2), w2) := append_record s1 [2] w1 in
  status_ok status1 = false /\ status_ok status2 = true /\
  (ld_result <$> recovers sample_options w2) =
    Some (Failed (refuse ReasonCode.StoreIntegrityFailure "frame digest mismatch")).
Proof. vm_compute. done. Qed.

(** A second process that is refused for the lock has removed the temporary snapshot the
    first one is writing. *)
Example refused_open_removes_temp :
  let w := mkWorld {["/s/fabric.snapshot.tmp" := [1]]} ["/s"] true [] in
  let '(r, w') := store_open sample_options w in
  r = Failed (refuse ReasonCode.StoreAlreadyOpen "store is already open elsewhere") /\ w_files w' = ∅.
Proof. vm_compute. done. Qed.

(** What the session above leaves: one append was refused for its size, four operations
    are acknowledged, and the rotation in progress left its snapshot in front of the
    records it covers. *)
Example sample_recovered :
  let '(r, w) := run_ops sample_store sample_session (sample_locked <| w_faults := sample_faults |>) in
  ses_acknowledged r = [OpAppend [1]; OpRotate [7]; OpAppend [2]; OpAppend [3; 4]] /\
  ses_failed r = Some (OpRotate [8]) /\
  (ld_records <$> recovers sample_options w) = Some [[2]; [3; 4]] /\
  (ld_snapshot <$> recovers sample_options w) = Some [8].
Proof. vm_compute. done. Qed.
