(* ===== verification/Reducers.v ===== *)
(** * The reducers

    [src/engine/runtime.cpp], the reducers of every event but the intent: each
    takes the state and the event and returns the state it leaves and its
    [ApplyResult], with the guards in the order of the program.  A device found in
    the topology is updated at its position, an instance at the position
    [find_instance] finds. *)

From S2P Require Import Prelude Std Reason Types Version Resources Bounded Digest Json JsonArchive Archive Model.
From S2P Require Import Codec Authority Dependency Planner State.
#[local] Open Scope Z_scope.

(** ** Time and coordinator *)
Definition reduce_time (s : RuntimeState) (body : LogicalTimeAdvanced)
  : RuntimeState * ApplyResult :=
  if ladv_now body <? rs_clock s then
    (s, refused_at DecisionKind.Ingest ReasonCode.StaleGeneration "<clock>"
          "logical time cannot move backwards")
  else
    (refresh_health (s <| rs_clock := ladv_now body |>),
     applied DecisionKind.Ingest ReasonCode.Ok
       [explanation ReasonCode.Ok DecisionKind.Ingest "<clock>" "logical time advanced"]).

(** The grants are fenced before the epoch is advanced: a refusal of
    [advance_epoch] leaves them fenced. *)
Definition reduce_coordinator (s : RuntimeState) (event : FabricEvent) (body : CoordinatorAdvanced)
  : RuntimeState * ApplyResult :=
  if cadv_epoch body <? rs_epoch s then
    (s, refused_at DecisionKind.Authority ReasonCode.EpochRegressed (cadv_coordinator body)
          "coordinator epoch cannot regress")
  else
  let '(authority, released) := fence_all (rs_authority s) in
  let s := s <| rs_authority := authority |> in
  let '(fences, advanced) := advance_epoch (rs_fences s) (cadv_epoch body) (rs_boot s) in
  let s := s <| rs_fences := fences |> in
  if negb (status_ok advanced) then
    (s, refused DecisionKind.Authority (status_code advanced) (status_detail advanced))
  else
    (s <| rs_epoch := cadv_epoch body |>
       <| rs_coordinator := if id_valid (cadv_coordinator body) then cadv_coordinator body
                            else rs_coordinator s |>
       <| rs_instances := fence_instance (fe_at event) ReasonCode.StaleAuthority <$>
                          rs_instances s |>,
     applied DecisionKind.Authority ReasonCode.Ok
       [explanation ReasonCode.Ok DecisionKind.Authority (cadv_coordinator body)
          ("coordinator advanced to epoch " +:+ to_string (cadv_epoch body) +:+ "; " +:+
           to_string released +:+ " authority grants fenced")]).

(** ** Declarations *)
Definition reduce_service (s : RuntimeState) (body : ServiceDeclared) (bounds : RuntimeBounds)
  : RuntimeState * ApplyResult :=
  let service := sdecl_service body in
  let ok := replica_policy_validate (svc_replicas service) (max_replicas_per_service bounds) in
  let existing := find_service (rs_services s) (svc_id service) in
  if negb (id_valid (svc_id service)) || negb (version_valid (svc_version service)) then
    (s, refused_at DecisionKind.Lifecycle ReasonCode.InvalidIdentity (svc_id service)
          "service identity or version missing")
  else if max_text_bytes bounds <? slen (svc_display_name service) then
    (s, refused DecisionKind.Lifecycle ReasonCode.OversizedInput
          "service display name exceeds bound")
  else if negb (status_ok ok) then
    (s, refused_at DecisionKind.Lifecycle (status_code ok) (svc_id service)
          "invalid replica policy")
  else if max_capabilities_per_dpu bounds <?
          zlen (compat_capabilities (svc_compatibility service)) then
    (s, refused DecisionKind.Lifecycle ReasonCode.BoundExceeded
          "capability requirement count exceeds bound")
  else if existsb (fun r => negb (id_valid (creq_key r)))
            (compat_capabilities (svc_compatibility service)) then
    (s, refused DecisionKind.Lifecycle ReasonCode.InvalidIdentity
          "capability requirement without a key")
  else if from_option (fun e => version_lt (svc_version service) (svc_version e)) false existing then
    (s, refused_at DecisionKind.Lifecycle ReasonCode.GenerationRegressed (svc_id service)
          "service version cannot regress")
  else if bool_decide (existing = None) && (max_services bounds <=? zlen (rs_services s)) then
    (s, refused DecisionKind.Lifecycle ReasonCode.BoundExceeded "service table full")
  else
    let services :=
      match existing with
      | None => rs_services s ++ [service]
      | Some _ =>
        (fun candidate => if bool_decide (svc_id candidate = svc_id service) then service
                          else candidate) <$> rs_services s
      end in
    (s <| rs_services := std_sort (lt_by svc_id str_lt) services |>,
     applied DecisionKind.Lifecycle ReasonCode.Ok
       [explanation ReasonCode.Ok DecisionKind.Lifecycle (svc_id service)
          ("service declared at version " +:+ version_to_string (svc_version service))]).

Definition reduce_group (s : RuntimeState) (body : GroupDeclared) (bounds : RuntimeBounds)
  : RuntimeState * ApplyResult :=
  let group := gdecl_group body in
  let ok := anti_affinity_validate (grp_anti_affinity group) in
  let existing := find_group (rs_groups s) (grp_id group) in
  if negb (id_valid (grp_id group)) then
    (s, refused DecisionKind.Lifecycle ReasonCode.InvalidIdentity "group identity missing")
  else if max_services bounds <? zlen (grp_members group) then
    (s, refused DecisionKind.Lifecycle ReasonCode.BoundExceeded "group membership exceeds bound")
  else if negb (status_ok ok) then
    (s, refused_at DecisionKind.Lifecycle (status_code ok) (grp_id group)
          "invalid anti-affinity policy")
  else
  match list_find (fun m => find_service (rs_services s) m = None) (grp_members group) with
  | Some (_, member) =>
    (s, refused_at DecisionKind.Lifecycle ReasonCode.ServiceNotDeclared (grp_id group)
          ("group member " +:+ member +:+ " is not declared"))
  | None =>
    if bool_decide (existing = None) && (max_services bounds <=? zlen (rs_groups s)) then
      (s, refused DecisionKind.Lifecycle ReasonCode.BoundExceeded "group table full")
    else
      let groups :=
        match existing with
        | None => rs_groups s ++ [group]
        | Some _ =>
          (fun candidate => if bool_decide (grp_id candidate = grp_id group) then group
                            else candidate) <$> rs_groups s
        end in
      (s <| rs_groups := std_sort (lt_by grp_id str_lt) groups |>,
       applied DecisionKind.Lifecycle ReasonCode.Ok
         [explanation ReasonCode.Ok DecisionKind.Lifecycle (grp_id group) "group declared"])
  end.

Definition reduce_dependency (s : RuntimeState) (body : DependencyDeclared) (bounds : RuntimeBounds)
  : RuntimeState * ApplyResult :=
  let d := ddecl_dependency body in
  let '(graph, built) :=
    graph_build DependencyGraph_default (rs_dependencies s ++ [d]) (max_dependencies bounds) in
  if negb (status_ok built) then
    (s, refused_at DecisionKind.Dependency (status_code built) (dep_id d) (status_detail built))
  else if bool_decide (find_service (rs_services s) (dep_from d) = None) ||
          bool_decide (find_service (rs_services s) (dep_to d) = None) then
    (s, refused_at DecisionKind.Dependency ReasonCode.ServiceNotDeclared (dep_id d)
          "dependency endpoint is not declared")
  else
    (s <| rs_dependencies := dg_edges graph |>,
     applied DecisionKind.Dependency ReasonCode.Ok
       [explanation ReasonCode.Ok DecisionKind.Dependency (dep_id d) "dependency declared"]).

(** ** Policy *)
Definition reduce_policy (s : RuntimeState) (event : FabricEvent) (body : PolicyAdvanced)
  : RuntimeState * ApplyResult :=
  let policy := padv_policy body in
  let refuse_policy code detail :=
    (s, refused_at DecisionKind.Eligibility code "<policy>" detail) in
  if negb (counter_valid (pol_generation policy)) then
    refuse_policy ReasonCode.InvalidIdentity "policy generation missing"
  else if pol_generation policy <? rs_policy_generation s then
    refuse_policy ReasonCode.StaleGeneration "policy generation regressed"
  else if negb (evidence_present (pol_evidence policy)) then
    refuse_policy ReasonCode.EvidenceMissing "policy carries no evidence reference"
  else if negb (fresh_at (pol_evidence policy) (fe_at event)) then
    refuse_policy ReasonCode.EvidenceStale "policy evidence is stale at the event instant"
  else if (pol_max_stage_batch policy =? 0) || (pol_max_instances_per_group policy =? 0) ||
          (pol_max_replicas_per_dpu_ceiling policy =? 0) ||
          (pol_evidence_validity_ticks policy =? 0) then
    refuse_policy ReasonCode.ValueOutOfRange "policy carries an impossible zero bound"
  else
    (s <| rs_policy := policy |> <| rs_policy_generation := pol_generation policy |>,
     applied DecisionKind.Eligibility ReasonCode.Ok
       [explanation ReasonCode.Ok DecisionKind.Eligibility "<policy>"
          ("policy generation " +:+ to_string (pol_generation policy) +:+ " accepted")]).

(** ** Topology *)

(** The loop over the sorted devices; [previous] is the identity before, if any. *)
Fixpoint admit_devices (s : RuntimeState) (at_ : LogicalInstant) (bounds : RuntimeBounds)
    (previous : option DpuId) (dpus : list DpuRecord) : ApplyResult + list DpuRecord :=
  match dpus with
  | [] => inr []
  | dpu :: rest =>
    if negb (id_valid (dpu_id dpu)) || negb (id_valid (dpu_attachment dpu)) ||
       negb (id_valid (dpu_domain dpu)) then
      inl (refused_at DecisionKind.Eligibility ReasonCode.InvalidIdentity (dpu_id dpu)
             "device record is missing an identity")
    else if bool_decide (previous = Some (dpu_id dpu)) then
      inl (refused_at DecisionKind.Eligibility ReasonCode.DuplicateIdentity (dpu_id dpu)
             ("duplicate device " +:+ dpu_id dpu))
    else
    let '(capabilities, ok) :=
      capability_normalize (dpu_capabilities dpu) (max_capabilities_per_dpu bounds) in
    if negb (status_ok ok) then
      inl (refused_at DecisionKind.Eligibility (status_code ok) (dpu_id dpu)
             ("invalid capability set for " +:+ dpu_id dpu))
    else
    let admitted :=
      dpu <| dpu_capabilities := capabilities |>
          <| dpu_capability_generation :=
               if counter_valid (dpu_capability_generation dpu) then dpu_capability_generation dpu
               else rs_capability_generation s |>
          <| dpu_health_fresh := evidence_present (dpu_health_evidence dpu) &&
               fresh_at (dpu_health_evidence dpu) at_ &&
               (dpu_health_observed_at dpu <=? ev_observed_at (dpu_health_evidence dpu)) |> in
    match admit_devices s at_ bounds (Some (dpu_id dpu)) rest with
    | inl refusal => inl refusal
    | inr rest => inr (admitted :: rest)
    end
  end.

(** What happens to the instances of a device that is gone. *)
Definition lose_instance (at_ : LogicalInstant) (id : DpuId) (i : InstanceState) : InstanceState :=
  if bool_decide (inst_dpu i = id) then
    (fence_instance at_ ReasonCode.DpuLost i) <| inst_state := LifecycleState.Lost |>
  else i.
Definition lose_device (at_ : LogicalInstant) (s : RuntimeState) (id : DpuId) : RuntimeState :=
  s <| rs_instances := lose_instance at_ id <$> rs_instances s |>
    <| rs_authority := release_device (rs_authority s) id |>.

Definition reduce_topology (s : RuntimeState) (event : FabricEvent) (body : TopologyObserved)
    (bounds : RuntimeBounds) : RuntimeState * ApplyResult :=
  let snapshot := tobs_snapshot body in
  if negb (counter_valid (topo_generation snapshot)) then
    (s, refused DecisionKind.Eligibility ReasonCode.InvalidIdentity "topology generation missing")
  else if topo_generation snapshot <? rs_topology_generation s then
    (s, refused_at DecisionKind.Eligibility ReasonCode.StaleGeneration "<topology>"
          "topology generation regressed")
  else if max_dpus bounds <? zlen (topo_dpus snapshot) then
    (s, refused DecisionKind.Eligibility ReasonCode.BoundExceeded "topology exceeds the DPU bound")
  else
  match admit_devices s (fe_at event) bounds None
          (std_sort (lt_by dpu_id str_lt) (topo_dpus snapshot)) with
  | inl refusal => (s, refusal)
  | inr dpus =>
    let candidate := snapshot <| topo_dpus := dpus |> in
    let removed :=
      filter (fun id => topology_find candidate id = None) (dpu_id <$> topo_dpus (rs_topology s)) in
    let s := s <| rs_topology := candidate |>
               <| rs_topology_generation := topo_generation snapshot |> in
    let s := foldl (lose_device (fe_at event)) s removed in
    let highest :=
      foldl (fun highest dpu => if highest <? dpu_capability_generation dpu
                                then dpu_capability_generation dpu else highest)
        (rs_capability_generation s) (topo_dpus (rs_topology s)) in
    (refresh_health (s <| rs_capability_generation := highest |>),
     applied DecisionKind.Eligibility ReasonCode.Ok
       [explanation ReasonCode.Ok DecisionKind.Eligibility "<topology>"
          ("accepted topology generation " +:+ to_string (topo_generation snapshot) +:+ " with " +:+
           to_string (zlen dpus) +:+ " devices")])
  end.

(** ** Device events *)

(** The device a pointer from [topology.find] designates: its position and record. *)
Definition find_device (s : RuntimeState) (id : DpuId) : option (nat * DpuRecord) :=
  match topology_find_index (rs_topology s) id with
  | Some i => (fun dpu => (i, dpu)) <$> topo_dpus (rs_topology s) !! i
  | None => None
  end.
Definition set_device (s : RuntimeState) (i : nat) (dpu : DpuRecord) : RuntimeState :=
  s <| rs_topology :=
         (rs_topology s) <| topo_dpus := <[i := dpu]> (topo_dpus (rs_topology s)) |> |>.

Definition reduce_capability (s : RuntimeState) (event : FabricEvent) (body : CapabilityObserved)
    (bounds : RuntimeBounds) : RuntimeState * ApplyResult :=
  let refuse_device code detail :=
    (s, refused_at DecisionKind.Eligibility code (cobs_dpu body) detail) in
  match find_device s (cobs_dpu body) with
  | None => refuse_device ReasonCode.DpuUnavailable "capability evidence for an unknown device"
  | Some (i, dpu) =>
    let '(candidate, ok) :=
      capability_normalize (cobs_capabilities body) (max_capabilities_per_dpu bounds) in
    if cobs_generation body <? dpu_capability_generation dpu then
      refuse_device ReasonCode.StaleGeneration "capability generation regressed"
    else if negb (status_ok ok) then
      refuse_device (status_code ok) "invalid capability set"
    else if negb (fresh_at (cobs_evidence body) (fe_at event)) then
      refuse_device ReasonCode.EvidenceStale "capability evidence is stale at the event instant"
    else if (ev_observed_at (cobs_evidence body) <? dpu_health_observed_at dpu) &&
            bool_decide (dpu_state dpu = DpuState.Lost) then
      refuse_device ReasonCode.EvidenceStale "capability evidence predates device loss"
    else
      let dpu := dpu
        <| dpu_capabilities := candidate |>
        <| dpu_capability_generation := cobs_generation body |>
        <| dpu_device_evidence := cobs_evidence body |>
        <| dpu_topology_generation :=
             if counter_valid (cobs_topology body) &&
                (dpu_topology_generation dpu <? cobs_topology body)
             then cobs_topology body else dpu_topology_generation dpu |> in
      let s := set_device s i dpu in
      (s <| rs_capability_generation :=
              if rs_capability_generation s <? cobs_generation body then cobs_generation body
              else rs_capability_generation s |>,
       applied DecisionKind.Eligibility ReasonCode.Ok
         [explanation ReasonCode.Ok DecisionKind.Eligibility (cobs_dpu body)
            ("capability generation " +:+ to_string (cobs_generation body) +:+ " accepted")])
  end.

Definition reduce_health (s : RuntimeState) (event : FabricEvent) (body : HealthObserved)
  : RuntimeState * ApplyResult :=
  let refuse_device code detail :=
    (s, refused_at DecisionKind.Eligibility code (hobs_dpu body) detail) in
  let evidence := hobs_evidence body in
  match find_device s (hobs_dpu body) with
  | None => refuse_device ReasonCode.DpuUnavailable "health evidence for an unknown device"
  | Some (i, dpu) =>
    if negb (evidence_present evidence) then
      refuse_device ReasonCode.EvidenceMissing "health evidence has no reference"
    else if ev_observed_at evidence <? dpu_health_observed_at dpu then
      refuse_device ReasonCode.EvidenceStale "health evidence predates the last invalidation"
    else if negb (fresh_at evidence (fe_at event)) then
      refuse_device ReasonCode.EvidenceStale "health evidence is stale at the event instant"
    else
      let dpu := dpu
        <| dpu_health := hobs_health body |>
        <| dpu_health_evidence := evidence |>
        <| dpu_health_observed_at := ev_observed_at evidence |>
        <| dpu_health_fresh :=
             if bool_decide (dpu_state dpu = DpuState.Lost) then false
             else fresh_at evidence (rs_clock s) || (rs_clock s <=? fe_at event) |> in
      (refresh_health (set_device s i dpu),
       applied DecisionKind.Eligibility ReasonCode.Ok
         [explanation ReasonCode.Ok DecisionKind.Eligibility (hobs_dpu body)
            ("health " +:+ enum_to_string (hobs_health body) +:+ " recorded with fresh evidence")])
  end.

Definition reduce_attached (s : RuntimeState) (event : FabricEvent) (body : DpuAttached)
  : RuntimeState * ApplyResult :=
  let refuse_device code detail :=
    (s, refused_at DecisionKind.Eligibility code (datt_dpu body) detail) in
  let evidence := datt_evidence body in
  match find_device s (datt_dpu body) with
  | None => refuse_device ReasonCode.DpuUnavailable "attachment for an unknown device"
  | Some (i, dpu) =>
    if negb (evidence_present evidence) || negb (fresh_at evidence (fe_at event)) then
      refuse_device (if evidence_present evidence then ReasonCode.EvidenceStale
                     else ReasonCode.EvidenceMissing) "attachment requires fresh evidence"
    else if ev_observed_at evidence <? dpu_health_observed_at dpu then
      refuse_device ReasonCode.EvidenceStale "attachment evidence predates the last invalidation"
    else if counter_valid (datt_topology body) &&
            (datt_topology body <? rs_topology_generation s) then
      refuse_device ReasonCode.StaleGeneration "attachment topology generation regressed"
    else
      let dpu := dpu
        <| dpu_state := DpuState.Attached |>
        <| dpu_attachment := if id_valid (datt_attachment body) then datt_attachment body
                             else dpu_attachment dpu |>
        <| dpu_domain := if id_valid (datt_domain body) then datt_domain body
                         else dpu_domain dpu |>
        <| dpu_device_evidence := evidence |>
        <| dpu_health := HealthState.Unknown |>
        <| dpu_health_fresh := false |>
        <| dpu_health_observed_at := ev_observed_at evidence |> in
      (set_device s i dpu,
       applied DecisionKind.Eligibility ReasonCode.Ok
         [explanation ReasonCode.Ok DecisionKind.Eligibility (datt_dpu body)
            "device attached with fresh evidence"])
  end.

Definition reduce_lost (s : RuntimeState) (event : FabricEvent) (body : DpuLost)
  : RuntimeState * ApplyResult :=
  match find_device s (dlost_dpu body) with
  | None =>
    (s, refused_at DecisionKind.Lifecycle ReasonCode.DpuUnavailable (dlost_dpu body)
          "loss reported for an unknown device")
  | Some (i, dpu) =>
    if bool_decide (dpu_state dpu = DpuState.Lost) then
      (s, mkApplyResult ReasonCode.DuplicateSuppressed false "device already reported lost" []
            DecisionKind.Lifecycle true)
    else
      let dpu := dpu
        <| dpu_state := DpuState.Lost |> <| dpu_health := HealthState.Unknown |>
        <| dpu_health_fresh := false |> <| dpu_health_observed_at := fe_at event |> in
      let affected := zlen (filter (fun x => inst_dpu x = dlost_dpu body) (rs_instances s)) in
      (lose_device (fe_at event) (set_device s i dpu) (dlost_dpu body),
       applied DecisionKind.Lifecycle ReasonCode.Ok
         [explanation ReasonCode.DpuLost DecisionKind.Lifecycle (dlost_dpu body)
            ("device lost; " +:+ to_string affected +:+
             " instances fenced and no continuity is claimed without fresh evidence")])
  end.

(** ** Instance events *)

(** The instances [reduce_quiesce] visits, and what it does to them. *)
Definition quiesces (service : ServiceId) (i : InstanceState) : bool :=
  bool_decide (inst_service i = service) &&
  negb (bool_decide (inst_state i = LifecycleState.Withdrawn)).
Definition quiesce_instance (at_ : LogicalInstant) (service : ServiceId) (i : InstanceState)
  : InstanceState :=
  if quiesces service i then
    (cancel_open_attempts at_ ReasonCode.QuiesceRequested LifecycleState.Quiescing i)
      <| inst_health_fresh := false |>
  else i.

Definition reduce_quiesce (s : RuntimeState) (event : FabricEvent) (body : QuiesceRequested)
  : RuntimeState * ApplyResult :=
  let affected := zlen (filter (fun i => quiesces (qreq_service body) i = true) (rs_instances s)) in
  (s <| rs_instances := quiesce_instance (fe_at event) (qreq_service body) <$> rs_instances s |>,
   mkApplyResult (if 0 <? affected then ReasonCode.Ok else ReasonCode.NoPlacementChange)
     (0 <? affected) ""
     [explanation ReasonCode.QuiesceRequested DecisionKind.Withdrawal (qreq_service body)
        (to_string affected +:+
         " instances quiesced; withdrawal still requires a verified effect")]
     DecisionKind.Withdrawal true).

(** The instance a pointer from [find_instance] designates. *)
Definition lookup_instance (s : RuntimeState) (id : InstanceId) : option (nat * InstanceState) :=
  match find_instance (rs_instances s) id with
  | Some i => (fun x => (i, x)) <$> rs_instances s !! i
  | None => None
  end.
Definition set_instance (s : RuntimeState) (i : nat) (x : InstanceState) : RuntimeState :=
  s <| rs_instances := <[i := x]> (rs_instances s) |>.

(** [instance->attempts.back()], changed. *)
Definition update_last (f : AttemptRecord -> AttemptRecord) (x : InstanceState) : InstanceState :=
  x <| inst_attempts := alter f (pred (length (inst_attempts x))) (inst_attempts x) |>.

Definition reduce_acknowledged (s : RuntimeState) (body : ExecutionAcknowledged)
  : RuntimeState * ApplyResult :=
  match lookup_instance s (eack_instance body) with
  | None =>
    (s, refused DecisionKind.Lifecycle ReasonCode.InstanceNotFound
          "acknowledgement for an unknown instance")
  | Some (i, x) =>
    if negb (fence_validate (rs_fences s) (eack_instance body) (eack_fence body)) then
      (s, refused_at DecisionKind.Lifecycle ReasonCode.FenceMismatch (eack_instance body)
            "acknowledgement carries a stale fence")
    else if negb (from_option (fun a => (att_number a =? eack_attempt body) && attempt_open a)
                    false (current_attempt x)) then
      (s, refused_at DecisionKind.Lifecycle ReasonCode.AttemptSuperseded (eack_instance body)
            "acknowledgement targets a superseded attempt")
    else
      (set_instance s i
         ((update_last (fun a => a <| att_phase := LifecycleState.Acknowledged |>) x)
            <| inst_state := LifecycleState.Acknowledged |>),
       applied DecisionKind.Lifecycle ReasonCode.AcknowledgementOnly
         [explanation ReasonCode.AcknowledgementOnly DecisionKind.Lifecycle (eack_instance body)
            "acknowledged; an acknowledgement is not a verified effect"])
  end.

(** Closing the last attempt. *)
Definition close_attempt (outcome : AttemptOutcome) (reason : ReasonCode) (phase : LifecycleState)
    (at_ : LogicalInstant) (a : AttemptRecord) : AttemptRecord :=
  a <| att_outcome := outcome |> <| att_close_reason := reason |> <| att_closed_at := at_ |>
    <| att_phase := phase |>.

(** The guards of [reduce_effect], in order: the refusal, if any. *)
Definition effect_refusal (s : RuntimeState) (event : FabricEvent) (report : EffectReport)
    (x : InstanceState) : option ApplyResult :=
  let refuse_report code detail :=
    Some (refused_at DecisionKind.Lifecycle code (er_instance report) detail) in
  let evidence := er_evidence report in
  match current_attempt x with
  | None =>
    refuse_report ReasonCode.AttemptSuperseded "effect report targets a superseded attempt"
  | Some attempt =>
    if negb (att_number attempt =? er_attempt report) then
      refuse_report ReasonCode.AttemptSuperseded "effect report targets a superseded attempt"
    else if negb (fence_validate (rs_fences s) (er_instance report) (er_fence report)) then
      refuse_report ReasonCode.FenceMismatch "effect report carries a stale fence"
    else if negb (attempt_open attempt) then
      refuse_report ReasonCode.AttemptNotOpen "effect report targets a closed attempt"
    else if negb (evidence_present evidence) then
      refuse_report ReasonCode.EvidenceMissing "effect report carries no evidence"
    else if ev_observed_at evidence <? inst_effect_fenced_at x then
      refuse_report ReasonCode.EvidenceStale
        "effect evidence predates the instance fencing instant"
    else if negb (fresh_at evidence (fe_at event)) then
      refuse_report ReasonCode.EvidenceStale "effect evidence is stale at the report instant"
    else if er_partial report || bool_decide (er_status report = EffectStatus.Partial) then
      refuse_report ReasonCode.EffectPartial "partial effect cannot be reported as success"
    else if bool_decide (er_status report = EffectStatus.Refused) then
      refuse_report ReasonCode.EffectReportUnmatched "executor refused the effect"
    else None
  end.

Definition reduce_effect (s : RuntimeState) (event : FabricEvent) (body : EffectReported)
  : RuntimeState * ApplyResult :=
  let report := erep_report body in
  let at_ := fe_at event in
  match lookup_instance s (er_instance report) with
  | None =>
    (s, refused_at DecisionKind.Lifecycle ReasonCode.InstanceNotFound (er_instance report)
          "effect report for an unknown instance")
  | Some (i, x) =>
    match effect_refusal s event report x with
    | Some refusal => (s, refusal)
    | None =>
      if bool_decide (er_status report = EffectStatus.Failed) then
        (set_instance s i
           ((update_last (close_attempt AttemptOutcome.Failed ReasonCode.EffectFailed
                            LifecycleState.Failed at_) x)
              <| inst_state := LifecycleState.Failed |> <| inst_health := HealthState.Unknown |>
              <| inst_health_fresh := false |>),
         applied DecisionKind.Lifecycle ReasonCode.EffectFailed
           [explanation ReasonCode.EffectFailed DecisionKind.Lifecycle (er_instance report)
              "executor reported failure; state is Failed"])
      else
      let x := update_last (close_attempt AttemptOutcome.Verified ReasonCode.Ok
                              LifecycleState.Verified at_) x in
      if bool_decide (er_kind report = EffectKind.Withdraw) then
        let x := fence_instance_without_state at_ ReasonCode.Withdrawn
          (x <| inst_state := LifecycleState.Withdrawn |>
             <| inst_health := HealthState.Unknown |> <| inst_health_fresh := false |>) in
        let s := set_instance s i x in
        (s <| rs_authority := release_device (rs_authority s) (inst_dpu x) |>,
         applied DecisionKind.Lifecycle ReasonCode.Withdrawn
           [explanation ReasonCode.Withdrawn DecisionKind.Withdrawal (er_instance report)
              "withdrawal verified; authority released"])
      else
        (set_instance s i
           (x <| inst_state := LifecycleState.Verified |>
              <| inst_verified_digest := er_effect_digest report |>
              <| inst_verified_at := at_ |>
              <| inst_verified_evidence := er_evidence report |>),
         applied DecisionKind.Lifecycle ReasonCode.Ok
           [explanation ReasonCode.Ok DecisionKind.Lifecycle (er_instance report)
              ("effect verified against attempt " +:+ to_string (er_attempt report))])
    end
  end.
