(* ===== verification/Intent.v ===== *)
(** * Placement intents and the dispatch of events

    [src/engine/runtime.cpp]: [reconcile], [reduce_intent] and [apply_event].  All
    changes of an intent are made on a trial copy of the state; a refusal returns
    the state it was given.  Dereferencing the empty [rollback_target] of a
    rollback intent has no defined result: there [reduce_intent] is [None]. *)

From S2P Require Import Prelude Std Reason Types Version Resources Bounded Digest Json JsonArchive Archive Model.
From S2P Require Import Codec Authority Dependency Planner State Reducers.
#[local] Open Scope Z_scope.

(** ** Reconciliation *)
Record ReconcileStats := mkReconcileStats {
  stats_created : Z;
  stats_replaced : Z;
  stats_unchanged : Z;
  stats_attempts : Z;
  stats_quiesced : Z
}.
#[export] Instance eta_ReconcileStats : Settable ReconcileStats := fun t =>
  mkReconcileStats (stats_created t) (stats_replaced t) (stats_unchanged t) (stats_attempts t)
    (stats_quiesced t).

(** A fresh attempt holding a fence. *)
Definition open_attempt (number : AttemptNumber) (phase : LifecycleState) (at_ : LogicalInstant)
    (digest : Digest) (fence : FenceToken) : AttemptRecord :=
  AttemptRecord_default <| att_number := number |> <| att_phase := phase |>
    <| att_outcome := AttemptOutcome.Open |> <| att_opened_at := at_ |>
    <| att_request_digest := digest |> <| att_fence := fence |>.

(** The number after the last attempt. *)
Definition next_attempt (x : InstanceState) : AttemptNumber :=
  match last (inst_attempts x) with
  | None => 1
  | Some a => saturating_next (att_number a)
  end.

Definition push_attempt (a : AttemptRecord) (x : InstanceState) : InstanceState :=
  x <| inst_attempts := inst_attempts x ++ [a] |>.

Section reconcile.
Context (plan : DeploymentPlan) (group : ServiceGroup) (at_ : LogicalInstant)
  (bounds : RuntimeBounds).

(** The instance created for a replica. *)
Definition created_instance (id : InstanceId) (service : ServiceId) (version : ServiceVersion)
    (replica : PlannedReplica) (fence : FenceToken) : InstanceState :=
  InstanceState_default
    <| inst_id := id |> <| inst_service := service |> <| inst_group := grp_id group |>
    <| inst_version := version |> <| inst_index := pr_index replica |>
    <| inst_incarnation := 1 |> <| inst_dpu := pr_dpu replica |>
    <| inst_attachment := pr_attachment replica |> <| inst_domain := pr_domain replica |>
    <| inst_deployment_generation := plan_generation plan |>
    <| inst_state := LifecycleState.Authorized |> <| inst_health := HealthState.Unknown |>
    <| inst_health_fresh := false |> <| inst_topology_generation := plan_topology plan |>
    <| inst_capability_generation := plan_capability plan |>
    <| inst_effect_fenced_at := at_ |> <| inst_fence_reason := ReasonCode.Ok |>
    <| inst_attempts := [open_attempt 1 LifecycleState.Authorized at_ (plan_digest plan) fence] |>
    <| inst_reasons := [explanation ReasonCode.Ok DecisionKind.Placement id
         ("instance authorized at generation " +:+ to_string (plan_generation plan))] |>.

Definition terminal (s : LifecycleState) : bool :=
  match s with
  | LifecycleState.Withdrawn | LifecycleState.Failed | LifecycleState.Lost => true
  | _ => false
  end.
Definition stale_attempt (x : InstanceState) : bool :=
  negb (from_option attempt_open false (current_attempt x)).

(** An instance moved to the replica's place: a new incarnation, fenced. *)
Definition replaced_instance (version : ServiceVersion) (replica : PlannedReplica)
    (x : InstanceState) : InstanceState :=
  fence_instance at_
    (if terminal (inst_state x) then ReasonCode.Superseded else ReasonCode.AttemptSuperseded)
    (x <| inst_incarnation := saturating_next (inst_incarnation x) |>
       <| inst_dpu := pr_dpu replica |> <| inst_attachment := pr_attachment replica |>
       <| inst_domain := pr_domain replica |> <| inst_version := version |>
       <| inst_deployment_generation := plan_generation plan |>
       <| inst_topology_generation := plan_topology plan |>
       <| inst_capability_generation := plan_capability plan |>).

(** Issue a fence and open an attempt under it. *)
Definition authorize (s : RuntimeState) (i : nat) (x : InstanceState) (id : InstanceId)
    (phase : LifecycleState) : Status + RuntimeState * InstanceState :=
  match fence_issue (rs_fences s) id with
  | (_, Failed status) => inl status
  | (fences, Value fence) =>
    let x := push_attempt (open_attempt (next_attempt x) phase at_ (plan_digest plan) fence) x in
    inr (set_instance (s <| rs_fences := fences |>) i x, x)
  end.

(** The body of the loop over the planned replicas. *)
Definition reconcile_replica (service_plan : ServicePlan)
    (acc : RuntimeState * ReconcileStats) (replica : PlannedReplica)
  : Status + RuntimeState * ReconcileStats :=
  let '(trial, stats) := acc in
  let version := sp_version service_plan in
  let id := make_instance_id (grp_id group) (sp_service service_plan) (pr_index replica) in
  match lookup_instance trial id with
  | None =>
    if max_instances bounds <=? zlen (rs_instances trial) then
      inl (refuse ReasonCode.BoundExceeded "instance table full")
    else
    match fence_issue (rs_fences trial) id with
    | (_, Failed status) => inl status
    | (fences, Value fence) =>
      inr (trial <| rs_fences := fences |>
             <| rs_instances := rs_instances trial ++
                  [created_instance id (sp_service service_plan) version replica fence] |>,
           stats <| stats_created := stats_created stats + 1 |>)
    end
  | Some (i, x) =>
    let placement_changed := negb (bool_decide (inst_dpu x = pr_dpu replica)) in
    let version_changed := negb (bool_decide (inst_version x = version)) in
    if placement_changed || version_changed || terminal (inst_state x) then
      match authorize trial i (replaced_instance version replica x) id
              LifecycleState.Authorized with
      | inl status => inl status
      | inr (trial, x) =>
        inr (set_instance trial i (x <| inst_state := LifecycleState.Authorized |>),
             stats <| stats_replaced := stats_replaced stats + 1 |>)
      end
    else if stale_attempt x then
      match authorize trial i x id LifecycleState.Authorized with
      | inl status => inl status
      | inr (trial, x) =>
        inr (set_instance trial i
               (x <| inst_state := LifecycleState.Authorized |>
                  <| inst_deployment_generation := plan_generation plan |>),
             stats <| stats_attempts := stats_attempts stats + 1 |>)
      end
    else
      inr (set_instance trial i (x <| inst_deployment_generation := plan_generation plan |>),
           stats <| stats_unchanged := stats_unchanged stats + 1 |>)
  end.

(** A loop whose body may return early. *)
Fixpoint fold_status {A B} (f : B -> A -> Status + B) (acc : B) (l : list A) : Status + B :=
  match l with
  | [] => inr acc
  | x :: l => match f acc x with inl status => inl status | inr acc => fold_status f acc l end
  end.

Definition planned_ids : list InstanceId := rollout_order group (plan_services plan).

(** Whether the plan no longer covers an instance of the group, or withdraws it. *)
Definition leaves_plan (x : InstanceState) : bool :=
  bool_decide (inst_group x = grp_id group) &&
  (bool_decide (inst_service x ∉ sp_service <$> plan_services plan) ||
   bool_decide (inst_id x ∉ planned_ids) ||
   bool_decide (plan_kind plan = IntentKind.Withdraw)) &&
  negb (bool_decide (inst_state x = LifecycleState.Withdrawn)).

(** The loop that quiesces the instances the plan leaves behind. *)
Definition quiesce_uncovered (acc : FenceIssuer * list InstanceState * ReconcileStats)
    (x : InstanceState) : Status + FenceIssuer * list InstanceState * ReconcileStats :=
  let '(fences, instances, stats) := acc in
  if negb (leaves_plan x) then inr (fences, instances ++ [x], stats)
  else
  let x := cancel_open_attempts at_ ReasonCode.QuiesceRequested LifecycleState.Quiescing x in
  let x := x <| inst_health_fresh := false |> in
  let stats := stats <| stats_quiesced := stats_quiesced stats + 1 |> in
  if negb (bool_decide (plan_kind plan = IntentKind.Withdraw)) then
    inr (fences, instances ++ [x], stats)
  else
  match fence_issue fences (inst_id x) with
  | (_, Failed status) => inl status
  | (fences, Value fence) =>
    let a := open_attempt (next_attempt x) LifecycleState.Quiescing at_ (plan_digest plan) fence in
    inr (fences, instances ++ [push_attempt a x], stats)
  end.

Definition reconcile_explanation (stats : ReconcileStats) : Explanation :=
  explanation ReasonCode.Ok DecisionKind.Placement (grp_id group)
    ("instances created=" +:+ to_string (stats_created stats) +:+ " replaced=" +:+
     to_string (stats_replaced stats) +:+ " reattempted=" +:+ to_string (stats_attempts stats) +:+
     " unchanged=" +:+ to_string (stats_unchanged stats) +:+ " quiesced=" +:+
     to_string (stats_quiesced stats)).

(** [reconcile] *)
Definition reconcile (trial : RuntimeState) : Status + RuntimeState * list Explanation :=
  match fold_status (fun acc service_plan =>
          fold_status (reconcile_replica service_plan) acc (sp_replicas service_plan))
          (trial, mkReconcileStats 0 0 0 0 0) (plan_services plan) with
  | inl status => inl status
  | inr (trial, stats) =>
    match fold_status quiesce_uncovered (rs_fences trial, [], stats) (rs_instances trial) with
    | inl status => inl status
    | inr (fences, instances, stats) =>
      inr (trial <| rs_fences := fences |> <| rs_instances := instances |>,
           [reconcile_explanation stats])
    end
  end.
End reconcile.

(** ** Intents *)
Section intent.
Context (bounds : RuntimeBounds) (weights : PlacementWeights) (s : RuntimeState)
  (event : FabricEvent) (intent : PlacementIntent) (group : ServiceGroup).

(** The guards before the trial copy. *)
Definition intent_gate : option ApplyResult :=
  let refuse_intent code detail :=
    Some (refused_at DecisionKind.Placement code (int_id intent) detail) in
  if negb (counter_valid (int_generation intent)) then
    Some (refused DecisionKind.Placement ReasonCode.InvalidIdentity "intent generation missing")
  else if negb (counter_valid (rs_topology_generation s)) then
    refuse_intent ReasonCode.EvidenceMissing "no topology generation has been accepted"
  else if negb (policy_valid (rs_policy s)) then
    refuse_intent ReasonCode.EvidenceMissing "no policy generation has been accepted"
  else if int_generation intent <? rs_deployment_generation s then
    refuse_intent ReasonCode.PlanGenerationRegressed "deployment generation regressed"
  else if (int_generation intent =? rs_deployment_generation s) &&
          negb (bool_decide (int_kind intent = IntentKind.Withdraw)) then
    refuse_intent ReasonCode.NoPlacementChange "deployment generation already accepted"
  else None.

(** The plan of a withdrawal: the services, with no replicas. *)
Fixpoint withdraw_services (entries : list ServiceReplicaIntent)
  : ApplyResult + list ServicePlan :=
  match entries with
  | [] => inr []
  | entry :: rest =>
    match find_service (rs_services s) (sri_service entry) with
    | None =>
      inl (mkApplyResult ReasonCode.ServiceNotDeclared false
             "withdrawal names an undeclared service"
             [explanation ReasonCode.ServiceNotDeclared DecisionKind.Withdrawal
                (sri_service entry) "withdrawal names an undeclared service"]
             DecisionKind.Placement false)
    | Some definition =>
      match withdraw_services rest with
      | inl refusal => inl refusal
      | inr plans =>
        inr (mkServicePlan (svc_id definition) (svc_version definition) 0 0 [] :: plans)
      end
    end
  end.
Definition withdraw_plan : ApplyResult + DeploymentPlan :=
  match withdraw_services (int_services intent) with
  | inl refusal => inl refusal
  | inr plans =>
    inr (plan_seal (DeploymentPlan_default
      <| plan_generation := int_generation intent |> <| plan_group := grp_id group |>
      <| plan_kind := IntentKind.Withdraw |> <| plan_topology := rs_topology_generation s |>
      <| plan_policy := rs_policy_generation s |> <| plan_epoch := rs_epoch s |>
      <| plan_boot := rs_boot s |> <| plan_created_at := fe_at event |>
      <| plan_services := plans |> <| plan_outcome := ReasonCode.Ok |>))
  end.

(** The plan of a rollback: the last retained plan of the target generation. *)
Definition rollback_source (target : DeploymentGeneration) : option DeploymentPlan :=
  last (filter (fun p => plan_generation p = target) (rs_plans s)).
Definition rollback_plan (target : DeploymentGeneration) : ApplyResult + DeploymentPlan :=
  let refuse_rollback detail :=
    inl (mkApplyResult ReasonCode.RollbackUnavailable false detail
           [explanation ReasonCode.RollbackUnavailable DecisionKind.Rollback (int_id intent) detail]
           DecisionKind.Placement false) in
  match rollback_source target with
  | None => refuse_rollback "rollback target generation is not retained"
  | Some source =>
    if negb (pol_allow_rollback_across_policy (rs_policy s)) &&
       negb (plan_policy source =? rs_policy_generation s) then
      refuse_rollback "rollback target was planned under a different policy generation"
    else
      inr (plan_seal (source
        <| plan_generation := int_generation intent |> <| plan_kind := IntentKind.Rollback |>
        <| plan_rollback_target := Some target |> <| plan_created_at := fe_at event |>
        <| plan_epoch := rs_epoch s |> <| plan_boot := rs_boot s |>
        <| plan_topology := rs_topology_generation s |>
        <| plan_policy := rs_policy_generation s |>
        <| plan_explanations :=
             [explanation ReasonCode.Ok DecisionKind.Rollback (int_id intent)
                ("rollback to generation " +:+ to_string target)] |>))
  end.

(** The plan of a deployment. *)
Definition deploy_plan : ApplyResult + DeploymentPlan :=
  let '(graph, built) :=
    graph_build DependencyGraph_default (rs_dependencies s) (max_dependencies bounds) in
  if negb (status_ok built) then
    inl (refused DecisionKind.Placement (status_code built) (status_detail built))
  else
  let outcome := build_plan
    (mkPlanRequest (Some (rs_topology s)) (Some (rs_policy s)) (Some (rs_services s)) (Some graph)
       (Some group) (Some intent) (Some (rs_authority s)) (int_generation intent) (fe_at event)
       (rs_epoch s) (rs_boot s) (Some bounds)) weights in
  if negb (po_feasible outcome) then
    inl (mkApplyResult (po_primary outcome) false "plan is infeasible" (po_explanations outcome)
           DecisionKind.Placement false)
  else inr (po_plan outcome).

(** [None] is the dereference of an empty rollback target. *)
Definition intended_plan : option (ApplyResult + DeploymentPlan) :=
  match int_kind intent with
  | IntentKind.Withdraw => Some withdraw_plan
  | IntentKind.Rollback => rollback_plan <$> int_rollback_target intent
  | _ => Some deploy_plan
  end.

(** Authority for every replica of a service with an exclusive scope. *)
Definition claim_replica (service_plan : ServicePlan) (authority : AuthorityRegistry)
    (replica : PlannedReplica) : (Status * DpuId) + AuthorityRegistry :=
  match find_service (rs_services s) (sp_service service_plan) ≫=
        (fun d => iso_exclusive_scope (svc_isolation d)) with
  | None => inr authority
  | Some scope =>
    let '(authority, claimed) := claim authority scope (grp_id group) (pr_dpu replica)
      (rs_epoch s) (rs_boot s) (fe_at event) (max_dpus bounds) in
    if status_ok claimed then inr authority else inl (claimed, pr_dpu replica)
  end.
Fixpoint claim_all (authority : AuthorityRegistry) (claims : list (ServicePlan * PlannedReplica))
  : (Status * DpuId) + AuthorityRegistry :=
  match claims with
  | [] => inr authority
  | (service_plan, replica) :: rest =>
    match claim_replica service_plan authority replica with
    | inl refusal => inl refusal
    | inr authority => claim_all authority rest
    end
  end.
Definition plan_claims (plan : DeploymentPlan) : list (ServicePlan * PlannedReplica) :=
  concat ((fun sp => (fun r => (sp, r)) <$> sp_replicas sp) <$> plan_services plan).

(** The plan history: the oldest plans go beyond the bound. *)
Definition retain_plan (trial : RuntimeState) (plan : DeploymentPlan) : RuntimeState :=
  let plans := rs_plans trial ++ [plan] in
  let bound := max_plans_retained bounds in
  if bound <? zlen plans then
    let excess := zlen plans - bound in
    trial <| rs_plans := drop (Z.to_nat excess) plans |>
          <| rs_truncations :=
               (ledger_record (rs_truncations trial) "plan.history" (excess + bound) bound
                  ReasonCode.HistoryTruncated).1 |>
  else trial <| rs_plans := plans |>.

(** Everything after the plan is known. *)
Definition accept_plan (plan : DeploymentPlan) : RuntimeState * ApplyResult :=
  match claim_all (rs_authority s) (plan_claims plan) with
  | inl (claimed, dpu) =>
    (s, mkApplyResult (status_code claimed) false (status_detail claimed)
          [explanation (status_code claimed) DecisionKind.Authority dpu (status_detail claimed)]
          DecisionKind.Placement false)
  | inr authority =>
    match reconcile plan group (fe_at event) bounds s with
    | inl reconciled =>
      (s, refused DecisionKind.Placement (status_code reconciled) (status_detail reconciled))
    | inr (trial, explanations) =>
      let trial := trial <| rs_authority := authority |> in
      let trial := if bool_decide (plan_kind plan = IntentKind.Withdraw) then trial
                   else retain_plan trial plan in
      let trial := trial <| rs_deployment_generation := plan_generation plan |> in
      (trial <| rs_instances := sort_instances (rs_instances trial) |>,
       applied DecisionKind.Placement ReasonCode.Ok
         (explanations ++
          [explanation ReasonCode.Ok DecisionKind.Placement (plan_id plan)
             ("plan accepted at generation " +:+ to_string (plan_generation plan) +:+ " with " +:+
              to_string (zlen (plan_stages plan)) +:+ " stages")]))
    end
  end.
End intent.

(** [reduce_intent] *)
Definition reduce_intent (s : RuntimeState) (event : FabricEvent) (body : IntentSubmitted)
    (bounds : RuntimeBounds) (weights : PlacementWeights) : option (RuntimeState * ApplyResult) :=
  let intent := isub_intent body in
  match find_group (rs_groups s) (int_group intent) with
  | None =>
    Some (s, refused_at DecisionKind.Placement ReasonCode.GroupNotDeclared (int_group intent)
               "intent names an undeclared group")
  | Some group =>
    match intent_gate s intent with
    | Some refusal => Some (s, refusal)
    | None =>
      match intended_plan bounds weights s event intent group with
      | None => None
      | Some (inl refusal) => Some (s, refusal)
      | Some (inr plan) => Some (accept_plan bounds s event group plan)
      end
    end
  end.

(** ** [apply_event] *)
Definition apply_event (s : RuntimeState) (event : FabricEvent) (bounds : RuntimeBounds)
    (weights : PlacementWeights) : option (RuntimeState * ApplyResult) :=
  match fe_body event with
  | Body_LogicalTimeAdvanced body => Some (reduce_time s body)
  | Body_CoordinatorAdvanced body => Some (reduce_coordinator s event body)
  | Body_ServiceDeclared body => Some (reduce_service s body bounds)
  | Body_GroupDeclared body => Some (reduce_group s body bounds)
  | Body_DependencyDeclared body => Some (reduce_dependency s body bounds)
  | Body_PolicyAdvanced body => Some (reduce_policy s event body)
  | Body_TopologyObserved body => Some (reduce_topology s event body bounds)
  | Body_CapabilityObserved body => Some (reduce_capability s event body bounds)
  | Body_HealthObserved body => Some (reduce_health s event body)
  | Body_DpuAttached body => Some (reduce_attached s event body)
  | Body_DpuLost body => Some (reduce_lost s event body)
  | Body_QuiesceRequested body => Some (reduce_quiesce s event body)
  | Body_ExecutionAcknowledged body => Some (reduce_acknowledged s body)
  | Body_EffectReported body => Some (reduce_effect s event body)
  | Body_IntentSubmitted body => reduce_intent s event body bounds weights
  end.
