(* ===== verification/Scenario.v ===== *)
(** * Runs of events, and a concrete one

    Applying a sequence of events, the state a runtime without a store starts from, and
    a small fabric (two devices, two services, one group) from its first event to a
    deployment, an effect report and the loss of a device: the inputs on which the
    theorems about events are evaluated. *)

From S2P Require Import Prelude Std Reason Types Version Resources Bounded Digest Json JsonArchive Archive Model.
From S2P Require Import Codec Authority Dependency Eligibility Planner State Reducers Intent.
#[local] Open Scope Z_scope.

(** Applying events one after the other. *)
Fixpoint run_events (bounds : RuntimeBounds) (weights : PlacementWeights) (s : RuntimeState)
    (events : list FabricEvent) : option RuntimeState :=
  match events with
  | [] => Some s
  | event :: events =>
    match apply_event s event bounds weights with
    | Some (s, _) => run_events bounds weights s events
    | None => None
    end
  end.

(** The state [open] starts from without a store. *)
Definition initial_state (store : StoreId) (coordinator : OriginId) (epoch : CoordinatorEpoch)
    (boot : BootIncarnation) : RuntimeState :=
  RuntimeState_default <| rs_store_id := store |> <| rs_coordinator := coordinator |>
    <| rs_epoch := epoch |> <| rs_boot := boot |>
    <| rs_fences := fence_reset FenceIssuer_default epoch boot |>.

Definition sample_evidence : EvidenceRef :=
  EvidenceRef_default <| ev_id := "ev" |> <| ev_observed_at := 2 |> <| ev_valid_until := 64 |>.
Definition sample_event (at_ : LogicalInstant) (body : FabricEventBody) : FabricEvent :=
  FabricEvent_default <| fe_at := at_ |> <| fe_body := body |>.
Definition sample_declared (id : string) : FabricEvent :=
  sample_event 2 (Body_ServiceDeclared (mkServiceDeclared
    ((sample_service id) <| svc_version := mkServiceVersion 1 0 0 "" |>))).
Definition sample_events : list FabricEvent :=
  [sample_event 1 (Body_TopologyObserved (mkTopologyObserved
     (sample_topology <| topo_dpus := (fun d => d <| dpu_attachment := "slot" |>) <$>
                                      topo_dpus sample_topology |>)));
   sample_event 2 (Body_PolicyAdvanced (mkPolicyAdvanced
     (PolicyState_default <| pol_generation := 1 |> <| pol_evidence := sample_evidence |>)));
   sample_declared "db"; sample_declared "web";
   sample_event 3 (Body_GroupDeclared (mkGroupDeclared sample_group));
   sample_event 4 (Body_DependencyDeclared (mkDependencyDeclared
     (mkDependency "d1" "web" "db" DependencyKind.Requires)))].
Definition sample_deploy : FabricEvent :=
  sample_event 5 (Body_IntentSubmitted (mkIntentSubmitted sample_intent)).

Definition state_after (events : list FabricEvent) : RuntimeState :=
  default RuntimeState_default
    (run_events RuntimeBounds_default PlacementWeights_default
       (initial_state "store-1" "coord" 1 1) events).
Definition sample_ready : RuntimeState := state_after sample_events.
Definition sample_deployed : RuntimeState := state_after (sample_events ++ [sample_deploy]).

Definition sample_step (s : RuntimeState) (event : FabricEvent) : RuntimeState * ApplyResult :=
  default (s, refused DecisionKind.Ingest ReasonCode.Ok "")
    (apply_event s event RuntimeBounds_default PlacementWeights_default).
Definition sample_effect : FabricEvent :=
  sample_event 6 (Body_EffectReported (mkEffectReported (EffectReport_default
    <| er_instance := "i-edge.db.0" |> <| er_attempt := 1 |> <| er_fence := mkFenceToken 1 1 1 |>
    <| er_kind := EffectKind.Deploy |> <| er_status := EffectStatus.Succeeded |>
    <| er_evidence := sample_evidence <| ev_observed_at := 6 |> |>))).
Definition sample_loss : FabricEvent :=
  sample_event 7 (Body_DpuLost (DpuLost_default <| dlost_dpu := "dpu-1" |>)).

Definition sample_verified : InstanceState :=
  default InstanceState_default (head (rs_instances (sample_step sample_deployed sample_effect).1)).

Lemma sample_grants : rs_authority sample_deployed =
  mkAuthorityRegistry [mkAuthorityGrant "dpu-1" "scope-a" "edge" 1 1 5;
                       mkAuthorityGrant "dpu-2" "scope-a" "edge" 1 1 5].
Proof. vm_compute. reflexivity. Qed.
Lemma sample_registry_ok : registry_ok (rs_authority sample_deployed).
Proof. rewrite sample_grants. split; repeat constructor; discriminate. Qed.

