(* ===== verification/Lifecycle.v ===== *)
(** * What events do to the state

    Theorems on [apply_event]: a refused event leaves no trace, generations never
    go back, and an instance is verified only by a proven effect. *)

From S2P Require Import Prelude Std Reason Types Version Resources Bounded Digest Json JsonArchive Archive Model.
From S2P Require Import Codec Authority Dependency Eligibility Planner State Reducers Intent Scenario.
#[local] Open Scope Z_scope.

(** ** Case analysis on a reducer *)

(** Splits on the conditions and searches of the goal, outermost first. *)
Ltac branch :=
  match goal with
  | |- (if ?b then _ else _) = _ -> _ => destruct b eqn:?
  | |- (let '(_, _) := ?p in _) = _ -> _ => destruct p as [? ?] eqn:?
  | |- match ?x with _ => _ end = _ -> _ => destruct x eqn:?
  end; cbn beta iota zeta.
Ltac branches := repeat branch.

(** ** Refused events leave no trace *)

Lemma quiesce_none at_ service l :
  zlen (filter (fun i => quiesces service i = true) l) <= 0 ->
  quiesce_instance at_ service <$> l = l.
Proof.
  induction l as [|x l IH]; [done|]. rewrite filter_cons. cbn [fmap list_fmap].
  unfold quiesce_instance at 1. destruct (quiesces service x) eqn:Hq.
  - rewrite decide_True by done. rewrite zlen_cons. pose proof (zlen_nonneg
      (filter (fun i => quiesces service i = true) l)). lia.
  - rewrite decide_False by done. intros Hl. f_equal. by apply IH.
Qed.

(** C36. A refused event leaves no trace: when the reducer reports that an event was not
    applied, the state is the one before, to the last field.  (The fence issuer's
    epoch follows the state's; [reduce_coordinator] relies on it.) *)
Theorem refused_event_leaves_no_trace s event bounds weights s' r :
  fi_epoch (rs_fences s) <= rs_epoch s ->
  apply_event s event bounds weights = Some (s', r) -> app_applied r = false -> s' = s.
Proof.
  intros He. unfold apply_event. destruct (fe_body event) as [b|b|b|b|b|b|b|b|b|b|b|b|b|b|b].
  - unfold reduce_topology. cbn zeta. intros [= Hr]. revert Hr.
    destruct (negb _); [by intros [= <- <-]|]. destruct (_ <? _); [by intros [= <- <-]|].
    destruct (_ <? _); [by intros [= <- <-]|].
    destruct (admit_devices _ _ _ _ _); intros [= <- <-]; done.
  - unfold reduce_capability. cbn zeta. intros [= Hr]. revert Hr. branches; intros [= <- <-]; done.
  - unfold reduce_health. cbn zeta. intros [= Hr]. revert Hr. branches; intros [= <- <-]; done.
  - unfold reduce_policy. cbn zeta. intros [= Hr]. revert Hr. branches; intros [= <- <-]; done.
  - unfold reduce_attached. cbn zeta. intros [= Hr]. revert Hr. branches; intros [= <- <-]; done.
  - unfold reduce_lost. cbn zeta. intros [= Hr]. revert Hr. branches; intros [= <- <-]; done.
  - unfold reduce_service. cbn zeta. intros [= Hr]. revert Hr. branches; intros [= <- <-]; done.
  - unfold reduce_group. cbn zeta. intros [= Hr]. revert Hr. branches; intros [= <- <-]; done.
  - unfold reduce_dependency. cbn zeta. intros [= Hr]. revert Hr. branches; intros [= <- <-]; done.
  - unfold reduce_intent. cbn zeta. destruct (find_group _ _) as [group|]; [|by intros [= <- <-]].
    destruct (intent_gate _ _); [by intros [= <- <-]|].
    destruct (intended_plan _ _ _ _ _ _) as [[refusal|plan]|]; [by intros [= <- <-]| |done].
    intros [= Hr]. revert Hr. unfold accept_plan. branches; intros [= <- <-]; done.
  - unfold reduce_acknowledged. intros [= Hr]. revert Hr. branches; intros [= <- <-]; done.
  - unfold reduce_effect. cbn zeta. intros [= Hr]. revert Hr. branches; intros [= <- <-]; done.
  - unfold reduce_coordinator. intros [= Hr]. revert Hr.
    destruct (Z.ltb_spec (cadv_epoch b) (rs_epoch s)) as [|Hepoch]; [by intros [= <- <-]|].
    unfold fence_all, advance_epoch. cbn beta iota zeta.
    change (rs_fences (set rs_authority ?f s)) with (rs_fences s).
    rewrite (proj2 (Z.ltb_ge (cadv_epoch b) (fi_epoch (rs_fences s)))) by lia.
    cbn [negb status_ok]. by intros [= <- <-].
  - unfold reduce_time. intros [= Hr]. revert Hr. branches; intros [= <- <-]; done.
  - unfold reduce_quiesce. intros [= <- <-]. cbn [app_applied]. intros Hq%Z.ltb_ge.
    rewrite quiesce_none by done. by destruct s.
Qed.

Lemma refused_event_leaves_no_trace_witness :
  app_code (sample_step sample_deployed sample_deploy).2 = ReasonCode.NoPlacementChange /\
  (sample_step sample_deployed sample_deploy).1 = sample_deployed.
Proof.
  split; [vm_compute; reflexivity|].
  apply (refused_event_leaves_no_trace sample_deployed sample_deploy RuntimeBounds_default
    PlacementWeights_default _ (sample_step sample_deployed sample_deploy).2);
    vm_compute; congruence.
Defined.

(** ** Generations never go back *)
Record moves_forward (s s' : RuntimeState) : Prop := {
  mf_clock : rs_clock s <= rs_clock s';
  mf_epoch : rs_epoch s <= rs_epoch s';
  mf_topology : rs_topology_generation s <= rs_topology_generation s';
  mf_capability : rs_capability_generation s <= rs_capability_generation s';
  mf_policy : rs_policy_generation s <= rs_policy_generation s';
  mf_deployment : rs_deployment_generation s <= rs_deployment_generation s';
  mf_boot : rs_boot s' = rs_boot s;
  mf_store : rs_store_id s' = rs_store_id s;
  mf_watermark : rs_watermark s' = rs_watermark s;
  mf_decisions : rs_decisions s' = rs_decisions s
}.

(** Same counters, whatever else changed. *)
Definition same_counters (s s' : RuntimeState) : Prop :=
  rs_clock s' = rs_clock s /\ rs_epoch s' = rs_epoch s /\
  rs_topology_generation s' = rs_topology_generation s /\
  rs_capability_generation s' = rs_capability_generation s /\
  rs_policy_generation s' = rs_policy_generation s /\
  rs_deployment_generation s' = rs_deployment_generation s /\
  rs_boot s' = rs_boot s /\ rs_store_id s' = rs_store_id s /\
  rs_watermark s' = rs_watermark s /\ rs_decisions s' = rs_decisions s.

Lemma same_counters_forward s s' : same_counters s s' -> moves_forward s s'.
Proof. unfold same_counters. intros (? & ? & ? & ? & ? & ? & ? & ? & ? & ?). by split; lia || done. Qed.

Lemma refresh_health_same s : same_counters s (refresh_health s).
Proof. unfold refresh_health. destruct (foldl _ _ _) as [dpus instances]. split_and!; done. Qed.

Lemma lose_devices_same at_ ids s : same_counters s (foldl (lose_device at_) s ids).
Proof.
  revert s. induction ids as [|id ids IH]; intros s; [by split_and!|]. exact (IH (lose_device at_ s id)).
Qed.

Lemma highest_ge dpus n :
  n <= foldl (fun highest dpu => if highest <? dpu_capability_generation dpu
                                 then dpu_capability_generation dpu else highest) n dpus.
Proof.
  revert n. induction dpus as [|d dpus IH]; intros n; cbn [foldl]; [lia|].
  etransitivity; [|apply IH]. destruct (Z.ltb_spec n (dpu_capability_generation d)); lia.
Qed.

(** The loops of [reconcile] keep the counters. *)
Lemma fold_status_invariant {A B} (f : B -> A -> Status + B) (P : B -> Prop) acc l acc' :
  (forall b a b', f b a = inr b' -> P b -> P b') -> P acc ->
  fold_status f acc l = inr acc' -> P acc'.
Proof.
  intros Hf. revert acc. induction l as [|a l IH]; intros acc Hp; [by intros [= <-]|].
  cbn [fold_status]. destruct (f acc a) as [|b] eqn:Hb; [done|]. eauto.
Qed.

Lemma authorize_inv plan at_ s i x id phase s' x' :
  authorize plan at_ s i x id phase = inr (s', x') ->
  exists fences fence, fence_issue (rs_fences s) id = (fences, Value fence) /\
    x' = push_attempt (open_attempt (next_attempt x) phase at_ (plan_digest plan) fence) x /\
    s' = set_instance (s <| rs_fences := fences |>) i x'.
Proof.
  unfold authorize. destruct (fence_issue _ _) as [fences [fence|]]; [|done].
  intros [= <- <-]. eauto.
Qed.

Lemma reconcile_replica_same plan group at_ bounds sp acc r acc' :
  reconcile_replica plan group at_ bounds sp acc r = inr acc' -> same_counters acc.1 acc'.1.
Proof.
  destruct acc as [trial stats]. unfold reconcile_replica. cbn zeta.
  destruct (lookup_instance _ _) as [[i x]|].
  - destruct (_ || _).
    { destruct (authorize _ _ _ _ _ _ _) as [|[s1 x1]] eqn:Ha; [done|]. intros [= <-].
      apply authorize_inv in Ha as (fences & fence & _ & -> & ->). by split_and!. }
    destruct (stale_attempt x).
    { destruct (authorize _ _ _ _ _ _ _) as [|[s1 x1]] eqn:Ha; [done|]. intros [= <-].
      apply authorize_inv in Ha as (fences & fence & _ & -> & ->). by split_and!. }
    intros [= <-]. by split_and!.
  - destruct (_ <=? _); [done|]. destruct (fence_issue _ _) as [fences [fence|]]; [|done].
    intros [= <-]. by split_and!.
Qed.

Lemma reconcile_same plan group at_ bounds s s' ex :
  reconcile plan group at_ bounds s = inr (s', ex) -> same_counters s s'.
Proof.
  unfold reconcile. destruct (fold_status _ _ (plan_services plan)) as [|[trial stats]] eqn:Hf; [done|].
  assert (Ht : same_counters s trial).
  { change trial with (fst (trial, stats)).
    refine (fold_status_invariant _ (fun acc => same_counters s acc.1) _ _ _ _ _ Hf);
      [|by split_and!].
    intros b sp b' Hb Hs. refine (fold_status_invariant _ (fun acc => same_counters s acc.1) _ _ _ _ Hs Hb).
    intros c r c' Hr%reconcile_replica_same Hc. clear Hs Hf. unfold same_counters in *.
    destruct Hc as (? & ? & ? & ? & ? & ? & ? & ? & ? & ?), Hr as (? & ? & ? & ? & ? & ? & ? & ? & ? & ?).
    split_and!; congruence. }
  destruct (fold_status _ _ (rs_instances trial)) as [|[[fences instances] stats']]; [done|].
  intros [= <- <-]. exact Ht.
Qed.

Lemma intended_plan_generation bounds weights s event intent group plan :
  intended_plan bounds weights s event intent group = Some (inr plan) ->
  plan_generation plan = int_generation intent.
Proof.
  unfold intended_plan. destruct (int_kind intent).
  5: { unfold withdraw_plan. destruct (withdraw_services _ _); [done|]. by intros [= <-]. }
  5: { destruct (int_rollback_target intent) as [target|]; [|done]. cbn. unfold rollback_plan.
       destruct (rollback_source s target); [|done]. destruct (_ && _); [done|]. by intros [= <-]. }
  all: unfold deploy_plan; destruct (graph_build _ _ _) as [g ok]; destruct (negb _); [done|];
    destruct (negb (po_feasible _)) eqn:Hf; [done|]; intros [= <-];
    apply negb_false_iff in Hf; by apply feasible_plan_generation.
Qed.

Lemma reduce_topology_forward s event b bounds s' r :
  reduce_topology s event b bounds = (s', r) -> moves_forward s s'.
Proof.
  assert (Hrefl : moves_forward s s) by (by apply same_counters_forward).
  unfold reduce_topology. cbn zeta.
  destruct (negb _); [by intros [= <- <-]|].
  destruct (Z.ltb_spec (topo_generation (tobs_snapshot b)) (rs_topology_generation s)) as [|Hgen];
    [by intros [= <- <-]|].
  destruct (_ <? _); [by intros [= <- <-]|].
  destruct (admit_devices _ _ _ _ _) as [|dpus]; [by intros [= <- <-]|].
  set (candidate := (tobs_snapshot b) <| topo_dpus := dpus |>).
  set (s1 := s <| rs_topology := candidate |> <| rs_topology_generation := _ |>).
  set (removed := filter _ (dpu_id <$> topo_dpus (rs_topology s))).
  intros [= <- _].
  pose proof (lose_devices_same (fe_at event) removed s1) as (L1 & L2 & L3 & L4 & L5 & L6 & L7 & L8 & L9 & L10).
  set (s2 := foldl (lose_device (fe_at event)) s1 removed) in *.
  pose proof (highest_ge (topo_dpus (rs_topology s2)) (rs_capability_generation s2)) as Hhigh.
  set (s3 := s2 <| rs_capability_generation := _ |>).
  pose proof (refresh_health_same s3) as (R1 & R2 & R3 & R4 & R5 & R6 & R7 & R8 & R9 & R10).
  assert (Hcap : rs_capability_generation s3 =
    foldl (fun highest dpu => if highest <? dpu_capability_generation dpu
      then dpu_capability_generation dpu else highest) (rs_capability_generation s2)
      (topo_dpus (rs_topology s2))) by done.
  split; rewrite ?R1, ?R2, ?R3, ?R4, ?R5, ?R6, ?R7, ?R8, ?R9, ?R10;
    change (rs_clock s3) with (rs_clock s2); change (rs_epoch s3) with (rs_epoch s2);
    change (rs_topology_generation s3) with (rs_topology_generation s2);
    change (rs_policy_generation s3) with (rs_policy_generation s2);
    change (rs_deployment_generation s3) with (rs_deployment_generation s2);
    change (rs_boot s3) with (rs_boot s2); change (rs_store_id s3) with (rs_store_id s2);
    change (rs_watermark s3) with (rs_watermark s2); change (rs_decisions s3) with (rs_decisions s2);
    rewrite ?Hcap, ?L1, ?L2, ?L3, ?L5, ?L6, ?L7, ?L8, ?L9, ?L10; try done.
  rewrite L4 in Hhigh |- *. exact Hhigh.
Qed.

Lemma reduce_intent_forward s event b bounds weights s' r :
  reduce_intent s event b bounds weights = Some (s', r) -> moves_forward s s'.
Proof.
  assert (Hrefl : moves_forward s s) by (by apply same_counters_forward).
  unfold reduce_intent. cbn zeta. destruct (find_group _ _) as [group|]; [|by intros [= <- <-]].
  destruct (intent_gate _ _) eqn:Hgate; [by intros [= <- <-]|].
  destruct (intended_plan _ _ _ _ _ _) as [[refusal|plan]|] eqn:Hplan; [by intros [= <- <-]| |done].
  apply intended_plan_generation in Hplan. intros [= Hr]. revert Hr. unfold accept_plan.
  destruct (claim_all _ _ _ _ _ _) as [[claimed dpu]|authority]; [by intros [= <- <-]|].
  destruct (reconcile _ _ _ _ _) as [status|[trial ex]] eqn:Hrec; [by intros [= <- <-]|].
  intros [= <- <-]. apply reconcile_same in Hrec as (R1 & R2 & R3 & R4 & R5 & R6 & R7 & R8 & R9 & R10).
  assert (Hle : rs_deployment_generation s <= int_generation (isub_intent b)).
  { revert Hgate. unfold intent_gate. cbn zeta. branches; done || lia. }
  unfold retain_plan. case_bool_decide; [|destruct (_ <? _)]; split; cbn; lia || done.
Qed.

Lemma apply_event_forward s event bounds weights s' r :
  apply_event s event bounds weights = Some (s', r) -> moves_forward s s'.
Proof.
  assert (Hrefl : moves_forward s s) by (by apply same_counters_forward).
  unfold apply_event. destruct (fe_body event) as [b|b|b|b|b|b|b|b|b|b|b|b|b|b|b].
  - intros [= Hr]. by eapply reduce_topology_forward.
  - unfold reduce_capability. cbn zeta. intros [= Hr]. revert Hr. branches; intros [= <- <-];
      try done; split; cbn; try lia; try done; case_match; lia.
  - unfold reduce_health. cbn zeta. intros [= Hr]. revert Hr. branches; intros [= <- <-]; try done.
    eapply same_counters_forward. exact (refresh_health_same (set_device s n _)).
  - unfold reduce_policy. cbn zeta. intros [= Hr]. revert Hr. branches; intros [= <- <-]; try done.
    split; cbn; lia || done.
  - unfold reduce_attached. cbn zeta. intros [= Hr]. revert Hr. branches; intros [= <- <-]; done.
  - unfold reduce_lost. cbn zeta. intros [= Hr]. revert Hr. branches; intros [= <- <-]; done.
  - unfold reduce_service. cbn zeta. intros [= Hr]. revert Hr. branches; intros [= <- <-]; done.
  - unfold reduce_group. cbn zeta. intros [= Hr]. revert Hr. branches; intros [= <- <-]; done.
  - unfold reduce_dependency. cbn zeta. intros [= Hr]. revert Hr. branches; intros [= <- <-]; done.
  - apply reduce_intent_forward.
  - unfold reduce_acknowledged. intros [= Hr]. revert Hr. branches; intros [= <- <-]; done.
  - unfold reduce_effect. cbn zeta. intros [= Hr]. revert Hr. branches; intros [= <- <-]; done.
  - unfold reduce_coordinator. intros [= Hr]. revert Hr.
    destruct (Z.ltb_spec (cadv_epoch b) (rs_epoch s)) as [|Hepoch]; [by intros [= <- <-]|].
    unfold fence_all. cbn beta iota zeta.
    change (rs_fences (set rs_authority ?f s)) with (rs_fences s).
    destruct (advance_epoch _ _ _) as [fences advanced].
    destruct (negb _); intros [= <- <-]; split; cbn; lia || done.
  - unfold reduce_time. intros [= Hr]. revert Hr.
    destruct (Z.ltb_spec (ladv_now b) (rs_clock s)) as [|Hclock]; [by intros [= <- <-]|].
    intros [= <- <-].
    destruct (refresh_health_same (s <| rs_clock := ladv_now b |>)) as (R1 & R2 & R3 & R4 & R5 & R6 & R7 & R8 & R9 & R10).
    split; rewrite ?R1, ?R2, ?R3, ?R4, ?R5, ?R6, ?R7, ?R8, ?R9, ?R10; cbn; lia || done.
  - unfold reduce_quiesce. by intros [= <- <-].
Qed.

(** C37. Nothing goes back: whatever event is applied, the clock, the coordinator epoch
    and the topology, capability, policy and deployment generations of the state
    after it are at least those before it, and the boot incarnation and the store
    identity stay; the watermark and the decisions are left to the runtime. *)
Theorem generations_never_regress s event bounds weights s' r :
  apply_event s event bounds weights = Some (s', r) -> moves_forward s s'.
Proof. apply apply_event_forward. Qed.

Lemma generations_never_regress_witness :
  moves_forward sample_ready (sample_step sample_ready sample_deploy).1.
Proof.
  apply (generations_never_regress sample_ready sample_deploy RuntimeBounds_default
    PlacementWeights_default _ (sample_step sample_ready sample_deploy).2).
  vm_compute. reflexivity.
Defined.

(** ** Verified means proven *)
Lemma lookup_instance_Some s id i x :
  lookup_instance s id = Some (i, x) -> rs_instances s !! i = Some x /\ inst_id x = id.
Proof.
  unfold lookup_instance, find_instance. destruct (find_sorted _ _ _ _) as [j|] eqn:Hf; [|done].
  intros (y & Hy & [= -> ->])%fmap_Some. split; [done|].
  apply find_sorted_Some in Hf as (z & Hz & Hid). congruence.
Qed.

(** An instance that is verified was so before, with the same proof. *)
Definition kept (l : list InstanceState) (y : InstanceState) : Prop :=
  inst_state y = LifecycleState.Verified ->
  exists x, x ∈ l /\ inst_id x = inst_id y /\ inst_state x = LifecycleState.Verified /\
    inst_verified_digest x = inst_verified_digest y /\ inst_verified_at x = inst_verified_at y.
Definition keeps (l l' : list InstanceState) : Prop := forall y, y ∈ l' -> kept l y.

#[export] Instance keeps_preorder : PreOrder keeps.
Proof.
  split.
  - intros l y Hy Hv. by exists y.
  - intros l1 l2 l3 H12 H23 z Hz Hv. destruct (H23 z Hz Hv) as (y & Hy & E1 & E2 & E3 & E4).
    destruct (H12 y Hy E2) as (x & Hx & F1 & F2 & F3 & F4).
    exists x. rewrite F1, F3, F4. done.
Qed.

Lemma keeps_map f l : (forall x, kept [x] (f x)) -> keeps l (f <$> l).
Proof.
  intros Hf y (x & -> & Hx)%list_elem_of_fmap Hv.
  destruct (Hf x Hv) as (x' & ->%list_elem_of_singleton & Hrest). by exists x.
Qed.

Lemma keeps_insert l i y : kept l y -> keeps l (<[i := y]> l).
Proof.
  intros Hy z Hz. apply list_elem_of_lookup in Hz as (j & Hj).
  destruct (decide (i = j)) as [->|Hne].
  - apply lookup_lt_Some in Hj as Hlt. rewrite length_insert in Hlt.
    rewrite list_lookup_insert_eq in Hj by done. by simplify_eq.
  - rewrite list_lookup_insert_ne in Hj by done. intros Hv. exists z.
    split; [by eapply list_elem_of_lookup_2|done].
Qed.

Lemma kept_unverified l y : inst_state y <> LifecycleState.Verified -> kept l y.
Proof. by intros Hn Hv. Qed.

Lemma kept_fence at_ reason x : kept [x] (fence_instance at_ reason x).
Proof.
  apply kept_unverified. unfold fence_instance, fence_instance_without_state. cbn.
  by destruct (inst_state x).
Qed.

Lemma keeps_refresh_health s : keeps (rs_instances s) (rs_instances (refresh_health s)).
Proof.
  unfold refresh_health.
  assert (Hloop : forall dpus acc l, keeps (rs_instances s) l ->
    keeps (rs_instances s) (foldl (fun '(dpus, instances) dpu =>
      let '(dpu, stale) := refresh_dpu (rs_clock s) dpu in
      (dpus ++ [dpu], if stale then lose_freshness (dpu_id dpu) <$> instances else instances))
      (acc, l) dpus).2).
  { induction dpus as [|d dpus IH]; intros acc l Hl; [done|]. cbn [foldl].
    destruct (refresh_dpu _ _) as [d' stale]. apply IH. destruct stale; [|done].
    etransitivity; [exact Hl|]. apply keeps_map. intros x. unfold lose_freshness.
    case_bool_decide; intros Hv; exists x; by rewrite list_elem_of_singleton. }
  specialize (Hloop (topo_dpus (rs_topology s)) [] (rs_instances s) ltac:(done)).
  destruct (foldl _ _ _) as [dpus instances]. cbn [snd] in Hloop. cbn [rs_instances set].
  etransitivity; [exact Hloop|]. apply keeps_map. intros x. unfold refresh_instance.
  destruct (topology_find _ _) as [dpu|]; [|intros Hv; exists x; by rewrite list_elem_of_singleton].
  destruct (negb _); [intros Hv; exists x; by rewrite list_elem_of_singleton|].
  destruct (_ && _); intros Hv; exists x; by rewrite list_elem_of_singleton.
Qed.

Lemma keeps_lose_devices at_ ids s :
  keeps (rs_instances s) (rs_instances (foldl (lose_device at_) s ids)).
Proof.
  revert s. induction ids as [|id ids IH]; intros s; [done|]. cbn [foldl].
  etransitivity; [|apply IH]. apply keeps_map. intros x. unfold lose_instance.
  case_bool_decide; [by apply kept_unverified|]. intros Hv. exists x. by rewrite list_elem_of_singleton.
Qed.

Lemma keeps_snoc l l' y : keeps l l' -> kept l y -> keeps l (l' ++ [y]).
Proof. intros Hl Hy z [Hz|Hz%list_elem_of_singleton]%elem_of_app; [by apply Hl|by subst]. Qed.

Lemma keeps_reconcile_replica plan group at_ bounds sp acc r acc' :
  reconcile_replica plan group at_ bounds sp acc r = inr acc' ->
  keeps (rs_instances acc.1) (rs_instances acc'.1).
Proof.
  destruct acc as [trial stats]. unfold reconcile_replica. cbn zeta.
  destruct (lookup_instance _ _) as [[i x]|] eqn:Hl.
  - apply lookup_instance_Some in Hl as [Hi Hid]. apply list_elem_of_lookup_2 in Hi as Hin.
    assert (Hset : forall s y z, rs_instances s = rs_instances trial ->
      inst_state z <> LifecycleState.Verified ->
      keeps (rs_instances trial) (rs_instances (set_instance (set_instance s i y) i z))).
    { intros s y z Hs Hz. cbn. rewrite Hs, list_insert_insert_eq.
      by apply keeps_insert, kept_unverified. }
    destruct (_ || _).
    { destruct (authorize _ _ _ _ _ _ _) as [|[s1 x1]] eqn:Ha; [done|]. intros [= <-].
      apply authorize_inv in Ha as (fences & fence & _ & -> & ->). by apply Hset. }
    destruct (stale_attempt x).
    { destruct (authorize _ _ _ _ _ _ _) as [|[s1 x1]] eqn:Ha; [done|]. intros [= <-].
      apply authorize_inv in Ha as (fences & fence & _ & -> & ->). by apply Hset. }
    intros [= <-]. cbn. apply keeps_insert. intros Hv. exists x. done.
  - destruct (_ <=? _); [done|]. destruct (fence_issue _ _) as [fences [fence|]]; [|done].
    intros [= <-]. cbn. apply keeps_snoc; [done|]. by apply kept_unverified.
Qed.

Lemma keeps_quiesce plan at_ group acc x acc' l :
  quiesce_uncovered plan group at_ acc x = inr acc' -> x ∈ l ->
  keeps l acc.1.2 -> keeps l acc'.1.2.
Proof.
  destruct acc as [[fences instances] stats]. cbn [fst snd]. unfold quiesce_uncovered.
  intros Hq Hx Hl. revert Hq.
  destruct (negb (leaves_plan _ _ _)).
  { intros [= <-]. cbn [fst snd]. apply keeps_snoc; [done|]. intros Hv. by exists x. }
  cbn zeta. destruct (negb _).
  { intros [= <-]. cbn [fst snd]. apply keeps_snoc; [done|]. by apply kept_unverified. }
  destruct (fence_issue _ _) as [f [fence|]]; [|done].
  intros [= <-]. cbn [fst snd]. apply keeps_snoc; [done|]. by apply kept_unverified.
Qed.

Lemma fold_status_list {A B} (f : B -> A -> Status + B) (P : B -> Prop) acc l acc' :
  (forall b a b', a ∈ l -> f b a = inr b' -> P b -> P b') -> P acc ->
  fold_status f acc l = inr acc' -> P acc'.
Proof.
  revert acc. induction l as [|a l IH]; intros acc Hf Hp; [by intros [= <-]|].
  cbn [fold_status]. destruct (f acc a) as [|b] eqn:Hb; [done|]. apply IH.
  - intros b1 a1 b2 Ha1. apply Hf. by right.
  - by eapply Hf; [left|..].
Qed.

Lemma keeps_reconcile plan group at_ bounds s s' ex :
  reconcile plan group at_ bounds s = inr (s', ex) -> keeps (rs_instances s) (rs_instances s').
Proof.
  unfold reconcile. destruct (fold_status _ _ (plan_services plan)) as [|[trial stats]] eqn:Hf; [done|].
  assert (Ht : keeps (rs_instances s) (rs_instances trial)).
  { change trial with (fst (trial, stats)).
    refine (fold_status_list _ (fun acc => keeps (rs_instances s) (rs_instances acc.1)) _ _ _ _ _ Hf);
      [|done].
    intros b sp b' _ Hb Hs.
    refine (fold_status_list _ (fun acc => keeps (rs_instances s) (rs_instances acc.1)) _ _ _ _ Hs Hb).
    intros c r c' _ Hr%keeps_reconcile_replica Hc. by etransitivity. }
  destruct (fold_status _ _ (rs_instances trial)) as [|[[fences instances] stats']] eqn:Hq; [done|].
  intros [= <- <-]. cbn [rs_instances set]. etransitivity; [exact Ht|].
  change instances with (fst (fences, instances, stats')).2.
  refine (fold_status_list _ (fun acc => keeps (rs_instances trial) acc.1.2) _ _ _ _ _ Hq).
  - intros b x b' Hx Hb Hk. by eapply keeps_quiesce.
  - by intros y ?%elem_of_nil.
Qed.

(** Why an effect counts: the report that proves instance [y] of the state after. *)
Record effect_proves (s : RuntimeState) (event : FabricEvent) (report : EffectReport)
    (x y : InstanceState) (a : AttemptRecord) : Prop := {
  ef_instance : x ∈ rs_instances s /\ inst_id x = er_instance report /\ inst_id y = inst_id x;
  ef_attempt : current_attempt x = Some a /\ att_number a = er_attempt report /\
    attempt_open a = true;
  ef_fence : fence_validate (rs_fences s) (inst_id x) (er_fence report) = true;
  ef_evidence : ev_id (er_evidence report) <> "" /\ fresh_at (er_evidence report) (fe_at event) = true;
  ef_since_fence : inst_effect_fenced_at x <= ev_observed_at (er_evidence report);
  ef_status : er_status report = EffectStatus.Succeeded /\ er_partial report = false /\
    er_kind report <> EffectKind.Withdraw;
  ef_recorded : inst_verified_digest y = er_effect_digest report /\
    inst_verified_at y = fe_at event /\ inst_verified_evidence y = er_evidence report
}.

Lemma effect_refusal_None s event report x :
  effect_refusal s event report x = None ->
  exists a, current_attempt x = Some a /\ att_number a = er_attempt report /\
    fence_validate (rs_fences s) (er_instance report) (er_fence report) = true /\
    attempt_open a = true /\ ev_id (er_evidence report) <> "" /\
    inst_effect_fenced_at x <= ev_observed_at (er_evidence report) /\
    fresh_at (er_evidence report) (fe_at event) = true /\ er_partial report = false /\
    er_status report <> EffectStatus.Partial /\ er_status report <> EffectStatus.Refused.
Proof.
  unfold effect_refusal. destruct (current_attempt x) as [a|]; [|done].
  destruct (Z.eqb_spec (att_number a) (er_attempt report)); [|done]. cbn [negb].
  destruct (fence_validate _ _ _); [|done]. cbn [negb].
  destruct (attempt_open a) eqn:Ho; [|done]. cbn [negb].
  destruct (evidence_present (er_evidence report)) eqn:Hp; [|done]. cbn [negb].
  destruct (Z.ltb_spec (ev_observed_at (er_evidence report)) (inst_effect_fenced_at x)); [done|].
  destruct (fresh_at _ _) eqn:Hfresh; [|done]. cbn [negb].
  destruct (er_partial report); [done|]. cbn [orb].
  case_bool_decide; [done|]. case_bool_decide; [done|]. intros _. exists a.
  apply id_valid_true in Hp. done.
Qed.

Lemma keeps_set_instance s i y :
  inst_state y <> LifecycleState.Verified ->
  keeps (rs_instances s) (rs_instances (set_instance s i y)).
Proof. intros Hy. by apply keeps_insert, kept_unverified. Qed.

Lemma keeps_accept_plan bounds s event group plan s' r :
  accept_plan bounds s event group plan = (s', r) -> keeps (rs_instances s) (rs_instances s').
Proof.
  unfold accept_plan. destruct (claim_all _ _ _ _ _ _) as [[claimed dpu]|authority]; [by intros [= <- <-]|].
  destruct (reconcile _ _ _ _ _) as [status|[trial ex]] eqn:Hrec; [by intros [= <- <-]|].
  intros [= <- <-]. apply keeps_reconcile in Hrec. etransitivity; [exact Hrec|].
  intros y Hy Hv. exists y. split; [|done]. revert Hy. cbn [rs_instances set].
  unfold sort_instances. rewrite elem_of_std_sort. unfold retain_plan.
  case_bool_decide; [|destruct (_ <? _)]; done.
Qed.

(** Only an effect report verifies. *)
Lemma keeps_other_events s event bounds weights s' r :
  apply_event s event bounds weights = Some (s', r) ->
  match fe_body event with Body_EffectReported _ => False | _ => True end ->
  keeps (rs_instances s) (rs_instances s').
Proof.
  unfold apply_event. destruct (fe_body event) as [b|b|b|b|b|b|b|b|b|b|b|b|b|b|b].
  12: by intros _ [].
  all: intros Happ _; revert Happ.
  all: try (intros [= Hr]; revert Hr).
  - unfold reduce_topology. cbn zeta.
    destruct (negb _); [by intros [= <- <-]|]. destruct (_ <? _); [by intros [= <- <-]|].
    destruct (_ <? _); [by intros [= <- <-]|].
    destruct (admit_devices _ _ _ _ _) as [|dpus]; [by intros [= <- <-]|].
    intros [= <- _]. etransitivity; [|apply keeps_refresh_health].
    cbn [rs_instances set]. exact (keeps_lose_devices _ _ _).
  - unfold reduce_capability. cbn zeta. branches; intros [= <- <-]; done.
  - unfold reduce_health. cbn zeta. branches; intros [= <- <-]; try done.
    etransitivity; [|apply keeps_refresh_health]. done.
  - unfold reduce_policy. cbn zeta. branches; intros [= <- <-]; done.
  - unfold reduce_attached. cbn zeta. branches; intros [= <- <-]; done.
  - unfold reduce_lost. cbn zeta. branches; intros [= <- <-]; try done.
    exact (keeps_lose_devices (fe_at event) [dlost_dpu b] (set_device s n _)).
  - unfold reduce_service. cbn zeta. branches; intros [= <- <-]; done.
  - unfold reduce_group. cbn zeta. branches; intros [= <- <-]; done.
  - unfold reduce_dependency. cbn zeta. branches; intros [= <- <-]; done.
  - unfold reduce_intent. cbn zeta. destruct (find_group _ _) as [group|]; [|by intros [= <- <-]].
    destruct (intent_gate _ _); [by intros [= <- <-]|].
    destruct (intended_plan _ _ _ _ _ _) as [[refusal|plan]|]; [by intros [= <- <-]| |done].
    intros [= Hr]. by eapply keeps_accept_plan.
  - unfold reduce_acknowledged. branches; intros [= <- <-]; try done. by apply keeps_set_instance.
  - unfold reduce_coordinator. branches; intros [= <- <-]; try done.
    apply keeps_map. intros x. apply kept_fence.
  - unfold reduce_time. branches; intros [= <- <-]; try done.
    pose proof (keeps_refresh_health (s <| rs_clock := ladv_now b |>)) as Hk. exact Hk.
  - unfold reduce_quiesce. intros <-. cbn [rs_instances set]. apply keeps_map. intros x.
    unfold quiesce_instance. destruct (quiesces _ _); [by apply kept_unverified|].
    intros Hx. exists x. by rewrite list_elem_of_singleton.
Qed.

(** What an effect report verifies it proves. *)
Lemma effect_keeps_or_proves s event b s' r y :
  reduce_effect s event b = (s', r) -> y ∈ rs_instances s' ->
  keeps (rs_instances s) (rs_instances s') \/ y ∈ rs_instances s \/
  exists x a, effect_proves s event (erep_report b) x y a.
Proof.
  unfold reduce_effect. cbn zeta. intros Hr Hy. revert Hr.
  destruct (lookup_instance _ _) as [[i x]|] eqn:Hl; [|by intros [= <- <-]; left].
  apply lookup_instance_Some in Hl as [Hi Hid].
  destruct (effect_refusal _ _ _ _) eqn:Href; [by intros [= <- <-]; left|].
  destruct (bool_decide_reflect (er_status (erep_report b) = EffectStatus.Failed)) as [|Hnf];
    [by intros [= <- <-]; left; apply keeps_set_instance|].
  destruct (bool_decide_reflect (er_kind (erep_report b) = EffectKind.Withdraw)) as [|Hnw];
    [by intros [= <- <-]; left; apply keeps_set_instance|].
  intros [= <- <-]. right. cbn [rs_instances set_instance set] in Hy.
  apply list_elem_of_lookup in Hy as (j & Hj). destruct (decide (i = j)) as [<-|Hne].
  2: { rewrite list_lookup_insert_ne in Hj by done. left. by apply list_elem_of_lookup_2 in Hj. }
  apply lookup_lt_Some in Hi as Hlt. rewrite list_lookup_insert_eq in Hj by done.
  injection Hj as Hj. right.
  apply effect_refusal_None in Href as (a & Ha & Hn & Hfv & Ho & He & Hf & Hfr & Hp & Hsp & Hsr).
  exists x, a. rewrite <- Hid in Hfv. subst y. split; try done.
  - split_and!; [by eapply list_elem_of_lookup_2|done..].
  - split_and!; [|done..]. by destruct (er_status (erep_report b)).
Qed.

(** C10. Verified means proven: every verified instance of the state after an event was
    verified before with the same digest and instant, or the event is an effect report
    that proves it: it names the open last attempt of the instance, carries a live
    fence of the instance, and fresh evidence not older than the instant the instance
    was last fenced, it claims full success of something other than a withdrawal, and
    its digest, instant and evidence are what the instance records. *)
Theorem verified_is_proven s event bounds weights s' r y :
  apply_event s event bounds weights = Some (s', r) -> y ∈ rs_instances s' ->
  inst_state y = LifecycleState.Verified ->
  (exists x, x ∈ rs_instances s /\ inst_id x = inst_id y /\
     inst_state x = LifecycleState.Verified /\
     inst_verified_digest x = inst_verified_digest y /\
     inst_verified_at x = inst_verified_at y) \/
  (exists body x a, fe_body event = Body_EffectReported body /\
     effect_proves s event (erep_report body) x y a).
Proof.
  intros Happ Hy Hv. destruct (fe_body event) as [b|b|b|b|b|b|b|b|b|b|b|b|b|b|b] eqn:Hb.
  12: { unfold apply_event in Happ. rewrite Hb in Happ. injection Happ as Hr.
    destruct (effect_keeps_or_proves _ _ _ _ _ y Hr Hy) as [Hk|[Hin|(x & a & Hp)]];
      [left; by apply Hk|left; by exists y|right; by exists b, x, a]. }
  all: left; apply (keeps_other_events _ _ _ _ _ _ Happ); by rewrite ?Hb.
Qed.

Lemma verified_is_proven_witness :
  (exists x, x ∈ rs_instances sample_deployed /\ inst_id x = inst_id sample_verified /\
     inst_state x = LifecycleState.Verified /\
     inst_verified_digest x = inst_verified_digest sample_verified /\
     inst_verified_at x = inst_verified_at sample_verified) \/
  (exists body x a, fe_body sample_effect = Body_EffectReported body /\
     effect_proves sample_deployed sample_effect (erep_report body) x sample_verified a).
Proof.
  apply (verified_is_proven sample_deployed sample_effect RuntimeBounds_default
    PlacementWeights_default (sample_step sample_deployed sample_effect).1
    (sample_step sample_deployed sample_effect).2 sample_verified).
  - vm_compute. reflexivity.
  - apply (bool_decide_unpack _). vm_compute. exact I.
  - vm_compute. reflexivity.
Defined.
