(* ===== verification/History.v ===== *)
(** * Histories of instances, and lost devices

    What an event does to the instances there were: none disappears, identities and
    closed attempts stay, attempts are numbered and single-headed ([continues],
    [succeeds]); what is left of a device after its loss; and the duplicate instance a
    second deployment can create. *)

From S2P Require Import Prelude Std Reason Types Version Resources Bounded Digest Json JsonArchive Archive Model.
From S2P Require Import Codec Authority Dependency Eligibility Planner State Reducers Intent Scenario Lifecycle.
#[local] Open Scope Z_scope.

(** ** The history of an instance *)

(** Attempt numbers count from one (to the last representable number), and only
    the last attempt may be open. *)
Definition attempts_wf (x : InstanceState) : Prop :=
  (forall i a, inst_attempts x !! i = Some a -> att_number a = Z.min (Z.of_nat i + 1) u64_max) /\
  (forall i a, inst_attempts x !! i = Some a -> attempt_open a = true ->
     S i = length (inst_attempts x)).

(** [y] is [x] later: the same replica, its attempts only appended to, a closed
    attempt never touched again. *)
Record continues (x y : InstanceState) : Prop := {
  co_id : inst_id y = inst_id x /\ inst_service y = inst_service x /\
    inst_group y = inst_group x /\ inst_index y = inst_index x;
  co_history : forall i a, inst_attempts x !! i = Some a ->
    exists b, inst_attempts y !! i = Some b /\ att_number b = att_number a /\
      att_fence b = att_fence a /\ att_opened_at b = att_opened_at a /\
      (attempt_open a = false -> b = a);
  co_incarnation : in_width u64_max (inst_incarnation x) ->
    inst_incarnation x <= inst_incarnation y <= u64_max;
  co_wf : attempts_wf x -> attempts_wf y
}.

#[export] Instance continues_preorder : PreOrder continues.
Proof.
  split.
  - intros x. split; [done| |unfold in_width; lia|done]. intros i a Ha. by exists a.
  - intros x y z Hxy Hyz. destruct (co_id _ _ Hxy) as (? & ? & ? & ?), (co_id _ _ Hyz) as (? & ? & ? & ?).
    split.
    + split_and!; congruence.
    + intros i a Ha. destruct (co_history _ _ Hxy i a Ha) as (b & Hb & ? & ? & ? & Hba).
      destruct (co_history _ _ Hyz i b Hb) as (c & Hc & ? & ? & ? & Hcb).
      exists c. split; [done|]. split; [congruence|]. split; [congruence|]. split; [congruence|].
      intros Hclosed. specialize (Hba Hclosed). subst b. auto.
    + pose proof (co_incarnation _ _ Hxy). pose proof (co_incarnation _ _ Hyz).
      unfold in_width in *. lia.
    + intros Hx. by apply (co_wf _ _ Hyz), (co_wf _ _ Hxy).
Qed.

(** The two ways attempts change: one by one in place, and a push. *)
Lemma continues_map f x y :
  inst_id y = inst_id x -> inst_service y = inst_service x -> inst_group y = inst_group x ->
  inst_index y = inst_index x -> inst_incarnation y = inst_incarnation x ->
  inst_attempts y = f <$> inst_attempts x ->
  (forall a, att_number (f a) = att_number a /\ att_fence (f a) = att_fence a /\
     att_opened_at (f a) = att_opened_at a /\ (attempt_open a = false -> f a = a)) ->
  continues x y.
Proof.
  intros ? ? ? ? Hinc Hatt Hf. split; [done| |rewrite Hinc; unfold in_width; lia|].
  - intros i a Ha. exists (f a). rewrite Hatt, list_lookup_fmap, Ha. split; [done|apply Hf].
  - intros [Hn Ho]. unfold attempts_wf. rewrite Hatt, length_fmap. split.
    + intros i a Ha. rewrite list_lookup_fmap in Ha. apply fmap_Some in Ha as (b & Hb & ->).
      destruct (Hf b) as [-> _]. by apply Hn.
    + intros i a Ha Hopen. rewrite list_lookup_fmap in Ha. apply fmap_Some in Ha as (b & Hb & ->).
      apply (Ho i b); [done|]. destruct (attempt_open b) eqn:Hb'; [done|].
      destruct (Hf b) as (_ & _ & _ & He). rewrite (He Hb') in Hopen. congruence.
Qed.

Lemma continues_same x y :
  inst_id y = inst_id x -> inst_service y = inst_service x -> inst_group y = inst_group x ->
  inst_index y = inst_index x -> inst_incarnation y = inst_incarnation x ->
  inst_attempts y = inst_attempts x -> continues x y.
Proof. intros. apply (continues_map id); try done. by rewrite list_fmap_id. Qed.

Lemma cancel_attempt_keeps at_ reason a :
  att_number (cancel_attempt at_ reason a) = att_number a /\
  att_fence (cancel_attempt at_ reason a) = att_fence a /\
  att_opened_at (cancel_attempt at_ reason a) = att_opened_at a /\
  (attempt_open a = false -> cancel_attempt at_ reason a = a).
Proof. unfold cancel_attempt. by destruct (attempt_open a). Qed.

Lemma cancel_attempt_closed at_ reason a : attempt_open (cancel_attempt at_ reason a) = false.
Proof. unfold cancel_attempt. by destruct (attempt_open a) eqn:?. Qed.

Lemma continues_fence at_ reason x : continues x (fence_instance at_ reason x).
Proof. by apply (continues_map (cancel_attempt at_ reason)); try apply cancel_attempt_keeps. Qed.

Lemma continues_cancel at_ reason next x : continues x (cancel_open_attempts at_ reason next x).
Proof. by apply (continues_map (cancel_attempt at_ reason)); try apply cancel_attempt_keeps. Qed.

(** Updating the last attempt while it is open. *)
Lemma continues_update_last f x a :
  current_attempt x = Some a -> attempt_open a = true ->
  att_number (f a) = att_number a -> att_fence (f a) = att_fence a ->
  att_opened_at (f a) = att_opened_at a ->
  continues x (update_last f x).
Proof.
  unfold current_attempt. rewrite last_lookup. intros Ha Hopen Hn Hf Ht.
  assert (Hlook : forall i b, inst_attempts (update_last f x) !! i = Some b ->
    inst_attempts x !! i = Some b \/ (i = pred (length (inst_attempts x)) /\ b = f a)).
  { intros i b. unfold update_last. cbn [inst_attempts set].
    destruct (decide (i = pred (length (inst_attempts x)))) as [->|Hne].
    - rewrite list_lookup_alter_eq, Ha. intros [= <-]. by right.
    - rewrite list_lookup_alter_ne by done. by left. }
  split; [done| |unfold in_width; cbn; lia|].
  - intros i b Hb. unfold update_last. cbn [inst_attempts set].
    destruct (decide (i = pred (length (inst_attempts x)))) as [->|Hne].
    + rewrite list_lookup_alter_eq. rewrite Ha in Hb. simplify_eq. rewrite Ha. exists (f b).
      split_and!; try done. by rewrite Hopen.
    + rewrite list_lookup_alter_ne by done. by exists b.
  - intros [Hnum Ho]. split.
    + intros i b [Hb|[-> ->]]%Hlook; [by apply Hnum|]. rewrite Hn. by apply Hnum.
    + intros i b Hb Hob. unfold update_last. cbn [inst_attempts set]. rewrite length_alter.
      apply Hlook in Hb as [Hb|[-> ->]]; [by eapply Ho|]. by eapply (Ho _ a).
Qed.

(** Pushing the next attempt when none is open. *)
Lemma continues_push a x :
  att_number a = next_attempt x ->
  Forall (fun b => attempt_open b = false) (inst_attempts x) \/
    (attempts_wf x -> from_option attempt_open false (current_attempt x) = false) ->
  continues x (push_attempt a x).
Proof.
  intros Hn Hclosed. split; [done| |unfold in_width; cbn; lia|].
  - intros i b Hb. exists b. cbn. split_and!; try done. by apply lookup_app_l_Some.
  - intros Hwf. pose proof Hwf as [Hnum Ho]. unfold push_attempt, attempts_wf.
    cbn [inst_attempts set]. rewrite length_app. split.
    + intros i b. rewrite lookup_app_Some. intros [Hb|[Hi Hb]]; [by apply Hnum|].
      apply list_lookup_singleton_Some in Hb as [Hi' <-]. rewrite Hn. unfold next_attempt.
      rewrite last_lookup. destruct (inst_attempts x !! pred _) as [c|] eqn:Hc.
      * assert (Hlt := lookup_lt_Some _ _ _ Hc). apply Hnum in Hc. rewrite Hc. unfold saturating_next.
        rewrite saturating_add_spec by (unfold in_width, u64_max; lia). lia.
      * apply lookup_ge_None in Hc. destruct (inst_attempts x); cbn in *; [unfold u64_max; lia|lia].
    + intros i b. rewrite lookup_app_Some. intros [Hb|[Hi Hb]] Hopen.
      * exfalso. destruct Hclosed as [Hclosed|Hclosed].
        -- rewrite Forall_lookup in Hclosed. by rewrite (Hclosed i b Hb) in Hopen.
        -- assert (Hi := Ho i b Hb Hopen). specialize (Hclosed Hwf). revert Hclosed.
           unfold current_attempt. rewrite last_lookup, <- Hi. cbn [pred]. rewrite Hb. cbn. congruence.
      * apply list_lookup_singleton_Some in Hb as [Hi' <-]. cbn. lia.
Qed.

(** The instances after: every instance before, continued, and new ones. *)
Definition succeeds (l l' : list InstanceState) : Prop :=
  exists l1 new, l' ≡ₚ l1 ++ new /\ Forall2 continues l l1 /\ Forall attempts_wf new.

Lemma Forall2_continues_refl l : Forall2 continues l l.
Proof. induction l; by constructor. Qed.

#[export] Instance succeeds_preorder : PreOrder succeeds.
Proof.
  split.
  - intros l. exists l, []. rewrite app_nil_r. split_and!; [done|apply Forall2_continues_refl|constructor].
  - intros l1 l2 l3 (m & n & Hm & H12 & Hn) (k & n' & Hk & H23 & Hn').
    assert (exists k', k' ≡ₚ k /\ Forall2 continues (m ++ n) k') as (k' & Hk' & Hf).
    { clear -Hm H23. revert k H23. induction Hm as [|x l l' Hp IH|x y l|l l' l'' Hp1 IH1 Hp2 IH2]; intros k Hf.
      - exists k. by inversion Hf.
      - apply Forall2_cons_inv_l in Hf as (z & k0 & Hz & Hf' & ->). destruct (IH _ Hf') as (k' & Hp' & Hf2).
        exists (z :: k'). split; [by rewrite Hp'|by constructor].
      - apply Forall2_cons_inv_l in Hf as (z & k0 & Hz & Hf' & ->).
        apply Forall2_cons_inv_l in Hf' as (z' & k1 & Hz' & Hf'' & ->).
        exists (z' :: z :: k1). split; [apply perm_swap|by apply Forall2_cons; split; [|apply Forall2_cons]].
      - destruct (IH1 _ Hf) as (k1 & Hp1' & Hf1). destruct (IH2 _ Hf1) as (k2 & Hp2' & Hf2).
        exists k2. split; [by rewrite Hp2'|done]. }
    apply Forall2_app_inv_l in Hf as (k1 & k2 & Hf1 & Hf2 & ->).
    exists k1, (k2 ++ n'). rewrite Hk, <- Hk', <- app_assoc. split_and!; [done| |].
    + by transitivity m.
    + apply Forall_app. split; [|done]. clear -Hf2 Hn. induction Hf2 as [|x y l k Hxy _ IH]; [constructor|].
      inversion Hn; subst. constructor; [by apply (co_wf _ _ Hxy)|auto].
Qed.

Lemma succeeds_perm l l' : l' ≡ₚ l -> succeeds l l'.
Proof. intros Hp. exists l, []. rewrite app_nil_r.
split_and!; [done|apply Forall2_continues_refl|constructor]. Qed.

Lemma succeeds_map f l : (forall x, continues x (f x)) -> succeeds l (f <$> l).
Proof.
  intros Hf. exists (f <$> l), []. rewrite app_nil_r. split_and!; [done| |constructor].
  induction l; by constructor.
Qed.

Lemma succeeds_insert l i x y : l !! i = Some x -> continues x y -> succeeds l (<[i := y]> l).
Proof.
  intros Hi Hxy. exists (<[i := y]> l), []. rewrite app_nil_r. split_and!; [done| |constructor].
  rewrite <- (list_insert_id l i x) at 1 by done. apply Forall2_insert; [|done].
  apply Forall2_continues_refl.
Qed.

Lemma succeeds_snoc l y : attempts_wf y -> succeeds l (l ++ [y]).
Proof. intros Hy. exists l, [y]. split_and!; [done|apply Forall2_continues_refl|by constructor]. Qed.

Lemma continues_state st x : continues x (x <| inst_state := st |>).
Proof. by apply continues_same. Qed.

Lemma continues_fresh b x : continues x (x <| inst_health_fresh := b |>).
Proof. by apply continues_same. Qed.

Lemma succeeds_refresh_health s : succeeds (rs_instances s) (rs_instances (refresh_health s)).
Proof.
  unfold refresh_health.
  assert (Hloop : forall dpus acc l, succeeds (rs_instances s) l ->
    succeeds (rs_instances s) (foldl (fun '(dpus, instances) dpu =>
      let '(dpu, stale) := refresh_dpu (rs_clock s) dpu in
      (dpus ++ [dpu], if stale then lose_freshness (dpu_id dpu) <$> instances else instances))
      (acc, l) dpus).2).
  { induction dpus as [|d dpus IH]; intros acc l Hl; [done|]. cbn [foldl].
    destruct (refresh_dpu _ _) as [d' stale]. apply IH. destruct stale; [|done].
    etransitivity; [exact Hl|]. apply succeeds_map. intros x. unfold lose_freshness.
    case_bool_decide; by apply continues_same. }
  specialize (Hloop (topo_dpus (rs_topology s)) [] (rs_instances s) ltac:(done)).
  destruct (foldl _ _ _) as [dpus instances]. cbn [snd] in Hloop. cbn [rs_instances set].
  etransitivity; [exact Hloop|]. apply succeeds_map. intros x. unfold refresh_instance.
  destruct (topology_find _ _) as [dpu|]; [|by apply continues_same].
  destruct (negb _); [by apply continues_same|]. destruct (_ && _); by apply continues_same.
Qed.

Lemma succeeds_lose_devices at_ ids s :
  succeeds (rs_instances s) (rs_instances (foldl (lose_device at_) s ids)).
Proof.
  revert s. induction ids as [|id ids IH]; intros s; [done|]. cbn [foldl].
  etransitivity; [|apply IH]. apply succeeds_map. intros x. unfold lose_instance.
  case_bool_decide; [|done]. etransitivity; [apply continues_fence|apply continues_state].
Qed.

Lemma next_attempt_push phase at_ digest fence x :
  Forall (fun b => attempt_open b = false) (inst_attempts x) \/
    (attempts_wf x -> from_option attempt_open false (current_attempt x) = false) ->
  continues x (push_attempt (open_attempt (next_attempt x) phase at_ digest fence) x).
Proof. by apply continues_push. Qed.

Lemma cancelled_closed at_ reason l :
  Forall (fun b => attempt_open b = false) (cancel_attempt at_ reason <$> l).
Proof. apply Forall_fmap, Forall_forall. intros. apply cancel_attempt_closed. Qed.

Lemma continues_replaced plan at_ version replica x :
  continues x (replaced_instance plan at_ version replica x).
Proof.
  unfold replaced_instance. set (reason := if terminal _ then _ else _).
  etransitivity; [|apply continues_fence].
  split; [done| |cbn; apply saturating_next_le|done]. intros i a Ha. by exists a.
Qed.

Lemma succeeds_reconcile_replica plan group at_ bounds sp acc r acc' :
  reconcile_replica plan group at_ bounds sp acc r = inr acc' ->
  succeeds (rs_instances acc.1) (rs_instances acc'.1).
Proof.
  destruct acc as [trial stats]. unfold reconcile_replica. cbn zeta.
  destruct (lookup_instance _ _) as [[i x]|] eqn:Hl.
  - apply lookup_instance_Some in Hl as [Hi Hid].
    assert (Hset : forall s y z, rs_instances s = rs_instances trial -> continues x z ->
      succeeds (rs_instances trial) (rs_instances (set_instance (set_instance s i y) i z))).
    { intros s y z Hs Hz. cbn. rewrite Hs, list_insert_insert_eq. by eapply succeeds_insert. }
    destruct (_ || _).
    { destruct (authorize _ _ _ _ _ _ _) as [|[s1 x1]] eqn:Ha; [done|]. intros [= <-].
      apply authorize_inv in Ha as (fences & fence & _ & -> & ->). apply Hset; [done|].
      etransitivity; [apply continues_replaced|]. etransitivity; [|apply continues_state].
      apply next_attempt_push. left. apply cancelled_closed. }
    destruct (stale_attempt x) eqn:Hstale.
    { destruct (authorize _ _ _ _ _ _ _) as [|[s1 x1]] eqn:Ha; [done|]. intros [= <-].
      apply authorize_inv in Ha as (fences & fence & _ & -> & ->). apply Hset; [done|].
      etransitivity; [apply next_attempt_push|by apply continues_same].
      right. intros _. unfold stale_attempt in Hstale. by apply negb_true_iff in Hstale. }
    intros [= <-]. cbn. eapply succeeds_insert; [done|by apply continues_same].
  - destruct (_ <=? _); [done|]. destruct (fence_issue _ _) as [fences [fence|]]; [|done].
    intros [= <-]. cbn. apply succeeds_snoc. split; cbn.
    + by intros i a [-> <-]%list_lookup_singleton_Some.
    + by intros i a [-> <-]%list_lookup_singleton_Some.
Qed.

Lemma quiesce_uncovered_continues plan at_ group acc x acc' :
  quiesce_uncovered plan group at_ acc x = inr acc' ->
  exists y, acc'.1.2 = acc.1.2 ++ [y] /\ continues x y.
Proof.
  destruct acc as [[fences instances] stats]. unfold quiesce_uncovered.
  destruct (negb (leaves_plan _ _ _)); [intros [= <-]; by exists x|]. cbn zeta.
  set (y := (cancel_open_attempts _ _ _ x) <| inst_health_fresh := false |>).
  assert (Hy : continues x y)
    by (etransitivity; [apply continues_cancel|apply continues_fresh]).
  destruct (negb _); [intros [= <-]; by exists y|].
  destruct (fence_issue _ _) as [f [fence|]]; [|done].
  intros [= <-]. eexists. split; [done|]. etransitivity; [exact Hy|].
  apply next_attempt_push. left. apply cancelled_closed.
Qed.

Lemma succeeds_quiesce plan at_ group l acc acc' :
  fold_status (quiesce_uncovered plan group at_) acc l = inr acc' ->
  exists l1, acc'.1.2 = acc.1.2 ++ l1 /\ Forall2 continues l l1.
Proof.
  revert acc. induction l as [|x l IH]; intros acc.
  - intros [= <-]. exists []. by rewrite app_nil_r.
  - cbn [fold_status]. destruct (quiesce_uncovered _ _ _ _ _) as [|acc1] eqn:Hq; [done|].
    intros (l1 & -> & Hl)%IH. apply quiesce_uncovered_continues in Hq as (y & -> & Hy).
    exists (y :: l1). rewrite <- app_assoc. by split; [|constructor].
Qed.

Lemma succeeds_reconcile plan group at_ bounds s s' ex :
  reconcile plan group at_ bounds s = inr (s', ex) -> succeeds (rs_instances s) (rs_instances s').
Proof.
  unfold reconcile. destruct (fold_status _ _ (plan_services plan)) as [|[trial stats]] eqn:Hf; [done|].
  assert (Ht : succeeds (rs_instances s) (rs_instances trial)).
  { change trial with (fst (trial, stats)).
    refine (fold_status_list _ (fun acc => succeeds (rs_instances s) (rs_instances acc.1)) _ _ _ _ _ Hf);
      [|done].
    intros b sp b' _ Hb Hs.
    refine (fold_status_list _ (fun acc => succeeds (rs_instances s) (rs_instances acc.1)) _ _ _ _ Hs Hb).
    intros c r c' _ Hr%succeeds_reconcile_replica Hc. by etransitivity. }
  destruct (fold_status _ _ (rs_instances trial)) as [|[[fences instances] stats']] eqn:Hq; [done|].
  intros [= <- <-]. cbn [rs_instances set]. etransitivity; [exact Ht|].
  apply succeeds_quiesce in Hq as (l1 & Hl1 & Hf1). cbn in Hl1. subst instances.
  exists l1, []. rewrite app_nil_r. by split_and!; [..|constructor].
Qed.

Lemma succeeds_accept_plan bounds s event group plan s' r :
  accept_plan bounds s event group plan = (s', r) -> succeeds (rs_instances s) (rs_instances s').
Proof.
  unfold accept_plan. destruct (claim_all _ _ _ _ _ _) as [[claimed dpu]|authority]; [by intros [= <- <-]|].
  destruct (reconcile _ _ _ _ _) as [status|[trial ex]] eqn:Hrec; [by intros [= <- <-]|].
  intros [= <- <-]. apply succeeds_reconcile in Hrec. etransitivity; [exact Hrec|].
  apply succeeds_perm. cbn [rs_instances set]. unfold sort_instances. rewrite std_sort_perm.
  unfold retain_plan. case_bool_decide; [|destruct (_ <? _)]; done.
Qed.

Lemma succeeds_wf l l' : succeeds l l' -> Forall attempts_wf l -> Forall attempts_wf l'.
Proof.
  intros (l1 & new & -> & Hf & Hn) Hl. apply Forall_app. split; [|done]. clear Hn.
  induction Hf as [|x y l k Hxy _ IH]; [constructor|]. apply Forall_cons in Hl as [Hx Hl].
  apply Forall_cons. split; [by apply (co_wf _ _ Hxy)|auto].
Qed.

Lemma succeeds_set_instance s i x y :
  lookup_instance s y = Some (i, x) -> forall z, continues x z ->
  succeeds (rs_instances s) (rs_instances (set_instance s i z)).
Proof. intros [Hi _]%lookup_instance_Some z Hz. by eapply succeeds_insert. Qed.

Lemma effect_target s event report x :
  effect_refusal s event report x = None ->
  exists a, current_attempt x = Some a /\ attempt_open a = true.
Proof. intros (a & Ha & _ & _ & Ho & _)%effect_refusal_None. by exists a. Qed.

Lemma continues_close outcome reason phase at_ x a :
  current_attempt x = Some a -> attempt_open a = true ->
  continues x (update_last (close_attempt outcome reason phase at_) x).
Proof. intros Ha Ho. by eapply continues_update_last. Qed.

Lemma apply_event_succeeds s event bounds weights s' r :
  apply_event s event bounds weights = Some (s', r) ->
  succeeds (rs_instances s) (rs_instances s').
Proof.
  unfold apply_event. destruct (fe_body event) as [b|b|b|b|b|b|b|b|b|b|b|b|b|b|b].
  all: try (intros [= Hr]; try intros _; revert Hr).
  - unfold reduce_topology. cbn zeta.
    destruct (negb _); [by intros [= <- <-]|]. destruct (_ <? _); [by intros [= <- <-]|].
    destruct (_ <? _); [by intros [= <- <-]|].
    destruct (admit_devices _ _ _ _ _) as [|dpus]; [by intros [= <- <-]|].
    intros [= <- _]. etransitivity; [|apply succeeds_refresh_health].
    cbn [rs_instances set]. exact (succeeds_lose_devices _ _ _).
  - unfold reduce_capability. cbn zeta. branches; intros [= <- <-]; done.
  - unfold reduce_health. cbn zeta. branches; intros [= <- <-]; try done.
    etransitivity; [|apply succeeds_refresh_health]. done.
  - unfold reduce_policy. cbn zeta. branches; intros [= <- <-]; done.
  - unfold reduce_attached. cbn zeta. branches; intros [= <- <-]; done.
  - unfold reduce_lost. cbn zeta. branches; intros [= <- <-]; try done.
    exact (succeeds_lose_devices (fe_at event) [dlost_dpu b] (set_device s n _)).
  - unfold reduce_service. cbn zeta. branches; intros [= <- <-]; done.
  - unfold reduce_group. cbn zeta. branches; intros [= <- <-]; done.
  - unfold reduce_dependency. cbn zeta. branches; intros [= <- <-]; done.
  - unfold reduce_intent. cbn zeta. destruct (find_group _ _) as [group|]; [|by intros [= <- <-]].
    destruct (intent_gate _ _); [by intros [= <- <-]|].
    destruct (intended_plan _ _ _ _ _ _) as [[refusal|plan]|]; [by intros [= <- <-]| |done].
    intros [= Hr]. by eapply succeeds_accept_plan.
  - unfold reduce_acknowledged. branches; intros [= <- <-]; try done.
    eapply succeeds_set_instance; [done|]. etransitivity; [|apply continues_state].
    apply negb_false_iff in Heqb1. destruct (current_attempt _) as [a|] eqn:Ha; [|done].
    cbn in Heqb1. apply andb_true_iff in Heqb1 as [_ Ho]. by eapply continues_update_last.
  - unfold reduce_effect. cbn zeta. destruct (lookup_instance _ _) as [[i x]|] eqn:Hl; [|by intros [= <- <-]].
    destruct (effect_refusal _ _ _ _) eqn:Href; [by intros [= <- <-]|].
    apply effect_target in Href as (a & Ha & Ho).
    destruct (bool_decide _); [|destruct (bool_decide _)]; intros [= <- <-];
      (eapply succeeds_set_instance; [done|]);
      (etransitivity; [by eapply continues_close|by apply continues_same]).
  - unfold reduce_coordinator. branches; intros [= <- <-]; try done.
    apply succeeds_map. intros x. apply continues_fence.
  - unfold reduce_time. branches; intros [= <- <-]; try done.
    pose proof (succeeds_refresh_health (s <| rs_clock := ladv_now b |>)) as Hk. exact Hk.
  - unfold reduce_quiesce. intros <-. cbn [rs_instances set]. apply succeeds_map. intros x.
    unfold quiesce_instance. destruct (quiesces _ _); [|done].
    etransitivity; [apply continues_cancel|apply continues_fresh].
Qed.

(** C5. Attempt histories are append-only and single-headed: whatever event is applied,
    no instance disappears; each keeps its identity, its incarnation does not go back,
    and its attempts are only appended to, a closed attempt staying as it was and the
    number, fence and opening instant of every attempt staying; and if every instance
    numbers its attempts from one and has at most its last attempt open, this is still
    so after the event, also for new instances. *)
Theorem attempt_history_append_only s event bounds weights s' r :
  apply_event s event bounds weights = Some (s', r) ->
  (exists l1 new, rs_instances s' ≡ₚ l1 ++ new /\ Forall2 continues (rs_instances s) l1) /\
  (Forall attempts_wf (rs_instances s) -> Forall attempts_wf (rs_instances s')).
Proof.
  intros Happ%apply_event_succeeds. split; [|by apply succeeds_wf].
  destruct Happ as (l1 & new & Hp & Hf & _). eauto.
Qed.

Lemma attempt_history_append_only_witness :
  let after := (sample_step sample_deployed sample_effect).1 in
  (exists l1 new, rs_instances after ≡ₚ l1 ++ new /\
     Forall2 continues (rs_instances sample_deployed) l1) /\
  (Forall attempts_wf (rs_instances sample_deployed) -> Forall attempts_wf (rs_instances after)).
Proof.
  apply (attempt_history_append_only sample_deployed sample_effect RuntimeBounds_default
    PlacementWeights_default _ (sample_step sample_deployed sample_effect).2).
  vm_compute. reflexivity.
Defined.

(** ** A lost device *)

Lemma release_owners r scope dpu :
  registry_ok r -> registry_ok (release r scope dpu).1 /\
  owners (release r scope dpu).1 =
    match owners r !! dpu with
    | Some g => if bool_decide (ag_scope g = scope) then delete dpu (owners r) else owners r
    | None => owners r
    end.
Proof.
  intros Hr. pose proof (release_refines r scope dpu Hr) as H. cbn [run_authority spec_authority] in H.
  destruct (release r scope dpu) as [r' b]. destruct H as [Hok H]. split; [done|]. cbn [fst].
  destruct (owners r !! dpu) as [g|]; [|by injection H].
  by destruct (bool_decide _); injection H.
Qed.

(** [release_device] takes the device from the owners, and nothing else. *)
Lemma release_device_owners r dpu :
  registry_ok r ->
  registry_ok (release_device r dpu) /\ owners (release_device r dpu) = delete dpu (owners r).
Proof.
  intros Hr. unfold release_device. pose proof (strictly_NoDup _ _ _ (proj1 Hr)) as Hnd.
  destruct (owners r !! dpu) as [g|] eqn:Hg.
  - pose proof Hg as [Hin Hd]%as_map_Some; [|done].
    assert (Hf : filter (fun x => ag_dpu x = dpu) (ar_grants r) = [g]).
    { apply (filter_unique ag_dpu); done. }
    rewrite Hf. cbn [fmap list_fmap foldl]. destruct (release_owners r (ag_scope g) dpu Hr) as [Hok ->].
    split; [done|]. by rewrite Hg, bool_decide_true.
  - assert (Hf : filter (fun x => ag_dpu x = dpu) (ar_grants r) = []).
    { apply filter_Forall_none, Forall_forall. intros x Hx Hd. apply as_map_None in Hg. apply Hg.
      rewrite <- Hd. by apply list_elem_of_fmap_2. }
    rewrite Hf. split; [done|]. by rewrite delete_id.
Qed.

Lemma find_device_Some s id i dpu :
  find_device s id = Some (i, dpu) -> topo_dpus (rs_topology s) !! i = Some dpu /\ dpu_id dpu = id /\
  forall j d, (j < i)%nat -> topo_dpus (rs_topology s) !! j = Some d -> dpu_id d <> id.
Proof.
  unfold find_device, topology_find_index.
  destruct (list_find _ _) as [[j d]|] eqn:Hf; [|done]. intros (e & He & [= -> ->])%fmap_Some.
  apply list_find_Some in Hf as (Hj & Hid & Hbefore). rewrite He in Hj. simplify_eq.
  split_and!; [done..|]. intros k e Hk He'. by eapply Hbefore.
Qed.

(** The record found after an update of the record found. *)
Lemma topology_find_set s id i dpu dpu' :
  find_device s id = Some (i, dpu) -> dpu_id dpu' = id ->
  topology_find (rs_topology (set_device s i dpu')) id = Some dpu'.
Proof.
  intros (Hi & Hid & Hbefore)%find_device_Some Hid'. unfold topology_find, set_device.
  cbn [rs_topology topo_dpus set].
  assert (Hf : list_find (fun d => dpu_id d = id) (<[i:=dpu']> (topo_dpus (rs_topology s))) = Some (i, dpu')).
  { apply list_find_Some. apply lookup_lt_Some in Hi as Hlt.
    split_and!; [by rewrite list_lookup_insert_eq|done|].
    intros j d Hd Hj. rewrite list_lookup_insert_ne in Hd by lia. by eapply Hbefore. }
  by rewrite Hf.
Qed.

Lemma lose_instance_here at_ id x :
  inst_dpu (lose_instance at_ id x) = id ->
  let y := lose_instance at_ id x in
  inst_state y = LifecycleState.Lost /\ inst_health_fresh y = false /\
  inst_effect_fenced_at y = at_ /\ inst_fence_reason y = ReasonCode.DpuLost /\
  Forall (fun a => attempt_open a = false) (inst_attempts y).
Proof.
  unfold lose_instance. case_bool_decide; [|done]. cbn. intros _. split_and!; try done.
  apply cancelled_closed.
Qed.

(** C27. Losing a device leaves it nothing: when a loss is applied, the device is lost,
    of unknown health and not fresh, no scope owns it while every other device keeps
    its owner, each of its instances is lost, fenced at the instant of the loss and
    has no open attempt, so that no effect report for one of them is accepted, and
    instances on other devices are untouched. *)
Theorem lost_device_keeps_nothing s event b bounds weights s' r :
  fe_body event = Body_DpuLost b -> registry_ok (rs_authority s) ->
  apply_event s event bounds weights = Some (s', r) -> app_applied r = true ->
  (exists dpu, topology_find (rs_topology s') (dlost_dpu b) = Some dpu /\
     dpu_state dpu = DpuState.Lost /\ dpu_health dpu = HealthState.Unknown /\
     dpu_health_fresh dpu = false /\ dpu_health_observed_at dpu = fe_at event) /\
  (forall d, owner_of (rs_authority s') d =
     if decide (d = dlost_dpu b) then None else owner_of (rs_authority s) d) /\
  (forall y, y ∈ rs_instances s' -> inst_dpu y = dlost_dpu b ->
     inst_state y = LifecycleState.Lost /\ inst_health_fresh y = false /\
     inst_effect_fenced_at y = fe_at event /\
     Forall (fun a => attempt_open a = false) (inst_attempts y) /\
     forall t later report, effect_refusal t later report y <> None) /\
  (forall i x, rs_instances s !! i = Some x -> inst_dpu x <> dlost_dpu b ->
     rs_instances s' !! i = Some x).
Proof.
  intros Hb Hr. unfold apply_event. rewrite Hb. unfold reduce_lost. cbn zeta. intros [= Happ]. revert Happ.
  destruct (find_device s (dlost_dpu b)) as [[i dpu]|] eqn:Hd; [|by intros [= <- <-]].
  destruct (bool_decide _); [by intros [= <- <-]|]. intros [= <- <-] _.
  destruct (release_device_owners (rs_authority s) (dlost_dpu b) Hr) as [Hok Hown].
  split_and!.
  - eexists. split; [eapply (topology_find_set s _ i dpu); [done|]|done].
    by apply find_device_Some in Hd as (_ & ? & _).
  - intros d. cbn [lose_device rs_authority set set_device].
    rewrite !owner_of_owners by done. rewrite Hown. case_decide as Heq.
    + by rewrite Heq, lookup_delete_eq.
    + by rewrite lookup_delete_ne.
  - intros y Hy Hyd. cbn [lose_device rs_instances set set_device] in Hy.
    apply list_elem_of_fmap in Hy as (x & -> & Hx). apply lose_instance_here in Hyd as (H1 & H2 & H3 & _ & H5).
    split_and!; [done..|]. intros t later report (a & Ha & Ho)%effect_target.
    unfold current_attempt in Ha. apply last_Some_elem_of in Ha. rewrite Forall_forall in H5.
    by rewrite (H5 a Ha) in Ho.
  - intros j x Hj Hx. cbn [lose_device rs_instances set set_device]. rewrite list_lookup_fmap, Hj.
    cbn. unfold lose_instance. by rewrite bool_decide_false.
Qed.

Lemma lost_device_keeps_nothing_witness :
  let after := (sample_step sample_deployed sample_loss).1 in
  (forall d, owner_of (rs_authority after) d =
     if decide (d = "dpu-1") then None else owner_of (rs_authority sample_deployed) d) /\
  forall y, y ∈ rs_instances after -> inst_dpu y = "dpu-1" -> inst_state y = LifecycleState.Lost.
Proof.
  destruct (lost_device_keeps_nothing sample_deployed sample_loss
    (DpuLost_default <| dlost_dpu := "dpu-1" |>) RuntimeBounds_default
    PlacementWeights_default (sample_step sample_deployed sample_loss).1
    (sample_step sample_deployed sample_loss).2) as (_ & Howner & Hinst & _).
  - reflexivity.
  - exact sample_registry_ok.
  - vm_compute. reflexivity.
  - vm_compute. reflexivity.
  - split; [exact Howner|]. intros y Hy Hd. apply (Hinst y Hy Hd).
Defined.

(** A second deployment can duplicate an instance.  [reconcile] searches the trial
    instances by bisection while the instances it creates are pushed at the back, so
    after creating [db] it no longer finds [web]: the deployment of generation 2,
    which only adds a service to the one of generation 1, leaves two instances of the
    same identity, here on different devices, both with an open attempt; the fence of
    the first no longer validates. *)
Theorem redeploy_duplicates_instance :
  let deploy generation services := sample_event 5 (Body_IntentSubmitted (mkIntentSubmitted
    (sample_intent <| int_generation := generation |> <| int_services := services |>))) in
  let web := mkServiceReplicaIntent "web" 1 in
  let db := mkServiceReplicaIntent "db" 1 in
  let events := take 5 sample_events in
  let before := state_after (events ++ [deploy 1 [web]]) in
  let after := state_after (events ++ [deploy 1 [web]; deploy 2 [db; web]]) in
  inst_id <$> rs_instances before = ["i-edge.web.0"] /\
  inst_id <$> rs_instances after = ["i-edge.db.0"; "i-edge.web.0"; "i-edge.web.0"] /\
  (fun x => (inst_dpu x, from_option attempt_open false (current_attempt x),
             from_option (fun a => fence_validate (rs_fences after) (inst_id x) (att_fence a)) false
               (current_attempt x))) <$> rs_instances after =
    [("dpu-1", true, true); ("dpu-1", true, false); ("dpu-2", true, true)].
Proof. vm_compute. done. Qed.
