(* ===== verification/Runtime.v ===== *)
(** * The runtime

    [FabricRuntime] of [src/engine/runtime.cpp]: staging, the ordered flush of a batch
    with its duplicate window, write-ahead journal and decisions, checkpoints, closing,
    and recovery.  [mutex_] makes every operation atomic, so operations are functions
    of the whole runtime; those that touch the store run in [IO].  The destructor runs
    [close], also on the runtime an [open] gives up.  An operation has no result where
    the reducer dereferences the empty rollback target. *)

From S2P Require Import Prelude Std Reason Types Version Resources Bounded Digest Json JsonArchive Archive Model.
From S2P Require Import Codec Authority Eligibility Planner State Intent Scenario Store.
#[local] Open Scope Z_scope.

(** ** Data *)
Record DeliveryRecord := mkDeliveryRecord {
  del_origin : OriginId;
  del_origin_epoch : OriginEpoch;
  del_origin_seq : Sequence;
  del_digest : Digest
}.

Record RuntimeConfig := mkRuntimeConfig {
  rc_bounds : RuntimeBounds;
  rc_store_id : StoreId;
  rc_coordinator : OriginId;
  rc_epoch : CoordinatorEpoch;
  rc_boot : BootIncarnation;
  rc_store_directory : option string;
  rc_fsync_journal : bool;
  rc_weights : PlacementWeights
}.
#[export] Instance eta_RuntimeConfig : Settable RuntimeConfig := fun c =>
  mkRuntimeConfig (rc_bounds c) (rc_store_id c) (rc_coordinator c) (rc_epoch c) (rc_boot c)
    (rc_store_directory c) (rc_fsync_journal c) (rc_weights c).
Definition RuntimeConfig_default : RuntimeConfig :=
  mkRuntimeConfig RuntimeBounds_default "" "" 0 0 None true PlacementWeights_default.

(** [FabricRuntime] with its [Impl]; the fields of [Impl] nothing reads are left out. *)
Record FabricRuntime := mkFabricRuntime {
  rt_config : RuntimeConfig;
  rt_recovery : RecoverySummary;
  rt_state : RuntimeState;
  rt_pending : list FabricEvent;
  rt_deliveries : BoundedHistory DeliveryRecord;
  rt_store : option Store;
  rt_closed : bool;
  rt_state_digest : Digest;
  rt_durable_digest : Digest
}.
#[export] Instance eta_FabricRuntime : Settable FabricRuntime := fun r =>
  mkFabricRuntime (rt_config r) (rt_recovery r) (rt_state r) (rt_pending r) (rt_deliveries r)
    (rt_store r) (rt_closed r) (rt_state_digest r) (rt_durable_digest r).

(** ** The duplicate window *)
Definition same_delivery (event : FabricEvent) (seen : DeliveryRecord) : bool :=
  bool_decide (del_origin seen = fe_origin event) &&
  (del_origin_epoch seen =? fe_origin_epoch event) && (del_origin_seq seen =? fe_origin_seq event).
Definition find_delivery (deliveries : BoundedHistory DeliveryRecord) (event : FabricEvent)
  : option DeliveryRecord := find (same_delivery event) (bh_entries deliveries).
Definition delivery_record (event : FabricEvent) : DeliveryRecord :=
  mkDeliveryRecord (fe_origin event) (fe_origin_epoch event) (fe_origin_seq event)
    (event_digest event).

(** Remembering a delivery; an eviction is accounted in the ledger of the state. *)
Definition remember_delivery (s : RuntimeState) (deliveries : BoundedHistory DeliveryRecord)
    (event : FabricEvent) : RuntimeState * BoundedHistory DeliveryRecord :=
  let '(deliveries, evicted) := bh_push deliveries (delivery_record event) in
  let size := zlen (bh_entries deliveries) in
  (if 0 <? evicted then
     s <| rs_truncations := (ledger_record (rs_truncations s) "delivery.window" (evicted + size) size
            ReasonCode.DuplicateWindowEvicted).1 |>
   else s, deliveries).

(** ** Checkpoints and closing *)

(** [checkpoint_locked] *)
Definition checkpoint_locked (r : FabricRuntime) : IO (FabricRuntime * Status) :=
  match rt_store r with
  | None => mret (r, Status_success)
  | Some store =>
    let* rotated := rotate store (encode_binary RuntimeState_codec (rt_state r)) in
    let r := r <| rt_store := Some rotated.1 |> in
    if negb (status_ok rotated.2) then mret (r, rotated.2)
    else mret (r <| rt_state := (rt_state r) <| rs_journaled_events := 0 |> |>, Status_success)
  end.

(** [checkpoint] *)
Definition checkpoint (r : FabricRuntime) : IO (FabricRuntime * Status) :=
  if rt_closed r then mret (r, refuse ReasonCode.StoreClosed "runtime is closed")
  else checkpoint_locked r.

(** [close]: the last checkpoint, then the store. *)
Definition close (r : FabricRuntime) : IO (FabricRuntime * Status) :=
  if rt_closed r then mret (r, Status_success) else
  let r := r <| rt_closed := true |> in
  match rt_store r with
  | None => mret (r <| rt_pending := [] |>, Status_success)
  | Some _ =>
    let* checkpointed := checkpoint_locked r in
    let '(r, checkpointed) := checkpointed in
    match rt_store r with
    | None => mret (r <| rt_pending := [] |>, checkpointed)
    | Some store =>
      let* closed := store_close store in
      let result := if status_ok checkpointed then Status_success else checkpointed in
      mret (r <| rt_store := Some closed.1 |> <| rt_pending := [] |>,
            if negb (status_ok closed.2) && status_ok result then closed.2 else result)
    end
  end.

(** ** Ingest *)

(** [stage] *)
Definition stage (r : FabricRuntime) (event : FabricEvent) : FabricRuntime * Status :=
  if rt_closed r then (r, refuse ReasonCode.StoreClosed "runtime is closed")
  else if negb (id_valid (fe_id event)) || negb (id_valid (fe_origin event)) ||
          negb (counter_valid (fe_origin_epoch event)) then
    (r, refuse ReasonCode.InvalidIdentity "event identity is incomplete")
  else if negb (bool_decide (fe_payload_digest event = Digest_zero)) &&
          negb (bool_decide (fe_payload_digest event = compute_payload_digest event)) then
    (r, refuse ReasonCode.InvalidDigest "event payload digest does not match its body")
  else
  match find_delivery (rt_deliveries r) event with
  | Some seen =>
    (r, if bool_decide (del_digest seen = event_digest event) then
          Status_make ReasonCode.DuplicateSuppressed "duplicate delivery suppressed"
        else refuse ReasonCode.ConflictingDuplicate
               "same origin sequence delivered with different content")
  | None =>
    let account container requested accepted code :=
      r <| rt_state := (rt_state r)
             <| rs_truncations := (ledger_record (rs_truncations (rt_state r)) container
                                     requested accepted code).1 |> |> in
    let pending := zlen (rt_pending r) in
    if fe_at event <=? rs_watermark (rt_state r) then
      (account "ingest.late" 1 0 ReasonCode.LateEventRejected,
       refuse ReasonCode.LateEventRejected "event is older than the released watermark")
    else if max_batch_events (rc_bounds (rt_config r)) <=? pending then
      (account "ingest.pending" (pending + 1) pending ReasonCode.QueueFull,
       refuse ReasonCode.QueueFull "reorder buffer is full")
    else (r <| rt_pending := rt_pending r ++ [event] |>, Status_success)
  end.

(** *** The decision an event leaves *)

(** The stamps of the generations in force. *)
Definition stamp_explanation (decision : FabricDecision) (entry : Explanation) : Explanation :=
  entry
    <| ex_topology := if counter_valid (ex_topology entry) then ex_topology entry
                      else dec_topology decision |>
    <| ex_capability := if counter_valid (ex_capability entry) then ex_capability entry
                        else dec_capability decision |>
    <| ex_policy := if counter_valid (ex_policy entry) then ex_policy entry
                    else dec_policy decision |>
    <| ex_deployment := if counter_valid (ex_deployment entry) then ex_deployment entry
                        else dec_deployment decision |>
    <| ex_evidence_digest := if bool_decide (ex_evidence_digest entry = Digest_zero)
                             then dec_evidence_digest decision else ex_evidence_digest entry |>.

(** The explanations over the bound are dropped, and the drop is recorded. *)
Definition bound_explanations (bound : Z) (decision : FabricDecision) : FabricDecision :=
  let size := zlen (dec_explanations decision) in
  if bound <? size then
    let dropped := size - bound in
    decision <| dec_explanations := take (Z.to_nat bound) (dec_explanations decision) |>
             <| dec_truncations := dec_truncations decision ++
                  [mkTruncationRecord "decision.explanations" (dropped + bound) bound dropped
                     ReasonCode.HistoryTruncated] |>
  else decision.

Definition make_decision (bounds : RuntimeBounds) (s : RuntimeState) (event : FabricEvent)
    (applied : ApplyResult) : FabricDecision :=
  let operation := if id_valid (fe_id event) then value_or (StrongId_parse (fe_id event)) "" else "" in
  let decision := mkFabricDecision operation (app_kind applied) (app_accepted applied)
    (app_code applied) (fe_at event) (rs_epoch s) (rs_boot s) (rs_topology_generation s)
    (rs_capability_generation s) (rs_policy_generation s) (rs_deployment_generation s)
    (compute_payload_digest event) (pol_policy_digest (rs_policy s)) Digest_zero
    (app_explanations applied ++
       [explanation (app_code applied) (app_kind applied) (fe_id event) (event_kind_name event)]) [] in
  let decision := decision
    <| dec_explanations := std_sort explanation_lt
                             (stamp_explanation decision <$> dec_explanations decision) |> in
  let decision := bound_explanations (max_explanations bounds) decision in
  decision <| dec_decision_digest := canonical_digest FabricDecision_codec decision |>.

(** The oldest decision makes room. *)
Definition retain_decision (bounds : RuntimeBounds) (s : RuntimeState) (decision : FabricDecision)
  : RuntimeState :=
  let bound := max_decisions_retained bounds in
  let s :=
    if bound <=? zlen (rs_decisions s) then
      s <| rs_decisions := tail (rs_decisions s) |>
        <| rs_truncations := (ledger_record (rs_truncations s) "decision.history" (bound + 1) bound
             ReasonCode.HistoryTruncated).1 |>
    else s in
  s <| rs_decisions := rs_decisions s ++ [decision] |>.

(** *** One released event *)

(** How an outcome is counted. *)
Definition count_outcome (report : BatchReport) (outcome : EventOutcome) : BatchReport :=
  let report := report <| br_outcomes := br_outcomes report ++ [outcome] |> in
  if is_informational (eo_code outcome) then
    if eo_applied outcome then report <| br_applied := br_applied report + 1 |>
    else report <| br_suppressed := br_suppressed report + 1 |>
  else report <| br_refused := br_refused report + 1 |>.

(** A failure of the journal counts as a refusal whatever its code. *)
Definition count_refused (report : BatchReport) (outcome : EventOutcome) : BatchReport :=
  report <| br_refused := br_refused report + 1 |>
         <| br_outcomes := br_outcomes report ++ [outcome] |>.

(** Writing the event ahead; a full journal is rotated once. *)
Definition journal_event (r : FabricRuntime) (event : FabricEvent) : IO (FabricRuntime * Status) :=
  match rt_store r with
  | None => mret (r, Status_success)
  | Some store =>
    let finish (r : FabricRuntime) (appended : Status) :=
      (if status_ok appended then
         r <| rt_state := (rt_state r) <| rs_journaled_events := rs_journaled_events (rt_state r) + 1 |> |>
       else r, appended) in
    let* appended := append_event store event in
    let r := r <| rt_store := Some appended.1 |> in
    if bool_decide (status_code appended.2 = ReasonCode.BoundExceeded) then
      let* rotated := checkpoint_locked r in
      let '(r, rotated) := rotated in
      if negb (status_ok rotated) then mret (r, rotated) else
      match rt_store r with
      | None => mret (r, Status_success)
      | Some store =>
        let* appended := append_event store event in
        mret (finish (r <| rt_store := Some appended.1 |>) appended.2)
      end
    else mret (finish r appended.2)
  end.

(** Applying a journaled event: the state, the deliveries, and the outcome. *)
Definition apply_released (config : RuntimeConfig) (s : RuntimeState)
    (deliveries : BoundedHistory DeliveryRecord) (event : FabricEvent)
  : option (RuntimeState * BoundedHistory DeliveryRecord * EventOutcome) :=
  let '(s, deliveries) := remember_delivery s deliveries event in
  match apply_event s event (rc_bounds config) (rc_weights config) with
  | None => None
  | Some (s, applied) =>
    let s := if rs_watermark s <? fe_at event then s <| rs_watermark := fe_at event |> else s in
    let s := if rs_clock s <? fe_at event then refresh_health (s <| rs_clock := fe_at event |>) else s in
    let outcome := mkEventOutcome (fe_id event) (app_code applied) (app_applied applied)
                     (app_detail applied) in
    Some (retain_decision (rc_bounds config) s (make_decision (rc_bounds config) s event applied),
          deliveries, outcome)
  end.

Definition duplicate_outcome (event : FabricEvent) (seen : DeliveryRecord) : EventOutcome :=
  if bool_decide (del_digest seen = event_digest event) then
    mkEventOutcome (fe_id event) ReasonCode.DuplicateSuppressed false "duplicate delivery suppressed"
  else
    mkEventOutcome (fe_id event) ReasonCode.ConflictingDuplicate false
      "same origin sequence with different content".

(** The body of the loop of [flush]. *)
Definition release_event (r : FabricRuntime) (report : BatchReport) (event : FabricEvent)
  : IO (option (FabricRuntime * BatchReport)) :=
  match find_delivery (rt_deliveries r) event with
  | Some seen => mret (Some (r, count_outcome report (duplicate_outcome event seen)))
  | None =>
    let* journaled := journal_event r event in
    let '(r, appended) := journaled in
    if negb (status_ok appended) then
      mret (Some (r, count_refused report
        (mkEventOutcome (fe_id event) (status_code appended) false (status_detail appended))))
    else
    mret (match apply_released (rt_config r) (rt_state r) (rt_deliveries r) event with
    | None => None
    | Some (s, deliveries, outcome) =>
      Some (r <| rt_state := s |> <| rt_deliveries := deliveries |>, count_outcome report outcome)
    end)
  end.

Fixpoint release_events (r : FabricRuntime) (report : BatchReport) (events : list FabricEvent)
  : IO (option (FabricRuntime * BatchReport)) :=
  match events with
  | [] => mret (Some (r, report))
  | event :: events =>
    let* released := release_event r report event in
    match released with
    | None => mret None
    | Some (r, report) => release_events r report events
    end
  end.

(** The digests a flush leaves, and the end of its report. *)
Definition publish_digests (r : FabricRuntime) : FabricRuntime :=
  r <| rt_state_digest := canonical_digest RuntimeState_codec (rt_state r) |>
    <| rt_durable_digest := canonical_digest PlacementProjection_codec
                              (placement_projection (rt_state r)) |>.
Definition finish_report (s : RuntimeState) (report : BatchReport) : BatchReport :=
  report <| br_evicted := total_dropped (rs_truncations s) |>
         <| br_truncations := tl_records (rs_truncations s) |>
         <| br_state_digest := canonical_digest RuntimeState_codec s |>
         <| br_primary := match find (fun o => is_refusal (eo_code o)) (br_outcomes report) with
                          | Some o => eo_code o
                          | None => br_primary report
                          end |>.

Definition event_less (a b : FabricEvent) : bool := event_key_less (event_key a) (event_key b).

(** [flush] *)
Definition flush (r : FabricRuntime) (upto : LogicalInstant)
  : IO (option (FabricRuntime * Result BatchReport)) :=
  if rt_closed r then mret (Some (r, Failed (refuse ReasonCode.StoreClosed "runtime is closed"))) else
  let released := filter (fun e => fe_at e <= upto) (rt_pending r) in
  let r := r <| rt_pending := filter (fun e => upto < fe_at e) (rt_pending r) |> in
  let* done := release_events r (BatchReport_default <| br_upto := upto |>) (std_sort event_less released) in
  mret (match done with
  | None => None
  | Some (r, report) =>
    let r := publish_digests (r <| rt_state := refresh_health (rt_state r) |>) in
    Some (r, Value (finish_report (rt_state r) report))
  end).

(** [submit]: the failures and duplicates of staging, in the order of the batch. *)
Definition stage_outcome (event : FabricEvent) (staged : Status) : EventOutcome :=
  mkEventOutcome (fe_id event) (status_code staged) false (status_detail staged).
Fixpoint stage_all (r : FabricRuntime) (events : list FabricEvent)
  : FabricRuntime * list EventOutcome * list EventOutcome :=
  match events with
  | [] => (r, [], [])
  | event :: events =>
    let '(r, staged) := stage r event in
    let '(r, failures, duplicates) := stage_all r events in
    if bool_decide (status_code staged = ReasonCode.DuplicateSuppressed) then
      (r, failures, stage_outcome event staged :: duplicates)
    else if negb (status_ok staged) then (r, stage_outcome event staged :: failures, duplicates)
    else (r, failures, duplicates)
  end.
Definition merge_report (report : BatchReport) (failures duplicates : list EventOutcome) : BatchReport :=
  let report := report <| br_suppressed := br_suppressed report + zlen duplicates |>
                       <| br_refused := br_refused report + zlen failures |>
                       <| br_outcomes := br_outcomes report ++ duplicates ++ failures |> in
  let primary := foldl (fun primary o => if is_refusal primary then primary else eo_code o)
                   (br_primary report) failures in
  report <| br_primary := primary |>
         <| br_outcomes := if bool_decide (failures = []) && bool_decide (duplicates = [])
                           then br_outcomes report
                           else std_sort (fun a b => str_lt (eo_id a) (eo_id b)) (br_outcomes report) |>.
Definition latest_instant (events : list FabricEvent) : LogicalInstant :=
  foldl (fun upto e => if upto <? fe_at e then fe_at e else upto) 0 events.
Definition submit (r : FabricRuntime) (events : list FabricEvent)
  : IO (option (FabricRuntime * Result BatchReport)) :=
  if max_batch_events (rc_bounds (rt_config r)) <? zlen events then
    mret (Some (r, Failed (refuse ReasonCode.BatchTooLarge "batch exceeds the configured bound")))
  else
  let '(r, failures, duplicates) := stage_all r events in
  let* flushed := flush r (latest_instant events) in
  mret (match flushed with
  | Some (r, Value report) => Some (r, Value (merge_report report failures duplicates))
  | other => other
  end).

(** ** Recovery *)

(** [replay_event]: a duplicate is skipped; the clock does not follow the events. *)
Definition replay_event (config : RuntimeConfig) (s : RuntimeState)
    (deliveries : BoundedHistory DeliveryRecord) (event : FabricEvent)
  : option (RuntimeState * BoundedHistory DeliveryRecord * Status) :=
  match find_delivery deliveries event with
  | Some _ =>
    Some (s, deliveries, Status_make ReasonCode.DuplicateSuppressed "duplicate suppressed during replay")
  | None =>
    let '(s, deliveries) := remember_delivery s deliveries event in
    match apply_event s event (rc_bounds config) (rc_weights config) with
    | None => None
    | Some (s, _) =>
      Some (if rs_watermark s <? fe_at event then s <| rs_watermark := fe_at event |> else s,
            deliveries, Status_success)
    end
  end.

(** The bound on the sequences of a stored state or event. *)
Definition recovery_limit (config : RuntimeConfig) : Z := max_instances (rc_bounds config) + 1024.

(** The loop over the journal records: how far it came, and the refusal that ended it
    if one did. *)
Fixpoint replay_records (config : RuntimeConfig) (snapshot_watermark : LogicalInstant)
    (s : RuntimeState) (deliveries : BoundedHistory DeliveryRecord) (replayed : Z)
    (records : list (list Byte))
  : option (RuntimeState * BoundedHistory DeliveryRecord * Z * option Status) :=
  match records with
  | [] => Some (s, deliveries, replayed, None)
  | record :: records =>
    match decode_binary FabricEvent_codec record (recovery_limit config) with
    | Failed status =>
      Some (s, deliveries, replayed,
            Some (refuse ReasonCode.StoreCorrupt
                    ("journal record could not be decoded: " +:+ status_message status)))
    | Value event =>
      if fe_at event <=? snapshot_watermark then
        replay_records config snapshot_watermark s deliveries replayed records
      else
        match replay_event config s deliveries event with
        | None => None
        | Some (s, deliveries, status) =>
          if negb (status_ok status) then
            Some (s, deliveries, replayed,
                  Some (refuse (status_code status) "journal replay refused an event"))
          else replay_records config snapshot_watermark s deliveries (replayed + 1) records
        end
    end
  end.

(** [fence_after_recovery]: the state and the instances that claimed liveness. *)
Definition claimed_liveness (i : InstanceState) : bool :=
  match inst_state i with
  | LifecycleState.Verified | LifecycleState.Acknowledged | LifecycleState.Deploying
  | LifecycleState.Authorized | LifecycleState.Planned | LifecycleState.Unverified => true
  | _ => false
  end.
Definition fence_after_recovery (s : RuntimeState) : RuntimeState * list InstanceId :=
  let fenced := inst_id <$> filter (fun i => claimed_liveness i) (rs_instances s) in
  (s <| rs_instances := fence_instance (rs_clock s) ReasonCode.RestartFenced <$> rs_instances s |>
     <| rs_restart_fenced := fenced |>, fenced).

(** The boot incarnation after a recovery. *)
Definition recovered_boot (config : RuntimeConfig) (previous : BootIncarnation) : BootIncarnation :=
  let boot := if previous <? rc_boot config then rc_boot config else previous in
  let candidate := match counter_next boot with
                   | Value next => next
                   | Failed _ => saturating_next boot
                   end in
  if candidate <? boot then boot else candidate.

(** The state a recovered runtime starts from. *)
Definition restart (config : RuntimeConfig) (s : RuntimeState) : RuntimeState * list InstanceId :=
  let s := s <| rs_boot := recovered_boot config (rs_boot s) |> in
  let s := if rs_epoch s <? rc_epoch config then s <| rs_epoch := rc_epoch config |> else s in
  fence_after_recovery (s <| rs_fences := fence_reset (rs_fences s) (rs_epoch s) (rs_boot s) |>).

(** The refusals of a configuration. *)
Definition config_refusal (config : RuntimeConfig) : option Status :=
  if negb (status_ok (bounds_validate (rc_bounds config))) then Some (bounds_validate (rc_bounds config))
  else if negb (id_valid (rc_store_id config)) then
    Some (refuse ReasonCode.InvalidIdentity "store identity is required")
  else if negb (id_valid (rc_coordinator config)) then
    Some (refuse ReasonCode.InvalidIdentity "coordinator identity is required")
  else if negb (counter_valid (rc_epoch config)) then
    Some (refuse ReasonCode.InvalidIdentity "coordinator epoch is required")
  else if negb (counter_valid (rc_boot config)) then
    Some (refuse ReasonCode.InvalidIdentity "boot incarnation is required")
  else None.

(** The runtime before recovery. *)
Definition fresh_runtime (config : RuntimeConfig) : FabricRuntime :=
  mkFabricRuntime config RecoverySummary_default
    (initial_state (rc_store_id config) (rc_coordinator config) (rc_epoch config) (rc_boot config)) []
    (bh_set_capacity (bh_make 0) (max_duplicate_window (rc_bounds config))) None false
    Digest_zero Digest_zero.

Definition store_options (config : RuntimeConfig) (directory : string) : StoreOptions :=
  StoreOptions_default <| so_directory := directory |> <| so_store_id := rc_store_id config |>
    <| so_max_journal_bytes := max_journal_bytes (rc_bounds config) |>
    <| so_max_record_bytes := max_frame_bytes (rc_bounds config) |>
    <| so_fsync := rc_fsync_journal config |>.

(** The snapshot replaces the state; a refusal leaves the runtime as it was. *)
Definition restore_snapshot (r : FabricRuntime) (payload : list Byte) : FabricRuntime * option Status :=
  let config := rt_config r in
  if bool_decide (payload = []) then (r, None) else
  match decode_binary RuntimeState_codec payload (recovery_limit config) with
  | Failed status =>
    (r, Some (refuse ReasonCode.StoreCorrupt
                ("snapshot payload could not be decoded: " +:+ status_message status)))
  | Value restored =>
    if id_valid (rs_store_id restored) && negb (bool_decide (rs_store_id restored = rc_store_id config)) then
      (r, Some (refuse ReasonCode.StoreSemanticsIncompatible "store identity does not match"))
    else
      (r <| rt_recovery := (rt_recovery r) <| rsum_previous_epoch := rs_epoch restored |>
              <| rsum_previous_boot := rs_boot restored |> <| rsum_recovered_from_store := true |> |>
         <| rt_state := restored
              <| rs_fences := fence_reset (rs_fences restored) (rs_epoch restored) (rs_boot restored) |> |>,
       None)
  end.

(** The last part of [open], after the replay. *)
Definition finish_open (r : FabricRuntime) (recovery : StoreRecovery) (recovered : bool)
  : IO (FabricRuntime * option Status) :=
  let config := rt_config r in
  if recovered then
    let '(s, fenced) := restart config (rt_state r) in
    let classification :=
      if bool_decide (sr_classification recovery = RecoveryClass.EmptyStore)
      then RecoveryClass.CleanReopen else sr_classification recovery in
    let r := r <| rt_state := s |>
               <| rt_recovery := (rt_recovery r) <| rsum_restart_fenced := fenced |>
                    <| rsum_classification := classification |> |> in
    let* checkpointed := checkpoint r in
    let '(r, checkpointed) := checkpointed in
    if negb (status_ok checkpointed) then mret (r, Some checkpointed)
    else mret (publish_digests r, None)
  else
    let s := rt_state r in
    mret (publish_digests (r <| rt_state :=
            s <| rs_fences := fence_reset (rs_fences s) (rs_epoch s) (rs_boot s) |> |>), None).

(** Giving up an [open] destroys the runtime, which closes it. *)
Definition abandon_open (r : FabricRuntime) (status : Status) : IO (option (Result FabricRuntime)) :=
  let* closed := close r in mret (Some (Failed status)).

(** What loading the store reported. *)
Definition note_recovery (r : FabricRuntime) (recovery : StoreRecovery) : FabricRuntime :=
  r <| rt_recovery := (rt_recovery r) <| rsum_classification := sr_classification recovery |>
         <| rsum_torn_tail := bool_decide (sr_classification recovery = RecoveryClass.TornTailTruncated) |>
         <| rsum_records_dropped := sr_records_dropped recovery |> |>.

(** Recovery from a store that loaded. *)
Definition recover (r : FabricRuntime) (recovery : StoreRecovery) (payload : list Byte)
    (records : list (list Byte)) : IO (option (Result FabricRuntime)) :=
  let recovered := negb (bool_decide (payload = [])) || negb (bool_decide (records = [])) in
  match restore_snapshot (note_recovery r recovery) payload with
  | (r, Some status) => abandon_open r status
  | (r, None) =>
    match replay_records (rt_config r) (rs_watermark (rt_state r)) (rt_state r) (rt_deliveries r) 0 records with
    | None => mret None
    | Some (s, deliveries, replayed, refusal) =>
      let r := r <| rt_state := s |> <| rt_deliveries := deliveries |>
                 <| rt_recovery := (rt_recovery r) <| rsum_journal_records_replayed := replayed |> |> in
      match refusal with
      | Some status => abandon_open r status
      | None =>
        let* finished := finish_open r recovery recovered in
        match finished with
        | (r, Some status) => abandon_open r status
        | (r, None) => mret (Some (Value r))
        end
      end
    end
  end.

(** [FabricRuntime::open] *)
Definition runtime_open (config : RuntimeConfig) : IO (option (Result FabricRuntime)) :=
  match config_refusal config with
  | Some status => mret (Some (Failed status))
  | None =>
    let r := fresh_runtime config in
    match rc_store_directory config with
    | None => mret (Some (Value (publish_digests r)))
    | Some directory =>
      let* opened := store_open (store_options config directory) in
      match opened with
      | Failed status => abandon_open r status
      | Value store =>
        let* loaded := store_load store in
        let '(store, loaded) := loaded in
        let r := r <| rt_store := Some store |> in
        match ld_result loaded with
        | Failed status => abandon_open r status
        | Value recovery => recover r recovery (ld_snapshot loaded) (ld_records loaded)
        end
      end
    end
  end.

(** ** Queries *)
Definition state_digest (r : FabricRuntime) : Digest := canonical_digest RuntimeState_codec (rt_state r).
Definition durable_digest (r : FabricRuntime) : Digest :=
  canonical_digest PlacementProjection_codec (placement_projection (rt_state r)).
Definition runtime_snapshot (r : FabricRuntime) : RuntimeState := rt_state r.
Definition runtime_epoch (r : FabricRuntime) : CoordinatorEpoch := rs_epoch (rt_state r).
Definition runtime_boot (r : FabricRuntime) : BootIncarnation := rs_boot (rt_state r).
Definition runtime_clock (r : FabricRuntime) : LogicalInstant := rs_clock (rt_state r).
Definition staged_count (r : FabricRuntime) : Z := zlen (rt_pending r).
Definition instance_count (r : FabricRuntime) : Z := zlen (rs_instances (rt_state r)).
Definition runtime_instance (r : FabricRuntime) (id : InstanceId) : option InstanceState :=
  let instances := rs_instances (rt_state r) in find_instance instances id ≫= fun i => instances !! i.
Definition latest_plan (r : FabricRuntime) : option DeploymentPlan := last (rs_plans (rt_state r)).
Definition last_decision (r : FabricRuntime) : option FabricDecision := last (rs_decisions (rt_state r)).
Definition explain_last_decision (r : FabricRuntime) : list Explanation :=
  match last_decision r with Some decision => dec_explanations decision | None => [] end.
Definition explain_instance (r : FabricRuntime) (id : InstanceId) : list Explanation :=
  match runtime_instance r id with
  | None => [explanation ReasonCode.InstanceNotFound DecisionKind.Lifecycle id "no such instance"]
  | Some found =>
    std_sort explanation_lt (inst_reasons found ++
      [explanation ReasonCode.Ok DecisionKind.Lifecycle id
         ("state " +:+ enum_to_string (inst_state found) +:+ " health " +:+
          enum_to_string (inst_health found) +:+
          (if inst_health_fresh found then " (fresh)" else " (not fresh)"))])
  end.
Definition device (r : FabricRuntime) (id : DpuId) : option DpuRecord :=
  topology_find (rs_topology (rt_state r)) id.
Definition explain_eligibility (r : FabricRuntime) (dpu : DpuId) (service : ServiceId)
  : option Eligibility :=
  match topology_find (rs_topology (rt_state r)) dpu, find_service (rs_services (rt_state r)) service with
  | Some record, Some definition =>
    Some (evaluate record definition (rs_policy (rt_state r)) (rs_clock (rt_state r)))
  | _, _ => None
  end.
