(* ===== verification/Export.v ===== *)
(** * The machine-readable export

    [FabricRuntime::export_json] of [src/engine/runtime.cpp] and the version
    identity of [include/dpu/fabric/version.hpp] and [src/version.cpp] it
    publishes. *)

From S2P Require Import Prelude Std Reason Types Version Resources Bounded Digest Json JsonArchive Archive Model.
From S2P Require Import Codec Authority Eligibility Planner JsonLaws State JsonCodec Intent Scenario Store Runtime.
#[local] Open Scope Z_scope.

(** ** Version identity *)
Definition kVersionMajor : Z := 1.
Definition kVersionMinor : Z := 0.
Definition kVersionPatch : Z := 0.
Definition kProductName : string := "DPU Service Fabric".
Definition kVendorName : string := "Summon Software Labs".
Definition version_string : string := "1.0.0".
Definition version_banner : string :=
  kProductName +:+ " " +:+ version_string +:+ " (format " +:+ to_string kFormatVersion +:+
  ", semantics " +:+ to_string kSemanticVersion +:+ ")".

(** ** The document *)
Definition export_json (r : FabricRuntime) : JsonValue :=
  let root := make_object in
  let root := json_set "product" (JString kProductName) root in
  let root := json_set "version" (JString version_string) root in
  let root := json_set "format_version" (JInt kFormatVersion) root in
  let root := json_set "semantic_version" (JInt kSemanticVersion) root in
  let root := json_set "state_digest" (JString (digest_hex (state_digest r))) root in
  let root := json_set "durable_digest" (JString (digest_hex (durable_digest r))) root in
  let root := json_set "state" (encode_json RuntimeState_codec (rt_state r)) root in
  let root := json_set "recovery" (encode_json RecoverySummary_codec (rt_recovery r)) root in
  json_set "journal_records"
    (JInt (match rt_store r with Some store => st_journal_records store | None => 0 end)) root.

#[local] Opaque sha256.

Lemma export_members r : export_json r = JObject [
  ("product", JString kProductName); ("version", JString version_string);
  ("format_version", JInt kFormatVersion); ("semantic_version", JInt kSemanticVersion);
  ("state_digest", JString (digest_hex (state_digest r)));
  ("durable_digest", JString (digest_hex (durable_digest r)));
  ("state", encode_json RuntimeState_codec (rt_state r));
  ("recovery", encode_json RecoverySummary_codec (rt_recovery r));
  ("journal_records",
   JInt (match rt_store r with Some store => st_journal_records store | None => 0 end))].
Proof. reflexivity. Qed.

Lemma export_levels r : (json_levels (export_json r) <= S kMaxDepth)%nat.
Proof.
  rewrite export_members, (encode_json_document RuntimeState_codec),
    (encode_json_document RecoverySummary_codec). cbn [json_levels map snd].
  pose proof (json_depth (c := RuntimeState_codec) (rt_state r)).
  pose proof (json_depth (c := RecoverySummary_codec) (rt_recovery r)).
  unfold list_max, kMaxDepth. cbn [foldr json_levels]. lia.
Qed.

(** C26. The export is the runtime's state: its text, pretty or compact, parses back;
    the member "state" of the document decodes to the state, up to the seals of its
    plans, and the two digests it publishes are those of the state and of its
    durable projection.  The integers must be ones the parser reads, and the text within its size bound. *)
Theorem export_reads_back (r : FabricRuntime) (pretty : bool) (max_bytes max : Z)
    (Hstate : j_ok RuntimeState_codec max (rt_state r) = true)
    (Hwf : json_wf (export_json r) = true)
    (Hsize : slen (to_text pretty (export_json r)) <= max_bytes) :
  exists document state state_hex durable_hex,
    parse_json (to_text pretty (export_json r)) max_bytes = Some (Value document) /\
    json_find "state" document = Some state /\
    decode_json RuntimeState_codec state max = Value (drop_seals (rt_state r)) /\
    json_find "state_digest" document = Some (JString state_hex) /\
    digest_parse_hex state_hex = Value (state_digest r) /\
    json_find "durable_digest" document = Some (JString durable_hex) /\
    digest_parse_hex durable_hex = Value (durable_digest r).
Proof.
  exists (export_json r), (encode_json RuntimeState_codec (rt_state r)),
    (digest_hex (state_digest r)), (digest_hex (durable_digest r)).
  split_and!.
  - apply json_text_write; [done|apply export_levels|done].
  - by rewrite export_members.
  - rewrite <-RuntimeState_codec_norm. exact (decode_encode_json RuntimeState_codec max _ Hstate).
  - by rewrite export_members.
  - apply digest_parse_hex_hex, sha256_wf.
  - by rewrite export_members.
  - apply digest_parse_hex_hex, sha256_wf.
Qed.

Lemma export_reads_back_witness :
  let r := fresh_runtime (RuntimeConfig_default <| rc_store_id := "store-1" |>
    <| rc_coordinator := "coordinator-1" |> <| rc_epoch := 1 |> <| rc_boot := 1 |>) in
  exists document state state_hex durable_hex,
    parse_json (to_text true (export_json r)) 1048576 = Some (Value document) /\
    json_find "state" document = Some state /\
    decode_json RuntimeState_codec state 1024 = Value (drop_seals (rt_state r)) /\
    json_find "state_digest" document = Some (JString state_hex) /\
    digest_parse_hex state_hex = Value (state_digest r) /\
    json_find "durable_digest" document = Some (JString durable_hex) /\
    digest_parse_hex durable_hex = Value (durable_digest r).
Proof.
  intros r. apply (export_reads_back r true 1048576 1024).
  - vm_compute. reflexivity.
  - vm_compute. reflexivity.
  - vm_compute. discriminate.
Defined.
