(* ===== verification/Server.v ===== *)
(** * One connection of the server

    [Server::Impl::dispatch] and [handle_connection] of
    [src/transport/server.cpp], with the runtime they call and the two socket calls
    of [src/transport/socket.cpp] they go through.  The queue, the workers and the
    shutdown are in Serving.v. *)

From S2P Require Import Prelude Std Reason Types Version Resources Bounded Digest Json JsonArchive Archive Model.
From S2P Require Import Codec Authority Eligibility Planner JsonLaws State JsonCodec Wire Frame Intent Scenario Store Runtime Export.
#[local] Open Scope Z_scope.

Record ServerOptions := mkServerOptions {
  sv_bind_address : string;
  sv_port : Z;
  sv_workers : Z;
  sv_max_pending_connections : Z;
  sv_max_frame_bytes : Z;
  sv_export_allowed : bool
}.
Definition ServerOptions_default : ServerOptions :=
  mkServerOptions "127.0.0.1" 0 2 16 (1024 * 1024) true.

Record ServerStats := mkServerStats {
  ss_connections : Z;
  ss_requests : Z;
  ss_refusals : Z;
  ss_frames_rejected : Z;
  ss_connections_cancelled : Z;
  ss_queue_rejections : Z;
  ss_shutdown_requested : bool
}.
#[export] Instance eta_ServerStats : Settable ServerStats := fun s =>
  mkServerStats (ss_connections s) (ss_requests s) (ss_refusals s) (ss_frames_rejected s)
    (ss_connections_cancelled s) (ss_queue_rejections s) (ss_shutdown_requested s).
Definition ServerStats_default : ServerStats := mkServerStats 0 0 0 0 0 0 false.

(** [stats.field += 1] on 64-bit counters. *)
Definition wrap_succ (n : Z) : Z := (n + 1) mod 2 ^ 64.
Definition count_request (s : ServerStats) : ServerStats := s <| ss_requests := wrap_succ (ss_requests s) |>.
Definition count_refusal (s : ServerStats) : ServerStats := s <| ss_refusals := wrap_succ (ss_refusals s) |>.
Definition count_rejected (s : ServerStats) : ServerStats :=
  s <| ss_frames_rejected := wrap_succ (ss_frames_rejected s) |>.
Definition count_cancelled (s : ServerStats) : ServerStats :=
  s <| ss_connections_cancelled := wrap_succ (ss_connections_cancelled s) |>.

(** [Server::create] *)
Definition server_create (options : ServerOptions) : Status :=
  if (sv_workers options =? 0) || (kMaxWorkersCeiling <? sv_workers options) then
    refuse ReasonCode.ValueOutOfRange "worker count out of range"
  else if (sv_max_pending_connections options =? 0) ||
          (kMaxPendingRequestsCeiling <? sv_max_pending_connections options) then
    refuse ReasonCode.ValueOutOfRange "connection queue bound out of range"
  else Status_success.

(** ** Dispatch *)
Definition refusal_payload (code : ReasonCode) (detail : string) : list Byte :=
  encode_binary RefusalPayload_codec (mkRefusalPayload code detail).
Definition refused (response : Frame) (code : ReasonCode) (detail : string) : Frame :=
  (set_response_status response ResponseStatus.Refused)
    <| fr_payload := refusal_payload code detail |>.
(** A request body under the default bound on sequences. *)
Definition decode_body {T} (c : Codec T) (request : Frame) : Result T :=
  decode_binary c (fr_payload request) kMaxDecodedSequence.

Definition dispatch_submit (r : FabricRuntime) (request response : Frame)
  : IO (option (FabricRuntime * Frame)) :=
  match decode_body SubmitRequest_codec request with
  | Failed s => mret (Some (r, refused response (status_code s) (status_detail s)))
  | Value body =>
    let* done := submit r (subq_events body) in
    mret (match done with
    | None => None
    | Some (r, Failed s) => Some (r, refused response (status_code s) (status_detail s))
    | Some (r, Value report) =>
      let reply := mkSubmitResponse report (state_digest r) (durable_digest r) in
      Some (r, response <| fr_payload := encode_binary SubmitResponse_codec reply |>)
    end)
  end.

Definition dispatch_export (options : ServerOptions) (r : FabricRuntime) (request response : Frame) : Frame :=
  match decode_body ExportRequest_codec request, sv_export_allowed options with
  | Failed s, _ => refused response (status_code s) "export is refused by server policy"
  | Value _, false => refused response ReasonCode.UnsupportedOperation "export is refused by server policy"
  | Value body, true =>
    let document := to_text (exoq_pretty body) (export_json r) in
    if sv_max_frame_bytes options / 2 <? slen document then
      refused response ReasonCode.FrameOversized "export exceeds the frame bound"
    else response <| fr_payload := encode_binary ExportResponse_codec (mkExportResponse document) |>
  end.

(** The response before its operation is executed. *)
Definition blank_response (request : Frame) : Frame :=
  set_response_status
    (Frame_default <| fr_op := fr_op request |> <| fr_request_id := fr_request_id request |>)
    ResponseStatus.Ok.

(** The runtime afterwards, the response and whether the server is to shut down. *)
Definition dispatch (options : ServerOptions) (r : FabricRuntime) (request : Frame)
  : IO (option (FabricRuntime * Frame * bool)) :=
  let response := blank_response request in
  match fr_op request with
  | OpCode.Ping =>
    mret (Some (r, match decode_body PingRequest_codec request with
    | Failed s => refused response (status_code s) (status_detail s)
    | Value body =>
      response <| fr_payload := encode_binary PingResponse_codec
                    (mkPingResponse (pingq_nonce body) kProductName version_string) |>
    end, false))
  | OpCode.Submit =>
    let* done := dispatch_submit r request response in
    mret (match done with Some (r, response) => Some (r, response, false) | None => None end)
  | OpCode.Query =>
    let reply := mkQueryResponse (state_digest r) (durable_digest r) (instance_count r)
                   (staged_count r) (rt_recovery r) in
    mret (Some (r, response <| fr_payload := encode_binary QueryResponse_codec reply |>, false))
  | OpCode.Explain =>
    mret (Some (r, match decode_body ExplainRequest_codec request with
    | Failed s => refused response (status_code s) (status_detail s)
    | Value body =>
      let explanations := if expq_has_instance body then explain_instance r (expq_instance body)
                          else explain_last_decision r in
      response <| fr_payload := encode_binary ExplainResponse_codec (mkExplainResponse explanations) |>
    end, false))
  | OpCode.Export => mret (Some (r, dispatch_export options r request response, false))
  | OpCode.Shutdown =>
    let reply := mkShutdownResponse (instance_count r) (state_digest r) in
    mret (Some (r, response <| fr_payload := encode_binary ShutdownResponse_codec reply |>, true))
  end.

(** ** The socket

    What the operating system answers on one connection: the pieces still to be
    received, and for each call of [::send] to come how much it takes.  A piece of no
    bytes is the orderly close.  Past its schedule a send takes everything. *)
Inductive Arrival : Type := Piece (data : list Byte) | Reset (error : string).
Inductive SendCall : Type := Takes (more : nat) | Breaks (error : string).

Record Peer := mkPeer {
  pe_arrivals : list Arrival;
  pe_sends : list SendCall;
  pe_received : list Byte
}.
#[export] Instance eta_Peer : Settable Peer := fun p =>
  mkPeer (pe_arrivals p) (pe_sends p) (pe_received p).

(** The loop of [send_all]: [Takes n] takes [n + 1] bytes. *)
Fixpoint send_loop (sends : list SendCall) (received data : list Byte)
  : list SendCall * list Byte * Status :=
  match data with
  | [] => (sends, received, Status_success)
  | _ =>
    match sends with
    | [] => ([], received ++ data, Status_success)
    | Takes more :: sends => send_loop sends (received ++ take (S more) data) (drop (S more) data)
    | Breaks error :: sends =>
      (sends, received, refuse ReasonCode.ConnectionClosed ("peer closed during send: " +:+ error))
    end
  end.
Definition send_all (p : Peer) (data : list Byte) : Peer * Status :=
  let '(sends, received, status) := send_loop (pe_sends p) (pe_received p) data in
  (p <| pe_sends := sends |> <| pe_received := received |>, status).

(** What a receive returns. *)
Definition arrival_result (a : Arrival) : Result (list Byte) :=
  match a with
  | Piece data => Value data
  | Reset error => Failed (refuse ReasonCode.ConnectionClosed ("peer reset: " +:+ error))
  end.

(** [recv_some]; [None]: the call is still waiting. *)
Definition recv_some (p : Peer) : option (Peer * Result (list Byte)) :=
  match pe_arrivals p with
  | [] => None
  | a :: arrivals => Some (p <| pe_arrivals := arrivals |>, arrival_result a)
  end.

(** ** The connection *)

(** How serving ends: the loop has left the connection, a shutdown was asked for, a
    receive is still waiting for the peer, or a submit has no defined result. *)
Inductive ConnectionEnd : Set := Ended | ShutdownAsked | Waiting | Undefined.

Record Served := mkServed {
  sd_runtime : FabricRuntime;
  sd_stats : ServerStats;
  sd_buffer : list Byte;
  sd_peer : Peer;
  sd_end : ConnectionEnd
}.

(** The frame sent when the framing is violated. *)
Definition framing_refusal (status : Status) : Frame :=
  (set_response_status (Frame_default <| fr_op := OpCode.Ping |>) ResponseStatus.Error)
    <| fr_payload := refusal_payload (status_code status) (status_detail status) |>.

Definition reject_connection (options : ServerOptions) (r : FabricRuntime) (stats : ServerStats)
    (buffer : list Byte) (peer : Peer) (status : Status) : Served :=
  let peer := match encode_frame (framing_refusal status) (sv_max_frame_bytes options) with
              | Value encoded => (send_all peer encoded).1
              | Failed _ => peer
              end in
  mkServed r (count_cancelled (count_rejected stats)) buffer peer Ended.

(** What follows the dispatch of a frame: the response goes out, or the connection
    ends. *)
Definition answer (options : ServerOptions) (stats : ServerStats) (peer : Peer) (response : Frame)
    (shutdown : bool) : ServerStats * Peer * option ConnectionEnd :=
  let stats := count_request stats in
  let stats := if bool_decide (frame_response_status response = Some ResponseStatus.Ok) then stats
               else count_refusal stats in
  match encode_frame response (sv_max_frame_bytes options) with
  | Failed _ => (count_rejected stats, peer, Some Ended)
  | Value encoded =>
    let '(peer, sent) := send_all peer encoded in
    if negb (status_ok sent) then (count_cancelled stats, peer, Some Ended)
    else if shutdown then (stats <| ss_shutdown_requested := true |>, peer, Some ShutdownAsked)
    else (stats, peer, None)
  end.

(** The loop of [handle_connection]. *)
Fixpoint serve_connection (fuel : nat) (options : ServerOptions) (r : FabricRuntime)
    (stats : ServerStats) (buffer : list Byte) (peer : Peer) : IO (option Served) :=
  match fuel with
  | O => mret None
  | S fuel =>
    match decode_frame buffer (sv_max_frame_bytes options) with
    | Failed status => mret (Some (reject_connection options r stats buffer peer status))
    | Value decoded =>
      if negb (df_complete decoded) then
        match recv_some peer with
        | None => mret (Some (mkServed r stats buffer peer Waiting))
        | Some (peer, Failed _) => mret (Some (mkServed r (count_cancelled stats) buffer peer Ended))
        | Some (peer, Value []) =>
          let stats := if bool_decide (buffer = []) then stats else count_cancelled stats in
          mret (Some (mkServed r stats buffer peer Ended))
        | Some (peer, Value data) => serve_connection fuel options r stats (buffer ++ data) peer
        end
      else
        let* done := dispatch options r (df_frame decoded) in
        match done with
        | None => mret (Some (mkServed r stats buffer peer Undefined))
        | Some (r, response, shutdown) =>
          let buffer := drop (Z.to_nat (df_consumed decoded)) buffer in
          let '(stats, peer, over) := answer options stats peer response shutdown in
          match over with
          | Some over => mret (Some (mkServed r stats buffer peer over))
          | None => serve_connection fuel options r stats buffer peer
          end
        end
    end
  end.

(** One pass of the loop takes a received piece or a frame of at least forty bytes. *)
Definition piece_size (a : Arrival) : nat :=
  match a with Piece data => length data | Reset _ => 0 end.
Definition connection_work (buffer : list Byte) (peer : Peer) : nat :=
  length buffer + length (pe_arrivals peer) + list_sum (map piece_size (pe_arrivals peer)).

(** [handle_connection] on a connection that is served. *)
Definition handle_connection (options : ServerOptions) (r : FabricRuntime) (stats : ServerStats)
    (peer : Peer) : IO (option Served) :=
  serve_connection (S (connection_work [] peer)) options r stats [] peer.

#[local] Opaque sha256.

(** ** What a dispatch may do *)
(** A response answers its request: it carries the request's operation and
    identifier; the server shuts down after a shutdown request only; and no
    operation but a submit changes the runtime or touches the store. *)
Theorem dispatch_answers_request options r request w r' response shutdown w' :
  dispatch options r request w = (Some (r', response, shutdown), w') ->
  fr_op response = fr_op request /\ fr_request_id response = fr_request_id request /\
  (shutdown = true <-> fr_op request = OpCode.Shutdown) /\
  (fr_op request <> OpCode.Submit -> r' = r /\ w' = w).
Proof.
  unfold dispatch. destruct (fr_op request) eqn:Hop.
  - intros [= <- <- <- <-]. destruct (decode_body _ _); cbn; by rewrite ?Hop.
  - unfold dispatch_submit. destruct (decode_body _ _) as [body|s].
    + unfold io_then, mbind, io_bind.
      destruct (submit r (subq_events body) w) as [[[r1 [report|s]]|] w1]; cbn; [..|done];
        intros [= <- <- <- <-]; cbn; by rewrite ?Hop.
    + unfold io_then, mbind, io_bind. cbn. intros [= <- <- <- <-]. cbn. by rewrite ?Hop.
  - intros [= <- <- <- <-]. cbn. by rewrite ?Hop.
  - intros [= <- <- <- <-]. destruct (decode_body _ _); cbn; by rewrite ?Hop.
  - intros [= <- <- <- <-]. unfold dispatch_export.
    destruct (decode_body _ _); cbn; [|by rewrite ?Hop].
    destruct (sv_export_allowed options); cbn; [|by rewrite ?Hop].
    destruct (_ <? _); cbn; by rewrite ?Hop.
  - intros [= <- <- <- <-]. cbn. by rewrite ?Hop.
Qed.

(** ** The stream decides, not its pieces *)

(** Serving whole frames, one after another. *)
Fixpoint serve_frames (options : ServerOptions) (r : FabricRuntime) (stats : ServerStats)
    (peer : Peer) (frames : list Frame)
  : IO (FabricRuntime * ServerStats * Peer * option ConnectionEnd) :=
  match frames with
  | [] => mret (r, stats, peer, None)
  | request :: frames =>
    let* done := dispatch options r request in
    match done with
    | None => mret (r, stats, peer, Some Undefined)
    | Some (r, response, shutdown) =>
      let '(stats, peer, over) := answer options stats peer response shutdown in
      match over with
      | Some over => mret (r, stats, peer, Some over)
      | None => serve_frames options r stats peer frames
      end
    end
  end.

(** What a connection leaves behind: the runtime, the counters, what the peer was
    sent and how serving ended. *)
Definition outcome (d : Served) : FabricRuntime * ServerStats * list Byte * ConnectionEnd :=
  (sd_runtime d, sd_stats d, pe_received (sd_peer d), sd_end d).

(** After whole frames the peer closes, having sent [part] of one more frame. *)
Definition close_outcome (part : list Byte)
    (done : FabricRuntime * ServerStats * Peer * option ConnectionEnd)
  : FabricRuntime * ServerStats * list Byte * ConnectionEnd :=
  let '(r, stats, peer, over) := done in
  match over with
  | Some over => (r, stats, pe_received peer, over)
  | None => (r, if bool_decide (part = []) then stats else count_cancelled stats,
             pe_received peer, Ended)
  end.

Lemma zlen_zero {A} (l : list A) : zlen l <= 0 -> l = [].
Proof. destruct l; [done|]. unfold zlen. cbn. lia. Qed.

Lemma piece_cons (p : list Byte) : p <> [] -> exists b q, p = b :: q.
Proof. destruct p; [done|]. eauto. Qed.

Lemma answer_arrivals options stats peer response shutdown stats' peer' over arrivals :
  answer options stats peer response shutdown = (stats', peer', over) ->
  answer options stats (peer <| pe_arrivals := arrivals |>) response shutdown =
    (stats', peer' <| pe_arrivals := arrivals |>, over) /\ pe_arrivals peer' = pe_arrivals peer.
Proof.
  unfold answer. destruct (encode_frame _ _) as [encoded|]; [|by intros [= <- <- <-]].
  unfold send_all. cbn [set pe_sends pe_received].
  destruct (send_loop _ _ _) as [[sends received] sent].
  destruct (negb (status_ok sent)); [by intros [= <- <- <-]|].
  destruct shutdown; by intros [= <- <- <-].
Qed.

Section stream.
Context (options : ServerOptions) (part whole : list Byte) (next : Frame).
Context (Hnext : wf_frame next) (Hwhole : encode_frame next (sv_max_frame_bytes options) = Value whole)
  (Hpart : part `prefix_of` whole) (Hne : part <> whole).

(** The frames still to come, their bytes, and the pieces these arrive in. *)
Definition arrives (frames : list Frame) (bytes : list (list Byte)) (buffer : list Byte)
    (pieces : list (list Byte)) : Prop :=
  Forall2 (fun f b => wf_frame f /\ encode_frame f (sv_max_frame_bytes options) = Value b) frames bytes /\
  Forall (fun p => p <> []) pieces /\ buffer ++ concat pieces = concat bytes ++ part.

Lemma encoded_length f max b : encode_frame f max = Value b -> 40 <= zlen b.
Proof.
  intros [-> _]%encode_frame_Value. rewrite zlen_app.
  assert (Ht : zlen (take 16 (sha256 (frame_body f))) = 16)
    by (unfold zlen; by rewrite sha_trailer_length).
  assert (Hl : forall n s z, zlen (put_le n s z) = Z.of_nat n)
    by (intros; unfold zlen; by rewrite put_le_length).
  rewrite Ht. unfold frame_body, put_u16, put_u32, put_u64. rewrite !zlen_app, !Hl.
  pose proof (zlen_nonneg (fr_payload f)). lia.
Qed.

(** A buffer shorter than the next frame is its prefix. *)
Lemma incomplete_prefix (b buffer rest suffix : list Byte) :
  buffer ++ rest = b ++ suffix -> zlen buffer < zlen b -> buffer `prefix_of` b /\ buffer <> b.
Proof.
  intros Heq Hl. split; [|intros ->; lia]. exists (drop (length buffer) b).
  assert (Ht : take (length buffer) (buffer ++ rest) = take (length buffer) (b ++ suffix)) by by rewrite Heq.
  rewrite take_app_length, take_app_le in Ht by (unfold zlen in Hl; lia).
  rewrite Ht at 1. by rewrite take_drop.
Qed.

Lemma complete_split (b buffer rest suffix : list Byte) :
  buffer ++ rest = b ++ suffix -> zlen b <= zlen buffer -> exists after, buffer = b ++ after.
Proof.
  intros Heq Hl. exists (drop (length b) buffer).
  assert (Ht : take (length b) (buffer ++ rest) = take (length b) (b ++ suffix)) by by rewrite Heq.
  rewrite take_app_length, take_app_le in Ht by (unfold zlen in Hl; lia).
  rewrite <-Ht at 1. by rewrite take_drop.
Qed.

Definition stream_peer (pieces : list (list Byte)) (peer : Peer) : Peer :=
  peer <| pe_arrivals := (Piece <$> pieces) ++ [Piece []] |>.

Lemma stream_work buffer pieces peer :
  connection_work buffer (stream_peer pieces peer) =
  (length buffer + S (length pieces) + length (concat pieces))%nat.
Proof.
  unfold connection_work, stream_peer. cbn [set pe_arrivals].
  rewrite length_app, length_fmap, map_app, list_sum_app. cbn [length map].
  unfold list_sum at 2. cbn [foldr]. rewrite Nat.add_1_r, !Nat.add_0_r. f_equal.
  induction pieces as [|p pieces IH]; [done|]. cbn [fmap list_fmap map concat].
  rewrite length_app, <-IH. done.
Qed.

(** A piece arrives while the next frame is not there. *)
Lemma receive_piece fuel r stats buffer p pieces peer w d :
  p <> [] -> decode_frame buffer (sv_max_frame_bytes options) = Value d -> df_complete d = false ->
  serve_connection (S fuel) options r stats buffer (stream_peer (p :: pieces) peer) w =
  serve_connection fuel options r stats (buffer ++ p) (stream_peer pieces peer) w.
Proof.
  intros (b & q & ->)%piece_cons Hd Hc. cbn [serve_connection]. rewrite Hd, Hc. done.
Qed.

Lemma receive_close fuel r stats buffer peer w d :
  decode_frame buffer (sv_max_frame_bytes options) = Value d -> df_complete d = false ->
  serve_connection (S fuel) options r stats buffer (stream_peer [] peer) w =
  (Some (mkServed r (if bool_decide (buffer = []) then stats else count_cancelled stats) buffer
           (peer <| pe_arrivals := [] |>) Ended), w).
Proof. intros Hd Hc. cbn [serve_connection]. rewrite Hd, Hc. done. Qed.

(** Before the next frame is there, or a part of it at the end, the loop receives. *)
Lemma tail_waits buffer pieces :
  buffer ++ concat pieces = part ->
  exists d, decode_frame buffer (sv_max_frame_bytes options) = Value d /\ df_complete d = false.
Proof.
  intros Hbytes. destruct (partial_frame_asks_for_more next (sv_max_frame_bytes options) whole buffer)
    as (d & ? & ? & _); [done|done| | |by eauto].
  - etransitivity; [|exact Hpart]. rewrite <-Hbytes. by exists (concat pieces).
  - intros ->. apply Hne. destruct Hpart as [k Hk].
    assert (concat pieces = [] /\ k = []) as [Hz ->].
    { assert (Hl : length (concat pieces ++ k) = 0%nat); [|by apply app_eq_nil, length_zero_iff_nil].
      apply (f_equal length) in Hbytes, Hk. rewrite !length_app in *. lia. }
    by rewrite app_nil_r in Hk.
Qed.

Lemma frame_waits f b buffer rest suffix :
  wf_frame f -> encode_frame f (sv_max_frame_bytes options) = Value b ->
  buffer ++ rest = b ++ suffix -> zlen buffer < zlen b ->
  exists d, decode_frame buffer (sv_max_frame_bytes options) = Value d /\ df_complete d = false.
Proof.
  intros Hwf He Hbytes Hshort. destruct (incomplete_prefix _ _ _ _ Hbytes Hshort) as [Hpre Hneq].
  destruct (partial_frame_asks_for_more f (sv_max_frame_bytes options) b buffer Hwf He Hpre Hneq)
    as (d & Hd & Hc & _). by exists d.
Qed.

Lemma piece_work buffer p pieces peer fuel :
  (length buffer + S (length (p :: pieces)) + length (concat (p :: pieces)) < S fuel)%nat ->
  (connection_work (buffer ++ p) (stream_peer pieces peer) < fuel)%nat.
Proof. intros Hf. rewrite stream_work, length_app. cbn [concat length] in Hf. rewrite length_app in Hf.
lia. Qed.

Lemma serve_stream fuel r stats peer buffer pieces frames bytes w :
  (connection_work buffer (stream_peer pieces peer) < fuel)%nat ->
  arrives frames bytes buffer pieces ->
  (let '(done, w') := serve_connection fuel options r stats buffer (stream_peer pieces peer) w in
   (outcome <$> done, w')) =
  (let '(done, w') := serve_frames options r stats peer frames w in
   (Some (close_outcome part done), w')).
Proof.
  revert r stats peer buffer pieces frames bytes w.
  induction fuel as [|fuel IH]; intros r stats peer buffer pieces frames bytes w Hf Ha; [lia|].
  rewrite stream_work in Hf. destruct Ha as (Hframes & Hpieces & Hbytes).
  destruct frames as [|f frames]; destruct bytes as [|b bytes]; try by inversion Hframes.
  - (* only a part of the next frame is left *)
    cbn [concat app] in Hbytes.
    destruct (tail_waits buffer pieces Hbytes) as (d & Hd & Hc).
    destruct pieces as [|p pieces].
    + rewrite (receive_close _ _ _ _ _ _ d) by done. cbn [concat] in Hbytes.
      rewrite app_nil_r in Hbytes. by subst buffer.
    + apply Forall_cons in Hpieces as [Hp Hpieces]. rewrite (receive_piece _ _ _ _ _ _ _ _ d) by done.
      apply (IH r stats peer (buffer ++ p) pieces [] []).
      * by apply piece_work.
      * split_and!; [constructor|done|]. rewrite <-app_assoc. exact Hbytes.
  - apply Forall2_cons in Hframes as [[Hwf He] Hframes]. cbn [concat] in Hbytes.
    rewrite <-app_assoc in Hbytes.
    destruct (Z.lt_ge_cases (zlen buffer) (zlen b)) as [Hshort|Hlong].
    + (* the next frame is not complete *)
      destruct (frame_waits f b buffer _ _ Hwf He Hbytes Hshort) as (d & Hd & Hc).
      destruct pieces as [|p pieces].
      { exfalso. apply (f_equal zlen) in Hbytes. cbn [concat] in Hbytes.
        rewrite app_nil_r, zlen_app in Hbytes. pose proof (zlen_nonneg (concat bytes ++ part)). lia. }
      apply Forall_cons in Hpieces as [Hp Hpieces]. rewrite (receive_piece _ _ _ _ _ _ _ _ d) by done.
      apply (IH r stats peer (buffer ++ p) pieces (f :: frames) (b :: bytes)).
      * by apply piece_work.
      * split_and!; [by constructor|done|]. cbn [concat]. rewrite <-!app_assoc. exact Hbytes.
    + (* the frame is there: it is dispatched *)
      destruct (complete_split _ _ _ _ Hbytes Hlong) as [after ->].
      cbn [serve_connection serve_frames].
      rewrite (decode_encoded_frame f _ b after Hwf He). cbn [df_complete df_frame df_consumed negb].
      unfold io_then, mbind, io_bind. destruct (dispatch options r f w) as [[[[r' response] shutdown]|] w'];
        [|done].
      destruct (answer options stats peer response shutdown) as [[stats' peer'] over] eqn:Ha.
      destruct (answer_arrivals _ _ _ _ _ _ _ _ ((Piece <$> pieces) ++ [Piece []]) Ha) as [Ha' _].
      unfold stream_peer at 1. rewrite Ha', to_nat_zlen, drop_app_length.
      destruct over as [over|]; [done|].
      apply IH with (bytes := bytes).
      * rewrite stream_work. rewrite length_app in Hf. apply encoded_length in He. unfold zlen in He. lia.
      * split_and!; [done|done|]. rewrite <-app_assoc in Hbytes. by apply app_inv_head in Hbytes.
Qed.
End stream.









(** C14. A connection executes exactly the whole frames of its stream, in order: however
    the stream is cut into pieces, the runtime, the counters, the store and the bytes
    the peer is sent are those of dispatching the frames one after another, and a
    frame cut off by the end of the stream is never executed, only counted. *)
Theorem connection_serves_stream options r stats frames bytes next whole part pieces delivers received w
    (Hframes : Forall2 (fun f b => wf_frame f /\
       encode_frame f (sv_max_frame_bytes options) = Value b) frames bytes)
    (Hnext : wf_frame next) (Hwhole : encode_frame next (sv_max_frame_bytes options) = Value whole)
    (Hpart : part `prefix_of` whole) (Hne : part <> whole)
    (Hpieces : Forall (fun p => p <> []) pieces) (Hbytes : concat pieces = concat bytes ++ part) :
  (let '(done, w') := handle_connection options r stats
     (mkPeer ((Piece <$> pieces) ++ [Piece []]) delivers received) w in (outcome <$> done, w')) =
  (let '(done, w') := serve_frames options r stats (mkPeer [] delivers received) frames w in
   (Some (close_outcome part done), w')).
Proof.
  apply (serve_stream options part whole next Hnext Hwhole Hpart Hne _ r stats
    (mkPeer [] delivers received) [] pieces frames bytes); [apply Nat.lt_succ_diag_r|done].
Qed.

Definition ping_frame (id : Z) : Frame :=
  mkFrame OpCode.Ping 0 id (encode_binary PingRequest_codec (mkPingRequest "hello")).
Definition ping_bytes (id : Z) : list Byte :=
  match encode_frame (ping_frame id) 1048576 with Value bytes => bytes | Failed _ => [] end.
Definition sample_runtime : FabricRuntime :=
  fresh_runtime (RuntimeConfig_default <| rc_store_id := "store-1" |>
    <| rc_coordinator := "coordinator-1" |> <| rc_epoch := 1 |> <| rc_boot := 1 |>).

Lemma ping_frame_wf id : in_width u64_max id -> wf_frame (ping_frame id).
Proof. intros Hid. split_and!; [unfold in_width; cbn; unfold u32_max; lia|done|vm_compute; discriminate]. Qed.
Lemma ping_encodes id : encode_frame (ping_frame id) 1048576 = Value (ping_bytes id).
Proof. reflexivity. Qed.

(** Two pings in three pieces, and the first half of a third. *)
Lemma connection_serves_stream_witness :
  let stream := ping_bytes 1 ++ ping_bytes 2 ++ take 30 (ping_bytes 3) in
  let pieces := [take 7 stream; take 50 (drop 7 stream); drop 57 stream] in
  (let '(done, w') := handle_connection ServerOptions_default sample_runtime ServerStats_default
     (mkPeer ((Piece <$> pieces) ++ [Piece []]) [] []) (mkWorld ∅ [] false []) in
   (outcome <$> done, w')) =
  (let '(done, w') := serve_frames ServerOptions_default sample_runtime ServerStats_default
     (mkPeer [] [] []) [ping_frame 1; ping_frame 2] (mkWorld ∅ [] false []) in
   (Some (close_outcome (take 30 (ping_bytes 3)) done), w')).
Proof.
  intros stream pieces.
  apply (connection_serves_stream ServerOptions_default sample_runtime ServerStats_default
    [ping_frame 1; ping_frame 2] [ping_bytes 1; ping_bytes 2] (ping_frame 3) (ping_bytes 3)).
  - repeat constructor; apply ping_frame_wf || apply ping_encodes; split; lia || discriminate.
  - apply ping_frame_wf. split; [lia|discriminate].
  - apply ping_encodes.
  - exists (drop 30 (ping_bytes 3)). by rewrite take_drop.
  - vm_compute. discriminate.
  - repeat constructor; vm_compute; discriminate.
  - vm_compute. reflexivity.
Defined.


Lemma dispatch_answers_request_witness :
  let response := refused (mkFrame OpCode.Ping 0 9 []) ReasonCode.TruncatedInput "binary stream ended" in
  fr_op response = OpCode.Ping /\ fr_request_id response = 9 /\
  (false = true <-> OpCode.Ping = OpCode.Shutdown) /\
  (OpCode.Ping <> OpCode.Submit -> sample_runtime = sample_runtime /\
     mkWorld ∅ [] false [] = mkWorld ∅ [] false []).
Proof.
  intros response.
  apply (dispatch_answers_request ServerOptions_default sample_runtime (mkFrame OpCode.Ping 0 9 [])
    (mkWorld ∅ [] false []) sample_runtime response false (mkWorld ∅ [] false [])).
  reflexivity.
Defined.
