(* ===== verification/Client.v ===== *)
(** * The client

    [Client] of [src/transport/client.cpp]: one request at a time, answered by the
    frame that carries its identifier.  The socket is a [Peer], as for the server;
    the loop that waits for the answer takes a piece on every pass. *)

From S2P Require Import Prelude Std Reason Types Version Resources Bounded Digest Json JsonArchive Archive Model.
From S2P Require Import Codec Authority Eligibility Planner JsonLaws State JsonCodec Wire Frame Intent Scenario Store Runtime Export Server.
#[local] Open Scope Z_scope.

Record Client := mkClient {
  cl_max_frame_bytes : Z;
  cl_connected : bool;
  cl_next_request_id : Z;
  cl_buffer : list Byte
}.
#[export] Instance eta_Client : Settable Client := fun c =>
  mkClient (cl_max_frame_bytes c) (cl_connected c) (cl_next_request_id c) (cl_buffer c).

Record ClientOptions := mkClientOptions {
  co_address : string;
  co_port : Z;
  co_max_frame_bytes : Z
}.
Definition ClientOptions_default : ClientOptions := mkClientOptions "127.0.0.1" 0 (1024 * 1024).

(** [Client::connect], where [connecting] is what [connect_to] returns. *)
Definition client_connect (options : ClientOptions) (connecting : Status) : Result Client :=
  if co_port options =? 0 then Failed (refuse ReasonCode.ValueOutOfRange "port is required")
  else if negb (status_ok connecting) then Failed connecting
  else Value (mkClient (co_max_frame_bytes options) true 1 []).
Definition client_close (c : Client) : Client := c <| cl_connected := false |>.

(** What a call ends with; [Silent]: the peer has nothing more to say and keeps the
    connection open. *)
Inductive Reply (T : Type) : Type := Answered (r : Result T) | Silent.
Arguments Answered {T}.
Arguments Silent {T}.

(** The response to the request [id]: its frame, or the refusal it carries. *)
Definition read_response (id : Z) (frame : Frame) : Result Frame * bool :=
  if negb (fr_request_id frame =? id) then
    (Failed (refuse ReasonCode.ProtocolViolation "response does not match the request"), true)
  else if negb (bool_decide (frame_response_status frame = Some ResponseStatus.Ok)) then
    (match decode_body RefusalPayload_codec frame with
     | Value refusal =>
       Failed (refuse (rfp_code refusal)
         (match rfp_detail refusal with
          | EmptyString => "server refused the request"
          | detail => detail
          end))
     | Failed _ => Failed (refuse ReasonCode.TransportFailure "unreadable refusal payload")
     end, false)
  else (Value frame, false).

(** The loop of [round_trip]. *)
Fixpoint await (c : Client) (id : Z) (arrivals : list Arrival) : Client * list Arrival * Reply Frame :=
  match decode_frame (cl_buffer c) (cl_max_frame_bytes c) with
  | Failed s => (client_close c, arrivals, Answered (Failed s))
  | Value decoded =>
    if df_complete decoded then
      let c := c <| cl_buffer := drop (Z.to_nat (df_consumed decoded)) (cl_buffer c) |> in
      let '(result, mismatched) := read_response id (df_frame decoded) in
      (if mismatched then client_close c else c, arrivals, Answered result)
    else
      match arrivals with
      | [] => (c, [], Silent)
      | a :: arrivals =>
        match arrival_result a with
        | Failed s => (client_close c, arrivals, Answered (Failed s))
        | Value [] =>
          (client_close c, arrivals,
           Answered (Failed (refuse ReasonCode.ConnectionClosed "server closed the connection")))
        | Value data => await (c <| cl_buffer := cl_buffer c ++ data |>) id arrivals
        end
      end
  end.

(** The frame a request is sent in. *)
Definition request_frame (c : Client) (op : OpCode) (payload : list Byte) : Frame :=
  (set_response_status
    (Frame_default <| fr_op := op |> <| fr_request_id := cl_next_request_id c |>) ResponseStatus.Ok)
    <| fr_payload := payload |>.

(** [next_request_id++] *)
Definition next_request (c : Client) : Client :=
  c <| cl_next_request_id := wrap_succ (cl_next_request_id c) |>.

(** [round_trip] *)
Definition round_trip (c : Client) (op : OpCode) (payload : list Byte) (peer : Peer)
  : Client * Peer * Reply Frame :=
  if negb (cl_connected c) then
    (c, peer, Answered (Failed (refuse ReasonCode.ConnectionClosed "client is not connected")))
  else
  let request := request_frame c op payload in
  let c := next_request c in
  match encode_frame request (cl_max_frame_bytes c) with
  | Failed s => (c, peer, Answered (Failed s))
  | Value encoded =>
    let '(peer, sent) := send_all peer encoded in
    if negb (status_ok sent) then (client_close c, peer, Answered (Failed sent))
    else
      let '(c, arrivals, reply) := await c (fr_request_id request) (pe_arrivals peer) in
      (c, peer <| pe_arrivals := arrivals |>, reply)
  end.

(** A call: the request's body, then the body of the response. *)
Definition client_call {A B} (op : OpCode) (cq : Codec A) (cs : Codec B) (c : Client) (request : A)
    (peer : Peer) : Client * Peer * Reply B :=
  let '(c, peer, reply) := round_trip c op (encode_binary cq request) peer in
  (c, peer, match reply with
            | Answered (Value frame) => Answered (decode_body cs frame)
            | Answered (Failed s) => Answered (Failed s)
            | Silent => Silent
            end).

Definition client_ping (c : Client) (nonce : string) : Peer -> Client * Peer * Reply PingResponse :=
  client_call OpCode.Ping PingRequest_codec PingResponse_codec c (mkPingRequest nonce).
Definition client_submit (c : Client) (events : list FabricEvent)
  : Peer -> Client * Peer * Reply SubmitResponse :=
  client_call OpCode.Submit SubmitRequest_codec SubmitResponse_codec c (mkSubmitRequest events).
Definition client_query (c : Client) : Peer -> Client * Peer * Reply QueryResponse :=
  client_call OpCode.Query QueryRequest_codec QueryResponse_codec c QueryRequest_default.
Definition client_explain (c : Client) (instance : option InstanceId)
  : Peer -> Client * Peer * Reply ExplainResponse :=
  client_call OpCode.Explain ExplainRequest_codec ExplainResponse_codec c
    (match instance with
     | Some id => if id_valid id then mkExplainRequest true id else ExplainRequest_default
     | None => ExplainRequest_default
     end).
Definition client_export_state (c : Client) (pretty : bool)
  : Peer -> Client * Peer * Reply ExportResponse :=
  client_call OpCode.Export ExportRequest_codec ExportResponse_codec c (mkExportRequest pretty).
Definition client_shutdown (c : Client) : Peer -> Client * Peer * Reply ShutdownResponse :=
  client_call OpCode.Shutdown ShutdownRequest_codec ShutdownResponse_codec c ShutdownRequest_default.

#[local] Opaque sha256.

(** ** The answer, however it is cut into pieces *)
Definition set_buffer (c : Client) (buffer : list Byte) : Client := c <| cl_buffer := buffer |>.

Lemma await_step c id p arrivals d :
  p <> [] -> decode_frame (cl_buffer c) (cl_max_frame_bytes c) = Value d -> df_complete d = false ->
  await c id (Piece p :: arrivals) = await (set_buffer c (cl_buffer c ++ p)) id arrivals.
Proof. intros (b & q & ->)%piece_cons Hd Hc. cbn [await]. by rewrite Hd, Hc. Qed.

Lemma await_now c id arrivals response answered rest :
  wf_frame response -> encode_frame response (cl_max_frame_bytes c) = Value answered ->
  cl_buffer c = answered ++ rest -> (read_response id response).2 = false ->
  await c id arrivals = (set_buffer c rest, arrivals, Answered (read_response id response).1).
Proof.
  intros Hwf He Hb Hm.
  assert (Hd := decode_encoded_frame response _ answered rest Hwf He). rewrite <-Hb in Hd.
  destruct arrivals as [|a arrivals]; cbn [await]; rewrite Hd; cbn [df_complete df_frame df_consumed];
    destruct (read_response id response) as [result mismatched]; cbn in Hm |- *; subst mismatched;
    by rewrite Hb, to_nat_zlen, drop_app_length.
Qed.

Lemma await_answer c id response answered rest pieces more :
  wf_frame response -> encode_frame response (cl_max_frame_bytes c) = Value answered ->
  (read_response id response).2 = false -> Forall (fun p => p <> []) pieces ->
  cl_buffer c ++ concat pieces = answered ++ rest ->
  exists buffer left, buffer ++ concat left = rest /\ Forall (fun p => p <> []) left /\ 
    await c id ((Piece <$> pieces) ++ more) =
      (set_buffer c buffer, (Piece <$> left) ++ more, Answered (read_response id response).1).
Proof.
  intros Hwf He Hm. revert c He. induction pieces as [|p pieces IH]; intros c He Hp Hb.
  - cbn [concat] in Hb. rewrite app_nil_r in Hb. exists rest, []. split_and!; [by rewrite app_nil_r|done|].
    by apply (await_now c id _ response answered rest).
  - destruct (Z.lt_ge_cases (zlen (cl_buffer c)) (zlen answered)) as [Hshort|Hlong].
    + destruct (incomplete_prefix _ _ _ _ Hb Hshort) as [Hpre Hneq].
      destruct (partial_frame_asks_for_more response _ answered (cl_buffer c) Hwf He Hpre Hneq)
        as (d & Hd & Hc & _).
      apply Forall_cons in Hp as [Hp Hps]. cbn [fmap list_fmap app].
      rewrite (await_step _ _ _ _ d) by done.
      destruct (IH (set_buffer c (cl_buffer c ++ p))) as (buffer & left & Hl & Hne & ->);
        [done|done| |by exists buffer, left].
      cbn. by rewrite <-app_assoc.
    + destruct (complete_split _ _ _ _ Hb Hlong) as [after Ha].
      exists after, (p :: pieces). split_and!; [|done|].
      * rewrite Ha, <-app_assoc in Hb. by apply app_inv_head in Hb.
      * by apply (await_now c id _ response answered after).
Qed.

(** A socket that takes all it is given. *)
Lemma send_all_whole arrivals received data :
  send_all (mkPeer arrivals [] received) data = (mkPeer arrivals [] (received ++ data), Status_success).
Proof. unfold send_all. cbn. destruct data; cbn; by rewrite ?app_nil_r. Qed.

(** ** A call through the server *)

(** The request and the response as [dispatch] relates them. *)
Section call.
Context (options : ServerOptions) (r : FabricRuntime) (stats : ServerStats) (c : Client) (w : World).
Context (op : OpCode) (payload sent : list Byte) (r' : FabricRuntime) (response : Frame)
  (answered : list Byte) (w' : World).
Let request := request_frame c op payload.
Context (Hconn : cl_connected c = true) (Hbuf : cl_buffer c = [])
  (Hid : in_width u64_max (cl_next_request_id c))
  (Hmax : cl_max_frame_bytes c = sv_max_frame_bytes options) (Hbound : sv_max_frame_bytes options <= u32_max)
  (Hsent : encode_frame request (cl_max_frame_bytes c) = Value sent)
  (Hdispatch : dispatch options r request w = (Some (r', response, false), w'))
  (Hanswered : encode_frame response (sv_max_frame_bytes options) = Value answered).

Lemma payload_fits f max bytes : encode_frame f max = Value bytes -> max <= u32_max -> zlen (fr_payload f) <= u32_max.
Proof. intros [_ ?]%encode_frame_Value ?. lia. Qed.

Lemma request_wf : wf_frame request.
Proof.
  split_and!; [|done|].
  - change (in_width u32_max 0). unfold in_width, u32_max. lia.
  - apply (payload_fits _ _ _ Hsent). by rewrite Hmax.
Qed.

(** What the server counts for one answered request. *)
Definition answered_stats : ServerStats :=
  if bool_decide (frame_response_status response = Some ResponseStatus.Ok) then count_request stats
  else count_refusal (count_request stats).

Lemma server_answers_call pieces :
  Forall (fun p => p <> []) pieces -> concat pieces = sent ->
  exists d, handle_connection options r stats (mkPeer ((Piece <$> pieces) ++ [Piece []]) [] []) w = (Some d, w') /\
    outcome d = (r', answered_stats, answered, Ended).
Proof.
  intros Hp Hc.
  assert (Ha : arrives options [] [request] [sent] [] pieces).
  { split_and!; [|done|by cbn; rewrite !app_nil_r]. constructor; [|constructor].
    split; [apply request_wf|by rewrite <-Hmax]. }
  assert (Hs := serve_stream options [] sent request request_wf
    ltac:(by rewrite <-Hmax) ltac:(apply prefix_nil)
    ltac:(intros <-; apply encoded_length in Hsent; unfold zlen in Hsent; cbn in Hsent; lia)
    _ r stats (mkPeer [] [] []) [] pieces [request] [sent] w (Nat.lt_succ_diag_r _) Ha).
  revert Hs. unfold handle_connection. cbn [serve_frames]. unfold io_then, mbind, io_bind. rewrite Hdispatch.
  change (mkPeer ((Piece <$> pieces) ++ [Piece []]) [] []) with (stream_peer pieces (mkPeer [] [] [])).
  destruct (serve_connection _ _ _ _ _ _ _) as [done w1].
  unfold answer. rewrite Hanswered. rewrite send_all_whole. cbn [status_ok negb].
  destruct done as [d|]; [|done]. unfold outcome, answered_stats. cbn. intros Hd.
  injection Hd as Hr Hs Hb He ->. exists d. split; [done|]. by rewrite Hr, Hs, Hb, He.
Qed.

Lemma client_hears_answer pieces :
  wf_frame response -> (read_response (cl_next_request_id c) response).2 = false ->
  Forall (fun p => p <> []) pieces -> concat pieces = answered ->
  exists c', round_trip c op payload (mkPeer (Piece <$> pieces) [] []) =
    (c', mkPeer [] [] sent, Answered (read_response (cl_next_request_id c) response).1) /\
    cl_connected c' = true /\ cl_buffer c' = [].
Proof.
  intros Hwf Hm Hp Hc. unfold round_trip. rewrite Hconn. cbn [negb].
  change (cl_max_frame_bytes (next_request c)) with (cl_max_frame_bytes c).
  fold request. rewrite Hsent, send_all_whole. cbn [status_ok negb pe_arrivals].
  destruct (await_answer (next_request c)
    (cl_next_request_id c) response answered [] pieces [] Hwf) as (buffer & left & Hl & Hne & Ha).
  - by cbn; rewrite Hmax.
  - done.
  - done.
  - cbn. by rewrite Hbuf, Hc, app_nil_r.
  - rewrite app_nil_r in Ha. apply app_eq_nil in Hl as [-> Hl].
    assert (left = []) as ->.
    { destruct left as [|p left]; [done|]. apply Forall_cons in Hne as [Hq _].
      by apply app_eq_nil in Hl as [-> _]. }
    change (fr_request_id request) with (cl_next_request_id c).
    rewrite Ha. exists (set_buffer (next_request c) []). done.
Qed.
End call.

(** ** Submitting through the server *)

(** The response [dispatch] makes of what the runtime answers. *)
Definition submit_response (request : Frame) (r : FabricRuntime) (result : Result BatchReport) : Frame :=
  match result with
  | Value report =>
    (blank_response request) <| fr_payload := encode_binary SubmitResponse_codec
      (mkSubmitResponse report (state_digest r) (durable_digest r)) |>
  | Failed s => refused (blank_response request) (status_code s) (status_detail s)
  end.
(** What the caller is handed. *)
Definition submit_reply (r : FabricRuntime) (result : Result BatchReport) : Result SubmitResponse :=
  match result with
  | Value report => Value (mkSubmitResponse report (state_digest r) (durable_digest r))
  | Failed s => Failed (refuse (status_code s)
      (match status_detail s with EmptyString => "server refused the request" | detail => detail end))
  end.
(** The response keeps to the bounds of the reader. *)
Definition submit_readable (r : FabricRuntime) (result : Result BatchReport) : bool :=
  match result with
  | Value report => c_ok SubmitResponse_codec kMaxDecodedSequence
                      (mkSubmitResponse report (state_digest r) (durable_digest r))
  | Failed s => c_ok RefusalPayload_codec kMaxDecodedSequence
                  (mkRefusalPayload (status_code s) (status_detail s))
  end.

Lemma decode_encode_exact {T} (c : Codec T) `{!CodecLaws c, !CodecExact c} max value :
  c_ok c max value = true -> decode_binary c (encode_binary c value) max = Value value.
Proof. intros Hok. rewrite decode_encode by done. by rewrite codec_exact. Qed.

Lemma submit_response_heard request r result :
  submit_readable r result = true ->
  read_response (fr_request_id request) (submit_response request r result) =
    (match submit_reply r result with
     | Value _ => Value (submit_response request r result)
     | Failed s => Failed s
     end, false).
Proof.
  intros Hok. unfold read_response.
  assert (fr_request_id (submit_response request r result) = fr_request_id request) as ->
    by (destruct result; reflexivity).
  rewrite Z.eqb_refl. cbn [negb]. destruct result as [report|s]; [done|].
  rewrite bool_decide_eq_false_2 by (vm_compute; discriminate). cbn [negb]. unfold decode_body.
  cbn [submit_response refused fr_payload set].
  unfold refusal_payload. by rewrite (decode_encode_exact RefusalPayload_codec).
Qed.

(** C13. Submitting through the server is submitting to its runtime: however the request
    and the response are cut into pieces on the way, the server's runtime and store
    take the one step of [submit] on the events received, the caller is handed that
    step's report with the digests after it, or its refusal, and the connection is
    left ready for the next request. *)
Theorem submit_end_to_end options r stats c events w r' result w' sent answered requests responses
    (Hconn : cl_connected c = true) (Hbuf : cl_buffer c = [])
    (Hid : in_width u64_max (cl_next_request_id c))
    (Hmax : cl_max_frame_bytes c = sv_max_frame_bytes options)
    (Hbound : sv_max_frame_bytes options <= u32_max)
    (Hok : c_ok SubmitRequest_codec kMaxDecodedSequence (mkSubmitRequest events) = true)
    (Hsubmit : submit r (subq_events (c_norm SubmitRequest_codec (mkSubmitRequest events))) w =
       (Some (r', result), w'))
    (Hread : submit_readable r' result = true)
    (Hsent : encode_frame (request_frame c OpCode.Submit
       (encode_binary SubmitRequest_codec (mkSubmitRequest events))) (cl_max_frame_bytes c) = Value sent)
    (Hanswered : encode_frame (submit_response (request_frame c OpCode.Submit
       (encode_binary SubmitRequest_codec (mkSubmitRequest events))) r' result)
       (sv_max_frame_bytes options) = Value answered)
    (Hreq : Forall (fun p => p <> []) requests) (Hrequests : concat requests = sent)
    (Hres : Forall (fun p => p <> []) responses) (Hresponses : concat responses = answered) :
  (exists d, handle_connection options r stats (mkPeer ((Piece <$> requests) ++ [Piece []]) [] []) w =
     (Some d, w') /\ sd_runtime d = r' /\ pe_received (sd_peer d) = answered /\ sd_end d = Ended) /\
  (exists c', client_submit c events (mkPeer (Piece <$> responses) [] []) =
     (c', mkPeer [] [] sent, Answered (submit_reply r' result)) /\
     cl_connected c' = true /\ cl_buffer c' = []).
Proof.
  set (payload := encode_binary _ _) in *. set (request := request_frame _ _ _) in *.
  assert (Hd : dispatch options r request w = (Some (r', submit_response request r' result, false), w')).
  { unfold dispatch. change (fr_op request) with OpCode.Submit. cbn [blank_response].
    unfold dispatch_submit, decode_body. change (fr_payload request) with payload. unfold payload.
    rewrite (decode_encode SubmitRequest_codec) by done. unfold io_then, mbind, io_bind. rewrite Hsubmit.
    by destruct result. }
  split.
  - destruct (server_answers_call options r stats c w OpCode.Submit payload sent r' _ answered w'
      Hid Hmax Hbound Hsent Hd Hanswered requests Hreq Hrequests) as (d & Hs & Ho).
    exists d. split; [done|]. unfold outcome in Ho. by injection Ho as -> _ -> ->.
  - assert (Hh := submit_response_heard request r' result Hread).
    assert (Hwf : wf_frame (submit_response request r' result)).
    { split_and!; [| |by apply (payload_fits _ _ _ Hanswered)]; by destruct result. }
    destruct (client_hears_answer options c OpCode.Submit payload sent
      (submit_response request r' result) answered Hconn Hbuf Hmax Hsent Hanswered responses) as (c' & Hc & Hrest);
      [done|change (cl_next_request_id c) with (fr_request_id request); by rewrite Hh|done|done|].
    exists c'. split; [|done]. unfold client_submit, client_call. fold payload. rewrite Hc.
    change (cl_next_request_id c) with (fr_request_id request). rewrite Hh. cbn [fst].
    destruct result as [report|s]; cbn [submit_reply]; [|done].
    unfold decode_body, submit_response. cbn [fr_payload set].
    by rewrite (decode_encode_exact SubmitResponse_codec).
Qed.

(** ** An example: no events, through three pieces each way *)
Section sample.
Context (d1 d2 d3 : Digest) (H1 : wf_digest d1) (H2 : wf_digest d2) (H3 : wf_digest d3).
Let reply := mkSubmitResponse (BatchReport_default <| br_state_digest := d1 |>) d2 d3.

Lemma sample_reply_ok : c_ok SubmitResponse_codec kMaxDecodedSequence reply = true.
Proof.
  assert (Hd : forall d, wf_digest d -> bool_decide (wf_digest d) = true) by (intros;
    by apply bool_decide_true).
  unfold reply. lazy -[wf_digest bool_decide].
  repeat (rewrite Hd by assumption; lazy -[wf_digest bool_decide]). reflexivity.
Qed.

Lemma sample_reply_size : zlen (encode_binary SubmitResponse_codec reply) = 219.
Proof.
  unfold reply. lazy -[app zlen]. repeat rewrite zlen_app.
  destruct H1 as [L1 _], H2 as [L2 _], H3 as [L3 _].
  unfold zlen. rewrite L1, L2, L3. cbn [length]. reflexivity.
Qed.
End sample.

Lemma encode_frame_fits f max :
  40 + zlen (fr_payload f) <= max ->
  encode_frame f max = Value (frame_body f ++ take 16 (sha256 (frame_body f))).
Proof.
  intros Hf. unfold encode_frame, kProtocolHeaderBytes, kProtocolTrailerBytes.
  by destruct (Z.ltb_spec max (24 + zlen (fr_payload f) + 16)); [lia|].
Qed.

Definition sample_client : Client := mkClient 1048576 true 1 [].
Definition sample_world : World := mkWorld ∅ [] false [].
Definition sample_request : Frame :=
  request_frame sample_client OpCode.Submit (encode_binary SubmitRequest_codec (mkSubmitRequest [])).
Definition sample_served : FabricRuntime := publish_digests sample_runtime.
Definition sample_report : BatchReport :=
  BatchReport_default <| br_state_digest := state_digest sample_served |>.
Definition sample_response : Frame := submit_response sample_request sample_served (Value sample_report).
Definition sample_wire (f : Frame) : list Byte := frame_body f ++ take 16 (sha256 (frame_body f)).

Lemma submit_end_to_end_witness :
  let sent := sample_wire sample_request in
  let answered := sample_wire sample_response in
  (exists d, handle_connection ServerOptions_default sample_runtime ServerStats_default
     (mkPeer ((Piece <$> [take 5 sent; drop 5 sent]) ++ [Piece []]) [] []) sample_world =
     (Some d, sample_world) /\ sd_runtime d = sample_served /\ pe_received (sd_peer d) = answered /\
     sd_end d = Ended) /\
  (exists c', client_submit sample_client [] (mkPeer (Piece <$> [take 30 answered; drop 30 answered]) [] []) =
     (c', mkPeer [] [] sent, Answered (submit_reply sample_served (Value sample_report))) /\
     cl_connected c' = true /\ cl_buffer c' = []).
Proof.
  intros sent answered.
  apply (submit_end_to_end ServerOptions_default sample_runtime ServerStats_default sample_client []
    sample_world sample_served (Value sample_report) sample_world sent answered).
  - reflexivity.
  - reflexivity.
  - split; vm_compute; discriminate.
  - reflexivity.
  - discriminate.
  - reflexivity.
  - lazy. reflexivity.
  - apply sample_reply_ok; apply sha256_wf.
  - apply encode_frame_fits. vm_compute. discriminate.
  - apply encode_frame_fits. change (fr_payload _) with
      (encode_binary SubmitResponse_codec (mkSubmitResponse sample_report (state_digest sample_served)
        (durable_digest sample_served))).
    unfold sample_report. rewrite sample_reply_size by apply sha256_wf. discriminate.
  - repeat constructor; discriminate.
  - cbn [concat]. by rewrite app_nil_r, take_drop.
  - repeat constructor; discriminate.
  - cbn [concat]. by rewrite app_nil_r, take_drop.
Defined.
