(* ===== verification/Serving.v ===== *)
(** * The threads of the server

    The queue, the workers and the shutdown of [src/transport/server.cpp] as a
    transition system.  An action is what one thread does between two points where
    another may run: a critical section of [Impl::mutex], or a call that may block.
    The thread that calls [serve] runs the accept loop; any thread may call
    [request_shutdown] at any time.  What a worker does while it serves a connection is
    [handle_connection] of Server.v; here serving starts and ends.  Socket handles are
    numbers the system may use again once they are closed. *)

From S2P Require Import Prelude Std Reason Types Version Resources Bounded Digest Json JsonArchive Archive Model.
From S2P Require Import Codec Authority Eligibility Planner JsonLaws State JsonCodec Wire Frame Intent Scenario Store Runtime Export Server.
#[local] Open Scope Z_scope.

Abbreviation Socket := nat (only parsing).

(** [Server::set_endpoint] *)
Definition set_endpoint (options : ServerOptions) (address : string) (port : Z) : ServerOptions :=
  mkServerOptions address port (sv_workers options) (sv_max_pending_connections options)
    (sv_max_frame_bytes options) (sv_export_allowed options).

(** Where a worker is: waiting in [worker_loop], holding a connection it took from the
    queue, in the loop of [handle_connection], about to call [stop], between the two
    halves of [stop], after the loop, about to close the socket, returned. *)
Inductive Worker : Type :=
| Parked
| Picked (client : Socket)
| Serving (client : Socket)
| Stopping (client : Socket)
| Waking (client : Socket) (to_wake : list Socket)
| Leaving (client : Socket)
| Closing (client : Socket)
| Exited.

(** Where the thread that calls [serve] is: outside of it, past its first check, at the
    top of the accept loop, in [accept] (on a listener that was open or not), holding a
    new connection, after a failed accept, past the loop, joining the workers. *)
Inductive Acceptor : Type :=
| Idle
| Entering
| Checking
| Accepting (open : bool)
| Enqueueing (client : Socket)
| Failing
| Finishing
| Joining.

(** [Impl], with the calls of [stop] from outside that still have sockets to wake, and
    two facts about the sockets: which are shut down and how many were closed. *)
Record ServerState := mkServerState {
  si_listening : bool;
  si_stopping : bool;
  si_started : bool;
  si_queue : list Socket;
  si_active : list Socket;
  si_workers : list Worker;
  si_acceptor : Acceptor;
  si_wakers : list (list Socket);
  si_stats : ServerStats;
  si_woken : list Socket;
  si_closed : nat
}.
#[export] Instance eta_ServerState : Settable ServerState := fun s =>
  mkServerState (si_listening s) (si_stopping s) (si_started s) (si_queue s) (si_active s)
    (si_workers s) (si_acceptor s) (si_wakers s) (si_stats s) (si_woken s) (si_closed s).
Definition ServerState_initial : ServerState :=
  mkServerState false false false [] [] [] Idle [] ServerStats_default [] 0.

Definition worker_socket (w : Worker) : list Socket :=
  match w with
  | Picked c | Serving c | Stopping c | Waking c _ | Leaving c | Closing c => [c]
  | Parked | Exited => []
  end.
Definition acceptor_socket (a : Acceptor) : list Socket :=
  match a with Enqueueing c => [c] | _ => [] end.
(** The connections the server holds open. *)
Definition handles (s : ServerState) : list Socket :=
  si_queue s ++ acceptor_socket (si_acceptor s) ++ (si_workers s ≫= worker_socket).

(** [close_socket]: the handle may be used again. *)
Definition close_handles (cs : list Socket) (s : ServerState) : ServerState :=
  s <| si_woken := filter (fun c => c ∉ cs) (si_woken s) |>
    <| si_closed := (length cs + si_closed s)%nat |>.
Definition shutdown_handles (cs : list Socket) (s : ServerState) : ServerState :=
  s <| si_woken := cs ++ si_woken s |>.

(** The critical section of [stop], and the sockets it is to wake. *)
Definition stop_section (s : ServerState) : ServerState * list Socket :=
  let s := s <| si_stopping := true |> <| si_listening := false |> in
  ((close_handles (si_queue s) s) <| si_queue := [] |>, si_active s).

(** [enqueue] *)
Definition enqueue (options : ServerOptions) (client : Socket) (s : ServerState) : ServerState :=
  if sv_max_pending_connections options <=? zlen (si_queue s) then
    close_handles [client]
      (s <| si_stats := (si_stats s) <| ss_queue_rejections := wrap_succ (ss_queue_rejections (si_stats s)) |> |>)
  else s <| si_queue := si_queue s ++ [client] |>.

(** The refusal a full queue answers with. *)
Definition busy_frame : Frame :=
  (set_response_status (Frame_default <| fr_op := OpCode.Ping |>) ResponseStatus.Refused)
    <| fr_payload := refusal_payload ReasonCode.ServerBusy "connection queue is full" |>.

Inductive Action : Type :=
| Listen | Serve | Enter | CheckStop | Accept (client : Socket) | AcceptFails | Recheck | Enqueue | Finish | Join
| Pick (i : nat) | Exit (i : nat) | Begin (i : nat) | End (i : nat) (asked : bool) | Stop (i : nat) | Wake (i : nat)
| Erase (i : nat) | Close (i : nat)
| RequestShutdown | WakeRequested (k : nat).

(** A worker that can be joined. *)
Definition has_exited (w : Worker) : bool := match w with Exited => true | _ => false end.

(** The thread that calls [listen] and [serve]. *)
Definition acceptor_next (options : ServerOptions) (a : Action) (s : ServerState) : option ServerState :=
  match a, si_acceptor s with
  | Listen, Idle => Some (s <| si_listening := true |>)
  | Serve, Idle => if si_listening s then Some (s <| si_acceptor := Entering |>) else None
  | Enter, Entering =>
    if si_started s then Some (s <| si_acceptor := Idle |>)
    else Some (s <| si_started := true |> <| si_stopping := false |>
                 <| si_workers := replicate (Z.to_nat (sv_workers options)) Parked |>
                 <| si_acceptor := Checking |>)
  | CheckStop, Checking =>
    Some (s <| si_acceptor := if si_stopping s then Finishing else Accepting (si_listening s) |>)
  | Accept client, Accepting true =>
    if bool_decide (client ∈ handles s) then None
    else Some (s <| si_acceptor := Enqueueing client |>
                 <| si_stats := (si_stats s) <| ss_connections := wrap_succ (ss_connections (si_stats s)) |> |>)
  | AcceptFails, Accepting _ => Some (s <| si_acceptor := Failing |>)
  | Recheck, Failing => Some (s <| si_acceptor := if si_stopping s then Finishing else Checking |>)
  | Enqueue, Enqueueing client => Some (enqueue options client (s <| si_acceptor := Checking |>))
  | Finish, Finishing => Some (s <| si_stopping := true |> <| si_acceptor := Joining |>)
  | Join, Joining =>
    if forallb has_exited (si_workers s) then
      Some (s <| si_workers := [] |> <| si_listening := false |> <| si_started := false |>
              <| si_acceptor := Idle |>)
    else None
  | _, _ => None
  end.

Definition set_worker (i : nat) (w : Worker) (s : ServerState) : ServerState :=
  s <| si_workers := <[i := w]> (si_workers s) |>.

(** A worker: [worker_loop], [handle_connection] and the [stop] it may call. *)
Definition worker_next (a : Action) (s : ServerState) : option ServerState :=
  let at_worker (i : nat) (f : Worker -> option ServerState) := si_workers s !! i ≫= f in
  match a with
  | Pick i => at_worker i (fun w =>
    match w, si_queue s with
    | Parked, client :: queue => Some (set_worker i (Picked client) (s <| si_queue := queue |>))
    | _, _ => None
    end)
  | Exit i => at_worker i (fun w =>
    match w, si_queue s with
    | Parked, [] => if si_stopping s then Some (set_worker i Exited s) else None
    | _, _ => None
    end)
  | Begin i => at_worker i (fun w =>
    match w with
    | Picked client =>
      if si_stopping s then Some (set_worker i Parked (close_handles [client] s))
      else Some (set_worker i (Serving client) (s <| si_active := si_active s ++ [client] |>))
    | _ => None
    end)
  | End i asked => at_worker i (fun w =>
    match w with
    | Serving client =>
      if asked then
        Some (set_worker i (Stopping client)
          (s <| si_stats := (si_stats s) <| ss_shutdown_requested := true |> |>))
      else Some (set_worker i (Leaving client) s)
    | _ => None
    end)
  | Stop i => at_worker i (fun w =>
    match w with
    | Stopping client => let '(s, to_wake) := stop_section s in Some (set_worker i (Waking client to_wake) s)
    | _ => None
    end)
  | Wake i => at_worker i (fun w =>
    match w with
    | Waking client to_wake => Some (set_worker i (Leaving client) (shutdown_handles to_wake s))
    | _ => None
    end)
  | Erase i => at_worker i (fun w =>
    match w with
    | Leaving client =>
      Some (set_worker i (Closing client) (s <| si_active := filter (fun c => c <> client) (si_active s) |>))
    | _ => None
    end)
  | Close i => at_worker i (fun w =>
    match w with
    | Closing client => Some (set_worker i Parked (close_handles [client] s))
    | _ => None
    end)
  | _ => None
  end.

(** A thread that calls [request_shutdown]. *)
Definition requester_next (a : Action) (s : ServerState) : option ServerState :=
  match a with
  | RequestShutdown =>
    let '(s, to_wake) := stop_section s in Some (s <| si_wakers := si_wakers s ++ [to_wake] |>)
  | WakeRequested k =>
    to_wake ← si_wakers s !! k;
    Some ((shutdown_handles to_wake s) <| si_wakers := delete k (si_wakers s) |>)
  | _ => None
  end.

Definition server_next (options : ServerOptions) (a : Action) (s : ServerState) : option ServerState :=
  match a with
  | Listen | Serve | Enter | CheckStop | Accept _ | AcceptFails | Recheck | Enqueue | Finish | Join =>
    acceptor_next options a s
  | RequestShutdown | WakeRequested _ => requester_next a s
  | _ => worker_next a s
  end.
Definition server_step (options : ServerOptions) (s s' : ServerState) : Prop :=
  exists a, server_next options a s = Some s'.
(** A run of the threads. *)
Fixpoint server_run (options : ServerOptions) (s : ServerState) (run : list Action) : option ServerState :=
  match run with
  | [] => Some s
  | a :: run => server_next options a s ≫= fun s => server_run options s run
  end.

(** [~Server], on a server that is not serving. *)
Definition server_destroy (s : ServerState) : ServerState :=
  let '(s, to_wake) := stop_section s in (shutdown_handles to_wake s) <| si_workers := [] |> <| si_listening := false |>.
Definition server_stats (s : ServerState) : ServerStats := si_stats s.

(** ** The state holds together *)
Definition worker_serves (w : Worker) : list Socket :=
  match w with Serving c | Stopping c | Waking c _ | Leaving c => [c] | _ => [] end.
Definition worker_wakes (w : Worker) : list Socket :=
  match w with Waking _ to_wake => to_wake | _ => [] end.
(** The sockets some call of [stop] still has to wake. *)
Definition to_be_woken (s : ServerState) : list Socket :=
  concat (si_wakers s) ++ (si_workers s ≫= worker_wakes).
(** [serve] is past the point where it clears the stop flag. *)
Definition serving (s : ServerState) : bool :=
  match si_acceptor s with Idle | Entering => false | _ => true end.

Record serving_ok (options : ServerOptions) (s : ServerState) : Prop := {
  ok_handles : NoDup (handles s);
  ok_active : si_active s ≡ₚ (si_workers s ≫= worker_serves);
  ok_queue : zlen (si_queue s) <= sv_max_pending_connections options;
  ok_phase : if serving s then length (si_workers s) = Z.to_nat (sv_workers options)
             else si_workers s = [] /\ si_started s = false;
  ok_stopped : serving s = true -> si_stopping s = true -> si_listening s = false;
  ok_exited : Exited ∈ si_workers s -> si_stopping s = true;
  ok_joining : si_acceptor s = Joining \/ si_acceptor s = Finishing -> si_stopping s = true;
  ok_woken : serving s = true -> si_stopping s = true ->
             forall c, c ∈ si_active s -> c ∈ si_woken s \/ c ∈ to_be_woken s;
  ok_counted : ss_connections (si_stats s) = (Z.of_nat (si_closed s) + zlen (handles s)) mod 2 ^ 64
}.

(** A worker moves on: what the workers hold is what it holds and what the others hold. *)
Section worker.
Context {A : Type} (f : Worker -> list A) (ws : list Worker) (i : nat) (w w' : Worker).
Context (Hi : ws !! i = Some w).

Definition others : list Worker := take i ws ++ drop (S i) ws.

Lemma workers_split v : <[i := v]> ws = take i ws ++ v :: drop (S i) ws.
Proof. apply insert_take_drop. by eapply lookup_lt_Some. Qed.
Lemma workers_moved : <[i := w']> ws ≫= f ≡ₚ f w' ++ (others ≫= f).
Proof.
  rewrite workers_split. unfold others. rewrite !bind_app, bind_cons.
  by rewrite !app_assoc, (Permutation_app_comm (f w')).
Qed.
Lemma workers_at : ws ≫= f ≡ₚ f w ++ (others ≫= f).
Proof.
  rewrite <-(take_drop_middle ws i w Hi) at 1. unfold others. rewrite !bind_app, bind_cons.
  by rewrite !app_assoc, (Permutation_app_comm (f w)).
Qed.
End worker.

(** Lists of handles are compared by how often each handle occurs. *)
Definition occ (c : Socket) (l : list Socket) : nat := count_occ Nat.eq_dec l c.

Lemma occ_nil c : occ c [] = 0%nat. Proof. done. Qed.
Lemma occ_cons c d l : occ c (d :: l) = ((if decide (d = c) then 1 else 0) + occ c l)%nat.
Proof. unfold occ. cbn. by destruct (Nat.eq_dec d c), (decide (d = c)). Qed.
Lemma occ_app c l k : occ c (l ++ k) = (occ c l + occ c k)%nat.
Proof. apply count_occ_app. Qed.
Lemma occ_elem c l : c ∈ l <-> (0 < occ c l)%nat.
Proof. rewrite list_elem_of_In. apply count_occ_In. Qed.
Lemma occ_nodup l : NoDup l <-> forall c, (occ c l <= 1)%nat.
Proof. rewrite NoDup_ListNoDup. apply (NoDup_count_occ Nat.eq_dec). Qed.
Lemma occ_perm l k : l ≡ₚ k <-> forall c, occ c l = occ c k.
Proof. apply (Permutation_count_occ Nat.eq_dec). Qed.
Lemma occ_filter (P : Socket -> Prop) `{!forall c, Decision (P c)} c l :
  occ c (filter P l) = if decide (P c) then occ c l else 0%nat.
Proof.
  induction l as [|d l IH]; [by case_decide|]. rewrite occ_cons.
  destruct (decide (P d)) as [Hd|Hd].
  - rewrite filter_cons_True by done. rewrite occ_cons, IH. destruct (decide (P c)); [done|].
    by rewrite decide_False by congruence.
  - rewrite filter_cons_False by done. rewrite IH. destruct (decide (P c)); [|done].
    by rewrite decide_False by congruence.
Qed.

(** What a worker's move changes. *)
Lemma occ_moved (f : Worker -> list Socket) ws i w w' c :
  ws !! i = Some w -> (occ c (<[i := w']> ws ≫= f) + occ c (f w) = occ c (ws ≫= f) + occ c (f w'))%nat.
Proof.
  intros Hi. rewrite (proj1 (occ_perm _ _) (workers_moved f ws i w w' Hi)).
  rewrite (proj1 (occ_perm _ _) (workers_at f ws i w Hi)). rewrite !occ_app. lia.
Qed.
Lemma length_moved (f : Worker -> list Socket) ws i w w' :
  ws !! i = Some w ->
  (length (<[i := w']> ws ≫= f) + length (f w) = length (ws ≫= f) + length (f w'))%nat.
Proof.
  intros Hi. rewrite (workers_moved f ws i w w' Hi), (workers_at f ws i w Hi).
  rewrite !length_app. lia.
Qed.
Lemma elem_of_moved (ws : list Worker) (i : nat) (w w' v : Worker) : ws !! i = Some w -> v ∈ <[i := w']> ws -> v = w' \/ v ∈ ws.
Proof.
  intros Hi [j Hj]%list_elem_of_lookup. apply list_lookup_insert_Some in Hj as [(<- & <- & _)|(_ & Hj)].
  - by left.
  - right. by eapply list_elem_of_lookup_2.
Qed.

(** The same facts, by occurrences. *)
Lemma serving_ok_occ options s : serving_ok options s <->
  (forall c, occ c (si_queue s) + occ c (acceptor_socket (si_acceptor s)) +
             occ c (si_workers s ≫= worker_socket) <= 1)%nat /\
  (forall c, occ c (si_active s) = occ c (si_workers s ≫= worker_serves)) /\
  zlen (si_queue s) <= sv_max_pending_connections options /\
  (if serving s then length (si_workers s) = Z.to_nat (sv_workers options)
   else si_workers s = [] /\ si_started s = false) /\
  (serving s = true -> si_stopping s = true -> si_listening s = false) /\
  (Exited ∈ si_workers s -> si_stopping s = true) /\
  (si_acceptor s = Joining \/ si_acceptor s = Finishing -> si_stopping s = true) /\
  (serving s = true -> si_stopping s = true -> forall c, (0 < occ c (si_active s))%nat ->
     (0 < occ c (si_woken s) + occ c (concat (si_wakers s)) + occ c (si_workers s ≫= worker_wakes))%nat) /\
  ss_connections (si_stats s) =
    Z.of_nat (si_closed s + (length (si_queue s) + length (acceptor_socket (si_acceptor s)) +
                             length (si_workers s ≫= worker_socket))) mod 2 ^ 64.
Proof.
  assert (Hw : (forall c, c ∈ si_active s -> c ∈ si_woken s \/ c ∈ to_be_woken s) <->
    (forall c, (0 < occ c (si_active s))%nat ->
       (0 < occ c (si_woken s) + occ c (concat (si_wakers s)) + occ c (si_workers s ≫= worker_wakes))%nat)).
  { apply forall_proper. intros c. rewrite !occ_elem. unfold to_be_woken. rewrite occ_app.
    split; intros H H'; specialize (H H'); lia. }
  split.
  - intros []. split_and!; try done.
    + intros c. rewrite occ_nodup in ok_handles0. specialize (ok_handles0 c).
      unfold handles in ok_handles0. rewrite !occ_app in ok_handles0. lia.
    + by apply occ_perm.
    + intros H1 H2. apply Hw; auto.
    + rewrite ok_counted0. unfold handles, zlen. rewrite !length_app. f_equal. lia.
  - intros (H1 & H2 & H3 & H4 & H5 & H6 & H7 & H8 & H9). split; try done.
    + apply occ_nodup. intros c. specialize (H1 c). unfold handles. rewrite !occ_app. lia.
    + by apply occ_perm.
    + intros G1 G2. apply Hw; auto.
    + rewrite H9. unfold handles, zlen. rewrite !length_app. f_equal. lia.
Qed.

Lemma serves_le (ws : list Worker) c :
  (occ c (ws ≫= worker_serves) <= occ c (ws ≫= worker_socket))%nat.
Proof.
  induction ws as [|w ws IH]; [done|]. rewrite !bind_cons, !occ_app.
  destruct w; cbn [worker_serves worker_socket]; rewrite ?occ_nil; lia.
Qed.
Lemma serves_le_at (ws : list Worker) i w c : ws !! i = Some w ->
  (occ c (ws ≫= worker_serves) + occ c (worker_socket w) <=
   occ c (ws ≫= worker_socket) + occ c (worker_serves w))%nat.
Proof.
  intros Hi. rewrite (proj1 (occ_perm _ _) (workers_at worker_serves ws i w Hi)).
  rewrite (proj1 (occ_perm _ _) (workers_at worker_socket ws i w Hi)). rewrite !occ_app.
  pose proof (serves_le (others ws i) c). lia.
Qed.

Lemma occ_concat_snoc c l k : occ c (concat (l ++ [k])) = (occ c (concat l) + occ c k)%nat.
Proof. rewrite concat_app, occ_app. cbn [concat]. by rewrite app_nil_r. Qed.
Lemma occ_concat_delete c (l : list (list Socket)) k x :
  l !! k = Some x -> occ c (concat l) = (occ c x + occ c (concat (delete k l)))%nat.
Proof. intros Hk. rewrite <-occ_app. apply occ_perm. by rewrite (delete_Permutation l k x Hk) at 1. Qed.
Create Rewrite HintDb occ.
#[export] Hint Rewrite occ_nil occ_cons occ_app occ_concat_snoc : occ.

(** Takes every fact about all handles at [c]. *)
Ltac at_handle c :=
  repeat match goal with H : forall c : nat, _ |- _ => specialize (H c) end;
  rewrite ?occ_filter in *; repeat case_decide; rewrite ?occ_elem in *;
  autorewrite with occ in *; repeat case_decide; try lia.

(** Counts the handle [c] before and after worker [i] moves to [w']. *)
Ltac account c Hi w' :=
  let at_f f := pose proof (occ_moved f _ _ _ w' c Hi) in
  at_f worker_socket; at_f worker_serves; at_f worker_wakes;
  pose proof (serves_le_at _ _ _ c Hi);
  cbn [worker_socket worker_serves worker_wakes] in *; at_handle c.

(** A state by its fields, and the invariant by occurrences. *)
Ltac open_state s Hok :=
  let H := fresh in
  pose proof (proj1 (serving_ok_occ _ _) Hok) as H; clear Hok; apply serving_ok_occ;
  destruct s; unfold serving, close_handles, shutdown_handles, set_worker in *;
  cbn [set si_listening si_stopping si_started si_queue si_active si_workers si_acceptor
    si_wakers si_stats si_woken si_closed ss_connections acceptor_socket] in *;
  destruct H as (Hone & Hactive & Hqueue & Hphase & Hstopped & Hexited & Hjoining & Hwoken & Hcounted).
Ltac worker_moves Hi w' :=
  split_and!; rewrite ?length_insert; try done;
  match goal with
  | |- forall c, (_ <= 1)%nat => let c := fresh "c" in intros c; account c Hi w'
  | |- forall c, occ c _ = occ c _ => let c := fresh "c" in intros c; account c Hi w'
  | |- zlen _ <= _ => unfold zlen in *; cbn [length] in *; lia
  | |- Exited ∈ _ -> _ =>
    let He := fresh in intros He; apply (elem_of_moved _ _ _ _ _ Hi) in He; destruct He as [He|He]; [done|auto]
  | |- _ = true -> _ = true -> forall c, _ =>
    let G1 := fresh in let G2 := fresh in let c := fresh "c" in
    intros G1 G2 c;
    try match goal with H : _ = true -> _ = true -> forall c, _ |- _ => specialize (H G1 G2) end;
    account c Hi w'
  | |- ss_connections _ = _ =>
    match goal with H : ss_connections _ = _ |- _ => rewrite H end; do 2 f_equal;
    pose proof (length_moved worker_socket _ _ _ w' Hi); cbn [worker_socket length] in *; lia
  | H : if _ then _ else _ |- if match ?a with _ => _ end then _ else _ =>
    destruct a; try exact H; destruct H as [-> _]; discriminate Hi
  | |- _ => idtac
  end.

(** The workers stay where they are. *)
Ltac acceptor_moves :=
  cbn [acceptor_socket] in *; destruct_and?; split_and!; try done;
  match goal with
  | |- forall c, (_ <= 1)%nat => let c := fresh "c" in intros c; at_handle c
  | |- forall c, occ c _ = occ c _ => let c := fresh "c" in intros c; at_handle c
  | |- zlen _ <= _ => unfold zlen in *; rewrite ?length_app in *; cbn [length] in *; lia
  | |- _ = true -> _ = true -> forall c, _ =>
    let G1 := fresh in let G2 := fresh in let c := fresh "c" in
    intros G1 G2 c;
    try match goal with H : _ = true -> _ = true -> forall c, _ |- _ => specialize (H G1 G2) end;
    try match goal with |- context [occ c (?ws ≫= worker_wakes)] => pose proof (serves_le ws c) end;
    at_handle c
  | |- ss_connections _ = _ =>
    match goal with H : ss_connections _ = _ |- _ => rewrite H end; do 2 f_equal;
    rewrite ?length_app; cbn [length]; lia
  | |- _ \/ _ -> _ => by intros []
  | |- _ => idtac
  end.

Section moves.
Context (options : ServerOptions) (s : ServerState) (i : nat) (Hok : serving_ok options s).

Lemma pick_ok client queue :
  si_workers s !! i = Some Parked -> si_queue s = client :: queue ->
  serving_ok options (set_worker i (Picked client) (s <| si_queue := queue |>)).
Proof. intros Hi Hq. open_state s Hok. subst si_queue0. worker_moves Hi (Picked client). Qed.

Lemma exit_ok :
  si_workers s !! i = Some Parked -> si_stopping s = true -> serving_ok options (set_worker i Exited s).
Proof. intros Hi Hs. open_state s Hok. subst si_stopping0. worker_moves Hi Exited. Qed.

Lemma refuse_ok client :
  si_workers s !! i = Some (Picked client) ->
  serving_ok options (set_worker i Parked (close_handles [client] s)).
Proof. intros Hi. open_state s Hok. worker_moves Hi Parked. Qed.

Lemma begin_ok client :
  si_workers s !! i = Some (Picked client) -> si_stopping s = false ->
  serving_ok options (set_worker i (Serving client) (s <| si_active := si_active s ++ [client] |>)).
Proof. intros Hi Hs. open_state s Hok. subst si_stopping0. worker_moves Hi (Serving client). Qed.

Lemma end_ok client :
  si_workers s !! i = Some (Serving client) ->
  serving_ok options (set_worker i (Leaving client) s) /\
  serving_ok options (set_worker i (Stopping client)
    (s <| si_stats := (si_stats s) <| ss_shutdown_requested := true |> |>)).
Proof.
  intros Hi. split; open_state s Hok; [worker_moves Hi (Leaving client)|worker_moves Hi (Stopping client)].
Qed.

Lemma wake_ok client to_wake :
  si_workers s !! i = Some (Waking client to_wake) ->
  serving_ok options (set_worker i (Leaving client) (shutdown_handles to_wake s)).
Proof. intros Hi. open_state s Hok. worker_moves Hi (Leaving client). Qed.

Lemma erase_ok client :
  si_workers s !! i = Some (Leaving client) ->
  serving_ok options (set_worker i (Closing client)
    (s <| si_active := filter (fun c => c <> client) (si_active s) |>)).
Proof. intros Hi. open_state s Hok. worker_moves Hi (Closing client). Qed.

Lemma worker_close_ok client :
  si_workers s !! i = Some (Closing client) ->
  serving_ok options (set_worker i Parked (close_handles [client] s)).
Proof. intros Hi. open_state s Hok. worker_moves Hi Parked. Qed.

Lemma stop_ok client :
  si_workers s !! i = Some (Stopping client) ->
  serving_ok options (let '(s, to_wake) := stop_section s in set_worker i (Waking client to_wake) s).
Proof. intros Hi. unfold stop_section. open_state s Hok. worker_moves Hi (Waking client si_active0). Qed.
End moves.

(** The other threads. *)
Section acceptor.
Context (options : ServerOptions) (s : ServerState) (Hok : serving_ok options s).

Lemma request_ok :
  serving_ok options (let '(s, to_wake) := stop_section s in s <| si_wakers := si_wakers s ++ [to_wake] |>).
Proof. unfold stop_section. open_state s Hok. acceptor_moves. Qed.

Lemma wake_requested_ok k to_wake :
  si_wakers s !! k = Some to_wake ->
  serving_ok options ((shutdown_handles to_wake s) <| si_wakers := delete k (si_wakers s) |>).
Proof.
  intros Hk. open_state s Hok. acceptor_moves.
  all: rewrite (occ_concat_delete _ _ _ _ Hk) in *; lia.
Qed.

(** Moves of the thread in [serve] that leave the rest alone. *)
Lemma acceptor_moves_ok acceptor :
  serving s = true -> acceptor_socket (si_acceptor s) = [] -> acceptor_socket acceptor = [] ->
  match acceptor with Idle | Entering => False | Joining | Finishing => si_stopping s = true | _ => True end ->
  serving_ok options (s <| si_acceptor := acceptor |>).
Proof.
  intros Hs Ha Ha' Hj. open_state s Hok. rewrite Ha in *. rewrite Hs in *.
  destruct acceptor; try done; acceptor_moves.
Qed.

Lemma listen_ok : si_acceptor s = Idle -> serving_ok options (s <| si_listening := true |>).
Proof. intros Ha. open_state s Hok. subst si_acceptor0. acceptor_moves. Qed.

Lemma serve_ok : si_acceptor s = Idle -> serving_ok options (s <| si_acceptor := Entering |>).
Proof. intros Ha. open_state s Hok. subst si_acceptor0. acceptor_moves. Qed.

Lemma bind_parked (f : Worker -> list Socket) n : f Parked = [] -> replicate n Parked ≫= f = [].
Proof. intros Hf. induction n as [|n IH]; [done|]. cbn [replicate]. by rewrite bind_cons, Hf, IH. Qed.

Lemma enter_ok : si_acceptor s = Entering ->
  serving_ok options (s <| si_started := true |> <| si_stopping := false |>
    <| si_workers := replicate (Z.to_nat (sv_workers options)) Parked |> <| si_acceptor := Checking |>).
Proof.
  intros Ha. open_state s Hok. subst si_acceptor0. destruct Hphase as [-> _].
  split_and!; rewrite ?bind_parked, ?length_replicate by done; try done; [|by intros []].
  intros Hin%elem_of_replicate. by destruct Hin.
Qed.

Lemma accept_ok client : si_acceptor s = Accepting true -> client ∉ handles s ->
  serving_ok options (s <| si_acceptor := Enqueueing client |>
    <| si_stats := (si_stats s) <| ss_connections := wrap_succ (ss_connections (si_stats s)) |> |>).
Proof.
  intros Ha Hn. unfold handles in Hn. rewrite occ_elem, !occ_app in Hn.
  open_state s Hok. subst si_acceptor0. acceptor_moves.
  - subst client. lia.
  - rewrite Hcounted. unfold wrap_succ. rewrite Zplus_mod_idemp_l. f_equal. cbn [length acceptor_socket]. lia.
Qed.

Lemma enqueue_ok client : si_acceptor s = Enqueueing client ->
  serving_ok options (enqueue options client (s <| si_acceptor := Checking |>)).
Proof.
  intros Ha. unfold enqueue. cbn [si_queue set].
  destruct (Z.leb_spec (sv_max_pending_connections options) (zlen (si_queue s))).
  - open_state s Hok. subst si_acceptor0. acceptor_moves.
  - open_state s Hok. subst si_acceptor0. acceptor_moves.
Qed.

Lemma finish_ok : si_acceptor s = Finishing ->
  serving_ok options (s <| si_stopping := true |> <| si_acceptor := Joining |>).
Proof.
  intros Ha. open_state s Hok. subst si_acceptor0.
  assert (si_stopping0 = true) as -> by auto. acceptor_moves.
Qed.

Lemma join_ok : si_acceptor s = Joining -> Forall (fun w => w = Exited) (si_workers s) ->
  serving_ok options (s <| si_workers := [] |> <| si_listening := false |> <| si_started := false |>
    <| si_acceptor := Idle |>).
Proof.
  intros Ha Hw. assert (Hb : forall f, f Exited = [] -> si_workers s ≫= f = ([] : list Socket)).
  { intros f Hf. induction Hw as [|w ws -> _ IH]; [done|]. by rewrite bind_cons, Hf, IH. }
  open_state s Hok. subst si_acceptor0. rewrite !Hb in * by done. acceptor_moves.
  by intros ?%elem_of_nil.
Qed.
End acceptor.

Lemma joined_exited (ws : list Worker) : forallb has_exited ws = true -> Forall (fun w => w = Exited) ws.
Proof. induction ws as [|[] ws IH]; try done. intros H. constructor; auto. Qed.

Lemma server_next_ok options a s s' :
  server_next options a s = Some s' -> serving_ok options s -> serving_ok options s'.
Proof.
  intros Hn Hok. destruct a; cbn [server_next acceptor_next worker_next requester_next] in Hn.
  1-10: destruct (si_acceptor s) eqn:Ha; try done.
  - injection Hn as <-. by apply listen_ok.
  - destruct (si_listening s); [|done]. injection Hn as <-. by apply serve_ok.
  - assert (Hp := ok_phase _ _ Hok). unfold serving in Hp. rewrite Ha in Hp. destruct Hp as [_ Hst].
    rewrite Hst in Hn. injection Hn as <-. by apply enter_ok.
  - injection Hn as <-. apply acceptor_moves_ok; unfold serving; rewrite ?Ha; try done;
      by destruct (si_stopping s).
  - destruct open; [|done]. case_bool_decide; [done|]. injection Hn as <-. by apply accept_ok.
  - injection Hn as <-. apply acceptor_moves_ok; unfold serving; by rewrite ?Ha.
  - injection Hn as <-. apply acceptor_moves_ok; unfold serving; rewrite ?Ha; try done;
      by destruct (si_stopping s).
  - injection Hn as <-. by apply enqueue_ok.
  - injection Hn as <-. by apply finish_ok.
  - destruct (forallb _ _) eqn:Hw; [|done]. injection Hn as <-. apply join_ok; [done..|].
    by apply joined_exited.
  - apply bind_Some in Hn as (w & Hi & Hn). destruct w, (si_queue s) eqn:Hq; try done. injection Hn as <-.
    by apply pick_ok.
  - apply bind_Some in Hn as (w & Hi & Hn). destruct w, (si_queue s) eqn:Hq; try done.
    destruct (si_stopping s) eqn:Hs; [|done]. injection Hn as <-. by apply exit_ok.
  - apply bind_Some in Hn as (w & Hi & Hn). destruct w; try done.
    destruct (si_stopping s) eqn:Hs; injection Hn as <-; [by apply refuse_ok|by apply begin_ok].
  - apply bind_Some in Hn as (w & Hi & Hn). destruct w; try done.
    destruct (end_ok _ _ _ Hok _ Hi). by destruct asked; injection Hn as <-.
  - apply bind_Some in Hn as (w & Hi & Hn). destruct w; try done. injection Hn as <-.
    by apply (stop_ok options s i Hok).
  - apply bind_Some in Hn as (w & Hi & Hn). destruct w; try done. injection Hn as <-.
    by apply (wake_ok options s i Hok).
  - apply bind_Some in Hn as (w & Hi & Hn). destruct w; try done. injection Hn as <-. by apply erase_ok.
  - apply bind_Some in Hn as (w & Hi & Hn). destruct w; try done. injection Hn as <-. by apply worker_close_ok.
  - injection Hn as <-. by apply (request_ok options s Hok).
  - apply bind_Some in Hn as (to_wake & Hk & Hn). injection Hn as <-. by apply wake_requested_ok.
Qed.

(** ** Shutdown *)

(** Everything but a new call of [listen], [serve] or [request_shutdown]. *)
Definition own (a : Action) : bool :=
  match a with Listen | Serve | Enter | RequestShutdown => false | _ => true end.

(** The cases of a step. *)
Ltac step_cases Hn :=
  cbn [server_next acceptor_next worker_next requester_next] in Hn;
  repeat match type of Hn with
  | _ ≫= _ = Some _ => let x := fresh "x" in let Hx := fresh "Hx" in apply bind_Some in Hn as (x & Hx & Hn)
  | context [match ?x with _ => _ end] => let E := fresh "E" in destruct x eqn:E; try discriminate Hn
  end;
  injection Hn as <-;
  repeat match goal with E : stop_section _ = (_, _) |- _ => injection E as <- <- end.

Lemma stop_stays options a s s' :
  server_next options a s = Some s' -> a <> Enter -> si_stopping s = true ->
  si_stopping s' = true /\ si_active s' `sublist_of` si_active s.
Proof.
  intros Hn Ha Hs. destruct a; step_cases Hn; try done; unfold enqueue;
    try (destruct (_ <=? _)); try (split; [done|]; first [reflexivity | apply sublist_filter]).
  all: congruence.
Qed.

(** How many steps a thread can still take once the server stops. *)
Definition worker_left (w : Worker) : nat :=
  match w with
  | Exited => 0 | Parked => 1 | Picked _ => 2 | Closing _ => 2 | Leaving _ => 3 | Waking _ _ => 4
  | Stopping _ => 5 | Serving _ => 6
  end.
Definition acceptor_left (a : Acceptor) : nat :=
  match a with
  | Idle | Entering => 0 | Joining => 1 | Finishing => 2 | Checking => 3 | Failing => 4
  | Enqueueing _ => 6 | Accepting _ => 7
  end.
Definition steps_left (s : ServerState) : nat :=
  acceptor_left (si_acceptor s) + list_sum (worker_left <$> si_workers s) + 2 * length (si_queue s) +
  length (si_wakers s).

Lemma left_moved (ws : list Worker) i w w' : ws !! i = Some w ->
  (list_sum (worker_left <$> <[i := w']> ws) + worker_left w = list_sum (worker_left <$> ws) + worker_left w')%nat.
Proof.
  intros Hi. assert (Hs : forall v, list_sum (worker_left <$> <[i := v]> ws) =
    (worker_left v + list_sum (worker_left <$> others ws i))%nat).
  { intros v. rewrite (workers_split ws i w Hi v). unfold others. rewrite !fmap_app, !list_sum_app.
    cbn [fmap list_fmap]. change (list_sum (?x :: ?l)) with (x + list_sum l)%nat. lia. }
  rewrite Hs. specialize (Hs w). rewrite list_insert_id in Hs by done. lia.
Qed.

Lemma step_left options a s s' :
  server_next options a s = Some s' -> own a = true -> si_stopping s = true ->
  (steps_left s' < steps_left s)%nat.
Proof.
  intros Hn Ha Hs. destruct a; try done; step_cases Hn; unfold steps_left, enqueue, set_worker;
    try (destruct (_ <=? _));
    cbn [set si_listening si_stopping si_started si_queue si_active si_workers si_acceptor
      si_wakers si_stats si_woken si_closed close_handles shutdown_handles].
  all: try match goal with H : si_workers _ !! _ = Some _ |- context [<[_ := ?w]> _] =>
    pose proof (left_moved _ _ _ w H) end.
  all: repeat match goal with H : ?x = _ |- context [?x] => rewrite H end.
  all: rewrite ?length_app in *; cbn [acceptor_left worker_left length] in *; try lia; try congruence.
  - change (list_sum (worker_left <$> [])) with 0%nat. lia.
  - rewrite length_delete by by eexists. apply lookup_lt_Some in Hx. lia.
Qed.

(** What waits for nobody.  A worker leaves a connection once it is shut down, since a
    receive on it returns; [accept] fails at once on a listener that was already closed
    when it was called, but closing the listener under a blocked [accept] need not wake
    it. *)
Definition prompt (s : ServerState) (a : Action) : bool :=
  own a &&
  match a with
  | Accept _ => false
  | AcceptFails => match si_acceptor s with Accepting false => true | _ => false end
  | End i _ =>
    match si_workers s !! i with Some (Serving c) => bool_decide (c ∈ si_woken s) | _ => false end
  | _ => true
  end.
Definition can_act (options : ServerOptions) (s : ServerState) : Prop :=
  exists a, prompt s a = true /\ is_Some (server_next options a s).

(** All is done but an [accept] that was called on the open listener. *)
Definition held_up (s : ServerState) : Prop :=
  si_acceptor s = Accepting true /\ Forall (fun w => w = Exited) (si_workers s) /\ si_wakers s = [].

Lemma waker_acts options s c : c ∈ to_be_woken s -> can_act options s.
Proof.
  unfold to_be_woken. intros [Hc|Hc]%elem_of_app.
  - apply list_elem_of_In, in_concat in Hc as (l & Hl & _).
    apply list_elem_of_In, list_elem_of_lookup in Hl as [k Hk].
    exists (WakeRequested k). split; [done|]. cbn. rewrite Hk. by eexists.
  - apply list_elem_of_bind in Hc as (w & Hw & Hin). apply list_elem_of_lookup in Hin as [i Hi].
    destruct w as [| | | |c' l| | |]; try by apply elem_of_nil in Hw.
    exists (Wake i). split; [done|]. cbn. rewrite Hi. by eexists.
Qed.

Lemma worker_acts options s i w :
  serving_ok options s -> serving s = true -> si_stopping s = true ->
  si_workers s !! i = Some w -> w <> Exited -> can_act options s.
Proof.
  intros Hok Hv Hs Hi Hw. destruct w as [|c|c|c|c l|c|c|].
  - destruct (si_queue s) as [|c q] eqn:Hq; [exists (Exit i)|exists (Pick i)]; (split; [done|]); cbn;
      rewrite Hi, Hq; cbn; rewrite ?Hs; by eexists.
  - exists (Begin i). split; [done|]. cbn. rewrite Hi. cbn. rewrite Hs. by eexists.
  - assert (Hin : c ∈ si_active s).
    { rewrite (ok_active _ _ Hok). apply list_elem_of_bind. exists (Serving c).
      split; [by left|by eapply list_elem_of_lookup_2]. }
    destruct (ok_woken _ _ Hok Hv Hs c Hin) as [Hk|Hk]; [|by eapply waker_acts].
    exists (End i false). split; [cbn; rewrite Hi; by apply bool_decide_true|]. cbn. rewrite Hi. by eexists.
  - exists (Stop i). split; [done|]. cbn. rewrite Hi. by eexists.
  - exists (Wake i). split; [done|]. cbn. rewrite Hi. by eexists.
  - exists (Erase i). split; [done|]. cbn. rewrite Hi. by eexists.
  - exists (Close i). split; [done|]. cbn. rewrite Hi. by eexists.
  - done.
Qed.

Lemma workers_act options s :
  serving_ok options s -> serving s = true -> si_stopping s = true ->
  can_act options s \/ Forall (fun w => w = Exited) (si_workers s).
Proof.
  intros Hok Hv Hs. destruct (forallb has_exited (si_workers s)) eqn:Hw; [right; by apply joined_exited|left].
  assert (exists i w, si_workers s !! i = Some w /\ w <> Exited) as (i & w & Hi & Hne); [|by eapply worker_acts].
  clear -Hw. induction (si_workers s) as [|w ws IH]; [done|]. destruct w; cbn in Hw;
    [exists 0%nat; by eexists..|]. destruct (IH Hw) as (i & w & Hi & Hne). by exists (S i), w.
Qed.

Lemma server_acts options s :
  serving_ok options s -> serving s = true -> si_stopping s = true -> can_act options s \/ held_up s.
Proof.
  intros Hok Hv Hs. destruct (si_acceptor s) as [| | |[|]|c| | |] eqn:Ha; try (unfold serving in Hv;
    by rewrite Ha in Hv).
  - left. exists CheckStop. split; [done|]. cbn. rewrite Ha. by eexists.
  - destruct (workers_act options s Hok Hv Hs) as [?|Hex]; [by left|].
    destruct (si_wakers s) as [|to_wake wakers] eqn:Hwk; [by right|left].
    exists (WakeRequested 0). split; [done|]. cbn. rewrite Hwk. by eexists.
  - left. exists AcceptFails. split; [cbn; by rewrite Ha|]. cbn. rewrite Ha. by eexists.
  - left. exists Enqueue. split; [done|]. cbn. rewrite Ha. by eexists.
  - left. exists Recheck. split; [done|]. cbn. rewrite Ha. by eexists.
  - left. exists Finish. split; [done|]. cbn. rewrite Ha. by eexists.
  - destruct (workers_act options s Hok Hv Hs) as [?|Hex]; [by left|].
    left. exists Join. split; [done|]. cbn. rewrite Ha.
    assert (Hw : forallb has_exited (si_workers s) = true).
    { clear -Hex. induction Hex as [|w ws -> _ IH]; [done|exact IH]. }
    rewrite Hw. by eexists.
Qed.

Lemma run_ok options s acts s' :
  server_run options s acts = Some s' -> serving_ok options s -> serving_ok options s'.
Proof.
  revert s. induction acts as [|a acts IH]; intros s Hr Hok; [by injection Hr as <-|].
  cbn [server_run] in Hr. apply bind_Some in Hr as (s1 & Hs & Hr).
  eapply IH; [exact Hr|]. by eapply server_next_ok.
Qed.

Lemma initial_ok options : 0 <= sv_max_pending_connections options -> serving_ok options ServerState_initial.
Proof. intros Hq. apply serving_ok_occ. split_and!; try done; [cbn;
  lia|by intros ?%elem_of_nil|by intros []]. Qed.

(** [serve] has returned. *)
Definition returned (s : ServerState) : Prop :=
  si_acceptor s = Idle /\ si_workers s = [] /\ si_active s = [] /\ si_started s = false /\ si_listening s = false.

Lemma returned_stays options a s s' :
  server_next options a s = Some s' -> own a = true -> returned s -> returned s'.
Proof.
  intros Hn Ha (Hi & Hw & Hact & Hst & Hl).
  destruct a; try done; step_cases Hn; try (by rewrite Hw in *); try congruence.
  by split_and!.
Qed.

(** A step of a stopping server goes on serving or returns. *)
Lemma step_serves options a s s' :
  server_next options a s = Some s' -> own a = true -> serving_ok options s -> serving s = true ->
  serving s' = true \/ returned s'.
Proof.
  intros Hn Ha Hok Hv. destruct a; try done; step_cases Hn; try (left; exact Hv); try (by left).
  - left. unfold enqueue. by destruct (_ <=? _).
  - right. split_and!; try done. cbn. assert (Hex := joined_exited _ E0).
    apply Permutation_nil. rewrite (ok_active _ _ Hok). clear -Hex.
    induction Hex as [|w ws -> _ IH]; [done|]. by rewrite bind_cons.
Qed.

(** C15. However the accept loop, the workers and the callers of [request_shutdown]
    interleave, from the start of the server: every open connection is held in one
    place, so none is closed twice or served twice; [active] lists exactly the
    connections being served; the queue keeps its bound; every connection accepted is
    held or was closed; once a stop took effect every connection still served has been
    shut down or some thread is about to do it.  Destroying a server that does not
    serve leaves nothing open. *)
Theorem serving_invariant options acts s
    (Hbound : 0 <= sv_max_pending_connections options)
    (Hrun : server_run options ServerState_initial acts = Some s) :
  serving_ok options s /\
  (si_acceptor s = Idle -> handles (server_destroy s) = [] /\ si_listening (server_destroy s) = false).
Proof.
  split.
  - eapply run_ok; [exact Hrun|]. by apply initial_ok.
  - intros Ha. unfold handles, server_destroy, stop_section, shutdown_handles, close_handles.
    cbn [set si_queue si_acceptor si_workers si_listening]. by rewrite Ha.
Qed.

(** Once the server stops nothing new is served: whatever the threads do until the
    next call of [serve], the connections served are among those served when the stop
    took effect, in their order, and the stop is not undone. *)
Theorem nothing_served_after_stop options s acts s'
    (Hstop : si_stopping s = true) (Hrun : server_run options s acts = Some s')
    (Hsame : Enter ∉ acts) :
  si_stopping s' = true /\ si_active s' `sublist_of` si_active s.
Proof.
  revert s Hstop Hrun. induction acts as [|a acts IH]; intros s Hstop Hrun; [by injection Hrun as <-|].
  cbn [server_run] in Hrun. apply bind_Some in Hrun as (s1 & Hs & Hr).
  apply not_elem_of_cons in Hsame as [Ha Hsame].
  destruct (stop_stays options a s s1 Hs ltac:(congruence) Hstop) as [Hs1 Hsub].
  destruct (IH Hsame s1 Hs1 Hr) as [? ?]. split; [done|]. by etransitivity.
Qed.

(** C16. What a stop needs to complete.  From then on the threads take at most
    [steps_left] steps of their own; as long as [serve] has not returned, one of them can
    take a step that waits neither for a peer nor for the system, or everything is done
    but an [accept] that was called before the listener was closed; and when [serve] has
    returned, every worker was joined and nothing is served or listened on. *)
Theorem shutdown_completes options s acts s'
    (Hok : serving_ok options s) (Hstop : si_stopping s = true) (Hserving : serving s = true)
    (Hrun : server_run options s acts = Some s') (Hown : Forall (fun a => own a = true) acts) :
  (length acts <= steps_left s)%nat /\ (can_act options s' \/ held_up s' \/ returned s').
Proof.
  assert (Hphase : serving s = true \/ returned s) by (by left). clear Hserving.
  revert s Hok Hstop Hphase Hrun. induction Hown as [|a acts Ha _ IH]; intros s Hok Hstop Hphase Hrun.
  - injection Hrun as <-. split; [cbn; lia|]. destruct Hphase as [Hv|?]; [|by right; right].
    destruct (server_acts options s Hok Hv Hstop); [by left|by right; left].
  - cbn [server_run] in Hrun. apply bind_Some in Hrun as (s1 & Hs & Hr).
    destruct (IH s1) as [Hl Hrest]; [by eapply server_next_ok| | |done|].
    + by destruct (stop_stays options a s s1 Hs ltac:(by intros ->) Hstop).
    + destruct Hphase; [by eapply step_serves|right; by eapply returned_stays].
    + pose proof (step_left options a s s1 Hs Ha Hstop). split; [cbn [length]; lia|done].
Qed.

(** ** Examples *)
Definition one_worker : ServerOptions := mkServerOptions "127.0.0.1" 0 1 16 1048576 true.

(** A connection is served, another one waits, a shutdown is asked for. *)
Definition busy_run : list Action :=
  [Listen; Serve; Enter; CheckStop; Accept 7; Enqueue; Pick 0; Begin 0; CheckStop; Accept 8; Enqueue; End 0 true; Stop 0].
Definition busy_server : ServerState := Eval vm_compute in default ServerState_initial (server_run one_worker ServerState_initial busy_run).
Definition drain_run : list Action :=
  [Wake 0; Erase 0; Close 0; CheckStop; Finish; Exit 0; Join].
Definition drained_server : ServerState := Eval vm_compute in default ServerState_initial (server_run one_worker busy_server drain_run).

Lemma serving_invariant_witness :
  serving_ok one_worker busy_server /\
  (si_acceptor busy_server = Idle ->
   handles (server_destroy busy_server) = [] /\ si_listening (server_destroy busy_server) = false).
Proof. apply (serving_invariant one_worker busy_run); [discriminate|reflexivity]. Defined.

Lemma nothing_served_after_stop_witness :
  si_stopping drained_server = true /\ si_active drained_server `sublist_of` si_active busy_server.
Proof.
  apply (nothing_served_after_stop one_worker busy_server drain_run); [reflexivity|reflexivity|].
  unfold drain_run. rewrite !not_elem_of_cons. split_and!; try done. apply not_elem_of_nil.
Defined.

Lemma shutdown_completes_witness :
  (length drain_run <= steps_left busy_server)%nat /\
  (can_act one_worker drained_server \/ held_up drained_server \/ returned drained_server).
Proof.
  apply (shutdown_completes one_worker busy_server drain_run drained_server).
  - apply (run_ok one_worker ServerState_initial busy_run); [reflexivity|]. apply initial_ok. discriminate.
  - reflexivity.
  - reflexivity.
  - reflexivity.
  - repeat constructor.
Defined.

(** A stop may be held up: with the acceptor blocked in [accept] when a shutdown is
    requested, everything is done and no thread can go on unless the system lets closing
    the listener wake the call. *)
Lemma stop_held_up :
  exists s, server_run one_worker ServerState_initial
      [Listen; Serve; Enter; CheckStop; RequestShutdown; WakeRequested 0; Exit 0] = Some s /\
  si_stopping s = true /\ held_up s /\ ~ can_act one_worker s.
Proof.
  eexists. split; [vm_compute; reflexivity|]. split; [done|]. split; [by split_and!; repeat constructor|].
  intros ([] & Hprompt & [s' Hs']); try done; by destruct i as [|[|i]].
Qed.

(** A connection accepted just before the stop is queued after it: [serve] returns with
    the connection open, neither served nor refused, until the server is destroyed. *)
Definition late_run : list Action :=
  [Listen; Serve; Enter; CheckStop; Accept 7; RequestShutdown; Exit 0; Enqueue; CheckStop; Finish; Join].
Lemma late_connection_left_open :
  exists s, server_run one_worker ServerState_initial late_run = Some s /\
  returned s /\ handles s = [7%nat] /\ si_closed s = 0%nat /\ handles (server_destroy s) = [].
Proof. eexists. split; [vm_compute; reflexivity|]. split; [by split_and!|]. split_and!; reflexivity. Qed.

(** A shutdown requested while [serve] is between its two checks is lost: the flag is
    cleared, the listener is gone, and the accept loop goes round on a failing [accept]
    without end. *)
Lemma early_shutdown_lost :
  exists s, server_run one_worker ServerState_initial [Listen; Serve; RequestShutdown; Enter; CheckStop] = Some s /\
  si_listening s = false /\ si_stopping s = false /\
  server_run one_worker s [AcceptFails; Recheck; CheckStop] = Some s /\
  (forall client, server_next one_worker (Accept client) s = None).
Proof. eexists. split; [vm_compute; reflexivity|]. split_and!; try reflexivity. Qed.
