(* ===== verification/Ingest.v ===== *)
(** * Ingest: staging and flushing

    Theorems on the operations of [FabricRuntime]: what a running runtime maintains
    whatever happens to its store, that the order events arrive in does not matter,
    and that a remembered delivery has no second effect. *)

From S2P Require Import Prelude Std Reason Types Version Resources Bounded Digest Json JsonArchive Archive Model.
From S2P Require Import Codec Authority Planner State Intent Scenario Lifecycle Store Runtime.
#[local] Open Scope Z_scope.

(** ** The state of ingest *)
Definition delivery_key (d : DeliveryRecord) : OriginId * OriginEpoch * Sequence :=
  (del_origin d, del_origin_epoch d, del_origin_seq d).
Definition event_delivery (e : FabricEvent) : OriginId * OriginEpoch * Sequence :=
  (fe_origin e, fe_origin_epoch e, fe_origin_seq e).

Record ingest_ok (r : FabricRuntime) : Prop := {
  ing_late : Forall (fun e => rs_watermark (rt_state r) < fe_at e) (rt_pending r);
  ing_pending : zlen (rt_pending r) <= max_batch_events (rc_bounds (rt_config r));
  ing_capacity : bh_capacity (rt_deliveries r) = max_duplicate_window (rc_bounds (rt_config r));
  ing_window : zlen (bh_entries (rt_deliveries r)) <= max_duplicate_window (rc_bounds (rt_config r));
  ing_once : NoDup (delivery_key <$> bh_entries (rt_deliveries r))
}.

(** What operations add to a runtime: the watermark never moves back and does not overtake
    the clock if it was not ahead of it, and the decision history does not outgrow its
    bound, or what it was if that was more. *)
Record grows (r r' : FabricRuntime) : Prop := {
  gr_config : rt_config r' = rt_config r;
  gr_watermark : rs_watermark (rt_state r) <= rs_watermark (rt_state r');
  gr_clock : rs_watermark (rt_state r) <= rs_clock (rt_state r) ->
             rs_watermark (rt_state r') <= rs_clock (rt_state r');
  gr_decisions : 0 < max_decisions_retained (rc_bounds (rt_config r)) ->
                 zlen (rs_decisions (rt_state r')) <=
                   Z.max (max_decisions_retained (rc_bounds (rt_config r))) (zlen (rs_decisions (rt_state r)))
}.
#[export] Instance grows_preorder : PreOrder grows.
Proof.
  split; [intros r; split; (done || lia)|]. intros r1 r2 r3 [A1 B1 C1 D1] [A2 B2 C2 D2]. rewrite A1 in D2.
  split; [congruence|lia|auto|]. intros Hd. specialize (D1 Hd). specialize (D2 Hd). lia.
Qed.

(** *** Deliveries *)
Lemma same_delivery_key event seen :
  same_delivery event seen = true <-> delivery_key seen = event_delivery event.
Proof.
  unfold same_delivery, delivery_key, event_delivery. rewrite !andb_true_iff, bool_decide_eq_true, !Z.eqb_eq.
  split; [intros [[-> ->] ->]; done|by intros [= -> -> ->]].
Qed.

Lemma find_delivery_None deliveries event :
  find_delivery deliveries event = None <-> event_delivery event ∉ delivery_key <$> bh_entries deliveries.
Proof.
  unfold find_delivery. rewrite list_elem_of_fmap. split.
  - intros Hf (seen & Hk & Hin). pose proof (find_none _ _ Hf seen) as Hn.
    rewrite <-list_elem_of_In in Hn. specialize (Hn Hin).
    by rewrite (proj2 (same_delivery_key event seen)) in Hn.
  - intros Hn. destruct (find _ _) as [seen|] eqn:Hf; [|done]. exfalso. apply Hn.
    apply find_some in Hf as [Hin Hs]. exists seen. rewrite list_elem_of_In.
    by apply same_delivery_key in Hs.
Qed.

Lemma bh_push_spec {T} (h : BoundedHistory T) x :
  0 < bh_capacity h -> zlen (bh_entries h) <= bh_capacity h ->
  let h' := (bh_push h x).1 in
  bh_capacity h' = bh_capacity h /\ zlen (bh_entries h') <= bh_capacity h /\
  exists n, bh_entries h' = drop n (bh_entries h) ++ [x].
Proof.
  intros Hc Hl. unfold bh_push. destruct (Z.eqb_spec (bh_capacity h) 0); [lia|].
  rewrite bh_evict_loop_spec by done. cbn. split_and!; [done| |by eexists].
  rewrite zlen_app. unfold zlen in *. rewrite length_drop. cbn [length]. lia.
Qed.

(** The duplicate window of [size] deliveries: within its bound, none twice. *)
Record window_ok (size : Z) (deliveries : BoundedHistory DeliveryRecord) : Prop := {
  win_capacity : bh_capacity deliveries = size;
  win_length : zlen (bh_entries deliveries) <= size;
  win_once : NoDup (delivery_key <$> bh_entries deliveries)
}.

Lemma push_window size deliveries event :
  0 < size -> window_ok size deliveries -> find_delivery deliveries event = None ->
  window_ok size (bh_push deliveries (delivery_record event)).1.
Proof.
  intros Hsize [Hcap Hlen Honce] Hnone.
  destruct (bh_push_spec deliveries (delivery_record event)) as (B1 & B2 & n & B3); [lia|lia|].
  split; [congruence|lia|]. rewrite B3, fmap_app, fmap_drop.
  rewrite <-(take_drop n (delivery_key <$> bh_entries deliveries)) in Honce. apply NoDup_app. split_and!.
  - by apply NoDup_app in Honce as (_ & _ & ?).
  - intros k Hk ->%list_elem_of_singleton. apply find_delivery_None in Hnone. apply Hnone.
    rewrite <-(take_drop n (delivery_key <$> bh_entries deliveries)). set_solver.
  - apply NoDup_singleton.
Qed.

Lemma remember_delivery_spec s deliveries event s' deliveries' :
  remember_delivery s deliveries event = (s', deliveries') ->
  deliveries' = (bh_push deliveries (delivery_record event)).1 /\
  rs_watermark s' = rs_watermark s /\ rs_clock s' = rs_clock s /\ rs_decisions s' = rs_decisions s.
Proof.
  unfold remember_delivery. destruct (bh_push _ _) as [d evicted]. intros [= <- <-].
  by destruct (0 <? evicted).
Qed.

Lemma refresh_health_frame s :
  rs_watermark (refresh_health s) = rs_watermark s /\ rs_clock (refresh_health s) = rs_clock s /\
  rs_decisions (refresh_health s) = rs_decisions s.
Proof. by destruct (refresh_health_same s) as (? & ? & ? & ? & ? & ? & ? & ? & ? & ?). Qed.

Lemma retain_decision_spec bounds s decision :
  let s' := retain_decision bounds s decision in
  rs_watermark s' = rs_watermark s /\ rs_clock s' = rs_clock s /\
  (0 < max_decisions_retained bounds ->
   zlen (rs_decisions s') <= Z.max (max_decisions_retained bounds) (zlen (rs_decisions s))).
Proof.
  unfold retain_decision.
  destruct (Z.leb_spec (max_decisions_retained bounds) (zlen (rs_decisions s))); cbn;
    (split_and!; [done|done|]); rewrite zlen_app; change (zlen [decision]) with 1; [|lia].
  intros Hb. destruct (rs_decisions s) as [|d l]; [unfold zlen in *; cbn in *; lia|].
  rewrite zlen_cons. cbn [tail]. lia.
Qed.

(** A history that is over the bound stays over it: one decision makes room for one. *)
Lemma oversized_history_stays bounds s decision :
  0 < max_decisions_retained bounds < zlen (rs_decisions s) ->
  zlen (rs_decisions (retain_decision bounds s decision)) = zlen (rs_decisions s).
Proof.
  intros Hb. unfold retain_decision.
  destruct (Z.leb_spec (max_decisions_retained bounds) (zlen (rs_decisions s))); [|lia].
  cbn. rewrite zlen_app. change (zlen [decision]) with 1.
  destruct (rs_decisions s) as [|d l]; [unfold zlen in *; cbn in *; lia|]. rewrite zlen_cons. cbn [tail]. lia.
Qed.

(** *** Applying one event *)

(** What one event changes of the ingest state. *)
Lemma apply_released_spec config s deliveries event s' deliveries' outcome :
  apply_released config s deliveries event = Some (s', deliveries', outcome) ->
  rs_watermark s' = Z.max (rs_watermark s) (fe_at event) /\ Z.max (rs_clock s) (fe_at event) <= rs_clock s' /\
  (0 < max_decisions_retained (rc_bounds config) ->
   zlen (rs_decisions s') <= Z.max (max_decisions_retained (rc_bounds config)) (zlen (rs_decisions s))) /\
  deliveries' = (bh_push deliveries (delivery_record event)).1.
Proof.
  intros Happ. unfold apply_released in Happ.
  destruct (remember_delivery s deliveries event) as [s1 d1] eqn:Hrem.
  apply remember_delivery_spec in Hrem as (-> & Hw1 & Hc1 & Hd1).
  destruct (apply_event s1 event _ _) as [[s2 applied]|] eqn:Hev; [|done].
  apply apply_event_forward in Hev as [Hc2 _ _ _ _ _ _ _ Hw2 Hd2]. simplify_eq.
  set (s3 := if rs_watermark s2 <? fe_at event then _ else s2).
  assert (H3 : rs_watermark s3 = Z.max (rs_watermark s) (fe_at event) /\ rs_clock s3 = rs_clock s2 /\
    rs_decisions s3 = rs_decisions s2).
  { unfold s3. destruct (Z.ltb_spec (rs_watermark s2) (fe_at event)); cbn; split_and!; done || lia. }
  set (s4 := if rs_clock s3 <? fe_at event then _ else s3).
  assert (H4 : rs_watermark s4 = rs_watermark s3 /\ rs_clock s4 = Z.max (rs_clock s3) (fe_at event) /\
    rs_decisions s4 = rs_decisions s3).
  { unfold s4. destruct (Z.ltb_spec (rs_clock s3) (fe_at event)); [|split_and!; done || lia].
    destruct (refresh_health_frame (s3 <| rs_clock := fe_at event |>)) as (-> & -> & ->).
    cbn. split_and!; done || lia. }
  destruct H3 as (Hw3 & Hc3 & Hd3), H4 as (Hw4 & Hc4 & Hd4).
  destruct (retain_decision_spec (rc_bounds config) s4 (make_decision (rc_bounds config) s4 event applied))
    as (Hw5 & Hc5 & Hd5). rewrite Hd4, Hd3, Hd2, Hd1 in Hd5.
  rewrite Hw5, Hc5. split_and!; [lia|lia|done|done].
Qed.

(** ** What every run maintains *)

(** [always e Q]: whatever the calls do, the result of [e] satisfies [Q]. *)
Definition always {A} (e : IO A) (Q : A -> Prop) : Prop := forall w, Q (e w).1.

Lemma always_ret {A} (x : A) (Q : A -> Prop) : Q x -> always (mret x) Q.
Proof. by intros HQ w. Qed.
Lemma always_then {A B} (e : IO A) (k : A -> IO B) (P : A -> Prop) (Q : B -> Prop) :
  always e P -> (forall x, P x -> always (k x) Q) -> always (io_then e k) Q.
Proof.
  intros He Hk w. unfold io_then, mbind, io_bind. specialize (He w). destruct (e w) as [x w'].
  by apply Hk.
Qed.
Lemma always_true {A} (e : IO A) : always e (fun _ => True).
Proof. done. Qed.

(** The store side of an operation leaves the ingest state alone. *)
Record same_ingest (r r' : FabricRuntime) : Prop := {
  si_config : rt_config r' = rt_config r;
  si_pending : rt_pending r' = rt_pending r;
  si_deliveries : rt_deliveries r' = rt_deliveries r;
  si_closed : rt_closed r' = rt_closed r;
  si_watermark : rs_watermark (rt_state r') = rs_watermark (rt_state r);
  si_clock : rs_clock (rt_state r') = rs_clock (rt_state r);
  si_decisions : rs_decisions (rt_state r') = rs_decisions (rt_state r)
}.
Lemma same_ingest_trans r1 r2 r3 : same_ingest r1 r2 -> same_ingest r2 r3 -> same_ingest r1 r3.
Proof. intros [] []. split; congruence. Qed.
Lemma same_ingest_ok r r' : same_ingest r r' -> ingest_ok r -> ingest_ok r'.
Proof. intros [E1 E2 E3 E4 E5 E6 E7] []. by split; rewrite ?E1, ?E2, ?E3, ?E5. Qed.
Lemma same_ingest_grows r r' : same_ingest r r' -> grows r r'.
Proof. intros [E1 E2 E3 E4 E5 E6 E7]. split; rewrite ?E1, ?E5, ?E6, ?E7; done || lia. Qed.

Lemma checkpoint_locked_same r : always (checkpoint_locked r) (fun res => same_ingest r res.1).
Proof.
  unfold checkpoint_locked. destruct (rt_store r); [|by apply always_ret].
  eapply always_then; [apply always_true|]. intros rotated _. destruct (negb _); by apply always_ret.
Qed.

Lemma journal_event_same r event : always (journal_event r event) (fun res => same_ingest r res.1).
Proof.
  unfold journal_event. destruct (rt_store r); [|by apply always_ret].
  eapply always_then; [apply always_true|]. intros appended _. case_bool_decide.
  - eapply always_then; [apply checkpoint_locked_same|]. intros [r1 rotated] Hr1.
    assert (H1 : same_ingest r r1).
    { eapply same_ingest_trans; [|exact Hr1]. done. }
    destruct (negb _); [by apply always_ret|].
    destruct (rt_store r1); [|by apply always_ret].
    eapply always_then; [apply always_true|]. intros appended' _. apply always_ret. cbn [fst].
    eapply same_ingest_trans; [exact H1|]. by destruct (status_ok _).
  - apply always_ret. cbn [fst]. by destruct (status_ok _).
Qed.

(** How the outcomes of a report are counted. *)
Definition counted (report : BatchReport) : Prop :=
  br_applied report + br_suppressed report + br_refused report = zlen (br_outcomes report).

Lemma counted_outcome report outcome : counted report -> counted (count_outcome report outcome).
Proof.
  unfold counted, count_outcome. intros Hc. destruct (is_informational _); [destruct (eo_applied _)|];
    cbn; rewrite zlen_app; change (zlen [outcome]) with 1; lia.
Qed.
Lemma counted_refused report outcome : counted report -> counted (count_refused report outcome).
Proof. unfold counted, count_refused. intros Hc. cbn. rewrite zlen_app. change (zlen [outcome]) with 1.
lia. Qed.

Lemma count_outcome_outcomes report outcome :
  br_outcomes (count_outcome report outcome) = br_outcomes report ++ [outcome].
Proof. unfold count_outcome. destruct (is_informational _); [by destruct (eo_applied _)|done]. Qed.

Section flush.
Context (config : RuntimeConfig).
Context (Hwindow : 0 < max_duplicate_window (rc_bounds config)).
Context (Hbatch : 0 <= max_batch_events (rc_bounds config)).

(** The loop of [flush] against events up to [upto], with a watermark that started at
    [start]. *)
Definition flushing (start upto : LogicalInstant) (r : FabricRuntime) : Prop :=
  rt_config r = config /\ ingest_ok (r <| rt_pending := [] |>) /\
  rs_watermark (rt_state r) <= Z.max start upto.

Definition reported (start upto : LogicalInstant) (r : FabricRuntime) (events : list FabricEvent)
    (report : BatchReport) (res : option (FabricRuntime * BatchReport)) : Prop :=
  match res with
  | None => True
  | Some (r', report') =>
    flushing start upto r' /\ rt_pending r' = rt_pending r /\ rt_closed r' = rt_closed r /\
    (counted report -> counted report') /\
    eo_id <$> br_outcomes report' = (eo_id <$> br_outcomes report) ++ (fe_id <$> events)
  end.

Lemma outcomes_snoc report report' outcome (event : FabricEvent) :
  br_outcomes report' = br_outcomes report ++ [outcome] -> eo_id outcome = fe_id event ->
  eo_id <$> br_outcomes report' = (eo_id <$> br_outcomes report) ++ (fe_id <$> [event]).
Proof. intros -> Hid. rewrite fmap_app. cbn. by rewrite Hid. Qed.

Lemma apply_released_flushing start upto r event s' deliveries' outcome :
  flushing start upto r -> fe_at event <= upto -> find_delivery (rt_deliveries r) event = None ->
  apply_released (rt_config r) (rt_state r) (rt_deliveries r) event = Some (s', deliveries', outcome) ->
  flushing start upto (r <| rt_state := s' |> <| rt_deliveries := deliveries' |>) /\
  eo_id outcome = fe_id event.
Proof.
  intros (Hcfg & [_ _ H4 H5 H6] & Hw) Hat Hnone Happ. cbn in H4, H5, H6. rewrite Hcfg in *.
  assert (Hid : eo_id outcome = fe_id event).
  { unfold apply_released in Happ. destruct (remember_delivery _ _ _) as [s1 d1].
    destruct (apply_event s1 event _ _) as [[s2 app]|]; [|done]. by simplify_eq. }
  apply apply_released_spec in Happ as (W1 & _ & _ & ->).
  destruct (push_window _ _ event Hwindow (Build_window_ok _ _ H4 H5 H6) Hnone) as [B1 B2 B3].
  split; [|done]. split_and!; [done| |cbn; lia].
  split.
  - by constructor.
  - cbn. by rewrite Hcfg.
  - cbn -[bh_push]. by rewrite Hcfg.
  - cbn -[bh_push]. by rewrite Hcfg.
  - exact B3.
Qed.

Lemma release_event_flushing start upto r report event :
  flushing start upto r -> fe_at event <= upto ->
  always (release_event r report event) (reported start upto r [event] report).
Proof.
  intros Hf Hat. unfold release_event. destruct (find_delivery _ event) as [seen|] eqn:Hfind.
  { apply always_ret. cbn [reported]. split_and!; [done|done|done|apply counted_outcome|].
    eapply outcomes_snoc; [apply count_outcome_outcomes|].
    unfold duplicate_outcome. by case_bool_decide. }
  eapply always_then; [apply journal_event_same|]. intros [r1 appended] Hr1. cbn [fst] in Hr1.
  pose proof Hr1 as [E1 E2 E3 E4 E5 E6 E7]. destruct Hf as (Hcfg & Hok & Hw).
  assert (Hf1 : flushing start upto r1).
  { split_and!; [congruence| |by rewrite E5].
    eapply same_ingest_ok; [|exact Hok]. by split. }
  destruct (negb _).
  { apply always_ret. cbn [reported]. split_and!; [done|done|done|apply counted_refused|].
    by eapply outcomes_snoc. }
  apply always_ret. destruct (apply_released _ _ _ event) as [[[s' d'] outcome]|] eqn:Happ; [|done].
  apply (apply_released_flushing start upto) in Happ as [Hf' Hid]; [|done|done|by rewrite E3].
  cbn [reported]. split_and!; [done|done|done|apply counted_outcome|].
  by eapply outcomes_snoc; [apply count_outcome_outcomes|].
Qed.

Lemma release_events_flushing start upto r report events :
  flushing start upto r -> Forall (fun e => fe_at e <= upto) events ->
  always (release_events r report events) (reported start upto r events report).
Proof.
  intros Hf Hat. revert r report Hf. induction Hat as [|event events Hat _ IH]; intros r report Hf.
  - cbn [release_events]. apply always_ret. cbn [reported]. by rewrite app_nil_r.
  - cbn [release_events]. eapply always_then; [by apply release_event_flushing|].
    intros [[r1 report1]|] H1; [|by apply always_ret]. destruct H1 as (Hf1 & Hp1 & Hc1 & Hcount1 & Hout1).
    intros w. specialize (IH r1 report1 Hf1 w). destruct ((release_events r1 report1 events w).1)
      as [[r2 report2]|]; [|done]. destruct IH as (Hf2 & Hp2 & Hc2 & Hcount2 & Hout2). cbn [reported].
    split_and!; [done|congruence|congruence|auto|]. rewrite Hout2, Hout1, <-app_assoc. done.
Qed.

(** A flush keeps the invariant; its report has one outcome per released event, in the
    order of the events, and counts each of them once. *)
Definition flushed (upto : LogicalInstant) (r : FabricRuntime)
    (res : option (FabricRuntime * Result BatchReport)) : Prop :=
  match res with
  | None => True
  | Some (r', result) =>
    rt_config r' = config /\ ingest_ok r' /\
    match result with
    | Value report =>
      counted report /\
      eo_id <$> br_outcomes report =
        fe_id <$> std_sort event_less (filter (fun e => fe_at e <= upto) (rt_pending r))
    | Failed _ => r' = r
    end
  end.

(** Taking the due events out of the buffer. *)
Lemma flushing_start upto r :
  rt_config r = config -> ingest_ok r ->
  flushing (rs_watermark (rt_state r)) upto (r <| rt_pending := filter (fun e => upto < fe_at e) (rt_pending r) |>).
Proof.
  intros Hcfg [H1 H2 H3 H4 H5]. split_and!; [done| |cbn; lia]. split; try done; cbn. by rewrite Hcfg.
Qed.

Lemma flush_flushed upto r :
  rt_config r = config -> ingest_ok r -> always (flush r upto) (flushed upto r).
Proof.
  intros Hcfg Hok. unfold flush. destruct (rt_closed r); [by apply always_ret|].
  set (released := filter (fun e => fe_at e <= upto) (rt_pending r)).
  set (retained := filter (fun e => upto < fe_at e) (rt_pending r)).
  set (r1 := r <| rt_pending := retained |>).
  pose proof (flushing_start upto r Hcfg Hok) as Hf.
  eapply always_then; [apply release_events_flushing; [exact Hf|]|].
  { apply Forall_std_sort, Forall_forall. intros e. unfold released. rewrite list_elem_of_filter. tauto. }
  intros [[r2 report]|] H2; [|by apply always_ret].
  destruct H2 as ((Hcfg2 & [_ _ I3 I4 I5] & Hw2) & Hp2 & Hc2 & Hcount & Hout).
  apply always_ret. cbn [flushed].
  destruct (refresh_health_frame (rt_state r2)) as (F1 & F2 & F3). cbn in I3, I4, I5.
  split_and!; [done| | |].
  - split; cbn; rewrite ?F1, ?F2, ?F3, ?Hp2; try done.
    + cbn. apply Forall_forall. intros e [Hlate Hin]%list_elem_of_filter.
      pose proof (proj1 (Forall_forall _ _) (ing_late _ Hok) e Hin). cbn in *. lia.
    + rewrite Hcfg2. pose proof (ing_pending _ Hok) as Hle. rewrite Hcfg in Hle.
      etransitivity; [|exact Hle]. unfold zlen. cbn.
      pose proof (length_filter (fun e => upto < fe_at e) (rt_pending r)). unfold retained. lia.
  - unfold counted, finish_report. cbn. by apply Hcount.
  - unfold finish_report. cbn [br_outcomes]. exact Hout.
Qed.
End flush.

(** The loop leaves the staged events alone, and the runtime open. *)
Lemma release_events_keeps r report events w :
  match (release_events r report events w).1 with
  | None => True
  | Some (r', _) => rt_closed r' = rt_closed r /\ rt_pending r' = rt_pending r
  end.
Proof.
  revert r report w. induction events as [|event events IH]; intros r report w; cbn [release_events]; [done|].
  assert (Hstep : always (release_event r report event) (fun res =>
    match res with None => True | Some (r', _) => rt_closed r' = rt_closed r /\ rt_pending r' = rt_pending r end)).
  { unfold release_event. destruct (find_delivery _ event); [by apply always_ret|].
    eapply always_then; [apply journal_event_same|]. intros [r1 appended] [_ Hp _ Hc _ _ _].
    destruct (negb _); apply always_ret; [done|]. by destruct (apply_released _ _ _ event) as [[[s' d'] o]|]. }
  specialize (Hstep w). unfold io_then, mbind, io_bind.
  destruct (release_event r report event w) as [[[r1 report1]|] w1];
    [|done]. specialize (IH r1 report1 w1).
    destruct ((release_events r1 report1 events w1).1) as [[r2 report2]|]; [|done].
  cbn in Hstep. destruct Hstep, IH. split; congruence.
Qed.

(** What a flush leaves staged; it does not close the runtime. *)
Lemma flush_keeps r upto w r' report :
  (flush r upto w).1 = Some (r', Value report) ->
  rt_closed r' = rt_closed r /\ rt_pending r' = filter (fun e => upto < fe_at e) (rt_pending r).
Proof.
  unfold flush. destruct (rt_closed r) eqn:Ho; [done|]. cbn zeta.
  set (r1 := r <| rt_pending := _ |>). unfold io_then at 1, mbind at 1, io_bind at 1.
  pose proof (release_events_keeps r1 (BatchReport_default <| br_upto := upto |>)
    (std_sort event_less (filter (fun e => fe_at e <= upto) (rt_pending r))) w) as Hk.
  destruct (release_events r1 _ _ w) as [[[r2 report2]|] w2]; cbn in *; [|done].
  intros [= <- _]. cbn. by destruct Hk as [-> ->].
Qed.

(** A flush of an open runtime has a report. *)
Lemma flush_answers r upto w r' result :
  rt_closed r = false -> (flush r upto w).1 = Some (r', result) -> exists report, result = Value report.
Proof.
  intros Ho. unfold flush. rewrite Ho. cbn zeta. unfold io_then at 1, mbind at 1, io_bind at 1.
  destruct (release_events _ _ _ w) as [[[r1 report]|] w1]; cbn; [|done]. intros [= _ <-]. by eexists.
Qed.

(** *** Growth *)
Definition grown (r : FabricRuntime) {A} (res : option (FabricRuntime * A)) : Prop :=
  match res with
  | None => True
  | Some (r', _) => grows r r'
  end.

Lemma release_event_grows r report event : always (release_event r report event) (grown r).
Proof.
  unfold release_event. destruct (find_delivery _ event); [apply always_ret; cbn; reflexivity|].
  eapply always_then; [apply journal_event_same|]. intros [r1 appended] Hr1%same_ingest_grows. cbn [fst] in Hr1.
  destruct (negb _); [by apply always_ret|]. apply always_ret.
  destruct (apply_released _ _ _ event) as [[[s' d'] outcome]|] eqn:Happ; [|done].
  apply apply_released_spec in Happ as (Hw & Hc & Hd & _). cbn [grown]. etransitivity; [exact Hr1|].
  split; cbn; [done|lia|lia|exact Hd].
Qed.

Lemma release_events_grows r report events : always (release_events r report events) (grown r).
Proof.
  revert r report. induction events as [|event events IH]; intros r report; cbn [release_events].
  { apply always_ret; cbn; reflexivity. }
  eapply always_then; [apply release_event_grows|]. intros [[r1 report1]|] H1; [|by apply always_ret].
  intros w. specialize (IH r1 report1 w). destruct ((release_events r1 report1 events w).1) as [[r2 report2]|];
    [|done]. cbn in *. by etransitivity.
Qed.

Lemma flush_grows r upto : always (flush r upto) (grown r).
Proof.
  unfold flush. destruct (rt_closed r); [apply always_ret; cbn; reflexivity|]. cbn zeta.
  set (r1 := r <| rt_pending := _ |>).
  eapply always_then; [apply (release_events_grows r1)|]. intros [[r2 report]|] H2; [|by apply always_ret].
  apply always_ret. cbn [grown] in *. destruct H2 as [A B C D].
  destruct (refresh_health_frame (rt_state r2)) as (F1 & F2 & F3).
  split; cbn; rewrite ?F1, ?F2, ?F3; done.
Qed.

(** *** The runtime as a transition system *)
Lemma stage_spec r event :
  (stage r event).1 = r \/
  (exists ledger, (stage r event).1 = r <| rt_state := (rt_state r) <| rs_truncations := ledger |> |>) \/
  ((stage r event).1 = r <| rt_pending := rt_pending r ++ [event] |> /\
   rs_watermark (rt_state r) < fe_at event /\
   zlen (rt_pending r) < max_batch_events (rc_bounds (rt_config r))).
Proof.
  unfold stage. destruct (rt_closed r); [by left|]. destruct (_ || _); [by left|].
  destruct (_ && _); [by left|]. destruct (find_delivery _ _) as [seen|]; [by left|]. right.
  destruct (Z.leb_spec (fe_at event) (rs_watermark (rt_state r))); [left; by eexists|].
  destruct (Z.leb_spec (max_batch_events (rc_bounds (rt_config r))) (zlen (rt_pending r)));
    [left; by eexists|]. by right.
Qed.

Lemma stage_deliveries r event : rt_deliveries (stage r event).1 = rt_deliveries r.
Proof. by destruct (stage_spec r event) as [->|[[ledger ->]|(-> & _)]]. Qed.

Lemma stage_config r event : rt_config (stage r event).1 = rt_config r.
Proof. by destruct (stage_spec r event) as [->|[[ledger ->]|(-> & _)]]. Qed.

Lemma stage_ok r event : ingest_ok r -> ingest_ok (stage r event).1.
Proof.
  intros Hok. destruct (stage_spec r event) as [->|[[ledger ->]|(-> & Hlate & Hroom)]]; [done|by destruct Hok|].
  destruct Hok as [H1 H2 H3 H4 H5]. split; cbn; try done.
  - apply Forall_app. split; [done|]. by apply Forall_singleton.
  - rewrite zlen_app. change (zlen [event]) with 1. lia.
Qed.

Lemma stage_grows r event : grows r (stage r event).1.
Proof. destruct (stage_spec r event) as [->|[[ledger ->]|(-> & _)]]; split; cbn; done || lia. Qed.

Lemma stage_all_grows r events : grows r (stage_all r events).1.1.
Proof.
  revert r. induction events as [|event events IH]; intros r; cbn [stage_all]; [done|].
  pose proof (stage_grows r event) as H1. destruct (stage r event) as [r1 staged]. specialize (IH r1).
  destruct (stage_all r1 events) as [[r2 failures] duplicates]. cbn [fst] in *.
  case_bool_decide; [|destruct (negb _)]; by etransitivity.
Qed.

Lemma submit_grows r events : always (submit r events) (grown r).
Proof.
  unfold submit. destruct (_ <? _); [apply always_ret; cbn; reflexivity|].
  pose proof (stage_all_grows r events) as H1. destruct (stage_all r events) as [[r1 failures] duplicates].
  cbn [fst] in H1. eapply always_then; [apply flush_grows|]. intros flushed H2. apply always_ret.
  destruct flushed as [[r2 [report|status]]|]; cbn [grown] in *; [by etransitivity..|done].
Qed.

Lemma stage_all_ok r events :
  ingest_ok r -> ingest_ok (stage_all r events).1.1 /\ rt_config (stage_all r events).1.1 = rt_config r.
Proof.
  revert r. induction events as [|event events IH]; intros r Hok; cbn [stage_all]; [done|].
  pose proof (stage_ok r event Hok) as H1. pose proof (stage_config r event) as Hc.
  destruct (stage r event) as [r1 staged]. cbn [fst] in *. destruct (IH r1 H1) as [H2 Hc2].
  destruct (stage_all r1 events) as [[r2 failures] duplicates]. cbn [fst] in *.
  case_bool_decide; [|destruct (negb _)]; cbn [fst]; split; congruence || done.
Qed.

Lemma ingest_ok_dropped r : ingest_ok r -> ingest_ok (r <| rt_pending := [] |>).
Proof.
  intros [H1 H2 H3 H4 H5]. split; cbn; try done.
  pose proof (zlen_nonneg (rt_pending r)). change (zlen []) with 0. lia.
Qed.

Lemma close_ok r :
  ingest_ok r -> always (close r) (fun res => rt_config res.1 = rt_config r /\ ingest_ok res.1).
Proof.
  intros Hok. unfold close. destruct (rt_closed r); [by apply always_ret|]. cbn zeta.
  set (r1 := r <| rt_closed := true |>).
  assert (Hok1 : ingest_ok r1) by by destruct Hok.
  destruct (rt_store r1); [|by apply always_ret; split; [|apply ingest_ok_dropped]].
  eapply always_then; [apply checkpoint_locked_same|]. intros [r2 checkpointed] Hr2. cbn [fst] in Hr2.
  pose proof (si_config _ _ Hr2) as Hc2. apply same_ingest_ok in Hr2; [|done].
  destruct (rt_store r2); [|by apply always_ret; split; [|apply ingest_ok_dropped]].
  eapply always_then; [apply always_true|]. intros closed _. apply always_ret.
  split; [done|]. by apply (ingest_ok_dropped (r2 <| rt_store := Some closed.1 |>)); destruct Hr2.
Qed.

Lemma close_grows r : always (close r) (fun res => grows r res.1).
Proof.
  unfold close. destruct (rt_closed r); [by apply always_ret|]. cbn zeta.
  set (r1 := r <| rt_closed := true |>).
  assert (H1 : grows r r1) by (split; cbn; done || lia).
  assert (Hdrop : forall r2 store, grows r r2 -> grows r (r2 <| rt_store := store |> <| rt_pending := [] |>))
    by (intros r2 store [A B C D]; split; cbn; done).
  destruct (rt_store r1) eqn:Hs1; [|by apply always_ret; destruct H1; split].
  eapply always_then; [apply checkpoint_locked_same|]. intros [r2 checkpointed] Hr2%same_ingest_grows.
  cbn [fst] in Hr2. assert (H2 : grows r r2) by by etransitivity.
  destruct (rt_store r2) eqn:Hs2; [|by apply always_ret; destruct H2; split].
  eapply always_then; [apply always_true|]. intros closed _. apply always_ret. by apply Hdrop.
Qed.

(** One operation, whatever the calls it makes do. *)
Inductive runtime_step (r : FabricRuntime) : FabricRuntime -> Prop :=
| StepStage event : runtime_step r (stage r event).1
| StepFlush upto w r' result : (flush r upto w).1 = Some (r', result) -> runtime_step r r'
| StepSubmit events w r' result : (submit r events w).1 = Some (r', result) -> runtime_step r r'
| StepCheckpoint w : runtime_step r (checkpoint r w).1.1
| StepClose w : runtime_step r (close r w).1.1.

Lemma stage_all_steps events r : rtc runtime_step r (stage_all r events).1.1.
Proof.
  revert r. induction events as [|event events IH]; intros r; cbn [stage_all]; [done|].
  pose proof (StepStage r event) as Hstep. destruct (stage r event) as [r1 staged].
  specialize (IH r1). destruct (stage_all r1 events) as [[r2 failures] duplicates]. cbn [fst] in *.
  eapply rtc_l; [exact Hstep|]. case_bool_decide; [exact IH|]. destruct (negb _); exact IH.
Qed.

Lemma runtime_step_grows r r' : runtime_step r r' -> grows r r'.
Proof.
  intros [event|upto w r1 result Hf|events w r1 result Hs|w|w].
  - apply stage_grows.
  - pose proof (flush_grows r upto w) as H. by rewrite Hf in H.
  - pose proof (submit_grows r events w) as H. by rewrite Hs in H.
  - unfold checkpoint. destruct (rt_closed r); [done|]. apply same_ingest_grows, checkpoint_locked_same.
  - apply close_grows.
Qed.

Section steps.
Context (config : RuntimeConfig).
Context (Hwindow : 0 < max_duplicate_window (rc_bounds config)).
Context (Hbatch : 0 <= max_batch_events (rc_bounds config)).

Lemma flush_ok r upto w r' result :
  rt_config r = config -> ingest_ok r -> (flush r upto w).1 = Some (r', result) ->
  rt_config r' = config /\ ingest_ok r'.
Proof.
  intros Hc Hok Hf. pose proof (flush_flushed config Hwindow Hbatch upto r Hc Hok w) as H.
  rewrite Hf in H. by destruct H as (? & ? & _).
Qed.

Lemma runtime_step_ok r r' :
  runtime_step r r' -> rt_config r = config /\ ingest_ok r -> rt_config r' = config /\ ingest_ok r'.
Proof.
  intros Hstep [Hc Hok]. destruct Hstep as [event|upto w r' result Hf|events w r' result Hs|w|w].
  - split; [by rewrite stage_config|by apply stage_ok].
  - by eapply flush_ok.
  - revert Hs. unfold submit. destruct (_ <? _); [by intros [= <- _]|].
    destruct (stage_all_ok r events Hok) as [Hok1 Hc1].
    destruct (stage_all r events) as [[r1 failures] duplicates]. cbn [fst] in *.
    unfold io_then, mbind, io_bind.
    destruct (flush r1 (latest_instant events) w) as [flushed w'] eqn:Hf. cbn.
    assert (Hok2 : forall r2 res, flushed = Some (r2, res) -> rt_config r2 = config /\ ingest_ok r2).
    { intros r2 res ->. apply (flush_ok r1 (latest_instant events) w r2 res); [congruence|done|].
      by rewrite Hf. }
    destruct flushed as [[r2 [report|status]]|]; intros [= <- _]; by eapply Hok2.
  - unfold checkpoint. destruct (rt_closed r); [done|].
    pose proof (checkpoint_locked_same r w) as Hs. split; [by rewrite (si_config _ _ Hs)|].
    exact (same_ingest_ok _ _ Hs Hok).
  - destruct (close_ok r Hok w) as [Hc' Hok']. by split; [rewrite Hc'|].
Qed.

Lemma reachable_ok r r' :
  rtc runtime_step r r' -> rt_config r = config -> ingest_ok r -> ingest_ok r' /\ grows r r'.
Proof.
  intros Hrun. induction Hrun as [r|r1 r2 r3 Hstep _ IH]; intros Hc Hok; [done|].
  destruct (runtime_step_ok r1 r2 Hstep (conj Hc Hok)) as [Hc2 Hok2]. destruct (IH Hc2 Hok2) as [Hok3 Hgrow].
  split; [done|]. etransitivity; [by apply runtime_step_grows|done].
Qed.
End steps.

(** *** What an open leaves *)

(** A runtime that starts on an empty store, or without one. *)
Definition started (config : RuntimeConfig) (store : option Store) : FabricRuntime :=
  publish_digests ((fresh_runtime config) <| rt_store := store |>).

Lemma fresh_window config :
  0 <= max_duplicate_window (rc_bounds config) ->
  rt_deliveries (fresh_runtime config) = mkBoundedHistory [] (max_duplicate_window (rc_bounds config)) 0 0.
Proof.
  intros Hw. unfold fresh_runtime, bh_set_capacity. cbn.
  destruct (Z.ltb_spec (max_duplicate_window (rc_bounds config)) (zlen (@nil DeliveryRecord)));
    [change (zlen _) with 0 in *; lia|done].
Qed.

Lemma started_ok config store :
  0 <= max_batch_events (rc_bounds config) -> 0 <= max_duplicate_window (rc_bounds config) ->
  ingest_ok (started config store).
Proof.
  intros H1 H2. pose proof (fresh_window config H2) as Hd.
  change (rt_deliveries (fresh_runtime config)) with (rt_deliveries (started config store)) in Hd.
  split; rewrite ?Hd; try done. constructor.
Qed.

(** The bounds of a configuration that is not refused; they are unsigned. *)
Lemma config_bounds config :
  config_refusal config = None ->
  max_batch_events (rc_bounds config) <> 0 /\ max_duplicate_window (rc_bounds config) <> 0 /\
  max_decisions_retained (rc_bounds config) <> 0.
Proof.
  unfold config_refusal. destruct (status_ok (bounds_validate (rc_bounds config))) eqn:Hok; [|done].
  intros _. apply bounds_validate_ok in Hok as (Hchecks & Hw & _).
  rewrite Forall_forall in Hchecks. split_and!; [|exact Hw|].
  - refine (proj1 (Hchecks (_, kMaxBatchEventsCeiling, "max_batch_events") _)).
    do 3 apply list_elem_of_further. apply list_elem_of_here.
  - refine (proj1 (Hchecks (_, kMaxDecisionsRetainedCeiling, "max_decisions_retained") _)).
    do 9 apply list_elem_of_further. apply list_elem_of_here.
Qed.

(** A runtime that [open] is building: nothing is staged, and what was not restored or
    replayed is as in the initial state. *)
Record opening (config : RuntimeConfig) (r : FabricRuntime) : Prop := {
  opn_config : rt_config r = config;
  opn_pending : rt_pending r = [];
  opn_window : window_ok (max_duplicate_window (rc_bounds config)) (rt_deliveries r);
  opn_decisions : rsum_recovered_from_store (rt_recovery r) = false -> rs_decisions (rt_state r) = [];
  opn_clock : rsum_recovered_from_store (rt_recovery r) = false ->
              rsum_journal_records_replayed (rt_recovery r) = 0 ->
              rs_watermark (rt_state r) <= rs_clock (rt_state r)
}.

Lemma fresh_opening config : 0 <= max_duplicate_window (rc_bounds config) -> opening config (fresh_runtime config).
Proof. intros Hw. split; rewrite ?(fresh_window config Hw); try done. split; (done || constructor). Qed.

Lemma opening_ok config r :
  0 <= max_batch_events (rc_bounds config) -> opening config r -> ingest_ok r.
Proof.
  intros Hb [Hc Hp [W1 W2 W3] _ _]. split; by rewrite ?Hp, ?Hc.
Qed.

(** What the later steps of [open] keep. *)
Lemma opening_same config r r' :
  same_ingest r r' -> rsum_recovered_from_store (rt_recovery r') = rsum_recovered_from_store (rt_recovery r) ->
  rsum_journal_records_replayed (rt_recovery r') = rsum_journal_records_replayed (rt_recovery r) ->
  opening config r -> opening config r'.
Proof. intros [E1 E2 E3 E4 E5 E6 E7] R1 R2 []. split; rewrite ?E1, ?E2, ?E3, ?E5, ?E6, ?E7, ?R1, ?R2; done. Qed.

Lemma opening_digests config r d1 d2 :
  opening config r -> opening config (r <| rt_state_digest := d1 |> <| rt_durable_digest := d2 |>).
Proof. by intros [A B C D E]. Qed.

Lemma restore_snapshot_opening config r payload r' :
  opening config r -> restore_snapshot r payload = (r', None) -> opening config r'.
Proof.
  intros Hr. unfold restore_snapshot. cbn zeta. case_bool_decide; [by intros [= <-]|].
  destruct (decode_binary _ _ _) as [restored|]; [|done]. destruct (_ && _); [done|]. intros [= <-].
  by destruct Hr as [A B C _ _]; split.
Qed.

Lemma replay_records_opening config watermark records : forall s d n s' d' n' refusal,
  let size := max_duplicate_window (rc_bounds config) in
  0 < size -> window_ok size d -> replay_records config watermark s d n records = Some (s', d', n', refusal) ->
  window_ok size d' /\ rs_decisions s' = rs_decisions s /\ n <= n' /\ (n' = n -> s' = s).
Proof.
  induction records as [|record records IH]; intros s d n s' d' n' refusal size Hsize Hd; cbn [replay_records].
  { by intros [= <- <- <- _]. }
  destruct (decode_binary _ _ _) as [event|]; [|by intros [= <- <- <- _]].
  destruct (_ <=? _); [by apply IH|]. unfold replay_event.
  destruct (find_delivery d event) as [seen|] eqn:Hnone.
  { change (status_ok (Status_make ReasonCode.DuplicateSuppressed "duplicate suppressed during replay"))
      with true. cbn [negb]. intros Hrest. apply IH in Hrest as (H1 & H2 & H3 & _); [|done|done].
    split_and!; [done|done|lia|lia]. }
  destruct (remember_delivery s d event) as [s1 d1] eqn:Hrem.
  apply remember_delivery_spec in Hrem as (-> & _ & _ & Hd1).
  destruct (apply_event s1 event _ _) as [[s2 applied]|] eqn:Hev; [|done].
  apply apply_event_forward in Hev as [_ _ _ _ _ _ _ _ _ Hd2].
  change (status_ok Status_success) with true. cbn [negb]. intros Hrest.
  apply IH in Hrest as (H1 & H2 & H3 & _); [|done|by apply push_window].
  split_and!; [done| |lia|lia]. rewrite H2. destruct (_ <? _); cbn; congruence.
Qed.

Lemma restart_frame config s :
  rs_watermark (restart config s).1 = rs_watermark s /\ rs_clock (restart config s).1 = rs_clock s /\
  rs_decisions (restart config s).1 = rs_decisions s.
Proof. unfold restart, fence_after_recovery. cbn. by destruct (_ <? _). Qed.

Lemma checkpoint_locked_recovery r :
  always (checkpoint_locked r) (fun res => rt_recovery res.1 = rt_recovery r).
Proof.
  unfold checkpoint_locked. destruct (rt_store r); [|by apply always_ret].
  eapply always_then; [apply always_true|]. intros rotated _. destruct (negb _); by apply always_ret.
Qed.

Lemma finish_open_opening config r recovery recovered :
  opening config r -> always (finish_open r recovery recovered) (fun res => opening config res.1).
Proof.
  intros Hr. unfold finish_open. cbn zeta. destruct recovered.
  - pose proof (restart_frame (rt_config r) (rt_state r)) as Hs. destruct (restart _ _) as [s fenced].
    cbn [fst] in Hs. destruct Hs as (H1 & H2 & H3). set (r1 := r <| rt_state := s |> <| rt_recovery := _ |>).
    assert (Hr1 : opening config r1) by (apply (opening_same config r); [by split|done..]).
    apply (always_then _ _ (fun res => opening config res.1)).
    + unfold checkpoint. destruct (rt_closed r1); [by apply always_ret|]. intros w.
      pose proof (checkpoint_locked_recovery r1 w) as Hrec.
      apply (opening_same config r1); [apply checkpoint_locked_same|by rewrite Hrec..|done].
    + intros [r2 checkpointed] H. destruct (negb _); apply always_ret; [done|].
      by apply opening_digests.
  - apply always_ret. apply opening_digests. by apply (opening_same config r).
Qed.

Lemma recover_opening config r recovery payload records w r' :
  0 < max_duplicate_window (rc_bounds config) -> opening config r ->
  rsum_journal_records_replayed (rt_recovery r) = 0 ->
  (recover r recovery payload records w).1 = Some (Value r') -> opening config r'.
Proof.
  intros Hw Hr Hzero. unfold recover. cbn zeta.
  assert (Hnoted : opening config (note_recovery r recovery)) by by apply (opening_same config r).
  destruct (restore_snapshot _ payload) as [restored [status|]] eqn:Hrestore.
  { unfold abandon_open, io_then, mbind, io_bind. by destruct (close restored w). }
  assert (Hcount : rsum_journal_records_replayed (rt_recovery restored) =
    rsum_journal_records_replayed (rt_recovery r)).
  { revert Hrestore. unfold restore_snapshot. cbn zeta. case_bool_decide; [by intros [= <-]|].
    destruct (decode_binary _ _ _); [|done]. destruct (_ && _); [done|]. by intros [= <-]. }
  pose proof (restore_snapshot_opening _ _ _ _ Hnoted Hrestore) as [A B C D E].
  destruct (replay_records _ _ _ _ _ records) as [[[[s d] n] [status|]]|] eqn:Hreplay; [| |done].
  { unfold abandon_open, io_then, mbind, io_bind. by destruct (close _ w). }
  rewrite A in Hreplay. apply replay_records_opening in Hreplay as (H1 & H2 & H3 & H4); [|done|done].
  set (r1 := restored <| rt_state := s |> <| rt_deliveries := d |> <| rt_recovery := _ |>).
  assert (Hr1 : opening config r1).
  { split; [exact A|exact B|exact H1|cbn; by rewrite H2|cbn].
    intros Hnew ->. rewrite (H4 eq_refl). apply E; [exact Hnew|congruence]. }
  pose proof (finish_open_opening config r1 recovery
    (negb (bool_decide (payload = [])) || negb (bool_decide (records = []))) Hr1 w) as Hf.
  unfold io_then, mbind, io_bind.
  destruct (finish_open r1 _ _ w) as [[r2 [status|]] w2];
    [unfold abandon_open, io_then, mbind, io_bind; by destruct (close r2 w2)|].
  cbn. intros [= <-]. exact Hf.
Qed.

Lemma runtime_open_opening config w r :
  0 <= max_duplicate_window (rc_bounds config) -> (runtime_open config w).1 = Some (Value r) ->
  config_refusal config = None /\ opening config r.
Proof.
  intros Hwindow. unfold runtime_open. destruct (config_refusal config) eqn:Hconfig; [done|]. cbn zeta.
  intros Hopen. split; [done|]. apply config_bounds in Hconfig as (_ & Hw & _).
  pose proof (fresh_opening config Hwindow) as Hfresh.
  revert Hopen. destruct (rc_store_directory config) as [directory|].
  2: { intros [= <-]. by apply opening_digests. }
  unfold io_then at 1, mbind at 1, io_bind at 1.
  destruct (store_open _ w) as [[store|status] w1];
    [|unfold abandon_open, io_then, mbind, io_bind; by destruct (close _ w1)].
  unfold io_then at 1, mbind at 1, io_bind at 1. destruct (store_load store w1) as [[store1 loaded] w2].
  destruct (ld_result loaded) as [recovery|status];
    [|unfold abandon_open, io_then, mbind, io_bind; by destruct (close _ w2)].
  apply recover_opening; [lia| |done]. by apply (opening_same config (fresh_runtime config)).
Qed.

(** C4. Whatever store a runtime was opened on, whatever operations are called in whatever
    order, and whatever the operating system does: no staged event is at or before the
    watermark, so events take effect in the order of their instants; the reorder buffer
    and the duplicate window stay within their bounds, and no delivery is remembered
    twice; and the watermark never moves back.  The decision history does not outgrow its
    bound or, when it was longer in the snapshot the runtime started from, what it was
    then; and the watermark does not overtake the clock unless replaying the journal had
    left the clock behind.  A runtime that restored no snapshot keeps to the bound, and one
    that replayed nothing either has its watermark never ahead of its clock. *)
Theorem reachable_ingest_ok config w r0 r :
  let bounds := rc_bounds config in
  0 <= max_batch_events bounds -> 0 <= max_duplicate_window bounds -> 0 <= max_decisions_retained bounds ->
  (runtime_open config w).1 = Some (Value r0) -> rtc runtime_step r0 r ->
  ingest_ok r /\ rs_watermark (rt_state r0) <= rs_watermark (rt_state r) /\
  zlen (rs_decisions (rt_state r)) <= Z.max (max_decisions_retained bounds) (zlen (rs_decisions (rt_state r0))) /\
  (rs_watermark (rt_state r0) <= rs_clock (rt_state r0) ->
   rs_watermark (rt_state r) <= rs_clock (rt_state r)) /\
  (rsum_recovered_from_store (rt_recovery r0) = false ->
   zlen (rs_decisions (rt_state r)) <= max_decisions_retained bounds /\
   (rsum_journal_records_replayed (rt_recovery r0) = 0 ->
    rs_watermark (rt_state r) <= rs_clock (rt_state r))).
Proof.
  intros bounds Hb Hw Hd Hopen Hrun. subst bounds. apply runtime_open_opening in Hopen as [Hconfig Hr0]; [|done].
  apply config_bounds in Hconfig as (_ & Hw1 & Hd1).
  destruct (reachable_ok config ltac:(lia) Hb r0 r Hrun (opn_config _ _ Hr0) (opening_ok _ _ Hb Hr0))
    as [Hok [Hc Hmark Hclock Hdec]].
  rewrite (opn_config _ _ Hr0) in Hdec. specialize (Hdec ltac:(lia)).
  split_and!; [done|done|done|done|]. intros Hnew.
  rewrite (opn_decisions _ _ Hr0 Hnew) in Hdec. change (zlen []) with 0 in Hdec. split; [lia|].
  intros Hnone. by apply Hclock, (opn_clock _ _ Hr0).
Qed.

(** ** The order of arrival *)

Lemma stage_accepted r event p :
  (stage r event).2 = Status_success -> zlen p < max_batch_events (rc_bounds (rt_config r)) ->
  stage (r <| rt_pending := p |>) event = (r <| rt_pending := p ++ [event] |>, Status_success).
Proof.
  unfold stage. cbn [rt_closed rt_deliveries rt_state rt_config rt_pending].
  change (rt_closed (r <| rt_pending := p |>)) with (rt_closed r).
  change (rt_deliveries (r <| rt_pending := p |>)) with (rt_deliveries r).
  change (rt_state (r <| rt_pending := p |>)) with (rt_state r).
  change (rt_config (r <| rt_pending := p |>)) with (rt_config r).
  change (rt_pending (r <| rt_pending := p |>)) with p.
  destruct (rt_closed r); [done|]. destruct (_ || _); [done|]. destruct (_ && _); [done|].
  destruct (find_delivery _ _) as [seen|]; [by case_bool_decide|].
  destruct (_ <=? rs_watermark (rt_state r)); [done|].
  destruct (_ <=? zlen (rt_pending r)); [done|]. intros _ Hp.
  destruct (Z.leb_spec (max_batch_events (rc_bounds (rt_config r))) (zlen p)); [lia|done].
Qed.

(** A batch of acceptable events is staged as a whole. *)
Lemma stage_all_accepted r events p :
  Forall (fun e => (stage r e).2 = Status_success) events ->
  zlen p + zlen events <= max_batch_events (rc_bounds (rt_config r)) ->
  stage_all (r <| rt_pending := p |>) events = (r <| rt_pending := p ++ events |>, [], []).
Proof.
  intros Hacc. revert p. induction Hacc as [|event events He _ IH]; intros p Hroom; cbn [stage_all].
  - by rewrite app_nil_r.
  - rewrite zlen_cons in Hroom. pose proof (zlen_nonneg events).
    rewrite (stage_accepted r event p He) by lia.
    rewrite IH by (rewrite zlen_app; change (zlen [event]) with 1; lia).
    rewrite bool_decide_false by done. change (status_ok Status_success) with true. cbn [negb].
    by rewrite <-app_assoc.
Qed.

Lemma later_instant z (e : FabricEvent) : (if z <? fe_at e then fe_at e else z) = Z.max z (fe_at e).
Proof. destruct (Z.ltb_spec z (fe_at e)); lia. Qed.

Lemma latest_instant_perm events events' :
  events ≡ₚ events' -> latest_instant events = latest_instant events'.
Proof.
  unfold latest_instant. intros Hp. generalize 0. induction Hp; intros z; cbn [foldl]; try done.
  - f_equal. rewrite !later_instant. lia.
  - congruence.
Qed.

Lemma latest_instant_bound events : Forall (fun e => fe_at e <= latest_instant events) events.
Proof.
  unfold latest_instant.
  assert (Hgen : forall l z, z <= foldl (fun upto e => if upto <? fe_at e then fe_at e else upto) z l /\
    Forall (fun e => fe_at e <= foldl (fun upto e => if upto <? fe_at e then fe_at e else upto) z l) l).
  { induction l as [|e l IH]; intros z; cbn [foldl]; [by split; [lia|constructor]|].
    destruct (IH (if z <? fe_at e then fe_at e else z)) as [H1 H2].
    rewrite later_instant in *. split; [lia|constructor; [lia|done]]. }
  apply Hgen.
Qed.

Lemma filter_all {A} (P : A -> Prop) `{forall x, Decision (P x)} l : Forall P l -> filter P l = l.
Proof. induction 1 as [|x l Hx _ IH]; [done|]. by rewrite filter_cons_True, IH. Qed.
Lemma filter_nothing {A} (P : A -> Prop) `{forall x, Decision (P x)} l :
  Forall (fun x => ~ P x) l -> filter P l = [].
Proof. induction 1 as [|x l Hx _ IH]; [done|]. by rewrite filter_cons_False, IH. Qed.

Lemma NoDup_fmap_filter {A B} (f : A -> B) (P : A -> Prop) `{forall x, Decision (P x)} l :
  NoDup (f <$> l) -> NoDup (f <$> filter P l).
Proof.
  induction l as [|x l IH]; [done|]. cbn [fmap list_fmap]. intros [Hx Hl]%NoDup_cons.
  rewrite filter_cons. case_decide; [|by apply IH]. cbn [fmap list_fmap]. constructor; [|by apply IH].
  intros (y & Hy & [_ Hin]%list_elem_of_filter)%list_elem_of_fmap. apply Hx. rewrite Hy.
  by apply list_elem_of_fmap_2.
Qed.

(** What a flush does depends on the set of the events it releases only. *)
Lemma flush_perm r p events events' upto :
  rt_closed r = false -> events ≡ₚ events' -> NoDup (event_key <$> p ++ events) ->
  Forall (fun e => fe_at e <= upto) events ->
  flush (r <| rt_pending := p ++ events |>) upto = flush (r <| rt_pending := p ++ events' |>) upto.
Proof.
  intros Hopen Hp Hnd Hat. unfold flush.
  change (rt_pending (r <| rt_pending := ?l |>)) with l.
  change (rt_closed (r <| rt_pending := ?l |>)) with (rt_closed r).
  rewrite Hopen, !filter_app.
  assert (Hlate : forall l, Forall (fun e => fe_at e <= upto) l ->
    filter (fun e => fe_at e <= upto) l = l /\ filter (fun e => upto < fe_at e) l = []).
  { intros l Hl. split; [by apply filter_all|]. apply filter_nothing.
    eapply Forall_impl; [exact Hl|]. cbn. lia. }
  destruct (Hlate events Hat) as [-> ->], (Hlate events') as [-> ->]; [by rewrite <-Hp|].
  set (due := filter (fun e => fe_at e <= upto) p).
  assert (Hs : std_sort event_less (due ++ events) = std_sort event_less (due ++ events')); [|by rewrite Hs].
  apply (std_sort_perm_eq event_key event_key_less); [by rewrite Hp|].
  rewrite fmap_app in Hnd |- *. apply NoDup_app in Hnd as (H1 & H2 & H3). apply NoDup_app.
  split_and!; [by apply NoDup_fmap_filter| |done]. intros k (e & -> & He)%list_elem_of_fmap. apply H2.
  apply list_elem_of_filter in He as [_ He]. by apply list_elem_of_fmap_2.
Qed.

(** C20. The order in which a batch lists its events does not matter.  Let the events be
    acceptable one by one and the reorder buffer have room for all of them beside what is
    staged already, and let no two of the staged and new events have the same key: then
    every permutation of the batch makes the same calls and leaves the same runtime, the
    same files and the same report.  (Without room the order decides which events the
    full buffer refuses.) *)
Theorem submit_ignores_batch_order r events events' w :
  events ≡ₚ events' -> NoDup (event_key <$> rt_pending r ++ events) ->
  Forall (fun e => (stage r e).2 = Status_success) events ->
  zlen (rt_pending r) + zlen events <= max_batch_events (rc_bounds (rt_config r)) ->
  submit r events w = submit r events' w.
Proof.
  intros Hp Hnd Hacc Hroom. unfold submit.
  assert (Hopen : events = [] \/ rt_closed r = false).
  { destruct Hacc as [|event events1 He _]; [by left|right]. unfold stage in He. by destruct (rt_closed r). }
  destruct Hopen as [->|Hopen]; [by apply Permutation_nil_l in Hp as <-|].
  assert (Hlen : zlen events' = zlen events) by (unfold zlen; by rewrite Hp).
  rewrite Hlen. destruct (Z.ltb_spec (max_batch_events (rc_bounds (rt_config r))) (zlen events)); [done|].
  assert (Hr : r = r <| rt_pending := rt_pending r |>) by by destruct r.
  assert (Hstage : forall l, Forall (fun e => (stage r e).2 = Status_success) l -> zlen l = zlen events ->
    stage_all r l = (r <| rt_pending := rt_pending r ++ l |>, [], [])).
  { intros l Hl Hz. pose proof (stage_all_accepted r l (rt_pending r) Hl ltac:(lia)) as Hs. by rewrite <-Hr in Hs. }
  rewrite (Hstage events), (Hstage events') by (done || by rewrite <-Hp).
  rewrite <-(latest_instant_perm _ _ Hp).
  by rewrite (flush_perm r (rt_pending r) events events') by (try done; apply latest_instant_bound).
Qed.

(** ** Reports *)

(** C28. A flush releases exactly the staged events up to the given instant, in the order
    of their keys, one outcome each; every outcome is counted once, as applied, suppressed
    or refused; the events after that instant stay staged. *)
Theorem flush_reports_every_event r upto w r' report :
  0 <= max_batch_events (rc_bounds (rt_config r)) -> 0 < max_duplicate_window (rc_bounds (rt_config r)) ->
  ingest_ok r -> (flush r upto w).1 = Some (r', Value report) ->
  counted report /\
  eo_id <$> br_outcomes report =
    fe_id <$> std_sort event_less (filter (fun e => fe_at e <= upto) (rt_pending r)) /\
  rt_pending r' = filter (fun e => upto < fe_at e) (rt_pending r).
Proof.
  intros Hb Hw Hok Hf.
  pose proof (flush_flushed (rt_config r) Hw Hb upto r eq_refl Hok w) as H. rewrite Hf in H.
  destruct H as (_ & _ & Hc & Ho). split_and!; [done|done|]. by apply (flush_keeps _ _ _ _ _ Hf).
Qed.

(** ** Duplicate deliveries *)
Definition complete (e : FabricEvent) : Prop :=
  fe_id e <> "" /\ fe_origin e <> "" /\ fe_origin_epoch e <> 0 /\
  (fe_payload_digest e = Digest_zero \/ fe_payload_digest e = compute_payload_digest e).

(** A remembered delivery is found, wherever in the window it is. *)
Lemma find_delivery_remembered size deliveries event d :
  window_ok size deliveries -> d ∈ bh_entries deliveries -> delivery_key d = event_delivery event ->
  find_delivery deliveries event = Some d.
Proof.
  intros [_ _ Honce] Hin Hkey. unfold find_delivery. revert Honce Hin.
  generalize (bh_entries deliveries). induction l as [|seen l IH]; [by intros _ ?%elem_of_nil|].
  cbn [fmap list_fmap find]. intros [Hout Honce]%NoDup_cons Hin.
  destruct (same_delivery event seen) eqn:Hsame.
  - apply same_delivery_key in Hsame. apply elem_of_cons in Hin as [->|Hin]; [done|].
    exfalso. apply Hout. rewrite Hsame, <-Hkey. by apply list_elem_of_fmap_2.
  - apply IH; [done|]. apply elem_of_cons in Hin as [<-|Hin]; [|done].
    by rewrite (proj2 (same_delivery_key event d)) in Hsame.
Qed.

(** Applying an event remembers its delivery, and replaying does. *)
Lemma applied_is_remembered config s deliveries event s' deliveries' outcome :
  0 < bh_capacity deliveries -> zlen (bh_entries deliveries) <= bh_capacity deliveries ->
  apply_released config s deliveries event = Some (s', deliveries', outcome) ->
  delivery_record event ∈ bh_entries deliveries'.
Proof.
  intros Hc Hl (_ & _ & _ & ->)%apply_released_spec.
  destruct (bh_push_spec deliveries (delivery_record event) Hc Hl) as (_ & _ & n & ->). set_solver.
Qed.

(** C30. An event whose delivery is remembered has no second effect.  In an open runtime
    with the ingest invariant, whatever else the window holds and wherever in it the
    delivery is: staging an event of the same origin sequence, with a complete identity and
    no wrong payload digest, leaves the runtime as it is, and so does releasing one that was
    staged before the delivery was remembered, which makes no call and writes nothing; the
    answer is a suppression when the content is the same and a conflict when it is not, and
    the report does not count the event as applied. *)
Theorem redelivery_has_no_effect r event d report w :
  ingest_ok r -> rt_closed r = false -> complete event ->
  d ∈ bh_entries (rt_deliveries r) -> delivery_key d = event_delivery event ->
  let code := if bool_decide (del_digest d = event_digest event) then ReasonCode.DuplicateSuppressed
              else ReasonCode.ConflictingDuplicate in
  (stage r event).1 = r /\ status_code (stage r event).2 = code /\
  exists outcome report', eo_id outcome = fe_id event /\ eo_code outcome = code /\ eo_applied outcome = false /\
    release_event r report event w = (Some (r, report'), w) /\
    br_outcomes report' = br_outcomes report ++ [outcome] /\ br_applied report' = br_applied report.
Proof.
  intros Hok Hopen (H1 & H2 & H3 & H4) Hin Hkey code.
  pose proof (find_delivery_remembered _ (rt_deliveries r) event d
    (Build_window_ok _ _ (ing_capacity _ Hok) (ing_window _ Hok) (ing_once _ Hok)) Hin Hkey) as Hfind.
  unfold release_event, stage. rewrite Hopen, Hfind.
  rewrite (proj2 (id_valid_true (fe_id event)) H1), (proj2 (id_valid_true (fe_origin event)) H2),
    (proj2 (counter_valid_true (fe_origin_epoch event)) H3). cbn [negb orb].
  set (digest_ok := negb _ && negb _). assert (Hdigest : digest_ok = false)
    by (unfold digest_ok; destruct H4 as [H4|H4];
        [rewrite (bool_decide_true (fe_payload_digest event = Digest_zero)) by done
        |rewrite (bool_decide_true (fe_payload_digest event = compute_payload_digest event)) by done];
        by rewrite ?andb_false_r).
  rewrite Hdigest. split; [done|]. split; [unfold code; by case_bool_decide|].
  exists (duplicate_outcome event d), (count_outcome report (duplicate_outcome event d)).
  unfold code, duplicate_outcome, count_outcome. by case_bool_decide; (split_and!).
Qed.

(** ** A concrete run *)
Definition sample_config : RuntimeConfig :=
  RuntimeConfig_default <| rc_store_id := "store-1" |> <| rc_coordinator := "coord" |>
    <| rc_epoch := 1 |> <| rc_boot := 1 |>.
Definition sample_runtime : FabricRuntime := started sample_config None.
Definition stamped (seq : Z) (e : FabricEvent) : FabricEvent :=
  e <| fe_id := "e" +:+ to_string seq |> <| fe_origin := "lab" |> <| fe_origin_epoch := 1 |>
    <| fe_origin_seq := seq |>.
Definition sample_batch : list FabricEvent :=
  [stamped 1 (sample_event 3 (Body_LogicalTimeAdvanced (mkLogicalTimeAdvanced 3)));
   stamped 2 (sample_declared "db"); stamped 3 (sample_declared "web")].
Definition sample_idle : World := mkWorld ∅ [] false [].

Definition sample_staged : FabricRuntime := (stage_all sample_runtime sample_batch).1.1.
Definition sample_flush : FabricRuntime * BatchReport :=
  match (flush sample_staged 2 sample_idle).1 with
  | Some (r, Value report) => (r, report)
  | _ => (sample_runtime, BatchReport_default)
  end.

Lemma sample_staging : rtc runtime_step sample_runtime sample_staged.
Proof. unfold sample_staged. apply stage_all_steps. Qed.

Lemma sample_bounds :
  0 <= max_batch_events (rc_bounds sample_config) /\ 0 < max_duplicate_window (rc_bounds sample_config) /\
  0 < max_decisions_retained (rc_bounds sample_config).
Proof. vm_compute. repeat split; discriminate. Qed.

Lemma sample_staged_ok : ingest_ok sample_staged.
Proof. apply stage_all_ok, started_ok; vm_compute; discriminate. Qed.

(** Evaluated lazily: the digests of the new state are not needed. *)
Lemma sample_flush_eq : (flush sample_staged 2 sample_idle).1 = Some (sample_flush.1, Value sample_flush.2).
Proof.
  assert (Hdone : match (flush sample_staged 2 sample_idle).1 with
                  | Some (_, Value _) => true
                  | _ => false
                  end = true) by (lazy; reflexivity).
  revert Hdone. unfold sample_flush.
  by destruct ((flush sample_staged 2 sample_idle).1) as [[r [report|]]|].
Qed.

(** Two of the three events were due, in the order of their keys. *)
Example sample_flush_outcomes :
  (eo_id <$> br_outcomes sample_flush.2, br_applied sample_flush.2, staged_count sample_flush.1) =
    (["e2"; "e3"], 2, 1).
Proof. lazy. reflexivity. Qed.

Lemma sample_runtime_opened : (runtime_open sample_config sample_idle).1 = Some (Value sample_runtime).
Proof.
  assert (Hconfig : config_refusal sample_config = None) by (vm_compute; reflexivity).
  unfold runtime_open. by rewrite Hconfig.
Qed.

Lemma reachable_ingest_ok_witness :
  let r := sample_flush.1 in let bounds := rc_bounds sample_config in
  ingest_ok r /\ rs_watermark (rt_state sample_runtime) <= rs_watermark (rt_state r) /\
  zlen (rs_decisions (rt_state r)) <= Z.max (max_decisions_retained bounds)
    (zlen (rs_decisions (rt_state sample_runtime))) /\
  (rs_watermark (rt_state sample_runtime) <= rs_clock (rt_state sample_runtime) ->
   rs_watermark (rt_state r) <= rs_clock (rt_state r)) /\
  (rsum_recovered_from_store (rt_recovery sample_runtime) = false ->
   zlen (rs_decisions (rt_state r)) <= max_decisions_retained bounds /\
   (rsum_journal_records_replayed (rt_recovery sample_runtime) = 0 ->
    rs_watermark (rt_state r) <= rs_clock (rt_state r))).
Proof.
  destruct sample_bounds as (H1 & H2 & H3).
  apply (reachable_ingest_ok sample_config sample_idle sample_runtime sample_flush.1 H1
    (Z.lt_le_incl _ _ H2) (Z.lt_le_incl _ _ H3) sample_runtime_opened).
  exact (rtc_r _ sample_staged _ sample_staging
    (StepFlush sample_staged 2 sample_idle sample_flush.1 (Value sample_flush.2) sample_flush_eq)).
Defined.

(** One event is staged already. *)
Definition sample_waiting : FabricRuntime :=
  (stage sample_runtime (stamped 4 (sample_event 9 (Body_LogicalTimeAdvanced (mkLogicalTimeAdvanced 9))))).1.
Lemma submit_ignores_batch_order_witness :
  submit sample_waiting sample_batch sample_idle = submit sample_waiting (reverse sample_batch) sample_idle.
Proof.
  apply (submit_ignores_batch_order sample_waiting sample_batch (reverse sample_batch) sample_idle).
  - symmetry. apply reverse_Permutation.
  - apply (bool_decide_unpack _). vm_compute. exact I.
  - unfold sample_batch. repeat apply Forall_cons_2; [vm_compute; reflexivity..|apply Forall_nil_2].
  - vm_compute. discriminate.
Defined.

Lemma flush_reports_every_event_witness :
  counted sample_flush.2 /\
  eo_id <$> br_outcomes sample_flush.2 =
    fe_id <$> std_sort event_less (filter (fun e => fe_at e <= 2) (rt_pending sample_staged)) /\
  rt_pending sample_flush.1 = filter (fun e => 2 < fe_at e) (rt_pending sample_staged).
Proof.
  destruct sample_bounds as (H1 & H2 & H3).
  exact (flush_reports_every_event sample_staged 2 sample_idle sample_flush.1 sample_flush.2 H1 H2
    sample_staged_ok sample_flush_eq).
Defined.

Definition sample_applied : RuntimeState * BoundedHistory DeliveryRecord * EventOutcome :=
  default (rt_state sample_runtime, rt_deliveries sample_runtime, EventOutcome_default)
    (apply_released sample_config (rt_state sample_runtime) (rt_deliveries sample_runtime)
       (stamped 2 (sample_declared "db"))).

(** The window remembers two deliveries; the first of them comes again. *)
Definition sample_remembering : FabricRuntime :=
  mkFabricRuntime sample_config RecoverySummary_default (rt_state sample_runtime) []
    (mkBoundedHistory [delivery_record (stamped 2 (sample_declared "db"));
                       delivery_record (stamped 3 (sample_declared "web"))]
       (max_duplicate_window RuntimeBounds_default) 0 0)
    None false Digest_zero Digest_zero.

Lemma redelivery_has_no_effect_witness :
  let event := stamped 2 (sample_declared "web") in
  let d := delivery_record (stamped 2 (sample_declared "db")) in
  let code := if bool_decide (del_digest d = event_digest event) then ReasonCode.DuplicateSuppressed
              else ReasonCode.ConflictingDuplicate in
  (stage sample_remembering event).1 = sample_remembering /\
  status_code (stage sample_remembering event).2 = code /\
  exists outcome report', eo_id outcome = fe_id event /\ eo_code outcome = code /\ eo_applied outcome = false /\
    release_event sample_remembering BatchReport_default event sample_idle =
      (Some (sample_remembering, report'), sample_idle) /\
    br_outcomes report' = br_outcomes BatchReport_default ++ [outcome] /\
    br_applied report' = br_applied BatchReport_default.
Proof.
  apply (redelivery_has_no_effect sample_remembering (stamped 2 (sample_declared "web"))
    (delivery_record (stamped 2 (sample_declared "db"))) BatchReport_default sample_idle).
  - split; vm_compute.
    1: constructor.
    1: discriminate.
    1: reflexivity.
    1: discriminate.
    apply (bool_decide_unpack _). vm_compute. exact I.
  - reflexivity.
  - split_and!; [done|done|done|by left].
  - apply list_elem_of_here.
  - reflexivity.
Defined.
