(* ===== verification/Concurrent.v ===== *)
(** * Concurrent submits

    [FabricRuntime::submit] of [src/engine/runtime.cpp] does not hold the mutex: every
    [stage] and the [flush] lock it for themselves, so the workers of the server interleave
    at those points.  A [Submission] is what one call of [submit] has in its local
    variables, [take_turn] runs it to its next unlock, and a schedule says whose turn it
    is.  Alone, a submission is [Runtime.submit]; together, they report every event once,
    though not always to the caller who brought it, and apply each delivery once. *)

From S2P Require Import Prelude Std Reason Types Version Resources Bounded Digest Json JsonArchive Archive Model.
From S2P Require Import Codec Authority Planner State Reducers Intent Scenario Lifecycle Store Runtime Ingest.
#[local] Open Scope Z_scope.

(** ** One call of [submit] between two locks *)
Record Submission := mkSubmission {
  sub_todo : list FabricEvent;
  sub_upto : LogicalInstant;
  sub_failures : list EventOutcome;
  sub_duplicates : list EventOutcome;
  sub_result : option (Result BatchReport)
}.
#[export] Instance eta_Submission : Settable Submission := fun c =>
  mkSubmission (sub_todo c) (sub_upto c) (sub_failures c) (sub_duplicates c) (sub_result c).

(** The entry of the call: the size of the batch is checked without the mutex. *)
Definition submission (config : RuntimeConfig) (events : list FabricEvent) : Submission :=
  mkSubmission events 0 [] []
    (if max_batch_events (rc_bounds config) <? zlen events then
       Some (Failed (refuse ReasonCode.BatchTooLarge "batch exceeds the configured bound"))
     else None).

(** One pass of the loop: what it keeps of the event it staged. *)
Definition note_staged (c : Submission) (event : FabricEvent) (staged : Status) : Submission :=
  if bool_decide (status_code staged = ReasonCode.DuplicateSuppressed) then
    c <| sub_duplicates := sub_duplicates c ++ [stage_outcome event staged] |>
  else if negb (status_ok staged) then
    c <| sub_failures := sub_failures c ++ [stage_outcome event staged] |>
  else c.

(** Up to the next unlock: an event is staged, or everything is flushed and the call
    returns. *)
Definition take_turn (r : FabricRuntime) (c : Submission) : IO (option (FabricRuntime * Submission)) :=
  match sub_result c, sub_todo c with
  | Some _, _ => mret (Some (r, c))
  | None, event :: todo =>
    let c := c <| sub_todo := todo |>
               <| sub_upto := if sub_upto c <? fe_at event then fe_at event else sub_upto c |> in
    let '(r, staged) := stage r event in
    mret (Some (r, note_staged c event staged))
  | None, [] =>
    let* flushed := flush r (sub_upto c) in
    mret (match flushed with
    | None => None
    | Some (r, Failed status) => Some (r, c <| sub_result := Some (Failed status) |>)
    | Some (r, Value report) =>
      Some (r, c <| sub_result := Some (Value (merge_report report (sub_failures c) (sub_duplicates c))) |>)
    end)
  end.

(** Several calls in progress, one turn each time the schedule names them. *)
Fixpoint run_turns (turns : list nat) (r : FabricRuntime) (cs : list Submission)
  : IO (option (FabricRuntime * list Submission)) :=
  match turns with
  | [] => mret (Some (r, cs))
  | i :: turns =>
    match cs !! i with
    | None => run_turns turns r cs
    | Some c =>
      let* turn := take_turn r c in
      match turn with
      | None => mret None
      | Some (r, c) => run_turns turns r (<[i := c]> cs)
      end
    end
  end.

(** ** Where the program has a result *)

(** Every event but a rollback without a target. *)
Definition event_defined (event : FabricEvent) : bool :=
  match fe_body event with
  | Body_IntentSubmitted body =>
    negb (bool_decide (int_kind (isub_intent body) = IntentKind.Rollback)) ||
    bool_decide (is_Some (int_rollback_target (isub_intent body)))
  | _ => true
  end.

Lemma apply_event_defined s event bounds weights :
  event_defined event = true -> is_Some (apply_event s event bounds weights).
Proof.
  unfold event_defined, apply_event. destruct (fe_body event); try (intros _; by eexists). unfold reduce_intent.
  destruct (find_group _ _) as [group|]; [|intros _; by eexists].
  destruct (intent_gate _ _); [intros _; by eexists|].
  unfold intended_plan.
  destruct (int_kind _); cbn; try (intros _; destruct (deploy_plan _ _ _ _ _ _); by eexists).
  - intros _. destruct (withdraw_plan _ _ _ _); by eexists.
  - destruct (int_rollback_target _) as [target|]; [|done]. intros _. cbn.
    destruct (rollback_plan _ _ _ _); by eexists.
Qed.

(** What a call returns, if it returns: the computations of [is_Some] under [IO]. *)
Lemma io_bind_defined {A B} (e : IO A) (k : A -> IO (option B)) w :
  (forall x w1, e w = (x, w1) -> is_Some (k x w1).1) -> is_Some (io_then e k w).1.
Proof. intros H. unfold io_then, mbind, io_bind. destruct (e w) as [x w1]. by apply H. Qed.

Lemma release_event_defined r report event w :
  event_defined event = true -> is_Some (release_event r report event w).1.
Proof.
  intros Hd. unfold release_event. destruct (find_delivery _ event); [by eexists|].
  apply io_bind_defined. intros [r1 appended] w1 _. destruct (negb _); [by eexists|]. cbn.
  unfold apply_released. destruct (remember_delivery _ _ _) as [s d].
  destruct (apply_event_defined s event (rc_bounds (rt_config r1)) (rc_weights (rt_config r1)) Hd)
    as [[s1 applied] ->]. by eexists.
Qed.

Lemma release_events_defined r report events w :
  Forall (fun e => event_defined e = true) events -> is_Some (release_events r report events w).1.
Proof.
  intros Hd. revert r report w. induction Hd as [|event events Hd _ IH]; intros r report w;
    cbn [release_events];
    [by eexists|].
  apply io_bind_defined. intros res w1 Hres.
  destruct (release_event_defined r report event w Hd) as [[r1 report1] H1].
  rewrite Hres in H1. cbn in H1. subst res. apply IH.
Qed.

Lemma flush_defined r upto w :
  Forall (fun e => event_defined e = true) (rt_pending r) -> is_Some (flush r upto w).1.
Proof.
  intros Hd. unfold flush. destruct (rt_closed r); [by eexists|]. cbn zeta.
  apply io_bind_defined. intros res w1 Hres.
  edestruct release_events_defined as [[r1 report] H1].
  2: { rewrite Hres in H1. cbn in H1. subst res. by eexists. }
  apply Forall_std_sort, Forall_forall. intros e [_ Hin]%list_elem_of_filter.
  by eapply Forall_forall in Hd.
Qed.

(** ** Alone, a submission is [submit] *)
Definition results_of (res : option (FabricRuntime * list Submission))
  : option (FabricRuntime * list (option (Result BatchReport))) :=
  match res with
  | None => None
  | Some (r, cs) => Some (r, sub_result <$> (cs : list Submission))
  end.

Lemma run_alone r c w : sub_result c = None ->
  let '(r1, failures, duplicates) := stage_all r (sub_todo c) in
  let upto := foldl (fun upto e => if upto <? fe_at e then fe_at e else upto) (sub_upto c) (sub_todo c) in
  let '(flushed, w') := flush r1 upto w in
  let '(ran, w1) := run_turns (replicate (S (length (sub_todo c))) 0%nat) r [c] w in
  results_of ran = match flushed with
    | None => None
    | Some (r2, Failed status) => Some (r2, [Some (Failed status)])
    | Some (r2, Value report) =>
      Some (r2, [Some (Value (merge_report report (sub_failures c ++ failures) (sub_duplicates c ++ duplicates)))])
    end /\ w1 = w'.
Proof.
  remember (sub_todo c) as todo eqn:Htodo. revert r c w Htodo.
  induction todo as [|event todo IH]; intros r c w Htodo Hopen.
  - cbn [stage_all foldl length replicate run_turns]. cbn [lookup list_lookup].
    unfold take_turn. rewrite Hopen, <-Htodo. unfold io_then, mbind, io_bind.
    destruct (flush r (sub_upto c) w) as [[[r2 [report|status]]|] w']; cbn; by rewrite ?app_nil_r.
  - cbn [stage_all foldl length]. rewrite replicate_S. cbn [run_turns lookup list_lookup].
    unfold take_turn at 1. rewrite Hopen, <-Htodo.
    destruct (stage r event) as [r1 staged] eqn:Hstage.
    set (c1 := note_staged _ event staged).
    assert (H1 : sub_todo c1 = todo /\ sub_result c1 = None /\
      sub_upto c1 = (if sub_upto c <? fe_at event then fe_at event else sub_upto c) /\
      sub_failures c1 = sub_failures c ++
        (if bool_decide (status_code staged = ReasonCode.DuplicateSuppressed) then []
         else if negb (status_ok staged) then [stage_outcome event staged] else []) /\
      sub_duplicates c1 = sub_duplicates c ++
        (if bool_decide (status_code staged = ReasonCode.DuplicateSuppressed) then [stage_outcome event staged] else [])).
    { unfold c1, note_staged. case_bool_decide; [|destruct (negb _)]; cbn; rewrite ?app_nil_r; done. }
    destruct H1 as (Htodo1 & Hopen1 & Hupto1 & Hf1 & Hd1).
    specialize (IH r1 c1 w (eq_sym Htodo1) Hopen1). rewrite Hupto1, Hf1, Hd1 in IH.
    unfold io_then at 1, mbind at 1, io_bind at 1. cbn [mret io_ret].
    destruct (stage_all r1 todo) as [[r2 failures] duplicates].
    cbn [list_insert insert].
    case_bool_decide; [|destruct (negb _)]; rewrite <-?(assoc_L (++)), ?app_nil_r in IH; exact IH.
Qed.

(** A call nobody interrupts, one turn per event and one for the flush, is [submit]. *)
Theorem submit_is_its_turns r events w :
  zlen events <= max_batch_events (rc_bounds (rt_config r)) ->
  let '(ran, w1) := run_turns (replicate (S (length events)) 0%nat) r [submission (rt_config r) events] w in
  let '(res, w') := submit r events w in
  results_of ran = match res with
    | None => None
    | Some (r', result) => Some (r', [Some result])
    end /\ w1 = w'.
Proof.
  intros Hsize. pose proof (run_alone r (submission (rt_config r) events) w) as H.
  unfold submission, submit in *. destruct (Z.ltb_spec (max_batch_events (rc_bounds (rt_config r))) (zlen events)); [lia|].
  specialize (H eq_refl). cbn [sub_todo sub_upto sub_failures sub_duplicates] in H.
  destruct (stage_all r events) as [[r1 failures] duplicates]. unfold latest_instant.
  unfold io_then, mbind, io_bind. destruct (flush r1 _ w) as [[[r2 [report|status]]|] w']; exact H.
Qed.

(** ** Together, they report every event once *)

(** What a submission has reported, and what it has not staged yet. *)
Definition outcomes_of (c : Submission) : list string :=
  match sub_result c with
  | Some (Value report) => eo_id <$> br_outcomes report
  | Some (Failed _) => []
  | None => eo_id <$> (sub_failures c ++ sub_duplicates c)
  end.
Definition owed (c : Submission) : list string := outcomes_of c ++ (fe_id <$> sub_todo c).

(** A submission that has not failed, and has flushed only when it had staged all. *)
Definition sub_ok (c : Submission) : Prop :=
  Forall (fun e => event_defined e = true) (sub_todo c) /\
  match sub_result c with
  | None => True
  | Some (Value _) => sub_todo c = []
  | Some (Failed _) => False
  end.

(** How many turns it still needs. *)
Definition turns_left (c : Submission) : nat :=
  match sub_result c with None => S (length (sub_todo c)) | Some _ => 0 end.

Lemma merge_report_outcomes report failures duplicates :
  br_outcomes (merge_report report failures duplicates) ≡ₚ br_outcomes report ++ duplicates ++ failures.
Proof.
  unfold merge_report. cbn. destruct (_ && _); cbn; [done|]. apply std_sort_perm.
Qed.

(** The clock, the watermark and the history, under every schedule. *)
Lemma take_turn_grows r c : always (take_turn r c) (grown r).
Proof.
  unfold take_turn. destruct (sub_result c); [apply always_ret; cbn; reflexivity|].
  destruct (sub_todo c) as [|event todo].
  - eapply always_then; [apply flush_grows|]. intros [[r1 [report|status]]|] H1; apply always_ret; exact H1.
  - pose proof (stage_grows r event) as H1. destruct (stage r event) as [r1 staged]. by apply always_ret.
Qed.

Lemma run_turns_grows turns r cs : always (run_turns turns r cs) (grown r).
Proof.
  revert r cs. induction turns as [|i turns IH]; intros r cs; cbn [run_turns].
  { apply always_ret. cbn. reflexivity. }
  destruct (cs !! i) as [c|]; [|apply IH].
  eapply always_then; [apply take_turn_grows|]. intros [[r1 c1]|] H1; [|by apply always_ret].
  intros w. specialize (IH r1 (<[i := c1]> cs) w).
  destruct ((run_turns turns r1 (<[i := c1]> cs) w).1) as [[r2 cs2]|]; [|done].
  cbn in *. by etransitivity.
Qed.

Section submissions.
Context (config : RuntimeConfig).
Context (Hwindow : 0 < max_duplicate_window (rc_bounds config)).
Context (Hbatch : 0 <= max_batch_events (rc_bounds config)).

(** A running runtime whose staged events all have an outcome. *)
Record taking_turns (r : FabricRuntime) : Prop := {
  rdy_config : rt_config r = config;
  rdy_ok : ingest_ok r;
  rdy_open : rt_closed r = false;
  rdy_defined : Forall (fun e => event_defined e = true) (rt_pending r)
}.

(** One turn: nothing is lost or reported twice, and what stays staged either was there
    before and is later than a flush, or is covered by the flush still to come. *)
Record turn_taken (r : FabricRuntime) (c : Submission) (r' : FabricRuntime) (c' : Submission) : Prop := {
  tt_ready : taking_turns r';
  tt_ok : sub_ok c';
  tt_left : turns_left c' = pred (turns_left c);
  tt_owed : owed c' ++ (fe_id <$> rt_pending r') ≡ₚ owed c ++ (fe_id <$> rt_pending r);
  tt_upto : sub_upto c <= sub_upto c';
  tt_staged e : e ∈ rt_pending r' ->
    (e ∈ rt_pending r /\ (sub_result c = None -> sub_result c' <> None -> sub_upto c < fe_at e)) \/
    (sub_result c' = None /\ fe_at e <= sub_upto c')
}.

Lemma stage_ready r event :
  taking_turns r -> event_defined event = true ->
  let '(r', staged) := stage r event in
  taking_turns r' /\
  (rt_pending r' = rt_pending r ++ [event] /\ staged = Status_success \/
   rt_pending r' = rt_pending r /\
   (status_code staged = ReasonCode.DuplicateSuppressed \/ status_ok staged = false)).
Proof.
  intros [Hc Hok Ho Hd] He.
  pose proof (stage_config r event) as Hconfig. pose proof (stage_ok r event Hok) as Hok'. revert Hconfig Hok'.
  unfold stage. rewrite Ho. destruct (_ || _); [intros ??; split; [by split|right; by split; [|right]]|].
  destruct (_ && _); [intros ??; split; [by split|right; by split; [|right]]|].
  destruct (find_delivery _ _) as [seen|].
  { intros ??. split; [by split|]. right. split; [done|]. case_bool_decide; [by left|by right]. }
  destruct (_ <=? _); [intros ??; split; [by split|right; by split; [|right]]|].
  destruct (_ <=? _); [intros ??; split; [by split|right; by split; [|right]]|].
  intros ??. split; [|by left]. split; [by rewrite <-Hc|done|done|].
  apply Forall_app. by split; [|apply Forall_singleton].
Qed.

Lemma stage_turn r c event todo :
  taking_turns r -> sub_ok c -> sub_result c = None -> sub_todo c = event :: todo ->
  let c1 := c <| sub_todo := todo |>
              <| sub_upto := if sub_upto c <? fe_at event then fe_at event else sub_upto c |> in
  let '(r', staged) := stage r event in turn_taken r c r' (note_staged c1 event staged).
Proof.
  intros Hr [Hd Hok] Hopen Htodo c1. rewrite Htodo in Hd. apply Forall_cons_1 in Hd as [He Hd].
  pose proof (stage_ready r event Hr He) as Hstage. destruct (stage r event) as [r' staged].
  destruct Hstage as [Hr' Hstage].
  assert (Hupto : sub_upto c <= sub_upto c1 /\ fe_at event <= sub_upto c1).
  { cbn. destruct (Z.ltb_spec (sub_upto c) (fe_at event)); lia. }
  set (c' := note_staged c1 event staged).
  assert (Hc' : sub_result c' = None /\ sub_todo c' = todo /\ sub_upto c' = sub_upto c1).
  { unfold c', note_staged. case_bool_decide; [|destruct (negb _)]; cbn; done. }
  destruct Hc' as (Hres & Htodo' & Hupto'). split; [done| | | |lia|].
  - split; [by rewrite Htodo'|by rewrite Hres].
  - unfold turns_left. by rewrite Hres, Hopen, Htodo, Htodo'.
  - unfold owed, outcomes_of. rewrite Hres, Hopen, Htodo, Htodo'. cbn [fmap list_fmap].
    destruct Hstage as [(-> & ->)|(-> & Hrefused)].
    + change c' with c1. rewrite !fmap_app. cbn. solve_Permutation.
    + assert (Hnew : sub_failures c' ++ sub_duplicates c' ≡ₚ
        stage_outcome event staged :: sub_failures c ++ sub_duplicates c).
      { unfold c', note_staged. case_bool_decide as Hcode; [cbn; solve_Permutation|].
        destruct Hrefused as [Hdup| Hfail]; [done|]. rewrite Hfail. cbn. solve_Permutation. }
      rewrite Hnew. cbn. solve_Permutation.
  - intros e Hin. destruct Hstage as [(Hp & _)|(Hp & _)]; rewrite Hp in Hin.
    + apply elem_of_app in Hin as [Hin| ->%list_elem_of_singleton]; [by left; split|].
      right. split; [done|]. rewrite Hupto'. apply Hupto.
    + by left; split.
Qed.

(** The staged events on either side of an instant. *)
Lemma filter_split (upto : LogicalInstant) (events : list FabricEvent) :
  filter (fun e => fe_at e <= upto) events ++ filter (fun e => upto < fe_at e) events ≡ₚ events.
Proof.
  induction events as [|e events IH]; [done|]. rewrite !filter_cons.
  do 2 case_decide; try lia; cbn; rewrite <-?Permutation_middle, IH; done.
Qed.

Lemma flush_turn r c r1 report w :
  taking_turns r -> sub_ok c -> sub_result c = None -> sub_todo c = [] ->
  (flush r (sub_upto c) w).1 = Some (r1, Value report) ->
  turn_taken r c r1 (c <| sub_result := Some (Value (merge_report report (sub_failures c) (sub_duplicates c))) |>).
Proof.
  intros [Hc Hok Ho Hd] Hc_ok Hopen Htodo Hflush.
  pose proof (flush_flushed config Hwindow Hbatch (sub_upto c) r Hc Hok w) as Hf.
  rewrite Hflush in Hf. destruct Hf as (Hc1 & Hok1 & _ & Hout).
  pose proof (flush_keeps r (sub_upto c) w r1 report Hflush) as (Hclosed & Hp).
  pose proof (merge_report_outcomes report (sub_failures c) (sub_duplicates c)) as Hmerge.
  set (merged := merge_report _ _ _) in *. clearbody merged.
  assert (Hd1 : Forall (fun e => event_defined e = true) (rt_pending r1)).
  { rewrite Hp. apply Forall_forall. intros e [_ Hin]%list_elem_of_filter. by eapply Forall_forall in Hd. }
  split.
  - split; [done|done|congruence|done].
  - split; [by cbn; rewrite Htodo|done].
  - unfold turns_left. by rewrite Hopen, Htodo.
  - unfold owed, outcomes_of. cbn [sub_result sub_todo set]. rewrite Hopen. cbn.
    rewrite Hmerge, Htodo, Hp, !fmap_app, Hout, std_sort_perm.
    rewrite <-(filter_split (sub_upto c) (rt_pending r)) at 3. rewrite fmap_app. cbn. solve_Permutation.
  - done.
  - intros e Hin. left. rewrite Hp in Hin. apply list_elem_of_filter in Hin as [Hlt Hin]. done.
Qed.

Lemma take_turn_taken r c w :
  taking_turns r -> sub_ok c ->
  exists r' c', (take_turn r c w).1 = Some (r', c') /\ turn_taken r c r' c'.
Proof.
  intros Hr Hc. unfold take_turn. destruct (sub_result c) as [result|] eqn:Hres.
  { exists r, c. split; [done|]. split; try done.
    - unfold turns_left. by rewrite Hres.
    - intros e Hin. left. split; [done|]. by rewrite Hres. }
  destruct (sub_todo c) as [|event todo] eqn:Htodo.
  - destruct (flush_defined r (sub_upto c) w (rdy_defined _ Hr)) as [[r1 result] Hflush].
    unfold io_then, mbind, io_bind. pose proof (flush_turn r c r1) as Hturn.
    pose proof (rdy_open _ Hr) as Hopen. pose proof (flush_answers r (sub_upto c) w r1 result Hopen Hflush) as [report ->].
    specialize (Hturn report w Hr Hc Hres Htodo Hflush). revert Hflush.
    destruct (flush r (sub_upto c) w) as [res w1]. cbn. intros ->. by do 2 eexists.
  - pose proof (stage_turn r c event todo Hr Hc Hres Htodo) as Hturn. cbn zeta in Hturn.
    destruct (stage r event) as [r' staged]. by do 2 eexists.
Qed.

(** All submissions together: [before] was staged before they began, [total] is what has
    to be reported. *)
Record together (before : list FabricEvent) (total : list string) (r : FabricRuntime)
    (cs : list Submission) : Prop := {
  tg_ready : taking_turns r;
  tg_ok : Forall sub_ok cs;
  tg_owed : (cs ≫= owed) ++ (fe_id <$> rt_pending r) ≡ₚ total;
  tg_staged e : e ∈ rt_pending r ->
    e ∈ before \/ exists c, c ∈ cs /\ sub_result c = None /\ fe_at e <= sub_upto c
}.

(** Replacing an element, as a multiset. *)
Lemma replace_perm {A} (l : list A) (i : nat) x y :
  l !! i = Some x -> exists rest, l ≡ₚ x :: rest /\ <[i:=y]> l ≡ₚ y :: rest.
Proof.
  intros Hi. exists (take i l ++ drop (S i) l). split.
  - rewrite <-(take_drop_middle l i x Hi) at 1. by rewrite Permutation_middle.
  - rewrite insert_take_drop by by eapply lookup_lt_Some. by rewrite Permutation_middle.
Qed.

Lemma together_turn before total r cs i c r' c' :
  together before total r cs -> cs !! i = Some c -> turn_taken r c r' c' ->
  together before total r' (<[i := c']> cs).
Proof.
  intros [Hr Hok Howed Hstaged] Hi [Hr' Hok' _ Howed' Hupto Hstaged'].
  destruct (replace_perm cs i c c' Hi) as (rest & Hcs & Hcs'). split.
  - done.
  - rewrite Hcs'. rewrite Hcs in Hok. apply Forall_cons in Hok as [_ Hrest]. by apply Forall_cons.
  - rewrite Hcs'. rewrite Hcs in Howed. cbn in *.
    rewrite <-Howed, <-!(assoc_L (++)), (comm (++) (rest ≫= owed)).
    rewrite (assoc_L (++) (owed c')), Howed'. solve_Permutation.
  - intros e Hin. destruct (Hstaged' e Hin) as [[Hin0 Hlate]|[Hopen Hat]].
    + destruct (Hstaged e Hin0) as [?|(d & Hd & Hopen & Hat)]; [by left|]. right.
      rewrite Hcs in Hd. apply elem_of_cons in Hd as [Hd|Hd].
      * subst d. destruct (sub_result c') as [result|] eqn:Hres; [specialize (Hlate Hopen ltac:(done)); lia|].
        exists c'. rewrite Hcs'. split; [by left|]. split; [done|lia].
      * exists d. rewrite Hcs'. split; [by right|]. done.
    + right. exists c'. rewrite Hcs'. split; [by left|done].
Qed.

Lemma run_turns_together before total turns r cs w :
  together before total r cs ->
  exists r' cs', (run_turns turns r cs w).1 = Some (r', cs') /\ together before total r' cs' /\
    forall i, turns_left <$> cs' !! i = (fun c => turns_left c - count_occ Nat.eq_dec turns i)%nat <$> cs !! i.
Proof.
  revert r cs w. induction turns as [|i turns IH]; intros r cs w Ht; cbn [run_turns count_occ].
  { exists r, cs. split_and!; [done|done|]. intros i. destruct (cs !! i); [|done]. cbn.
    by rewrite Nat.sub_0_r. }
  destruct (cs !! i) as [c|] eqn:Hi.
  - pose proof (tg_ok _ _ _ _ Ht) as Hok. pose proof (proj1 (Forall_lookup _ _) Hok i c Hi) as Hc.
    destruct (take_turn_taken r c w (tg_ready _ _ _ _ Ht) Hc) as (r1 & c1 & Hturn & Htaken).
    unfold io_then, mbind, io_bind. destruct (take_turn r c w) as [res w1]. cbn in Hturn. subst res.
    destruct (IH r1 (<[i:=c1]> cs) w1 (together_turn _ _ _ _ _ _ _ _ Ht Hi Htaken)) as (r' & cs' & Hrun & Ht' & Hleft).
    exists r', cs'. split_and!; [done|done|]. intros j. rewrite Hleft. destruct (Nat.eq_dec i j) as [<-|Hij].
    + rewrite list_lookup_insert_eq, Hi by by eapply lookup_lt_Some. cbn. rewrite (tt_left _ _ _ _ Htaken).
      f_equal. lia.
    + by rewrite list_lookup_insert_ne.
  - destruct (IH r cs w Ht) as (r' & cs' & Hrun & Ht' & Hleft). exists r', cs'. split_and!; [done|done|].
    intros j. rewrite Hleft. destruct (Nat.eq_dec i j) as [<-|Hij]; [by rewrite Hi|done].
Qed.

Lemma together_begin r batches :
  taking_turns r -> Forall (fun b => zlen b <= max_batch_events (rc_bounds config)) batches ->
  Forall (Forall (fun e => event_defined e = true)) batches ->
  together (rt_pending r) ((batches ≫= fmap fe_id) ++ (fe_id <$> rt_pending r)) r (submission config <$> batches).
Proof.
  intros Hr Hsize Hdefined. split; [done| | |by left].
  - apply Forall_fmap. eapply Forall_impl; [by apply Forall_and; split; [exact Hsize|exact Hdefined]|].
    intros b [Hb Hd]. split; [done|]. cbn.
    by destruct (Z.ltb_spec (max_batch_events (rc_bounds config)) (zlen b)); [lia|].
  - apply Permutation_app_tail. clear Hdefined. induction Hsize as [|b batches Hb _ IH]; [done|]. cbn.
    rewrite IH.
    apply Permutation_app_tail. unfold owed, outcomes_of. cbn.
    by destruct (Z.ltb_spec (max_batch_events (rc_bounds config)) (zlen b)); [lia|].
Qed.

(** When no submission has a turn left, all have a report. *)
Lemma all_returned cs :
  Forall sub_ok cs -> Forall (fun c => turns_left c = 0%nat) cs ->
  exists reports, sub_result <$> cs = (fun report => Some (Value report)) <$> reports /\
    cs ≫= owed = reports ≫= fun report => eo_id <$> br_outcomes report.
Proof.
  induction 1 as [|c cs [_ Hc] _ IH]; intros [Hleft Hrest]%Forall_cons || intros _; [by exists []|].
  destruct (IH Hrest) as (reports & Hres & Howed). unfold turns_left in Hleft.
  destruct (sub_result c) as [[report|]|] eqn:Hr; [|done|done]. exists (report :: reports). cbn.
  rewrite Hr, Hres, Howed. split; [done|]. unfold owed at 1, outcomes_of. rewrite Hr, Hc. cbn.
  by rewrite app_nil_r.
Qed.

End submissions.

(** C18. Concurrent submits to an open runtime lose nothing and report nothing twice, when
    no batch is over the size bound and no event is a rollback without a target (for which
    the program has no result).  Whatever the schedule and whatever the system calls do, as
    soon as every call has had a turn per event and one more, every call has returned a
    report, and the reports together have exactly one outcome per event: those of all the
    batches, and those that had been staged before and are not staged any more.  No event
    of the batches stays staged, and what held of ingest holds again. *)
Theorem interleaved_submits_report_once r batches turns w :
  let bounds := rc_bounds (rt_config r) in
  0 < max_duplicate_window bounds -> 0 <= max_batch_events bounds ->
  ingest_ok r -> rt_closed r = false -> Forall (fun e => event_defined e = true) (rt_pending r) ->
  Forall (fun b => zlen b <= max_batch_events bounds) batches ->
  Forall (Forall (fun e => event_defined e = true)) batches ->
  (forall i b, batches !! i = Some b -> (length b < count_occ Nat.eq_dec turns i)%nat) ->
  exists r' cs' reports,
    (run_turns turns r (submission (rt_config r) <$> batches) w).1 = Some (r', cs') /\
    sub_result <$> cs' = (fun report => Some (Value report)) <$> reports /\
    (reports ≫= fun report => eo_id <$> br_outcomes report) ++ (fe_id <$> rt_pending r') ≡ₚ
      (batches ≫= fmap fe_id) ++ (fe_id <$> rt_pending r) /\
    rt_pending r' ⊆ rt_pending r /\ ingest_ok r' /\ grows r r'.
Proof.
  intros bounds Hwindow Hbatch Hok Hopen Hpending Hsize Hdefined Hturns.
  destruct (run_turns_together (rt_config r) Hwindow Hbatch (rt_pending r) _ turns r _ w
    (together_begin (rt_config r) r batches ltac:(by split) Hsize Hdefined)) as (r' & cs' & Hrun & Ht & Hleft).
  exists r', cs'. destruct (all_returned cs') as (reports & Hreports & Howed).
  - apply Ht.
  - apply Forall_lookup. intros i c Hi. specialize (Hleft i). rewrite Hi, list_lookup_fmap in Hleft.
    destruct (batches !! i) as [b|] eqn:Hb; [|done]. injection Hleft as ->. specialize (Hturns i b Hb).
    unfold turns_left, submission. cbn. destruct (_ <? _); lia.
  - exists reports. pose proof (run_turns_grows turns r (submission (rt_config r) <$> batches) w) as Hgrows.
    rewrite Hrun in Hgrows. split_and!; [done|done| | |apply Ht|exact Hgrows].
    + rewrite <-Howed. apply Ht.
    + intros e Hin. destruct (tg_staged _ _ _ _ _ Ht e Hin) as [?|(c & Hc & Hnone & _)]; [done|]. exfalso.
      apply list_elem_of_lookup in Hc as [i Hi]. assert (Hlast : (sub_result <$> cs') !! i = Some None)
        by by rewrite list_lookup_fmap, Hi, <-Hnone.
      rewrite Hreports, list_lookup_fmap in Hlast. by destruct (reports !! i).
Qed.


(** ** A delivery has effect once *)

(** What every turn keeps, the run keeps. *)
Lemma run_turns_keeps (I : FabricRuntime -> list Submission -> Prop) turns :
  (forall r cs i c w, I r cs -> cs !! i = Some c ->
     match (take_turn r c w).1 with Some (r', c') => I r' (<[i := c']> cs) | None => True end) ->
  forall r cs w, I r cs ->
  match (run_turns turns r cs w).1 with Some (r', cs') => I r' cs' | None => True end.
Proof.
  intros Hturn. induction turns as [|i turns IH]; intros r cs w HI; cbn [run_turns]; [done|].
  destruct (cs !! i) as [c|] eqn:Hi; [|by apply IH]. specialize (Hturn r cs i c w HI Hi).
  unfold io_then, mbind, io_bind. destruct (take_turn r c w) as [[[r1 c1]|] w1]; [by apply IH|done].
Qed.

Definition delivered (r : FabricRuntime) : list (OriginId * OriginEpoch * Sequence) :=
  delivery_key <$> bh_entries (rt_deliveries r).
Definition applied_by (c : Submission) : Z :=
  match sub_result c with Some (Value report) => br_applied report | _ => 0 end.
Definition applied_total (cs : list Submission) : Z := foldr (fun c n => applied_by c + n) 0 cs.

Lemma applied_total_app cs cs' : applied_total (cs ++ cs') = applied_total cs + applied_total cs'.
Proof. unfold applied_total. induction cs as [|c cs IH]; cbn; [done|lia]. Qed.
Lemma applied_total_replace cs i c c' :
  cs !! i = Some c -> applied_total (<[i := c']> cs) = applied_total cs - applied_by c + applied_by c'.
Proof.
  intros Hi. rewrite insert_take_drop by by eapply lookup_lt_Some.
  assert (Hcs : applied_total cs = applied_total (take i cs ++ c :: drop (S i) cs)) by by rewrite take_drop_middle.
  rewrite Hcs, !applied_total_app. cbn. lia.
Qed.

Lemma applied_total_start config batches :
  Forall (fun b => zlen b <= max_batch_events (rc_bounds config)) batches ->
  applied_total (submission config <$> batches) = 0.
Proof.
  unfold applied_total. induction 1 as [|b batches Hb _ IH]; [done|]. cbn. rewrite IH. unfold applied_by. cbn.
  by destruct (Z.ltb_spec (max_batch_events (rc_bounds config)) (zlen b)); [lia|].
Qed.

Lemma count_outcome_applied report outcome :
  br_applied (count_outcome report outcome) <= br_applied report + 1 /\
  (eo_applied outcome = false -> br_applied (count_outcome report outcome) = br_applied report).
Proof. unfold count_outcome. destruct (is_informational _); [destruct (eo_applied outcome)|]; cbn; split;
  lia || done. Qed.

Lemma bh_push_room {T} (h : BoundedHistory T) x :
  zlen (bh_entries h) < bh_capacity h -> bh_entries (bh_push h x).1 = bh_entries h ++ [x].
Proof.
  intros Hroom. pose proof (zlen_nonneg (bh_entries h)). unfold bh_push.
  destruct (Z.eqb_spec (bh_capacity h) 0); [lia|]. rewrite bh_evict_loop_spec by lia. cbn.
  by rewrite (Z2Nat.nonpos (zlen (bh_entries h) - bh_capacity h + 1)) by lia.
Qed.

Section once.
Context (config : RuntimeConfig).
Context (Hwindow : 0 < max_duplicate_window (rc_bounds config)).
Context (Hbatch : 0 <= max_batch_events (rc_bounds config)).
Context (keys : list (OriginId * OriginEpoch * Sequence)).
Context (Hkeys : zlen keys <= max_duplicate_window (rc_bounds config)).

Definition known (e : FabricEvent) : Prop := event_delivery e ∈ keys.

(** What one event or many may do to the window and to the count of a report. *)
Definition counts_once (r : FabricRuntime) (report : BatchReport)
    (res : option (FabricRuntime * BatchReport)) : Prop :=
  match res with
  | None => True
  | Some (r', report') =>
    delivered r' ⊆ keys /\
    br_applied report' + zlen (delivered r) <= br_applied report + zlen (delivered r')
  end.

Lemma release_event_once start upto r report event :
  flushing config start upto r -> delivered r ⊆ keys -> known event ->
  always (release_event r report event) (counts_once r report).
Proof.
  intros (Hcfg & Hok & _) Hsub Hknown. unfold release_event.
  destruct (find_delivery _ event) as [seen|] eqn:Hfind.
  { apply always_ret. split; [done|]. destruct (count_outcome_applied report (duplicate_outcome event seen)) as [_ Hsame].
    rewrite Hsame; [lia|]. unfold duplicate_outcome. by case_bool_decide. }
  eapply always_then; [apply journal_event_same|]. intros [r1 appended] [E1 _ E3 _ _ _ _]. cbn [fst] in E1, E3.
  assert (Hsame : delivered r1 = delivered r) by (unfold delivered; by rewrite E3).
  destruct (negb _). { apply always_ret. cbn. rewrite Hsame. split; [done|lia]. }
  apply always_ret. unfold apply_released. destruct (remember_delivery _ _ _) as [s d] eqn:Hrem.
  apply remember_delivery_spec in Hrem as (-> & _). destruct (apply_event s event _ _) as [[s1 app]|]; [|done].
  set (outcome := mkEventOutcome _ _ _ _). destruct (count_outcome_applied report outcome) as [Hcount _].
  pose proof (ing_once _ Hok) as Honce. pose proof (ing_capacity _ Hok) as Hcap.
  cbn in Honce, Hcap. rewrite Hcfg in Hcap. apply find_delivery_None in Hfind.
  assert (Hroom : zlen (delivered r) + 1 <= zlen keys).
  { assert (Hle : event_delivery event :: delivered r ⊆+ keys).
    { apply NoDup_submseteq; [by constructor|]. intros k [->|Hk]%elem_of_cons; [exact Hknown|by apply Hsub]. }
    apply submseteq_length in Hle. cbn in Hle. unfold zlen. lia. }
  assert (Hentries : bh_entries (bh_push (rt_deliveries r1) (delivery_record event)).1 =
    bh_entries (rt_deliveries r) ++ [delivery_record event]).
  { rewrite bh_push_room; rewrite E3; [done|]. rewrite Hcap. unfold delivered, zlen in *.
    rewrite length_fmap in Hroom. lia. }
  assert (Hdelivered : forall st, delivered (r1 <| rt_state := st |> <| rt_deliveries :=
    (bh_push (rt_deliveries r1) (delivery_record event)).1 |>) = delivered r ++ [event_delivery event]).
  { intros st. unfold delivered. cbn. by rewrite Hentries, fmap_app. }
  unfold counts_once. rewrite Hdelivered, zlen_app. change (zlen [event_delivery event]) with 1. split; [|lia].
  intros k [Hk|Hk%list_elem_of_singleton]%elem_of_app; [by apply Hsub|]. subst k. exact Hknown.
Qed.

Lemma release_events_once start upto r report events :
  flushing config start upto r -> Forall (fun e => fe_at e <= upto) events -> Forall known events ->
  delivered r ⊆ keys -> always (release_events r report events) (counts_once r report).
Proof.
  intros Hf Hat Hknown. revert r report Hf.
  induction Hknown as [|event events Hevent _ IH]; intros r report Hf Hsub;
    cbn [release_events].
  { apply always_ret. split; [done|lia]. }
  apply Forall_cons in Hat as [Hat Hats].
  intros w. pose proof (release_event_once start upto r report event Hf Hsub Hevent w) as Hone.
  pose proof (release_event_flushing config Hwindow Hbatch start upto r report event Hf Hat w) as Hstep.
  unfold io_then, mbind, io_bind. destruct (release_event r report event w) as [[[r1 report1]|] w1]; [|done].
  destruct Hone as [Hsub1 Hone], Hstep as [Hf1 _]. specialize (IH Hats r1 report1 Hf1 Hsub1 w1).
  destruct ((release_events r1 report1 events w1).1) as [[r2 report2]|]; [|done].
  destruct IH as [Hsub2 Htwo]. split; [done|lia].
Qed.

Lemma flush_once upto r w r' report :
  rt_config r = config -> ingest_ok r -> Forall known (rt_pending r) -> delivered r ⊆ keys ->
  (flush r upto w).1 = Some (r', Value report) ->
  delivered r' ⊆ keys /\ br_applied report + zlen (delivered r) <= zlen (delivered r').
Proof.
  intros Hcfg Hok Hknown Hsub. unfold flush. destruct (rt_closed r); [done|]. cbn zeta.
  set (released := std_sort _ _). set (r1 := r <| rt_pending := _ |>).
  pose proof (flushing_start config Hbatch upto r Hcfg Hok) as Hf.
  unfold io_then at 1, mbind at 1, io_bind at 1.
  pose proof (release_events_once (rs_watermark (rt_state r)) upto r1 (BatchReport_default <| br_upto := upto |>)
    released Hf) as Hrun.
  assert (Hdue : Forall (fun e => fe_at e <= upto) released).
  { apply Forall_std_sort, Forall_forall. intros e. rewrite list_elem_of_filter. tauto. }
  assert (Hreleased : Forall known released).
  { apply Forall_std_sort, Forall_forall. intros e [_ Hin]%list_elem_of_filter.
    by eapply Forall_forall in Hknown. }
  specialize (Hrun Hdue Hreleased Hsub w).
  destruct (release_events r1 _ released w) as [[[r2 report2]|] w2]; [|done].
  destruct Hrun as [Hsub2 Hcount]. cbn in Hcount |- *. intros [= <- <-]. cbn. split; [exact Hsub2|exact Hcount].
Qed.

(** What a run of submissions keeps. *)
Record accounted_once (before : list FabricEvent) (total : list string) (base : Z) (r : FabricRuntime)
    (cs : list Submission) : Prop := {
  ao_together : together config before total r cs;
  ao_pending : Forall known (rt_pending r);
  ao_todo : Forall (fun c => Forall known (sub_todo c)) cs;
  ao_window : delivered r ⊆ keys;
  ao_applied : applied_total cs + base <= zlen (delivered r)
}.

(** What one turn does to all this. *)
Definition turn_counts (r : FabricRuntime) (c : Submission) (r' : FabricRuntime) (c' : Submission) : Prop :=
  Forall known (rt_pending r') /\ Forall known (sub_todo c') /\ delivered r' ⊆ keys /\
  applied_by c' + zlen (delivered r) <= applied_by c + zlen (delivered r').

Lemma stage_counts r c event todo :
  taking_turns config r -> event_defined event = true -> sub_result c = None -> known event -> Forall known todo ->
  Forall known (rt_pending r) -> delivered r ⊆ keys ->
  let '(r', staged) := stage r event in
  forall upto, turn_counts r c r' (note_staged (c <| sub_todo := todo |> <| sub_upto := upto |>) event staged).
Proof.
  intros Hr Hdefined Hres Hevent Htodo Hpending Hsub.
  pose proof (stage_ready config r event Hr Hdefined) as Hstage.
  pose proof (stage_deliveries r event) as Hdel. destruct (stage r event) as [r1 staged]. cbn in Hdel.
  intros upto.
  set (c1 := c <| sub_todo := todo |> <| sub_upto := upto |>).
  assert (Hc' : applied_by (note_staged c1 event staged) = 0 /\ sub_todo (note_staged c1 event staged) = todo /\ applied_by c = 0).
  { unfold applied_by, note_staged. case_bool_decide; [|destruct (negb _)]; cbn; by rewrite Hres. }
  unfold turn_counts, delivered in *. destruct Hc' as (-> & -> & ->). rewrite Hdel.
  split_and!; [|done|done|lia].
  destruct Hstage as [_ [[-> _]|[-> _]]]; [|done]. apply Forall_app. by split; [|apply Forall_singleton].
Qed.

Lemma flush_counts r c r1 report w :
  taking_turns config r -> sub_result c = None -> sub_todo c = [] -> Forall known (rt_pending r) -> delivered r ⊆ keys ->
  (flush r (sub_upto c) w).1 = Some (r1, Value report) ->
  turn_counts r c r1 (c <| sub_result := Some (Value (merge_report report (sub_failures c) (sub_duplicates c))) |>).
Proof.
  intros Hr Hres Htodo Hpending Hsub Hflush.
  destruct (flush_once _ r w r1 report (rdy_config _ _ Hr) (rdy_ok _ _ Hr) Hpending Hsub Hflush) as [Hsub1 Hcount].
  destruct (flush_keeps _ _ _ _ _ Hflush) as [_ Hp]. unfold turn_counts, applied_by. rewrite Hres. cbn.
  split_and!; [|by rewrite Htodo|done|exact Hcount].
  rewrite Hp. apply Forall_forall. intros e [_ Hin]%list_elem_of_filter. by eapply Forall_forall in Hpending.
Qed.

Lemma take_turn_counts r c w r' c' :
  taking_turns config r -> sub_ok c -> Forall known (sub_todo c) -> Forall known (rt_pending r) -> delivered r ⊆ keys ->
  (take_turn r c w).1 = Some (r', c') -> turn_counts r c r' c'.
Proof.
  intros Hr [Hdefined _] Hknown Hpending Hsub. unfold take_turn. destruct (sub_result c) as [result|] eqn:Hres.
  { intros [= <- <-]. unfold turn_counts. split_and!; [done|done|done|lia]. }
  destruct (sub_todo c) as [|event todo] eqn:Hlist.
  - unfold io_then, mbind, io_bind. destruct (flush r (sub_upto c) w) as [[[r1 result]|] w1] eqn:Hflush;
      [|done].
    apply (f_equal fst) in Hflush. cbn in Hflush.
    destruct (flush_answers r _ w r1 result (rdy_open _ _ Hr) Hflush) as [report ->].
    intros [= <- <-]. by apply (flush_counts r c r1 report w).
  - apply Forall_cons in Hknown as [Hevent Hrest]. apply Forall_cons in Hdefined as [Hdefined _].
    pose proof (stage_counts r c event todo Hr Hdefined Hres Hevent Hrest Hpending Hsub) as Hstage.
    destruct (stage r event) as [r1 staged]. intros [= <- <-]. apply Hstage.
Qed.

Lemma turn_once before total base r cs i c w :
  accounted_once before total base r cs -> cs !! i = Some c ->
  match (take_turn r c w).1 with
  | Some (r', c') => accounted_once before total base r' (<[i := c']> cs)
  | None => True
  end.
Proof.
  intros [Ht Hpending Htodo Hsub Happlied] Hi.
  pose proof (tg_ready _ _ _ _ _ Ht) as Hr.
  pose proof (proj1 (Forall_lookup _ _) (tg_ok _ _ _ _ _ Ht) i c Hi) as Hc.
  pose proof (proj1 (Forall_lookup _ _) Htodo i c Hi) as Hknown.
  destruct (take_turn_taken config Hwindow Hbatch r c w Hr Hc) as (r' & c' & Hturn & Htaken).
  destruct (take_turn_counts r c w r' c' Hr Hc Hknown Hpending Hsub Hturn) as (Hp & Hd & Hs & Hcount).
  rewrite Hturn.
  split; [by apply (together_turn config _ _ _ _ _ _ _ _ Ht Hi Htaken)|done| |done|].
  - by apply Forall_insert.
  - rewrite (applied_total_replace _ _ _ _ Hi). lia.
Qed.
End once.

(** C19. A delivery is applied at most once, however many callers submit it at the same
    time.  Let [keys] hold the origin sequences of the events being submitted, staged
    and already delivered, no more than the window remembers.  Under every schedule and
    whatever the system calls do, the events the callers are told were applied, and those
    that had been delivered before, are together no more than [keys]. *)
Theorem concurrent_submits_apply_once r batches turns w keys :
  let bounds := rc_bounds (rt_config r) in
  0 < max_duplicate_window bounds -> 0 <= max_batch_events bounds ->
  ingest_ok r -> rt_closed r = false -> Forall (fun e => event_defined e = true) (rt_pending r) ->
  Forall (fun b => zlen b <= max_batch_events bounds) batches ->
  Forall (Forall (fun e => event_defined e = true)) batches ->
  zlen keys <= max_duplicate_window bounds -> delivered r ⊆ keys ->
  Forall (known keys) (rt_pending r) -> Forall (Forall (known keys)) batches ->
  exists r' cs',
    (run_turns turns r (submission (rt_config r) <$> batches) w).1 = Some (r', cs') /\
    applied_total cs' + zlen (delivered r) <= zlen keys.
Proof.
  intros bounds Hwindow Hbatch Hok Hopen Hdefined_r Hsize Hdefined Hkeys Hsub Hpending Hknown.
  pose proof (together_begin (rt_config r) r batches ltac:(by split) Hsize Hdefined) as Ht.
  destruct (run_turns_together (rt_config r) Hwindow Hbatch _ _ turns r _ w Ht) as (r' & cs' & Hrun & _).
  exists r', cs'. split; [done|].
  pose proof (run_turns_keeps _ turns (turn_once (rt_config r) Hwindow Hbatch keys Hkeys (rt_pending r)
    ((batches ≫= fmap fe_id) ++ (fe_id <$> rt_pending r)) (zlen (delivered r)))
    r (submission (rt_config r) <$> batches) w) as Hend.
  rewrite Hrun in Hend. destruct Hend as [Ht' _ _ Hsub' Happlied].
  { split; [done|done| |done|].
    - apply Forall_fmap. eapply Forall_impl; [exact Hknown|]. by intros b Hb.
    - rewrite applied_total_start; [lia|done]. }
  assert (Hfit : zlen (delivered r') <= zlen keys).
  { assert (Honce : NoDup (delivered r')) by apply (rdy_ok _ _ (tg_ready _ _ _ _ _ Ht')).
    pose proof (submseteq_length _ _ (NoDup_submseteq _ _ Honce Hsub')) as Hle. unfold zlen. lia. }
  lia.
Qed.

(** ** Two clients *)
Definition client_batches : list (list FabricEvent) :=
  [[stamped 1 (sample_event 3 (Body_LogicalTimeAdvanced (mkLogicalTimeAdvanced 3)))];
   [stamped 2 (sample_declared "db")]].

(** What each client is told: the events of its report with their codes. *)
Definition answers (turns : list nat) : option (list (list (string * ReasonCode))) :=
  match (run_turns turns sample_runtime (submission sample_config <$> client_batches) sample_idle).1 with
  | Some (_, cs) =>
    mapM (fun c => match sub_result c with
                   | Some (Value report) =>
                     Some ((fun o => (eo_id o, eo_code o)) <$> br_outcomes report)
                   | _ => None
                   end) cs
  | None => None
  end.

Lemma interleaved_submits_report_once_witness :
  exists r' cs' reports,
    (run_turns [0; 1; 0; 1]%nat sample_runtime (submission sample_config <$> client_batches) sample_idle).1 =
      Some (r', cs') /\
    sub_result <$> cs' = (fun report => Some (Value report)) <$> reports /\
    (reports ≫= fun report => eo_id <$> br_outcomes report) ++ (fe_id <$> rt_pending r') ≡ₚ
      (client_batches ≫= fmap fe_id) ++ (fe_id <$> rt_pending sample_runtime) /\
    rt_pending r' ⊆ rt_pending sample_runtime /\ ingest_ok r' /\ grows sample_runtime r'.
Proof.
  destruct sample_bounds as (H1 & H2 & H3).
  apply (interleaved_submits_report_once sample_runtime client_batches [0; 1; 0; 1]%nat sample_idle); try done.
  - apply started_ok; vm_compute; discriminate.
  - repeat constructor; vm_compute; discriminate.
  - repeat constructor.
  - intros [|[|i]] b Hb; [injection Hb as <-; vm_compute; lia..|done].
Defined.

(** A submit does not answer for its own batch.  Two clients send one event each, of
    the instants 3 and 2.  One after the other in the order of the instants, both events
    are applied and each client hears of its own; in the other order the later one is
    refused as late; and interleaved, the first client's report has both events and the
    second client, whose event is applied, gets an empty report. *)
Theorem submit_answers_depend_on_schedule :
  answers [1; 1; 0; 0]%nat = Some [[("e1", ReasonCode.Ok)]; [("e2", ReasonCode.Ok)]] /\
  answers [0; 0; 1; 1]%nat = Some [[("e1", ReasonCode.Ok)]; [("e2", ReasonCode.LateEventRejected)]] /\
  answers [0; 1; 0; 1]%nat = Some [[("e2", ReasonCode.Ok); ("e1", ReasonCode.Ok)]; []].
Proof. split_and!; lazy; reflexivity. Qed.

(** Two callers, one event. *)
Definition shared_batches : list (list FabricEvent) :=
  [[stamped 2 (sample_declared "db")]; [stamped 2 (sample_declared "db")]].
Lemma concurrent_submits_apply_once_witness :
  exists r' cs',
    (run_turns [0; 1; 1; 0]%nat sample_runtime (submission sample_config <$> shared_batches) sample_idle).1 =
      Some (r', cs') /\
    applied_total cs' + zlen (delivered sample_runtime) <= zlen [("lab", 1, 2)].
Proof.
  destruct sample_bounds as (H1 & H2 & H3).
  apply (concurrent_submits_apply_once sample_runtime shared_batches [0; 1; 1; 0]%nat sample_idle [("lab", 1, 2)]);
    try done.
  - apply started_ok; vm_compute; discriminate.
  - repeat constructor; vm_compute; discriminate.
  - repeat constructor.
  - assert (Hnone : delivered sample_runtime = []) by (vm_compute; reflexivity).
    rewrite Hnone. intros k Hk. by apply elem_of_nil in Hk.
  - repeat constructor.
Defined.
