(* ===== verification/Recovery.v ===== *)
(** * Recovery of the runtime

    Theorems on [FabricRuntime::open]: what a recovered runtime holds, how the replay of
    the journal compares with the flush that wrote it, and what an open that is refused
    leaves in the store. *)

From S2P Require Import Prelude Std Reason Types Version Resources Bounded Digest Json JsonArchive Archive Model.
From S2P Require Import Codec Authority Planner State Intent Scenario Lifecycle History Wire Store Journal Durability.
From S2P Require Import Runtime Ingest.
#[local] Open Scope Z_scope.

(** ** Fenced by a restart *)

(** An instance nobody may take for alive. *)
Record dormant (i : InstanceState) : Prop := {
  dor_attempts : Forall (fun a => attempt_open a = false) (inst_attempts i);
  dor_state : claims_effect (inst_state i) = false;
  dor_health : inst_health i = HealthState.Unknown /\ inst_health_fresh i = false;
  dor_reason : inst_fence_reason i = ReasonCode.RestartFenced
}.

(** [s] is [before] after a restart. *)
Record restarted (config : RuntimeConfig) (before s : RuntimeState) : Prop := {
  rst_dormant : Forall dormant (rs_instances s);
  rst_placed : (fun i => (inst_id i, inst_dpu i)) <$> rs_instances s =
               (fun i => (inst_id i, inst_dpu i)) <$> rs_instances before;
  rst_tokens : forall id token, fence_validate (rs_fences s) id token = false;
  rst_boot : in_width u64_max (rs_boot before) -> in_width u64_max (rc_boot config) ->
             rs_boot before <= rs_boot s /\ rc_boot config <= rs_boot s /\
             (rs_boot before < rs_boot s \/ rs_boot s = u64_max);
  rst_projection : placement_projection s =
    (placement_projection before) <| ppj_epoch := Z.max (rs_epoch before) (rc_epoch config) |>
}.

Lemma fence_dormant at_ i : dormant (fence_instance at_ ReasonCode.RestartFenced i).
Proof.
  split; [| |done|done].
  2: { change (inst_state _) with (if claims_effect (inst_state i) then LifecycleState.Unverified else inst_state i).
       by destruct (claims_effect (inst_state i)) eqn:?. }
  change (inst_attempts _) with (cancel_attempt at_ ReasonCode.RestartFenced <$> inst_attempts i).
  apply Forall_fmap, Forall_true. intros a. apply cancel_attempt_closed.
Qed.

Lemma recovered_boot_ge config previous :
  in_width u64_max previous -> in_width u64_max (rc_boot config) ->
  previous <= recovered_boot config previous /\ rc_boot config <= recovered_boot config previous /\
  (previous < recovered_boot config previous \/ recovered_boot config previous = u64_max).
Proof.
  intros Hp Hc. unfold recovered_boot.
  set (boot := if previous <? rc_boot config then rc_boot config else previous).
  assert (Hb : in_width u64_max boot /\ previous <= boot /\ rc_boot config <= boot).
  { unfold boot. destruct (Z.ltb_spec previous (rc_boot config)); split_and!; done || lia. }
  destruct Hb as (Hb & H1 & H2). unfold counter_next.
  assert (Ho : in_width u64_max 1) by by split.
  rewrite checked_add_spec by done. unfold in_width in Hb.
  case_decide; cbn beta iota.
  - destruct (Z.ltb_spec (boot + 1) boot); lia.
  - pose proof (saturating_next_le boot Hb).
    destruct (Z.ltb_spec (saturating_next boot) boot); lia.
Qed.

Lemma restart_restarted config s : restarted config s (restart config s).1.
Proof.
  unfold restart. cbn zeta. set (s1 := s <| rs_boot := _ |>).
  set (s2 := if rs_epoch s1 <? rc_epoch config then s1 <| rs_epoch := rc_epoch config |> else s1).
  assert (H2 : rs_instances s2 = rs_instances s /\ rs_boot s2 = recovered_boot config (rs_boot s) /\
    placement_projection s2 = (placement_projection s) <| ppj_epoch := Z.max (rs_epoch s) (rc_epoch config) |>).
  { unfold s2. change (rs_epoch s1) with (rs_epoch s).
    destruct (Z.ltb_spec (rs_epoch s) (rc_epoch config)) as [Hlt|Hge]; (split_and!; [done|done|]).
    - by rewrite Z.max_r by lia.
    - rewrite Z.max_l by lia. by destruct s. }
  destruct H2 as (Hi & Hb & Hp). unfold fence_after_recovery. cbn [fst].
  set (s3 := s2 <| rs_fences := _ |>).
  split.
  - cbn. apply Forall_fmap, Forall_true. intros i. apply fence_dormant.
  - cbn. rewrite Hi, <-list_fmap_compose. done.
  - intros id token. cbn. unfold fence_validate. destruct (negb _); [done|]. by destruct (negb _).
  - intros H1 H2. pose proof (recovered_boot_ge config (rs_boot s) H1 H2) as Hge. rewrite <-Hb in Hge.
    exact Hge.
  - exact Hp.
Qed.

(** A checkpoint changes at most the count of journaled events. *)
Lemma checkpoint_locked_state r :
  always (checkpoint_locked r) (fun res =>
    rt_state res.1 = rt_state r \/ rt_state res.1 = (rt_state r) <| rs_journaled_events := 0 |>).
Proof.
  unfold checkpoint_locked. destruct (rt_store r); [|by apply always_ret; left].
  eapply always_then; [apply always_true|]. intros rotated _.
  destruct (negb _); apply always_ret; [by left|by right].
Qed.

Lemma restarted_journaled config s0 s n :
  restarted config s0 s -> restarted config s0 (s <| rs_journaled_events := n |>).
Proof. by intros []. Qed.

Lemma finish_open_restarted r recovery :
  always (finish_open r recovery true) (fun res =>
    res.2 = None -> restarted (rt_config r) (rt_state r) (rt_state res.1)).
Proof.
  unfold finish_open. pose proof (restart_restarted (rt_config r) (rt_state r)) as Hr.
  destruct (restart (rt_config r) (rt_state r)) as [s fenced]. cbn [fst] in Hr. cbn zeta.
  eapply (always_then _ _ (fun res => restarted (rt_config r) (rt_state r) (rt_state res.1))).
  - unfold checkpoint. destruct (rt_closed _); [by apply always_ret|].
    intros w. destruct (checkpoint_locked_state (r <| rt_state := s |> <| rt_recovery :=
      (rt_recovery r) <| rsum_restart_fenced := fenced |> <| rsum_classification :=
        if bool_decide (sr_classification recovery = RecoveryClass.EmptyStore)
        then RecoveryClass.CleanReopen else sr_classification recovery |> |>) w) as [-> | ->];
      [done|by apply restarted_journaled].
  - intros [r1 checkpointed] H1. destruct (negb _); apply always_ret; [done|]. intros _. exact H1.
Qed.

Lemma recover_restarted r recovery payload records w r' :
  payload <> [] \/ records <> [] ->
  (recover r recovery payload records w).1 = Some (Value r') ->
  exists restored s deliveries replayed,
    restore_snapshot (note_recovery r recovery) payload = (restored, None) /\
    replay_records (rt_config restored) (rs_watermark (rt_state restored)) (rt_state restored)
      (rt_deliveries restored) 0 records = Some (s, deliveries, replayed, None) /\
    restarted (rt_config restored) s (rt_state r').
Proof.
  intros Hfound. unfold recover.
  assert (Hrec : negb (bool_decide (payload = [])) || negb (bool_decide (records = [])) = true).
  { destruct Hfound; [rewrite (bool_decide_false (payload = [])) by done; done|].
    rewrite (bool_decide_false (records = [])) by done. by rewrite orb_true_r. }
  rewrite Hrec.
  destruct (restore_snapshot _ payload) as [restored [status|]] eqn:Hrestore.
  { unfold abandon_open, io_then, mbind, io_bind. by destruct (close restored w). }
  destruct (replay_records _ _ _ _ _ records) as [[[[s d] n] [status|]]|] eqn:Hreplay; [| |done].
  { unfold abandon_open, io_then, mbind, io_bind. by destruct (close _ w). }
  set (r1 := restored <| rt_state := s |> <| rt_deliveries := d |> <| rt_recovery := _ |>).
  pose proof (finish_open_restarted r1 recovery w) as Hf. unfold io_then, mbind, io_bind.
  destruct (finish_open r1 recovery true w) as [[r2 refusal] w2]. cbn [fst snd] in Hf.
  destruct refusal as [status|]; [unfold abandon_open, io_then, mbind, io_bind; by destruct (close r2 w2)|].
  cbn. intros [= <-]. exists restored, s, d, n. split_and!; [done|done|]. by apply Hf.
Qed.

(** C8. Whatever a runtime recovers, nothing of it is alive: every instance keeps its
    identity and its device, but no attempt is open, no effect is claimed and its health
    is unknown; no fence token issued before is valid; the boot incarnation is larger
    than the previous one, or saturated, and not below the configured one; and the
    placement projection is that of the recovered state, under the larger of the two
    epochs. *)
Theorem recovered_runtime_is_fenced r recovery payload records w r' :
  payload <> [] \/ records <> [] ->
  (recover r recovery payload records w).1 = Some (Value r') ->
  exists restored s deliveries replayed,
    restore_snapshot (note_recovery r recovery) payload = (restored, None) /\
    replay_records (rt_config restored) (rs_watermark (rt_state restored)) (rt_state restored)
      (rt_deliveries restored) 0 records = Some (s, deliveries, replayed, None) /\
    restarted (rt_config restored) s (rt_state r').
Proof. apply recover_restarted. Qed.

Definition sample_records : list (list Byte) :=
  [encode_binary FabricEvent_codec (stamped 2 (sample_declared "db"))].
Definition sample_recovered : FabricRuntime :=
  match (recover (fresh_runtime sample_config) StoreRecovery_default [] sample_records sample_idle).1 with
  | Some (Value r) => r
  | _ => fresh_runtime sample_config
  end.

Lemma sample_recover_eq :
  (recover (fresh_runtime sample_config) StoreRecovery_default [] sample_records sample_idle).1 =
    Some (Value sample_recovered).
Proof.
  assert (Hdone : match (recover (fresh_runtime sample_config) StoreRecovery_default [] sample_records
      sample_idle).1 with Some (Value _) => true | _ => false end = true) by (lazy; reflexivity).
  revert Hdone. unfold sample_recovered. by destruct ((recover _ _ _ _ _).1) as [[r|]|].
Qed.

Lemma recovered_runtime_is_fenced_witness :
  exists restored s deliveries replayed,
    restore_snapshot (note_recovery (fresh_runtime sample_config) StoreRecovery_default) [] = (restored, None) /\
    replay_records (rt_config restored) (rs_watermark (rt_state restored)) (rt_state restored)
      (rt_deliveries restored) 0 sample_records = Some (s, deliveries, replayed, None) /\
    restarted (rt_config restored) s (rt_state sample_recovered).
Proof.
  apply (recovered_runtime_is_fenced (fresh_runtime sample_config) StoreRecovery_default [] sample_records
    sample_idle sample_recovered); [by right|exact sample_recover_eq].
Defined.

(** ** Replay against the live flush *)

(** Everything the placement projection shows but the clock. *)
Definition timeless (s : RuntimeState) : PlacementProjection :=
  (placement_projection s) <| ppj_clock := 0 |>.

Lemma refresh_health_projection s : placement_projection (refresh_health s) = placement_projection s.
Proof. unfold refresh_health. by destruct (foldl _ _ _) as [dpus instances]. Qed.

Lemma retain_decision_projection bounds s decision :
  placement_projection (retain_decision bounds s decision) = placement_projection s.
Proof. unfold retain_decision. by destruct (_ <=? _). Qed.

(** Replaying a journaled event on the state it met live applies the same reducer: the
    duplicate window and the whole placement projection come out the same, except for the
    clock, which live moves to the instant of the event and replay leaves behind. *)
Theorem replay_restores_all_but_clock config s deliveries event live_s live_d outcome :
  find_delivery deliveries event = None ->
  apply_released config s deliveries event = Some (live_s, live_d, outcome) ->
  exists s', replay_event config s deliveries event = Some (s', live_d, Status_success) /\
    timeless s' = timeless live_s /\ rs_clock live_s = Z.max (rs_clock s') (fe_at event).
Proof.
  intros Hnone. unfold apply_released, replay_event. rewrite Hnone.
  destruct (remember_delivery s deliveries event) as [s1 d1].
  destruct (apply_event s1 event _ _) as [[s2 applied]|]; [|done].
  set (s3 := if rs_watermark s2 <? fe_at event then _ else s2).
  set (s4 := if rs_clock s3 <? fe_at event then _ else s3). intros [= <- <- _].
  exists s3. split; [done|].
  assert (Hc : rs_clock (retain_decision (rc_bounds config) s4 (make_decision (rc_bounds config) s4 event applied)) =
    rs_clock s4) by (unfold retain_decision; by destruct (_ <=? _)).
  rewrite Hc. unfold timeless. rewrite retain_decision_projection. unfold s4.
  destruct (Z.ltb_spec (rs_clock s3) (fe_at event)) as [Hlt|Hge]; [|split; [done|lia]].
  rewrite refresh_health_projection.
  destruct (refresh_health_frame (s3 <| rs_clock := fe_at event |>)) as (_ & -> & _).
  split; [done|]. cbn. lia.
Qed.

Lemma replay_restores_all_but_clock_witness :
  exists s', replay_event sample_config (rt_state sample_runtime) (rt_deliveries sample_runtime)
      (stamped 2 (sample_declared "db")) = Some (s', sample_applied.1.2, Status_success) /\
    timeless s' = timeless sample_applied.1.1 /\ rs_clock sample_applied.1.1 = Z.max (rs_clock s') 2.
Proof.
  apply (replay_restores_all_but_clock sample_config (rt_state sample_runtime) (rt_deliveries sample_runtime)
    (stamped 2 (sample_declared "db")) sample_applied.1.1 sample_applied.1.2 sample_applied.2).
  - reflexivity.
  - vm_compute. reflexivity.
Defined.

(** The clock is lost: live it reached the instant of the event, replay leaves it at 0. *)
Example replayed_clock :
  rs_clock sample_applied.1.1 = 2 /\
  (fun x => rs_clock x.1.1) <$> replay_event sample_config (rt_state sample_runtime)
    (rt_deliveries sample_runtime) (stamped 2 (sample_declared "db")) = Some 0.
Proof. lazy. done. Qed.

(** Recovery skips every journal record that is not after the instant of the snapshot,
    also those that were accepted and journaled after the snapshot was written (a rotation
    between two events of one instant): they are acknowledged and lost. *)
Theorem same_instant_records_are_skipped config s deliveries n events :
  Forall (fun e => c_ok FabricEvent_codec (recovery_limit config) e = true /\
                   fe_at e <= rs_watermark s) events ->
  replay_records config (rs_watermark s) s deliveries n (encode_binary FabricEvent_codec <$> events) =
    Some (s, deliveries, n, None).
Proof.
  induction 1 as [|e events [He Hat] _ IH]; [done|]. cbn [fmap list_fmap replay_records].
  rewrite (decode_encode FabricEvent_codec _ e He), FabricEvent_codec_norm.
  change (fe_at (drop_payload_digest e)) with (fe_at e).
  destruct (Z.leb_spec (fe_at e) (rs_watermark s)); [exact IH|lia].
Qed.

(** The state of a checkpoint between the two events of instant 2 in [sample_batch]: the
    second event is accepted live and journaled, and recovery does not apply it. *)
Lemma same_instant_records_are_skipped_witness :
  let s := sample_applied.1.1 in let event := stamped 3 (sample_declared "web") in
  replay_records sample_config (rs_watermark s) s sample_applied.1.2 0
    (encode_binary FabricEvent_codec <$> [event]) = Some (s, sample_applied.1.2, 0, None).
Proof.
  intros s event. apply (same_instant_records_are_skipped sample_config s sample_applied.1.2 0 [event]).
  apply Forall_singleton. split; vm_compute; [reflexivity|discriminate].
Defined.

(** ** A refused open *)

(** Loading keeps the options and opens no journal, whatever it finds. *)
Lemma load_snapshot_handles s : always (load_snapshot s) (fun res => same_handles s res.1).
Proof.
  assert (Hrefl : same_handles s s) by by split.
  unfold load_snapshot. eapply always_then; [apply always_true|]. intros found _.
  destruct (negb found); [by apply always_ret|].
  eapply always_then; [apply always_true|]. intros [raw|status] _; [|by apply always_ret].
  case_bool_decide; [by apply always_ret|]. cbn zeta.
  destruct (negb (fp_complete _)); [by apply always_ret|].
  destruct (negb (bool_decide _)); [by apply always_ret|].
  destruct (negb (_ =? _)); by apply always_ret.
Qed.

Lemma load_journal_handles s : always (load_journal s) (fun res => same_handles s res.1.1).
Proof.
  assert (Hrefl : same_handles s s) by by split.
  assert (Hfin : forall t records, same_handles s t -> same_handles s (finish_journal t records)).
  { intros t records [A B C D]. unfold finish_journal. destruct (_ && _); by split. }
  unfold load_journal. eapply always_then; [apply always_true|]. intros found _.
  destruct (negb found); [by apply always_ret|].
  eapply always_then; [apply always_true|]. intros [raw|status] _.
  2: { apply always_ret. cbn. by case_bool_decide. }
  cbn zeta. destruct (read_journal _ _ _ _ _) as [records [|classification status|offset]].
  - apply always_ret. by apply Hfin.
  - by apply always_ret.
  - eapply always_then; [apply always_true|]. intros truncated _.
    destruct (negb _); apply always_ret; [done|by apply Hfin].
Qed.

Lemma classify_handles c s : same_handles s (classify c s).
Proof. by split. Qed.

Lemma store_load_handles s : always (store_load s) (fun res => same_handles s res.1).
Proof.
  unfold store_load. eapply always_then; [apply load_snapshot_handles|].
  intros [s1 [status|payload]] H1; [by apply always_ret; destruct H1|].
  eapply always_then; [apply load_journal_handles|]. intros [[s2 [status|[]]] records] H2;
    apply always_ret; exact (same_handles_trans _ _ _ (same_handles_trans _ _ _ (classify_handles _ s) H1) H2).
Qed.

Lemma store_open_live o : always (store_open o) (fun res => match res with
  | Value s => live o s /\ st_handle s = None
  | Failed _ => True
  end).
Proof.
  unfold store_open. case_bool_decide; [by apply always_ret|]. destruct (_ || _); [by apply always_ret|].
  eapply always_then; [apply always_true|]. intros prepared _. destruct (negb _); [by apply always_ret|].
  do 3 (eapply always_then; [apply always_true|]; intros ? _).
  eapply always_then; [apply always_true|]. intros removed _. destruct (negb _); [by apply always_ret|].
  eapply always_then; [apply always_true|]. intros locked _. destruct (negb _); [by apply always_ret|].
  eapply always_then; [apply always_true|]. intros size _. apply always_ret. by split; [split; [| |left]|].
Qed.

(** The snapshot and the journal hold exactly this state. *)
Definition holds_only (o : StoreOptions) (s : RuntimeState) (fs : gmap string (list Byte)) : Prop :=
  fs !! join (so_directory o) kSnapshotName =
    Some (snapshot_frame o (encode_binary RuntimeState_codec s)) /\
  fs !! join (so_directory o) kJournalName = Some [].

(** Closing writes the state of the runtime over whatever the store held. *)
Lemma close_works o r s fs :
  rt_closed r = false -> rt_store r = Some s -> live o s ->
  zlen (encode_binary RuntimeState_codec (rt_state r)) + 48 <= so_max_record_bytes o ->
  works fs (close r) (fun _ fs' => holds_only o (rt_state r) fs').
Proof.
  intros Hopen Hs Hlive Hfit. unfold close. rewrite Hopen. cbn zeta.
  change (rt_store (r <| rt_closed := true |>)) with (rt_store r). rewrite Hs. apply works_then.
  unfold checkpoint_locked. change (rt_store (r <| rt_closed := true |>)) with (rt_store r). rewrite Hs.
  apply works_then. change (rt_state (r <| rt_closed := true |>)) with (rt_state r).
  eapply works_weaken; [by apply (rotate_works o)|].
  intros [s1 rotated] fs1 (-> & [Ho1 Hc1 _] & _ & Hh1 & Hsnap & Hjournal).
  cbn [fst snd]. change (status_ok Status_success) with true. cbn [negb]. apply works_ret. cbn beta iota zeta.
  set (r1 := r <| rt_closed := true |> <| rt_store := Some s1 |>).
  change (rt_store (r1 <| rt_state := (rt_state r1) <| rs_journaled_events := 0 |> |>)) with (Some s1).
  cbn beta iota zeta. apply works_then. unfold store_close. rewrite Hc1. cbn zeta.
  rewrite Hh1. apply works_bind.
  assert (Hrelease : works fs1 release_lock (fun _ fs' => fs' = fs1)) by done.
  eapply works_weaken; [exact Hrelease|]. intros [] fs2 ->. apply works_ret, works_ret. by split.
Qed.

(** An open that is refused because the store cannot be loaded (damage, another format or
    semantic version) erases the store: giving up destroys the half-built runtime, which
    closes itself with a checkpoint of its empty state.  The refused snapshot is replaced
    and every journal record is gone. *)
Lemma refused_open_erases_store config directory w s w1 s' loaded w2 status :
  config_refusal config = None -> rc_store_directory config = Some directory ->
  store_open (store_options config directory) w = (Value s, w1) ->
  store_load s w1 = (s', loaded, w2) -> ld_result loaded = Failed status -> w_faults w2 = [] ->
  let o := store_options config directory in
  let empty := initial_state (rc_store_id config) (rc_coordinator config) (rc_epoch config) (rc_boot config) in
  zlen (encode_binary RuntimeState_codec empty) + 48 <= so_max_record_bytes o ->
  (runtime_open config w).1 = Some (Failed status) /\
  holds_only o empty (w_files (runtime_open config w).2).
Proof.
  intros Hconfig Hdir Hopen Hload Hfailed Hfaults o empty Hfit. fold o in Hopen.
  pose proof (store_open_live o w) as Hlive. rewrite Hopen in Hlive. cbn in Hlive.
  destruct Hlive as [Hlive Hh].
  pose proof (store_load_handles s w1) as Hsame. rewrite Hload in Hsame. cbn in Hsame.
  assert (Hlive' : live o s').
  { destruct Hsame as [A B C D], Hlive as [E F G]. split; [congruence|congruence|left; congruence]. }
  set (r := (fresh_runtime config) <| rt_store := Some s' |>).
  assert (Hrun : runtime_open config w = (Some (Failed status), (close r w2).2)).
  { unfold runtime_open. rewrite Hconfig, Hdir. erewrite io_then_eval by exact Hopen. cbn beta iota zeta.
    erewrite io_then_eval by exact Hload. cbn beta iota zeta. rewrite Hfailed. fold r.
    unfold abandon_open, io_then, mbind, io_bind. by destruct (close r w2). }
  rewrite Hrun. split; [done|].
  exact (proj1 (close_works o r s' (w_files w2) eq_refl eq_refl Hlive' Hfit w2 eq_refl Hfaults)).
Qed.

(** A store with one acknowledged event whose digest a flipped bit broke. *)
Definition sample_stored : RuntimeConfig := sample_config <| rc_store_directory := Some "/s" |>.
Definition damaged_world : World :=
  mkWorld {["/s/fabric.journal" := <[47%nat := 0]> (event_frame (store_options sample_stored "/s") [1; 2])
              ++ event_frame (store_options sample_stored "/s") [3]]} ["/s"] false [].
Definition damaged_open : Result Store * World := store_open (store_options sample_stored "/s") damaged_world.
Definition damaged_store : Store := value_or damaged_open.1 (mkStore StoreOptions_default StoreRecovery_default None false 0 0 true).
Definition damaged_load : Store * Loaded * World := store_load damaged_store damaged_open.2.

Lemma refused_open_erases_store_witness :
  let o := store_options sample_stored "/s" in
  let empty := initial_state "store-1" "coord" 1 1 in
  (runtime_open sample_stored damaged_world).1 =
    Some (Failed (refuse ReasonCode.StoreIntegrityFailure "frame digest mismatch")) /\
  holds_only o empty (w_files (runtime_open sample_stored damaged_world).2).
Proof.
  apply (refused_open_erases_store sample_stored "/s" damaged_world damaged_store damaged_open.2
    damaged_load.1.1 damaged_load.1.2 damaged_load.2).
  - vm_compute. reflexivity.
  - reflexivity.
  - vm_compute. reflexivity.
  - vm_compute. reflexivity.
  - vm_compute. reflexivity.
  - vm_compute. reflexivity.
  - vm_compute. discriminate.
Defined.
