(* ===== verification/Replay.v ===== *)
(** * Replay agrees with the live run

    What the journal has to bring back: the state of the runtime up to its clock, the
    freshness and health derived from it, and the records kept for reporting.  [core]
    takes those away; every reducer computes the same core from the same core, so a
    replay from the beginning, which leaves the clock behind, still rebuilds everything
    placement, authority and the lifecycle depend on.  A replay behind a snapshot does
    not: it has no fence tokens. *)

From S2P Require Import Prelude Std Reason Types Version Resources Bounded Digest Json JsonArchive Archive Model.
From S2P Require Import Codec Authority Dependency Eligibility Planner State Wire Store Journal Durability Reducers Intent.
From S2P Require Import Scenario Lifecycle Runtime Export Server Ingest Recovery.
#[local] Open Scope Z_scope.

(** The fields the core keeps, as rewrite rules. *)
#[local] Create Rewrite HintDb core_fields.

(** ** The core of a state *)
Definition core_dpu (d : DpuRecord) : DpuRecord := d <| dpu_health_fresh := false |>.
Definition core_instance (i : InstanceState) : InstanceState :=
  i <| inst_health := HealthState.Unknown |> <| inst_health_fresh := false |> <| inst_health_observed_at := 0 |>.
Definition core_topology (t : TopologySnapshot) : TopologySnapshot :=
  t <| topo_dpus := core_dpu <$> topo_dpus t |>.
Definition core (s : RuntimeState) : RuntimeState :=
  mkRuntimeState (rs_store_id s) (rs_coordinator s) (rs_epoch s) (rs_boot s) 0 (rs_watermark s)
    (rs_topology_generation s) (rs_capability_generation s) (rs_policy_generation s) (rs_deployment_generation s)
    (rs_policy s) (core_topology (rs_topology s)) (rs_services s) (rs_groups s) (rs_dependencies s)
    (core_instance <$> rs_instances s) (rs_plans s) (rs_authority s) (rs_fences s) TruncationLedger_empty []
    (rs_restart_fenced s) 0.
(** Two states that agree on it. *)
Definition agree (s t : RuntimeState) : Prop := core s = core t.
#[export] Instance agree_equivalence : Equivalence agree.
Proof. split; [by intros s|by intros s t|intros s t u]. unfold agree. congruence. Qed.

Lemma core_dpu_idem d : core_dpu (core_dpu d) = core_dpu d.
Proof. done. Qed.
Lemma core_instance_idem i : core_instance (core_instance i) = core_instance i.
Proof. done. Qed.
Lemma map_idem {A} (f g : A -> A) (l : list A) : (forall x, f (g x) = f x) -> f <$> (g <$> l) = f <$> l.
Proof. intros Hf. rewrite <-list_fmap_compose. apply list_fmap_ext. intros i x _. apply Hf. Qed.
Lemma core_topology_idem t : core_topology (core_topology t) = core_topology t.
Proof. unfold core_topology. cbn. by rewrite map_idem by done. Qed.
Lemma core_idem s : core (core s) = core s.
Proof. unfold core. cbn. by rewrite core_topology_idem, map_idem by done. Qed.
Lemma agree_core s : agree s (core s).
Proof. unfold agree. by rewrite core_idem. Qed.

(** Two states with the same core fields. *)
Lemma core_instances s l l' :
  core_instance <$> l = core_instance <$> l' -> core (s <| rs_instances := l |>) = core (s <| rs_instances := l' |>).
Proof. intros Hl. unfold core. cbn. by rewrite Hl. Qed.

(** ** Searches *)
Lemma list_find_map {A B} (f : A -> B) (P : B -> Prop) (Q : A -> Prop)
    `{!forall x, Decision (P x)} `{!forall x, Decision (Q x)} (l : list A) :
  (forall x, P (f x) <-> Q x) -> list_find P (f <$> l) = prod_map (fun i => i) f <$> list_find Q l.
Proof.
  intros HPQ. induction l as [|x l IH]; [done|]. cbn [fmap list_fmap list_find].
  destruct (decide (Q x)) as [Hq|Hq].
  - by rewrite decide_True by by apply HPQ.
  - rewrite decide_False by by rewrite HPQ. rewrite IH. by destruct (list_find Q l) as [[]|].
Qed.

Lemma topology_find_core t id : topology_find (core_topology t) id = core_dpu <$> topology_find t id.
Proof.
  unfold topology_find, core_topology. cbn [topo_dpus set eta_TopologySnapshot].
  rewrite (list_find_map core_dpu _ (fun d => dpu_id d = id)) by done. by destruct (list_find _ _) as [[]|].
Qed.

Lemma find_device_core s dpu :
  find_device (core s) dpu = prod_map (fun i => i) core_dpu <$> find_device s dpu.
Proof.
  unfold find_device, topology_find_index, core, core_topology.
  cbn [rs_topology topo_dpus set eta_TopologySnapshot eta_RuntimeState].
  rewrite (list_find_map core_dpu _ (fun d => dpu_id d = dpu)) by done.
  destruct (list_find _ _) as [[i d]|]; [|done]. cbn. rewrite list_lookup_fmap. by destruct (_ !! i).
Qed.

Lemma lower_bound_map {A B} (f : A -> B) (p : B -> bool) (q : A -> bool) (l : list A) :
  (forall x, p (f x) = q x) -> lower_bound p (f <$> l) = lower_bound q l.
Proof.
  intros Hpq. unfold lower_bound. rewrite length_fmap. generalize 0%nat as first, (length l) at 2 4 as len.
  induction (S (length l)) as [|fuel IH]; intros first len; [done|]. cbn [lower_bound_loop].
  destruct len as [|len]; [done|]. rewrite list_lookup_fmap. destruct (l !! _) as [x|]; [|done]. cbn.
  rewrite Hpq. destruct (q x); apply IH.
Qed.

Lemma find_instance_core l id : find_instance (core_instance <$> l) id = find_instance l id.
Proof.
  unfold find_instance, find_sorted.
  rewrite (lower_bound_map core_instance _ (fun x => str_lt (inst_id x) id)) by done.
  rewrite list_lookup_fmap. by destruct (l !! _).
Qed.
Lemma lookup_instance_core s id :
  lookup_instance (core s) id = prod_map (fun i => i) core_instance <$> lookup_instance s id.
Proof.
  unfold lookup_instance. change (rs_instances (core s)) with (core_instance <$> rs_instances s).
  rewrite find_instance_core. destruct (find_instance _ _) as [i|]; [|done].
  rewrite list_lookup_fmap. by destruct (_ !! i).
Qed.

Lemma std_sort_map {A B} (f : A -> B) (lt : B -> B -> bool) (lt' : A -> A -> bool) (l : list A) :
  (forall x y, lt (f x) (f y) = lt' x y) -> std_sort lt (f <$> l) = f <$> std_sort lt' l.
Proof.
  intros Hlt. unfold std_sort. induction l as [|x l IH]; [done|]. cbn. cbn in IH. rewrite IH.
  generalize (foldr (insert_sorted lt') [] l). intros k. clear IH l. induction k as [|y k IH]; [done|].
  cbn. rewrite Hlt. destruct (lt' y x); [|done]. cbn. by rewrite <-IH.
Qed.
Lemma sort_instances_core l : sort_instances (core_instance <$> l) = core_instance <$> sort_instances l.
Proof. unfold sort_instances. by apply std_sort_map. Qed.

(** ** Planning *)
Lemma evaluate_core d service policy now : evaluate (core_dpu d) service policy now = evaluate d service policy now.
Proof. done. Qed.
Lemma score_core d service n m weights :
  score_placement (core_dpu d) service n m weights = score_placement d service n m weights.
Proof. done. Qed.

Definition core_candidate (c : Candidate) : Candidate := mkCandidate (core_dpu (cand_dpu c)) (cand_score c) (cand_evidence c).
Definition core_candidates {A} : A * list Candidate -> A * list Candidate :=
  prod_map (fun x => x) (fmap core_candidate).

Section core_plan.
Context (policy : PolicyState) (services : list ServiceDefinition) (group : ServiceGroup)
  (now : LogicalInstant) (weights : PlacementWeights).

Lemma candidate_step_core p service acc d :
  candidate_step policy now weights p service (core_candidates acc) (core_dpu d) =
  core_candidates (candidate_step policy now weights p service acc d).
Proof.
  destruct acc as [sink candidates]. unfold candidate_step, core_candidates. cbn [prod_map fst snd].
  rewrite evaluate_core. destruct (negb (el_eligible _)); [done|]. destruct (el_unknown _); [done|].
  change (scope_conflict p service (core_dpu d)) with (scope_conflict p service d).
  destruct (scope_conflict p service d); [done|]. cbn [prod_map fst snd]. by rewrite fmap_app.
Qed.

Lemma collect_candidates_core p service devices :
  collect_candidates policy now weights p service (core_dpu <$> devices) =
  core_candidates (collect_candidates policy now weights p service devices).
Proof.
  unfold collect_candidates.
  assert (Hfold : forall acc, foldl (candidate_step policy now weights p service) (core_candidates acc) (core_dpu <$> devices) =
    core_candidates (foldl (candidate_step policy now weights p service) acc devices)).
  { induction devices as [|d devices IH]; intros acc; [done|]. cbn. by rewrite candidate_step_core, IH. }
  rewrite (Hfold (pl_sink p, []) : foldl _ (pl_sink p, []) _ = _).
  destruct (foldl _ (pl_sink p, []) devices) as [sink candidates]. unfold core_candidates, prod_map.
  cbn [fst snd].
  f_equal. by apply std_sort_map.
Qed.

Lemma place_candidates_core service candidates : forall p plan domains,
  place_candidates policy group p service plan domains (core_candidate <$> candidates) =
  place_candidates policy group p service plan domains candidates.
Proof.
  induction candidates as [|c candidates IH]; intros p plan domains; [done|].
  cbn [fmap list_fmap place_candidates].
  change (skip_candidate policy group p domains service (cand_dpu (core_candidate c)))
    with (skip_candidate policy group p domains service (cand_dpu c)).
  destruct (_ <=? _); [done|]. destruct (skip_candidate _ _ _ _ _ _); apply IH.
Qed.

Lemma place_services_core authority devices desired order sink :
  place_services policy services group authority now weights (core_dpu <$> devices) desired order sink =
  place_services policy services group authority now weights devices desired order sink.
Proof.
  unfold place_services.
  assert (Hfold : forall p, foldl (place_service policy services group now weights (core_dpu <$> devices) desired) p order =
    foldl (place_service policy services group now weights devices desired) p order).
  { induction order as [|id order IH]; intros p; [done|]. cbn. rewrite IH. f_equal. unfold place_service.
    destruct (find_service services id) as [service|]; [|done]. rewrite collect_candidates_core.
    destruct (collect_candidates _ _ _ _ _ _) as [p' candidates]. unfold core_candidates.
    cbn [prod_map fst snd].
    rewrite place_candidates_core. by rewrite length_fmap. }
  by rewrite Hfold.
Qed.
End core_plan.

Lemma plan_intent_core bounds topology policy services graph group intent authority now epoch boot weights :
  plan_intent bounds (core_topology topology) policy services graph group intent authority now epoch boot weights =
  plan_intent bounds topology policy services graph group intent authority now epoch boot weights.
Proof.
  unfold plan_intent. destruct (intent_refusal _ _ _ _); [done|].
  destruct (admit_services _ _ _ _ _ _) as [|[sink a]]; [done|]. cbn [or_return].
  destruct (order_services _ _ _) as [|order]; [done|]. cbn [or_return].
  destruct (close_dependencies _ _ _ _) as [|sink']; [done|]. cbn [or_return].
  unfold candidate_devices. change (topo_dpus (core_topology topology)) with (core_dpu <$> topo_dpus topology).
  rewrite (std_sort_map core_dpu _ (lt_by dpu_id str_lt)) by done. unfold zlen. rewrite length_fmap.
  destruct (_ <? _); [done|]. cbn [or_return]. by rewrite place_services_core.
Qed.

(** ** The reducers *)

Lemma core_map (f : InstanceState -> InstanceState) (l : list InstanceState) :
  (forall i, core_instance (f (core_instance i)) = core_instance (f i)) ->
  core_instance <$> (f <$> (core_instance <$> l)) = core_instance <$> (f <$> l).
Proof. intros Hf. rewrite <-!list_fmap_compose. apply list_fmap_ext. intros i x _. apply Hf. Qed.

(** The rules for states built from [s] and from its core. *)
Ltac core_done := unfold core; cbn [set eta_RuntimeState rs_store_id rs_coordinator rs_epoch rs_boot rs_clock
  rs_watermark rs_topology_generation rs_capability_generation rs_policy_generation rs_deployment_generation rs_policy
  rs_topology rs_services rs_groups rs_dependencies rs_instances rs_plans rs_authority rs_fences rs_truncations
  rs_decisions rs_restart_fenced rs_journaled_events fst snd];
  rewrite ?core_topology_idem, ?map_idem, ?core_map by done; try done.

(** The fields the core keeps. *)
Lemma core_epoch s : rs_epoch (core s) = rs_epoch s.
Proof. done. Qed.
Lemma core_boot s : rs_boot (core s) = rs_boot s.
Proof. done. Qed.
Lemma core_coordinator s : rs_coordinator (core s) = rs_coordinator s.
Proof. done. Qed.
Lemma core_watermark s : rs_watermark (core s) = rs_watermark s.
Proof. done. Qed.
Lemma core_topology_generation s : rs_topology_generation (core s) = rs_topology_generation s.
Proof. done. Qed.
Lemma core_capability_generation s : rs_capability_generation (core s) = rs_capability_generation s.
Proof. done. Qed.
Lemma core_policy_generation s : rs_policy_generation (core s) = rs_policy_generation s.
Proof. done. Qed.
Lemma core_deployment_generation s : rs_deployment_generation (core s) = rs_deployment_generation s.
Proof. done. Qed.
Lemma core_policy s : rs_policy (core s) = rs_policy s.
Proof. done. Qed.
Lemma core_services s : rs_services (core s) = rs_services s.
Proof. done. Qed.
Lemma core_groups s : rs_groups (core s) = rs_groups s.
Proof. done. Qed.
Lemma core_dependencies s : rs_dependencies (core s) = rs_dependencies s.
Proof. done. Qed.
Lemma core_plans s : rs_plans (core s) = rs_plans s.
Proof. done. Qed.
Lemma core_authority s : rs_authority (core s) = rs_authority s.
Proof. done. Qed.
Lemma core_fences s : rs_fences (core s) = rs_fences s.
Proof. done. Qed.
#[local] Hint Rewrite
  core_epoch core_boot core_coordinator core_watermark core_topology_generation
  core_capability_generation core_policy_generation core_deployment_generation core_policy
  core_services core_groups core_dependencies core_plans core_authority core_fences : core_fields.
Ltac core_fields := autorewrite with core_fields.

(** The guards that refuse: the state stays as it was. *)
Ltac core_guards :=
  repeat match goal with |- context [if ?b then (core _, _) else _] => destruct b; [cbn [fst]; by rewrite core_idem|] end.

Lemma core_refresh_dpu clock d : core_dpu (refresh_dpu clock d).1 = core_dpu d.
Proof. unfold refresh_dpu. by destruct (_ || _). Qed.
Lemma core_lose_freshness id i : core_instance (lose_freshness id i) = core_instance i.
Proof. unfold lose_freshness. by case_bool_decide. Qed.
Lemma core_refresh_instance t i : core_instance (refresh_instance t i) = core_instance i.
Proof.
  unfold refresh_instance. destruct (topology_find _ _) as [d|]; [|done]. destruct (negb _); [done|].
  cbn zeta. by destruct (_ && _).
Qed.
Lemma core_refresh_health s : core (refresh_health s) = core s.
Proof.
  unfold refresh_health.
  assert (Hfold : forall dpus (ds : list DpuRecord) (xs : list InstanceState),
    let r := foldl (fun '((dpus, instances) : list DpuRecord * list InstanceState) dpu =>
      let '(dpu, stale) := refresh_dpu (rs_clock s) dpu in
      (dpus ++ [dpu], if stale then lose_freshness (dpu_id dpu) <$> instances else instances)) (ds, xs) dpus in
    core_dpu <$> r.1 = (core_dpu <$> ds) ++ (core_dpu <$> dpus) /\ core_instance <$> r.2 = core_instance <$> xs).
  { induction dpus as [|d dpus IH]; intros ds xs; [by rewrite app_nil_r|]. cbn [foldl].
    pose proof (core_refresh_dpu (rs_clock s) d) as Hd. destruct (refresh_dpu (rs_clock s) d) as [d' stale].
    cbn in Hd.
    destruct (IH (ds ++ [d']) (if stale then lose_freshness (dpu_id d') <$> xs else xs)) as [-> ->].
    rewrite fmap_app, <-app_assoc. cbn. rewrite Hd. split; [done|]. destruct stale; [|done].
    apply map_idem, core_lose_freshness. }
  specialize (Hfold (topo_dpus (rs_topology s)) [] (rs_instances s)). cbn zeta in Hfold.
  destruct (foldl _ _ _) as [dpus instances]. destruct Hfold as [Hd Hi]. cbn in Hd, Hi.
  unfold core, core_topology. cbn. rewrite Hd, <-Hi, (map_idem core_instance) by apply core_refresh_instance. done.
Qed.

Lemma core_fence_instance at_ reason i :
  core_instance (fence_instance at_ reason (core_instance i)) = core_instance (fence_instance at_ reason i).
Proof. done. Qed.


Lemma reduce_time_core s body : core (reduce_time s body).1 = core s.
Proof. unfold reduce_time. destruct (_ <? _); [done|]. cbn [fst]. by rewrite core_refresh_health. Qed.

Lemma reduce_coordinator_core s event body :
  core (reduce_coordinator (core s) event body).1 = core (reduce_coordinator s event body).1.
Proof.
  unfold reduce_coordinator. change (rs_epoch (core s)) with (rs_epoch s).
  destruct (_ <? _); [apply core_idem|].
  change (rs_authority (core s)) with (rs_authority s). destruct (fence_all _) as [authority released].
  change (rs_fences (core s <| rs_authority := authority |>)) with (rs_fences s).
  change (rs_fences (s <| rs_authority := authority |>)) with (rs_fences s).
  change (rs_boot (core s <| rs_authority := authority |>)) with (rs_boot s).
  change (rs_boot (s <| rs_authority := authority |>)) with (rs_boot s).
  destruct (advance_epoch _ _ _) as [fences advanced]. destruct (negb _); core_done.
Qed.

Lemma reduce_service_core s body bounds :
  core (reduce_service (core s) body bounds).1 = core (reduce_service s body bounds).1.
Proof.
  unfold reduce_service. core_fields. cbn zeta. core_guards. core_done.
Qed.
Lemma reduce_group_core s body bounds :
  core (reduce_group (core s) body bounds).1 = core (reduce_group s body bounds).1.
Proof.
  unfold reduce_group. core_fields. cbn zeta. core_guards.
  destruct (list_find _ _) as [[i member]|]; [cbn [fst]; by rewrite core_idem|]. core_guards. core_done.
Qed.
Lemma reduce_dependency_core s body bounds :
  core (reduce_dependency (core s) body bounds).1 = core (reduce_dependency s body bounds).1.
Proof.
  unfold reduce_dependency. core_fields. cbn zeta.
  destruct (graph_build _ _ _) as [graph built]. core_guards. core_done.
Qed.
Lemma reduce_policy_core s event body :
  core (reduce_policy (core s) event body).1 = core (reduce_policy s event body).1.
Proof.
  unfold reduce_policy. core_fields. cbn zeta.
  core_guards. core_done.
Qed.

(** *** Topology and devices *)
Lemma admit_devices_core s at_ bounds dpus : forall previous,
  admit_devices (core s) at_ bounds previous dpus = admit_devices s at_ bounds previous dpus.
Proof.
  induction dpus as [|d dpus IH]; intros previous; [done|]. cbn [admit_devices]. core_fields.
  destruct (_ || _); [done|]. case_bool_decide; [done|]. destruct (capability_normalize _ _) as [caps ok].
  destruct (negb _); [done|]. by rewrite IH.
Qed.

Lemma core_lose_device at_ s id : core (lose_device at_ (core s) id) = core (lose_device at_ s id).
Proof.
  unfold lose_device. core_fields. core_done. f_equal. apply core_map. intros i. unfold lose_instance.
  change (inst_dpu (core_instance i)) with (inst_dpu i). by case_bool_decide.
Qed.
Lemma core_lose_devices at_ ids s t : agree s t -> agree (foldl (lose_device at_) s ids) (foldl (lose_device at_) t ids).
Proof.
  revert s t. induction ids as [|id ids IH]; intros s t Hst; [done|]. cbn. apply IH. unfold agree.
  by rewrite <-core_lose_device, Hst, core_lose_device.
Qed.
Lemma lose_devices_topology at_ ids s : rs_topology (foldl (lose_device at_) s ids) = rs_topology s.
Proof. revert s. induction ids as [|id ids IH]; intros s; [done|]. cbn. by rewrite IH. Qed.

Lemma core_set_capability s n :
  core (s <| rs_capability_generation := n |>) = (core s) <| rs_capability_generation := n |>.
Proof. done. Qed.

Lemma reduce_topology_core s event body bounds :
  core (reduce_topology (core s) event body bounds).1 = core (reduce_topology s event body bounds).1.
Proof.
  unfold reduce_topology. core_fields. cbn zeta. core_guards. rewrite admit_devices_core.
  destruct (admit_devices _ _ _ _ _) as [refusal|dpus]; [cbn [fst]; by rewrite core_idem|]. cbn [fst].
  rewrite !core_refresh_health, !lose_devices_topology.
  assert (Hids : dpu_id <$> topo_dpus (rs_topology (core s)) = dpu_id <$> topo_dpus (rs_topology s))
    by (change (topo_dpus (rs_topology (core s))) with (core_dpu <$> topo_dpus (rs_topology s));
      by rewrite <-list_fmap_compose).
  rewrite Hids. set (snapshot := (tobs_snapshot body) <| topo_dpus := dpus |>). set (removed := filter _ _).
  set (at_ := fe_at event). set (generation := topo_generation (tobs_snapshot body)).
  set (s1 := s <| rs_topology := snapshot |> <| rs_topology_generation := generation |>).
  set (s2 := (core s) <| rs_topology := snapshot |> <| rs_topology_generation := generation |>).
  assert (Hs : agree s2 s1) by (unfold agree, s1, s2; core_done).
  pose proof (core_lose_devices at_ removed s2 s1 Hs) as Hlost. unfold agree in Hlost.
  assert (Hgen : rs_capability_generation (foldl (lose_device at_) s2 removed) =
    rs_capability_generation (foldl (lose_device at_) s1 removed)).
  { rewrite <-(core_capability_generation (foldl _ s2 removed)), Hlost. done. }
  by rewrite !core_set_capability, Hlost, Hgen.
Qed.

Lemma core_set_device s i d e :
  core_dpu d = core_dpu e -> core (set_device (core s) i d) = core (set_device s i e).
Proof.
  intros Hd. unfold set_device. core_done.
  assert (Hl : core_dpu <$> <[i := d]> (core_dpu <$> topo_dpus (rs_topology s)) =
    core_dpu <$> <[i := e]> (topo_dpus (rs_topology s))) by by rewrite !list_fmap_insert, Hd, map_idem by done.
  unfold core_topology. cbn [topo_dpus set eta_TopologySnapshot]. by rewrite Hl.
Qed.

(** The fields the core of a device keeps. *)
Lemma core_dpu_id d : dpu_id (core_dpu d) = dpu_id d.
Proof. done. Qed.
Lemma core_dpu_attachment d : dpu_attachment (core_dpu d) = dpu_attachment d.
Proof. done. Qed.
Lemma core_dpu_domain d : dpu_domain (core_dpu d) = dpu_domain d.
Proof. done. Qed.
Lemma core_dpu_profile d : dpu_profile (core_dpu d) = dpu_profile d.
Proof. done. Qed.
Lemma core_dpu_capabilities d : dpu_capabilities (core_dpu d) = dpu_capabilities d.
Proof. done. Qed.
Lemma core_dpu_capacity d : dpu_capacity (core_dpu d) = dpu_capacity d.
Proof. done. Qed.
Lemma core_dpu_allocated d : dpu_allocated (core_dpu d) = dpu_allocated d.
Proof. done. Qed.
Lemma core_dpu_state d : dpu_state (core_dpu d) = dpu_state d.
Proof. done. Qed.
Lemma core_dpu_topology_generation d : dpu_topology_generation (core_dpu d) = dpu_topology_generation d.
Proof. done. Qed.
Lemma core_dpu_capability_generation d : dpu_capability_generation (core_dpu d) = dpu_capability_generation d.
Proof. done. Qed.
Lemma core_dpu_device_evidence d : dpu_device_evidence (core_dpu d) = dpu_device_evidence d.
Proof. done. Qed.
Lemma core_dpu_health_evidence d : dpu_health_evidence (core_dpu d) = dpu_health_evidence d.
Proof. done. Qed.
Lemma core_dpu_health d : dpu_health (core_dpu d) = dpu_health d.
Proof. done. Qed.
Lemma core_dpu_health_observed_at d : dpu_health_observed_at (core_dpu d) = dpu_health_observed_at d.
Proof. done. Qed.
#[local] Hint Rewrite
  core_dpu_id core_dpu_attachment core_dpu_domain core_dpu_profile core_dpu_capabilities
  core_dpu_capacity core_dpu_allocated core_dpu_state core_dpu_topology_generation
  core_dpu_capability_generation core_dpu_device_evidence core_dpu_health_evidence core_dpu_health
  core_dpu_health_observed_at : core_fields.

(** The device both states find. *)
Ltac core_device s :=
  rewrite find_device_core;
  destruct (find_device s _) as [[i d]|]; cbn [fmap option_fmap option_map prod_map fst snd];
  [cbn zeta; core_fields|by rewrite core_idem].

Lemma reduce_capability_core s event body bounds :
  core (reduce_capability (core s) event body bounds).1 = core (reduce_capability s event body bounds).1.
Proof.
  unfold reduce_capability. core_device s. destruct (capability_normalize _ _) as [candidate ok]. core_guards.
  cbn [fst]. rewrite !core_set_capability. apply (f_equal (fun t => t <| rs_capability_generation := _ |>)).
  by apply core_set_device.
Qed.
Lemma reduce_health_core s event body :
  core (reduce_health (core s) event body).1 = core (reduce_health s event body).1.
Proof.
  unfold reduce_health. core_device s. core_guards. cbn [fst]. rewrite !core_refresh_health.
  by apply core_set_device.
Qed.
Lemma reduce_attached_core s event body :
  core (reduce_attached (core s) event body).1 = core (reduce_attached s event body).1.
Proof. unfold reduce_attached. core_device s. core_guards. by apply core_set_device. Qed.
Lemma reduce_lost_core s event body :
  core (reduce_lost (core s) event body).1 = core (reduce_lost s event body).1.
Proof.
  unfold reduce_lost. core_device s. core_guards. cbn [fst].
  apply (core_lose_devices _ [dlost_dpu body]). by apply core_set_device.
Qed.

(** *** Instances *)

(** The fields the core of an instance keeps. *)
Lemma core_inst_id i : inst_id (core_instance i) = inst_id i.
Proof. done. Qed.
Lemma core_inst_service i : inst_service (core_instance i) = inst_service i.
Proof. done. Qed.
Lemma core_inst_group i : inst_group (core_instance i) = inst_group i.
Proof. done. Qed.
Lemma core_inst_version i : inst_version (core_instance i) = inst_version i.
Proof. done. Qed.
Lemma core_inst_index i : inst_index (core_instance i) = inst_index i.
Proof. done. Qed.
Lemma core_inst_incarnation i : inst_incarnation (core_instance i) = inst_incarnation i.
Proof. done. Qed.
Lemma core_inst_dpu i : inst_dpu (core_instance i) = inst_dpu i.
Proof. done. Qed.
Lemma core_inst_attachment i : inst_attachment (core_instance i) = inst_attachment i.
Proof. done. Qed.
Lemma core_inst_domain i : inst_domain (core_instance i) = inst_domain i.
Proof. done. Qed.
Lemma core_inst_deployment_generation i : inst_deployment_generation (core_instance i) = inst_deployment_generation i.
Proof. done. Qed.
Lemma core_inst_state i : inst_state (core_instance i) = inst_state i.
Proof. done. Qed.
Lemma core_inst_topology_generation i : inst_topology_generation (core_instance i) = inst_topology_generation i.
Proof. done. Qed.
Lemma core_inst_capability_generation i : inst_capability_generation (core_instance i) = inst_capability_generation i.
Proof. done. Qed.
Lemma core_inst_attempts i : inst_attempts (core_instance i) = inst_attempts i.
Proof. done. Qed.
Lemma core_inst_verified_digest i : inst_verified_digest (core_instance i) = inst_verified_digest i.
Proof. done. Qed.
Lemma core_inst_verified_at i : inst_verified_at (core_instance i) = inst_verified_at i.
Proof. done. Qed.
Lemma core_inst_verified_evidence i : inst_verified_evidence (core_instance i) = inst_verified_evidence i.
Proof. done. Qed.
Lemma core_inst_effect_fence_serial i : inst_effect_fence_serial (core_instance i) = inst_effect_fence_serial i.
Proof. done. Qed.
Lemma core_inst_effect_fenced_at i : inst_effect_fenced_at (core_instance i) = inst_effect_fenced_at i.
Proof. done. Qed.
Lemma core_inst_fence_reason i : inst_fence_reason (core_instance i) = inst_fence_reason i.
Proof. done. Qed.
Lemma core_inst_reasons i : inst_reasons (core_instance i) = inst_reasons i.
Proof. done. Qed.
#[local] Hint Rewrite
  core_inst_id core_inst_service core_inst_group core_inst_version core_inst_index
  core_inst_incarnation core_inst_dpu core_inst_attachment core_inst_domain
  core_inst_deployment_generation core_inst_state core_inst_topology_generation
  core_inst_capability_generation core_inst_attempts core_inst_verified_digest core_inst_verified_at
  core_inst_verified_evidence core_inst_effect_fence_serial core_inst_effect_fenced_at
  core_inst_fence_reason core_inst_reasons : core_fields.

Lemma core_set_instance s i x y :
  core_instance x = core_instance y -> core (set_instance (core s) i x) = core (set_instance s i y).
Proof. intros Hx. unfold set_instance. core_done. by rewrite !list_fmap_insert, Hx, map_idem by done. Qed.

(** The instance both states find. *)
Ltac core_lookup s :=
  rewrite lookup_instance_core;
  destruct (lookup_instance s _) as [[i x]|]; cbn [fmap option_fmap option_map prod_map fst snd];
  [cbn zeta; core_fields|by rewrite core_idem].

Lemma reduce_quiesce_core s event body :
  core (reduce_quiesce (core s) event body).1 = core (reduce_quiesce s event body).1.
Proof.
  unfold reduce_quiesce. cbn [fst]. core_done. f_equal. apply core_map. intros x.
  unfold quiesce_instance. change (quiesces (qreq_service body) (core_instance x)) with (quiesces (qreq_service body) x).
  by destruct (quiesces _ x).
Qed.
Lemma core_current_attempt x : current_attempt (core_instance x) = current_attempt x.
Proof. done. Qed.
#[local] Hint Rewrite
  core_current_attempt : core_fields.
Lemma reduce_acknowledged_core s body :
  core (reduce_acknowledged (core s) body).1 = core (reduce_acknowledged s body).1.
Proof. unfold reduce_acknowledged. core_lookup s. core_guards. by apply core_set_instance. Qed.

Lemma effect_refusal_core s event report x :
  effect_refusal (core s) event report (core_instance x) = effect_refusal s event report x.
Proof. done. Qed.
Lemma core_set_authority s a : core (s <| rs_authority := a |>) = (core s) <| rs_authority := a |>.
Proof. done. Qed.
Lemma reduce_effect_core s event body :
  core (reduce_effect (core s) event body).1 = core (reduce_effect s event body).1.
Proof.
  unfold reduce_effect. core_lookup s. rewrite effect_refusal_core.
  destruct (effect_refusal _ _ _ _); [cbn [fst]; by rewrite core_idem|].
  case_bool_decide; [by apply core_set_instance|]. case_bool_decide; [|by apply core_set_instance].
  cbn [fst]. rewrite !core_set_authority. apply (f_equal (fun t => t <| rs_authority := _ |>)).
  by apply core_set_instance.
Qed.

(** *** Intents *)
Lemma agree_set_instance s t i x y :
  agree s t -> core_instance x = core_instance y -> agree (set_instance s i x) (set_instance t i y).
Proof.
  unfold agree. intros Hs Hx. rewrite <-(core_set_instance s i x x), <-(core_set_instance t i x y) by done.
  by rewrite Hs.
Qed.
Lemma agree_fences s t : agree s t -> rs_fences s = rs_fences t.
Proof. intros Hs. exact (f_equal rs_fences Hs). Qed.
Lemma agree_instances s t : agree s t -> core_instance <$> rs_instances s = core_instance <$> rs_instances t.
Proof. intros Hs. exact (f_equal rs_instances Hs). Qed.
Lemma agree_set_fences s t f : agree s t -> agree (s <| rs_fences := f |>) (t <| rs_fences := f |>).
Proof. intros Hs. exact (f_equal (fun u => u <| rs_fences := f |>) Hs). Qed.
Lemma agree_set_instances s t l l' :
  agree s t -> core_instance <$> l = core_instance <$> l' ->
  agree (s <| rs_instances := l |>) (t <| rs_instances := l' |>).
Proof.
  intros Hs Hl. unfold agree in *. transitivity ((core s) <| rs_instances := core_instance <$> l |>); [done|].
  by rewrite Hs, Hl.
Qed.

(** Results that agree: the same refusal, or states that agree and related values. *)
Definition agree_result {X} (P : relation X) (r r' : Status + RuntimeState * X) : Prop :=
  match r, r' with
  | inl status, inl status' => status = status'
  | inr (s, x), inr (t, y) => agree s t /\ P x y
  | _, _ => False
  end.
Definition same_core (x y : InstanceState) : Prop := core_instance x = core_instance y.

Lemma lookup_instance_agree s t id : agree s t ->
  prod_map (fun i => i) core_instance <$> lookup_instance s id =
  prod_map (fun i => i) core_instance <$> lookup_instance t id.
Proof. intros Hs. by rewrite <-!lookup_instance_core, Hs. Qed.

Section reconcile_core.
Context (plan : DeploymentPlan) (group : ServiceGroup) (at_ : LogicalInstant) (bounds : RuntimeBounds).

Lemma core_push_attempt a x y : same_core x y -> same_core (push_attempt a x) (push_attempt a y).
Proof. intros Hx. exact (f_equal (push_attempt a) Hx). Qed.

Lemma authorize_agree s t i x y id phase : agree s t -> same_core x y ->
  agree_result same_core (authorize plan at_ s i x id phase) (authorize plan at_ t i y id phase).
Proof.
  intros Hs Hx. unfold authorize. rewrite (agree_fences _ _ Hs).
  destruct (fence_issue _ _) as [fences [fence|status]]; [|done].
  assert (Hn : next_attempt x = next_attempt y) by exact (f_equal next_attempt Hx). rewrite Hn.
  split; [|by apply core_push_attempt]. apply agree_set_instance;
    [by apply agree_set_fences|by apply core_push_attempt].
Qed.

Lemma reconcile_replica_agree sp s t stats replica : agree s t ->
  agree_result eq (reconcile_replica plan group at_ bounds sp (s, stats) replica)
    (reconcile_replica plan group at_ bounds sp (t, stats) replica).
Proof.
  intros Hs. unfold reconcile_replica. cbn zeta. set (id := make_instance_id _ _ _).
  pose proof (lookup_instance_agree s t id Hs) as Hl.
  assert (Hlen : zlen (rs_instances s) = zlen (rs_instances t)).
  { unfold zlen. by rewrite <-(length_fmap core_instance), (agree_instances _ _ Hs), length_fmap. }
  destruct (lookup_instance s id) as [[i x]|], (lookup_instance t id) as [[j y]|]; try done; cbn in Hl.
  2: { rewrite Hlen. destruct (_ <=? _); [done|]. rewrite (agree_fences _ _ Hs).
       destruct (fence_issue _ _) as [fences [fence|status]]; [|done]. split; [|done].
       apply agree_set_instances; [by apply agree_set_fences|].
       by rewrite !fmap_app, (agree_instances _ _ Hs). }
  apply (inj Some) in Hl. assert (Hx : same_core x y) by exact (f_equal snd Hl).
  assert (Hij : i = j) by exact (f_equal fst Hl). subst j. clear Hl.
  assert (Hd : inst_dpu x = inst_dpu y) by exact (f_equal inst_dpu Hx).
  assert (Hv : inst_version x = inst_version y) by exact (f_equal inst_version Hx).
  assert (Hst : inst_state x = inst_state y) by exact (f_equal inst_state Hx).
  assert (Hstale : stale_attempt x = stale_attempt y) by exact (f_equal stale_attempt Hx).
  rewrite Hd, Hv, Hst, Hstale. destruct (_ || _); [|destruct (stale_attempt y)].
  - assert (Hr : same_core (replaced_instance plan at_ (sp_version sp) replica x)
      (replaced_instance plan at_ (sp_version sp) replica y))
      by exact (f_equal (replaced_instance plan at_ (sp_version sp) replica) Hx).
    pose proof (authorize_agree s t i _ _ id LifecycleState.Authorized Hs Hr) as Ha.
    destruct (authorize _ _ s _ _ _ _) as [|[s' x']], (authorize _ _ t _ _ _ _) as [|[t' y']]; try done.
    destruct Ha as [Hs' Hx'].
    split; [|done]. apply agree_set_instance; [done|].
    exact (f_equal (fun z => z <| inst_state := LifecycleState.Authorized |>) Hx').
  - pose proof (authorize_agree s t i x y id LifecycleState.Authorized Hs Hx) as Ha.
    destruct (authorize _ _ s _ _ _ _) as [|[s' x']], (authorize _ _ t _ _ _ _) as [|[t' y']]; try done.
    destruct Ha as [Hs' Hx']. split; [|done]. apply agree_set_instance; [done|].
    exact (f_equal (fun z => z <| inst_state := LifecycleState.Authorized |>
      <| inst_deployment_generation := plan_generation plan |>) Hx').
  - split; [|done]. apply agree_set_instance; [done|].
    exact (f_equal (fun z => z <| inst_deployment_generation := plan_generation plan |>) Hx).
Qed.

Lemma fold_status_agree {A X} (f g : RuntimeState * X -> A -> Status + RuntimeState * X) (l : list A) :
  (forall s t x a, agree s t -> agree_result eq (f (s, x) a) (g (t, x) a)) ->
  forall s t x, agree s t -> agree_result eq (fold_status f (s, x) l) (fold_status g (t, x) l).
Proof.
  intros Hf. induction l as [|a l IH]; intros s t x Hs; [done|]. cbn [fold_status].
  specialize (Hf s t x a Hs). destruct (f (s, x) a) as [|[s' x']], (g (t, x) a) as [|[t' y']]; try done.
  destruct Hf as [Hs' <-]. by apply IH.
Qed.

Definition quiesce_agree (r r' : Status + FenceIssuer * list InstanceState * ReconcileStats) : Prop :=
  match r, r' with
  | inl status, inl status' => status = status'
  | inr (f, xs, n), inr (g, ys, m) => f = g /\ n = m /\ core_instance <$> xs = core_instance <$> ys
  | _, _ => False
  end.
Lemma quiesce_step_agree fences xs ys stats x y : same_core x y -> core_instance <$> xs = core_instance <$> ys ->
  quiesce_agree (quiesce_uncovered plan group at_ (fences, xs, stats) x)
    (quiesce_uncovered plan group at_ (fences, ys, stats) y).
Proof.
  intros Hx Hxs. unfold quiesce_uncovered.
  assert (Hleaves : leaves_plan plan group x = leaves_plan plan group y) by exact (f_equal (leaves_plan plan group) Hx).
  assert (Hid : inst_id x = inst_id y) by exact (f_equal inst_id Hx).
  assert (Hgo : forall z z' : InstanceState, same_core z z' -> core_instance <$> xs ++ [z] = core_instance <$> ys ++ [z'])
    by (intros z z' Hz; rewrite !fmap_app, Hxs; cbn; by rewrite Hz).
  rewrite Hleaves. destruct (negb (leaves_plan _ _ _)); [by split_and!; [| |apply Hgo]|].
  set (quiesced := fun z => (cancel_open_attempts at_ ReasonCode.QuiesceRequested LifecycleState.Quiescing z)
    <| inst_health_fresh := false |>).
  assert (Hq : same_core (quiesced x) (quiesced y)) by exact (f_equal quiesced Hx).
  fold (quiesced x) (quiesced y). generalize (quiesced x) (quiesced y) Hq. clear quiesced Hq Hx Hleaves Hid x y.
  intros x y Hx. cbn zeta. destruct (negb _); [by split_and!; [| |apply Hgo]|].
  assert (Hid : inst_id x = inst_id y) by exact (f_equal inst_id Hx). rewrite Hid.
  destruct (fence_issue _ _) as [f [fence|status]]; [|done].
  assert (Hn : next_attempt x = next_attempt y) by exact (f_equal next_attempt Hx). rewrite Hn.
  split_and!; [done|done|]. apply Hgo. by apply core_push_attempt.
Qed.
Lemma quiesce_uncovered_agree l : forall fences xs ys stats l', core_instance <$> l = core_instance <$> l' ->
  core_instance <$> xs = core_instance <$> ys ->
  quiesce_agree (fold_status (quiesce_uncovered plan group at_) (fences, xs, stats) l)
    (fold_status (quiesce_uncovered plan group at_) (fences, ys, stats) l').
Proof.
  induction l as [|x l IH]; intros fences xs ys stats [|y l'] Hl Hxs; try done.
  assert (Hx : same_core x y) by exact (f_equal (default InstanceState_default ∘ head) Hl).
  assert (Hl' : core_instance <$> l = core_instance <$> l') by exact (f_equal tail Hl).
  cbn [fold_status]. pose proof (quiesce_step_agree fences xs ys stats x y Hx Hxs) as Hstep.
  destruct (quiesce_uncovered _ _ _ _ x) as [|[[f xs'] n]], (quiesce_uncovered _ _ _ _ y) as [|[[g ys'] m]];
    try done.
  destruct Hstep as (-> & -> & Hxs'). by apply IH.
Qed.

Lemma reconcile_agree s t : agree s t ->
  agree_result eq (reconcile plan group at_ bounds s) (reconcile plan group at_ bounds t).
Proof.
  intros Hs. unfold reconcile.
  match goal with |- context [fold_status ?f (s, ?stats) ?l] =>
    pose proof (fold_status_agree f f l) as Hf; specialize (Hf ltac:(
      intros s' t' x sp Hs'; apply fold_status_agree; [intros; by apply reconcile_replica_agree|exact Hs'])
      s t stats Hs) end.
  destruct (fold_status _ (s, _) _) as [|[s1 n]], (fold_status _ (t, _) _) as [|[t1 m]]; try done.
  destruct Hf as [Hs1 <-].
  pose proof (quiesce_uncovered_agree (rs_instances s1) (rs_fences s1) [] [] n (rs_instances t1)
    (agree_instances _ _ Hs1) eq_refl) as Hq. rewrite (agree_fences _ _ Hs1) in Hq.
  rewrite (agree_fences _ _ Hs1).
  destruct (fold_status _ _ (rs_instances s1)) as [|[[f xs] a]], (fold_status _ _ (rs_instances t1)) as [|[[g ys] b]]; try done.
  destruct Hq as (-> & -> & Hxs). split; [|done]. apply agree_set_instances; [by apply agree_set_fences|done].
Qed.
End reconcile_core.

Lemma claim_all_core bounds s event group authority claims :
  claim_all bounds (core s) event group authority claims = claim_all bounds s event group authority claims.
Proof. done. Qed.

Lemma intended_plan_core bounds weights s event intent group :
  intended_plan bounds weights (core s) event intent group = intended_plan bounds weights s event intent group.
Proof.
  unfold intended_plan. destruct (int_kind intent); try done; f_equal; unfold deploy_plan, build_plan;
    cbn [req_topology req_policy req_services req_dependencies req_group req_intent req_authority req_bounds
         req_now req_epoch req_boot]; core_fields;
    change (rs_topology (core s)) with (core_topology (rs_topology s));
    destruct (graph_build _ _ _) as [graph built]; by rewrite plan_intent_core.
Qed.

Lemma retain_plan_agree bounds s t plan : agree s t -> agree (retain_plan bounds s plan) (retain_plan bounds t plan).
Proof.
  intros Hs. assert (Hp : rs_plans s = rs_plans t) by exact (f_equal rs_plans Hs).
  unfold retain_plan. cbn zeta. rewrite Hp. destruct (_ <? _).
  - exact (f_equal (fun u => u <| rs_plans := drop _ _ |>) Hs).
  - exact (f_equal (fun u => u <| rs_plans := _ |>) Hs).
Qed.

Lemma accept_plan_core bounds s event group plan :
  core (accept_plan bounds (core s) event group plan).1 = core (accept_plan bounds s event group plan).1.
Proof.
  unfold accept_plan. core_fields. rewrite claim_all_core.
  destruct (claim_all _ _ _ _ _ _) as [[claimed dpu]|authority]; [cbn [fst]; by rewrite core_idem|].
  pose proof (reconcile_agree plan group (fe_at event) bounds (core s) s (core_idem s)) as Hr.
  destruct (reconcile _ _ _ _ (core s)) as [|[s1 e1]], (reconcile _ _ _ _ s) as [|[t1 e2]]; try done;
    [cbn [fst]; by rewrite core_idem|].
  destruct Hr as [Hs _]. cbn [fst]. cbn zeta.
  assert (Ha : agree (s1 <| rs_authority := authority |>) (t1 <| rs_authority := authority |>))
    by exact (f_equal (fun u => u <| rs_authority := authority |>) Hs).
  set (s2 := if bool_decide _ then s1 <| rs_authority := authority |> else _).
  set (t2 := if bool_decide _ then t1 <| rs_authority := authority |> else _).
  assert (H2 : agree s2 t2) by (unfold s2, t2; case_bool_decide; [done|by apply retain_plan_agree]).
  apply agree_set_instances; [exact (f_equal (fun u => u <| rs_deployment_generation := _ |>) H2)|].
  rewrite <-!sort_instances_core. f_equal. exact (agree_instances _ _ H2).
Qed.

Lemma reduce_intent_core s event body bounds weights :
  core <$> (fst <$> reduce_intent (core s) event body bounds weights) =
  core <$> (fst <$> reduce_intent s event body bounds weights).
Proof.
  unfold reduce_intent. core_fields. cbn zeta.
  destruct (find_group _ _) as [group|]; [|cbn; by rewrite core_idem].
  change (intent_gate (core s) (isub_intent body)) with (intent_gate s (isub_intent body)).
  destruct (intent_gate _ _); [cbn; by rewrite core_idem|]. rewrite intended_plan_core.
  destruct (intended_plan _ _ _ _ _ _) as [[refusal|plan]|]; [cbn; by rewrite core_idem| |done].
  cbn [fmap option_fmap option_map]. by rewrite accept_plan_core.
Qed.

(** Every event computes the same core from the same core. *)
Lemma apply_event_core s event bounds weights :
  core <$> (fst <$> apply_event (core s) event bounds weights) =
  core <$> (fst <$> apply_event s event bounds weights).
Proof.
  unfold apply_event. destruct (fe_body event);
    first [apply reduce_intent_core|cbn [fmap option_fmap option_map]; f_equal];
    first [apply reduce_coordinator_core|apply reduce_service_core|apply reduce_group_core|
      apply reduce_dependency_core|apply reduce_policy_core|apply reduce_topology_core|apply reduce_capability_core|
      apply reduce_health_core|apply reduce_attached_core|apply reduce_lost_core|apply reduce_quiesce_core|
      apply reduce_acknowledged_core|apply reduce_effect_core|by rewrite !reduce_time_core, core_idem].
Qed.

Lemma apply_event_agree s t event bounds weights : agree s t ->
  core <$> (fst <$> apply_event s event bounds weights) = core <$> (fst <$> apply_event t event bounds weights).
Proof. intros Hs. by rewrite <-apply_event_core, Hs, apply_event_core. Qed.

(** ** Replay *)

(** One event on states that agree: what the live flush makes of it, the replay makes of
    it too. *)
Lemma replay_event_agree config s t deliveries event s' deliveries' outcome :
  agree s t -> find_delivery deliveries event = None ->
  apply_released config s deliveries event = Some (s', deliveries', outcome) ->
  exists t', replay_event config t deliveries event = Some (t', deliveries', Status_success) /\ agree s' t'.
Proof.
  intros Hst Hnone. unfold apply_released, replay_event. rewrite Hnone.
  unfold remember_delivery. destruct (bh_push _ _) as [d evicted].
  set (s1 := if 0 <? evicted then s <| rs_truncations := _ |> else s).
  set (t1 := if 0 <? evicted then t <| rs_truncations := _ |> else t).
  assert (H1 : agree s1 t1) by (unfold s1, t1; destruct (0 <? evicted); exact Hst).
  pose proof (apply_event_agree s1 t1 event (rc_bounds config) (rc_weights config) H1) as Ha.
  destruct (apply_event s1 _ _ _) as [[s2 applied]|], (apply_event t1 _ _ _) as [[t2 applied']|]; try done.
  assert (H2 : agree s2 t2) by exact (f_equal (default s2) Ha). intros [= <- <- _]. eexists.
  split; [reflexivity|].
  assert (Hretain : forall u decision, agree (retain_decision (rc_bounds config) u decision) u)
    by (intros u decision; unfold agree, retain_decision; by destruct (_ <=? _)).
  rewrite Hretain. assert (Hw : rs_watermark s2 = rs_watermark t2) by exact (f_equal rs_watermark H2).
  rewrite <-Hw. set (s3 := if rs_watermark s2 <? fe_at event then s2 <| rs_watermark := fe_at event |> else s2).
  set (t3 := if rs_watermark s2 <? fe_at event then t2 <| rs_watermark := fe_at event |> else t2).
  assert (H3 : agree s3 t3).
  { unfold s3, t3. destruct (rs_watermark s2 <? fe_at event); [|exact H2].
    exact (f_equal (fun u => u <| rs_watermark := fe_at event |>) H2). }
  destruct (rs_clock s3 <? fe_at event); [|exact H3].
  transitivity (s3 <| rs_clock := fe_at event |>); [|exact H3].
  unfold agree. by rewrite core_refresh_health.
Qed.

Lemma event_digest_drop event : event_digest (drop_payload_digest event) = event_digest event.
Proof.
  unfold event_digest, compute_payload_digest, drop_payload_digest.
  cbn [fe_id fe_origin fe_origin_epoch fe_origin_seq fe_at fe_body set eta_FabricEvent]. reflexivity.
Qed.
Lemma apply_event_drop s event bounds weights :
  apply_event s (drop_payload_digest event) bounds weights = apply_event s event bounds weights.
Proof. unfold apply_event. change (fe_body (drop_payload_digest event)) with (fe_body event).
by destruct (fe_body event). Qed.
Lemma replay_event_drop config s deliveries event :
  replay_event config s deliveries (drop_payload_digest event) = replay_event config s deliveries event.
Proof.
  unfold replay_event, remember_delivery, delivery_record. rewrite event_digest_drop.
  change (find_delivery deliveries (drop_payload_digest event)) with (find_delivery deliveries event).
  destruct (find_delivery _ _); [done|]. cbn [fe_origin fe_origin_epoch fe_origin_seq drop_payload_digest set eta_FabricEvent].
  destruct (bh_push _ _) as [d evicted]. by rewrite apply_event_drop.
Qed.

(** The journaled events, applied live one after the other. *)
Fixpoint live_run (config : RuntimeConfig) (s : RuntimeState) (deliveries : BoundedHistory DeliveryRecord)
    (events : list FabricEvent) : option (RuntimeState * BoundedHistory DeliveryRecord) :=
  match events with
  | [] => Some (s, deliveries)
  | event :: events =>
    match find_delivery deliveries event, apply_released config s deliveries event with
    | None, Some (s, deliveries, _) => live_run config s deliveries events
    | _, _ => None
    end
  end.

(** An event the journal keeps readable, after the instant zero of a fresh runtime. *)
Definition replayable (config : RuntimeConfig) (event : FabricEvent) : Prop :=
  c_ok FabricEvent_codec (recovery_limit config) event = true /\ 0 < fe_at event.

Lemma replay_records_agree config events : forall s t deliveries s' deliveries' n,
  Forall (replayable config) events -> agree s t -> live_run config s deliveries events = Some (s', deliveries') ->
  exists t', replay_records config 0 t deliveries n (encode_binary FabricEvent_codec <$> events) =
    Some (t', deliveries', n + zlen events, None) /\ agree s' t'.
Proof.
  induction events as [|event events IH]; intros s t d s' d' n Hok Hst.
  { intros [= <- <-]. exists t. by rewrite Z.add_0_r. }
  inversion Hok as [|e es [Hc Hat] Hok']; subst. cbn [live_run fmap list_fmap replay_records].
  destruct (find_delivery d event) eqn:Hnone; [done|].
  destruct (apply_released config s d event) as [[[s1 d1] outcome]|] eqn:Hlive; [|done]. intros Hrun.
  rewrite (decode_encode FabricEvent_codec _ event Hc), FabricEvent_codec_norm.
  change (fe_at (drop_payload_digest event)) with (fe_at event).
  destruct (Z.leb_spec (fe_at event) 0); [lia|]. rewrite replay_event_drop.
  destruct (replay_event_agree config s t d event s1 d1 outcome Hst Hnone Hlive) as (t1 & -> & H1).
  change (status_ok Status_success) with true. cbn [negb].
  destruct (IH s1 t1 d1 s' d' (n + 1) Hok' H1 Hrun) as (t' & Ht' & Hst').
  exists t'. rewrite zlen_cons. replace (n + (1 + zlen events)) with (n + 1 + zlen events) by lia.
  replace (n + Z.succ (zlen events)) with (n + 1 + zlen events) by lia. done.
Qed.

(** ** Effects reported after a snapshot *)
Lemma no_serials_no_token fences id token : fi_serials fences = [] -> fence_validate fences id token = false.
Proof.
  intros Hs. unfold fence_validate, fence_find. rewrite Hs. destruct (negb _); [done|]. by destruct (negb _).
Qed.

Definition is_effect (event : FabricEvent) : Prop :=
  match fe_body event with Body_EffectReported _ => True | _ => False end.

(** Without tokens every effect report is refused. *)
Lemma effect_without_tokens s event bounds weights :
  is_effect event -> fi_serials (rs_fences s) = [] -> exists r, apply_event s event bounds weights = Some (s, r).
Proof.
  unfold is_effect, apply_event. destruct (fe_body event) as [| | | | | | | | | | |body| | |]; try done.
  intros _ Hs.
  unfold reduce_effect. destruct (lookup_instance s _) as [[i x]|]; [|by eexists].
  unfold effect_refusal. destruct (current_attempt x) as [attempt|]; [|by eexists].
  destruct (negb (_ =? _)); [by eexists|]. rewrite no_serials_no_token by done. by eexists.
Qed.

(** What replaying them leaves: the instances, the authority, and still no tokens. *)
Record effects_ignored (s s' : RuntimeState) : Prop := {
  ign_instances : rs_instances s' = rs_instances s;
  ign_authority : rs_authority s' = rs_authority s;
  ign_serials : fi_serials (rs_fences s') = []
}.
Lemma replay_effects config watermark events : forall s deliveries n,
  Forall (fun e => is_effect e /\ c_ok FabricEvent_codec (recovery_limit config) e = true) events ->
  fi_serials (rs_fences s) = [] ->
  exists s' deliveries' n', replay_records config watermark s deliveries n (encode_binary FabricEvent_codec <$> events) =
    Some (s', deliveries', n', None) /\ effects_ignored s s'.
Proof.
  induction events as [|event events IH]; intros s deliveries n Hok Hs; [by exists s, deliveries, n|].
  inversion Hok as [|e es [He Hc] Hok']; subst. cbn [fmap list_fmap replay_records].
  rewrite (decode_encode FabricEvent_codec _ event Hc), FabricEvent_codec_norm, replay_event_drop.
  destruct (_ <=? watermark); [by apply IH|]. unfold replay_event.
  destruct (find_delivery deliveries event) as [seen|]; [by apply IH|].
  unfold remember_delivery. destruct (bh_push _ _) as [d evicted].
  set (s1 := if 0 <? evicted then s <| rs_truncations := _ |> else s).
  assert (H1 : effects_ignored s s1) by (unfold s1; destruct (0 <? evicted); by split).
  destruct (effect_without_tokens s1 event (rc_bounds config) (rc_weights config) He (ign_serials _ _ H1)) as [r ->].
  set (s2 := if rs_watermark s1 <? fe_at event then _ else s1).
  assert (H2 : effects_ignored s s2) by (unfold s2; destruct (_ <? fe_at event); destruct H1; by split).
  change (status_ok Status_success) with true. cbn [negb].
  destruct (IH s2 d (n + 1) Hok' (ign_serials _ _ H2)) as (s' & d' & n' & Hrun & [I1 I2 I3]).
  destruct H2 as [J1 J2 _]. exists s', d', n'. split; [exact Hrun|]. split; congruence.
Qed.

Lemma lose_devices_fences at_ ids s : rs_fences (foldl (lose_device at_) s ids) = rs_fences s.
Proof. revert s. induction ids as [|id ids IH]; intros s; [done|]. cbn [foldl]. by rewrite IH. Qed.
Lemma refresh_health_fences s : rs_fences (refresh_health s) = rs_fences s.
Proof. unfold refresh_health. by destruct (foldl _ _ _) as [dpus instances]. Qed.

Definition is_intent (event : FabricEvent) : Prop :=
  match fe_body event with Body_IntentSubmitted _ => True | _ => False end.

Lemma reduce_topology_fences s event b bounds : rs_fences (reduce_topology s event b bounds).1 = rs_fences s.
Proof.
  unfold reduce_topology. cbn zeta. do 3 (destruct (_ : bool); [done|]).
  destruct (admit_devices _ _ _ _ _) as [|dpus]; [done|]. cbn [fst].
  rewrite refresh_health_fences. cbn. by rewrite lose_devices_fences.
Qed.

Lemma reduce_coordinator_tokens s event b :
  fi_serials (rs_fences s) = [] -> fi_serials (rs_fences (reduce_coordinator s event b).1) = [].
Proof.
  intros Hs. unfold reduce_coordinator. destruct (_ <? _); [done|]. unfold fence_all. cbn beta iota zeta.
  change (rs_fences (set rs_authority ?f s)) with (rs_fences s).
  destruct (advance_epoch (rs_fences s) _ _) as [fences advanced] eqn:Ha.
  assert (Hf : fi_serials fences = []).
  { revert Ha. unfold advance_epoch. destruct (_ <? _); by intros [= <- <-]. }
  by destruct (negb _).
Qed.

(** Only intents issue tokens. *)
Lemma only_intents_issue_tokens s event bounds weights :
  ~ is_intent event -> fi_serials (rs_fences s) = [] ->
  exists s' r, apply_event s event bounds weights = Some (s', r) /\ fi_serials (rs_fences s') = [].
Proof.
  intros Hno Hs.
  assert (Hkeep : forall res : RuntimeState * ApplyResult, rs_fences res.1 = rs_fences s ->
    exists s' r, Some res = Some (s', r) /\ fi_serials (rs_fences s') = []).
  { intros [s' r] He. exists s', r. split; [done|]. cbn in He. by rewrite He. }
  unfold is_intent in Hno. unfold apply_event.
  destruct (fe_body event) as [b|b|b|b|b|b|b|b|b|b|b|b|b|b|b]; [..|by (exfalso; apply Hno)| | | | |].
  12: { destruct (reduce_coordinator s event b) as [s' r] eqn:Hr. exists s', r. split; [done|].
        pose proof (reduce_coordinator_tokens s event b Hs) as H. by rewrite Hr in H. }
  all: apply Hkeep.
  1: apply reduce_topology_fences.
  11: { unfold reduce_time. destruct (_ <? _); [done|]. cbn [fst]. by rewrite refresh_health_fences. }
  11: done.
  all: lazymatch goal with |- rs_fences (fst ?result) = _ => destruct result as [s' r] eqn:Hr end; revert Hr.
  all: first [progress unfold reduce_capability|progress unfold reduce_health|progress unfold reduce_policy
    |progress unfold reduce_attached|progress unfold reduce_lost|progress unfold reduce_service
    |progress unfold reduce_group|progress unfold reduce_dependency|progress unfold reduce_acknowledged
    |progress unfold reduce_effect]; cbn zeta.
  all: branches; intros Heq; rewrite <-(f_equal fst Heq); cbn [fst]; by rewrite ?refresh_health_fences.
Qed.

(** A replay without intents goes through, and no token is issued in it. *)
Lemma replay_without_intents config watermark events : forall s deliveries n,
  Forall (fun e => ~ is_intent e /\ c_ok FabricEvent_codec (recovery_limit config) e = true) events ->
  fi_serials (rs_fences s) = [] ->
  exists s' deliveries' n', replay_records config watermark s deliveries n (encode_binary FabricEvent_codec <$> events) =
    Some (s', deliveries', n', None) /\ fi_serials (rs_fences s') = [].
Proof.
  induction events as [|event events IH]; intros s deliveries n Hok Hs; [by exists s, deliveries, n|].
  inversion Hok as [|e es [He Hc] Hok']; subst. cbn [fmap list_fmap replay_records].
  rewrite (decode_encode FabricEvent_codec _ event Hc), FabricEvent_codec_norm, replay_event_drop.
  destruct (_ <=? watermark); [by apply IH|]. unfold replay_event.
  destruct (find_delivery deliveries event) as [seen|]; [by apply IH|].
  unfold remember_delivery. destruct (bh_push _ _) as [d evicted].
  set (s1 := if 0 <? evicted then s <| rs_truncations := _ |> else s).
  assert (H1 : fi_serials (rs_fences s1) = []) by (unfold s1; by destruct (0 <? evicted)).
  destruct (only_intents_issue_tokens s1 event (rc_bounds config) (rc_weights config) He H1) as (s2 & r & -> & H2).
  change (status_ok Status_success) with true. cbn [negb]. apply IH; [done|]. by destruct (_ <? fe_at event).
Qed.

Lemma replay_records_app config watermark records more : forall s deliveries n s' deliveries' n',
  replay_records config watermark s deliveries n records = Some (s', deliveries', n', None) ->
  replay_records config watermark s deliveries n (records ++ more) =
    replay_records config watermark s' deliveries' n' more.
Proof.
  induction records as [|record records IH]; intros s d n s' d' n'; cbn [app replay_records].
  { by intros [= <- <- <-]. }
  destruct (decode_binary _ _ _) as [event|]; [|done].
  destruct (_ <=? watermark); [apply IH|].
  destruct (replay_event config s d event) as [[[s1 d1] status]|]; [|done].
  destruct (negb (status_ok status)); [done|apply IH].
Qed.

(** C9. Effects proven after a checkpoint are lost by a crash, as long as no intent was
    journaled since the checkpoint: recovery drops every fence token before it replays the
    journal, and only an intent issues tokens, so each effect report behind the snapshot (a
    verified deployment, a verified withdrawal that gave its device back) is refused
    silently.  Whatever other (encodable) events stand before it, replaying it changes
    neither the instances nor the authority grants, even when the report was accepted live
    and journaled.  (An intent behind the snapshot issues tokens again, and the reports that
    follow it may be accepted.) *)
Theorem effects_after_snapshot_are_lost r payload restored events effect deliveries n :
  payload <> [] -> restore_snapshot r payload = (restored, None) ->
  Forall (fun e => ~ is_intent e /\ c_ok FabricEvent_codec (recovery_limit (rt_config restored)) e = true) events ->
  is_effect effect -> c_ok FabricEvent_codec (recovery_limit (rt_config restored)) effect = true ->
  let replay events :=
    replay_records (rt_config restored) (rs_watermark (rt_state restored)) (rt_state restored) deliveries n
      (encode_binary FabricEvent_codec <$> events) in
  exists s1 d1 n1 s2 d2 n2,
    replay events = Some (s1, d1, n1, None) /\ replay (events ++ [effect]) = Some (s2, d2, n2, None) /\
    rs_instances s2 = rs_instances s1 /\ rs_authority s2 = rs_authority s1.
Proof.
  intros Hpayload Hrestore Hevents Heffect Hc replay.
  assert (Hs : fi_serials (rs_fences (rt_state restored)) = []).
  { revert Hrestore. unfold restore_snapshot. rewrite bool_decide_false by done.
    destruct (decode_binary _ _ _) as [s|]; [|done]. destruct (_ && _); [done|]. by intros [= <-]. }
  destruct (replay_without_intents (rt_config restored) (rs_watermark (rt_state restored)) events
    (rt_state restored) deliveries n Hevents Hs) as (s1 & d1 & n1 & Hrun & Hs1).
  destruct (replay_effects (rt_config restored) (rs_watermark (rt_state restored)) [effect] s1 d1 n1
    (Forall_cons_2 _ _ _ (conj Heffect Hc) (Forall_nil_2 _)) Hs1) as (s2 & d2 & n2 & Hrun2 & [H1 H2 _]).
  exists s1, d1, n1, s2, d2, n2. split_and!; [exact Hrun| |exact H1|exact H2].
  unfold replay. rewrite fmap_app. by rewrite (replay_records_app _ _ _ _ _ _ _ _ _ _ Hrun).
Qed.

Definition deployed_snapshot : list Byte := encode_binary RuntimeState_codec sample_deployed.
Definition deployed_restored : FabricRuntime := (restore_snapshot (fresh_runtime sample_config) deployed_snapshot).1.
(** The report a live runtime verifies the first instance by. *)
Example live_verifies : inst_state sample_verified = LifecycleState.Verified.
Proof. vm_compute. reflexivity. Qed.
(** A request to quiesce another service stands before it. *)
Definition sample_other_request : FabricEvent :=
  stamped 8 (sample_event 6 (Body_QuiesceRequested (mkQuiesceRequested "other"))).
Definition sample_proof : FabricEvent := stamped 9 sample_effect.
Lemma effects_after_snapshot_are_lost_witness :
  let replay events :=
    replay_records (rt_config deployed_restored) (rs_watermark (rt_state deployed_restored))
      (rt_state deployed_restored) (rt_deliveries deployed_restored) 0 (encode_binary FabricEvent_codec <$> events) in
  exists s1 d1 n1 s2 d2 n2,
    replay [sample_other_request] = Some (s1, d1, n1, None) /\
    replay ([sample_other_request] ++ [sample_proof]) = Some (s2, d2, n2, None) /\
    rs_instances s2 = rs_instances s1 /\ rs_authority s2 = rs_authority s1.
Proof.
  apply (effects_after_snapshot_are_lost (fresh_runtime sample_config) deployed_snapshot deployed_restored
    [sample_other_request] sample_proof).
  - vm_compute. discriminate.
  - vm_compute. reflexivity.
  - apply Forall_singleton. split; [by intros []|]. vm_compute. reflexivity.
  - exact I.
  - vm_compute. reflexivity.
Defined.
