(* ===== verification/Crash.v ===== *)
(** * A crash loses nothing acknowledged

    What the journal of a running runtime holds: exactly the events whose live application
    leads from the state it started on (the initial one, or that of its last snapshot) to
    the one it has ([told]).  Opening any store establishes that, a checkpoint starts over,
    and any interleaving of submits preserves it.  A runtime that has written no snapshot
    yet is recovered from its journal: after a crash at any point of writing an event the
    next process has a state that agrees with it. *)

From S2P Require Import Prelude Std Reason Types Version Resources Bounded Digest Json JsonArchive Archive Model.
From S2P Require Import Codec Authority Planner State Wire Store Journal Durability Intent Scenario Runtime Ingest.
From S2P Require Import Concurrent Recovery Replay.
#[local] Open Scope Z_scope.

(** ** The journal tells the state *)

(** An append is refused as over the bound only when the journal has no room. *)
Lemma append_has_room s payload :
  let framed := frame RecordKind.Event (so_format_version (st_options s)) (so_semantic_version (st_options s)) payload in
  st_journal_bytes s + zlen framed <= so_max_journal_bytes (st_options s) ->
  always (append_record s payload) (fun res => status_code res.2 <> ReasonCode.BoundExceeded).
Proof.
  intros framed Hroom. unfold append_record. destruct (st_closed s); [by apply always_ret|].
  eapply (always_then _ _ (fun res => status_code res.2 <> ReasonCode.BoundExceeded /\
    exists handle, res.1 = s <| st_handle := handle |>)).
  { unfold ensure_appender. destruct (st_handle s) eqn:Hh.
    - apply always_ret. split; [done|]. exists (st_handle s). by destruct s.
    - eapply (always_then _ _ (fun opened => match opened with
        | Failed status => status_code status <> ReasonCode.BoundExceeded
        | _ => True
        end)).
      { unfold open_file. eapply always_then; [apply always_true|]. intros opened _.
        eapply always_then; [apply always_true|]. intros file _.
        destruct opened, file; by repeat (eapply always_then; [apply always_true|]; intros); apply always_ret. }
      intros [h|status] H; apply always_ret; (split; [done|]); [by exists (Some h)|]. exists (st_handle s).
      by destruct s. }
  intros [s1 opened] [Hcode [handle Heq]]. cbn [fst snd] in Hcode, Heq. subst s1.
  cbn [st_handle st_options st_journal_bytes set eta_Store].
  destruct handle as [h|]; [|by apply always_ret]. cbn zeta. fold framed.
  destruct (_ <? _); [by apply always_ret|]. destruct (Z.ltb_spec (so_max_journal_bytes (st_options s))
    (st_journal_bytes s + zlen framed)); [lia|].
  eapply always_then; [apply always_true|]. intros wrote _. destruct (negb _); [by apply always_ret|].
  eapply always_then; [apply always_true|]. intros flushed _. destruct (negb _); [by apply always_ret|].
  eapply (always_then _ _ (fun status => status_code status <> ReasonCode.BoundExceeded)).
  - destruct (so_fsync _); [|by apply always_ret]. unfold sync_file. eapply always_then; [apply always_true|].
    intros [] _; by apply always_ret.
  - intros synced Hsync. destruct (negb _); by apply always_ret.
Qed.

(** Where a journal starts: the snapshot on disk, and the state and the duplicate window
    of the runtime when it was written; without a snapshot, those of a fresh runtime. *)
Record Base := mkBase {
  base_snapshot : option (list Byte);
  base_state : RuntimeState;
  base_window : BoundedHistory DeliveryRecord
}.
Definition initial (config : RuntimeConfig) : RuntimeState := rt_state (fresh_runtime config).
Definition initial_window (config : RuntimeConfig) : BoundedHistory DeliveryRecord :=
  rt_deliveries (fresh_runtime config).
Definition fresh_base (config : RuntimeConfig) : Base := mkBase None (initial config) (initial_window config).
Definition snapshot_base (s : RuntimeState) (window : BoundedHistory DeliveryRecord) : Base :=
  mkBase (Some (encode_binary RuntimeState_codec s)) s window.
Definition proper_base (config : RuntimeConfig) (base : Base) : Prop :=
  base = fresh_base config \/ base = snapshot_base (base_state base) (base_window base).

Section told.
Context (config : RuntimeConfig) (directory : string) (base : Base).
Let o := store_options config directory.

(** The journal tells the state: it holds exactly the events whose live application leads
    from the base to it. *)
Record told (r : FabricRuntime) (fs : gmap string (list Byte)) (events : list FabricEvent) : Prop := {
  told_base : proper_base config base;
  told_config : rt_config r = config;
  told_open : rt_closed r = false;
  told_store : exists s, rt_store r = Some s /\
    ready o s fs (base_snapshot base) (encode_binary FabricEvent_codec <$> events);
  told_events : Forall (replayable config) events;
  told_state : exists s, live_run config (base_state base) (base_window base) events = Some (s, rt_deliveries r) /\
    agree s (rt_state r)
}.

(** The journal has room for an event. *)
Definition has_room (r : FabricRuntime) (event : FabricEvent) : Prop :=
  forall s, rt_store r = Some s ->
    st_journal_bytes s + zlen (event_frame (st_options s) (encode_binary FabricEvent_codec event)) <=
      so_max_journal_bytes (st_options s).

Lemma live_run_snoc events event : forall s d s1 d1 s2 d2 outcome,
  live_run config s d events = Some (s1, d1) -> find_delivery d1 event = None ->
  apply_released config s1 d1 event = Some (s2, d2, outcome) ->
  live_run config s d (events ++ [event]) = Some (s2, d2).
Proof.
  induction events as [|e events IH]; intros s d s1 d1 s2 d2 outcome; cbn [app live_run].
  - intros [= -> ->] Hnone Hlive. by rewrite Hnone, Hlive.
  - destruct (find_delivery d e); [done|]. destruct (apply_released config s d e) as [[[s' d'] o']|]; [|done].
    by apply IH.
Qed.

(** Applying an event live to states that agree. *)
Lemma apply_released_agree s t d event t' d' outcome :
  agree s t -> find_delivery d event = None -> apply_released config t d event = Some (t', d', outcome) ->
  exists s' outcome', apply_released config s d event = Some (s', d', outcome') /\ agree s' t'.
Proof.
  intros Hst Hnone Ht.
  destruct (replay_event_agree config t s d event t' d' outcome (symmetry Hst) Hnone Ht) as (u & Hu & Hagree).
  destruct (apply_released config s d event) as [[[s' d''] outcome']|] eqn:Hs.
  - destruct (replay_event_agree config s s d event s' d'' outcome' (reflexivity s) Hnone Hs) as (v & Hv & Hsv).
    rewrite Hv in Hu. injection Hu as -> ->. exists s', outcome'. split; [done|]. by rewrite Hsv, Hagree.
  - exfalso. revert Hs Hu. unfold apply_released, replay_event. rewrite Hnone.
    destruct (remember_delivery s d event) as [s1 d1]. by destruct (apply_event s1 _ _ _) as [[]|].
Qed.

Lemma runs_always {A} fs (e : IO A) Q (P : A -> Prop) :
  runs fs e Q -> always e P -> runs fs e (fun x fs' => Q x fs' /\ P x).
Proof. intros HQ HP w Hw. destruct (HQ w Hw) as [H1 H2]. by split; [split|]. Qed.

(** Writing ahead: the runtime is the same but for its store, and the journal has the
    event when the append is reported to have worked. *)
Lemma journal_event_runs r fs events event :
  so_max_record_bytes o <= u32_max -> told r fs events -> has_room r event ->
  runs fs (journal_event r event) (fun '(r', appended) fs' =>
    agree (rt_state r') (rt_state r) /\ rt_deliveries r' = rt_deliveries r /\ rt_config r' = config /\
    rt_closed r' = false /\ exists s', rt_store r' = Some s' /\
    append_outcome o (base_snapshot base) (encode_binary FabricEvent_codec <$> events) (encode_binary FabricEvent_codec event)
      s' appended fs').
Proof.
  intros Hwidth [_ Hconfig Hopen [s [Hs Hready]] _ _] Hroom. unfold journal_event. rewrite Hs. cbn zeta.
  apply runs_then. eapply runs_weaken.
  - eapply runs_always; [exact (append_runs o Hwidth s fs (base_snapshot base) _
      (encode_binary FabricEvent_codec event) Hready)|].
    apply append_has_room. by apply Hroom.
  - intros [s' appended] fs' [Happend Hcode]. cbn [fst snd] in *. rewrite bool_decide_false by done.
    apply runs_ret. destruct (status_ok appended); (split_and!; [done|done|exact Hconfig|exact Hopen|];
      by exists s').
Qed.

(** What is on disk after an event was released: the journal of before or with the event,
    and, unless the append failed, one that tells the new state. *)
Definition released_outcome (r : FabricRuntime) (events : list FabricEvent) (event : FabricEvent)
    (appended : bool) (res : option (FabricRuntime * BatchReport)) (fs : gmap string (list Byte)) : Prop :=
  exists events' part, holds o fs (base_snapshot base) (encode_binary FabricEvent_codec <$> events') part /\
    Forall (replayable config) events' /\
    (events' = events \/ find_delivery (rt_deliveries r) event = None /\ events' = events ++ [event]) /\
    forall r1 report1, res = Some (r1, report1) ->
      if appended then told r1 fs events'
      else agree (rt_state r1) (rt_state r) /\ rt_deliveries r1 = rt_deliveries r.

Lemma release_outcome r events event report w :
  so_max_record_bytes o <= u32_max -> told r (w_files w) events -> replayable config event -> has_room r event ->
  let '(res, w1) := release_event r report event w in
  w_dirs w1 = w_dirs w /\
  released_outcome r events event
    (bool_decide (is_Some (find_delivery (rt_deliveries r) event)) ||
     status_ok (journal_event r event w).1.2) res (w_files w1).
Proof.
  intros Hwidth Htold Hevent Hroom. unfold release_event.
  destruct (find_delivery (rt_deliveries r) event) as [seen|] eqn:Hfound.
  { cbn. split; [done|]. destruct Htold as [H0 H1 H2 [s [Hs Hr]] H4 H5]. exists events, [].
    split_and!; [apply Hr|done|by left|]. intros r1 report1 [= <- _].
    split; [done|done|done|by exists s|done|done]. }
  pose proof (journal_event_runs r (w_files w) events event Hwidth Htold Hroom w eq_refl) as [Hj Hd].
  unfold io_then, mbind, io_bind. destruct (journal_event r event w) as [[r1 appended] w1]. cbn [fst snd] in *.
  destruct Hj as (Hst & Hdel & Hcfg & Hop & s' & Hs' & events1 & part & Hholds & Hev & Hready & _).
  assert (Hall : Forall (replayable config) (events ++ [event]))
    by (apply Forall_app; split; [apply (told_events _ _ _ Htold)|by constructor]).
  rewrite bool_decide_false by (by intros []). cbn [orb].
  destruct (status_ok appended) eqn:Happended; cbn [negb].
  - rewrite Hcfg, Hdel. specialize (Hready eq_refl). clear part Hholds Hev events1.
    change ((encode_binary FabricEvent_codec <$> events) ++ [encode_binary FabricEvent_codec event])
      with ((encode_binary FabricEvent_codec <$> events) ++ (encode_binary FabricEvent_codec <$> [event])) in Hready.
    rewrite <-fmap_app in Hready. split; [exact Hd|]. exists (events ++ [event]), [].
    split_and!; [apply Hready|done|by right|]. intros r2 report2.
    destruct (apply_released config (rt_state r1) (rt_deliveries r) event) as [[[s2 d2] outcome]|] eqn:Hlive; [|done].
    intros [= <- _]. destruct (told_state _ _ _ Htold) as (t & Ht & Hagree).
    assert (Ht1 : agree t (rt_state r1)) by by rewrite Hst.
    destruct (apply_released_agree t (rt_state r1) _ event s2 d2 outcome Ht1 Hfound Hlive) as (t2 & o2 & Ht2 & Hagree2).
    split; [apply (told_base _ _ _ Htold)|exact Hcfg|exact Hop|by exists s'|done|]. exists t2. split; [|exact Hagree2].
    exact (live_run_snoc events event _ _ _ _ _ _ _ Ht Hfound Ht2).
  - split; [exact Hd|].
    assert (Hev' : exists events', events1 = encode_binary FabricEvent_codec <$> events' /\
      (events' = events \/ events' = events ++ [event])).
    { destruct Hev as [-> | ->]; [exists events; by split; [|left]|]. exists (events ++ [event]).
      split; [by rewrite fmap_app|by right]. }
    destruct Hev' as (events' & -> & Hev'). exists events', part. split_and!; [done| | |].
    + destruct Hev' as [-> | ->]; [apply (told_events _ _ _ Htold)|done].
    + destruct Hev' as [-> | ->]; [by left|by right].
    + by intros r2 report2 [= <- _].
Qed.
End told.

(** ** Recovery of a told runtime *)
Section recovery.
Context (config : RuntimeConfig) (directory : string).
Let o := store_options config directory.

Lemma fresh_fences : rs_fences (initial config) =
  fence_reset (rs_fences (initial config)) (rs_epoch (initial config)) (rs_boot (initial config)).
Proof. done. Qed.



End recovery.


(** ** Running with a working system *)
Section submitting.
Context (config : RuntimeConfig) (directory : string) (base : Base).
Let o := store_options config directory.
Context (Hwidth : so_max_record_bytes o <= u32_max).
Abbreviation told := (told config directory base) (only parsing).

(** An event whose record fits. *)
Definition journalable (event : FabricEvent) : Prop :=
  replayable config event /\ zlen (event_frame o (encode_binary FabricEvent_codec event)) <= so_max_record_bytes o.
(** The journal has room for [n] records, however long. *)
Definition room_for (r : FabricRuntime) (n : Z) : Prop :=
  forall s, rt_store r = Some s -> st_journal_bytes s + n * so_max_record_bytes o <= so_max_journal_bytes o.

(** What told depends on. *)
Lemma told_same r r' fs events :
  rt_config r' = rt_config r -> rt_closed r' = rt_closed r -> rt_store r' = rt_store r ->
  rt_deliveries r' = rt_deliveries r -> agree (rt_state r') (rt_state r) -> told r fs events -> told r' fs events.
Proof.
  intros H1 H2 H3 H4 H5 [Z A B C D (s & E & F)]. split; [done|congruence|congruence|by rewrite H3|done|].
  exists s. rewrite H4. split; [done|]. by rewrite F, H5.
Qed.

Lemma journal_event_works r fs events event n :
  told r fs events -> journalable event -> 0 <= n -> room_for r (1 + n) ->
  works fs (journal_event r event) (fun '(r', appended) _ => appended = Status_success /\ room_for r' n).
Proof.
  intros [_ Hconfig Hopen (s & Hs & [Ho Hc Hh Hb Hhandle]) _ _] [_ Hfit] Hn Hroom. unfold journal_event.
  rewrite Hs.
  specialize (Hroom s Hs). unfold event_frame in Hfit. rewrite frame_length in Hfit.
  assert (Hrecord : 0 <= so_max_record_bytes o) by (pose proof (zlen_nonneg (encode_binary FabricEvent_codec event)); lia).
  cbn zeta. apply works_then. eapply works_weaken.
  - apply (append_works o s fs (encode_binary FabricEvent_codec event)); [by split|done|nia].
  - intros [s' appended] fs' (-> & _ & Hbytes). cbn [fst snd]. apply works_ret. split; [done|].
    intros s2 [= <-]. rewrite Hbytes. nia.
Qed.

Lemma room_less r n : 0 <= so_max_record_bytes o -> room_for r (1 + n) -> room_for r n.
Proof. intros Hr Hroom s Hs. specialize (Hroom s Hs). nia. Qed.
Lemma journalable_bound event : journalable event -> 0 <= so_max_record_bytes o.
Proof. intros [_ Hfit]. pose proof (zlen_nonneg (event_frame o (encode_binary FabricEvent_codec event))).
lia. Qed.
Lemma room_event r fs events event n :
  told r fs events -> journalable event -> 0 <= n -> room_for r (1 + n) -> has_room r event.
Proof.
  intros [_ _ _ (s & Hs & Hready) _ _] Hevent Hn Hroom s' Hs'. rewrite Hs in Hs'. injection Hs' as <-.
  rewrite (ready_options _ _ _ _ _ Hready). fold o. specialize (Hroom s Hs). destruct Hevent as [_ Hfit].
  pose proof (zlen_nonneg (event_frame o (encode_binary FabricEvent_codec event))). nia.
Qed.

(** One event: told before, told after, with room for the rest. *)
Lemma release_told r events event report n w :
  told r (w_files w) events -> journalable event -> 0 <= n -> room_for r (1 + n) -> w_faults w = [] ->
  let '(res, w1) := release_event r report event w in
  w_faults w1 = [] /\ forall r1 report1, res = Some (r1, report1) ->
    exists new, told r1 (w_files w1) (events ++ new) /\ room_for r1 n /\ new ⊆+ [event].
Proof.
  intros Htold Hevent Hn Hroom Hfaults.
  pose proof (release_outcome config directory base r events event report w Hwidth Htold (proj1 Hevent)
    (room_event _ _ _ _ _ Htold Hevent Hn Hroom)) as Hout. revert Hout. unfold release_event.
  destruct (find_delivery (rt_deliveries r) event) as [seen|] eqn:Hfound.
  { intros _. split; [done|]. intros r1 report1 [= <- _]. exists []. rewrite app_nil_r.
    split_and!; [done|by apply room_less; [apply (journalable_bound event)|]|apply submseteq_nil_l]. }
  destruct (journal_event_works r (w_files w) events event n Htold Hevent Hn Hroom w eq_refl Hfaults) as [Hworks Hf].
  unfold io_then, mbind, io_bind. destruct (journal_event r event w) as [[rj appended] wj]. cbn [fst snd] in *.
  destruct Hworks as [-> Hroomj]. change (status_ok Status_success) with true. cbn [negb]. cbn [mret io_ret].
  intros (_ & events' & part & _ & _ & Hev & Hres). split; [exact Hf|]. intros r1 report1 Hr1.
  specialize (Hres r1 report1 Hr1). rewrite orb_true_r in Hres.
  assert (Hnew : exists new, events' = events ++ new /\ new ⊆+ [event])
    by (destruct Hev as [-> | [_ ->]];
        [exists []; by rewrite app_nil_r; split; [|apply submseteq_nil_l]|by exists [event]]).
  destruct Hnew as (new & -> & Hnew). exists new. split_and!; [exact Hres| |exact Hnew].
  destruct (apply_released _ _ _ _) as [[[s2 d2] outcome]|]; [|done]. by injection Hr1 as <- _.
Qed.

Lemma release_events_told released : forall r events report n w,
  told r (w_files w) events -> Forall journalable released -> 0 <= n -> room_for r (zlen released + n) ->
  w_faults w = [] ->
  let '(res, w1) := release_events r report released w in
  w_faults w1 = [] /\ forall r1 report1, res = Some (r1, report1) ->
    exists new, told r1 (w_files w1) (events ++ new) /\ room_for r1 n /\ new ⊆+ released.
Proof.
  induction released as [|event released IH]; intros r events report n w Htold Hok Hn Hroom Hfaults.
  { split; [done|]. intros r1 report1 [= <- _]. exists []. by rewrite app_nil_r. }
  inversion Hok as [|e es Hevent Hok']; subst. rewrite zlen_cons in Hroom. cbn [release_events].
  replace (1 + zlen released + n) with (1 + (zlen released + n)) in Hroom by lia.
  pose proof (zlen_nonneg released) as Hlen.
  pose proof (release_told r events event report (zlen released + n) w Htold Hevent ltac:(lia) Hroom Hfaults) as Hone.
  unfold io_then, mbind, io_bind. destruct (release_event r report event w) as [[[r1 report1]|] w1];
    destruct Hone as [Hf Hone]; [|by split].
  destruct (Hone r1 report1 eq_refl) as (new & Htold1 & Hroom1 & Hsub1).
  pose proof (IH r1 (events ++ new) report1 n w1 Htold1 Hok' Hn Hroom1 Hf) as Hrest.
  destruct (release_events r1 report1 released w1) as [res w2]. destruct Hrest as [Hf2 Hrest].
  split; [exact Hf2|]. intros r2 report2 Hr2. destruct (Hrest r2 report2 Hr2) as (new2 & Hnew2 & Hroom2 & Hsub2).
  exists (new ++ new2). rewrite app_assoc. split_and!; [done|done|]. by apply (submseteq_app _ [event] _ released).
Qed.

(** Staging touches neither the store nor what the journal tells. *)
Lemma stage_told r fs events event :
  told r fs events -> told (stage r event).1 fs events /\ rt_store (stage r event).1 = rt_store r /\
  exists new, rt_pending (stage r event).1 = rt_pending r ++ new /\ new `sublist_of` [event].
Proof.
  intros Htold. destruct (stage_spec r event) as [->|[[ledger ->]|(-> & _)]].
  - split_and!; [done|done|]. exists []. split; [by rewrite app_nil_r|apply sublist_nil_l].
  - split_and!; [by apply (told_same r)|done|]. exists []. split; [by rewrite app_nil_r|apply sublist_nil_l].
  - split_and!; [by apply (told_same r)|done|]. by exists [event].
Qed.
(** Room for many events is room for fewer. *)
Lemma room_shrink r l m :
  Forall journalable l -> 0 <= m <= zlen l -> room_for r (zlen l) -> room_for r m.
Proof.
  intros Hok Hm Hroom s Hs. specialize (Hroom s Hs). destruct l as [|e l].
  - change (zlen []) with 0 in Hm, Hroom. by replace m with 0 by lia.
  - inversion Hok as [|? ? He _]; subst. pose proof (journalable_bound e He). nia.
Qed.

(** A runtime whose journal tells its state and has room for the events that are staged
    and for [rest], on a system that works. *)
Record telling (r : FabricRuntime) (w : World) (events rest : list FabricEvent) : Prop := {
  tl_told : told r (w_files w) events;
  tl_fit : Forall journalable (rt_pending r ++ rest);
  tl_room : room_for r (zlen (rt_pending r ++ rest));
  tl_works : w_faults w = []
}.

(** What stays to be done, with what was journaled, of what was to be done. *)
Definition within_work (new : list FabricEvent) (r' : FabricRuntime) (rest' : list FabricEvent)
    (r : FabricRuntime) (rest : list FabricEvent) : Prop :=
  new ++ (rt_pending r' ++ rest') ⊆+ rt_pending r ++ rest.

Lemma work_same r rest : within_work [] r rest r rest.
Proof. unfold within_work. cbn [app]. reflexivity. Qed.

Lemma stage_telling r w events event rest :
  telling r w events (event :: rest) ->
  telling (stage r event).1 w events rest /\ within_work [] (stage r event).1 rest r (event :: rest).
Proof.
  intros [Htold Hfit Hroom Hworks]. destruct (stage_told r _ events event Htold) as (Htold' & Hstore & new & Hp & Hsub).
  assert (Hnew : (rt_pending r ++ new) ++ rest `sublist_of` rt_pending r ++ event :: rest).
  { rewrite <-(assoc_L (++)). apply sublist_app; [done|]. by apply (sublist_app _ [event] _ rest). }
  split; [|unfold within_work; rewrite Hp; by apply sublist_submseteq].
  split; [done| | |done]; rewrite Hp.
  - rewrite Forall_forall in Hfit |- *. intros e He. apply Hfit.
    eapply elem_of_submseteq; [exact He|by apply sublist_submseteq].
  - apply (room_shrink _ (rt_pending r ++ event :: rest)); [done| |intros s Hs; apply Hroom; congruence].
    apply sublist_length in Hnew. unfold zlen. lia.
Qed.

Lemma flush_telling r w events upto rest r' report :
  telling r w events rest -> (flush r upto w).1 = Some (r', report) ->
  exists new, telling r' (flush r upto w).2 (events ++ new) rest /\ within_work new r' rest r rest.
Proof.
  intros [Htold Hfit Hroom Hworks] Hflush. pose proof (told_open _ _ _ _ _ _ Htold) as Hopen.
  destruct (flush_answers r upto w r' report Hopen Hflush) as [answer ->].
  destruct (flush_keeps _ _ _ _ _ Hflush) as [_ Hp].
  set (released := filter (fun e => fe_at e <= upto) (rt_pending r)).
  set (n := zlen (rt_pending r' ++ rest)).
  pose proof (filter_split upto (rt_pending r)) as Hsplit. fold released in Hsplit. rewrite <-Hp in Hsplit.
  set (r1 := r <| rt_pending := filter (fun e => upto < fe_at e) (rt_pending r) |>).
  assert (Htold1 : told r1 (w_files w) events) by by apply (told_same r).
  rewrite <-Hsplit in Hfit. rewrite <-(assoc_L (++)) in Hfit. apply Forall_app in Hfit as [Hdue Hfit].
  assert (Hroom1 : room_for r1 (zlen (std_sort event_less released) + n)).
  { replace (zlen (std_sort event_less released) + n) with (zlen (rt_pending r ++ rest)); [exact Hroom|].
    apply Permutation_length in Hsplit. unfold n, zlen in *. rewrite std_sort_length, !length_app in *. lia. }
  pose proof (release_events_told (std_sort event_less released) r1 events (BatchReport_default <| br_upto := upto |>) n w
    Htold1 (proj2 (Forall_std_sort _ _ _) Hdue) (zlen_nonneg _) Hroom1 Hworks) as Hrel.
  revert Hflush. unfold flush. rewrite Hopen. cbn zeta. fold released r1.
  unfold io_then, mbind, io_bind. destruct (release_events r1 _ _ w) as [[[r2 report2]|] w2]; [|done].
  destruct Hrel as [Hf Hnew]. destruct (Hnew r2 report2 eq_refl) as (new & Hnew2 & Hroom2 & Hsub).
  cbn [mret io_ret fst snd].
  intros [= Hr' _]. exists new. split.
  2: { unfold within_work. rewrite (assoc_L (++)). apply submseteq_app; [|done].
       rewrite <-Hsplit. apply submseteq_app; [|done]. by rewrite Hsub, std_sort_perm. }
  split; [|done| |exact Hf].
  - rewrite <-Hr'. apply (told_same r2); [done..| |exact Hnew2].
    unfold publish_digests. cbn [rt_state set eta_FabricRuntime]. unfold agree. by rewrite core_refresh_health.
  - fold n. rewrite <-Hr'. exact Hroom2.
Qed.

(** What the submissions still have to stage. *)
Definition outstanding (cs : list Submission) : list FabricEvent := cs ≫= sub_todo.

Lemma telling_perm r w events rest rest' : rest ≡ₚ rest' -> telling r w events rest -> telling r w events rest'.
Proof.
  intros Hp [Htold Hfit Hroom Hworks]. split; [done|by rewrite <-Hp| |done].
  unfold zlen in *. by rewrite <-Hp.
Qed.

Lemma turn_telling r c w events rest r' c' :
  telling r w events (sub_todo c ++ rest) -> (take_turn r c w).1 = Some (r', c') ->
  exists new, telling r' (take_turn r c w).2 (events ++ new) (sub_todo c' ++ rest) /\
    within_work new r' (sub_todo c' ++ rest) r (sub_todo c ++ rest).
Proof.
  intros Ht. unfold take_turn. destruct (sub_result c) as [result|].
  { intros [= <- <-]. exists []. rewrite app_nil_r. split; [done|apply work_same]. }
  destruct (sub_todo c) as [|event todo] eqn:Htodo.
  - pose proof (fun r1 result => flush_telling r w events (sub_upto c) rest r1 result Ht) as Hflush.
    unfold io_then, mbind, io_bind. destruct (flush r (sub_upto c) w) as [[[r1 [report|status]]|] w1];
      cbn [mret io_ret fst snd] in *; [| |done]; intros [= <- <-]; cbn; rewrite Htodo; by eapply Hflush.
  - pose proof (stage_telling r w events event (todo ++ rest) Ht) as Hstage.
    destruct (stage r event) as [r1 staged]. cbn [mret io_ret fst snd] in *. intros [= <- <-]. exists [].
    rewrite app_nil_r. unfold note_staged. case_bool_decide; [exact Hstage|]. by destruct (negb _).
Qed.

Lemma turns_telling turns : forall r cs w events r' cs',
  telling r w events (outstanding cs) -> (run_turns turns r cs w).1 = Some (r', cs') ->
  exists new, telling r' (run_turns turns r cs w).2 (events ++ new) (outstanding cs') /\
    within_work new r' (outstanding cs') r (outstanding cs).
Proof.
  induction turns as [|i turns IH]; intros r cs w events r' cs' Ht; cbn [run_turns].
  { intros [= <- <-]. exists []. rewrite app_nil_r. split; [done|apply work_same]. }
  destruct (cs !! i) as [c|] eqn:Hi; [|by apply IH].
  pose proof (fun c1 => replace_perm cs i c c1 Hi) as Hreplace.
  unfold io_then, mbind, io_bind. destruct (take_turn r c w) as [[[r1 c1]|] w1] eqn:Hturn; [|done].
  destruct (Hreplace c1) as (rest & Hcs & Hcs1).
  apply (telling_perm _ _ _ _ (sub_todo c ++ outstanding rest)) in Ht; [|unfold outstanding; by rewrite Hcs].
  destruct (turn_telling r c w events (outstanding rest) r1 c1 Ht) as (new1 & Ht1 & Hwork1); [by rewrite Hturn|].
  rewrite Hturn in Ht1. cbn [snd] in Ht1.
  apply (telling_perm _ _ _ _ (outstanding (<[i := c1]> cs))) in Ht1; [|unfold outstanding; by rewrite Hcs1].
  intros Hrun. destruct (IH r1 _ w1 (events ++ new1) r' cs' Ht1 Hrun) as (new2 & Ht2 & Hwork2).
  exists (new1 ++ new2). rewrite (assoc_L (++)). split; [done|]. unfold within_work in *.
  assert (Hbefore : outstanding cs ≡ₚ sub_todo c ++ outstanding rest) by (unfold outstanding; by rewrite Hcs).
  assert (Hafter : outstanding (<[i := c1]> cs) ≡ₚ sub_todo c1 ++ outstanding rest)
    by (unfold outstanding; by rewrite Hcs1).
  rewrite Hbefore, <-Hwork1, <-(assoc_L (++)). apply submseteq_app; [done|]. by rewrite <-Hafter.
Qed.

Lemma outstanding_start batches : outstanding (submission config <$> batches) = concat batches.
Proof. unfold outstanding. induction batches as [|b batches IH]; [done|]. cbn. by rewrite IH. Qed.
End submitting.

(** C3. The journal tells the state, however many callers submit at the same time.  Let the
    journal of a running runtime hold exactly the events whose live application leads to
    its state, from the initial state or from that of the last snapshot (as it does after
    every open and after every checkpoint: [opened_told], [checkpoint_told]), and let the
    events be encodable, later than instant zero and within the bound on records.  While
    every call works and the journal has room, so that no snapshot is written, it does so after
    any interleaving of the turns of the submits: it holds the events of before, then
    some of those that were staged or submitted, none of them more often than it was, and
    none of them is staged any more or still to be staged. *)
Theorem journal_tells_state config directory base r events batches turns w r' cs' :
  let o := store_options config directory in
  so_max_record_bytes o <= u32_max -> told config directory base r (w_files w) events ->
  Forall (journalable config directory) (rt_pending r ++ concat batches) ->
  room_for config directory r (zlen (rt_pending r ++ concat batches)) -> w_faults w = [] ->
  (run_turns turns r (submission config <$> batches) w).1 = Some (r', cs') ->
  exists new,
    told config directory base r' (w_files (run_turns turns r (submission config <$> batches) w).2) (events ++ new) /\
    new ++ (rt_pending r' ++ outstanding cs') ⊆+ rt_pending r ++ concat batches.
Proof.
  intros o Hwidth Htold Hfit Hroom Hworks Hrun.
  destruct (turns_telling config directory base Hwidth turns r (submission config <$> batches) w events r' cs')
    as (new & Ht & Hwork); [|exact Hrun|].
  - split; rewrite ?outstanding_start; done.
  - exists new. split; [apply Ht|]. unfold within_work in Hwork. by rewrite outstanding_start in Hwork.
Qed.

(** One [submit] is such an interleaving. *)
Lemma submit_tells_state config directory base r events batch w r' report :
  let o := store_options config directory in
  so_max_record_bytes o <= u32_max -> told config directory base r (w_files w) events ->
  Forall (journalable config directory) (rt_pending r ++ batch) ->
  room_for config directory r (zlen (rt_pending r ++ batch)) -> w_faults w = [] ->
  (submit r batch w).1 = Some (r', report) ->
  exists new, told config directory base r' (w_files (submit r batch w).2) (events ++ new).
Proof.
  intros o Hwidth Htold Hfit Hroom Hworks Hsubmit. pose proof (told_config _ _ _ _ _ _ Htold) as Hconfig.
  destruct (Z.leb_spec (zlen batch) (max_batch_events (rc_bounds (rt_config r)))) as [Hsize|Hlarge].
  2: { revert Hsubmit. unfold submit.
    destruct (Z.ltb_spec (max_batch_events (rc_bounds (rt_config r))) (zlen batch)); [|lia].
    intros [= <- _]. exists []. by rewrite app_nil_r. }
  pose proof (submit_is_its_turns r batch w Hsize) as Hturns. rewrite Hconfig in Hturns.
  set (turns := replicate (S (length batch)) 0%nat) in *.
  destruct (turns_telling config directory base Hwidth turns r [submission config batch] w events r'
    (match (run_turns turns r [submission config batch] w).1 with Some (_, cs) => cs | None => [] end))
    as (new & Ht & _).
  - assert (Hone : outstanding [submission config batch] = batch) by (unfold outstanding; cbn;
      by rewrite app_nil_r).
    by split; rewrite ?Hone.
  - destruct (run_turns _ r _ w) as [[[r1 cs1]|] w1], (submit r batch w) as [res w2]; cbn in *; subst res;
      [|by destruct Hturns]. by destruct Hturns as [[= -> _] _].
  - exists new. destruct (run_turns _ r _ w) as [ran w1], (submit r batch w) as [res w2]. cbn in *.
    destruct Hturns as [_ ->]. apply Ht.
Qed.

(** *** Where it starts *)

(** A checkpoint that succeeds starts the journal over. *)
Lemma checkpoint_runs config directory r s fs snap records :
  let o := store_options config directory in
  so_max_record_bytes o <= u32_max -> rt_config r = config -> rt_closed r = false -> rt_store r = Some s ->
  ready o s fs snap records ->
  runs fs (checkpoint r) (fun '(r', status) fs' => status_ok status = true ->
    told config directory (snapshot_base (rt_state r) (rt_deliveries r)) r' fs' [] /\
    rt_state r' = (rt_state r) <| rs_journaled_events := 0 |>).
Proof.
  intros o Hwidth Hconfig Hopen Hs Hready. unfold checkpoint, checkpoint_locked. rewrite Hopen, Hs. apply runs_then.
  eapply runs_weaken; [exact (rotate_runs o Hwidth s fs snap records
    (encode_binary RuntimeState_codec (rt_state r)) Hready)|].
  intros [s' status] fs' (_ & _ & _ & _ & Hok & _). cbn [fst snd].
  destruct (status_ok status) eqn:Hstatus; cbn [negb]; apply runs_ret; [|by rewrite Hstatus].
  intros _. split; [|done]. split; [by right|exact Hconfig|exact Hopen|exists s'|constructor|].
  - split; [done|]. exact (Hok eq_refl).
  - exists (rt_state r). done.
Qed.

Lemma checkpoint_told config directory base r events w :
  let o := store_options config directory in
  so_max_record_bytes o <= u32_max -> told config directory base r (w_files w) events ->
  status_ok (checkpoint r w).1.2 = true ->
  told config directory (snapshot_base (rt_state r) (rt_deliveries r)) (checkpoint r w).1.1
    (w_files (checkpoint r w).2) [].
Proof.
  intros o Hwidth [_ Hconfig Hopen (s & Hs & Hready) _ _] Hok.
  pose proof (checkpoint_runs config directory r s (w_files w) _ _ Hwidth Hconfig Hopen Hs Hready w eq_refl) as [H _].
  destruct (checkpoint r w) as [[r' status] w']. exact (proj1 (H Hok)).
Qed.

Lemma finish_open_told config directory r recovery s fs snap records :
  let o := store_options config directory in
  so_max_record_bytes o <= u32_max -> rt_config r = config -> rt_closed r = false -> rt_store r = Some s ->
  ready o s fs snap records ->
  runs fs (finish_open r recovery true) (fun '(r', refusal) fs' => refusal = None ->
    exists base, told config directory base r' fs' []).
Proof.
  intros o Hwidth Hconfig Hopen Hs Hready. unfold finish_open. cbn zeta.
  destruct (restart _ _) as [state fenced]. set (r1 := r <| rt_state := state |> <| rt_recovery := _ |>).
  apply runs_then. eapply runs_weaken.
  { exact (checkpoint_runs config directory r1 s fs snap records Hwidth Hconfig Hopen Hs Hready). }
  intros [r2 status] fs' Htold. destruct (status_ok status); cbn [negb]; apply runs_ret; [|done].
  intros _. exists (snapshot_base (rt_state r1) (rt_deliveries r1)). destruct (Htold eq_refl) as [Ht _].
  by apply (told_same config directory _ r2).
Qed.

Lemma restore_snapshot_store r payload r' refusal :
  restore_snapshot r payload = (r', refusal) ->
  rt_config r' = rt_config r /\ rt_closed r' = rt_closed r /\ rt_store r' = rt_store r.
Proof.
  unfold restore_snapshot. cbn zeta. case_bool_decide; [by intros [= <- _]|].
  destruct (decode_binary _ _ _); [|by intros [= <- _]]. destruct (_ && _); by intros [= <- _].
Qed.

(** Opening a store starts a journal that tells the state: the empty store that of a fresh
    runtime, any other that of the checkpoint a recovery ends with. *)
Lemma opened_told config directory w d r w1 :
  options_ok (store_options config directory) (w_dirs w) -> config_refusal config = None ->
  rc_store_directory config = Some directory -> durably (store_options config directory) (w_files w) d ->
  d.1 <> Some [] -> runtime_open config (after_crash w) = (Some (Value r), w1) ->
  exists base, told config directory base r (w_files w1) [] /\ (d = (None, []) -> base = fresh_base config).
Proof.
  intros Hok Hconfig Hdir Hholds Hpayload.
  destruct (reopened_ready _ w d Hok Hholds) as (s & w2 & s' & recovery & w3 & Hopen & Hload & Hready).
  unfold runtime_open. rewrite Hconfig, Hdir. cbn zeta. erewrite io_then_eval by exact Hopen.
  cbn beta iota zeta.
  erewrite io_then_eval by exact Hload. cbn beta iota zeta.
  cbn [ld_result ld_snapshot ld_records].
  destruct (decide (d = (None, []))) as [->|Hfound].
  { unfold recover. cbn. intros [= <- <-]. exists (fresh_base config). split; [|done].
    split; [by left|done|done|by exists s'|constructor|]. by exists (initial config). }
  set (r0 := (fresh_runtime config) <| rt_store := Some s' |>). unfold recover. cbn zeta.
  assert (Hrec : negb (bool_decide (default [] d.1 = [])) || negb (bool_decide (d.2 = [])) = true).
  { destruct d as [[payload|] records]; cbn in *.
    - by rewrite bool_decide_false by congruence.
    - rewrite (bool_decide_false (records = [])); [done|]. intros ->. by apply Hfound. }
  rewrite Hrec. destruct (restore_snapshot _ _) as [restored [status|]] eqn:Hrestore.
  { unfold abandon_open, io_then, mbind, io_bind. by destruct (close restored w3). }
  apply restore_snapshot_store in Hrestore as (A & B & C).
  destruct (replay_records _ _ _ _ _ _) as [[[[st del] n] [status|]]|]; [| |done].
  { unfold abandon_open, io_then, mbind, io_bind. by destruct (close _ w3). }
  set (r1 := restored <| rt_state := st |> <| rt_deliveries := del |> <| rt_recovery := _ |>).
  pose proof (finish_open_told config directory r1 recovery s' (w_files w3) d.1 d.2
    (proj2 (opt_width _ _ Hok)) A B C Hready w3 eq_refl) as [Hf _].
  unfold io_then at 1, mbind at 1, io_bind at 1.
  destruct (finish_open r1 recovery true w3) as [[r2 [status|]] w4].
  { unfold abandon_open, io_then, mbind, io_bind. by destruct (close r2 w4). }
  cbn [mret io_ret]. intros [= <- <-]. destruct (Hf eq_refl) as [base Hbase]. by exists base.
Qed.

Definition journaling_open : option (Result FabricRuntime) * World :=
  Eval vm_compute in runtime_open sample_stored sample_world.
Definition journaling : FabricRuntime :=
  Eval cbv in match journaling_open.1 with Some (Value r) => r | _ => fresh_runtime sample_stored end.
Lemma journaling_eq : runtime_open sample_stored (after_crash sample_world) =
  (Some (Value journaling), journaling_open.2).
Proof. vm_compute. reflexivity. Qed.
Lemma stored_options_ok : options_ok (store_options sample_stored "/s") ["/s"].
Proof. split; [split; [done|by apply list_elem_of_singleton]|by split|by split]. Qed.
Lemma journaling_told : told sample_stored "/s" (fresh_base sample_stored) journaling (w_files journaling_open.2) [].
Proof.
  destruct (opened_told sample_stored "/s" sample_world (None, []) journaling journaling_open.2)
    as (base & Hbase & Hfresh);
    [exact stored_options_ok|by vm_compute|done| |done|exact journaling_eq|by rewrite <-(Hfresh eq_refl)].
  exists [].
  split; [reflexivity|done|by split|by constructor|by left|]. vm_compute. discriminate.
Qed.
Definition journaling_event : FabricEvent := stamped 2 (sample_declared "db").
Lemma journaling_event_ok : journalable sample_stored "/s" journaling_event.
Proof. split; [split; vm_compute; reflexivity|vm_compute; discriminate]. Qed.

(** Two callers who submit the same event. *)
Definition journaling_batches : list (list FabricEvent) := [[journaling_event]; [journaling_event]].
Definition journaling_turns : option (FabricRuntime * list Submission) :=
  (run_turns [0; 1; 1; 0]%nat journaling (submission sample_stored <$> journaling_batches) journaling_open.2).1.
Definition journaling_submitted : FabricRuntime * list Submission := default (journaling, []) journaling_turns.

Lemma journaling_running : taking_turns sample_stored journaling.
Proof.
  assert (Hnone : rt_pending journaling = []) by (vm_compute; reflexivity).
  assert (Hnew : bh_entries (rt_deliveries journaling) = []) by (vm_compute; reflexivity).
  split; [by vm_compute| |by vm_compute|by rewrite Hnone].
  split; rewrite ?Hnone, ?Hnew; try (vm_compute; reflexivity || discriminate); constructor.
Qed.

Lemma default_pair {A B} (o : option (A * B)) (d : A * B) : is_Some o -> o = Some ((default d o).1, (default d o).2).
Proof. intros [[a b] ->]. done. Qed.

(** Evaluating the run would take the digests of its states. *)
Lemma journaling_turns_eq :
  (run_turns [0; 1; 1; 0]%nat journaling (submission sample_stored <$> journaling_batches) journaling_open.2).1 =
    Some (journaling_submitted.1, journaling_submitted.2).
Proof.
  destruct sample_bounds as (H1 & H2 & H3). unfold journaling_submitted, journaling_turns. apply default_pair.
  destruct (run_turns_together sample_stored H2 H1 (rt_pending journaling) _ [0; 1; 1; 0]%nat journaling
    (submission sample_stored <$> journaling_batches) journaling_open.2
    (together_begin sample_stored journaling journaling_batches journaling_running
       ltac:(repeat constructor; vm_compute; discriminate) ltac:(repeat constructor))) as (r' & cs' & -> & _).
  by eexists.
Qed.

Lemma journal_tells_state_witness :
  exists new, told sample_stored "/s" (fresh_base sample_stored) journaling_submitted.1
    (w_files (run_turns [0; 1; 1; 0]%nat journaling (submission sample_stored <$> journaling_batches)
       journaling_open.2).2)
    ([] ++ new) /\
    new ++ (rt_pending journaling_submitted.1 ++ outstanding journaling_submitted.2) ⊆+
      rt_pending journaling ++ concat journaling_batches.
Proof.
  assert (Hnone : rt_pending journaling = []) by (vm_compute; reflexivity).
  apply (journal_tells_state sample_stored "/s" (fresh_base sample_stored) journaling [] journaling_batches
    [0; 1; 1; 0]%nat journaling_open.2 journaling_submitted.1 journaling_submitted.2).
  - vm_compute. discriminate.
  - exact journaling_told.
  - rewrite Hnone. repeat apply Forall_cons_2; [exact journaling_event_ok..|apply Forall_nil_2].
  - intros s Hs. rewrite Hnone.
    assert (Hbytes : st_journal_bytes <$> rt_store journaling = Some 0) by (vm_compute; reflexivity).
    rewrite Hs in Hbytes. injection Hbytes as ->. vm_compute. discriminate.
  - vm_compute. reflexivity.
  - exact journaling_turns_eq.
Defined.


