(* ===== verification/Tool.v ===== *)
(** * The command line tool

    [tools/dpufabric.cpp]: every command goes through the operations of the library, so
    a command is a sequence of them with what it prints and the code it exits with.
    The world is the one of Store.v, with what the network does to the server or to the
    client: [serve] takes the connections of the world one after another, as a server
    with one worker does. *)

From S2P Require Import Prelude Std Reason Types Version Resources Bounded Digest Json JsonArchive Archive Model.
From S2P Require Import Codec Authority Dependency Eligibility Planner JsonLaws State JsonCodec Wire Frame Store.
From S2P Require Import Journal Durability Reducers Intent Scenario Runtime Export Server Client Serving Ingest Recovery.
#[local] Open Scope Z_scope.

(** ** Commands *)

(** What the network does: whether [listen_on] succeeds, and what [local_port] says
    of the socket; the connections the server accepts; what [connect_to] returns and the connection of the
    client. *)
Record Network := mkNetwork {
  nw_listening : Status;
  nw_port : Result Z;
  nw_accepts : list Peer;
  nw_connecting : Status;
  nw_connection : Peer
}.

Record ToolState := mkToolState {
  ts_world : World;
  ts_network : Network;
  ts_out : string;
  ts_err : string
}.
#[export] Instance eta_ToolState : Settable ToolState := fun s =>
  mkToolState (ts_world s) (ts_network s) (ts_out s) (ts_err s).

(** A command goes on, ends the process with an exit code, is killed, waits for ever,
    or has no defined result. *)
Inductive Progress (A : Type) : Type :=
| Goes (x : A) | Exits (code : Z) | Killed | Blocks | NoResult.
Arguments Goes {A}.
Arguments Exits {A}.
Arguments Killed {A}.
Arguments Blocks {A}.
Arguments NoResult {A}.
Definition Tool (A : Type) : Type := ToolState -> Progress A * ToolState.
Definition tool_ret {A} (x : A) : Tool A := fun s => (Goes x, s).
Definition tool_bind {A B} (e : Tool A) (k : A -> Tool B) : Tool B := fun s =>
  match e s with
  | (Goes x, s) => k x s
  | (Exits code, s) => (Exits code, s)
  | (Killed, s) => (Killed, s)
  | (Blocks, s) => (Blocks, s)
  | (NoResult, s) => (NoResult, s)
  end.
#[local] Notation "'do' x '<-' e ';' k" := (tool_bind e (fun x => k))
  (at level 10, x name, e at level 200, k at level 200) : fabric_scope.
#[local] Notation "e ;; k" := (tool_bind e (fun _ => k)) : fabric_scope.

Definition io {A} (e : IO A) : Tool A := fun s =>
  let '(x, w) := e (ts_world s) in (Goes x, s <| ts_world := w |>).
(** An operation of the runtime that may have no result. *)
Definition io_result {A} (e : IO (option A)) : Tool A := fun s =>
  match e (ts_world s) with
  | (Some x, w) => (Goes x, s <| ts_world := w |>)
  | (None, w) => (NoResult, s <| ts_world := w |>)
  end.
Definition exits {A} (code : Z) : Tool A := fun s => (Exits code, s).
Definition print (text : string) : Tool unit := fun s => (Goes tt, s <| ts_out := ts_out s +:+ text |>).
Definition print_error (text : string) : Tool unit := fun s => (Goes tt, s <| ts_err := ts_err s +:+ text |>).
Fixpoint print_all (lines : list string) : Tool unit :=
  match lines with [] => tool_ret tt | line :: lines => print line;; print_all lines end.

Definition nl : string := String "010" "".
(** [name=value], the shape of everything the tool prints. *)
Definition labelled (name value : string) : string := name +:+ "=" +:+ value.
Definition line (words : list string) : string := String.concat " " words +:+ nl.

Definition usage_text : string :=
  "dpufabric " +:+ version_string +:+ nl +:+
  "usage:" +:+ nl +:+
  "  dpufabric version" +:+ nl +:+
  "  dpufabric export --store DIR [--compact]" +:+ nl +:+
  "  dpufabric verify --store DIR" +:+ nl +:+
  "  dpufabric explain --store DIR [--instance ID]" +:+ nl +:+
  "  dpufabric plan --topology F --policy F --services F --group F --intent F" +:+ nl +:+
  "                  [--dependencies F] [--generation N]" +:+ nl +:+
  "  dpufabric replay --events F [--store DIR]" +:+ nl +:+
  "  dpufabric serve (--listen HOST:PORT | --inherited-socket N) [--store DIR]" +:+ nl +:+
  "                 [--workers N] [--max-frame N]" +:+ nl +:+
  "  dpufabric client --connect HOST:PORT (ping|query|export|submit FILE|shutdown)" +:+ nl +:+
  "  dpufabric crash --store DIR --boundary NAME" +:+ nl.
Definition usage {A} : Tool A := print_error usage_text;; exits 2.

(** [report], and returning what it returns. *)
Definition report (status : Status) (what : string) : Tool Z :=
  if status_ok status then tool_ret 0
  else print_error (what +:+ ": " +:+ c_str (status_message status) +:+ nl);; tool_ret 1.
Definition leave {A} (status : Status) (what : string) : Tool A := do code <- report status what; exits code.

(** ** Arguments *)
Record ToolArguments := mkToolArguments {
  ta_values : list (string * string);
  ta_positional : list string
}.

Definition is_flag (token : string) : bool := String.prefix "--" token.
Definition flag_body (token : string) : string := String.substring 2 (String.length token - 2) token.

(** [Arguments::Arguments] *)
Fixpoint parse_arguments (tokens : list string) : ToolArguments :=
  let named name value (a : ToolArguments) := mkToolArguments ((name, value) :: ta_values a) (ta_positional a) in
  match tokens with
  | [] => mkToolArguments [] []
  | token :: rest =>
    if is_flag token then
      match split_at "="%char (flag_body token) with
      | (name, Some value) => named name value (parse_arguments rest)
      | (name, None) =>
        match rest with
        | next :: rest' =>
          if negb (is_flag next) then named name next (parse_arguments rest')
          else named name "" (parse_arguments rest)
        | [] => named name "" (parse_arguments rest)
        end
      end
    else
      let a := parse_arguments rest in mkToolArguments (ta_values a) (token :: ta_positional a)
  end.

Fixpoint find_value (values : list (string * string)) (name : string) : option string :=
  match values with
  | [] => None
  | (key, value) :: values => if bool_decide (key = name) then Some value else find_value values name
  end.
Definition arg_get (a : ToolArguments) (name : string) : option string := find_value (ta_values a) name.
Definition arg_has (a : ToolArguments) (name : string) : bool := bool_decide (is_Some (arg_get a name)).

(** [std::stoull] and [std::stoul], base ten: [None] where they throw.  A minus sign
    is taken modulo the width, and what follows the digits is ignored. *)
Definition is_space (c : Ascii.ascii) : bool := (code c =? 32) || ((9 <=? code c) && (code c <=? 13)).
Fixpoint skip_space (text : string) : string :=
  match text with
  | EmptyString => EmptyString
  | String c rest => if is_space c then skip_space rest else text
  end.
Fixpoint leading_digits (value : Z) (text : string) : Z :=
  match text with
  | EmptyString => value
  | String c rest => if isdigit c then leading_digits (value * 10 + (code c - 48)) rest else value
  end.
Definition starts_digit (text : string) : bool := match text with String c _ => isdigit c | _ => false end.
Definition stoull (text : string) : option Z :=
  let text := skip_space text in
  let '(negative, digits) :=
    match text with
    | String c rest => if bool_decide (c = "-"%char) then (true, rest)
                       else if bool_decide (c = "+"%char) then (false, rest) else (false, text)
    | EmptyString => (false, text)
    end in
  if negb (starts_digit digits) then None
  else
    let value := leading_digits 0 digits in
    if u64_max <? value then None
    else Some (if negative : bool then (- value) mod 2 ^ 64 else value).
Definition arg_number (a : ToolArguments) (name : string) : option Z := arg_get a name ≫= stoull.

(** [rfind] of a colon: what is before the last one and after it. *)
Fixpoint rsplit_at (c : Ascii.ascii) (text : string) : option (string * string) :=
  match text with
  | EmptyString => None
  | String d rest =>
    match rsplit_at c rest with
    | Some (before, after) => Some (String d before, after)
    | None => if bool_decide (d = c) then Some ("", rest) else None
    end
  end.
(** [parse_endpoint] *)
Definition parse_endpoint (text : string) : Result (string * Z) :=
  match rsplit_at ":"%char text with
  | None => Failed (refuse ReasonCode.MalformedInput "endpoint must be host:port")
  | Some (host, port_text) =>
    if bool_decide (host = "") || bool_decide (port_text = "") then
      Failed (refuse ReasonCode.MalformedInput "endpoint must be host:port")
    else
      match stoull port_text with
      | None => Failed (refuse ReasonCode.MalformedInput "invalid port")
      | Some port =>
        if (port =? 0) || (65535 <? port) then Failed (refuse ReasonCode.ValueOutOfRange "invalid port")
        else Value (host, port)
      end
  end.

(** ** Files *)

(** [read_text]: the file is read whole. *)
Definition read_text (path : string) : IO (Result string) :=
  let* opened := next_fault in
  let* file := get_file path in
  mret (match opened, file with
        | Works, Some data => Value (string_of_bytes data)
        | _, _ => Failed (refuse ReasonCode.StoreNotFound ("cannot open " +:+ path))
        end).
Definition kToolDocumentBytes : Z := 4 * 2 ^ 20.
Definition read_document (path : string) : IO (option (Result JsonValue)) :=
  let* text := read_text path in
  mret (match text with Failed s => Some (Failed s) | Value text => parse_json text kToolDocumentBytes end).
(** [read_json_model] and [read_json_array]; the loop of the latter makes the calls a
    visited vector makes. *)
Definition read_json_model {T} (c : Codec T) (path : string) : IO (option (Result T)) :=
  let* document := read_document path in
  mret (match document with
        | None => None
        | Some (Failed s) => Some (Failed s)
        | Some (Value document) => Some (decode_json c document kMaxDecodedSequence)
        end).
Definition read_json_array {T} (c : Codec T) (path : string) : IO (option (Result (list T))) :=
  let* document := read_document path in
  mret (match document with
        | None => None
        | Some (Failed s) => Some (Failed s)
        | Some (Value document) =>
          Some (if negb (is_array document) then
                  Failed (refuse ReasonCode.MalformedInput ("expected a JSON array in " +:+ path))
                else decode_json (c_vector c) document kMaxDecodedSequence)
        end).
(** A value, or the refusal reported. *)
Definition or_leave {A} (e : IO (option (Result A))) (what : string) : Tool A :=
  do result <- io_result e;
  match result with
  | Value x => tool_ret x
  | Failed s => leave s what
  end.

(** ** The runtime of a command *)
Definition tool_runtime_config : RuntimeConfig :=
  RuntimeConfig_default <| rc_store_id := "dpufabric-store" |> <| rc_coordinator := "dpufabric-coordinator" |>
    <| rc_epoch := 1 |> <| rc_boot := 1 |>.
Definition store_runtime_config (directory : string) : RuntimeConfig :=
  tool_runtime_config <| rc_store_directory := Some directory |>.
Definition maybe_store_config (directory : option string) : RuntimeConfig :=
  match directory with Some directory => store_runtime_config directory | None => tool_runtime_config end.

Definition open_runtime (config : RuntimeConfig) : Tool FabricRuntime := or_leave (runtime_open config) "open".
(** Leaving a command destroys its runtime. *)
Definition leave_runtime {A} (r : FabricRuntime) (status : Status) (what : string) : Tool A :=
  do code <- report status what;
  do closed <- io (close r);
  exits code.
Definition usage_runtime {A} (r : FabricRuntime) : Tool A :=
  print_error usage_text;; do closed <- io (close r); exits 2.
(** The last lines of a command. *)
Definition close_runtime {A} (r : FabricRuntime) : Tool A :=
  do closed <- io (close r);
  leave closed.2 "close".
Definition or_leave_runtime {A} (r : FabricRuntime) (e : IO (option (Result A))) (what : string) : Tool A :=
  do result <- io_result e;
  match result with Value x => tool_ret x | Failed s => leave_runtime r s what end.
Definition required (a : ToolArguments) (name : string) : Tool string :=
  match arg_get a name with Some value => tool_ret value | None => usage end.

Definition truth (b : bool) : string := if b then "true" else "false".

Definition command_version : Tool Z :=
  print (version_banner +:+ nl);;
  print (line [labelled "format" (to_string kFormatVersion); labelled "semantics" (to_string kSemanticVersion)]);;
  exits 0.

Definition command_export (a : ToolArguments) : Tool Z :=
  do directory <- required a "store";
  do r <- open_runtime (store_runtime_config directory);
  print (c_str (to_text (negb (arg_has a "compact")) (export_json r)) +:+ nl);;
  close_runtime r.

Definition truncation_line (prefix : string) (record : TruncationRecord) : string :=
  prefix +:+ String.concat " "
    ["truncation"; labelled "container" (c_str (tr_container record)); labelled "requested" (to_string (tr_requested record));
     labelled "accepted" (to_string (tr_accepted record)); labelled "dropped" (to_string (tr_dropped record))].
Definition verify_lines (r : FabricRuntime) : list string :=
  let s := runtime_snapshot r in
  let topology := rs_topology s in
  [line [labelled "classification" (enum_to_string (rsum_classification (rt_recovery r)))];
   line [labelled "store_id" (c_str (rs_store_id s))];
   line [labelled "epoch" (to_string (rs_epoch s)); labelled "boot" (to_string (rs_boot s))];
   line [labelled "clock" (to_string (rs_clock s)); labelled "watermark" (to_string (rs_watermark s))];
   line [labelled "devices" (to_string (zlen (topo_dpus topology))); labelled "services" (to_string (zlen (rs_services s)));
         labelled "groups" (to_string (zlen (rs_groups s))); labelled "instances" (to_string (zlen (rs_instances s)));
         labelled "plans" (to_string (zlen (rs_plans s))); labelled "decisions" (to_string (zlen (rs_decisions s)))];
   line [labelled "state_digest" (digest_hex (state_digest r))];
   line [labelled "durable_digest" (digest_hex (durable_digest r))];
   line [labelled "truncation_records" (to_string (zlen (tl_records (rs_truncations s))));
         labelled "dropped" (to_string (total_dropped (rs_truncations s)))]] ++
  map (fun record => truncation_line "  " record +:+ " " +:+ labelled "reason" (reason_to_string (tr_reason record)) +:+ nl)
    (tl_records (rs_truncations s)).
Definition command_verify (a : ToolArguments) : Tool Z :=
  do directory <- required a "store";
  do opened <- io_result (runtime_open (store_runtime_config directory));
  match opened with
  | Failed s =>
    print (line ["classification=refused"; labelled "code" (reason_to_string (status_code s));
                 labelled "detail" (c_str (status_detail s))]);;
    exits 1
  | Value r => print_all (verify_lines r);; close_runtime r
  end.

Definition explain_line (e : Explanation) : string :=
  line [reason_to_string (ex_code e); labelled "subject" (c_str (ex_subject e));
        labelled "deployment" (to_string (ex_deployment e)); labelled "topology" (to_string (ex_topology e));
        labelled "capability" (to_string (ex_capability e)); labelled "policy" (to_string (ex_policy e));
        labelled "note" (c_str (ex_note e))].
Definition command_explain (a : ToolArguments) : Tool Z :=
  do directory <- required a "store";
  do r <- open_runtime (store_runtime_config directory);
  do explanations <-
    match arg_get a "instance" with
    | Some text =>
      match StrongId_parse text with
      | Failed s => leave_runtime r s "instance"
      | Value id => tool_ret (explain_instance r id)
      end
    | None => tool_ret (explain_last_decision r)
    end;
  print_all (map explain_line explanations);; close_runtime r.

(** *** Planning from documents *)
Definition plan_request (topology : TopologySnapshot) (policy : PolicyState) (services : list ServiceDefinition)
    (group : ServiceGroup) (intent : PlacementIntent) (graph : DependencyGraph) (generation : DeploymentGeneration)
  : PlanRequest :=
  mkPlanRequest (Some topology) (Some policy) (Some services) (Some graph) (Some group) (Some intent)
    (Some AuthorityRegistry_default) generation (int_submitted_at intent) 1 1 (Some RuntimeBounds_default).
Definition plan_lines (outcome : PlanOutcome) : list string :=
  [line [labelled "feasible" (truth (po_feasible outcome)); labelled "primary" (reason_to_string (po_primary outcome))]] ++
  map (fun e => line ["explanation"; labelled "code" (reason_to_string (ex_code e)); labelled "subject" (c_str (ex_subject e));
                      labelled "note" (c_str (ex_note e))]) (po_explanations outcome) ++
  map (fun record => truncation_line "" record +:+ nl) (po_truncations outcome) ++
  (if po_feasible outcome then
     [c_str (to_text true (encode_json DeploymentPlan_codec (po_plan outcome))) +:+ nl;
      line [labelled "plan_digest" (digest_hex (plan_digest (po_plan outcome)))]]
   else []).
Definition command_plan (a : ToolArguments) : Tool Z :=
  match arg_get a "topology", arg_get a "policy", arg_get a "services", arg_get a "group", arg_get a "intent" with
  | Some topology_path, Some policy_path, Some services_path, Some group_path, Some intent_path =>
    do topology <- or_leave (read_json_model TopologySnapshot_codec topology_path) "topology";
    do policy <- or_leave (read_json_model PolicyState_codec policy_path) "policy";
    do services <- or_leave (read_json_array ServiceDefinition_codec services_path) "services";
    do group <- or_leave (read_json_model ServiceGroup_codec group_path) "group";
    do intent <- or_leave (read_json_model PlacementIntent_codec intent_path) "intent";
    do dependencies <-
      match arg_get a "dependencies" with
      | Some path => or_leave (read_json_array Dependency_codec path) "dependencies"
      | None => tool_ret []
      end;
    let '(graph, built) := graph_build DependencyGraph_default dependencies (max_dependencies RuntimeBounds_default) in
    if negb (status_ok built) then leave built "dependencies" else
    do generation <-
      match arg_has a "generation", arg_number a "generation" with
      | false, _ => tool_ret (int_generation intent)
      | true, Some generation => tool_ret generation
      | true, None => usage
      end;
    let outcome := build_plan (plan_request topology policy services group intent graph generation)
                     PlacementWeights_default in
    print_all (plan_lines outcome);;
    exits (if po_feasible outcome then 0 else 1)
  | _, _, _, _, _ => usage
  end.

Definition replay_lines (batch : BatchReport) : list string :=
  line [labelled "applied" (to_string (br_applied batch)); labelled "suppressed" (to_string (br_suppressed batch));
        labelled "refused" (to_string (br_refused batch))] ::
  map (fun o => line [labelled "event" (c_str (eo_id o)); labelled "code" (reason_to_string (eo_code o));
                      labelled "applied" (truth (eo_applied o))]) (br_outcomes batch).
(** [submit] with what it returns. *)
Definition submit_value (r : FabricRuntime) (events : list FabricEvent) : Tool (FabricRuntime * Result BatchReport) :=
  io_result (submit r events).
Definition command_replay (a : ToolArguments) : Tool Z :=
  do path <- required a "events";
  do events <- or_leave (read_json_array FabricEvent_codec path) "events";
  do r <- open_runtime (maybe_store_config (arg_get a "store"));
  do submitted <- submit_value r events;
  let '(r, result) := submitted in
  match result with
  | Failed s => leave_runtime r s "submit"
  | Value batch =>
    print_all (replay_lines batch);;
    print (line [labelled "state_digest" (digest_hex (state_digest r))]);;
    print (line [labelled "durable_digest" (digest_hex (durable_digest r))]);;
    close_runtime r
  end.

(** *** Serving *)

(** The connections one after another, until one asks for the shutdown; [None] when the
    server waits for a peer. *)
Fixpoint serve_connections (options : ServerOptions) (r : FabricRuntime) (stats : ServerStats) (peers : list Peer)
  : Tool (FabricRuntime * ServerStats) :=
  match peers with
  | [] => fun s => (Blocks, s)
  | peer :: peers =>
    let stats := stats <| ss_connections := wrap_succ (ss_connections stats) |> in
    do served <- io_result (handle_connection options r stats peer);
    match sd_end served with
    | Undefined => fun s => (NoResult, s)
    | Waiting => fun s => (Blocks, s)
    | Ended => serve_connections options (sd_runtime served) (sd_stats served) peers
    | ShutdownAsked => tool_ret (sd_runtime served, sd_stats served)
    end
  end.
Definition network : Tool Network := fun s => (Goes (ts_network s), s).

(** The options [--workers] and [--max-frame] set. *)
Definition serve_options (a : ToolArguments) : ServerOptions :=
  mkServerOptions (sv_bind_address ServerOptions_default) (sv_port ServerOptions_default)
    (default (sv_workers ServerOptions_default) (arg_number a "workers"))
    (sv_max_pending_connections ServerOptions_default)
    (default (sv_max_frame_bytes ServerOptions_default) (arg_number a "max-frame"))
    (sv_export_allowed ServerOptions_default).
Definition serve_config (a : ToolArguments) : RuntimeConfig :=
  let config := maybe_store_config (arg_get a "store") in
  match arg_number a "max-frame" with
  | Some bytes => config <| rc_bounds := (rc_bounds config) <| max_frame_bytes := bytes |> |>
  | None => config
  end.
(** [Server::listen] and [Server::adopt]: the port, or the refusal. *)
Definition server_listen (listening : Status) (port : Result Z) : Result Z :=
  if status_ok listening then port else Failed listening.
Definition server_adopt (handle : Z) (port : Result Z) : Result Z :=
  if handle =? 0 then Failed (refuse ReasonCode.ValueOutOfRange "invalid socket handle") else port.
Definition make_ready (a : ToolArguments) (r : FabricRuntime) (options : ServerOptions) (net : Network)
  : Tool (ServerOptions * Result Z) :=
  match arg_number a "inherited-socket", arg_get a "listen" with
  | Some handle, _ => tool_ret (options, server_adopt handle (nw_port net))
  | None, Some text =>
    match parse_endpoint text with
    | Failed s => leave_runtime r s "listen"
    | Value (host, number) => tool_ret (set_endpoint options host number, server_listen (nw_listening net) (nw_port net))
    end
  | None, None => usage_runtime r
  end.
Definition stopped_line (stats : ServerStats) : string :=
  line ["stopped"; labelled "connections" (to_string (ss_connections stats)); labelled "requests" (to_string (ss_requests stats));
        labelled "refusals" (to_string (ss_refusals stats)); labelled "rejected" (to_string (ss_frames_rejected stats));
        labelled "cancelled" (to_string (ss_connections_cancelled stats))].
Definition command_serve (a : ToolArguments) : Tool Z :=
  let options := serve_options a in
  do r <- open_runtime (serve_config a);
  if negb (status_ok (server_create options)) then leave_runtime r (server_create options) "server" else
  do net <- network;
  do ready <- make_ready a r options net;
  let '(options, bound) := ready in
  match bound with
  | Failed s => leave_runtime r s "listen"
  | Value port =>
    print (line ["ready"; labelled "port" (to_string port)]);;
    do served <- serve_connections options r ServerStats_default (nw_accepts net);
    let '(r, stats) := served in
    print (stopped_line stats);;
    close_runtime r
  end.

(** *** Talking to a server *)
(** A call of the client: the reply, or the refusal reported. *)
Definition call {T} (reply : Reply T) (what : string) : Tool T :=
  match reply with
  | Answered (Value reply) => tool_ret reply
  | Answered (Failed s) => leave s what
  | Silent => fun s => (Blocks, s)
  end.
Definition made {T} (done : Client * Peer * Reply T) : Reply T := done.2.
Definition pong_line (reply : PingResponse) : string :=
  line ["pong"; labelled "nonce" (c_str (pings_nonce reply)); labelled "product" (c_str (pings_product reply));
        labelled "version" (c_str (pings_version reply))].
Definition query_line (reply : QueryResponse) : string :=
  line [labelled "instances" (to_string (qrys_instances reply)); labelled "staged" (to_string (qrys_staged reply));
        labelled "state_digest" (digest_hex (qrys_state_digest reply));
        labelled "durable_digest" (digest_hex (qrys_durable_digest reply))].
Definition submitted_line (reply : SubmitResponse) : string :=
  let report := subs_report reply in
  line [labelled "applied" (to_string (br_applied report)); labelled "suppressed" (to_string (br_suppressed report));
        labelled "refused" (to_string (br_refused report)); labelled "primary" (reason_to_string (br_primary report));
        labelled "state_digest" (digest_hex (subs_state_digest reply))].
Definition stopped_reply_line (reply : ShutdownResponse) : string :=
  line ["stopped"; labelled "instances" (to_string (shs_instances reply));
        labelled "state_digest" (digest_hex (shs_state_digest reply))].

Definition client_command (c : Client) (peer : Peer) (operation : string) (arguments : list string) : Tool Z :=
  if bool_decide (operation = "ping") then
    do reply <- call (made (client_ping c "dpufabric" peer)) "ping"; print (pong_line reply);; exits 0
  else if bool_decide (operation = "query") then
    do reply <- call (made (client_query c peer)) "query"; print (query_line reply);; exits 0
  else if bool_decide (operation = "export") then
    do reply <- call (made (client_export_state c false peer)) "export";
    print (c_str (exos_document reply) +:+ nl);; exits 0
  else if bool_decide (operation = "submit") then
    match arguments with
    | path :: _ =>
      do events <- or_leave (read_json_array FabricEvent_codec path) "events";
      do reply <- call (made (client_submit c events peer)) "submit";
      print (submitted_line reply);;
      exits (if is_refusal (br_primary (subs_report reply)) then 1 else 0)
    | [] => usage
    end
  else if bool_decide (operation = "shutdown") then
    do reply <- call (made (client_shutdown c peer)) "shutdown"; print (stopped_reply_line reply);; exits 0
  else usage.
Definition command_client (a : ToolArguments) : Tool Z :=
  do text <- required a "connect";
  match parse_endpoint text, ta_positional a with
  | Failed s, _ => leave s "connect"
  | Value (host, port), _ :: operation :: arguments =>
    do net <- network;
    match client_connect (mkClientOptions host port (co_max_frame_bytes ClientOptions_default)) (nw_connecting net) with
    | Failed s => leave s "connect"
    | Value c => client_command c (nw_connection net) operation arguments
    end
  | Value _, _ => usage
  end.

(** *** Dying at a boundary *)

(** [hard_kill]: nothing more runs; the system releases the lock of the process. *)
Definition hard_kill {A} (r : FabricRuntime) : Tool A :=
  do released <- (match rt_store r with
                  | Some store => if st_lock store then io release_lock else tool_ret tt
                  | None => tool_ret tt
                  end);
  fun s => (Killed, s).
Definition marker (boundary : string) (words : list string) : string :=
  line ("marker" :: labelled "boundary" boundary :: words).
Definition submit_events (r : FabricRuntime) (events : list FabricEvent) : Tool FabricRuntime :=
  if bool_decide (events = []) then tool_ret r
  else
    do submitted <- submit_value r events;
    match submitted with
    | (r, Failed s) => if status_ok s then tool_ret r else leave_runtime r s "submit"
    | (r, Value _) => tool_ret r
    end.
(** The [std::ofstream] that leaves half a snapshot behind. *)
Definition write_partial_snapshot (path : string) : IO unit :=
  let* opened := next_fault in
  match opened with
  | Fails _ _ => mret tt
  | Works =>
    put_file path [] ≫= fun _ =>
    let* closed := next_fault in
    put_file path (match closed with
                   | Works => bytes_of_string "partial-snapshot"
                   | Fails n _ => take n (bytes_of_string "partial-snapshot")
                   end)
  end.
Definition command_crash (a : ToolArguments) : Tool Z :=
  match arg_get a "store", arg_get a "boundary" with
  | Some directory, Some name =>
    do r <- open_runtime (store_runtime_config directory);
    do events <-
      match arg_get a "events" with
      | Some path => or_leave_runtime r (read_json_array FabricEvent_codec path) "events"
      | None => tool_ret []
      end;
    if bool_decide (name = "before-commit") then
      print (marker name [labelled "decoded" (to_string (zlen events))]);; hard_kill r
    else if bool_decide (name = "after-commit-before-ack") then
      do r <- submit_events r events;
      print (marker name [labelled "events" (to_string (zlen events))]);; hard_kill r
    else if bool_decide (name = "after-ack-before-verified-effect") then
      do r <- submit_events r events;
      print (marker name [labelled "instances" (to_string (instance_count r))]);; hard_kill r
    else if bool_decide (name = "during-rotation") then
      do r <- submit_events r events;
      do written <- io (write_partial_snapshot (join directory kSnapshotTempName));
      print (marker name []);; hard_kill r
    else if bool_decide (name = "during-shutdown") then
      do r <- submit_events r events;
      do closed <- io (close r);
      let '(r, closed) := closed in
      if negb (status_ok closed) then leave_runtime r closed "close"
      else print (marker name []);; hard_kill r
    else usage_runtime r
  | _, _ => usage
  end.

(** ** The program *)
Definition tool_main (argv : list string) : Tool Z :=
  match argv with
  | _ :: command :: _ =>
    let a := parse_arguments (tail argv) in
    if bool_decide (command = "version") then command_version
    else if bool_decide (command = "export") then command_export a
    else if bool_decide (command = "verify") then command_verify a
    else if bool_decide (command = "explain") then command_explain a
    else if bool_decide (command = "plan") then command_plan a
    else if bool_decide (command = "replay") then command_replay a
    else if bool_decide (command = "serve") then command_serve a
    else if bool_decide (command = "client") then command_client a
    else if bool_decide (command = "crash") then command_crash a
    else usage
  | _ => usage
  end.

(** ** Options *)

(** The names the commands look for. *)
Definition known_options : list string :=
  ["store"; "compact"; "instance"; "topology"; "policy"; "services"; "group"; "intent"; "dependencies";
   "generation"; "events"; "listen"; "inherited-socket"; "workers"; "max-frame"; "connect"; "boundary"].
(** Two command lines that agree on them. *)
Definition same_arguments (a b : ToolArguments) : Prop :=
  Forall (fun name => arg_get a name = arg_get b name) known_options /\ ta_positional a = ta_positional b.

#[export] Instance same_arguments_equivalence : Equivalence same_arguments.
Proof.
  constructor.
  - intros a. split; [by apply Forall_true|done].
  - intros a b [H1 H2]. split; [|done]. by apply (Forall_impl _ _ _ H1).
  - intros a b c [H1 H2] [H3 H4]. rewrite Forall_forall in H1, H3. split; [|congruence].
    apply Forall_forall. intros name Hn. by rewrite (H1 _ Hn), (H3 _ Hn).
Qed.

Ltac known_args H :=
  let Hv := fresh in let Hp := fresh in destruct H as [Hv Hp]; unfold known_options in Hv;
  repeat (rewrite Forall_cons in Hv; let Hn := fresh "Harg" in destruct Hv as [Hn Hv]);
  unfold required, arg_has, arg_number;
  repeat match goal with Harg : arg_get _ _ = _ |- _ => rewrite Harg; clear Harg end;
  rewrite ?Hp.

#[export] Instance command_export_proper : Proper (same_arguments ==> eq) command_export.
Proof. intros a b H. unfold command_export. known_args H. done. Qed.
#[export] Instance command_verify_proper : Proper (same_arguments ==> eq) command_verify.
Proof. intros a b H. unfold command_verify. known_args H. done. Qed.
#[export] Instance command_explain_proper : Proper (same_arguments ==> eq) command_explain.
Proof. intros a b H. unfold command_explain. known_args H. done. Qed.
#[export] Instance command_plan_proper : Proper (same_arguments ==> eq) command_plan.
Proof. intros a b H. unfold command_plan. known_args H. done. Qed.
#[export] Instance command_replay_proper : Proper (same_arguments ==> eq) command_replay.
Proof. intros a b H. unfold command_replay. known_args H. done. Qed.
#[export] Instance command_serve_proper : Proper (same_arguments ==> eq) command_serve.
Proof. intros a b H. unfold command_serve, make_ready, serve_options, serve_config. known_args H. done. Qed.
#[export] Instance command_client_proper : Proper (same_arguments ==> eq) command_client.
Proof. intros a b H. unfold command_client. known_args H. done. Qed.
#[export] Instance command_crash_proper : Proper (same_arguments ==> eq) command_crash.
Proof. intros a b H. unfold command_crash. known_args H. done. Qed.

Definition named (name value : string) (a : ToolArguments) : ToolArguments :=
  mkToolArguments ((name, value) :: ta_values a) (ta_positional a).
Definition positional (token : string) (a : ToolArguments) : ToolArguments :=
  mkToolArguments (ta_values a) (token :: ta_positional a).
#[export] Instance named_proper name value : Proper (same_arguments ==> same_arguments) (named name value).
Proof.
  intros a b [Hv Hp]. split; [|done]. eapply Forall_impl; [exact Hv|]. intros other Heq.
  unfold arg_get in *. cbn. by destruct (bool_decide _).
Qed.
#[export] Instance positional_proper token : Proper (same_arguments ==> same_arguments) (positional token).
Proof. intros a b [Hv Hp]. split; [exact Hv|]. cbn. by rewrite Hp. Qed.

Lemma parse_arguments_step token rest :
  parse_arguments (token :: rest) =
  if is_flag token then
    match split_at "="%char (flag_body token) with
    | (name, Some value) => named name value (parse_arguments rest)
    | (name, None) =>
      match rest with
      | next :: rest' => if negb (is_flag next) then named name next (parse_arguments rest')
                         else named name "" (parse_arguments rest)
      | [] => named name "" (parse_arguments [])
      end
    end
  else positional token (parse_arguments rest).
Proof. cbn [parse_arguments]. destruct (is_flag token), (split_at "="%char (flag_body token)) as [? [?|]]; try done. by destruct rest. Qed.

(** An option given with its value. *)
Definition option_token (name value : string) : string := "--" +:+ name +:+ "=" +:+ value.

Lemma option_token_flag name value : is_flag (option_token name value) = true.
Proof. unfold is_flag, option_token. by destruct name. Qed.
Lemma flag_body_dashes s : flag_body ("--" +:+ s) = s.
Proof.
  unfold flag_body. change ("--" +:+ s) with (String "-" (String "-" s)). cbn [String.length String.substring].
  replace (S (S (String.length s)) - 2)%nat with (String.length s) by lia. by apply substring_all.
Qed.
Definition plain (name : string) : bool := str_forall (fun c => negb (bool_decide (c = "="%char))) name.
Lemma option_token_body name value :
  plain name = true -> split_at "="%char (flag_body (option_token name value)) = (name, Some value).
Proof. intros Hn. unfold option_token. rewrite flag_body_dashes. by apply split_at_app. Qed.

(** An option no command looks for changes nothing. *)
Lemma named_unknown name value a : name ∉ known_options -> same_arguments (named name value a) a.
Proof.
  intros Hn. split; [|done]. apply Forall_forall. intros other Hother. unfold arg_get. cbn.
  rewrite bool_decide_false; [done|]. intros Heq. by rewrite <- Heq in Hother.
Qed.

Lemma parse_arguments_ignores name value : plain name = true -> name ∉ known_options ->
  forall tokens, same_arguments (parse_arguments (tokens ++ [option_token name value])) (parse_arguments tokens).
Proof.
  intros Hplain Hname.
  assert (Hlast : same_arguments (parse_arguments [option_token name value]) (parse_arguments [])).
  { rewrite parse_arguments_step, option_token_flag, option_token_body by done. by apply named_unknown. }
  intros tokens. induction tokens as [tokens IH] using (induction_ltof1 _ length). unfold ltof in IH.
  destruct tokens as [|token rest]; [exact Hlast|]. cbn [app].
  rewrite !parse_arguments_step. destruct (is_flag token).
  - destruct (split_at _ _) as [key [own|]].
    + apply named_proper, IH. cbn. lia.
    + destruct rest as [|next rest']; cbn [app].
      * rewrite option_token_flag. cbn [negb]. by apply named_proper.
      * destruct (negb (is_flag next)); apply named_proper.
        -- apply IH. cbn. lia.
        -- apply (IH (next :: rest')). cbn. lia.
  - apply positional_proper, IH. cbn. lia.
Qed.

Lemma tool_main_ignores argv name value :
  plain name = true -> name ∉ known_options -> (2 <= length argv)%nat ->
  tool_main (argv ++ [option_token name value]) = tool_main argv.
Proof.
  intros Hplain Hname Hlen. destruct argv as [|program [|command rest]]; [cbn in Hlen; lia..|].
  pose proof (parse_arguments_ignores name value Hplain Hname (command :: rest)) as H.
  cbn [app] in H |- *. unfold tool_main. cbn [tail].
  repeat (destruct (bool_decide _); [first [rewrite H; reflexivity | reflexivity]|]). reflexivity.
Qed.

(** An option no command knows is accepted and ignored, wherever the command line
    stands: adding [--name=value] to any command that has been named changes neither what it does
    to the world, nor what it prints, nor how it exits. *)
Theorem unknown_option_ignored argv name value s :
  plain name = true -> name ∉ known_options -> (2 <= length argv)%nat ->
  tool_main (argv ++ [option_token name value]) s = tool_main argv s.
Proof.
  intros Hplain Hname Hlen. by rewrite (tool_main_ignores argv name value Hplain Hname Hlen).
Qed.

Definition quiet_network : Network := mkNetwork Status_success (Value 8080) [] Status_success (mkPeer [] [] []).
Definition fresh_tool (w : World) : ToolState := mkToolState w quiet_network "" "".
Lemma unknown_option_ignored_witness :
  tool_main ["dpufabric"; "version"; "--storee=/s"] (fresh_tool damaged_world) =
  tool_main ["dpufabric"; "version"] (fresh_tool damaged_world).
Proof.
  apply (unknown_option_ignored ["dpufabric"; "version"] "storee" "/s"); [reflexivity| |cbn; lia].
  apply (bool_decide_unpack _). reflexivity.
Defined.

(** ** Verifying a damaged store *)

Lemma tool_bind_goes {A B} (e : Tool A) (k : A -> Tool B) s x s' : e s = (Goes x, s') -> tool_bind e k s = k x s'.
Proof. unfold tool_bind. by intros ->. Qed.
Lemma io_result_goes {A} (e : IO (option A)) s x w :
  e (ts_world s) = (Some x, w) -> io_result e s = (Goes x, s <| ts_world := w |>).
Proof. unfold io_result. by intros ->. Qed.

(** C17. Verifying a store that cannot be loaded destroys it: [dpufabric verify --store DIR],
    a command for looking at a store, reports the refusal and exits with 1, and what it
    leaves behind is an empty journal and the snapshot of an empty state. *)
Theorem verify_erases_refused_store directory w net s w1 s' loaded w2 status :
  is_flag directory = false ->
  let o := store_options (store_runtime_config directory) directory in
  store_open o w = (Value s, w1) ->
  store_load s w1 = (s', loaded, w2) -> ld_result loaded = Failed status -> w_faults w2 = [] ->
  let ended := tool_main ["dpufabric"; "verify"; "--store"; directory] (mkToolState w net "" "") in
  ended.1 = Exits 1 /\
  ts_out ended.2 = line ["classification=refused"; labelled "code" (reason_to_string (status_code status));
                        labelled "detail" (c_str (status_detail status))] /\
  holds_only o (initial_state "dpufabric-store" "dpufabric-coordinator" 1 1) (w_files (ts_world ended.2)).
Proof.
  intros Hflag o Hopen Hload Hfailed Hfaults.
  destruct (refused_open_erases_store (store_runtime_config directory) directory w s w1 s' loaded w2 status)
    as [Hrun Hleft]; [by vm_compute|done..|by vm_compute|].
  change (tool_main ["dpufabric"; "verify"; "--store"; directory])
    with (command_verify (parse_arguments ["verify"; "--store"; directory])).
  assert (Hargs : parse_arguments ["verify"; "--store"; directory] = mkToolArguments [("store", directory)] ["verify"]).
  { rewrite !parse_arguments_step. change (is_flag "verify") with false. change (is_flag "--store") with true.
    by rewrite Hflag. }
  rewrite Hargs. unfold command_verify, required. change (arg_get _ "store") with (Some directory).
  destruct (runtime_open (store_runtime_config directory) w) as [result w3] eqn:Hopened. cbn [fst] in Hrun.
  subst result.
  erewrite tool_bind_goes by reflexivity.
  erewrite tool_bind_goes by (apply io_result_goes; exact Hopened). by split; [|split].
Qed.

Definition tool_damaged_world : World :=
  let o := store_options (store_runtime_config "/s") "/s" in
  mkWorld {["/s/fabric.journal" := <[47%nat := 0]> (event_frame o [1; 2]) ++ event_frame o [3]]} ["/s"] false [].
Definition tool_damaged_open : Result Store * World :=
  store_open (store_options (store_runtime_config "/s") "/s") tool_damaged_world.
Definition tool_damaged_store : Store :=
  value_or tool_damaged_open.1 (mkStore StoreOptions_default StoreRecovery_default None false 0 0 true).
Definition tool_damaged_load : Store * Loaded * World := store_load tool_damaged_store tool_damaged_open.2.
Lemma verify_erases_refused_store_witness :
  let o := store_options (store_runtime_config "/s") "/s" in
  let ended := tool_main ["dpufabric"; "verify"; "--store"; "/s"] (fresh_tool tool_damaged_world) in
  ended.1 = Exits 1 /\
  ts_out ended.2 = line ["classification=refused"; labelled "code" (reason_to_string ReasonCode.StoreIntegrityFailure);
                        labelled "detail" (c_str "frame digest mismatch")] /\
  holds_only o (initial_state "dpufabric-store" "dpufabric-coordinator" 1 1) (w_files (ts_world ended.2)).
Proof.
  apply (verify_erases_refused_store "/s" tool_damaged_world quiet_network tool_damaged_store tool_damaged_open.2
    tool_damaged_load.1.1 tool_damaged_load.1.2 tool_damaged_load.2
    (refuse ReasonCode.StoreIntegrityFailure "frame digest mismatch")).
  - reflexivity.
  - vm_compute. reflexivity.
  - vm_compute. reflexivity.
  - vm_compute. reflexivity.
  - vm_compute. reflexivity.
Defined.
